(* ===== verification/_CoqProject ===== *)
-Q . S2P
Prelude.v
Bytes.v
World.v
Block.v
Layout.v
Fs.v
FsCache.v
FsBlocks.v
FsFiles.v
FileState.v
FsInodes.v
Volume.v
Format.v
Dir.v
Filedescriptor.v
FdPool.v
Sfs.v
DirSpec.v
DirLink.v
Testbed.v
SfsMutex.v
FormatSpec.v
FormatIndex.v
SfsFiles.v
FsTheorems.v
AllocTheorems.v
FileTheorems.v
InodeTheorems.v
FsSafety.v
FdTheorems.v
FdTest.v
SfsTheorems.v
DirTheorems.v
HandlerTheorems.v
CreateTheorems.v
DeleteTheorems.v
OpendirTheorems.v
FormatTheorems.v
MountTheorems.v
VfsSpec.v
Paths.v
VfsInvariant.v
Represents.v
HoldsOps.v
HoldsIo.v
System.v
SystemErrors.v
Refinement.v
SystemTheorems.v
Steps.v
Concurrency.v
Log.v
LogTheorems.v
Tokens.v
TokensTheorems.v
Main.v
