(* ===== verification/Prelude.v ===== *)
(** * sfs: a verification development for the sfs FUSE file system

    sfs stores one directory of files in a disk file of 512-byte blocks and is
    mounted through libfuse.  The program, bottom up, and the files of this
    development that hold each part:

    - block.c reads and writes a block ([Block.v]) of the disk file, which with
      the clock and [malloc] is the [world] of [World.v];
    - fs.h and dir.h lay the superblock, the inodes and the directory entries
      out in blocks ([Layout.v], on the codecs of [Bytes.v]);
    - fs.c keeps the superblock in memory and one block of inodes in a
      write-back cache; its operations on inodes, on free blocks, on free
      inodes and on the blocks of a file are in [Fs.v], formatting and opening
      a disk in [Format.v];
    - dir.c iterates over the entries of a directory, links and unlinks names
      ([Dir.v]);
    - filedescriptor.c hands out the numbers of open files from slabs
      ([Filedescriptor.v]); filedescriptor_test.c, its test, is in [FdTest.v];
    - sfs.c has the FUSE operations, which run under one mutex (mkdir and rmdir
      do nothing and take none), and the table of them, [sfs_oper] ([Sfs.v]);
      its [main], which takes the disk file from the command line and enters
      libfuse with the table, is in [Main.v]; its functions that cut a path into tokens,
      which nothing calls, are in [Tokens.v], on a heap of their own;
    - log.c and log.h print messages and dumps of structures ([Log.v]).

    A C function is a transition of the state it works on: [M S A] is
    [S → outcome S A], and an outcome is a result with a new state, or a crash:
    a failed [assert], undefined behaviour (an access outside an object, a
    null pointer), a lock that is never granted, a loop that is never left.
    The state of block.c is [world]; of fs.c and dir.c [filesystem] (struct
    filesystem: disk, superblock, cache); of filedescriptor.c [pool]; of sfs.c
    [sfs_state].  A caller runs a callee on its part of the state with [zoom]
    ([at_disk], [at_fs], [at_pool], [at_world]).  Indexing an array of C is
    [access_], which crashes when the index is outside it.  An early return is
    [return_if c with v]; a C loop is [for_range], or [while_true] with fuel,
    which crashes with [Diverges] when the fuel ends.  Integers are [Z] with
    the wrap-around of C's types written out ([u32], [u64], [int32], [int64]).

    What the program cannot decide is a parameter, the class [Env]: the outcome
    of each [pread], [pwrite], [malloc], [strdup] and [time], the caller's ids, and what
    uninitialised and freed memory holds.  A theorem that needs more says so by
    a class: [ReliableIO] (the calls succeed inside the disk file),
    [ReliableMalloc] (there is always memory), [EnvOk] (blocks of memory have their size, [asctime]
    works), [IdsOk] (ids have 32 bits).  [demo_env] of [Testbed.v] has them all.

    ** The specifications

    [FsCache.v] maps a [filesystem] to an abstract one, [abs]: superblock,
    table of inodes, data blocks, with no cache; [≡] on abstract states is
    equality of what the operations can see.  [fs_ok] is the invariant of the
    concrete state.  [FsBlocks.v]: [is_free a F], the free blocks are [F].
    [FsInodes.v]: [free_inodes a L last].  [FsFiles.v]: [file_wf] and
    [file_block], a file as an array of 76 blocks.  [FileState.v]:
    [file_state fs inode F], what holds of a file between operations;
    [others_kept], that every other file is left alone.  [DirSpec.v],
    [DirLink.v]: [dir_state], a directory as an array of entries; [live] and
    [dir_entry_at] are what it holds.  [FdPool.v]: [pool_ok p L], the free
    slots are [L].  [FormatSpec.v], [FormatIndex.v]: the geometry of a disk of
    N blocks, and the table and the index that formatting writes.
    [SfsFiles.v], [SfsTheorems.v]: [open_at], a descriptor open for a file.
    [DirTheorems.v]: [rooted], a mounted file system with its root directory.

    For the whole program there is an executable specification, [VfsSpec.v]: a
    [vfs] is a directory of names, files that are strings of bytes, open
    descriptors, and the attributes of "/".  Requests carry paths, lists of
    names; [resolve] says what a path stands for: "/", a name in it, or an
    error.  [vfs_step] answers a request, where it says anything about it (files
    of at most 12 blocks; transfers from the start, of whole blocks or of a part
    of one), errors included; [serve] is the handler that the table [sfs_oper]
    has for the request.  [Paths.v]: how the handlers take paths apart.
    [VfsInvariant.v]: [v_wf], its invariant.  [Volume.v]: [volume fs F T L
    last], a disk with the files [T], the free blocks [F] and the free inodes
    [L], none of which overlap.  [Represents.v]: [holds v fs root F T last], the
    disk holds [v]; [HoldsOps.v] and [HoldsIo.v] show which operations keep
    that.  [System.v]: [sim v s], the state [s] of the program stands for [v],
    kept by the requests that succeed; [SystemErrors.v]: by those that are
    refused; [Refinement.v]: [sim_step], by every request, and [sim_run].
    [Steps.v]: the sequence of steps of each handler, derived from its definition
    in [Sfs.v], with the place of each [lock] and unlock.  [Concurrency.v]:
    [step], threads that call handlers, take their steps one by one in any
    interleaving, and return.

    ** The theorems

    - [FsTheorems.v]: reads and writes of inodes through the cache refine a
      plain table; what I/O errors and the uninitialised cache do.
    - [AllocTheorems.v], [InodeTheorems.v]: the allocators conserve blocks,
      fail only when nothing is free, give back what they took; what
      deallocation forgets, and the end of the list of free inodes.
    - [FileTheorems.v]: the blocks of a file refine an array; files do not
      disturb each other; the errors.
    - [FsSafety.v]: no outcome of the I/O calls crashes the operations.
    - [FdTheorems.v], [FdTest.v]: open descriptors stay valid; the test passes.
    - [SfsMutex.v]: the handlers give the mutex back, [sfs_opendir] not always.
    - [SfsTheorems.v]: what [sfs_write] writes [sfs_read] returns; transfers
      that do not start at block 0 or do not end with a block go wrong.
    - [DirTheorems.v], [HandlerTheorems.v], [CreateTheorems.v],
      [DeleteTheorems.v], [OpendirTheorems.v]: lookup, readdir, getattr, open
      and release, unlink with other links and of the last one, create, opendir
      and releasedir.
    - [FormatTheorems.v]: what formatting does for every size of the disk.
    - [MountTheorems.v]: mounting, mounting again, and the whole path: files
      written to a fresh disk are there after it is mounted again.

    - [SystemTheorems.v]: from a fresh disk on, every sequence of requests that
      the specification answers is answered alike; the disk stays consistent;
      the link counts of files count the references; what was written stays
      until it is written again or removed; the errors that the specification
      knows change nothing.
    - [Concurrency.v]: handlers called by several threads take effect one after
      the other, in an order that keeps that of the calls which do not overlap;
      for requests that the specification answers, every thread returns.
    - [LogTheorems.v]: an inode in the log can be read back.
    - [TokensTheorems.v]: which names [createTokens] finds, and that it
      overflows the objects of long names; its list cannot be freed.
    - [Main.v]: what [main] does for every command line.

    Each theorem with hypotheses has a witness, on the file system of ten
    blocks of [Testbed.v] or on an empty disk of 70 blocks.

    ** Fuel

    [search_fuel], [iternext_fuel]: two more than the blocks of the directory,
    of which each turn leaves one behind, so the loops end ([dir_search_finds_first]).  [opendir_fuel] is 154, more than
    two turns for each of 76 blocks.  [free_block_fuel]: two more than the
    blocks of the disk, and the index has no block twice ([free_block_succeeds]).
    [allocate_rec] of [Filedescriptor.v] calls itself once at most, after the
    pool has grown ([allocate_gives_unused_descriptor]).

    [printTokens] and [freeTokens] have one more than the objects of the heap,
    more than a list in it has nodes.  [digits] of [Log.v] has 64, as many as a
    number of 64 bits has in base 2.

    ** Not modelled

    Where the handlers write to the log: it changes nothing that they read.
    fuse.h is libfuse's, and [fuse_main] a parameter of [main].  Handlers are
    transitions; one that finds the mutex taken crashes with [Deadlock] when it
    is alone.  In [Concurrency.v], where taking the mutex is a step that has to
    wait, a step is a call that a handler makes of another part of the program;
    mounting and unmounting, which come before the first request and after the
    last, have no thread there.  [pthread_mutex_lock] and [unlock] do not fail.
    Transfers that do not start at the start of a file are modelled and their
    faults proved ([transfer_behind_start_overflows]), but the specification of
    the whole program does not answer them, since they use the caller's buffer
    wrongly, nor a descriptor after it was closed, whose slot holds a pointer that the
    program takes for an inode number.  After [sfs_destroy] the C field [fs] dangles; the model keeps the
    disk only, since no handler runs after it.  [Makefile.am] and the example
    program are not part of the file system. *)

From Stdlib Require Export ZArith Lia.
From stdpp Require Export base tactics numbers list list_numbers option gmap.

#[global] Set Default Goal Selector "!".

Create HintDb sfs.
Create Rewrite HintDb sfs.

Declare Scope sfs_scope.
Delimit Scope sfs_scope with sfs.
#[global] Open Scope sfs_scope.
#[global] Open Scope Z_scope.

(** ** Machine integers

    C's fixed-width integers are carried as [Z] with the wrap-around of every
    arithmetic operation written at the operation. *)
Definition u32 (z : Z) : Z := z `mod` 2 ^ 32.
Definition u64 (z : Z) : Z := z `mod` 2 ^ 64.

(** Conversion to a signed 32-bit [int] (two's complement, as gcc defines it). *)
Definition int32 (z : Z) : Z := (z + 2 ^ 31) `mod` 2 ^ 32 - 2 ^ 31.

(** Conversion to a signed 64-bit [off_t]. *)
Definition int64 (z : Z) : Z := (z + 2 ^ 63) `mod` 2 ^ 64 - 2 ^ 63.

(** Linear arithmetic with quotients and remainders by constants. *)
Ltac div_lia := Z.div_mod_to_equations; lia.

(** ** The C monad

    A C function is a transition of a state [S] that either returns a value
    or stops the process: a failed [assert], an access outside an object, a
    lock that can never be granted, a loop that never ends. *)
Inductive crash :=
  | AssertFailed
  | UndefinedBehaviour
  | Deadlock
  | Diverges.

Inductive outcome (S A : Type) :=
  | Done (a : A) (s : S)
  | Crash (c : crash).
Arguments Done {S A} a s.
Arguments Crash {S A} c.

Definition M (S A : Type) : Type := S → outcome S A.

#[export] Instance crash_eq_dec : EqDecision crash.
Proof. solve_decision. Defined.

#[export] Instance M_ret S : MRet (M S) := λ A a s, Done a s.
#[export] Instance M_bind S : MBind (M S) := λ A B f m s,
  match m s with
  | Done a s' => f a s'
  | Crash c => Crash c
  end.

Definition get {S} : M S S := λ s, Done s s.
Definition put {S} (s : S) : M S () := λ _, Done tt s.
Definition modify {S} (f : S → S) : M S () := λ s, Done tt (f s).
Definition crash_with {S A} (c : crash) : M S A := λ _, Crash c.

(** C's [assert(b)]. *)
Definition assert_ {S} (b : bool) : M S () :=
  if b then mret tt else crash_with AssertFailed.

(** An access to memory is undefined outside the object. *)
Definition access_ {S} (inside : bool) : M S () :=
  if inside then mret tt else crash_with UndefinedBehaviour.

(** A function of a part of the state, run on the whole. *)
Definition zoom {S T A} (proj : S → T) (upd : T → S → S) (m : M T A) : M S A := λ s,
  match m (proj s) with
  | Done a t => Done a (upd t s)
  | Crash c => Crash c
  end.

(** [if (c) return r;] followed by the rest of the function. *)
Notation "'return_if' c 'with' r ; k" := (if c then mret r else k)
  (at level 20, c at level 100, r at level 100, k at level 200,
   format "'return_if'  c  'with'  r ; '/' k") : sfs_scope.

(** ** Loops

    A loop body continues with new values of the loop's variables, breaks out
    of the loop, or returns from the enclosing function. *)
Inductive ctl (A R : Type) :=
  | Continue (a : A)
  | Break (a : A)
  | Return (r : R).
Arguments Continue {A R} a.
Arguments Break {A R} a.
Arguments Return {A R} r.

Section loops.
  Context {S A R : Type}.

Fixpoint for_up (n : nat) (i : Z) (acc : A)
    (body : Z → A → M S (ctl A R)) : M S (A + R) :=
  match n with
  | O => mret (inl acc)
  | Datatypes.S n' =>
      c ← body i acc;
      match c with
      | Continue a => for_up n' (i + 1) a body
      | Break a => mret (inl a)
      | Return r => mret (inr r)
      end
  end.

(** [for (i = lo; i < hi; ++i) body], with [lo] and [hi] fixed in the loop. *)
Definition for_range (lo hi : Z) (acc : A)
    (body : Z → A → M S (ctl A R)) : M S (A + R) :=
  for_up (Z.to_nat (hi - lo)) lo acc body.

(** [while (true) body], with fuel; running out of it is [Diverges]. *)
Fixpoint while_true (fuel : nat) (acc : A)
    (body : A → M S (ctl A R)) : M S (A + R) :=
  match fuel with
  | O => crash_with Diverges
  | Datatypes.S n' =>
      c ← body acc;
      match c with
      | Continue a => while_true n' a body
      | Break a => mret (inl a)
      | Return r => mret (inr r)
      end
  end.

End loops.

(** ** Weakest preconditions

    [wp m s Q]: from [s] the function [m] does return (no crash), and its
    value and final state satisfy [Q]. *)
Definition wp {S A} (m : M S A) (s : S) (Q : A → S → Prop) : Prop :=
  match m s with
  | Done a s' => Q a s'
  | Crash _ => False
  end.

Section wp.
  Context {S : Type}.
  Implicit Types s : S.

Lemma wp_iff {A} (m : M S A) s Q :
  wp m s Q ↔ ∃ a s', m s = Done a s' ∧ Q a s'.
Proof.
  unfold wp. destruct (m s) as [a s'|c]; split.
  - intros HQ. by exists a, s'.
  - by intros (? & ? & [= <- <-] & HQ).
  - done.
  - by intros (? & ? & ? & HQ).
Qed.

Lemma wp_done {A} (m : M S A) s a s' Q :
  m s = Done a s' → Q a s' → wp m s Q.
Proof. unfold wp. by intros ->. Qed.

Lemma wp_ret {A} (a : A) s (Q : A → S → Prop) : Q a s → wp (mret a) s Q.
Proof. done. Qed.

Lemma wp_bind {A B} (m : M S A) (f : A → M S B) s Q :
  wp m s (λ a s', wp (f a) s' Q) → wp (m ≫= f) s Q.
Proof. unfold wp, mbind, M_bind. by destruct (m s). Qed.

Lemma wp_mono {A} (m : M S A) s (P Q : A → S → Prop) :
  wp m s P → (∀ a s', P a s' → Q a s') → wp m s Q.
Proof. unfold wp. destruct (m s); [auto|done]. Qed.

Lemma wp_bind_mono {A B} (m : M S A) (f : A → M S B) s P Q :
  wp m s P → (∀ a s', P a s' → wp (f a) s' Q) → wp (m ≫= f) s Q.
Proof. intros Hm Hf. apply wp_bind. by eapply wp_mono. Qed.

Lemma wp_get s (Q : S → S → Prop) : Q s s → wp get s Q.
Proof. done. Qed.

Lemma wp_put s s' (Q : () → S → Prop) : Q tt s' → wp (put s') s Q.
Proof. done. Qed.

Lemma wp_modify f s (Q : () → S → Prop) : Q tt (f s) → wp (modify f) s Q.
Proof. done. Qed.

Lemma wp_assert (b : bool) s (Q : () → S → Prop) :
  b = true → Q tt s → wp (assert_ b) s Q.
Proof. by intros ->. Qed.

Lemma wp_zoom {T A} proj upd (m : M T A) s Q :
  wp m (proj s) (λ a t, Q a (upd t s)) → wp (zoom proj upd m) s Q.
Proof. unfold wp, zoom. by destruct (m (proj s)). Qed.

Lemma bind_done {A B} (m : M S A) (f : A → M S B) s a s' :
  m s = Done a s' → (m ≫= f) s = f a s'.
Proof. unfold mbind, M_bind. by intros ->. Qed.

Lemma bind_crash {A B} (m : M S A) (f : A → M S B) s c :
  m s = Crash c → (m ≫= f) s = Crash c.
Proof. unfold mbind, M_bind. by intros ->. Qed.

Lemma bind_assoc {A B C} (m : M S A) (f : A → M S B) (g : B → M S C) s :
  ((m ≫= f) ≫= g) s = (m ≫= λ a, f a ≫= g) s.
Proof. unfold mbind, M_bind. by destruct (m s). Qed.

Lemma bind_ret {A B} (a : A) (f : A → M S B) s : (mret a ≫= f) s = f a s.
Proof. done. Qed.

Lemma bind_get {B} (f : S → M S B) s : (get ≫= f) s = f s s.
Proof. done. Qed.

Lemma bind_put {B} s' (f : () → M S B) s : (put s' ≫= f) s = f tt s'.
Proof. done. Qed.

Lemma bind_modify {B} h (f : () → M S B) s : (modify h ≫= f) s = f tt (h s).
Proof. done. Qed.

Lemma bind_assert {B} (b : bool) (f : () → M S B) s :
  b = true → (assert_ b ≫= f) s = f tt s.
Proof. by intros ->. Qed.

Lemma bind_access {B} (b : bool) (f : () → M S B) s :
  b = true → (access_ b ≫= f) s = f tt s.
Proof. by intros ->. Qed.

(** The loop rules: an invariant of the position and the loop's variables. *)
Lemma wp_for_up {A R} (I : Z → A → S → Prop) (n : nat) i acc
    (body : Z → A → M S (ctl A R)) s (Q : A + R → S → Prop) :
  I i acc s →
  (∀ j a s, i ≤ j < i + Z.of_nat n → I j a s →
     wp (body j a) s (λ c s', match c with
                              | Continue a' => I (j + 1) a' s'
                              | Break a' => Q (inl a') s'
                              | Return r => Q (inr r) s'
                              end)) →
  (∀ a s, I (i + Z.of_nat n) a s → Q (inl a) s) →
  wp (for_up n i acc body) s Q.
Proof.
  revert i acc s. induction n as [|n IH]; intros i acc s HI Hbody Hend; simpl.
  - apply wp_ret, Hend. by replace (i + Z.of_nat 0) with i by lia.
  - eapply wp_bind_mono; [apply Hbody; [lia|done]|].
    intros [a|a|r] s' H; simpl; [|by apply wp_ret..].
    apply IH; [done| |].
    + intros j b t Hj. apply Hbody. lia.
    + intros b t Ht. apply Hend.
      by replace (i + Z.of_nat (Datatypes.S n)) with (i + 1 + Z.of_nat n) by lia.
Qed.

Lemma wp_for_range {A R} (I : Z → A → S → Prop) lo hi acc
    (body : Z → A → M S (ctl A R)) s (Q : A + R → S → Prop) :
  lo ≤ hi →
  I lo acc s →
  (∀ j a s, lo ≤ j < hi → I j a s →
     wp (body j a) s (λ c s', match c with
                              | Continue a' => I (j + 1) a' s'
                              | Break a' => Q (inl a') s'
                              | Return r => Q (inr r) s'
                              end)) →
  (∀ a s, I hi a s → Q (inl a) s) →
  wp (for_range lo hi acc body) s Q.
Proof.
  intros Hle HI Hbody Hend. apply (wp_for_up I); [done| |].
  - intros j a t Hj. apply Hbody. lia.
  - intros a t. replace (lo + Z.of_nat (Z.to_nat (hi - lo))) with hi by lia. apply Hend.
Qed.

(** An invariant indexed by a measure that every [Continue] decreases: the
    measure bounds the fuel. *)
Lemma wp_while_true {A R} (I : nat → A → S → Prop) n fuel acc
    (body : A → M S (ctl A R)) s (Q : A + R → S → Prop) :
  (n < fuel)%nat →
  I n acc s →
  (∀ n a s, I n a s →
     wp (body a) s (λ c s', match c with
                            | Continue a' => ∃ n', (n' < n)%nat ∧ I n' a' s'
                            | Break a' => Q (inl a') s'
                            | Return r => Q (inr r) s'
                            end)) →
  wp (while_true fuel acc body) s Q.
Proof.
  intros Hn HI Hbody. revert n acc s Hn HI.
  induction fuel as [|fuel IH]; intros n acc s Hn HI; [lia|]; simpl.
  eapply wp_bind_mono; [by eapply Hbody|].
  intros [a|a|r] s' H; simpl; [|by apply wp_ret..].
  destruct H as (n' & ? & ?). eapply IH; [|done]. lia.
Qed.

End wp.

(** From a specification back to equations. *)
Lemma wp_done_inv {S A} (m : M S A) s a s' Q : wp m s Q → m s = Done a s' → Q a s'.
Proof. unfold wp. intros HQ E. by rewrite E in HQ. Qed.

Lemma wp_pair {S A B} (m : M S (A * B)) s (Q : A → B → S → Prop) :
  wp m s (λ '(a, b), Q a b) → ∃ a b s', m s = Done (a, b) s' ∧ Q a b s'.
Proof. intros ([a b] & s' & ? & ?)%wp_iff. by exists a, b, s'. Qed.

(** Runs the pure steps at the head of a function. *)
Ltac run :=
  repeat first
    [ rewrite bind_assoc | rewrite bind_ret | rewrite bind_get
    | rewrite bind_put | rewrite bind_modify ]; simpl.

(** Runs the function at the head, whose equation [tac] proves. *)
Tactic Notation "run" "by" tactic3(tac) := run; erewrite bind_done by tac; run.

(** The goal [wp (m ≫= f) s Q] with a known specification of [m]. *)
Ltac wp_apply lem := eapply wp_bind_mono; [eapply lem|].
Ltac wp_pure :=
  repeat (cbv beta;
    match goal with
    | |- wp (@mret _ _ _ _) _ _ => apply wp_ret
    | |- wp (@mbind _ _ _ _ _ (@get _)) _ _ => apply wp_bind, wp_get
    | |- wp (@mbind _ _ _ _ _ (@put _ _)) _ _ => apply wp_bind, wp_put
    | |- wp (@mbind _ _ _ _ _ (@modify _ _)) _ _ => apply wp_bind, wp_modify
    | |- wp (@mbind _ _ _ _ _ (@assert_ _ true)) _ _ => apply wp_bind, wp_assert; [done|]
    | |- wp (@mbind _ _ _ _ _ (@access_ _ true)) _ _ => apply wp_bind, wp_ret
    | |- wp (@mbind _ _ _ _ _ (@mret _ _ _ _)) _ _ => apply wp_bind, wp_ret
    | |- wp (@mbind _ _ _ _ _ (@mbind _ _ _ _ _ _)) _ _ => apply wp_bind
    end); cbv beta.
