(* ===== verification/Bytes.v ===== *)
(** * Bytes, slices of memory, and the layout of C structs

    A C object is the list of its bytes.  [slice] and [splice] read and
    overwrite a range of an object; a [codec] says how a C type is laid out in
    its bytes (the machine is little-endian, the byte order of the systems the
    program targets), and [get_at]/[set_at] are the accesses [arr[i]] and
    [arr[i] = v] to an array of such objects inside a larger one, as the
    program makes with its casts of [sfs_block_t] buffers. *)

From S2P Require Export Prelude.
From coqutil Require Byte Word.LittleEndianList.

Abbreviation byte := Corelib.Init.Byte.byte.
Abbreviation x00 := Corelib.Init.Byte.x00.

#[export] Instance byte_eq_dec : EqDecision byte := Byte.byte_eq_dec.

(** ** Ranges of an object *)
Section slices.
  Context {A : Type}.
  Implicit Types l new : list A.

Definition slice (off n : nat) (l : list A) : list A := take n (drop off l).

Definition splice (off : nat) (new l : list A) : list A :=
  take off l ++ new ++ drop (off + length new) l.

Lemma length_slice off n l :
  (off + n ≤ length l)%nat → length (slice off n l) = n.
Proof. intros. unfold slice. rewrite length_take, length_drop. lia. Qed.

Lemma length_splice off new l :
  (off + length new ≤ length l)%nat → length (splice off new l) = length l.
Proof.
  intros. unfold splice.
  rewrite !length_app, length_take, length_drop. lia.
Qed.

Lemma slice_splice_eq off new l :
  (off + length new ≤ length l)%nat → slice off (length new) (splice off new l) = new.
Proof.
  intros. unfold slice, splice.
  rewrite drop_app_length' by (rewrite length_take; lia).
  by rewrite take_app_length.
Qed.

Lemma lookup_splice_out off new l i :
  (off + length new ≤ length l)%nat → (i < off ∨ off + length new ≤ i)%nat →
  splice off new l !! i = l !! i.
Proof.
  intros Hlen Hi. unfold splice. destruct (decide (i < off)%nat).
  - rewrite lookup_app_l by (rewrite length_take; lia).
    by rewrite lookup_take_lt.
  - rewrite lookup_app_r by (rewrite length_take; lia).
    rewrite length_take, Nat.min_l by lia.
    rewrite lookup_app_r by lia. rewrite lookup_drop. f_equal. lia.
Qed.

Lemma slice_ext off n l l' :
  (∀ i, (off ≤ i < off + n)%nat → l !! i = l' !! i) → slice off n l = slice off n l'.
Proof.
  intros H. apply list_eq. intros i. unfold slice.
  destruct (decide (i < n)%nat).
  - rewrite !lookup_take_lt, !lookup_drop by done. apply H. lia.
  - by rewrite !lookup_take_ge by lia.
Qed.

Lemma slice_splice_ne off n off' new l :
  (off' + length new ≤ length l)%nat →
  (off + n ≤ off' ∨ off' + length new ≤ off)%nat →
  slice off n (splice off' new l) = slice off n l.
Proof. intros. apply slice_ext. intros. apply lookup_splice_out; lia. Qed.

Lemma splice_slice off n l :
  (off + n ≤ length l)%nat → splice off (slice off n l) l = l.
Proof.
  intros. unfold splice. rewrite length_slice by done. unfold slice.
  rewrite <-drop_drop, take_drop. apply take_drop.
Qed.

Lemma splice_all new l : length new = length l → splice 0 new l = new.
Proof.
  intros. unfold splice. rewrite take_0, drop_ge by (simpl; lia).
  simpl. apply app_nil_r.
Qed.

Lemma splice_front new l : splice 0 new l = new ++ drop (length new) l.
Proof. done. Qed.

Lemma slice_app_l n (l1 l2 : list A) : length l1 = n → slice 0 n (l1 ++ l2) = l1.
Proof. intros <-. unfold slice. by rewrite drop_0, take_app_length. Qed.

Lemma slice_app_r n m (l1 l2 : list A) :
  length l1 = n → length l2 = m → slice n m (l1 ++ l2) = l2.
Proof.
  intros <- <-. unfold slice. rewrite drop_app_length. apply firstn_all.
Qed.

End slices.

#[global] Opaque splice.

(** ** Layouts *)
Record codec (A : Type) := Codec {
  c_size : nat;
  c_enc : A → list byte;
  c_dec : list byte → A;
  c_ok : A → bool;
}.
Arguments Codec {A}.
Arguments c_size {A} _.
Arguments c_enc {A} _ _.
Arguments c_dec {A} _ _.
Arguments c_ok {A} _ _.

(** A layout without padding is a bijection between the values in range and
    the byte strings of the type's size. *)
Class Lawful {A} (c : codec A) := {
  length_enc a : c_ok c a = true → length (c_enc c a) = c_size c;
  dec_enc a : c_ok c a = true → c_dec c (c_enc c a) = a;
  dec_ok bs : length bs = c_size c → c_ok c (c_dec c bs) = true;
  enc_dec bs : length bs = c_size c → c_enc c (c_dec c bs) = bs;
}.

Definition in_width (w : nat) (z : Z) : bool := (0 <=? z) && (z <? 2 ^ (8 * Z.of_nat w)).

(** Unsigned integers of [n] bytes, least significant byte first. *)
Definition uint_c (n : nat) : codec Z := {|
  c_size := n;
  c_enc := LittleEndianList.le_split n;
  c_dec := LittleEndianList.le_combine;
  c_ok := in_width n;
|}.

Definition u64_c : codec Z := uint_c 8.
Definition u32_c : codec Z := uint_c 4.

(** [char a[n]]. *)
Definition bytes_c (n : nat) : codec (list byte) := {|
  c_size := n;
  c_enc := id;
  c_dec := id;
  c_ok := λ bs, (length bs =? n)%nat;
|}.

(** Two consecutive members. *)
Definition pair_c {A B} (ca : codec A) (cb : codec B) : codec (A * B) := {|
  c_size := c_size ca + c_size cb;
  c_enc := λ p, c_enc ca p.1 ++ c_enc cb p.2;
  c_dec := λ bs, (c_dec ca (slice 0 (c_size ca) bs),
                  c_dec cb (slice (c_size ca) (c_size cb) bs));
  c_ok := λ p, c_ok ca p.1 && c_ok cb p.2;
|}.

Fixpoint array_dec {A} (n : nat) (c : codec A) (bs : list byte) : list A :=
  match n with
  | O => []
  | S n' => c_dec c (take (c_size c) bs) :: array_dec n' c (drop (c_size c) bs)
  end.

(** [T a[n]]. *)
Definition array_c {A} (n : nat) (c : codec A) : codec (list A) := {|
  c_size := n * c_size c;
  c_enc := λ l, concat (map (c_enc c) l);
  c_dec := array_dec n c;
  c_ok := λ l, (length l =? n)%nat && forallb (c_ok c) l;
|}.

(** A struct, from the layout of the tuple of its members. *)
Definition iso_c {A B} (to : A → B) (from : B → A) (c : codec B) : codec A := {|
  c_size := c_size c;
  c_enc := λ a, c_enc c (to a);
  c_dec := λ bs, from (c_dec c bs);
  c_ok := λ a, c_ok c (to a);
|}.

Lemma in_width_spec w z : in_width w z = true ↔ 0 ≤ z < 2 ^ (8 * Z.of_nat w).
Proof. unfold in_width. rewrite andb_true_iff, Z.leb_le, Z.ltb_lt. done. Qed.

#[export] Instance uint_lawful n : Lawful (uint_c n).
Proof.
  split; simpl.
  - intros. apply LittleEndianList.length_le_split.
  - intros z Hz%in_width_spec. rewrite LittleEndianList.le_combine_split.
    apply Z.mod_small. by rewrite Z.mul_comm.
  - intros bs <-. apply in_width_spec, LittleEndianList.le_combine_bound.
  - intros bs <-. apply LittleEndianList.split_le_combine.
Qed.

#[export] Instance u64_lawful : Lawful u64_c := uint_lawful 8.
#[export] Instance u32_lawful : Lawful u32_c := uint_lawful 4.

#[export] Instance bytes_lawful n : Lawful (bytes_c n).
Proof.
  split; simpl; intros bs H.
  - by apply Nat.eqb_eq.
  - done.
  - by apply Nat.eqb_eq.
  - done.
Qed.

#[export] Instance pair_lawful {A B} (ca : codec A) (cb : codec B) :
  Lawful ca → Lawful cb → Lawful (pair_c ca cb).
Proof.
  intros La Lb. split; simpl.
  - intros [a b] [??]%andb_true_iff. rewrite length_app.
    by rewrite !length_enc.
  - intros [a b] [??]%andb_true_iff; simpl in *.
    rewrite slice_app_l, slice_app_r by by apply length_enc.
    by rewrite !dec_enc.
  - intros bs Hbs. rewrite !dec_ok; [done|..]; apply length_slice; lia.
  - intros bs Hbs. rewrite !enc_dec by (apply length_slice; lia).
    unfold slice. rewrite drop_0, (take_ge (drop _ _)) by (rewrite length_drop; lia).
    apply take_drop.
Qed.

#[export] Instance array_lawful {A} n (c : codec A) : Lawful c → Lawful (array_c n c).
Proof.
  intros L. split; simpl.
  - intros l [Hn%Nat.eqb_eq Hl]%andb_true_iff. revert n Hn.
    induction l as [|a l IH]; intros n Hn; simpl in *; subst n; [done|].
    apply andb_true_iff in Hl as [??]. rewrite length_app, length_enc by done.
    by rewrite (IH ltac:(done) (length l)).
  - intros l [Hn%Nat.eqb_eq Hl]%andb_true_iff. revert n Hn.
    induction l as [|a l IH]; intros n Hn; simpl in *; subst n; [done|].
    apply andb_true_iff in Hl as [Ha ?]; simpl.
    rewrite take_app_length', drop_app_length' by (symmetry; by apply length_enc).
    by rewrite dec_enc, (IH ltac:(done) (length l)).
  - induction n as [|n IH]; intros bs Hbs; simpl in *; [done|].
    destruct (andb_prop _ _ (IH (drop (c_size c) bs) ltac:(rewrite length_drop; lia))) as [Hl Hf].
    rewrite dec_ok by (rewrite length_take; lia). rewrite Hf.
    by apply andb_true_iff.
  - induction n as [|n IH]; intros bs Hbs; simpl in *.
    + by destruct bs.
    + rewrite enc_dec by (rewrite length_take; lia).
      rewrite IH by (rewrite length_drop; lia). apply take_drop.
Qed.

Lemma iso_lawful {A B} (to : A → B) (from : B → A) (c : codec B) :
  Lawful c → (∀ a, from (to a) = a) → (∀ b, to (from b) = b) → Lawful (iso_c to from c).
Proof.
  intros L Hft Htf. split; simpl.
  - intros a. apply length_enc.
  - intros a Ha. by rewrite dec_enc.
  - intros bs Hbs. rewrite Htf. by apply dec_ok.
  - intros bs Hbs. rewrite Htf. by apply enc_dec.
Qed.

(** ** Arrays of structs inside an object *)
Section access.
  Context {A : Type} (c : codec A).

Definition get_at (i : nat) (blk : list byte) : A :=
  c_dec c (slice (i * c_size c) (c_size c) blk).

Definition set_at (i : nat) (a : A) (blk : list byte) : list byte :=
  splice (i * c_size c) (c_enc c a) blk.

  Context `{!Lawful c}.

Lemma length_set_at i a blk :
  c_ok c a = true → ((i + 1) * c_size c ≤ length blk)%nat →
  length (set_at i a blk) = length blk.
Proof.
  intros Ha Hi. unfold set_at. apply length_splice. rewrite length_enc by done. lia.
Qed.

Lemma get_set_at_eq i a blk :
  c_ok c a = true → ((i + 1) * c_size c ≤ length blk)%nat →
  get_at i (set_at i a blk) = a.
Proof.
  intros Ha Hi. unfold get_at, set_at.
  pose proof (length_enc a Ha) as Hlen. rewrite <-Hlen at 2.
  rewrite slice_splice_eq by (rewrite Hlen; lia). by apply dec_enc.
Qed.

Lemma get_set_at_ne i j a blk :
  c_ok c a = true → ((i + 1) * c_size c ≤ length blk)%nat → i ≠ j →
  get_at j (set_at i a blk) = get_at j blk.
Proof.
  intros Ha Hi Hij. unfold get_at, set_at. f_equal.
  apply slice_splice_ne; rewrite length_enc by done; [lia|].
  assert (i < j ∨ j < i)%nat as [?|?] by lia.
  - right. assert ((i + 1) * c_size c ≤ j * c_size c)%nat by (apply Nat.mul_le_mono_r; lia). lia.
  - left. assert ((j + 1) * c_size c ≤ i * c_size c)%nat by (apply Nat.mul_le_mono_r; lia). lia.
Qed.

Lemma get_at_ok i blk :
  ((i + 1) * c_size c ≤ length blk)%nat → c_ok c (get_at i blk) = true.
Proof. intros. apply dec_ok, length_slice. lia. Qed.

End access.

#[export] Hint Resolve dec_ok length_slice : sfs.
#[global] Opaque get_at set_at.
#[global] Arguments c_ok {A} _ _ : simpl never.
#[global] Arguments c_enc {A} _ _ : simpl never.
#[global] Arguments c_dec {A} _ _ : simpl never.
#[global] Arguments c_size {A} _ : simpl never.
