(* ===== verification/World.v ===== *)
(** * The process's environment: the disk file, the clock, the allocator

    What the program asks of the operating system and cannot decide itself is
    a parameter: an [Env] gives the outcome of the n-th [pread]/[pwrite], the
    n-th [time(NULL)], the n-th [malloc], the ids of the caller, and what
    uninitialised or freed memory happens to hold.  The [world] is the state
    behind those calls: the disk file and how many calls were made. *)

From S2P Require Export Bytes.

(** How an I/O call ends: as asked, with an error, or after [n] bytes. *)
Inductive io_outcome :=
  | IoOk
  | IoError
  | IoShort (n : nat).

Record world := World {
  w_size : Z;                       (* st_size of the disk file *)
  w_blocks : gmap Z (list byte);    (* its contents, 512 bytes each; absent: zeros *)
  w_ios : nat;
  w_times : nat;
  w_mallocs : nat;
}.

Class Env := {
  env_io : nat → io_outcome;
  env_clock : nat → Z;
  env_malloc : nat → bool;
  (** the [malloc]s of slabs made while the pool of descriptors grows *)
  env_slab_malloc : nat → bool;
  (** whether there is memory for a copy of a path *)
  env_strdup : world → list byte → bool;
  env_fstat_ok : bool;
  env_uid : Z;
  env_gid : Z;
  (** whether [asctime(localtime(&t))] gives a string for the time [t] *)
  env_asctime_ok : Z → bool;
  (** the indeterminate [dirty] and [data] of a malloc'ed [inode_cache] *)
  env_heap_dirty : bool;
  env_heap_data : list byte;
  (** an uninitialised [sfs_block_t] on the stack *)
  env_stack_block : list byte;
  (** what the bytes of a freed object read as *)
  env_freed : list byte → list byte;
  (** the bits of a pointer into a slab of file descriptors *)
  env_pointer : option nat → Z;
}.

(** Documented behaviour of the environment the theorems may assume. *)
Class ReliableIO `{Env} := reliable_io n : env_io n = IoOk.
Class ReliableMalloc `{Env} := {
  reliable_malloc n : env_malloc n = true;
  reliable_slab_malloc n : env_slab_malloc n = true;
  reliable_strdup w path : env_strdup w path = true;
}.

Definition BLOCK_SIZE : Z := 512.
Definition zero_block : list byte := replicate 512 x00.

(** The 512 bytes of the file at block [b]. *)
Definition wblk (w : world) (b : Z) : list byte :=
  resize 512 x00 (default [] (w_blocks w !! b)).

Definition tick_io (w : world) : world :=
  World (w_size w) (w_blocks w) (S (w_ios w)) (w_times w) (w_mallocs w).

Definition set_blk (b : Z) (blk : list byte) (w : world) : world :=
  World (w_size w) (<[b := blk]> (w_blocks w)) (w_ios w) (w_times w) (w_mallocs w).

Definition set_size (z : Z) (w : world) : world :=
  World z (w_blocks w) (w_ios w) (w_times w) (w_mallocs w).

Section syscalls.
  Context `{Env}.

(** [time(NULL)], as stored in a [uint64_t]. *)
Definition time_ : M world Z := λ w,
  Done (u64 (env_clock (w_times w)))
       (World (w_size w) (w_blocks w) (w_ios w) (S (w_times w)) (w_mallocs w)).

(** [malloc(...) != NULL]. *)
Definition malloc_ : M world bool := λ w,
  Done (env_malloc (w_mallocs w))
       (World (w_size w) (w_blocks w) (w_ios w) (w_times w) (S (w_mallocs w))).

(** How many bytes an I/O call moves when [avail] could be moved. *)
Definition io_count (o : io_outcome) (avail : Z) : Z :=
  match o with
  | IoOk => avail
  | IoError => -1
  | IoShort n => Z.min (Z.of_nat n) avail
  end.

(** [pread(fd, buf, 512, off)] at a block-aligned [off] (POSIX: a negative
    offset is EINVAL; the call stops at the end of the file). *)
Definition pread (buf : list byte) (off : Z) : M world (Z * list byte) := λ w,
  let avail := Z.max 0 (Z.min BLOCK_SIZE (w_size w - off)) in
  let n := if off <? 0 then -1 else io_count (env_io (w_ios w)) avail in
  Done (n, splice 0 (take (Z.to_nat n) (wblk w (off / BLOCK_SIZE))) buf) (tick_io w).

(** [pwrite(fd, buf, 512, off)]: a write past the end extends the file. *)
Definition pwrite (buf : list byte) (off : Z) : M world Z := λ w,
  let n := if off <? 0 then -1 else io_count (env_io (w_ios w)) BLOCK_SIZE in
  let b := off / BLOCK_SIZE in
  Done n
    (if n <=? 0 then tick_io w
     else set_size (Z.max (w_size w) (off + n))
            (set_blk b (splice 0 (take (Z.to_nat n) buf) (wblk w b)) (tick_io w))).

End syscalls.

(** ** The bytes of the file under updates *)
Lemma length_wblk w b : length (wblk w b) = 512%nat.
Proof. apply length_resize. Qed.

Lemma wblk_set_eq b blk w : length blk = 512%nat → wblk (set_blk b blk w) b = blk.
Proof. intros. unfold wblk; simpl. rewrite lookup_insert_eq. by apply resize_all_alt. Qed.

Lemma wblk_set_ne b b' blk w : b ≠ b' → wblk (set_blk b blk w) b' = wblk w b'.
Proof. intros. unfold wblk; simpl. by rewrite lookup_insert_ne. Qed.

Lemma wblk_tick w b : wblk (tick_io w) b = wblk w b.
Proof. done. Qed.

Lemma w_size_tick w : w_size (tick_io w) = w_size w.
Proof. done. Qed.

Lemma w_size_set_blk b blk w : w_size (set_blk b blk w) = w_size w.
Proof. done. Qed.

(** The counters of calls do not matter. *)
Lemma wblk_ext w w' b : w_blocks w = w_blocks w' → wblk w b = wblk w' b.
Proof. unfold wblk. by intros ->. Qed.

Lemma length_zero_block : length zero_block = 512%nat.
Proof. done. Qed.

#[export] Hint Rewrite wblk_tick w_size_tick w_size_set_blk : sfs.
#[export] Hint Resolve length_wblk length_zero_block : sfs.
(** The buffers of the environment have the size of a block, and dates can be
    printed. *)
Class EnvOk `{Env} := {
  heap_len : length env_heap_data = 512%nat;
  stack_len : length env_stack_block = 512%nat;
  time_ok t : env_asctime_ok t = true;
}.

#[global] Opaque wblk zero_block.
