(* ===== verification/Block.v ===== *)
(** * block.c: reading and writing the blocks of the disk file *)

From S2P Require Export World.

Section block.
  Context `{Env}.

(** The buffer is an [sfs_block_t]: it is passed in and returned. *)
Definition block_read (block_num : Z) (block : list byte) : M world (Z * list byte) :=
  '(ret, block) ← pread block (int64 (u64 (block_num * BLOCK_SIZE)));
  if ret <=? 0 then mret (ret, zero_block)
  else mret (ret, block).

Definition block_write (block_num : Z) (block : list byte) : M world Z :=
  pwrite block (int64 (u64 (block_num * BLOCK_SIZE))).

End block.

(** A block number is on the disk when all its bytes are inside the file. *)
Definition on_disk (w : world) (b : Z) : Prop :=
  0 ≤ b ∧ (b + 1) * BLOCK_SIZE ≤ w_size w ∧ w_size w < 2 ^ 63.

Lemma block_offset b :
  0 ≤ b → (b + 1) * BLOCK_SIZE < 2 ^ 63 →
  int64 (u64 (b * BLOCK_SIZE)) = b * BLOCK_SIZE.
Proof.
  unfold BLOCK_SIZE, int64, u64. intros.
  rewrite (Z.mod_small (b * 512)) by lia. rewrite Z.mod_small by lia. lia.
Qed.

Section block_lemmas.
  Context `{Env}.

Lemma block_read_run b buf w :
  env_io (w_ios w) = IoOk → on_disk w b → length buf = 512%nat →
  block_read b buf w = Done (BLOCK_SIZE, wblk w b) (tick_io w).
Proof.
  intros Hio (Hb & Hsz & Hmax) Hbuf. unfold block_read.
  rewrite block_offset by lia. unfold pread, mbind, M_bind.
  rewrite Hio. unfold BLOCK_SIZE in *.
  destruct (b * 512 <? 0) eqn:E; [apply Z.ltb_lt in E; lia|]. simpl.
  rewrite Z.max_r, Z.min_l by lia. simpl.
  rewrite Z.div_mul by lia.
  rewrite firstn_all2 by (by rewrite length_wblk).
  by rewrite splice_all by (by rewrite length_wblk).
Qed.

Lemma block_write_run b blk w :
  env_io (w_ios w) = IoOk → on_disk w b → length blk = 512%nat →
  block_write b blk w = Done BLOCK_SIZE (set_blk b blk (tick_io w)).
Proof.
  intros Hio (Hb & Hsz & Hmax) Hbuf. unfold block_write.
  rewrite block_offset by lia. unfold pwrite.
  rewrite Hio. unfold BLOCK_SIZE in *.
  destruct (b * 512 <? 0) eqn:E; [apply Z.ltb_lt in E; lia|]. simpl.
  rewrite Z.div_mul by lia.
  rewrite firstn_all2 by lia. rewrite splice_all by (rewrite length_wblk; done).
  f_equal. unfold set_size; simpl. rewrite Z.max_l by lia. by destruct w.
Qed.

(** A failed read clears the buffer. *)
Lemma block_read_error b buf w :
  env_io (w_ios w) = IoError →
  block_read b buf w = Done (-1, zero_block) (tick_io w).
Proof.
  intros Hio. unfold block_read, pread, mbind, M_bind. rewrite Hio.
  by destruct (_ <? 0).
Qed.

Lemma block_read_ok `{!ReliableIO} b buf w :
  on_disk w b → length buf = 512%nat →
  block_read b buf w = Done (BLOCK_SIZE, wblk w b) (tick_io w).
Proof. apply block_read_run, reliable_io. Qed.

Lemma block_write_ok `{!ReliableIO} b blk w :
  on_disk w b → length blk = 512%nat →
  block_write b blk w = Done BLOCK_SIZE (set_blk b blk (tick_io w)).
Proof. apply block_write_run, reliable_io. Qed.

End block_lemmas.
