(* ===== verification/Layout.v ===== *)
(** * fs.h and dir.h: the structures on disk

    [sfs_fs_superblock], [sfs_fs_inode] and [sfs_dir_entry] with their layout
    in a block.  None of them has padding, so each layout is a bijection. *)

From S2P Require Export Block.

(** ** The superblock *)
Record sfs_fs_superblock := Superblock {
  sb_signature : list byte;
  sb_create_time : Z;
  sb_block_size : Z;
  sb_inode_table_blocks : Z;
  sb_inodes : Z;
  sb_blocks : Z;
  sb_free_blocks_head : Z;
  sb_free_inode_head : Z;
}.

(** "SFS_IS_THE_BEST" and its terminating NUL: 16 bytes. *)
Definition SFS_FILE_TYPE_SIGNATURE : list byte :=
  map Byte.byte.of_Z [83; 70; 83; 95; 73; 83; 95; 84; 72; 69; 95; 66; 69; 83; 84; 0].

Definition superblock_c : codec sfs_fs_superblock :=
  iso_c
    (λ s, (sb_signature s, (sb_create_time s, (sb_block_size s,
          (sb_inode_table_blocks s, (sb_inodes s, (sb_blocks s,
          (sb_free_blocks_head s, sb_free_inode_head s))))))))
    (λ '(a, (b, (c, (d, (e, (f, (g, h))))))), Superblock a b c d e f g h)
    (pair_c (bytes_c 16) (pair_c u64_c (pair_c u64_c (pair_c u64_c
      (pair_c u64_c (pair_c u64_c (pair_c u64_c u64_c))))))).

Definition set_free_blocks_head (b : Z) (s : sfs_fs_superblock) : sfs_fs_superblock :=
  Superblock (sb_signature s) (sb_create_time s) (sb_block_size s)
    (sb_inode_table_blocks s) (sb_inodes s) (sb_blocks s) b (sb_free_inode_head s).

Definition set_free_inode_head (i : Z) (s : sfs_fs_superblock) : sfs_fs_superblock :=
  Superblock (sb_signature s) (sb_create_time s) (sb_block_size s)
    (sb_inode_table_blocks s) (sb_inodes s) (sb_blocks s) (sb_free_blocks_head s) i.

(** ** Inodes *)
Definition SFS_NDIR_BLOCKS : Z := 12.
Definition SFS_IND_BLOCK : Z := SFS_NDIR_BLOCKS.
Definition SFS_NIND_BLOCKS : Z := 1 * (BLOCK_SIZE / Z.of_nat (c_size u64_c)).
Definition SFS_DIND_BLOCK : Z := SFS_IND_BLOCK + 1.
Definition SFS_N_BLOCKS : Z := SFS_DIND_BLOCK + 1.

Record sfs_fs_inode := Inode {
  i_inumber : Z;
  i_mode : Z;
  i_uid : Z;
  i_gid : Z;
  i_links : Z;
  i_access_time : Z;
  i_modified_time : Z;
  i_change_time : Z;
  i_size : Z;
  i_block_pointers : list Z;
}.

Definition inode_c : codec sfs_fs_inode :=
  iso_c
    (λ i, (i_inumber i, (i_mode i, (i_uid i, (i_gid i, (i_links i,
          (i_access_time i, (i_modified_time i, (i_change_time i,
          (i_size i, i_block_pointers i))))))))))
    (λ '(a, (b, (c, (d, (e, (f, (g, (h, (i, j))))))))), Inode a b c d e f g h i j)
    (pair_c u64_c (pair_c u32_c (pair_c u32_c (pair_c u32_c (pair_c u32_c
      (pair_c u64_c (pair_c u64_c (pair_c u64_c (pair_c u64_c
        (array_c (Z.to_nat SFS_N_BLOCKS) u64_c)))))))))).

Abbreviation inode_ok := (c_ok inode_c).

Definition inodes_per_block : Z := BLOCK_SIZE / Z.of_nat (c_size inode_c).

(** Assignments to members. *)
Definition set_inumber (v : Z) (i : sfs_fs_inode) : sfs_fs_inode :=
  Inode v (i_mode i) (i_uid i) (i_gid i) (i_links i) (i_access_time i)
    (i_modified_time i) (i_change_time i) (i_size i) (i_block_pointers i).
Definition set_mode (v : Z) (i : sfs_fs_inode) : sfs_fs_inode :=
  Inode (i_inumber i) v (i_uid i) (i_gid i) (i_links i) (i_access_time i)
    (i_modified_time i) (i_change_time i) (i_size i) (i_block_pointers i).
Definition set_uid (v : Z) (i : sfs_fs_inode) : sfs_fs_inode :=
  Inode (i_inumber i) (i_mode i) v (i_gid i) (i_links i) (i_access_time i)
    (i_modified_time i) (i_change_time i) (i_size i) (i_block_pointers i).
Definition set_gid (v : Z) (i : sfs_fs_inode) : sfs_fs_inode :=
  Inode (i_inumber i) (i_mode i) (i_uid i) v (i_links i) (i_access_time i)
    (i_modified_time i) (i_change_time i) (i_size i) (i_block_pointers i).
Definition set_links (v : Z) (i : sfs_fs_inode) : sfs_fs_inode :=
  Inode (i_inumber i) (i_mode i) (i_uid i) (i_gid i) v (i_access_time i)
    (i_modified_time i) (i_change_time i) (i_size i) (i_block_pointers i).
Definition set_access_time (v : Z) (i : sfs_fs_inode) : sfs_fs_inode :=
  Inode (i_inumber i) (i_mode i) (i_uid i) (i_gid i) (i_links i) v
    (i_modified_time i) (i_change_time i) (i_size i) (i_block_pointers i).
Definition set_modified_time (v : Z) (i : sfs_fs_inode) : sfs_fs_inode :=
  Inode (i_inumber i) (i_mode i) (i_uid i) (i_gid i) (i_links i) (i_access_time i)
    v (i_change_time i) (i_size i) (i_block_pointers i).
Definition set_change_time (v : Z) (i : sfs_fs_inode) : sfs_fs_inode :=
  Inode (i_inumber i) (i_mode i) (i_uid i) (i_gid i) (i_links i) (i_access_time i)
    (i_modified_time i) v (i_size i) (i_block_pointers i).
Definition set_size_ (v : Z) (i : sfs_fs_inode) : sfs_fs_inode :=
  Inode (i_inumber i) (i_mode i) (i_uid i) (i_gid i) (i_links i) (i_access_time i)
    (i_modified_time i) (i_change_time i) v (i_block_pointers i).
Definition set_block_pointers (v : list Z) (i : sfs_fs_inode) : sfs_fs_inode :=
  Inode (i_inumber i) (i_mode i) (i_uid i) (i_gid i) (i_links i) (i_access_time i)
    (i_modified_time i) (i_change_time i) (i_size i) v.

(** [inode->block_pointers[k]] and its assignment, for [0 <= k < 14]. *)
Definition bp (i : sfs_fs_inode) (k : Z) : Z :=
  nth (Z.to_nat k) (i_block_pointers i) 0.
Definition set_bp (k v : Z) (i : sfs_fs_inode) : sfs_fs_inode :=
  set_block_pointers (<[Z.to_nat k := v]> (i_block_pointers i)) i.

(** ** Directory entries *)
Record sfs_dir_entry := DirEntry {
  d_inumber : Z;
  d_name : list byte;
}.

Definition dir_entry_c : codec sfs_dir_entry :=
  iso_c (λ d, (d_inumber d, d_name d)) (λ '(a, b), DirEntry a b)
    (pair_c u64_c (bytes_c 256)).

Definition entries_per_block : Z := BLOCK_SIZE / Z.of_nat (c_size dir_entry_c).

(** ** The layouts are lawful *)
#[export] Instance superblock_lawful : Lawful superblock_c.
Proof.
  apply iso_lawful.
  - apply _.
  - by intros [].
  - by intros (?&?&?&?&?&?&?&?).
Qed.

#[export] Instance inode_lawful : Lawful inode_c.
Proof.
  apply iso_lawful.
  - apply _.
  - by intros [].
  - by intros (?&?&?&?&?&?&?&?&?&?).
Qed.

#[export] Instance dir_entry_lawful : Lawful dir_entry_c.
Proof.
  apply iso_lawful.
  - apply _.
  - by intros [].
  - by intros (?&?).
Qed.

(** ** Members in range *)
Lemma superblock_ok_spec sb :
  c_ok superblock_c sb = true ↔
  length (sb_signature sb) = 16%nat ∧
  0 ≤ sb_create_time sb < 2 ^ 64 ∧ 0 ≤ sb_block_size sb < 2 ^ 64 ∧
  0 ≤ sb_inode_table_blocks sb < 2 ^ 64 ∧ 0 ≤ sb_inodes sb < 2 ^ 64 ∧
  0 ≤ sb_blocks sb < 2 ^ 64 ∧
  0 ≤ sb_free_blocks_head sb < 2 ^ 64 ∧ 0 ≤ sb_free_inode_head sb < 2 ^ 64.
Proof.
  cbv [c_ok superblock_c iso_c pair_c bytes_c u64_c uint_c fst snd].
  rewrite !andb_true_iff, !in_width_spec, Nat.eqb_eq. reflexivity.
Qed.

Lemma inode_ok_spec i :
  inode_ok i = true ↔
  0 ≤ i_inumber i < 2 ^ 64 ∧ 0 ≤ i_mode i < 2 ^ 32 ∧ 0 ≤ i_uid i < 2 ^ 32 ∧
  0 ≤ i_gid i < 2 ^ 32 ∧ 0 ≤ i_links i < 2 ^ 32 ∧ 0 ≤ i_access_time i < 2 ^ 64 ∧
  0 ≤ i_modified_time i < 2 ^ 64 ∧ 0 ≤ i_change_time i < 2 ^ 64 ∧
  0 ≤ i_size i < 2 ^ 64 ∧ length (i_block_pointers i) = 14%nat ∧
  forallb (in_width 8) (i_block_pointers i) = true.
Proof.
  cbv [c_ok inode_c iso_c pair_c array_c u32_c u64_c uint_c fst snd].
  rewrite !andb_true_iff, !in_width_spec, Nat.eqb_eq. reflexivity.
Qed.

(** The sizes the compiler computes. *)
Example sizeof_superblock : c_size superblock_c = 72%nat.
Proof. reflexivity. Qed.
Example sizeof_inode : c_size inode_c = 168%nat.
Proof. reflexivity. Qed.
Example sizeof_dir_entry : c_size dir_entry_c = 264%nat.
Proof. reflexivity. Qed.
Example three_inodes_per_block : inodes_per_block = 3.
Proof. reflexivity. Qed.
Example one_entry_per_block : entries_per_block = 1.
Proof. reflexivity. Qed.
Example signature_has_16_bytes : length SFS_FILE_TYPE_SIGNATURE = 16%nat.
Proof. reflexivity. Qed.
