(* ===== verification/Fs.v ===== *)
(** * fs.c: the file system on the disk

    The state is the C [struct filesystem]: the disk (here the [world] behind
    the descriptor), the in-memory superblock, and the write-back cache of one
    block of inodes.  A function that reports through an out-parameter and
    leaves it alone when it returns -1 has an [option] result. *)

From S2P Require Export Layout.

Record inode_cache := InodeCache {
  dirty : bool;
  block_number : Z;      (* an [int] *)
  data : list byte;
}.

Record filesystem := Filesystem {
  disk : world;
  superblock : sfs_fs_superblock;
  icache : inode_cache;
}.

Definition set_disk (w : world) (fs : filesystem) : filesystem :=
  Filesystem w (superblock fs) (icache fs).
Definition set_superblock (sb : sfs_fs_superblock) (fs : filesystem) : filesystem :=
  Filesystem (disk fs) sb (icache fs).
Definition set_icache (c : inode_cache) (fs : filesystem) : filesystem :=
  Filesystem (disk fs) (superblock fs) c.

Definition at_disk {A} (m : M world A) : M filesystem A := zoom disk set_disk m.

Abbreviation index_get := (get_at u64_c).
Abbreviation index_set := (set_at u64_c).

Section fs.
  Context `{Env}.

Definition write_superblock (sb : sfs_fs_superblock) : M world Z :=
  let tmp_block := splice 0 (c_enc superblock_c sb) zero_block in
  r ← block_write 0 tmp_block;
  return_if negb (r =? BLOCK_SIZE) with -1;
  mret 0.

(** ** The inode cache *)

(** The write-back of a dirty block of inodes. *)
Definition write_back : M filesystem Z :=
  fs ← get;
  if dirty (icache fs) then
    r ← at_disk (block_write (u64 (block_number (icache fs))) (data (icache fs)));
    return_if negb (r =? BLOCK_SIZE) with -1;
    mret 0
  else mret 0.

Definition inode_block (inumber : Z) : Z := (inumber - 1) / inodes_per_block + 1.
Definition inode_pos (inumber : Z) : nat := Z.to_nat ((inumber - 1) `mod` inodes_per_block).

Definition sfs_fs_read_inode (inumber : Z) : M filesystem (option sfs_fs_inode) :=
  assert_ (0 <? inumber);;
  let block_num := inode_block inumber in
  fs ← get;
  r ← (if negb (u64 (block_number (icache fs)) =? block_num) then
         r ← write_back;
         return_if negb (r =? 0) with -1;
         modify (set_icache (InodeCache false (int32 block_num) (data (icache fs))));;
         '(r, blk) ← at_disk (block_read block_num (data (icache fs)));
         modify (set_icache (InodeCache false (int32 block_num) blk));;
         return_if negb (r =? BLOCK_SIZE) with -1;
         mret 0
       else mret 0);
  return_if negb (r =? 0) with None;
  fs ← get;
  access_ (Z.of_nat (inode_pos inumber) <? inodes_per_block);;
  mret (Some (get_at inode_c (inode_pos inumber) (data (icache fs)))).

Definition sfs_fs_write_inode (inode : sfs_fs_inode) : M filesystem Z :=
  assert_ (0 <? i_inumber inode);;
  let block_num := inode_block (i_inumber inode) in
  fs ← get;
  r ← (if negb (u64 (block_number (icache fs)) =? block_num) then
         r ← write_back;
         return_if negb (r =? 0) with -1;
         (* the [dirty] flag is not cleared on this path *)
         modify (set_icache (InodeCache (dirty (icache fs)) (int32 block_num) (data (icache fs))));;
         '(r, blk) ← at_disk (block_read block_num (data (icache fs)));
         modify (set_icache (InodeCache (dirty (icache fs)) (int32 block_num) blk));;
         return_if negb (r =? BLOCK_SIZE) with -1;
         mret 0
       else mret 0);
  return_if negb (r =? 0) with -1;
  fs ← get;
  access_ (Z.of_nat (inode_pos (i_inumber inode)) <? inodes_per_block);;
  let c := icache fs in
  put (set_icache (InodeCache true (block_number c)
                     (set_at inode_c (inode_pos (i_inumber inode)) inode (data c))) fs);;
  mret 0.

(** ** Free blocks

    An index block is an array of 64 block numbers: the next index block,
    and 63 slots that hold a free block's number or 0. *)
Definition index_slots : nat := Z.to_nat (BLOCK_SIZE / Z.of_nat (c_size u64_c)).

(** The first of the slots [i, i+n) whose number satisfies [p]. *)
Fixpoint first_slot (p : Z → bool) (index : list byte) (i n : nat) : option nat :=
  match n with
  | O => None
  | S n' => if p (index_get i index) then Some i else first_slot p index (S i) n'
  end.

Definition save_superblock : M filesystem Z :=
  fs ← get; at_disk (write_superblock (superblock fs)).

Definition sfs_fs_allocate_block : M filesystem (option Z) :=
  fs ← get;
  return_if sb_free_blocks_head (superblock fs) =? 0 with None;
  let node := sb_free_blocks_head (superblock fs) in
  '(r, tmp_block) ← at_disk (block_read node env_stack_block);
  return_if negb (r =? BLOCK_SIZE) with None;
  match first_slot (λ v, negb (v =? 0)) tmp_block 1 (index_slots - 1) with
  | Some i =>
      let found_free_block := index_get i tmp_block in
      r ← at_disk (block_write node (index_set i 0 tmp_block));
      return_if negb (r =? BLOCK_SIZE) with None;
      mret (Some found_free_block)
  | None =>
      modify (λ fs, set_superblock
        (set_free_blocks_head (index_get 0 tmp_block) (superblock fs)) fs);;
      r ← save_superblock;
      return_if negb (r =? 0) with None;
      mret (Some node)
  end.

(** The search of [sfs_fs_free_block] through the index nodes: the variables
    are [node], [prev_node] and [tmp_block]. *)
Definition free_block_step (block_num : Z) (acc : Z * Z * list byte)
    : M filesystem (ctl (Z * Z * list byte) Z) :=
  let '(node, prev_node, tmp_block) := acc in
  if node =? 0 then mret (Break acc)
  else
    '(r, tmp_block) ← at_disk (block_read node tmp_block);
    return_if negb (r =? BLOCK_SIZE) with Return (-1);
    match first_slot (λ v, v =? 0) tmp_block 1 (index_slots - 1) with
    | Some i =>
        r ← at_disk (block_write node (index_set i block_num tmp_block));
        return_if negb (r =? BLOCK_SIZE) with Return (-1);
        mret (Return 0)
    | None => mret (Continue (index_get 0 tmp_block, node, tmp_block))
    end.

(** The search only reads, so it ends within one visit of each block that can
    be read, or it never does. *)
Definition free_block_fuel (fs : filesystem) : nat :=
  Z.to_nat (w_size (disk fs) / BLOCK_SIZE) + 2.

Definition sfs_fs_free_block (block_num : Z) : M filesystem Z :=
  fs ← get;
  if sb_free_blocks_head (superblock fs) =? 0 then
    r ← at_disk (block_write block_num zero_block);
    return_if negb (r =? BLOCK_SIZE) with -1;
    modify (λ fs, set_superblock (set_free_blocks_head block_num (superblock fs)) fs);;
    r ← save_superblock;
    return_if negb (r =? 0) with -1;
    mret 0
  else
    e ← while_true (free_block_fuel fs)
          (sb_free_blocks_head (superblock fs), 0, zero_block)
          (free_block_step block_num);
    match e with
    | inr r => mret r
    | inl (_, prev_node, tmp_block) =>
        r ← at_disk (block_write prev_node (index_set 0 block_num tmp_block));
        return_if negb (r =? BLOCK_SIZE) with -1;
        r ← at_disk (block_write block_num zero_block);
        return_if negb (r =? BLOCK_SIZE) with -1;
        mret 0
    end.

(** ** Numbers of blocks

    [inode->block_pointers[i]] and [arr[index]], [arr] a block of numbers. *)
Definition pointer_at (inode : sfs_fs_inode) (i : Z) : M filesystem Z :=
  access_ ((0 <=? i) && (i <? SFS_N_BLOCKS));;
  mret (bp inode i).

Definition number_at (index : Z) (arr : list byte) : M filesystem Z :=
  access_ ((0 <=? index) && (index <? Z.of_nat index_slots));;
  mret (index_get (Z.to_nat index) arr).

(** ** Free inodes *)
Definition sfs_fs_inode_allocate : M filesystem (option sfs_fs_inode) :=
  fs ← get;
  let inumber := sb_free_inode_head (superblock fs) in
  return_if inumber =? 0 with None;
  o ← sfs_fs_read_inode inumber;
  match o with
  | None => mret None
  | Some inode =>
      (* the next pointer is hidden in the [size] member *)
      modify (λ fs, set_superblock (set_free_inode_head (i_size inode) (superblock fs)) fs);;
      r ← save_superblock;
      return_if negb (r =? 0) with None;
      mret (Some inode)
  end.

Definition sfs_fs_inode_deallocate (inode : sfs_fs_inode) : M filesystem (Z * sfs_fs_inode) :=
  fs ← get;
  let inode := set_size_ (sb_free_inode_head (superblock fs)) inode in
  r ← sfs_fs_write_inode inode;
  return_if negb (r =? 0) with (-1, inode);
  modify (λ fs, set_superblock (set_free_inode_head (i_inumber inode) (superblock fs)) fs);;
  r ← save_superblock;
  return_if negb (r =? 0) with (-1, inode);
  e ← for_range 0 SFS_NDIR_BLOCKS tt (λ i _,
        p ← pointer_at inode i;
        if p =? 0 then mret (Continue tt)
        else
          r ← sfs_fs_free_block p;
          return_if negb (r =? 0) with Return (-1);
          mret (Continue tt));
  match e with
  | inr r => mret (r, inode)
  | inl _ => mret (0, inode)
  end.

(** ** The blocks of a file *)
Definition sfs_fs_inode_get_block_number (inode : sfs_fs_inode) (iblock : Z) : M filesystem Z :=
  return_if SFS_NDIR_BLOCKS <=? iblock with 0;
  pointer_at inode iblock.

Definition read_from_indirect (indirect_block_number index : Z) (create_if_empty : bool)
    : M filesystem (option Z) :=
  return_if indirect_block_number =? 0 with Some 0;
  '(r, arr) ← at_disk (block_read indirect_block_number env_stack_block);
  return_if negb (r =? BLOCK_SIZE) with None;
  v ← number_at index arr;
  if create_if_empty && (v =? 0) then
    o ← sfs_fs_allocate_block;
    match o with
    | None => mret None
    | Some b =>
        let arr := index_set (Z.to_nat index) b arr in
        r ← at_disk (block_write indirect_block_number arr);
        return_if negb (r =? BLOCK_SIZE) with None;
        v ← number_at index arr;
        mret (Some v)
    end
  else mret (Some v).

(** A data block must lie after the inode table and inside the disk. *)
Definition bad_block (sb : sfs_fs_superblock) (b : Z) : bool :=
  (b <? u64 (sb_inode_table_blocks sb + 1)) || (sb_blocks sb <=? b).

Definition sfs_fs_inode_block_read (inode : sfs_fs_inode) (iblock : Z) (block : list byte)
    : M filesystem (Z * list byte) :=
  o ← (if iblock <? SFS_NDIR_BLOCKS then
         p ← pointer_at inode iblock; mret (Some p)
       else if iblock <? SFS_NDIR_BLOCKS + SFS_NIND_BLOCKS then
         p ← pointer_at inode SFS_IND_BLOCK;
         read_from_indirect p (iblock - SFS_NDIR_BLOCKS) false
       else mret None);
  match o with
  | None => mret (-1, block)
  | Some block_num =>
      return_if block_num =? 0 with (0, zero_block);
      fs ← get;
      return_if bad_block (superblock fs) block_num with (-1, block);
      '(r, block) ← at_disk (block_read block_num block);
      return_if negb (r =? BLOCK_SIZE) with (-1, block);
      mret (0, block)
  end.

(** The block that holds [iblock], allocated when there is none; the inode is
    changed in place. *)
Definition block_for_write (inode : sfs_fs_inode) (iblock : Z)
    : M filesystem (option Z * sfs_fs_inode) :=
  if iblock <? SFS_NDIR_BLOCKS then
    p ← pointer_at inode iblock;
    if p =? 0 then
      o ← sfs_fs_allocate_block;
      match o with
      | None => mret (None, inode)
      | Some b =>
          let inode := set_bp iblock b inode in
          r ← sfs_fs_write_inode inode;
          return_if negb (r =? 0) with (None, inode);
          mret (Some b, inode)
      end
    else mret (Some p, inode)
  else if iblock <? SFS_NDIR_BLOCKS + SFS_NIND_BLOCKS then
    p ← pointer_at inode SFS_IND_BLOCK;
    '(r, inode) ←
      (if p =? 0 then
         o ← sfs_fs_allocate_block;
         match o with
         | None => mret (-1, inode)
         | Some b =>
             t ← at_disk time_;
             let inode := set_change_time t (set_bp SFS_IND_BLOCK b inode) in
             r ← sfs_fs_write_inode inode;
             return_if negb (r =? 0) with (-1, inode);
             mret (0, inode)
         end
       else mret (0, inode));
    return_if negb (r =? 0) with (None, inode);
    p ← pointer_at inode SFS_IND_BLOCK;
    o ← read_from_indirect p (iblock - SFS_NDIR_BLOCKS) true;
    mret (o, inode)
  else mret (None, inode).

Definition sfs_fs_inode_block_write (inode : sfs_fs_inode) (iblock : Z) (block : list byte)
    : M filesystem (Z * sfs_fs_inode) :=
  '(o, inode) ← block_for_write inode iblock;
  match o with
  | None => mret (-1, inode)
  | Some block_num =>
      fs ← get;
      return_if bad_block (superblock fs) block_num with (-1, inode);
      r ← at_disk (block_write block_num block);
      return_if negb (r =? BLOCK_SIZE) with (-1, inode);
      mret (0, inode)
  end.

Definition sfs_fs_inode_block_remove (inode : sfs_fs_inode) (iblock : Z) : M filesystem Z :=
  return_if SFS_NDIR_BLOCKS <=? iblock with -1;
  p ← pointer_at inode iblock;
  return_if p =? 0 with 0;
  r ← sfs_fs_free_block p;
  return_if negb (r =? 0) with -1;
  mret 0.

(** ** stat(2) *)
Record stat := Stat {
  st_ino : Z; st_mode : Z; st_nlink : Z; st_uid : Z; st_gid : Z;
  st_atime : Z; st_mtime : Z; st_ctime : Z; st_size : Z;
}.

Definition sfs_fs_inode_to_stat (i : sfs_fs_inode) : stat :=
  Stat (i_inumber i) (i_mode i) (i_links i) (i_uid i) (i_gid i)
    (int64 (i_access_time i)) (int64 (i_modified_time i)) (int64 (i_change_time i))
    (int64 (i_size i)).

(** ** Closing *)
Definition sfs_fs_close : M filesystem Z :=
  r ← write_back;
  return_if negb (r =? 0) with -1;
  _ ← save_superblock;      (* a failure here is only logged *)
  mret 0.

End fs.
