(* ===== verification/FsCache.v ===== *)
(** * The inode table behind its write-back cache

    The specification of the component: an abstract file system is a
    superblock, a table of inodes and the data blocks, with no cache and no
    disk.  [abs] maps a concrete state to it; reading, writing and writing
    back inodes are refinements of a lookup, an update and nothing. *)

From S2P Require Export Fs.

(** ** Well-formed states *)
Record fs_ok (fs : filesystem) : Prop := FsOk {
  ok_table : 1 ≤ sb_inode_table_blocks (superblock fs) < 2 ^ 31;
  ok_blocks : sb_inode_table_blocks (superblock fs) < sb_blocks (superblock fs);
  ok_size : sb_blocks (superblock fs) * BLOCK_SIZE ≤ w_size (disk fs) < 2 ^ 63;
  ok_sb : c_ok superblock_c (superblock fs) = true;
  ok_signature : sb_signature (superblock fs) = SFS_FILE_TYPE_SIGNATURE;
  ok_data : length (data (icache fs)) = 512%nat;
  ok_range : 0 ≤ block_number (icache fs) ≤ sb_inode_table_blocks (superblock fs);
  ok_none : block_number (icache fs) = 0 → dirty (icache fs) = false;
  ok_clean : block_number (icache fs) ≠ 0 → dirty (icache fs) = false →
             data (icache fs) = wblk (disk fs) (block_number (icache fs));
}.

(** The inodes of the table are numbered from 1. *)
Definition valid_inumber (sb : sfs_fs_superblock) (n : Z) : Prop :=
  1 ≤ n ≤ inodes_per_block * sb_inode_table_blocks sb.

(** The blocks that hold data or free-block indices. *)
Definition data_block (sb : sfs_fs_superblock) (b : Z) : Prop :=
  sb_inode_table_blocks sb < b < sb_blocks sb.

(** ** The abstract file system *)
Record fs_abs := FsAbs {
  a_sb : sfs_fs_superblock;
  a_inode : Z → sfs_fs_inode;
  a_block : Z → list byte;
}.

Definition inode_at_disk (w : world) (n : Z) : sfs_fs_inode :=
  get_at inode_c (inode_pos n) (wblk w (inode_block n)).

(** The current contents of inode [n]: the cached copy, or the disk's. *)
Definition view (fs : filesystem) (n : Z) : sfs_fs_inode :=
  if block_number (icache fs) =? inode_block n
  then get_at inode_c (inode_pos n) (data (icache fs))
  else inode_at_disk (disk fs) n.

Definition abs (fs : filesystem) : fs_abs :=
  FsAbs (superblock fs) (view fs) (wblk (disk fs)).

(** Two abstract states are equivalent when no file operation tells them
    apart: same superblock, inodes and data blocks. *)
#[export] Instance fs_abs_equiv : Equiv fs_abs := λ a a',
  a_sb a = a_sb a' ∧
  (∀ n, valid_inumber (a_sb a) n → a_inode a n = a_inode a' n) ∧
  (∀ b, data_block (a_sb a) b → a_block a b = a_block a' b).

#[export] Instance fs_abs_equivalence : Equivalence (≡@{fs_abs}).
Proof.
  split.
  - by intros a.
  - intros a b (Hs & Hi & Hb). split; [done|]. rewrite <-Hs.
    split; intros; symmetry; auto.
  - intros a b c (Hs & Hi & Hb) (Hs' & Hi' & Hb'). split; [congruence|].
    rewrite <-Hs in Hi', Hb'.
    split; intros; [rewrite Hi by done; auto|rewrite Hb by done; auto].
Qed.

(** The operations of the specification. *)
Definition upd_inode (i : sfs_fs_inode) (a : fs_abs) : fs_abs :=
  FsAbs (a_sb a) (λ n, if n =? i_inumber i then i else a_inode a n) (a_block a).
Definition upd_block (b : Z) (blk : list byte) (a : fs_abs) : fs_abs :=
  FsAbs (a_sb a) (a_inode a) (λ b', if b' =? b then blk else a_block a b').
Definition upd_sb (sb : sfs_fs_superblock) (a : fs_abs) : fs_abs :=
  FsAbs sb (a_inode a) (a_block a).

#[export] Instance upd_inode_proper i : Proper ((≡) ==> (≡)) (upd_inode i).
Proof.
  intros a a' (Hs & Hi & Hb). split; [done|]. split; simpl; [|done].
  intros n Hn. destruct (n =? i_inumber i); auto.
Qed.

#[export] Instance upd_block_proper b blk : Proper ((≡) ==> (≡)) (upd_block b blk).
Proof.
  intros a a' (Hs & Hi & Hb). split; [done|]. split; simpl; [done|].
  intros b' Hb'. destruct (b' =? b); auto.
Qed.

(** A superblock of the same geometry. *)
Lemma upd_sb_equiv sb a a' :
  a ≡ a' →
  sb_inode_table_blocks sb = sb_inode_table_blocks (a_sb a) →
  sb_blocks sb = sb_blocks (a_sb a) →
  upd_sb sb a ≡ upd_sb sb a'.
Proof.
  intros (Hs & Hi & Hb) Ht Hbl. split; [done|]. split; simpl.
  - intros n Hn. apply Hi. unfold valid_inumber in *. by rewrite <-Ht.
  - intros b Hdb. apply Hb. unfold data_block in *. by rewrite <-Ht, <-Hbl.
Qed.

(** ** Positions in the table *)
Lemma inode_block_range sb n :
  valid_inumber sb n → 1 ≤ inode_block n ≤ sb_inode_table_blocks sb.
Proof.
  unfold valid_inumber, inode_block. change inodes_per_block with 3. intros.
  pose proof (Z.div_mod (n - 1) 3). pose proof (Z.mod_pos_bound (n - 1) 3). lia.
Qed.

Lemma inode_pos_range n : (inode_pos n < 3)%nat.
Proof.
  unfold inode_pos. change inodes_per_block with 3.
  pose proof (Z.mod_pos_bound (n - 1) 3). lia.
Qed.

Lemma inode_pos_inside n : (Z.of_nat (inode_pos n) <? inodes_per_block) = true.
Proof. apply Z.ltb_lt. pose proof (inode_pos_range n). change inodes_per_block with 3. lia. Qed.

Lemma inode_pos_inj n m :
  1 ≤ n → 1 ≤ m → inode_block n = inode_block m → inode_pos n = inode_pos m → n = m.
Proof.
  unfold inode_block, inode_pos. change inodes_per_block with 3. intros.
  pose proof (Z.div_mod (n - 1) 3). pose proof (Z.div_mod (m - 1) 3).
  pose proof (Z.mod_pos_bound (n - 1) 3). pose proof (Z.mod_pos_bound (m - 1) 3). lia.
Qed.

Lemma inode_fits n (blk : list byte) :
  length blk = 512%nat → ((inode_pos n + 1) * c_size inode_c ≤ length blk)%nat.
Proof.
  intros ->. pose proof (inode_pos_range n). change (c_size inode_c) with 168%nat. lia.
Qed.

Lemma int32_small z : 0 ≤ z < 2 ^ 31 → int32 z = z.
Proof. intros. unfold int32. rewrite Z.mod_small by lia. lia. Qed.

Lemma u64_small z : 0 ≤ z < 2 ^ 64 → u64 z = z.
Proof. apply Z.mod_small. Qed.

(** ** The states the cache goes through *)

(** The disk after the dirty block is written back. *)
Definition flushed (fs : filesystem) : filesystem :=
  if dirty (icache fs)
  then set_disk (set_blk (block_number (icache fs)) (data (icache fs)) (tick_io (disk fs))) fs
  else fs.

(** Block [b] of the table is loaded in the cache. *)
Definition loaded (b : Z) (d : bool) (fs : filesystem) : filesystem :=
  Filesystem (tick_io (disk fs)) (superblock fs) (InodeCache d b (wblk (disk fs) b)).

Lemma superblock_flushed fs : superblock (flushed fs) = superblock fs.
Proof. unfold flushed. by destruct (dirty (icache fs)). Qed.

Lemma w_size_flushed fs : w_size (disk (flushed fs)) = w_size (disk fs).
Proof. unfold flushed. by destruct (dirty (icache fs)). Qed.

(** After the write-back the disk holds the current table. *)
Lemma inode_at_flushed fs n :
  fs_ok fs → 1 ≤ n → inode_at_disk (disk (flushed fs)) n = view fs n.
Proof.
  intros Hok Hn. unfold view, inode_at_disk, flushed.
  assert (1 ≤ inode_block n) as Hpos.
  { unfold inode_block. change inodes_per_block with 3.
    pose proof (Z.div_pos (n - 1) 3). lia. }
  destruct (Z.eqb_spec (block_number (icache fs)) (inode_block n)) as [E|E].
  - destruct (dirty (icache fs)) eqn:D; simpl.
    + rewrite <-E, wblk_set_eq; [done|apply (ok_data _ Hok)].
    + rewrite <-E, (ok_clean _ Hok) by (done || lia). done.
  - destruct (dirty (icache fs)); simpl; [|done].
    by rewrite wblk_set_ne, wblk_tick.
Qed.

Lemma block_at_flushed fs b :
  fs_ok fs → data_block (superblock fs) b →
  wblk (disk (flushed fs)) b = wblk (disk fs) b.
Proof.
  intros Hok [Hb _]. unfold flushed. destruct (dirty (icache fs)); [|done]; simpl.
  rewrite wblk_set_ne; [done|]. pose proof (ok_range _ Hok). lia.
Qed.

Lemma view_loaded b d fs n :
  view (loaded b d fs) n = inode_at_disk (disk fs) n.
Proof.
  unfold view, loaded; simpl. destruct (Z.eqb_spec b (inode_block n)) as [->|]; done.
Qed.

Lemma fs_ok_flushed fs : fs_ok fs → fs_ok (flushed fs).
Proof.
  intros Hok. unfold flushed. destruct (dirty (icache fs)) eqn:D; [|done].
  destruct Hok. split; simpl; try done. congruence.
Qed.

Lemma fs_ok_loaded b fs d :
  fs_ok fs → 1 ≤ b ≤ sb_inode_table_blocks (superblock fs) → fs_ok (loaded b d fs).
Proof.
  intros Hok Hb. destruct Hok. split; simpl; try done; auto with sfs; lia.
Qed.

Lemma abs_loaded b d fs :
  fs_ok fs → abs (loaded b d (flushed fs)) ≡ abs fs.
Proof.
  intros Hok. split; simpl; [apply superblock_flushed|].
  rewrite superblock_flushed. split.
  - intros n [Hn _]. rewrite view_loaded. by apply inode_at_flushed.
  - intros b' Hb'. rewrite wblk_tick. by apply block_at_flushed.
Qed.

Lemma on_disk_block fs b :
  fs_ok fs → 0 ≤ b < sb_blocks (superblock fs) → on_disk (disk fs) b.
Proof.
  intros Hok Hb. destruct (ok_size _ Hok). split; [lia|]. split; [|lia].
  unfold BLOCK_SIZE in *. lia.
Qed.

Lemma at_disk_done {A} (m : M world A) fs a w :
  m (disk fs) = Done a w → at_disk m fs = Done a (set_disk w fs).
Proof. unfold at_disk, zoom. by intros ->. Qed.

Lemma write_back_run `{Env} fs :
  fs_ok fs → env_io (w_ios (disk fs)) = IoOk → write_back fs = Done 0 (flushed fs).
Proof.
  intros Hok Hio. unfold write_back, flushed. run.
  destruct (dirty (icache fs)) eqn:D; [|done].
  pose proof (ok_table _ Hok). pose proof (ok_blocks _ Hok). pose proof (ok_range _ Hok).
  rewrite u64_small by lia.
  run by (apply at_disk_done, block_write_run;
          [exact Hio|apply on_disk_block; [done|lia]|apply (ok_data _ Hok)]). done.
Qed.

Section cache.
  Context `{Env, !ReliableIO}.

Lemma block_read_fs fs b buf :
  fs_ok fs → 0 ≤ b < sb_blocks (superblock fs) → length buf = 512%nat →
  at_disk (block_read b buf) fs
    = Done (BLOCK_SIZE, wblk (disk fs) b) (set_disk (tick_io (disk fs)) fs).
Proof. intros. by apply at_disk_done, block_read_ok; [apply on_disk_block|]. Qed.

Lemma block_write_fs fs b blk :
  fs_ok fs → 0 ≤ b < sb_blocks (superblock fs) → length blk = 512%nat →
  at_disk (block_write b blk) fs
    = Done BLOCK_SIZE (set_disk (set_blk b blk (tick_io (disk fs))) fs).
Proof. intros. by apply at_disk_done, block_write_ok; [apply on_disk_block|]. Qed.

Lemma write_back_ok fs : fs_ok fs → write_back fs = Done 0 (flushed fs).
Proof. intros. by apply write_back_run. Qed.

(** The read of a block of the table into the cache. *)
Lemma load_block_ok fs c b :
  fs_ok fs → 0 ≤ b < sb_blocks (superblock fs) →
  at_disk (block_read b (data (icache fs))) (set_icache c (flushed fs)) =
    Done (BLOCK_SIZE, wblk (disk (flushed fs)) b)
         (set_icache c (set_disk (tick_io (disk (flushed fs))) (flushed fs))).
Proof.
  intros Hok Hb. erewrite at_disk_done; [done|]. simpl. apply block_read_ok.
  - apply on_disk_block; [by apply fs_ok_flushed|].
    by rewrite superblock_flushed.
  - apply (ok_data _ Hok).
Qed.

(** Reading inode [n] loads its block when another one is cached; nothing
    checks that the block is one of the table. *)
Lemma read_inode_run fs n :
  fs_ok fs → 1 ≤ n → inode_block n < sb_blocks (superblock fs) → inode_block n < 2 ^ 31 →
  sfs_fs_read_inode n fs =
    Done (Some (view fs n))
      (if block_number (icache fs) =? inode_block n then fs
       else loaded (inode_block n) false (flushed fs)).
Proof.
  intros Hok Hn Hb Hb'. unfold sfs_fs_read_inode.
  assert (1 ≤ inode_block n).
  { unfold inode_block. change inodes_per_block with 3. pose proof (Z.div_pos (n - 1) 3). lia. }
  pose proof (ok_table _ Hok). pose proof (ok_range _ Hok).
  rewrite bind_assert by (apply Z.ltb_lt; lia). run.
  rewrite u64_small by lia.
  destruct (Z.eqb_spec (block_number (icache fs)) (inode_block n)) as [E|E]; simpl.
  - do 3 run. rewrite bind_access by apply inode_pos_inside. unfold view. by rewrite E, Z.eqb_refl.
  - run by (by apply write_back_ok). rewrite int32_small by lia.
    run by (apply load_block_ok; [done|lia]). do 3 run. rewrite bind_access by apply inode_pos_inside. by rewrite <-inode_at_flushed.
Qed.

Lemma read_inode_eq fs n :
  fs_ok fs → valid_inumber (superblock fs) n →
  sfs_fs_read_inode n fs =
    Done (Some (view fs n))
      (if block_number (icache fs) =? inode_block n then fs
       else loaded (inode_block n) false (flushed fs)).
Proof.
  intros Hok Hn. pose proof (inode_block_range _ _ Hn). pose proof (ok_table _ Hok).
  pose proof (ok_blocks _ Hok). apply read_inode_run; [done|apply Hn|lia|lia].
Qed.

(** Writing inode [i] does the same, keeping the [dirty] flag, and then
    changes the cached block. *)
Lemma write_inode_eq fs i :
  fs_ok fs → valid_inumber (superblock fs) (i_inumber i) →
  sfs_fs_write_inode i fs =
    let fs1 := if block_number (icache fs) =? inode_block (i_inumber i) then fs
               else loaded (inode_block (i_inumber i)) (dirty (icache fs)) (flushed fs) in
    Done 0 (set_icache (InodeCache true (block_number (icache fs1))
                (set_at inode_c (inode_pos (i_inumber i)) i (data (icache fs1)))) fs1).
Proof.
  intros Hok Hn. unfold sfs_fs_write_inode.
  pose proof (inode_block_range _ _ Hn). pose proof (ok_table _ Hok).
  pose proof (ok_range _ Hok). pose proof (ok_blocks _ Hok).
  rewrite bind_assert by (destruct Hn; apply Z.ltb_lt; lia). run.
  rewrite u64_small by lia.
  destruct (Z.eqb_spec (block_number (icache fs)) (inode_block (i_inumber i))) as [E|E]; simpl.
  - do 3 run. by rewrite bind_access by apply inode_pos_inside.
  - run by (by apply write_back_ok). rewrite int32_small by lia.
    run by (apply load_block_ok; [done|lia]). do 3 run. by rewrite bind_access by apply inode_pos_inside.
Qed.

(** ** Refinement of the abstract table *)
Lemma read_inode_spec fs n :
  fs_ok fs → valid_inumber (superblock fs) n →
  wp (sfs_fs_read_inode n) fs (λ r fs',
    r = Some (a_inode (abs fs) n) ∧ fs_ok fs' ∧ abs fs' ≡ abs fs).
Proof.
  intros Hok Hn. eapply wp_done; [by apply read_inode_eq|]. split; [done|].
  destruct (block_number (icache fs) =? inode_block n); [done|].
  split; [|by apply abs_loaded].
  apply fs_ok_loaded; [by apply fs_ok_flushed|].
  rewrite superblock_flushed. by apply inode_block_range.
Qed.

(** Changing an inode in the cached block. *)
Lemma abs_cached_write fs i :
  fs_ok fs → valid_inumber (superblock fs) (i_inumber i) → inode_ok i = true →
  block_number (icache fs) = inode_block (i_inumber i) →
  abs (set_icache (InodeCache true (block_number (icache fs))
         (set_at inode_c (inode_pos (i_inumber i)) i (data (icache fs)))) fs)
    ≡ upd_inode i (abs fs).
Proof.
  intros Hok Hn Hi E. pose proof (inode_fits (i_inumber i) _ (ok_data _ Hok)) as Hfit.
  split; [done|]. split; [|done]. simpl. intros n Hvn. unfold view; simpl.
  destruct (Z.eqb_spec n (i_inumber i)) as [->|Hne].
  - rewrite E, Z.eqb_refl. by apply (get_set_at_eq inode_c).
  - destruct (Z.eqb_spec (block_number (icache fs)) (inode_block n)) as [E'|]; [|done].
    apply (get_set_at_ne inode_c); [done..|]. intros Hpos. apply Hne.
    destruct Hn, Hvn. symmetry. apply inode_pos_inj; [lia|lia|congruence|done].
Qed.

Lemma fs_ok_cached_write fs d :
  fs_ok fs → block_number (icache fs) ≠ 0 → length d = 512%nat →
  fs_ok (set_icache (InodeCache true (block_number (icache fs)) d) fs).
Proof. intros [] ? ?. split; simpl; try done; lia. Qed.

Lemma write_inode_spec fs i :
  fs_ok fs → valid_inumber (superblock fs) (i_inumber i) → inode_ok i = true →
  wp (sfs_fs_write_inode i) fs (λ r fs',
    r = 0 ∧ fs_ok fs' ∧ abs fs' ≡ upd_inode i (abs fs)).
Proof.
  intros Hok Hn Hi. eapply wp_done; [by apply write_inode_eq|]. split; [done|].
  set (fs1 := if _ =? _ then _ else _). pose proof (inode_block_range _ _ Hn) as Hb.
  assert (fs_ok fs1 ∧ abs fs1 ≡ abs fs ∧ superblock fs1 = superblock fs ∧
          block_number (icache fs1) = inode_block (i_inumber i)) as (Hok1 & Habs & Hsb & E).
  { subst fs1. destruct (Z.eqb_spec (block_number (icache fs)) (inode_block (i_inumber i))); [done|].
    split_and!; [|by apply abs_loaded|apply superblock_flushed|done].
    apply fs_ok_loaded; [by apply fs_ok_flushed|by rewrite superblock_flushed]. }
  split.
  - apply fs_ok_cached_write; [done|lia|].
    rewrite (length_set_at inode_c); [apply (ok_data _ Hok1)|done|].
    apply inode_fits, (ok_data _ Hok1).
  - etrans; [apply abs_cached_write; by rewrite ?Hsb|]. by rewrite Habs.
Qed.

(** ** The superblock on the disk *)
Definition superblock_block (sb : sfs_fs_superblock) : list byte :=
  splice 0 (c_enc superblock_c sb) zero_block.

Lemma length_superblock_block sb :
  c_ok superblock_c sb = true → length (superblock_block sb) = 512%nat.
Proof.
  intros Hsb. unfold superblock_block. rewrite length_splice; [apply length_zero_block|].
  rewrite length_enc, length_zero_block by done.
  change (c_size superblock_c) with 72%nat. lia.
Qed.

Lemma get_superblock_block sb :
  c_ok superblock_c sb = true → get_at superblock_c 0 (superblock_block sb) = sb.
Proof.
  intros Hsb. apply (get_set_at_eq superblock_c 0 sb zero_block); [done|].
  rewrite length_zero_block. change (c_size superblock_c) with 72%nat. lia.
Qed.

(** Only block 0 of the disk changes. *)
Definition saved (fs : filesystem) : filesystem :=
  set_disk (set_blk 0 (superblock_block (superblock fs)) (tick_io (disk fs))) fs.

Lemma save_superblock_io fs :
  env_io (w_ios (disk fs)) = IoOk → on_disk (disk fs) 0 → c_ok superblock_c (superblock fs) = true →
  save_superblock fs = Done 0 (saved fs).
Proof.
  intros Hio Hd Hsb. unfold save_superblock. run. unfold at_disk, zoom, write_superblock.
  erewrite bind_done; [rewrite Z.eqb_refl; reflexivity|].
  by apply block_write_run, length_superblock_block.
Qed.

Lemma save_superblock_run `{!ReliableIO} fs :
  on_disk (disk fs) 0 → c_ok superblock_c (superblock fs) = true →
  save_superblock fs = Done 0 (saved fs).
Proof. by apply save_superblock_io. Qed.

Lemma save_superblock_ok fs : fs_ok fs → save_superblock fs = Done 0 (saved fs).
Proof.
  intros Hok. pose proof (ok_blocks _ Hok). pose proof (ok_table _ Hok).
  apply save_superblock_run; [apply on_disk_block; [done|lia]|apply (ok_sb _ Hok)].
Qed.

Lemma fs_ok_set_blk fs b blk :
  fs_ok fs → ¬ (1 ≤ b ≤ sb_inode_table_blocks (superblock fs)) →
  fs_ok (set_disk (set_blk b blk (tick_io (disk fs))) fs).
Proof.
  intros [] Hb. split; simpl; try done. intros Hc Hd.
  rewrite wblk_set_ne by lia. auto.
Qed.

Lemma inode_at_disk_ext w w' n :
  w_blocks w = w_blocks w' → inode_at_disk w n = inode_at_disk w' n.
Proof. intros. unfold inode_at_disk. by rewrite (wblk_ext w w'). Qed.

Lemma inode_at_disk_set_blk w b blk sb n :
  valid_inumber sb n → ¬ (1 ≤ b ≤ sb_inode_table_blocks sb) →
  inode_at_disk (set_blk b blk w) n = inode_at_disk w n.
Proof.
  intros Hn%inode_block_range Hb. unfold inode_at_disk.
  by rewrite wblk_set_ne by lia.
Qed.

Lemma view_set_blk fs b blk n :
  valid_inumber (superblock fs) n → ¬ (1 ≤ b ≤ sb_inode_table_blocks (superblock fs)) →
  view (set_disk (set_blk b blk (tick_io (disk fs))) fs) n = view fs n.
Proof.
  intros. unfold view; simpl.
  by rewrite (inode_at_disk_set_blk _ _ _ (superblock fs)) by done.
Qed.

Lemma abs_saved fs : fs_ok fs → abs (saved fs) ≡ abs fs.
Proof.
  intros Hok. split; [done|]. split; simpl.
  - intros. apply view_set_blk; [done|lia].
  - intros b [Hb _]. pose proof (ok_table _ Hok). by rewrite wblk_set_ne by lia.
Qed.

Lemma fs_ok_saved fs : fs_ok fs → fs_ok (saved fs).
Proof. intros. apply fs_ok_set_blk; [done|lia]. Qed.

(** Changing the in-memory superblock's free lists. *)
Lemma fs_ok_set_superblock fs sb :
  fs_ok fs → c_ok superblock_c sb = true →
  sb_inode_table_blocks sb = sb_inode_table_blocks (superblock fs) →
  sb_blocks sb = sb_blocks (superblock fs) →
  sb_signature sb = sb_signature (superblock fs) →
  fs_ok (set_superblock sb fs).
Proof. intros [] ? Ht Hb Hs. split; simpl; rewrite ?Ht, ?Hb, ?Hs; done. Qed.

(** Writing a data block. *)
Lemma abs_set_blk fs b blk :
  data_block (superblock fs) b → length blk = 512%nat →
  abs (set_disk (set_blk b blk (tick_io (disk fs))) fs) ≡ upd_block b blk (abs fs).
Proof.
  intros [Hb _] Hlen. split; [done|]. split; simpl.
  - intros. apply view_set_blk; [done|lia].
  - intros b' _. destruct (Z.eqb_spec b' b) as [->|].
    + by apply wblk_set_eq.
    + by rewrite wblk_set_ne.
Qed.

Lemma fs_ok_tick fs : fs_ok fs → fs_ok (set_disk (tick_io (disk fs)) fs).
Proof. intros []. by split. Qed.

Lemma time_spec fs :
  fs_ok fs →
  wp (at_disk time_) fs (λ t fs', 0 ≤ t < 2 ^ 64 ∧ fs_ok fs' ∧ abs fs' = abs fs).
Proof.
  intros Hok. apply wp_zoom. unfold wp, time_. split; [by apply Z.mod_pos_bound|].
  split; [|done]. destruct Hok. by split.
Qed.

End cache.

(** Members that keep their width. *)
Lemma inode_ok_set_change_time t i :
  inode_ok i = true → 0 ≤ t < 2 ^ 64 → inode_ok (set_change_time t i) = true.
Proof. rewrite !inode_ok_spec. simpl. tauto. Qed.
Lemma inode_ok_set_modified_time t i :
  inode_ok i = true → 0 ≤ t < 2 ^ 64 → inode_ok (set_modified_time t i) = true.
Proof. rewrite !inode_ok_spec. simpl. tauto. Qed.
Lemma inode_ok_set_access_time t i :
  inode_ok i = true → 0 ≤ t < 2 ^ 64 → inode_ok (set_access_time t i) = true.
Proof. rewrite !inode_ok_spec. simpl. tauto. Qed.
Lemma inode_ok_set_size v i :
  inode_ok i = true → 0 ≤ v < 2 ^ 64 → inode_ok (set_size_ v i) = true.
Proof. rewrite !inode_ok_spec. simpl. tauto. Qed.
Lemma inode_ok_set_links v i :
  inode_ok i = true → 0 ≤ v < 2 ^ 32 → inode_ok (set_links v i) = true.
Proof. rewrite !inode_ok_spec. simpl. tauto. Qed.

#[export] Hint Resolve inode_ok_set_change_time inode_ok_set_modified_time
  inode_ok_set_access_time inode_ok_set_size inode_ok_set_links : sfs.

#[export] Hint Resolve ok_data ok_sb fs_ok_flushed : sfs.
