(* ===== verification/FsBlocks.v ===== *)
(** * The allocator of data blocks

    On the disk the free blocks are a linked list of index blocks; to its
    clients it is a set of free block numbers, from which
    [sfs_fs_allocate_block] takes one and to which [sfs_fs_free_block] returns
    one. *)

From S2P Require Export FsCache.

(** ** What the list on the disk means *)

(** The 63 slots of an index block, and the numbers in them. *)
Definition index_entries (index : list byte) : list Z :=
  map (λ i, index_get i index) (seq 1 (index_slots - 1)).

Definition nonzero (l : list Z) : list Z := List.filter (λ v, negb (v =? 0)) l.

(** [nodes] are the index blocks of the list that starts at [head]. *)
Fixpoint chain (a : fs_abs) (head : Z) (nodes : list Z) : Prop :=
  match nodes with
  | [] => head = 0
  | b :: rest => head = b ∧ data_block (a_sb a) b ∧ chain a (index_get 0 (a_block a b)) rest
  end.

(** The free blocks: the index blocks themselves and what they list. *)
Fixpoint free_of (a : fs_abs) (nodes : list Z) : list Z :=
  match nodes with
  | [] => []
  | b :: rest => b :: nonzero (index_entries (a_block a b)) ++ free_of a rest
  end.

(** The abstract allocator: [F] enumerates the free blocks, each once. *)
Definition is_free (a : fs_abs) (F : list Z) : Prop :=
  NoDup F ∧ Forall (data_block (a_sb a)) F ∧
  ∃ nodes, chain a (sb_free_blocks_head (a_sb a)) nodes ∧ F ≡ₚ free_of a nodes.

(** Nothing changed but the free-block head and the blocks in [X]. *)
Definition frame (X : list Z) (a a' : fs_abs) : Prop :=
  set_free_blocks_head 0 (a_sb a') = set_free_blocks_head 0 (a_sb a) ∧
  (∀ n, valid_inumber (a_sb a) n → a_inode a' n = a_inode a n) ∧
  (∀ b, data_block (a_sb a) b → b ∉ X → a_block a' b = a_block a b).

(** ** Slots of an index block *)
Lemma first_slot_Some p index i n k :
  first_slot p index i n = Some k → (i ≤ k < i + n)%nat ∧ p (index_get k index) = true.
Proof.
  revert i. induction n as [|n IH]; intros i; simpl; [done|].
  destruct (p (index_get i index)) eqn:E.
  - intros [= <-]. split; [lia|done].
  - intros [??]%IH. split; [lia|done].
Qed.

Lemma first_slot_None p index i n :
  first_slot p index i n = None →
  Forall (λ v, p v = false) (map (λ i, index_get i index) (seq i n)).
Proof.
  revert i. induction n as [|n IH]; intros i; simpl; [constructor|].
  destruct (p (index_get i index)) eqn:E; [done|]. intros. constructor; auto.
Qed.

Lemma index_fits i (index : list byte) :
  length index = 512%nat → (i < 64)%nat → ((i + 1) * c_size u64_c ≤ length index)%nat.
Proof. intros ->. change (c_size u64_c) with 8%nat. lia. Qed.

Lemma index_get_range i index :
  length index = 512%nat → (i < 64)%nat → 0 ≤ index_get i index < 2 ^ 64.
Proof.
  intros Hl Hi. pose proof (get_at_ok u64_c i index (index_fits i _ Hl Hi)) as Hr.
  by apply in_width_spec in Hr.
Qed.

Lemma in_width_u64 v : 0 ≤ v < 2 ^ 64 → c_ok u64_c v = true.
Proof. intros. by apply in_width_spec. Qed.

Lemma length_index_set i v index :
  length index = 512%nat → (i < 64)%nat → 0 ≤ v < 2 ^ 64 →
  length (index_set i v index) = 512%nat.
Proof.
  intros Hl Hi Hv. rewrite (length_set_at u64_c); [done|by apply in_width_u64|].
  by apply index_fits.
Qed.

(** Changing slot [k] replaces one element of the list of entries. *)
Lemma index_entries_set k v index :
  length index = 512%nat → (1 ≤ k < 64)%nat → 0 ≤ v < 2 ^ 64 →
  ∃ l1 l2, index_entries index = l1 ++ index_get k index :: l2 ∧
           index_entries (index_set k v index) = l1 ++ v :: l2.
Proof.
  intros Hl Hk Hv. unfold index_entries.
  change (index_slots - 1)%nat with 63%nat.
  assert (seq 1 63 = seq 1 (k - 1) ++ k :: seq (S k) (63 - k)) as ->.
  { transitivity (seq 1 ((k - 1) + S (63 - k))); [f_equal; lia|].
    rewrite seq_app. by replace (1 + (k - 1))%nat with k by lia. }
  assert (∀ j, j ≠ k → index_get j (index_set k v index) = index_get j index) as Hne.
  { intros j Hj. apply (get_set_at_ne u64_c); [by apply in_width_u64| |done].
    apply index_fits; [done|lia]. }
  rewrite !map_app; simpl.
  rewrite (get_set_at_eq u64_c) by (by apply in_width_u64 || (apply index_fits; [done|lia])).
  eexists _, _. split; [done|]. f_equal; [|f_equal];
    apply map_ext_in; intros j Hj%in_seq; apply Hne; lia.
Qed.

Lemma nonzero_app l1 l2 : nonzero (l1 ++ l2) = nonzero l1 ++ nonzero l2.
Proof. apply List.filter_app. Qed.

Lemma nonzero_all_zero l : Forall (λ v, negb (v =? 0) = false) l → nonzero l = [].
Proof. induction 1 as [|v l Hv Hl IH]; simpl; [done|]. by rewrite Hv. Qed.

Lemma nonzero_none_zero l : Forall (λ v, (v =? 0) = false) l → nonzero l = l.
Proof. induction 1 as [|v l Hv Hl IH]; simpl; [done|]. by rewrite Hv, IH. Qed.

(** Exchanging 0 and a non-zero number in slot [k]. *)
Lemma nonzero_entries_swap k v index :
  length index = 512%nat → (1 ≤ k < 64)%nat → 0 < v < 2 ^ 64 → index_get k index = 0 →
  nonzero (index_entries (index_set k v index)) ≡ₚ v :: nonzero (index_entries index).
Proof.
  intros Hl Hk Hv H0. destruct (index_entries_set k v index) as (l1 & l2 & -> & ->); [done..|lia|].
  rewrite H0, !nonzero_app. unfold nonzero at 2 4; simpl.
  rewrite (proj2 (Z.eqb_neq v 0)) by lia; simpl. symmetry. apply Permutation_middle.
Qed.

Lemma nonzero_entries_clear k index :
  length index = 512%nat → (1 ≤ k < 64)%nat → index_get k index ≠ 0 →
  nonzero (index_entries index) ≡ₚ index_get k index :: nonzero (index_entries (index_set k 0 index)).
Proof.
  intros Hl Hk H0. destruct (index_entries_set k 0 index) as (l1 & l2 & -> & ->); [done..|].
  rewrite !nonzero_app. unfold nonzero at 2 4; simpl.
  rewrite (proj2 (Z.eqb_neq _ 0)) by done; simpl. symmetry. apply Permutation_middle.
Qed.

Lemma index_set_next k v index :
  length index = 512%nat → (1 ≤ k < 64)%nat → 0 ≤ v < 2 ^ 64 →
  index_get 0 (index_set k v index) = index_get 0 index.
Proof.
  intros. apply (get_set_at_ne u64_c); [by apply in_width_u64| |lia].
  apply index_fits; [done|lia].
Qed.

Lemma index_entries_set_next v index :
  length index = 512%nat → 0 ≤ v < 2 ^ 64 →
  index_entries (index_set 0 v index) = index_entries index.
Proof.
  intros Hl Hv. apply map_ext_in. intros j [Hj _]%in_seq.
  apply (get_set_at_ne u64_c); [by apply in_width_u64|apply index_fits; [done|lia]|lia].
Qed.

(** Entries that count up, and a node without entries. *)
Lemma index_entries_seqZ base index :
  (∀ s, 1 ≤ s ≤ 63 → index_get (Z.to_nat s) index = base + s - 1) →
  index_entries index = seqZ base 63.
Proof.
  intros Hs. apply list_eq. intros i. unfold index_entries. change (index_slots - 1)%nat with 63%nat.
  rewrite list_lookup_fmap. destruct (decide (i < 63)%nat).
  - rewrite lookup_seq_lt, lookup_seqZ_lt by lia. simpl. f_equal.
    rewrite <-(Nat2Z.id (S i)), Hs by lia. lia.
  - rewrite lookup_seq_ge, lookup_seqZ_ge by lia. done.
Qed.

Lemma index_entries_zero : nonzero (index_entries zero_block) = [].
Proof. by vm_compute. Qed.

Lemma index_next_zero : index_get 0 zero_block = 0.
Proof. by vm_compute. Qed.

#[global] Opaque index_entries.
#[global] Arguments first_slot : simpl never.
#[global] Arguments index_slots : simpl never.

(** ** The list as a predicate of the abstract state *)
Lemma data_block_range sb b : data_block sb b → 1 ≤ sb_inode_table_blocks sb → 0 < b < sb_blocks sb.
Proof. intros [??]. lia. Qed.

Lemma length_a_block fs b : length (a_block (abs fs) b) = 512%nat.
Proof. apply length_wblk. Qed.

(** Both only look at the contents of the nodes. *)
Lemma chain_ext a a' head nodes :
  (∀ b, data_block (a_sb a) b → data_block (a_sb a') b) →
  (∀ b, b ∈ nodes → data_block (a_sb a) b → index_get 0 (a_block a' b) = index_get 0 (a_block a b)) →
  chain a head nodes → chain a' head nodes.
Proof.
  intros Hd. revert head. induction nodes as [|b nodes IH]; intros head He; simpl; [done|].
  intros (-> & Hb & Hc). split_and!; [done|auto|]. rewrite He by (done || left).
  apply IH; [|done]. intros b' Hb'. apply He. by right.
Qed.

Lemma free_of_entries a a' nodes :
  (∀ b, b ∈ nodes → nonzero (index_entries (a_block a' b)) = nonzero (index_entries (a_block a b))) →
  free_of a' nodes = free_of a nodes.
Proof.
  induction nodes as [|b nodes IH]; intros He; simpl; [done|].
  rewrite He by left. rewrite IH; [done|]. intros. apply He. by right.
Qed.

Lemma free_of_ext a a' nodes :
  (∀ b, b ∈ nodes → a_block a' b = a_block a b) → free_of a' nodes = free_of a nodes.
Proof. intros He. apply free_of_entries. intros. by rewrite He. Qed.

Lemma chain_data_block a head nodes : chain a head nodes → Forall (data_block (a_sb a)) nodes.
Proof.
  revert head. induction nodes as [|b nodes IH]; intros head; simpl; [constructor|].
  intros (-> & Hb & Hc). constructor; eauto.
Qed.

Lemma nodes_free a nodes b : b ∈ nodes → b ∈ free_of a nodes.
Proof.
  induction nodes as [|b' nodes IH]; simpl; [by intros ?%not_elem_of_nil|].
  intros [->|Hb]%elem_of_cons; [left|]. right. apply elem_of_app. right. auto.
Qed.

Lemma nodes_submseteq a nodes : nodes ⊆+ free_of a nodes.
Proof.
  induction nodes as [|b nodes IH]; simpl; [done|].
  apply submseteq_skip. etrans; [done|]. apply submseteq_inserts_l. done.
Qed.

#[export] Instance is_free_proper : Proper ((≡) ==> (≡ₚ) ==> iff) is_free.
Proof.
  assert (∀ a a' F F', a ≡ a' → F ≡ₚ F' → is_free a F → is_free a' F') as Himp.
  { intros a a' F F' (Hs & Hi & Hb) HF (Hnd & Hdata & nodes & Hc & Hp).
    split_and!; [by rewrite <-HF|by rewrite <-HF, <-Hs|].
    pose proof (chain_data_block _ _ _ Hc) as Hnodes.
    exists nodes. rewrite <-Hs. split.
    - apply (chain_ext a); [by rewrite Hs|by intros b ? ?; rewrite Hb|done].
    - rewrite <-HF, Hp. rewrite (free_of_ext a' a); [done|].
      intros b Hin. apply Hb. by eapply Forall_forall in Hnodes. }
  intros a a' Ha F F' HF. split; apply Himp; by symmetry || done.
Qed.

(** The inodes, and the other members of the superblock, do not matter. *)
Lemma is_free_ext a a' F :
  sb_free_blocks_head (a_sb a') = sb_free_blocks_head (a_sb a) →
  (∀ b, data_block (a_sb a) b ↔ data_block (a_sb a') b) →
  (∀ b, b ∈ F → a_block a' b = a_block a b) →
  is_free a F → is_free a' F.
Proof.
  intros Hs Hd Hb (Hnd & Hdata & nodes & Hc & HF). split_and!; [done| |].
  - eapply Forall_impl; [done|]. intros b. apply Hd.
  - assert (∀ b, b ∈ nodes → a_block a' b = a_block a b) as Hbn.
    { intros b Hin. apply Hb. rewrite HF. by apply nodes_free. }
    exists nodes. rewrite Hs. split; [|by rewrite (free_of_ext a a')].
    apply (chain_ext a); [intros b; apply Hd|intros b ? _; by rewrite Hbn|done].
Qed.

Lemma is_free_upd_inode i a F : is_free a F → is_free (upd_inode i a) F.
Proof. by apply is_free_ext. Qed.

Lemma is_free_upd_block b blk a F : b ∉ F → is_free a F → is_free (upd_block b blk a) F.
Proof.
  intros Hb. apply is_free_ext; [done..|]. intros x Hx. simpl.
  destruct (Z.eqb_spec x b) as [->|]; done.
Qed.

#[export] Instance frame_proper X : Proper ((≡) ==> (≡) ==> iff) (frame X).
Proof.
  assert (∀ a1 a2 b1 b2, a1 ≡ a2 → b1 ≡ b2 → frame X a1 b1 → frame X a2 b2) as Himp.
  { intros a1 a2 b1 b2 (Hs & Hi & Hb) (Hs' & Hi' & Hb') (Fs & Fi & Fb).
    assert (∀ b, data_block (a_sb a1) b → data_block (a_sb b1) b) as Hd.
    { unfold data_block. intros b. destruct (a_sb a1), (a_sb b1). by simplify_eq/=. }
    assert (∀ n, valid_inumber (a_sb a1) n → valid_inumber (a_sb b1) n) as Hv.
    { unfold valid_inumber. intros n. destruct (a_sb a1), (a_sb b1). by simplify_eq/=. }
    split; [by rewrite <-Hs, <-Hs'|]. rewrite <-Hs. split.
    - intros n Hn. rewrite <-Hi, <-Hi' by auto. auto.
    - intros b Hdb Hnb. rewrite <-Hb, <-Hb' by auto. auto. }
  intros a1 a2 Ha b1 b2 Hb. split; apply Himp; by symmetry || done.
Qed.

Lemma frame_geometry X a a' :
  frame X a a' →
  sb_inode_table_blocks (a_sb a') = sb_inode_table_blocks (a_sb a) ∧
  sb_blocks (a_sb a') = sb_blocks (a_sb a) ∧
  sb_free_inode_head (a_sb a') = sb_free_inode_head (a_sb a).
Proof. intros [Hs _]. destruct (a_sb a), (a_sb a'). by simplify_eq/=. Qed.

Lemma frame_data_block X a a' b : frame X a a' → data_block (a_sb a') b ↔ data_block (a_sb a) b.
Proof. intros (Ht & Hb & _)%frame_geometry. unfold data_block. by rewrite Ht, Hb. Qed.

Lemma frame_valid X a a' n : frame X a a' → valid_inumber (a_sb a') n ↔ valid_inumber (a_sb a) n.
Proof. intros (Ht & _)%frame_geometry. unfold valid_inumber. by rewrite Ht. Qed.

Lemma frame_trans X Y a1 a2 a3 :
  frame X a1 a2 → frame Y a2 a3 → frame (X ++ Y) a1 a3.
Proof.
  intros F1 F2. pose proof F1 as (S1 & I1 & B1). pose proof F2 as (S2 & I2 & B2).
  split; [congruence|]. split.
  - intros n Hn. rewrite I2, I1; [done..|]. by apply (frame_valid _ _ _ _ F1).
  - intros b Hb Hnb. rewrite elem_of_app in Hnb. rewrite B2, B1; [done|done|tauto| |tauto].
    by apply (frame_data_block _ _ _ _ F1).
Qed.

Lemma frame_weaken X Y a a' : X ⊆ Y → frame X a a' → frame Y a a'.
Proof. intros HXY (S1 & I1 & B1). split_and!; [done..|]. intros. apply B1; set_solver. Qed.

Lemma upd_block_frame b blk a : frame [b] a (upd_block b blk a).
Proof.
  split_and!; [done..|]. intros b' _ Hb'. simpl.
  destruct (Z.eqb_spec b' b) as [->|]; [|done]. destruct Hb'. left.
Qed.

(** ** Data blocks through the disk, for the abstract state *)
Section data.
  Context `{Env, !ReliableIO}.

Lemma data_read_spec fs b buf :
  fs_ok fs → data_block (superblock fs) b → length buf = 512%nat →
  wp (at_disk (block_read b buf)) fs (λ r fs',
    r = (BLOCK_SIZE, a_block (abs fs) b) ∧ fs_ok fs' ∧ abs fs' ≡ abs fs).
Proof.
  intros Hok Hb Hbuf. eapply wp_done.
  - apply block_read_fs; [done| |done].
    pose proof (data_block_range _ _ Hb). pose proof (ok_table _ Hok). lia.
  - split; [done|]. split; [by apply fs_ok_tick|done].
Qed.

Lemma data_write_spec fs b blk :
  fs_ok fs → data_block (superblock fs) b → length blk = 512%nat →
  wp (at_disk (block_write b blk)) fs (λ r fs',
    r = BLOCK_SIZE ∧ fs_ok fs' ∧ abs fs' ≡ upd_block b blk (abs fs)).
Proof.
  intros Hok Hb Hblk. pose proof (ok_table _ Hok). destruct (Hb).
  eapply wp_done; [apply block_write_fs; [done|lia|done]|].
  split; [done|]. split; [apply fs_ok_set_blk; [done|lia]|by apply abs_set_blk].
Qed.

Lemma save_superblock_spec fs :
  fs_ok fs →
  wp save_superblock fs (λ r fs', r = 0 ∧ fs_ok fs' ∧ abs fs' ≡ abs fs).
Proof.
  intros Hok. eapply wp_done; [by apply save_superblock_ok|].
  split; [done|]. split; [by apply fs_ok_saved|by apply abs_saved].
Qed.

End data.

(** ** Allocation *)
Lemma c_ok_free_blocks_head sb v :
  c_ok superblock_c sb = true → 0 ≤ v < 2 ^ 64 →
  c_ok superblock_c (set_free_blocks_head v sb) = true.
Proof.
  rewrite !superblock_ok_spec. simpl. tauto.
Qed.

(** Taking slot [k] of the first index block. *)
Lemma is_free_take_slot a F b rest k blk :
  is_free a F → chain a (sb_free_blocks_head (a_sb a)) (b :: rest) → F ≡ₚ free_of a (b :: rest) →
  length (a_block a b) = 512%nat → (1 ≤ k < 64)%nat →
  index_get k (a_block a b) ≠ 0 → blk = index_set k 0 (a_block a b) →
  ∃ F', F ≡ₚ index_get k (a_block a b) :: F' ∧ is_free (upd_block b blk a) F' ∧ b ∈ F'.
Proof.
  intros (Hnd & Hdata & _) Hc HF Hlen Hk Hnz ->. simpl in HF.
  set (a' := upd_block b _ a).
  exists (free_of a' (b :: rest)).
  assert (b ∉ rest) as Hbr.
  { rewrite HF in Hnd. apply NoDup_cons in Hnd as [Hnd _]. rewrite elem_of_app in Hnd.
    intros ?%(nodes_free a). tauto. }
  assert (free_of a' rest = free_of a rest) as Hrest.
  { apply free_of_ext. intros b' Hb'. simpl. destruct (Z.eqb_spec b' b); [congruence|done]. }
  assert (F ≡ₚ index_get k (a_block a b) :: free_of a' (b :: rest)) as HF'.
  { rewrite HF. simpl. rewrite Hrest, Z.eqb_refl, nonzero_entries_clear by done.
    rewrite <-app_comm_cons. apply Permutation_swap. }
  split; [done|]. split; [|simpl; left]. rewrite HF' in Hnd, Hdata.
  split_and!; [by apply NoDup_cons in Hnd as [_ ?]|by apply Forall_cons in Hdata as [_ ?]|].
  exists (b :: rest). split; [|done]. apply (chain_ext a); [done| |done].
  intros b' _ _. simpl. destruct (Z.eqb_spec b' b) as [->|]; [|done].
  apply index_set_next; [done|done|lia].
Qed.

(** Taking the first index block itself, when it lists nothing. *)
Lemma is_free_take_node a F b rest :
  is_free a F → chain a (sb_free_blocks_head (a_sb a)) (b :: rest) → F ≡ₚ free_of a (b :: rest) →
  nonzero (index_entries (a_block a b)) = [] →
  let a' := upd_sb (set_free_blocks_head (index_get 0 (a_block a b)) (a_sb a)) a in
  ∃ F', F ≡ₚ b :: F' ∧ is_free a' F'.
Proof.
  intros (Hnd & Hdata & _) (_ & _ & Hc) HF Hnil a'. simpl in HF. rewrite Hnil in HF; simpl in HF.
  exists (free_of a rest). split; [done|]. rewrite HF in Hnd, Hdata.
  split_and!; [by apply NoDup_cons in Hnd as [_ ?]|by apply Forall_cons in Hdata as [_ ?]|].
  exists rest. split; [by apply (chain_ext a)|]. by rewrite (free_of_ext a a').
Qed.

Section allocate.
  Context `{Env, !ReliableIO} (stack_len : length env_stack_block = 512%nat).

Lemma allocate_block_spec fs F :
  fs_ok fs → is_free (abs fs) F →
  wp sfs_fs_allocate_block fs (λ r fs', fs_ok fs' ∧
    match r with
    | None => F = [] ∧ abs fs' ≡ abs fs
    | Some b => ∃ F', F ≡ₚ b :: F' ∧ is_free (abs fs') F' ∧ frame F' (abs fs) (abs fs')
    end).
Proof.
  intros Hok Hfree. pose proof Hfree as (Hnd & Hdata & nodes & Hc & HF).
  unfold sfs_fs_allocate_block. wp_pure.
  destruct nodes as [|b rest].
  { simpl in Hc, HF. apply Permutation_nil_r in HF as ->.
    rewrite Hc. simpl. wp_pure. done. }
  pose proof Hc as (Hh & Hb & _). simpl in Hh, Hb.
  rewrite Hh. pose proof (data_block_range _ _ Hb (proj1 (ok_table _ Hok))).
  rewrite (proj2 (Z.eqb_neq b 0)) by lia.
  wp_apply data_read_spec; [done|done|done|].
  intros ? fs1 (-> & Hok1 & Habs1). simpl.
  assert (superblock fs1 = superblock fs) as Hsb1 by apply Habs1.
  pose proof (length_a_block fs b) as Hlen. simpl in Hlen.
  match goal with |- context [first_slot ?p ?l ?i ?n] =>
    destruct (first_slot p l i n) as [k|] eqn:Hs end.
  - apply first_slot_Some in Hs as [Hk Hnz%negb_true_iff%Z.eqb_neq].
    destruct (is_free_take_slot (abs fs) F b rest k _ Hfree Hc HF Hlen Hk Hnz eq_refl)
      as (F' & HF' & Hfree' & HbF').
    wp_apply data_write_spec; [done|by rewrite Hsb1| |].
    { apply length_index_set; [done|lia|lia]. }
    intros ? fs2 (-> & Hok2 & Habs2). simpl. wp_pure.
    rewrite Habs1 in Habs2. split; [done|]. exists F'. split; [done|].
    rewrite Habs2. split; [done|].
    eapply frame_weaken; [|apply upd_block_frame]. by intros ? ->%list_elem_of_singleton.
  - apply first_slot_None in Hs. wp_pure.
    destruct (is_free_take_node (abs fs) F b rest Hfree Hc HF) as (F' & HF' & Hfree').
    { by apply nonzero_all_zero. }
    pose proof (index_get_range 0 _ Hlen) as Hr.
    set (fs2 := set_superblock _ fs1).
    assert (fs_ok fs2) as Hok2.
    { apply fs_ok_set_superblock; [done| |done..].
      apply c_ok_free_blocks_head; [apply (ok_sb _ Hok1)|lia]. }
    wp_apply save_superblock_spec; [done|].
    intros ? fs3 (-> & Hok3 & Habs3). simpl. wp_pure. split; [done|].
    exists F'. split; [done|]. rewrite Habs3.
    assert (abs fs2 ≡ upd_sb (set_free_blocks_head (index_get 0 (wblk (disk fs) b)) (superblock fs))
                         (abs fs)) as ->.
    { subst fs2. rewrite Hsb1. apply (upd_sb_equiv _ (abs fs1)); simpl; by rewrite ?Hsb1. }
    split; [done|]. by split_and!.
Qed.

End allocate.

(** ** Freeing *)
Lemma zero_entries : nonzero (index_entries zero_block) = [].
Proof. vm_compute. reflexivity. Qed.

Lemma zero_next : index_get 0 zero_block = 0.
Proof. vm_compute. reflexivity. Qed.

Lemma chain_app a head l1 b l2 :
  chain a head (l1 ++ b :: l2) → chain a b (b :: l2).
Proof.
  revert head. induction l1 as [|x l1 IH]; intros head; simpl.
  - by intros (-> & ? & ?).
  - intros (_ & _ & ?). by eapply IH.
Qed.

(** One node gains the entry [v]. *)
Lemma free_of_gain a b blk v nodes :
  NoDup nodes → b ∈ nodes →
  nonzero (index_entries blk) ≡ₚ v :: nonzero (index_entries (a_block a b)) →
  free_of (upd_block b blk a) nodes ≡ₚ v :: free_of a nodes.
Proof.
  intros Hnd Hb He. induction Hnd as [|x nodes Hx Hnd IH]; [by apply elem_of_nil in Hb|].
  simpl. destruct (Z.eqb_spec x b) as [->|Hne].
  - rewrite He, (free_of_ext a (upd_block b blk a)).
    + rewrite <-app_comm_cons. apply Permutation_swap.
    + intros b' Hb'. simpl. destruct (Z.eqb_spec b' b); [congruence|done].
  - rewrite IH by (by apply elem_of_cons in Hb as [->|]).
    rewrite <-Permutation_middle. apply Permutation_swap.
Qed.

Lemma is_free_nodes_nodup F a nodes : NoDup F → F ≡ₚ free_of a nodes → NoDup nodes.
Proof.
  intros Hnd HF. rewrite HF in Hnd.
  pose proof (nodes_submseteq a nodes) as [k Hk]%submseteq_Permutation.
  rewrite Hk in Hnd. by apply NoDup_app in Hnd as (? & _ & _).
Qed.

(** [v] is entered in an empty slot of the node [b]. *)
Lemma is_free_put_slot a F nodes b k v :
  is_free a F → chain a (sb_free_blocks_head (a_sb a)) nodes → F ≡ₚ free_of a nodes →
  b ∈ nodes → length (a_block a b) = 512%nat → (1 ≤ k < 64)%nat →
  index_get k (a_block a b) = 0 → data_block (a_sb a) v → v ∉ F → 0 < v < 2 ^ 64 →
  is_free (upd_block b (index_set k v (a_block a b)) a) (v :: F).
Proof.
  intros (Hnd & Hdata & _) Hc HF Hb Hlen Hk H0 Hv HvF Hr.
  split_and!; [by constructor|by constructor|]. exists nodes. split.
  - apply (chain_ext a); [done| |done]. intros b' _ _. simpl.
    destruct (Z.eqb_spec b' b) as [->|]; [|done]. apply index_set_next; [done|done|lia].
  - rewrite free_of_gain; [by rewrite HF|by eapply is_free_nodes_nodup|done|].
    by apply nonzero_entries_swap.
Qed.

(** [v] becomes the last node, after [b]. *)
Lemma chain_append a head l b v blk :
  NoDup (l ++ [b]) → v ∉ l ++ [b] → chain a head (l ++ [b]) → data_block (a_sb a) v →
  index_get 0 blk = v →
  chain (upd_block v zero_block (upd_block b blk a)) head (l ++ [b; v]).
Proof.
  intros Hnd Hv Hc Hd Hblk. revert head Hc Hnd Hv.
  induction l as [|x l IH]; intros head Hc Hnd Hv; simpl in *.
  - destruct Hc as (-> & Hb & _). apply not_elem_of_cons in Hv as [Hv _].
    rewrite (proj2 (Z.eqb_neq b v)) by done.
    rewrite Z.eqb_refl, Hblk. split_and!; [done..|]. rewrite Z.eqb_refl. apply zero_next.
  - destruct Hc as (-> & Hb & Hc). apply NoDup_cons in Hnd as [Hx Hnd].
    apply not_elem_of_cons in Hv as [Hxv Hv].
    rewrite (proj2 (Z.eqb_neq x v)) by done.
    rewrite (proj2 (Z.eqb_neq x b)) by (intros ->; apply Hx, elem_of_app; right; left).
    split_and!; [done..|]. by apply IH.
Qed.

Lemma free_of_app a l1 l2 : free_of a (l1 ++ l2) = free_of a l1 ++ free_of a l2.
Proof. induction l1 as [|b l1 IH]; simpl; [done|]. by rewrite IH, app_assoc. Qed.

Lemma is_free_append a F l b v :
  is_free a F → chain a (sb_free_blocks_head (a_sb a)) (l ++ [b]) → F ≡ₚ free_of a (l ++ [b]) →
  length (a_block a b) = 512%nat → data_block (a_sb a) v → v ∉ F → 0 < v < 2 ^ 64 →
  is_free (upd_block v zero_block (upd_block b (index_set 0 v (a_block a b)) a)) (v :: F).
Proof.
  intros (Hnd & Hdata & _) Hc HF Hlen Hv HvF Hr.
  assert (NoDup (l ++ [b])) as Hndl by by eapply is_free_nodes_nodup.
  assert (v ∉ l ++ [b]) as Hvl.
  { intros Hin%(nodes_free a). rewrite <-HF in Hin. done. }
  pose proof (index_fits 0 _ Hlen ltac:(lia)) as Hfit.
  split_and!; [by constructor|by constructor|]. exists (l ++ [b; v]). split.
  - apply chain_append; [done..|].
    apply (get_set_at_eq u64_c); [apply in_width_u64; lia|done].
  - set (a' := upd_block _ _ _).
    assert (∀ x, x ∈ l ++ [b] → nonzero (index_entries (a_block a' x)) =
                                nonzero (index_entries (a_block a x))) as He.
    { intros x Hx. subst a'. simpl.
      destruct (Z.eqb_spec x v) as [->|]; [by exfalso|].
      destruct (Z.eqb_spec x b) as [->|]; [|done].
      by rewrite index_entries_set_next by (done || lia). }
    assert (free_of a' (l ++ [b]) = free_of a (l ++ [b])) as Hf.
    { by apply free_of_entries. }
    rewrite HF, <-Hf. replace (l ++ [b; v]) with ((l ++ [b]) ++ [v]) by by rewrite <-app_assoc.
    rewrite (free_of_app a' _ [v]). simpl. rewrite Z.eqb_refl, zero_entries; simpl.
    apply Permutation_cons_append.
Qed.

(** A block number below the size of the disk bounds the list's length. *)
Lemma data_blocks_length sb l :
  NoDup l → Forall (data_block sb) l → 1 ≤ sb_inode_table_blocks sb →
  (length l ≤ Z.to_nat (sb_blocks sb))%nat.
Proof.
  intros Hnd Hl Ht. rewrite <-(length_seqZ 0 (sb_blocks sb)).
  apply submseteq_length, NoDup_submseteq; [done|].
  intros b Hb. rewrite Forall_forall in Hl. pose proof (data_block_range _ _ (Hl _ Hb) Ht).
  apply elem_of_seqZ. lia.
Qed.

Section free.
  Context `{Env, !ReliableIO}.

(** The state of the search: [visited] nodes are behind, [rest] ahead. *)
Definition free_search_inv (fs : filesystem) (nodes : list Z) (n : nat)
    (acc : Z * Z * list byte) (s : filesystem) : Prop :=
  let '(node, prev_node, tmp_block) := acc in
  ∃ visited rest,
    nodes = visited ++ rest ∧ n = length rest ∧
    node = match rest with [] => 0 | b :: _ => b end ∧
    (visited ≠ [] → ∃ l, visited = l ++ [prev_node] ∧ tmp_block = a_block (abs fs) prev_node) ∧
    length tmp_block = 512%nat ∧ fs_ok s ∧ abs s ≡ abs fs.

Lemma free_block_search fs F nodes v :
  is_free (abs fs) F → chain (abs fs) (sb_free_blocks_head (superblock fs)) nodes →
  F ≡ₚ free_of (abs fs) nodes →
  data_block (superblock fs) v → v ∉ F → 0 < v < 2 ^ 64 →
  1 ≤ sb_inode_table_blocks (superblock fs) → sb_blocks (superblock fs) < 2 ^ 64 →
  ∀ n acc s, free_search_inv fs nodes n acc s →
  wp (free_block_step v acc) s (λ c s', match c with
    | Continue a' => ∃ n', (n' < n)%nat ∧ free_search_inv fs nodes n' a' s'
    | Break (node, prev_node, tmp_block) =>
        free_search_inv fs nodes 0 (node, prev_node, tmp_block) s'
    | Return r => r = 0 ∧ fs_ok s' ∧ is_free (abs s') (v :: F) ∧ frame (v :: F) (abs fs) (abs s')
    end).
Proof.
  intros Hfree Hc HF Hv HvF Hr Ht Hbl n [[node prev] tmp] s
    (visited & rest & Hnodes & -> & -> & Hprev & Htmp & Hok & Habs).
  unfold free_block_step. destruct rest as [|b rest].
  { simpl. wp_pure. by exists visited, []. }
  pose proof Hc as Hcb. rewrite Hnodes in Hcb. apply chain_app in Hcb as (_ & Hb & Hcr).
  simpl in Hb. pose proof (data_block_range _ _ Hb Ht).
  rewrite (proj2 (Z.eqb_neq b 0)) by lia.
  assert (superblock s = superblock fs) as Hsb by apply Habs.
  wp_apply data_read_spec; [done|by rewrite Hsb|done|].
  intros ? s1 (-> & Hok1 & Habs1). simpl.
  assert (wblk (disk s) b = a_block (abs fs) b) as -> by (apply Habs; simpl; by rewrite ?Hsb).
  pose proof (length_a_block fs b) as Hlen.
  match goal with |- context [first_slot ?p ?l ?i ?n] =>
    destruct (first_slot p l i n) as [k|] eqn:Hs end.
  - apply first_slot_Some in Hs as [Hk Hz%Z.eqb_eq].
    wp_apply data_write_spec; [done| |by apply length_index_set; [|lia|lia]|].
    { rewrite (proj1 Habs1 : superblock s1 = superblock s). by rewrite Hsb. }
    intros ? s2 (-> & Hok2 & Habs2). simpl. wp_pure.
    rewrite Habs1, Habs in Habs2. split_and!; [done|done|rewrite Habs2..].
    + eapply is_free_put_slot; [done|done|done| |done|done|done|done|done|done].
      rewrite Hnodes. apply elem_of_app. right. left.
    + eapply frame_weaken; [|apply upd_block_frame].
      intros ? ->%list_elem_of_singleton. right. rewrite HF. apply nodes_free.
      rewrite Hnodes. apply elem_of_app. right. left.
  - wp_pure. exists (length rest). split; [simpl; lia|].
    exists (visited ++ [b]), rest. split_and!.
    + by rewrite <-app_assoc.
    + done.
    + by destruct rest as [|b' rest]; simpl in Hcr; [|destruct Hcr].
    + intros _. by exists visited.
    + done.
    + done.
    + by rewrite Habs1.
Qed.

(** The last two writes: the freed block becomes the last node. *)
Lemma free_block_append fs F l b v s :
  is_free (abs fs) F → chain (abs fs) (sb_free_blocks_head (superblock fs)) (l ++ [b]) →
  F ≡ₚ free_of (abs fs) (l ++ [b]) →
  data_block (superblock fs) v → v ∉ F → 0 < v < 2 ^ 64 → data_block (superblock fs) b →
  fs_ok s → abs s ≡ abs fs →
  wp (r ← at_disk (block_write b (index_set 0 v (a_block (abs fs) b)));
      return_if negb (r =? BLOCK_SIZE) with -1;
      r ← at_disk (block_write v zero_block);
      return_if negb (r =? BLOCK_SIZE) with -1;
      mret 0) s (λ r s',
    r = 0 ∧ fs_ok s' ∧ is_free (abs s') (v :: F) ∧ frame (v :: F) (abs fs) (abs s')).
Proof.
  intros Hfree Hc HF Hv HvF Hr Hb Hok Habs. pose proof (length_a_block fs b) as Hlen.
  assert (superblock s = superblock fs) as Hsb by apply Habs.
  wp_apply data_write_spec; [done|by rewrite Hsb|by apply length_index_set; [|lia|lia]|].
  intros ? s1 (-> & Hok1 & Habs1). simpl.
  wp_apply data_write_spec; [done| |apply length_zero_block|].
  { by rewrite (proj1 Habs1 : superblock s1 = superblock s), Hsb. }
  intros ? s2 (-> & Hok2 & Habs2). simpl. wp_pure.
  rewrite Habs1, Habs in Habs2. split_and!; [done|done|rewrite Habs2..].
  - by eapply is_free_append.
  - eapply frame_weaken; [|eapply frame_trans; apply upd_block_frame].
    intros x. rewrite elem_of_app, !list_elem_of_singleton. intros [->| ->]; [right|left].
    rewrite HF. apply nodes_free, elem_of_app. right. left.
Qed.

Lemma free_block_spec fs F v :
  fs_ok fs → is_free (abs fs) F → data_block (superblock fs) v → v ∉ F →
  wp (sfs_fs_free_block v) fs (λ r fs',
    r = 0 ∧ fs_ok fs' ∧ is_free (abs fs') (v :: F) ∧ frame (v :: F) (abs fs) (abs fs')).
Proof.
  intros Hok Hfree Hv HvF. pose proof Hfree as (Hnd & Hdata & nodes & Hc & HF).
  pose proof (ok_table _ Hok) as Ht. pose proof (ok_size _ Hok) as Hsz. unfold BLOCK_SIZE in Hsz.
  pose proof (data_block_range _ _ Hv ltac:(lia)) as Hr.
  unfold sfs_fs_free_block. wp_pure.
  destruct (Z.eqb_spec (sb_free_blocks_head (superblock fs)) 0) as [Hz|Hnz].
  - assert (nodes = []) as ->.
    { destruct nodes as [|b rest]; [done|]. destruct Hc as (Hh & Hb & _).
      simpl in Hh. pose proof (data_block_range _ _ Hb). simpl in *. lia. }
    simpl in HF. apply Permutation_nil_r in HF as ->.
    wp_apply data_write_spec; [done|done|apply length_zero_block|].
    intros ? s1 (-> & Hok1 & Habs1). simpl. wp_pure.
    assert (superblock s1 = superblock fs) as Hsb1 by apply Habs1.
    wp_apply save_superblock_spec.
    { apply fs_ok_set_superblock; [done| |done..].
      apply c_ok_free_blocks_head; [apply (ok_sb _ Hok1)|lia]. }
    intros ? s2 (-> & Hok2 & Habs2). simpl. wp_pure.
    assert (abs s2 ≡ upd_sb (set_free_blocks_head v (superblock fs))
                       (upd_block v zero_block (abs fs))) as Habs.
    { rewrite Habs2, Hsb1. rewrite <-Hsb1 at 1.
      change (abs (set_superblock ?x s1)) with (upd_sb x (abs s1)). rewrite Hsb1.
      apply upd_sb_equiv; [done|simpl; by rewrite Hsb1..]. }
    split_and!; [done|done|rewrite Habs..].
    + split_and!; [apply NoDup_singleton|by constructor|].
      exists [v]. simpl. rewrite Z.eqb_refl, zero_entries, zero_next. done.
    + split_and!; [done..|]. intros b _ Hb. simpl.
      destruct (Z.eqb_spec b v) as [->|]; [destruct Hb; left|done].
  - eapply wp_bind, wp_while_true with
      (I := free_search_inv fs nodes) (n := length nodes).
    + unfold free_block_fuel. pose proof (chain_data_block _ _ _ Hc) as Hnodes.
      pose proof (data_blocks_length _ _ (is_free_nodes_nodup _ _ _ Hnd HF) Hnodes) as Hl.
      simpl in Hl. specialize (Hl (proj1 Ht)).
      enough (sb_blocks (superblock fs) ≤ w_size (disk fs) / BLOCK_SIZE) by lia.
      unfold BLOCK_SIZE. apply Z.div_le_lower_bound; lia.
    + exists [], nodes. split_and!; try done.
      by destruct nodes as [|b rest]; simpl in Hc; [|destruct Hc].
    + intros n acc s Hinv. eapply wp_mono; [eapply free_block_search; eauto; lia|].
      intros [a|[[node prev] tmp]|r] s' Hs'; [done| |by apply wp_ret].
      destruct Hs' as (visited & rest & Hnodes & Hn & -> & Hprev & Htmp & Hok' & Habs').
      symmetry in Hn. apply nil_length_inv in Hn as ->. rewrite app_nil_r in Hnodes. subst visited.
      destruct Hprev as (l & -> & ->); [by intros ->|].
      eapply free_block_append; try done; [lia|].
      apply chain_data_block in Hc. rewrite Forall_forall in Hc. apply Hc.
      apply elem_of_app. right. left.
Qed.

End free.
