(* ===== verification/FsFiles.v ===== *)
(** * The blocks of a file

    A file is seen as an array of logical blocks, holes reading as zeros; the
    pointers of its inode, direct and through the indirect block, say where
    each one is.  Reading and writing logical blocks is specified on that
    view. *)

From S2P Require Export FsBlocks.

Definition file_blocks : Z := SFS_NDIR_BLOCKS + SFS_NIND_BLOCKS.

(** Where logical block [i] is; 0 is a hole. *)
Definition file_ptr (a : fs_abs) (inode : sfs_fs_inode) (i : Z) : Z :=
  if i <? SFS_NDIR_BLOCKS then bp inode i
  else if bp inode SFS_IND_BLOCK =? 0 then 0
  else index_get (Z.to_nat (i - SFS_NDIR_BLOCKS)) (a_block a (bp inode SFS_IND_BLOCK)).

Definition file_block (a : fs_abs) (inode : sfs_fs_inode) (i : Z) : list byte :=
  if file_ptr a inode i =? 0 then zero_block else a_block a (file_ptr a inode i).

Lemma length_file_block fs inode i : length (file_block (abs fs) inode i) = 512%nat.
Proof. unfold file_block. destruct (_ =? 0); [apply length_zero_block|apply length_a_block]. Qed.

(** The blocks of the disk a file uses, the indirect block included. *)
Definition file_ptrs (a : fs_abs) (inode : sfs_fs_inode) : list Z :=
  map (file_ptr a inode) (seqZ 0 file_blocks).
Definition owned (a : fs_abs) (inode : sfs_fs_inode) : list Z :=
  nonzero (bp inode SFS_IND_BLOCK :: file_ptrs a inode).

(** The file's blocks are data blocks that are not free, and none serves
    twice. *)
Record file_wf (a : fs_abs) (inode : sfs_fs_inode) (F : list Z) : Prop := FileWf {
  wf_ind : bp inode SFS_IND_BLOCK ≠ 0 →
    data_block (a_sb a) (bp inode SFS_IND_BLOCK) ∧ (bp inode SFS_IND_BLOCK ∉ F);
  wf_ptr i : 0 ≤ i < file_blocks → file_ptr a inode i ≠ 0 →
    data_block (a_sb a) (file_ptr a inode i) ∧ (file_ptr a inode i ∉ F) ∧
    file_ptr a inode i ≠ bp inode SFS_IND_BLOCK;
  wf_inj i j : 0 ≤ i < file_blocks → 0 ≤ j < file_blocks →
    file_ptr a inode i ≠ 0 → file_ptr a inode i = file_ptr a inode j → i = j;
}.

(** A file of holes owns nothing. *)
Lemma file_ptr_hole a inode i : i_block_pointers inode = replicate 14 0 → file_ptr a inode i = 0.
Proof.
  intros Hp. assert (∀ k, bp inode k = 0) as Hbp.
  { intros k. unfold bp. rewrite Hp. destruct (nth_in_or_default (Z.to_nat k) (replicate 14 0) 0) as [Hin|E];
      [|done]. apply list_elem_of_In, elem_of_replicate in Hin. tauto. }
  unfold file_ptr. rewrite !Hbp. by destruct (i <? _).
Qed.

Lemma file_wf_holes a inode F : i_block_pointers inode = replicate 14 0 → file_wf a inode F.
Proof.
  intros Hp. split.
  - unfold bp. rewrite Hp. by intros [].
  - intros i _ Hi. by rewrite file_ptr_hole in Hi.
  - intros i j _ _ Hi. by rewrite file_ptr_hole in Hi.
Qed.

(** ** Pointers *)
Lemma elem_of_nonzero l v : v ∈ nonzero l ↔ v ≠ 0 ∧ v ∈ l.
Proof.
  unfold nonzero. rewrite !list_elem_of_In, filter_In, negb_true_iff, Z.eqb_neq. tauto.
Qed.

Lemma elem_of_owned a inode b :
  b ∈ owned a inode ↔
  b ≠ 0 ∧ (b = bp inode SFS_IND_BLOCK ∨ ∃ i, 0 ≤ i < file_blocks ∧ b = file_ptr a inode i).
Proof.
  unfold owned, file_ptrs. rewrite elem_of_nonzero, elem_of_cons, list_elem_of_fmap.
  setoid_rewrite elem_of_seqZ. split.
  - intros (? & [?|(i & -> & ?)]); [by auto|]. split; [done|]. right. exists i. split; [lia|done].
  - intros (? & [?|(i & ? & ->)]); [by auto|]. split; [done|]. right. exists i. split; [done|lia].
Qed.

Lemma bp_set_bp_eq k v i :
  (Z.to_nat k < length (i_block_pointers i))%nat → bp (set_bp k v i) k = v.
Proof.
  intros. unfold bp, set_bp; simpl. apply nth_lookup_Some. by apply list_lookup_insert_eq.
Qed.

Lemma bp_set_bp_ne k k' v i : 0 ≤ k → 0 ≤ k' → k ≠ k' → bp (set_bp k v i) k' = bp i k'.
Proof.
  intros. unfold bp, set_bp; simpl. rewrite !nth_lookup.
  by rewrite list_lookup_insert_ne by lia.
Qed.

Lemma inode_ok_pointers i : inode_ok i = true → length (i_block_pointers i) = 14%nat.
Proof. rewrite inode_ok_spec. tauto. Qed.

Lemma inode_ok_set_bp k v i :
  inode_ok i = true → 0 ≤ v < 2 ^ 64 → inode_ok (set_bp k v i) = true.
Proof.
  rewrite !inode_ok_spec. intros (?&?&?&?&?&?&?&?&?&?&Hi) Hv. simpl. rewrite length_insert.
  split_and!; try tauto.
  rewrite forallb_forall in *. intros x Hx%list_elem_of_In.
  apply list_elem_of_lookup in Hx as [n Hn]. apply list_lookup_insert_Some in Hn.
  destruct Hn as [(_ & <- & _)|[_ Hn]]; [by apply in_width_spec|].
  apply Hi, list_elem_of_In. by eapply list_elem_of_lookup_2.
Qed.

Lemma data_block_not_bad sb b :
  data_block sb b → 0 ≤ sb_inode_table_blocks sb < 2 ^ 64 - 1 → bad_block sb b = false.
Proof.
  intros [Hl Hr] Ht. unfold bad_block. rewrite u64_small by lia.
  apply orb_false_iff. split; [apply Z.ltb_ge|apply Z.leb_gt]; lia.
Qed.

Lemma outside_bad sb b :
  b ≤ sb_inode_table_blocks sb ∨ sb_blocks sb ≤ b → 0 ≤ sb_inode_table_blocks sb < 2 ^ 64 - 1 → bad_block sb b = true.
Proof.
  intros Hb Ht. unfold bad_block. rewrite u64_small by lia. apply orb_true_iff.
  destruct Hb; [left; apply Z.ltb_lt; lia|right; by apply Z.leb_le].
Qed.

Lemma file_ptr_equiv a a' inode i :
  a ≡ a' → (bp inode SFS_IND_BLOCK ≠ 0 → data_block (a_sb a) (bp inode SFS_IND_BLOCK)) →
  file_ptr a inode i = file_ptr a' inode i.
Proof.
  intros (_ & _ & Hb) Hind. unfold file_ptr.
  destruct (i <? SFS_NDIR_BLOCKS); [done|].
  destruct (Z.eqb_spec (bp inode SFS_IND_BLOCK) 0); [done|]. rewrite Hb; auto.
Qed.

(** Accesses inside the arrays. *)
Lemma pointer_at_ok inode i : 0 ≤ i < SFS_N_BLOCKS → pointer_at inode i = mret (bp inode i).
Proof.
  intros Hi. unfold pointer_at. by rewrite (proj2 (Z.leb_le 0 i)), (proj2 (Z.ltb_lt i SFS_N_BLOCKS)) by lia.
Qed.

Lemma pointer_at_direct inode i : 0 ≤ i < SFS_NDIR_BLOCKS → pointer_at inode i = mret (bp inode i).
Proof. intros Hi. apply pointer_at_ok. change SFS_NDIR_BLOCKS with 12 in Hi. change SFS_N_BLOCKS with 14. lia. Qed.

Lemma pointer_at_ind inode : pointer_at inode SFS_IND_BLOCK = mret (bp inode SFS_IND_BLOCK).
Proof. by apply pointer_at_ok. Qed.

Lemma number_at_ok index arr :
  0 ≤ index < SFS_NIND_BLOCKS → number_at index arr = mret (index_get (Z.to_nat index) arr).
Proof.
  intros Hi. unfold number_at. change (Z.of_nat index_slots) with SFS_NIND_BLOCKS.
  by rewrite (proj2 (Z.leb_le 0 index)), (proj2 (Z.ltb_lt index SFS_NIND_BLOCKS)) by lia.
Qed.

Section files.
  Context `{Env, !ReliableIO} (stack_len : length env_stack_block = 512%nat).

(** ** Reading *)
Lemma read_from_indirect_spec fs ib index :
  fs_ok fs → 0 ≤ index < SFS_NIND_BLOCKS → (ib ≠ 0 → data_block (superblock fs) ib) →
  wp (read_from_indirect ib index false) fs (λ r fs',
    r = Some (if ib =? 0 then 0 else index_get (Z.to_nat index) (a_block (abs fs) ib)) ∧
    fs_ok fs' ∧ abs fs' ≡ abs fs).
Proof.
  intros Hok Hindex Hib. unfold read_from_indirect.
  destruct (Z.eqb_spec ib 0) as [->|Hne]; [by wp_pure|].
  wp_apply data_read_spec; [done|by apply Hib|done|].
  intros ? fs1 (-> & Hok1 & Habs1). simpl. rewrite number_at_ok by done. by wp_pure.
Qed.

(** The number of the block that is read. *)
Lemma read_pointer_spec fs inode i :
  fs_ok fs → 0 ≤ i < file_blocks →
  (bp inode SFS_IND_BLOCK ≠ 0 → data_block (superblock fs) (bp inode SFS_IND_BLOCK)) →
  wp (if i <? SFS_NDIR_BLOCKS then
        p ← pointer_at inode i; mret (Some p)
      else if i <? SFS_NDIR_BLOCKS + SFS_NIND_BLOCKS then
        p ← pointer_at inode SFS_IND_BLOCK; read_from_indirect p (i - SFS_NDIR_BLOCKS) false
      else mret None) fs (λ o fs1, o = Some (file_ptr (abs fs) inode i) ∧ fs_ok fs1 ∧ abs fs1 ≡ abs fs).
Proof.
  intros Hok Hi Hind. unfold file_ptr, file_blocks in *.
  destruct (Z.ltb_spec i SFS_NDIR_BLOCKS); [rewrite pointer_at_direct by lia; by wp_pure|].
  rewrite (proj2 (Z.ltb_lt i _)), pointer_at_ind by lia. wp_pure. apply read_from_indirect_spec; [done|lia|done].
Qed.

(** The block that is written, when the file has it. *)
Lemma block_for_write_mapped fs inode i :
  fs_ok fs → 0 ≤ i < file_blocks →
  (bp inode SFS_IND_BLOCK ≠ 0 → data_block (superblock fs) (bp inode SFS_IND_BLOCK)) →
  file_ptr (abs fs) inode i ≠ 0 →
  wp (block_for_write inode i) fs (λ r fs1,
    r = (Some (file_ptr (abs fs) inode i), inode) ∧ fs_ok fs1 ∧ abs fs1 ≡ abs fs).
Proof.
  intros Hok Hi Hind Hnz. unfold block_for_write, file_ptr, file_blocks in *.
  destruct (Z.ltb_spec i SFS_NDIR_BLOCKS).
  { rewrite pointer_at_direct by lia. wp_pure. rewrite (proj2 (Z.eqb_neq _ _) Hnz). by wp_pure. }
  destruct (Z.eqb_spec (bp inode SFS_IND_BLOCK) 0) as [|Hib]; [done|].
  rewrite (proj2 (Z.ltb_lt i _)), pointer_at_ind by lia. wp_pure. rewrite (proj2 (Z.eqb_neq _ _) Hib). wp_pure.
  cbn [Z.eqb negb]. rewrite pointer_at_ind. wp_pure. unfold read_from_indirect. rewrite (proj2 (Z.eqb_neq _ _) Hib). wp_pure.
  wp_apply data_read_spec; [done|by apply Hind|done|]. intros ? fs1 (-> & Hok1 & Habs1). cbn [Z.eqb negb].
  rewrite Z.eqb_refl. cbn [negb]. rewrite number_at_ok by lia. wp_pure. simpl in Hnz |- *.
  rewrite (proj2 (Z.eqb_neq _ _) Hnz). by wp_pure.
Qed.

Lemma block_read_spec fs inode i buf :
  fs_ok fs → 0 ≤ i < file_blocks → length buf = 512%nat →
  (bp inode SFS_IND_BLOCK ≠ 0 → data_block (superblock fs) (bp inode SFS_IND_BLOCK)) →
  (file_ptr (abs fs) inode i ≠ 0 → data_block (superblock fs) (file_ptr (abs fs) inode i)) →
  wp (sfs_fs_inode_block_read inode i buf) fs (λ r fs',
    r = (0, file_block (abs fs) inode i) ∧ fs_ok fs' ∧ abs fs' ≡ abs fs).
Proof.
  intros Hok Hi Hbuf Hind Hptr. unfold sfs_fs_inode_block_read, file_block.
  eapply wp_bind_mono; [by apply read_pointer_spec|].
  intros o fs1 (-> & Hok1 & Habs1).
  destruct (Z.eqb_spec (file_ptr (abs fs) inode i) 0) as [Hz|Hnz]; [by wp_pure|].
  wp_pure. assert (superblock fs1 = superblock fs) as Hsb1 by apply Habs1.
  pose proof (ok_table _ Hok). specialize (Hptr Hnz).
  rewrite Hsb1, data_block_not_bad by (done || lia).
  wp_apply data_read_spec; [done|by rewrite Hsb1|done|].
  intros ? fs2 (-> & Hok2 & Habs2). simpl. wp_pure.
  split; [|by rewrite Habs2]. f_equal. apply Habs1; simpl. by rewrite Hsb1.
Qed.

(** ** Finding the block to write *)

(** The file after logical block [i] got the block [p]: either it had it, or it
    comes from the free blocks, of which [F'] are left. *)
Record mapped (a : fs_abs) (inode : sfs_fs_inode) (F : list Z) (i p : Z)
    (a' : fs_abs) (inode' : sfs_fs_inode) (F' : list Z) : Prop := Mapped {
  m_free : is_free a' F';
  m_origin : (p = file_ptr a inode i ∧ F' = F) ∨ (file_ptr a inode i = 0 ∧ F ≡ₚ p :: F');
  m_block : data_block (a_sb a) p ∧ (p ∉ F') ∧ p ≠ bp inode SFS_IND_BLOCK;
  m_ptr : file_ptr a' inode' i = p;
  m_other j : 0 ≤ j < file_blocks → j ≠ i → file_ptr a' inode' j = file_ptr a inode j;
  m_ind : bp inode' SFS_IND_BLOCK = bp inode SFS_IND_BLOCK;
  m_inumber : i_inumber inode' = i_inumber inode;
  m_members : set_block_pointers [] inode' = set_block_pointers [] inode;
  m_ok : inode_ok inode' = true;
  m_sb : set_free_blocks_head 0 (a_sb a') = set_free_blocks_head 0 (a_sb a);
  m_blocks b : data_block (a_sb a) b → b ∉ F' → b ≠ bp inode SFS_IND_BLOCK →
    a_block a' b = a_block a b;
  m_inodes n : valid_inumber (a_sb a) n → n ≠ i_inumber inode → a_inode a' n = a_inode a n;
  m_stored : a_inode a (i_inumber inode) = inode → a_inode a' (i_inumber inode) = inode';
}.

Lemma free_data_block a F b : is_free a F → b ∈ F → data_block (a_sb a) b.
Proof. intros (_ & Hd & _) Hb. rewrite Forall_forall in Hd. auto. Qed.

Lemma free_cons_notin a F b F' : is_free a F → F ≡ₚ b :: F' → b ∉ F'.
Proof. intros (Hnd & _) HF. rewrite HF in Hnd. by apply NoDup_cons in Hnd as [? _]. Qed.

Section block_for_write.
  Context (fs : filesystem) (inode : sfs_fs_inode) (F : list Z) (i : Z).
  Context (Hok : fs_ok fs) (Hfree : is_free (abs fs) F) (Hwf : file_wf (abs fs) inode F).
  Context (Hio : inode_ok inode = true) (Hn : valid_inumber (superblock fs) (i_inumber inode)).
  Context (Hi : 0 ≤ i < file_blocks).

(** The block is there already. *)
Lemma mapped_same fs' :
  file_ptr (abs fs) inode i ≠ 0 → abs fs' ≡ abs fs →
  mapped (abs fs) inode F i (file_ptr (abs fs) inode i) (abs fs') inode F.
Proof.
  intros Hnz Habs.
  assert (∀ j, file_ptr (abs fs') inode j = file_ptr (abs fs) inode j) as Hptr.
  { intros j. symmetry. apply file_ptr_equiv; [done|]. intros. by apply Hwf. }
  destruct (wf_ptr _ _ _ Hwf i Hi Hnz) as (? & ? & ?).
  pose proof Habs as (Hs & Hin & Hbl). rewrite Hs in Hin, Hbl.
  split; try done; [by rewrite Habs|by left|by rewrite Hs| | |].
  - intros b Hb _ _. by apply Hbl.
  - intros n Hvn _. by apply Hin.
  - intros E. rewrite Hin; [exact E|done].
Qed.

(** A free block is entered among the direct pointers. *)
Lemma mapped_direct fs1 fs2 b F' :
  i < SFS_NDIR_BLOCKS → bp inode i = 0 → F ≡ₚ b :: F' →
  is_free (abs fs1) F' → frame F' (abs fs) (abs fs1) →
  abs fs2 ≡ upd_inode (set_bp i b inode) (abs fs1) →
  mapped (abs fs) inode F i b (abs fs2) (set_bp i b inode) F'.
Proof.
  intros Hdir Hz HF Hfree1 Hfr Habs2.
  assert (0 ≤ i < 12) as Hi' by (destruct Hi; done).
  pose proof (inode_ok_pointers _ Hio) as Hlen.
  pose proof (free_cons_notin _ _ _ _ Hfree HF) as HbF.
  assert (b ∈ F) as HbF' by (rewrite HF; left).
  pose proof (free_data_block _ _ _ Hfree HbF') as Hb.
  pose proof (data_block_range _ _ Hb (proj1 (ok_table _ Hok))) as Hr. simpl in Hr.
  pose proof (ok_size _ Hok) as Hsz. unfold BLOCK_SIZE in Hsz.
  assert (bp (set_bp i b inode) SFS_IND_BLOCK = bp inode SFS_IND_BLOCK) as Hbi.
  { apply bp_set_bp_ne; [lia|done|]. change SFS_IND_BLOCK with 12. lia. }
  pose proof Hfr as (Fs & Fi & Fb).
  assert (∀ x, data_block (superblock fs) x → x ∉ F' → wblk (disk fs2) x = wblk (disk fs) x) as Hbl.
  { intros x Hx HxF. etrans; [|by apply Fb]. apply Habs2; simpl.
    rewrite (proj1 Habs2 : superblock fs2 = superblock fs1).
    by apply (frame_data_block _ _ _ x Hfr). }
  split.
  - rewrite Habs2. by apply is_free_upd_inode.
  - right. unfold file_ptr. by rewrite (proj2 (Z.ltb_lt _ _) Hdir).
  - split_and!; [done..|]. intros ->. apply (wf_ind _ _ _ Hwf); [lia|done].
  - unfold file_ptr. rewrite (proj2 (Z.ltb_lt _ _) Hdir). apply bp_set_bp_eq. lia.
  - intros j Hj Hji. unfold file_ptr. rewrite Hbi.
    destruct (j <? SFS_NDIR_BLOCKS); [apply bp_set_bp_ne; lia|].
    destruct (Z.eqb_spec (bp inode SFS_IND_BLOCK) 0); [done|]. simpl.
    destruct (wf_ind _ _ _ Hwf) as [Hid HiF]; [done|].
    rewrite Hbl; [done..|]. intros ?. apply HiF. rewrite HF. by right.
  - done.
  - done.
  - done.
  - apply inode_ok_set_bp; [done|lia].
  - by rewrite (proj1 Habs2 : a_sb (abs fs2) = a_sb (abs fs1)).
  - intros x Hx HxF _. by apply Hbl.
  - intros n Hvn Hne. etrans; [|by apply Fi].
    destruct Habs2 as (Hs2 & Hi2 & _). rewrite Hi2.
    + simpl. by rewrite (proj2 (Z.eqb_neq _ _) Hne).
    + rewrite Hs2. by apply (frame_valid _ _ _ n Hfr).
  - intros _. destruct Habs2 as (Hs2 & Hi2 & _). rewrite Hi2.
    + simpl. by rewrite Z.eqb_refl.
    + rewrite Hs2. by apply (frame_valid _ _ _ _ Hfr).
Qed.

(** A free block is entered in the indirect block. *)
Lemma mapped_indirect fs1 fs2 b F' :
  let ib := bp inode SFS_IND_BLOCK in
  SFS_NDIR_BLOCKS ≤ i → ib ≠ 0 → file_ptr (abs fs) inode i = 0 → F ≡ₚ b :: F' →
  is_free (abs fs1) F' → frame F' (abs fs) (abs fs1) →
  abs fs2 ≡ upd_block ib (index_set (Z.to_nat (i - SFS_NDIR_BLOCKS)) b (a_block (abs fs) ib)) (abs fs1) →
  mapped (abs fs) inode F i b (abs fs2) inode F'.
Proof.
  intros ib Hge Hib Hz HF Hfree1 Hfr Habs2.
  pose proof (free_cons_notin _ _ _ _ Hfree HF) as HbF.
  assert (b ∈ F) as HbF' by (rewrite HF; left).
  pose proof (free_data_block _ _ _ Hfree HbF') as Hb.
  pose proof (data_block_range _ _ Hb (proj1 (ok_table _ Hok))) as Hr. simpl in Hr.
  pose proof (ok_size _ Hok) as Hsz. unfold BLOCK_SIZE in Hsz.
  destruct (wf_ind _ _ _ Hwf Hib) as [Hid HiF].
  assert (ib ∉ F') as HiF' by (intros ?; apply HiF; rewrite HF; by right).
  pose proof Hfr as (Fs & Fi & Fb).
  assert (∀ x, data_block (superblock fs) x → wblk (disk fs2) x =
    if x =? ib then index_set (Z.to_nat (i - SFS_NDIR_BLOCKS)) b (a_block (abs fs) ib)
    else wblk (disk fs1) x) as Hbl.
  { intros x Hx. apply Habs2; simpl.
    rewrite (proj1 Habs2 : superblock fs2 = superblock fs1).
    by apply (frame_data_block _ _ _ x Hfr). }
  assert (∀ k, 12 ≤ k < 76 → (Z.to_nat (k - SFS_NDIR_BLOCKS) < 64)%nat) as Hlt.
  { intros k Hk. change SFS_NDIR_BLOCKS with 12. lia. }
  change file_blocks with 76 in *. change SFS_NDIR_BLOCKS with 12 in Hge |- *.
  pose proof (length_a_block fs ib) as Hlen.
  assert (∀ j, 0 ≤ j < 76 → file_ptr (abs fs2) inode j =
    if j =? i then b else file_ptr (abs fs) inode j) as Hptr.
  { intros j Hj. unfold file_ptr. change SFS_NDIR_BLOCKS with 12 in *.
    fold ib. rewrite (proj2 (Z.eqb_neq _ _) Hib). simpl.
    destruct (Z.ltb_spec j 12) as [?|Hj12].
    { by rewrite (proj2 (Z.eqb_neq j i)) by lia. }
    rewrite Hbl, Z.eqb_refl by done.
    destruct (Z.eqb_spec j i) as [->|Hne].
    - apply (get_set_at_eq u64_c); [apply in_width_u64; lia|].
      apply index_fits; [done|apply Hlt; lia].
    - apply (get_set_at_ne u64_c); [apply in_width_u64; lia| |lia].
      apply index_fits; [done|apply Hlt; lia]. }
  split; try done.
  - rewrite Habs2. by apply is_free_upd_block.
  - by right.
  - split_and!; [done..|]. intros ->. done.
  - by rewrite Hptr, Z.eqb_refl.
  - intros j Hj Hne. by rewrite Hptr, (proj2 (Z.eqb_neq _ _) Hne).
  - by rewrite (proj1 Habs2 : a_sb (abs fs2) = a_sb (abs fs1)).
  - intros x Hx HxF Hxi. fold ib in Hxi. simpl. rewrite Hbl, (proj2 (Z.eqb_neq _ _) Hxi) by done. by apply Fb.
  - intros n Hvn _. etrans; [|by apply Fi]. destruct Habs2 as (Hs2 & Hi2 & _).
    apply Hi2. rewrite Hs2. by apply (frame_valid _ _ _ n Hfr).
  - intros E. etrans; [|exact E]. etrans; [|by apply Fi]. destruct Habs2 as (Hs2 & Hi2 & _).
    apply Hi2. rewrite Hs2. by apply (frame_valid _ _ _ _ Hfr).
Qed.

Lemma free_block_fits a b : fs_ok fs → is_free a F → a_sb a = superblock fs → b ∈ F → 0 ≤ b < 2 ^ 64.
Proof.
  intros Hok' Hfree' Hsb Hb.
  pose proof (free_data_block _ _ _ Hfree' Hb) as Hd. rewrite Hsb in Hd.
  pose proof (data_block_range _ _ Hd (proj1 (ok_table _ Hok'))).
  pose proof (ok_size _ Hok'). unfold BLOCK_SIZE in *. lia.
Qed.

(** A block to write to, or nothing when none is free. *)
Definition write_target (r : option Z * sfs_fs_inode) (fs' : filesystem) : Prop :=
  fs_ok fs' ∧ match r with
  | (Some p, inode') => ∃ F', mapped (abs fs) inode F i p (abs fs') inode' F'
  | (None, inode') => F = [] ∧ file_ptr (abs fs) inode i = 0 ∧ inode' = inode ∧ abs fs' ≡ abs fs
  end.

Lemma block_for_write_direct : i < SFS_NDIR_BLOCKS → wp (block_for_write inode i) fs write_target.
Proof.
  intros Hdir. unfold block_for_write. rewrite (proj2 (Z.ltb_lt _ _) Hdir).
  assert (file_ptr (abs fs) inode i = bp inode i) as Hptr.
  { unfold file_ptr. by rewrite (proj2 (Z.ltb_lt _ _) Hdir). }
  rewrite pointer_at_direct by (destruct Hi; done). wp_pure.
  destruct (Z.eqb_spec (bp inode i) 0) as [Hz|Hnz].
  - wp_apply (allocate_block_spec stack_len fs F); [done|done|].
    intros [b|] fs1 [Hok1 Hpost]; simpl.
    2: { wp_pure. unfold write_target. rewrite Hptr. by destruct Hpost. }
    destruct Hpost as (F' & HF & Hfree1 & Hfr).
    assert (0 ≤ b < 2 ^ 64) as Hr.
    { apply (free_block_fits (abs fs)); [done|done|done|rewrite HF; left]. }
    wp_apply write_inode_spec; [done| |by apply inode_ok_set_bp|].
    { by apply (frame_valid _ _ _ _ Hfr). }
    intros ? fs2 (-> & Hok2 & Habs2). simpl. wp_pure. split; [done|].
    exists F'. by apply mapped_direct with fs1.
  - wp_pure. split; [done|]. exists F. rewrite <-Hptr. apply mapped_same; [by rewrite Hptr|done].
Qed.

Lemma block_for_write_indirect :
  SFS_NDIR_BLOCKS ≤ i → bp inode SFS_IND_BLOCK ≠ 0 → wp (block_for_write inode i) fs write_target.
Proof.
  intros Hge Hib. unfold block_for_write. rewrite (proj2 (Z.ltb_ge _ _) Hge).
  change file_blocks with 76 in Hi. change SFS_NDIR_BLOCKS with 12 in *. change SFS_NIND_BLOCKS with 64.
  rewrite (proj2 (Z.ltb_lt i (12 + 64))) by lia.
  rewrite pointer_at_ind. wp_pure. rewrite (proj2 (Z.eqb_neq _ _) Hib). wp_pure. simpl. rewrite pointer_at_ind. wp_pure.
  destruct (wf_ind _ _ _ Hwf Hib) as [Hid HiF].
  assert (file_ptr (abs fs) inode i =
          index_get (Z.to_nat (i - 12)) (a_block (abs fs) (bp inode SFS_IND_BLOCK))) as Hptr.
  { unfold file_ptr. change SFS_NDIR_BLOCKS with 12.
    by rewrite (proj2 (Z.ltb_ge _ _) Hge), (proj2 (Z.eqb_neq _ _) Hib). }
  unfold read_from_indirect. apply wp_bind. rewrite (proj2 (Z.eqb_neq _ _) Hib).
  wp_apply data_read_spec; [done|done|done|].
  intros ? fs1 (-> & Hok1 & Habs1). simpl.
  pose proof (length_a_block fs (bp inode SFS_IND_BLOCK)) as Hlen. simpl in *.
  rewrite number_at_ok by (change SFS_NIND_BLOCKS with 64; lia). wp_pure.
  rewrite <-Hptr. destruct (Z.eqb_spec (file_ptr (abs fs) inode i) 0) as [Hz|Hnz].
  2: { wp_pure. split; [done|]. exists F. by apply mapped_same. }
  wp_apply (allocate_block_spec stack_len fs1 F); [done|by rewrite Habs1|].
  intros [b|] fs2 [Hok2 Hpost]; simpl.
  2: { wp_pure. destruct Hpost as [-> Habs2]. unfold write_target. split_and!; [done..|]. by rewrite Habs2. }
  destruct Hpost as (F' & HF & Hfree2 & Hfr2). rewrite Habs1 in Hfr2.
  assert (0 ≤ b < 2 ^ 64) as Hr.
  { apply (free_block_fits (abs fs)); [done|done|done|rewrite HF; left]. }
  assert (Z.to_nat (i - 12) < 64)%nat as Hk by lia.
  wp_apply data_write_spec; [done| |by apply length_index_set|].
  { by apply (frame_data_block _ _ _ _ Hfr2). }
  intros ? fs3 (-> & Hok3 & Habs3). simpl. rewrite number_at_ok by (change SFS_NIND_BLOCKS with 64; lia). wp_pure.
  split; [done|]. exists F'.
  rewrite (get_set_at_eq u64_c) by (by apply in_width_u64 || by apply index_fits).
  by apply mapped_indirect with fs2.
Qed.

Lemma block_for_write_spec :
  i < SFS_NDIR_BLOCKS ∨ bp inode SFS_IND_BLOCK ≠ 0 → wp (block_for_write inode i) fs write_target.
Proof.
  intros Hcase. destruct (decide (i < SFS_NDIR_BLOCKS)) as [Hlt|Hge]; [by apply block_for_write_direct|].
  apply block_for_write_indirect; [lia|by destruct Hcase].
Qed.

End block_for_write.

(** ** Writing *)
Lemma mapped_data_block a inode F i p a' inode' F' b :
  mapped a inode F i p a' inode' F' → data_block (a_sb a') b ↔ data_block (a_sb a) b.
Proof.
  intros Hm. pose proof (m_sb _ _ _ _ _ _ _ _ Hm) as Hs. unfold data_block.
  destruct (a_sb a), (a_sb a'). by simplify_eq/=.
Qed.

Lemma mapped_sub a inode F i p a' inode' F' b :
  mapped a inode F i p a' inode' F' → b ∉ F → b ∉ F'.
Proof.
  intros Hm Hb. destruct (m_origin _ _ _ _ _ _ _ _ Hm) as [[_ ->]|[_ HF]]; [done|].
  intros ?. apply Hb. rewrite HF. by right.
Qed.

(** The block found for [i] belongs to no other logical block. *)
Lemma mapped_fresh a inode F i p a' inode' F' j :
  mapped a inode F i p a' inode' F' → is_free a F → file_wf a inode F →
  0 ≤ i < file_blocks → 0 ≤ j < file_blocks → j ≠ i → file_ptr a inode j ≠ 0 →
  file_ptr a inode j ≠ p.
Proof.
  intros Hm Hfree Hwf Hi Hj Hne Hnz E.
  destruct (m_origin _ _ _ _ _ _ _ _ Hm) as [[-> _]|[_ HF]].
  - by apply Hne, (wf_inj _ _ _ Hwf).
  - destruct (wf_ptr _ _ _ Hwf j Hj Hnz) as (_ & HjF & _). apply HjF. rewrite E, HF. left.
Qed.

Lemma mapped_wf a inode F i p a' inode' F' :
  mapped a inode F i p a' inode' F' → is_free a F → file_wf a inode F →
  0 ≤ i < file_blocks → file_wf a' inode' F'.
Proof.
  intros Hm Hfree Hwf Hi.
  pose proof (λ b, mapped_data_block _ _ _ _ _ _ _ _ b Hm) as Hd.
  pose proof (m_ind _ _ _ _ _ _ _ _ Hm) as Hind.
  assert (∀ j, 0 ≤ j < file_blocks →
    file_ptr a' inode' j = if j =? i then p else file_ptr a inode j) as Hptr.
  { intros j Hj. destruct (Z.eqb_spec j i) as [->|].
    - by apply (m_ptr _ _ _ _ _ _ _ _ Hm).
    - by apply (m_other _ _ _ _ _ _ _ _ Hm). }
  destruct (m_block _ _ _ _ _ _ _ _ Hm) as (Hp & HpF & Hpi).
  split; rewrite ?Hind.
  - intros Hnz. destruct (wf_ind _ _ _ Hwf Hnz). split.
    + by apply Hd.
    + by eapply mapped_sub.
  - intros j Hj. rewrite Hptr by done. destruct (Z.eqb_spec j i) as [->|Hne]; intros Hnz.
    + split_and!; [by apply Hd|done|done].
    + destruct (wf_ptr _ _ _ Hwf j Hj Hnz) as (? & ? & ?).
      split_and!; [by apply Hd|by eapply mapped_sub|done].
  - intros j k Hj Hk. rewrite !Hptr by done.
    pose proof (mapped_fresh _ _ _ _ _ _ _ _ j Hm Hfree Hwf Hi Hj) as Hfj.
    pose proof (mapped_fresh _ _ _ _ _ _ _ _ k Hm Hfree Hwf Hi Hk) as Hfk.
    destruct (Z.eqb_spec j i) as [->|Hne], (Z.eqb_spec k i) as [->|Hne']; intros Hnz E.
    + done.
    + destruct Hfk; [done|congruence|done].
    + destruct Hfj; [done|congruence|done].
    + by apply (wf_inj _ _ _ Hwf).
Qed.

(** What a successful write of logical block [i] does to the file. *)
Record written (a : fs_abs) (inode : sfs_fs_inode) (F : list Z) (i : Z) (block : list byte)
    (a' : fs_abs) (inode' : sfs_fs_inode) (F' : list Z) : Prop := Written {
  wr_free : is_free a' F';
  wr_wf : file_wf a' inode' F';
  wr_alloc : F ≡ₚ (if file_ptr a inode i =? 0 then [file_ptr a' inode' i] else []) ++ F';
  wr_ptr j : 0 ≤ j < file_blocks → j ≠ i ∨ file_ptr a inode i ≠ 0 →
    file_ptr a' inode' j = file_ptr a inode j;
  wr_content j : 0 ≤ j < file_blocks →
    file_block a' inode' j = if j =? i then block else file_block a inode j;
  wr_ind : bp inode' SFS_IND_BLOCK = bp inode SFS_IND_BLOCK;
  wr_inumber : i_inumber inode' = i_inumber inode;
  wr_members : set_block_pointers [] inode' = set_block_pointers [] inode;
  wr_ok : inode_ok inode' = true;
  wr_sb : set_free_blocks_head 0 (a_sb a') = set_free_blocks_head 0 (a_sb a);
  wr_blocks b : data_block (a_sb a) b → b ∉ F' → b ≠ bp inode SFS_IND_BLOCK →
    b ≠ file_ptr a' inode' i → a_block a' b = a_block a b;
  wr_inodes n : valid_inumber (a_sb a) n → n ≠ i_inumber inode → a_inode a' n = a_inode a n;
  wr_stored : a_inode a (i_inumber inode) = inode → a_inode a' (i_inumber inode) = inode';
}.

(** What a store to the block changes. *)
Lemma mapped_stored fs inode F i p fs1 inode' F' block a' :
  let a := abs fs in
  mapped a inode F i p (abs fs1) inode' F' → file_wf a inode F → 0 ≤ i < file_blocks →
  a' ≡ upd_block p block (abs fs1) →
  (∀ b, data_block (a_sb a) b → a_block a' b = if b =? p then block else a_block (abs fs1) b) ∧
  (∀ n, valid_inumber (a_sb a) n → a_inode a' n = a_inode (abs fs1) n) ∧
  (∀ j, file_ptr a' inode' j = file_ptr (abs fs1) inode' j) ∧
  (∀ j, 0 ≤ j < file_blocks → file_ptr a' inode' j = if j =? i then p else file_ptr a inode j).
Proof.
  intros a Hm Hwf Hi Ha'. destruct (m_block _ _ _ _ _ _ _ _ Hm) as (Hp & HpF & Hpi).
  pose proof (m_ind _ _ _ _ _ _ _ _ Hm) as Hind.
  assert (a_sb a' = a_sb (abs fs1)) as Hsb by apply Ha'.
  assert (∀ b, data_block (a_sb a) b →
    a_block a' b = if b =? p then block else a_block (abs fs1) b) as Hbl.
  { intros b Hb. apply Ha'. rewrite Hsb. by apply (mapped_data_block _ _ _ _ _ _ _ _ b Hm). }
  assert (∀ j, file_ptr a' inode' j = file_ptr (abs fs1) inode' j) as Hptr.
  { intros j. unfold file_ptr. destruct (j <? SFS_NDIR_BLOCKS); [done|].
    destruct (Z.eqb_spec (bp inode' SFS_IND_BLOCK) 0) as [|Hnz]; [done|].
    rewrite Hbl, (proj2 (Z.eqb_neq _ p)); [done|by rewrite Hind|].
    rewrite Hind in *. by destruct (wf_ind _ _ _ Hwf Hnz). }
  split; [exact Hbl|]. split; [|split; [exact Hptr|]].
  - intros n Hn. apply Ha'. rewrite Hsb. pose proof (m_sb _ _ _ _ _ _ _ _ Hm) as Hs.
    unfold valid_inumber in *. destruct (a_sb a), (a_sb (abs fs1)). by simplify_eq/=.
  - intros j Hj. rewrite Hptr. destruct (Z.eqb_spec j i) as [->|].
    + by apply (m_ptr _ _ _ _ _ _ _ _ Hm).
    + by apply (m_other _ _ _ _ _ _ _ _ Hm).
Qed.

Lemma mapped_written fs inode F i p fs1 inode' F' block a' :
  let a := abs fs in
  mapped a inode F i p (abs fs1) inode' F' → fs_ok fs → is_free a F → file_wf a inode F →
  0 ≤ i < file_blocks → length block = 512%nat →
  valid_inumber (a_sb a) (i_inumber inode) →
  a' ≡ upd_block p block (abs fs1) →
  written a inode F i block a' inode' F'.
Proof.
  intros a Hm Hok Hfree Hwf Hi Hblock Hvi Ha'.
  pose proof (mapped_wf _ _ _ _ _ _ _ _ Hm Hfree Hwf Hi) as Hwf1.
  destruct (m_block _ _ _ _ _ _ _ _ Hm) as (Hp & HpF & Hpi).
  pose proof (data_block_range _ _ Hp (proj1 (ok_table _ Hok))) as Hr.
  assert (a_sb a' = a_sb (abs fs1)) as Hsb by apply Ha'.
  destruct (mapped_stored fs inode F i p fs1 inode' F' block a' Hm Hwf Hi Ha') as (Hbl & Hin & Hptr & Hptr').
  fold a in Hbl, Hin, Hptr'.
  split; try by apply Hm.
  - rewrite Ha'. apply is_free_upd_block; [done|apply Hm].
  - destruct Hwf1 as [W1 W2 W3]. split; rewrite ?Hsb; [done|..].
    + intros j. rewrite Hptr. apply W2.
    + intros j k. rewrite !Hptr. apply W3.
  - rewrite Hptr' by done. rewrite Z.eqb_refl.
    destruct (m_origin _ _ _ _ _ _ _ _ Hm) as [[-> ->]|[Hz HF]].
    + by rewrite (proj2 (Z.eqb_neq _ 0)) by lia.
    + by rewrite Hz.
  - intros j Hj Hor. rewrite Hptr' by done. destruct (Z.eqb_spec j i) as [->|Hne]; [|done].
    destruct Hor as [?|Hnz]; [done|].
    by destruct (m_origin _ _ _ _ _ _ _ _ Hm) as [[-> _]|[Hz _]].
  - intros j Hj. unfold file_block. rewrite Hptr' by done.
    destruct (Z.eqb_spec j i) as [->|Hne].
    + rewrite (proj2 (Z.eqb_neq p 0)) by lia. rewrite Hbl by done. by rewrite Z.eqb_refl.
    + destruct (Z.eqb_spec (file_ptr a inode j) 0) as [|Hnz]; [done|].
      destruct (wf_ptr _ _ _ Hwf j Hj Hnz) as (Hdj & HjF & Hji).
      pose proof (mapped_fresh _ _ _ _ _ _ _ _ j Hm Hfree Hwf Hi Hj Hne Hnz) as Hjp.
      rewrite Hbl, (proj2 (Z.eqb_neq _ _) Hjp) by done.
      apply (m_blocks _ _ _ _ _ _ _ _ Hm); [done| |done]. by eapply mapped_sub.
  - rewrite Hsb. apply Hm.
  - intros b Hb HbF Hbi Hbp. rewrite Hptr', Z.eqb_refl in Hbp by done.
    rewrite Hbl, (proj2 (Z.eqb_neq _ _) Hbp) by done. by apply (m_blocks _ _ _ _ _ _ _ _ Hm).
  - intros n Hn Hne. etrans; [|by apply (m_inodes _ _ _ _ _ _ _ _ Hm)].
    by apply Hin.
  - intros E. etrans; [|by apply (m_stored _ _ _ _ _ _ _ _ Hm)]. by apply Hin.
Qed.

Lemma block_write_spec fs inode F i block :
  fs_ok fs → is_free (abs fs) F → file_wf (abs fs) inode F → inode_ok inode = true →
  valid_inumber (superblock fs) (i_inumber inode) →
  0 ≤ i < file_blocks → i < SFS_NDIR_BLOCKS ∨ bp inode SFS_IND_BLOCK ≠ 0 →
  length block = 512%nat →
  wp (sfs_fs_inode_block_write inode i block) fs (λ r fs', fs_ok fs' ∧
    match r with
    | (Z0, inode') => ∃ F', written (abs fs) inode F i block (abs fs') inode' F'
    | (r, inode') => r = -1 ∧ F = [] ∧ file_ptr (abs fs) inode i = 0 ∧
                     inode' = inode ∧ abs fs' ≡ abs fs
    end).
Proof.
  intros Hok Hfree Hwf Hio Hn Hi Hcase Hblock. unfold sfs_fs_inode_block_write.
  wp_apply block_for_write_spec; [done..|].
  intros [[p|] inode'] fs1 [Hok1 Hpost].
  2: { wp_pure. by destruct Hpost as (-> & ? & -> & ?). }
  destruct Hpost as (F' & Hm). wp_pure.
  destruct (m_block _ _ _ _ _ _ _ _ Hm) as (Hp & _ & _).
  pose proof (proj2 (mapped_data_block _ _ _ _ _ _ _ _ p Hm) Hp) as Hp1.
  pose proof (ok_table _ Hok1).
  rewrite data_block_not_bad by (done || lia).
  wp_apply data_write_spec; [done|done|done|].
  intros ? fs2 (-> & Hok2 & Habs2). simpl. wp_pure. split; [done|]. exists F'.
  by eapply mapped_written.
Qed.

End files.
