(* ===== verification/FileState.v ===== *)
(** * Files as clients see them

    [file_state] is what holds of an open file between operations: the file
    system is well-formed, the file's blocks are its own, and the inode table
    holds the inode the client works on. *)

From S2P Require Export FsFiles.

(** What stays true between the operations on an open file. *)
Record file_state (fs : filesystem) (inode : sfs_fs_inode) (F : list Z) : Prop := FileState {
  f_ok : fs_ok fs;
  f_free : is_free (abs fs) F;
  f_wf : file_wf (abs fs) inode F;
  f_inode : inode_ok inode = true;
  f_valid : valid_inumber (superblock fs) (i_inumber inode);
  f_stored : a_inode (abs fs) (i_inumber inode) = inode;
}.

(** Another file beside the one that is worked on. *)
Record beside (fs : filesystem) (inode : sfs_fs_inode) (F : list Z) (other : sfs_fs_inode) : Prop := Beside {
  be_state : file_state fs other F;
  be_number : i_inumber other ≠ i_inumber inode;
  be_disjoint b : b ∈ owned (abs fs) other → b ∉ owned (abs fs) inode;
}.

(** Two files are beside each other. *)
Lemma beside_sym fs inode F other :
  file_state fs inode F → beside fs inode F other → beside fs other F inode.
Proof. intros Hf [Ho Hne Hdis]. split; [exact Hf|congruence|]. intros b Hb Hb'. by apply (Hdis b). Qed.

(** From one state of a file to another, every other file is left alone. *)
Record others_kept (fs : filesystem) (inode : sfs_fs_inode) (F : list Z)
    (fs' : filesystem) (inode' : sfs_fs_inode) (F' : list Z) : Prop := OthersKept {
  ke_table : sb_inode_table_blocks (superblock fs') = sb_inode_table_blocks (superblock fs);
  ke_others other : beside fs inode F other → beside fs' inode' F' other ∧
    ∀ j, 0 ≤ j < file_blocks → file_block (abs fs') other j = file_block (abs fs) other j;
}.

Lemma others_kept_refl fs inode F : others_kept fs inode F fs inode F.
Proof. by split. Qed.

Lemma others_kept_trans fs inode F fs1 inode1 F1 fs2 inode2 F2 :
  others_kept fs inode F fs1 inode1 F1 → others_kept fs1 inode1 F1 fs2 inode2 F2 →
  others_kept fs inode F fs2 inode2 F2.
Proof.
  intros [T1 H1] [T2 H2]. split; [congruence|]. intros other Ho.
  destruct (H1 other Ho) as [Ho1 Hb1]. destruct (H2 other Ho1) as [Ho2 Hb2].
  split; [exact Ho2|]. intros j Hj. by rewrite Hb2, Hb1.
Qed.

Lemma upd_inode_stored fs inode F :
  file_state fs inode F → abs fs ≡ upd_inode inode (abs fs).
Proof.
  intros Hf. split; [done|]. split; [|done]. intros n _. simpl.
  destruct (Z.eqb_spec n (i_inumber inode)) as [->|]; [|done]. apply (f_stored _ _ _ Hf).
Qed.

Lemma upd_inode_twice i i' a :
  i_inumber i = i_inumber i' → upd_inode i' (upd_inode i a) ≡ upd_inode i' a.
Proof.
  intros E. split; [done|]. split; [|done]. intros n _. simpl. rewrite E. by destruct (n =? _).
Qed.

(** The same file with the same contents, and the others left alone; nothing
    but the inode is written. *)
Record same_file (fs : filesystem) (inode : sfs_fs_inode) (F : list Z)
    (fs' : filesystem) (inode' : sfs_fs_inode) : Prop := SameFile {
  sf_state : file_state fs' inode' F;
  sf_others : others_kept fs inode F fs' inode' F;
  sf_block j : 0 ≤ j < file_blocks → file_block (abs fs') inode' j = file_block (abs fs) inode j;
  sf_abs : abs fs' ≡ upd_inode inode' (abs fs);
  sf_number : i_inumber inode' = i_inumber inode;
}.

Lemma same_file_trans fs inode F fs1 inode1 fs2 inode2 :
  same_file fs inode F fs1 inode1 → same_file fs1 inode1 F fs2 inode2 → same_file fs inode F fs2 inode2.
Proof.
  intros [_ O1 B1 A1 N1] [S2 O2 B2 A2 N2]. split; [exact S2|by eapply others_kept_trans| | |congruence].
  - intros j Hj. by rewrite B2, B1.
  - rewrite A2, A1. by apply upd_inode_twice.
Qed.

Section file_state.
  Context `{Env, !ReliableIO, !EnvOk}.

Lemma file_wf_proper a a' inode F : a ≡ a' → file_wf a inode F → file_wf a' inode F.
Proof.
  intros Ha Hwf.
  assert (∀ i, file_ptr a' inode i = file_ptr a inode i) as Hp.
  { intros i. symmetry. apply file_ptr_equiv; [done|]. intros. by apply (wf_ind _ _ _ Hwf). }
  destruct Hwf as [W1 W2 W3]. rewrite (proj1 Ha) in W1, W2.
  split; [done| |]; intros *; rewrite !Hp; auto.
Qed.

Lemma file_block_equiv a a' inode F i :
  a ≡ a' → file_wf a inode F → 0 ≤ i < file_blocks → file_block a inode i = file_block a' inode i.
Proof.
  intros Ha Hwf Hi. unfold file_block.
  rewrite <-(file_ptr_equiv a a') by (done || intros; by apply (wf_ind _ _ _ Hwf)).
  destruct (Z.eqb_spec (file_ptr a inode i) 0); [done|].
  apply Ha. by apply (wf_ptr _ _ _ Hwf).
Qed.

Lemma file_state_perm fs inode F F' : F ≡ₚ F' → file_state fs inode F → file_state fs inode F'.
Proof.
  intros HF [Hok Hfree [W1 W2 W3] Hio Hv Hst]. split; try done; [by rewrite <-HF|].
  split; [intros; rewrite <-HF; auto|intros; rewrite <-HF; auto|exact W3].
Qed.

Lemma file_state_equiv fs fs' inode F :
  file_state fs inode F → fs_ok fs' → abs fs' ≡ abs fs → file_state fs' inode F.
Proof.
  intros [] Hok' Habs. assert (superblock fs' = superblock fs) as Hsb by apply Habs.
  split; [done|by rewrite Habs|by eapply file_wf_proper|done|by rewrite Hsb|].
  destruct Habs as (_ & Hi & _). rewrite Hi; [done|]. simpl. by rewrite Hsb.
Qed.

Lemma owned_ext a a' inode inode' :
  bp inode' SFS_IND_BLOCK = bp inode SFS_IND_BLOCK →
  (∀ i, 0 ≤ i < file_blocks → file_ptr a' inode' i = file_ptr a inode i) →
  ∀ b, b ∈ owned a' inode' ↔ b ∈ owned a inode.
Proof.
  intros Hb Hp b. rewrite !elem_of_owned, Hb. split; intros [Hnz Hor]; (split; [done|]);
    (destruct Hor as [?|(i & Hi & E)]; [by left|right; exists i; split; [done|]]);
    by rewrite ?Hp in *.
Qed.

Lemma others_kept_equiv fs inode F fs' :
  file_wf (abs fs) inode F → fs_ok fs' → abs fs' ≡ abs fs → others_kept fs inode F fs' inode F.
Proof.
  intros Hwf Hok' Habs. split; [by rewrite (proj1 Habs : superblock fs' = superblock fs)|].
  intros other [Ho Hne Hdis].
  assert (∀ i ino, file_wf (abs fs) ino F → file_ptr (abs fs') ino i = file_ptr (abs fs) ino i) as Hp.
  { intros i ino Hw. symmetry. apply file_ptr_equiv; [by symmetry|]. intros. by apply (wf_ind _ _ _ Hw). }
  pose proof (f_wf _ _ _ Ho) as Hwo. split.
  - split; [by eapply file_state_equiv|exact Hne|]. intros b.
    rewrite !(owned_ext (abs fs) (abs fs')) by (try done; intros; by apply Hp). apply Hdis.
  - intros j Hj. symmetry. by eapply file_block_equiv; [symmetry|..].
Qed.

Lemma same_file_equiv fs inode F fs' :
  file_state fs inode F → fs_ok fs' → abs fs' ≡ abs fs → same_file fs inode F fs' inode.
Proof.
  intros Hf Hok' Habs. split; [by eapply file_state_equiv|by apply others_kept_equiv; [apply (f_wf _ _ _ Hf)|..]| | |done].
  - intros j Hj. symmetry. eapply file_block_equiv; [by symmetry|apply (f_wf _ _ _ Hf)|done].
  - rewrite Habs. exact (upd_inode_stored fs inode F Hf).
Qed.

(** A file whose blocks and inode are as before, in a state with other free
    blocks. *)
Lemma file_state_frame fs other F fs' F' :
  file_state fs other F → fs_ok fs' → is_free (abs fs') F' →
  sb_inode_table_blocks (superblock fs') = sb_inode_table_blocks (superblock fs) →
  sb_blocks (superblock fs') = sb_blocks (superblock fs) →
  (∀ b, b ∈ owned (abs fs) other → data_block (superblock fs) b → b ∉ F →
    (b ∉ F') ∧ a_block (abs fs') b = a_block (abs fs) b) →
  a_inode (abs fs') (i_inumber other) = other →
  file_state fs' other F' ∧
  (∀ j, file_ptr (abs fs') other j = file_ptr (abs fs) other j) ∧
  ∀ j, 0 ≤ j < file_blocks → file_block (abs fs') other j = file_block (abs fs) other j.
Proof.
  intros [_ _ Hwo Hio Hv _] Hok' Hfree' Ht Hbl Hb Hst'.
  assert (bp other SFS_IND_BLOCK ≠ 0 → bp other SFS_IND_BLOCK ∈ owned (abs fs) other) as Hind.
  { intros Hnz. apply elem_of_owned. auto. }
  assert (∀ j, 0 ≤ j < file_blocks → file_ptr (abs fs) other j ≠ 0 →
    file_ptr (abs fs) other j ∈ owned (abs fs) other) as Hown.
  { intros j Hj Hnz. apply elem_of_owned. split; [done|]. right. by exists j. }
  assert (∀ j, file_ptr (abs fs') other j = file_ptr (abs fs) other j) as Hptr.
  { intros j. unfold file_ptr. destruct (j <? SFS_NDIR_BLOCKS); [done|].
    destruct (Z.eqb_spec (bp other SFS_IND_BLOCK) 0) as [|Hnz]; [done|].
    destruct (wf_ind _ _ _ Hwo Hnz) as [Hd HnF].
    by rewrite (proj2 (Hb _ (Hind Hnz) Hd HnF)). }
  assert (∀ b, data_block (superblock fs) b → data_block (superblock fs') b) as Hdb.
  { intros b. unfold data_block. by rewrite Ht, Hbl. }
  split; [split|split]; [exact Hok'|exact Hfree'| |exact Hio| |exact Hst'|exact Hptr|].
  - split.
    + intros Hnz. destruct (wf_ind _ _ _ Hwo Hnz) as [Hd HnF].
      split; [exact (Hdb _ Hd)|exact (proj1 (Hb _ (Hind Hnz) Hd HnF))].
    + intros j Hj. rewrite Hptr. intros Hnz. destruct (wf_ptr _ _ _ Hwo j Hj Hnz) as (Hd & HnF & Hni).
      split; [exact (Hdb _ Hd)|]. split; [exact (proj1 (Hb _ (Hown j Hj Hnz) Hd HnF))|exact Hni].
    + intros j k. rewrite !Hptr. apply (wf_inj _ _ _ Hwo).
  - unfold valid_inumber in *. by rewrite Ht.
  - intros j Hj. unfold file_block. rewrite Hptr.
    destruct (Z.eqb_spec (file_ptr (abs fs) other j) 0) as [|Hnz]; [done|].
    destruct (wf_ptr _ _ _ Hwo j Hj Hnz) as (Hd & HnF & _). exact (proj2 (Hb _ (Hown j Hj Hnz) Hd HnF)).
Qed.

(** Writing a block of a file touches no other file. *)
Lemma written_other_block fs inode F i blk inode' fs' F' other b :
  written (abs fs) inode F i blk (abs fs') inode' F' → beside fs inode F other →
  0 ≤ i < file_blocks → b ∈ owned (abs fs) other → data_block (superblock fs) b → b ∉ F →
  a_block (abs fs') b = a_block (abs fs) b.
Proof.
  intros Hw [_ _ Hdis] Hi Hob Hd HbF. pose proof (wr_alloc _ _ _ _ _ _ _ _ Hw) as HF.
  pose proof (proj1 (elem_of_owned _ _ _) Hob) as [Hnz _].
  specialize (Hdis b Hob). rewrite elem_of_owned in Hdis.
  apply (wr_blocks _ _ _ _ _ _ _ _ Hw); [done| | |].
  - intros Hin. apply HbF. rewrite HF. apply elem_of_app. by right.
  - intros E. apply Hdis. auto.
  - intros E. destruct (Z.eqb_spec (file_ptr (abs fs) inode i) 0) as [Hz|Hz].
    + apply HbF. rewrite HF, <-E. left.
    + apply Hdis. split; [done|]. right. exists i. split; [done|]. rewrite E.
      apply (wr_ptr _ _ _ _ _ _ _ _ Hw); [done|by right].
Qed.

(** What the file owns after the write was its own or free. *)
Lemma written_owned a inode F i blk a' inode' F' b :
  written a inode F i blk a' inode' F' → b ∈ owned a' inode' → b ∈ owned a inode ∨ b ∈ F.
Proof.
  intros Hw. rewrite !elem_of_owned, (wr_ind _ _ _ _ _ _ _ _ Hw).
  intros [Hnz [E|(j & Hj & E)]]; [by left; auto|].
  destruct (decide (j = i ∧ file_ptr a inode i = 0)) as [[-> Hz]|Hn].
  - right. rewrite (wr_alloc _ _ _ _ _ _ _ _ Hw), Hz, E. left.
  - left. split; [done|]. right. exists j. split; [done|]. rewrite E.
    apply (wr_ptr _ _ _ _ _ _ _ _ Hw); [done|]. destruct (decide (j = i)) as [->|]; [right|by left].
    intros Hz. by apply Hn.
Qed.

Lemma written_others fs inode F i blk inode' fs' F' :
  fs_ok fs' → 0 ≤ i < file_blocks → written (abs fs) inode F i blk (abs fs') inode' F' →
  others_kept fs inode F fs' inode' F'.
Proof.
  intros Hok' Hi Hw. pose proof (wr_sb _ _ _ _ _ _ _ _ Hw) as Hsb. simpl in Hsb.
  assert (sb_inode_table_blocks (superblock fs') = sb_inode_table_blocks (superblock fs)) as Ht
    by exact (f_equal sb_inode_table_blocks Hsb).
  split; [exact Ht|]. intros other Hbe. pose proof Hbe as [Ho Hne Hdis].
  destruct (file_state_frame fs other F fs' F' Ho Hok' (wr_free _ _ _ _ _ _ _ _ Hw) Ht (f_equal sb_blocks Hsb))
    as (Ho' & Hptr & Hblk).
  { intros b Hob Hd HbF. split; [|by eapply written_other_block].
    intros Hin. apply HbF. rewrite (wr_alloc _ _ _ _ _ _ _ _ Hw). apply elem_of_app. by right. }
  { rewrite (wr_inodes _ _ _ _ _ _ _ _ Hw); [apply (f_stored _ _ _ Ho)|apply (f_valid _ _ _ Ho)|done]. }
  split; [|exact Hblk]. split; [exact Ho'|by rewrite (wr_inumber _ _ _ _ _ _ _ _ Hw)|].
  intros b Hb Hb'. rewrite (owned_ext (abs fs)) in Hb by (done || intros; apply Hptr).
  destruct (written_owned _ _ _ _ _ _ _ _ _ Hw Hb') as [Hin|Hin]; [exact (Hdis b Hb Hin)|].
  pose proof (f_wf _ _ _ Ho) as Hwo. apply elem_of_owned in Hb as [Hnz [->|(j & Hj & ->)]].
  - by apply (wf_ind _ _ _ Hwo).
  - destruct (wf_ptr _ _ _ Hwo j Hj Hnz) as (_ & HnF & _). by apply HnF.
Qed.

Lemma block_read_ok_file fs inode F i buf :
  file_state fs inode F → 0 ≤ i < file_blocks → length buf = 512%nat →
  wp (sfs_fs_inode_block_read inode i buf) fs (λ r fs',
    r = (0, file_block (abs fs) inode i) ∧ file_state fs' inode F ∧ abs fs' ≡ abs fs ∧
    ∀ j, 0 ≤ j < file_blocks → file_block (abs fs') inode j = file_block (abs fs) inode j).
Proof.
  intros Hf Hi Hbuf. pose proof (f_wf _ _ _ Hf) as Hwf.
  eapply wp_mono; [apply block_read_spec|].
  - apply stack_len.
  - apply (f_ok _ _ _ Hf).
  - done.
  - done.
  - intros. by apply (wf_ind _ _ _ Hwf).
  - intros. by apply (wf_ptr _ _ _ Hwf).
  - intros r fs' (-> & Hok' & Habs). split; [done|].
    split; [by eapply file_state_equiv|]. split; [done|]. intros j Hj. symmetry.
    by apply (file_block_equiv _ _ _ F).
Qed.

Lemma block_write_ok_file fs inode F i blk :
  file_state fs inode F → 0 ≤ i < file_blocks → i < SFS_NDIR_BLOCKS ∨ bp inode SFS_IND_BLOCK ≠ 0 →
  length blk = 512%nat → F ≠ [] ∨ file_ptr (abs fs) inode i ≠ 0 →
  wp (sfs_fs_inode_block_write inode i blk) fs (λ '(r, inode') fs', r = 0 ∧
    ∃ F', file_state fs' inode' F' ∧ (length F ≤ S (length F'))%nat ∧
    (file_ptr (abs fs) inode i ≠ 0 → F ≡ₚ F') ∧
    bp inode' SFS_IND_BLOCK = bp inode SFS_IND_BLOCK ∧
    set_block_pointers [] inode' = set_block_pointers [] inode ∧
    set_free_blocks_head 0 (superblock fs') = set_free_blocks_head 0 (superblock fs) ∧
    (∀ n, valid_inumber (superblock fs) n → n ≠ i_inumber inode →
       a_inode (abs fs') n = a_inode (abs fs) n) ∧
    others_kept fs inode F fs' inode' F' ∧
    ∀ j, 0 ≤ j < file_blocks →
      file_block (abs fs') inode' j = if j =? i then blk else file_block (abs fs) inode j).
Proof.
  intros [] Hi Hcase Hblk HF.
  eapply wp_mono; [by apply (block_write_spec stack_len fs inode F)|].
  intros [[|p|p] inode'] fs' [Hok' Hw]; [|by destruct Hw as (_ & -> & ? & _), HF..].
  destruct Hw as [F' Hw]. pose proof (written_others _ _ _ _ _ _ _ _ Hok' Hi Hw) as Hoth.
  destruct Hw as [Wfree Wwf Walloc Wptr Wcont Wind Wnum Wmem Wok Wsb Wbl Win Wst].
  split; [done|]. exists F'. split_and!; try done.
  - split; try done.
    + unfold valid_inumber in *. rewrite Wnum. simpl in Wsb.
      destruct (superblock fs), (superblock fs'). by simplify_eq/=.
    + rewrite Wnum. by apply Wst.
  - apply Permutation_length in Walloc. rewrite length_app in Walloc.
    destruct (_ =? 0); simpl in *; lia.
  - intros Hnz. by rewrite (proj2 (Z.eqb_neq _ _) Hnz) in Walloc.
Qed.

(** The inode changes in other members than its number and pointers. *)
Lemma file_state_upd fs inode inode' F fs' :
  file_state fs inode F → fs_ok fs' → abs fs' ≡ upd_inode inode' (abs fs) →
  i_inumber inode' = i_inumber inode → i_block_pointers inode' = i_block_pointers inode →
  inode_ok inode' = true →
  file_state fs' inode' F ∧
  ∀ j, 0 ≤ j < file_blocks → file_block (abs fs') inode' j = file_block (abs fs) inode j.
Proof.
  intros [Hok Hfree Hwf Hio Hv Hst] Hok' Habs Hn Hp Hio'.
  assert (∀ a i, file_ptr a inode' i = file_ptr a inode i) as Hptr.
  { intros a i. unfold file_ptr, bp. by rewrite Hp. }
  assert (file_wf (upd_inode inode' (abs fs)) inode' F) as Hwf'.
  { destruct Hwf as [W1 W2 W3].
    assert (bp inode' SFS_IND_BLOCK = bp inode SFS_IND_BLOCK) as Hb by (unfold bp; by rewrite Hp).
    split; rewrite ?Hb; [done| |].
    - intros i. rewrite Hptr. apply W2.
    - intros i j. rewrite !Hptr. apply W3. }
  split.
  - split; try done.
    + rewrite Habs. by apply is_free_upd_inode.
    + eapply file_wf_proper; [symmetry; exact Habs|exact Hwf'].
    + rewrite Hn. by rewrite (proj1 Habs : superblock fs' = superblock fs).
    + destruct Habs as (Hs & Hi & _). rewrite Hi; [simpl; by rewrite Z.eqb_refl|].
      rewrite Hs. by rewrite Hn.
  - intros j Hj. symmetry. etrans; [|eapply file_block_equiv; [symmetry; exact Habs|exact Hwf'|done]].
    unfold file_block. by rewrite Hptr.
Qed.

Lemma update_inode_ok fs inode inode' F :
  file_state fs inode F → i_inumber inode' = i_inumber inode →
  i_block_pointers inode' = i_block_pointers inode → inode_ok inode' = true →
  wp (sfs_fs_write_inode inode') fs (λ r fs', r = 0 ∧ file_state fs' inode' F ∧
    abs fs' ≡ upd_inode inode' (abs fs) ∧
    ∀ j, 0 ≤ j < file_blocks → file_block (abs fs') inode' j = file_block (abs fs) inode j).
Proof.
  intros Hf Hn Hp Hio'.
  eapply wp_mono; [apply write_inode_spec; [apply (f_ok _ _ _ Hf)|rewrite Hn; apply (f_valid _ _ _ Hf)|done]|].
  intros r fs' (-> & Hok' & Habs). split; [done|].
  destruct (file_state_upd fs inode inode' F fs' Hf Hok' Habs Hn Hp Hio') as [Hf' Hb].
  split_and!; done.
Qed.

Lemma update_inode_others fs inode inode' F fs' :
  file_state fs inode F → file_state fs' inode' F →
  i_inumber inode' = i_inumber inode → i_block_pointers inode' = i_block_pointers inode →
  abs fs' ≡ upd_inode inode' (abs fs) → others_kept fs inode F fs' inode' F.
Proof.
  intros Hf Hf' Hn Hp Habs. split; [by rewrite (proj1 Habs : superblock fs' = superblock fs)|].
  intros other [Ho Hne Hdis].
  assert (∀ i ino, file_wf (abs fs) ino F → file_ptr (abs fs') ino i = file_ptr (abs fs) ino i) as Hptr.
  { intros i ino Hw. etrans; [apply file_ptr_equiv; [exact Habs|]|done].
    intros Hnz. rewrite (proj1 Habs). by apply (wf_ind _ _ _ Hw). }
  pose proof (f_wf _ _ _ Ho) as Hwo.
  assert (file_wf (upd_inode inode' (abs fs)) other F) as Hwo' by (destruct Hwo; by split).
  assert (bp inode' SFS_IND_BLOCK = bp inode SFS_IND_BLOCK) as Hb by (unfold bp; by rewrite Hp).
  split; [split; [|by rewrite Hn|]|].
  - split; [exact (f_ok _ _ _ Hf')|exact (f_free _ _ _ Hf')| |exact (f_inode _ _ _ Ho)| |].
    + by eapply file_wf_proper; [symmetry|].
    + rewrite (proj1 Habs : superblock fs' = superblock fs). exact (f_valid _ _ _ Ho).
    + destruct Habs as (Hs & Hi & _). rewrite Hi; simpl.
      * rewrite Hn, (proj2 (Z.eqb_neq _ _) Hne). exact (f_stored _ _ _ Ho).
      * change (valid_inumber (a_sb (abs fs')) (i_inumber other)). rewrite Hs. exact (f_valid _ _ _ Ho).
  - intros b. rewrite (owned_ext (abs fs) (abs fs') other other) by (done || intros; by apply Hptr).
    rewrite (owned_ext (abs fs) (abs fs') inode inode'); [apply Hdis|exact Hb|].
    intros i _. transitivity (file_ptr (abs fs') inode i); [|apply Hptr, (f_wf _ _ _ Hf)].
    unfold file_ptr, bp. by rewrite Hp.
  - intros j Hj. symmetry. etrans; [|eapply file_block_equiv; [symmetry; exact Habs|exact Hwo'|done]]. done.
Qed.

End file_state.
