(* ===== verification/FsInodes.v ===== *)
(** * The allocator of inodes

    The free inodes are a list threaded through their [size] members.
    [sfs_fs_inode_allocate] takes its head; [sfs_fs_inode_deallocate] puts an
    inode at its head and frees the direct blocks of the file. *)

From S2P Require Export FileState.

(** The inodes [L] in the order of the list that starts at [head]; [last] is
    what the last one points to. *)
Fixpoint inode_list (a : fs_abs) (head : Z) (L : list Z) (last : Z) : Prop :=
  match L with
  | [] => head = last
  | n :: L' =>
      head = n ∧ valid_inumber (a_sb a) n ∧ i_inumber (a_inode a n) = n ∧
      inode_list a (i_size (a_inode a n)) L' last
  end.

(** The abstract allocator: [L] are the free inodes, each once, next first. *)
Definition free_inodes (a : fs_abs) (L : list Z) (last : Z) : Prop :=
  NoDup L ∧ inode_list a (sb_free_inode_head (a_sb a)) L last.

(** The direct blocks of a file, up to the [k]-th pointer. *)
Definition direct_upto (inode : sfs_fs_inode) (k : Z) : list Z :=
  nonzero (map (bp inode) (seqZ 0 k)).
Definition direct_blocks (inode : sfs_fs_inode) : list Z := direct_upto inode SFS_NDIR_BLOCKS.

Lemma inode_list_ext a a' head L last :
  (∀ n, valid_inumber (a_sb a) n → valid_inumber (a_sb a') n) →
  (∀ n, n ∈ L → valid_inumber (a_sb a) n → a_inode a' n = a_inode a n) →
  inode_list a head L last → inode_list a' head L last.
Proof.
  intros Hv. revert head. induction L as [|n L IH]; intros head He; simpl; [done|].
  intros (-> & Hn & Hi & HL). rewrite He by (done || left). split_and!; [done|auto|done|].
  apply IH; [|done]. intros m Hm. apply He. by right.
Qed.

Lemma free_inodes_ext a a' L last :
  sb_free_inode_head (a_sb a') = sb_free_inode_head (a_sb a) →
  (∀ n, valid_inumber (a_sb a) n → valid_inumber (a_sb a') n) →
  (∀ n, n ∈ L → valid_inumber (a_sb a) n → a_inode a' n = a_inode a n) →
  free_inodes a L last → free_inodes a' L last.
Proof.
  intros Hh Hv He [Hnd HL]. split; [done|]. rewrite Hh. by apply (inode_list_ext a).
Qed.

Lemma free_inodes_equiv a a' L last : a ≡ a' → free_inodes a L last → free_inodes a' L last.
Proof.
  intros (Hs & Hi & _). apply free_inodes_ext; [by rewrite Hs|by rewrite Hs|].
  intros. symmetry. by apply Hi.
Qed.

Lemma free_inodes_cons a inode L last :
  free_inodes a L last → valid_inumber (a_sb a) (i_inumber inode) → i_inumber inode ∉ L →
  i_size inode = sb_free_inode_head (a_sb a) →
  free_inodes (upd_sb (set_free_inode_head (i_inumber inode) (a_sb a)) (upd_inode inode a))
    (i_inumber inode :: L) last.
Proof.
  intros [Hnd HL] Hv HnL Hs. split; [by constructor|]. simpl. rewrite Z.eqb_refl.
  split_and!; [done..|]. rewrite Hs. apply (inode_list_ext a); [done| |done].
  intros n Hn _. simpl. destruct (Z.eqb_spec n (i_inumber inode)) as [->|]; done.
Qed.

Lemma free_inodes_frame X a a' L last :
  frame X a a' → free_inodes a L last → free_inodes a' L last.
Proof.
  intros Hfr. pose proof (frame_geometry _ _ _ Hfr) as (_ & _ & Hh).
  apply free_inodes_ext; [done| |].
  - intros n. apply (frame_valid _ _ _ n Hfr).
  - intros n _ Hn. by apply Hfr.
Qed.

Lemma c_ok_free_inode_head sb v :
  c_ok superblock_c sb = true → 0 ≤ v < 2 ^ 64 →
  c_ok superblock_c (set_free_inode_head v sb) = true.
Proof. rewrite !superblock_ok_spec. simpl. tauto. Qed.

Lemma view_inode_ok fs n :
  fs_ok fs → inode_ok (view fs n) = true.
Proof.
  intros Hok. unfold view. destruct (_ =? _); apply (get_at_ok inode_c).
  - apply inode_fits, (ok_data _ Hok).
  - apply inode_fits, length_wblk.
Qed.

Lemma i_size_range i : inode_ok i = true → 0 ≤ i_size i < 2 ^ 64.
Proof. rewrite inode_ok_spec. tauto. Qed.

Lemma direct_upto_S inode k :
  0 ≤ k → direct_upto inode (k + 1) = direct_upto inode k ++ nonzero [bp inode k].
Proof.
  intros. unfold direct_upto. rewrite seqZ_app by lia. simpl.
  by rewrite map_app, nonzero_app.
Qed.

Lemma elem_of_direct_upto inode k b :
  b ∈ direct_upto inode k ↔ b ≠ 0 ∧ ∃ i, 0 ≤ i < k ∧ b = bp inode i.
Proof.
  unfold direct_upto. rewrite elem_of_nonzero, list_elem_of_fmap.
  setoid_rewrite elem_of_seqZ. split.
  - intros (? & i & -> & ?). split; [done|]. exists i. split; [lia|done].
  - intros (? & i & ? & ->). split; [done|]. exists i. split; [done|lia].
Qed.

Lemma file_ptr_direct a inode i : i < SFS_NDIR_BLOCKS → file_ptr a inode i = bp inode i.
Proof. intros. unfold file_ptr. by rewrite (proj2 (Z.ltb_lt _ _)). Qed.

(** A direct block not freed yet is not among those that were. *)
Lemma direct_fresh a inode F i :
  file_wf a inode F → 0 ≤ i < SFS_NDIR_BLOCKS → bp inode i ≠ 0 →
  data_block (a_sb a) (bp inode i) ∧ bp inode i ∉ direct_upto inode i ++ F.
Proof.
  intros Hwf Hi Hnz. change SFS_NDIR_BLOCKS with 12 in Hi.
  assert (∀ k, 0 ≤ k < 12 → 0 ≤ k < file_blocks) as Hlt.
  { intros k Hk. change file_blocks with 76. lia. }
  assert (∀ k, 0 ≤ k < 12 → file_ptr a inode k = bp inode k) as Hp.
  { intros k Hk. apply file_ptr_direct. change SFS_NDIR_BLOCKS with 12. lia. }
  pose proof (wf_ptr _ _ _ Hwf i (Hlt i Hi)) as Hw. rewrite (Hp i Hi) in Hw.
  destruct (Hw Hnz) as (Hd & HF & _).
  split; [done|]. rewrite elem_of_app, elem_of_direct_upto.
  intros [(_ & k & Hk & E)|?]; [|done].
  assert (i = k); [|lia].
  apply (wf_inj _ _ _ Hwf); [by apply Hlt|apply Hlt; lia|by rewrite Hp|].
  by rewrite !Hp by lia.
Qed.

Section inodes.
  Context `{Env, !ReliableIO}.

(** ** Allocation *)
Lemma inode_allocate_spec fs n L last :
  fs_ok fs → free_inodes (abs fs) (n :: L) last →
  wp sfs_fs_inode_allocate fs (λ r fs',
    r = Some (a_inode (abs fs) n) ∧ fs_ok fs' ∧
    abs fs' ≡ upd_sb (set_free_inode_head (i_size (a_inode (abs fs) n)) (superblock fs)) (abs fs)).
Proof.
  intros Hok [Hnd (Hh & Hn & Hi & HL)]. simpl in Hh. unfold sfs_fs_inode_allocate. wp_pure.
  rewrite Hh. rewrite (proj2 (Z.eqb_neq n 0)) by (destruct Hn; lia).
  wp_apply read_inode_spec; [done|done|]. intros ? fs1 (-> & Hok1 & Habs1). wp_pure.
  assert (superblock fs1 = superblock fs) as Hsb1 by apply Habs1.
  assert (0 ≤ i_size (view fs n) < 2 ^ 64) as Hr by by apply i_size_range, view_inode_ok.
  wp_apply save_superblock_spec.
  { apply fs_ok_set_superblock; [done| |done..].
    apply c_ok_free_inode_head; [apply (ok_sb _ Hok1)|done]. }
  intros ? fs2 (-> & Hok2 & Habs2). simpl. wp_pure. split; [done|]. split; [done|].
  rewrite Habs2, Hsb1.
  change (abs (set_superblock ?x fs1)) with (upd_sb x (abs fs1)).
  apply upd_sb_equiv; [done|simpl; by rewrite Hsb1..].
Qed.

(** ** Deallocation *)
Definition dealloc_inv (fs : filesystem) (inode : sfs_fs_inode) (F : list Z)
    (i : Z) (_ : ()) (s : filesystem) : Prop :=
  fs_ok s ∧ is_free (abs s) (direct_upto inode i ++ F) ∧
  frame (direct_blocks inode ++ F) (abs fs) (abs s).

Lemma direct_upto_sub inode i : i ≤ SFS_NDIR_BLOCKS → direct_upto inode i ⊆ direct_blocks inode.
Proof.
  intros Hi b. unfold direct_blocks. rewrite !elem_of_direct_upto.
  intros (? & k & ? & ->). split; [done|]. exists k. split; [lia|done].
Qed.

(** Freeing the direct blocks one by one. *)
Lemma free_direct_spec fs inode F :
  fs_ok fs → is_free (abs fs) F → file_wf (abs fs) inode F →
  wp (for_range 0 SFS_NDIR_BLOCKS tt (λ i _,
        if bp inode i =? 0 then mret (Continue tt)
        else
          r ← sfs_fs_free_block (bp inode i);
          return_if negb (r =? 0) with Return (-1);
          mret (Continue tt))) fs
     (λ e s, e = inl tt ∧ dealloc_inv fs inode F SFS_NDIR_BLOCKS tt s).
Proof.
  intros Hok Hfree Hwf.
  apply (wp_for_range (dealloc_inv fs inode F)); [done|by split_and!| |by intros [] s].
  intros i [] s Hi (Hoks & Hfrees & Hfr).
  pose proof (frame_data_block _ _ _ (bp inode i) Hfr) as Hdb.
  destruct (Z.eqb_spec (bp inode i) 0) as [Hz|Hnz].
  - wp_pure. split; [done|]. rewrite direct_upto_S, Hz by lia. simpl. by rewrite app_nil_r.
  - destruct (direct_fresh _ _ _ i Hwf Hi Hnz) as [Hd Hfresh].
    wp_apply free_block_spec; [done|done|by apply Hdb|done|].
    intros ? s' (-> & Hok' & Hfree' & Hfr'). simpl. wp_pure. split; [done|]. split.
    + rewrite direct_upto_S by lia. simpl. rewrite (proj2 (Z.eqb_neq _ _) Hnz). simpl.
      rewrite <-app_assoc. simpl. by rewrite <-Permutation_middle.
    + eapply frame_weaken; [|by eapply frame_trans].
      pose proof (direct_upto_sub inode i ltac:(lia)) as Hsub.
      assert (bp inode i ∈ direct_blocks inode) by (apply elem_of_direct_upto; eauto).
      intros b. rewrite !elem_of_app, elem_of_cons, elem_of_app.
      intros [[?|?]|[->|[?|?]]]; [by left|by right|by left|left; by apply Hsub|by right].
Qed.

Record deallocated (a : fs_abs) (inode : sfs_fs_inode) (F : list Z) (a' : fs_abs)
    (inode' : sfs_fs_inode) : Prop := Deallocated {
  de_inode : inode' = set_size_ (sb_free_inode_head (a_sb a)) inode;
  de_free : is_free a' (direct_blocks inode ++ F);
  de_frame : frame (direct_blocks inode ++ F)
    (upd_sb (set_free_inode_head (i_inumber inode) (a_sb a)) (upd_inode inode' a)) a';
}.

Lemma inode_deallocate_spec fs inode F :
  fs_ok fs → is_free (abs fs) F → file_wf (abs fs) inode F → inode_ok inode = true →
  valid_inumber (superblock fs) (i_inumber inode) →
  wp (sfs_fs_inode_deallocate inode) fs (λ '(r, inode') fs',
    r = 0 ∧ fs_ok fs' ∧ deallocated (abs fs) inode F (abs fs') inode').
Proof.
  intros Hok Hfree Hwf Hio Hn. unfold sfs_fs_inode_deallocate. wp_pure.
  set (inode' := set_size_ _ inode).
  assert (inode_ok inode' = true) as Hio'.
  { apply inode_ok_set_size; [done|]. pose proof (ok_sb _ Hok) as Hs.
    rewrite superblock_ok_spec in Hs. tauto. }
  wp_apply write_inode_spec; [done|done|done|].
  intros ? fs1 (-> & Hok1 & Habs1). simpl. wp_pure.
  assert (superblock fs1 = superblock fs) as Hsb1 by apply Habs1.
  wp_apply save_superblock_spec.
  { apply fs_ok_set_superblock; [done| |done..].
    apply c_ok_free_inode_head; [apply (ok_sb _ Hok1)|].
    rewrite inode_ok_spec in Hio. tauto. }
  intros ? fs2 (-> & Hok2 & Habs2). simpl. wp_pure.
  set (a2 := upd_sb (set_free_inode_head (i_inumber inode) (superblock fs)) (upd_inode inode' (abs fs))).
  assert (abs fs2 ≡ a2) as Ha2.
  { rewrite Habs2, Hsb1. change (abs (set_superblock ?x fs1)) with (upd_sb x (abs fs1)).
    apply upd_sb_equiv; [done|simpl; by rewrite Hsb1..]. }
  assert (superblock fs2 = set_free_inode_head (i_inumber inode) (superblock fs)) as Hsb2 by apply Ha2.
  assert (is_free (abs fs2) F) as Hfree2.
  { rewrite Ha2. eapply is_free_ext; [..|exact Hfree]; done. }
  assert (file_wf (abs fs2) inode' F) as Hwf2.
  { assert (file_wf a2 inode' F) as Hwf2 by (destruct Hwf; by split).
    assert (∀ i, file_ptr (abs fs2) inode' i = file_ptr a2 inode' i) as Hp.
    { intros i. symmetry. apply file_ptr_equiv; [done|]. apply (wf_ind _ _ _ Hwf2). }
    destruct Hwf2 as [W1 W2 W3]. rewrite <-(proj1 Ha2) in W1, W2.
    split; [done| |]; intros *; rewrite !Hp; auto. }
  wp_apply (free_direct_spec fs2 inode' F); [done|done|done|].
  intros ? fs3 (-> & Hok3 & Hfree3 & Hfr3). wp_pure.
  split_and!; [done|done|]. split; [done|done|]. by rewrite Ha2 in Hfr3.
Qed.

End inodes.
