(* ===== verification/Volume.v ===== *)
(** * A volume: all the files of a disk at once

    [FileState.v] speaks of one file and of those beside it.  A volume is the
    table of every file in use, with the free blocks and the free inodes; the
    lemmas say what each operation of fs.c does to all of them: the file it
    works on changes, the others keep their inode and their contents. *)

From S2P Require Export FsInodes.

(** What a client can tell apart of a file's blocks. *)
Record same_contents (fs : filesystem) (i : sfs_fs_inode) (fs' : filesystem) (i' : sfs_fs_inode) : Prop := SameContents {
  sc_ind : bp i' SFS_IND_BLOCK = bp i SFS_IND_BLOCK;
  sc_ptr j : 0 ≤ j < file_blocks → file_ptr (abs fs') i' j = file_ptr (abs fs) i j;
  sc_block j : 0 ≤ j < file_blocks → file_block (abs fs') i' j = file_block (abs fs) i j;
}.

Lemma same_contents_refl fs i : same_contents fs i fs i.
Proof. by split. Qed.

Lemma same_contents_trans fs1 i1 fs2 i2 fs3 i3 :
  same_contents fs1 i1 fs2 i2 → same_contents fs2 i2 fs3 i3 → same_contents fs1 i1 fs3 i3.
Proof.
  intros [A1 B1 C1] [A2 B2 C2]. split; [congruence| |].
  - intros j Hj. by rewrite B2, B1.
  - intros j Hj. by rewrite C2, C1.
Qed.

Lemma same_contents_owned fs i fs' i' b :
  same_contents fs i fs' i' → b ∈ owned (abs fs') i' ↔ b ∈ owned (abs fs) i.
Proof. intros Hs. apply owned_ext; [exact (sc_ind _ _ _ _ Hs)|]. exact (sc_ptr _ _ _ _ Hs). Qed.

(** The files [T] by inode number, the free blocks [F], the free inodes [L]. *)
Record volume (fs : filesystem) (F : list Z) (T : gmap Z sfs_fs_inode) (L : list Z) (last : Z) : Prop := Volume {
  vo_ok : fs_ok fs;
  vo_free : is_free (abs fs) F;
  vo_inodes : free_inodes (abs fs) L last;
  vo_member n i : T !! n = Some i → i_inumber i = n ∧ file_state fs i F;
  vo_disjoint n m i j b : n ≠ m → T !! n = Some i → T !! m = Some j →
    b ∈ owned (abs fs) i → b ∉ owned (abs fs) j;
  vo_unused n : n ∈ L → T !! n = None;
}.

(** Every file that is in both tables keeps its contents, but for [n]. *)
Definition kept_but (n : option Z) (fs : filesystem) (T : gmap Z sfs_fs_inode)
    (fs' : filesystem) (T' : gmap Z sfs_fs_inode) : Prop :=
  ∀ m i i', Some m ≠ n → T !! m = Some i → T' !! m = Some i' → same_contents fs i fs' i'.

(** The two ways a table changes. *)
Lemma kept_but_insert (n : Z) (fs fs' : filesystem) T i' :
  (∀ m i, m ≠ n → T !! m = Some i → same_contents fs i fs' i) → kept_but (Some n) fs T fs' (<[n := i']> T).
Proof.
  intros Hk m i j Hne Hi Hj. rewrite lookup_insert_ne, Hi in Hj by congruence. simplify_eq.
  apply (Hk m); congruence.
Qed.

Lemma kept_but_insert_same (n : Z) (fs fs' : filesystem) T i i' :
  T !! n = Some i → same_contents fs i fs' i' →
  (∀ m i, m ≠ n → T !! m = Some i → same_contents fs i fs' i) → kept_but None fs T fs' (<[n := i']> T).
Proof.
  intros Hn Hs Hk m j j' _ Hj Hj'. destruct (decide (m = n)) as [->|Hne].
  - rewrite lookup_insert_eq in Hj'. by simplify_eq.
  - rewrite lookup_insert_ne, Hj in Hj' by congruence. simplify_eq. by apply (Hk m).
Qed.

Lemma kept_but_insert_none (n : Z) (fs fs' : filesystem) T i :
  T !! n = None → (∀ m k, m ≠ n → T !! m = Some k → same_contents fs k fs' k) →
  kept_but None fs T fs' (<[n := i]> T).
Proof.
  intros Hn Hk m j j' _ Hj Hj'. assert (m ≠ n) as Hne by congruence.
  rewrite lookup_insert_ne, Hj in Hj' by congruence. simplify_eq. by apply (Hk m).
Qed.

Definition grows (T T' : gmap Z sfs_fs_inode) : Prop := ∀ m, is_Some (T !! m) → is_Some (T' !! m).

Lemma grows_refl T : grows T T.
Proof. by intros m. Qed.

Lemma grows_insert T T' n i : grows T T' → grows T (<[n := i]> T').
Proof. intros Hg m Hm. apply lookup_insert_is_Some'. right. by apply Hg. Qed.

#[export] Hint Resolve grows_refl grows_insert : sfs.

Lemma kept_but_trans n fs T fs1 T1 fs2 T2 :
  kept_but n fs T fs1 T1 → kept_but n fs1 T1 fs2 T2 → grows T T1 → kept_but n fs T fs2 T2.
Proof.
  intros K1 K2 Hg m i i' Hne Hi Hi'. destruct (Hg m ltac:(by exists i)) as [i1 Hi1].
  eapply same_contents_trans; [by eapply K1|by eapply K2].
Qed.

Lemma kept_but_weaken n fs T fs' T' : kept_but None fs T fs' T' → kept_but n fs T fs' T'.
Proof. intros K m i i' _. by apply K. Qed.

(** A change of the file [n], as seen by the others. *)
Lemma volume_change (n : Z) fs F T L last fs' F' T' L' :
  volume fs F T L last → fs_ok fs' → is_free (abs fs') F' → free_inodes (abs fs') L' last →
  (∀ m, m ≠ n → T' !! m = T !! m) →
  (∀ m i, m ≠ n → T !! m = Some i → file_state fs' i F' ∧ same_contents fs i fs' i) →
  (∀ i', T' !! n = Some i' → i_inumber i' = n ∧ file_state fs' i' F' ∧
     ∀ m k b, m ≠ n → T !! m = Some k → b ∈ owned (abs fs) k → b ∉ owned (abs fs') i') →
  (∀ m, m ∈ L' → T' !! m = None) →
  volume fs' F' T' L' last.
Proof.
  intros [_ _ _ Hmem Hdis _] Hok Hfree HL Hother Hkept Hn Hun.
  assert (∀ m i b, m ≠ n → T !! m = Some i → b ∈ owned (abs fs') i ↔ b ∈ owned (abs fs) i) as Hown.
  { intros m i b Hne Hi. apply same_contents_owned. by apply (Hkept m). }
  split; [done|done|done| | |done].
  - intros m i Hi. destruct (decide (m = n)) as [->|Hne].
    + destruct (Hn i Hi) as (? & ? & _). done.
    + rewrite Hother in Hi by done. split; [by apply Hmem|]. by apply (Hkept m).
  - intros m k i j b Hmk Hi Hj. destruct (decide (m = n)) as [->|Hm]; destruct (decide (k = n)) as [->|Hk].
    + done.
    + rewrite Hother in Hj by done. destruct (Hn i Hi) as (_ & _ & Hd). rewrite (Hown k j b Hk Hj).
      intros Hb Hb'. exact (Hd k j b Hk Hj Hb' Hb).
    + rewrite Hother in Hi by done. destruct (Hn j Hj) as (_ & _ & Hd). rewrite (Hown m i b Hm Hi).
      exact (Hd m i b Hm Hi).
    + rewrite Hother in Hi, Hj by done. rewrite (Hown m i b Hm Hi), (Hown k j b Hk Hj).
      exact (Hdis m k i j b Hmk Hi Hj).
Qed.

Section volume.
  Context `{EV : Env, RI : !ReliableIO, EO : !EnvOk}.

(** A file that does not change, in a state with other free blocks. *)
Lemma member_frame fs i F fs' F' :
  file_state fs i F → fs_ok fs' → is_free (abs fs') F' →
  sb_inode_table_blocks (superblock fs') = sb_inode_table_blocks (superblock fs) →
  sb_blocks (superblock fs') = sb_blocks (superblock fs) →
  (∀ b, b ∈ owned (abs fs) i → data_block (superblock fs) b → b ∉ F →
    (b ∉ F') ∧ a_block (abs fs') b = a_block (abs fs) b) →
  a_inode (abs fs') (i_inumber i) = i →
  file_state fs' i F' ∧ same_contents fs i fs' i.
Proof.
  intros Hf Hok Hfree Ht Hbl Hb Hst.
  destruct (file_state_frame fs i F fs' F' Hf Hok Hfree Ht Hbl Hb Hst) as (Hf' & Hp & Hc).
  split; [exact Hf'|]. split; [done|intros j _; exact (Hp j)|exact Hc].
Qed.

Lemma volume_member fs F T L last n i :
  volume fs F T L last → T !! n = Some i → i_inumber i = n ∧ file_state fs i F ∧
  valid_inumber (superblock fs) n ∧ a_inode (abs fs) n = i ∧ inode_ok i = true.
Proof.
  intros Hv Hn. destruct (vo_member _ _ _ _ _ Hv n i Hn) as [E Hf]. split; [done|]. split; [done|].
  split; [rewrite <-E; exact (f_valid _ _ _ Hf)|]. split; [|exact (f_inode _ _ _ Hf)].
  rewrite <-E. exact (f_stored _ _ _ Hf).
Qed.

(** One inode is written; its pointers are as before. *)
Lemma volume_upd fs F T L last n i i' fs' :
  volume fs F T L last → T !! n = Some i → fs_ok fs' → abs fs' ≡ upd_inode i' (abs fs) →
  i_inumber i' = n → i_block_pointers i' = i_block_pointers i → inode_ok i' = true →
  volume fs' F (<[n := i']> T) L last ∧ kept_but None fs T fs' (<[n := i']> T).
Proof.
  intros Hv Hn Hok Habs Hnum Hp Hio. destruct (vo_member _ _ _ _ _ Hv n i Hn) as [E Hf].
  assert (superblock fs' = superblock fs) as Hsb by exact (proj1 Habs).
  assert (is_free (abs fs') F) as Hfree.
  { rewrite Habs. apply is_free_upd_inode. exact (vo_free _ _ _ _ _ Hv). }
  destruct (file_state_upd fs i i' F fs' Hf Hok Habs ltac:(congruence) Hp Hio) as [Hf' Hb'].
  assert (∀ b, data_block (superblock fs) b → a_block (abs fs') b = a_block (abs fs) b) as Hbl.
  { intros b Hd. destruct Habs as (_ & _ & Hb). apply Hb. change (data_block (superblock fs') b). by rewrite Hsb. }
  assert (same_contents fs i fs' i') as Hs.
  { split; [unfold bp; by rewrite Hp| |exact Hb']. intros j Hj.
    transitivity (file_ptr (abs fs') i j); [unfold file_ptr, bp; by rewrite Hp|]. symmetry.
    exact (file_ptr_equiv (upd_inode i' (abs fs)) _ i j (symmetry Habs)
      (λ Hnz, proj1 (wf_ind _ _ _ (f_wf _ _ _ Hf) Hnz))). }
  assert (∀ m k, m ≠ n → T !! m = Some k → a_inode (abs fs') m = k) as Hst.
  { intros m k Hne Hk. destruct (volume_member _ _ _ _ _ _ _ Hv Hk) as (Ek & Hfk & Hvk & Hst & _).
    destruct Habs as (_ & Hi & _). rewrite Hi; [|change (valid_inumber (superblock fs') m); by rewrite Hsb].
    simpl. by rewrite Hnum, (proj2 (Z.eqb_neq _ _)). }
  assert (∀ m k, m ≠ n → T !! m = Some k → file_state fs' k F ∧ same_contents fs k fs' k) as Hkept.
  { intros m k Hne Hk. destruct (vo_member _ _ _ _ _ Hv m k Hk) as [Ek Hfk].
    apply (member_frame fs k F fs' F Hfk Hok Hfree); [by rewrite Hsb|by rewrite Hsb| |].
    - intros b _ Hd HbF. split; [exact HbF|exact (Hbl b Hd)].
    - rewrite Ek. by apply Hst. }
  split.
  - apply (volume_change n fs F T L last); [exact Hv|exact Hok|exact Hfree| | |exact Hkept| |].
    + apply (free_inodes_ext (abs fs)); [by rewrite (proj1 Habs)|by rewrite (proj1 Habs)| |exact (vo_inodes _ _ _ _ _ Hv)].
      intros m Hm Hvm. destruct Habs as (_ & Hi & _). rewrite Hi; [|change (valid_inumber (superblock fs') m); by rewrite Hsb].
      simpl. rewrite (proj2 (Z.eqb_neq _ _)); [done|]. rewrite Hnum. intros ->.
      by rewrite (vo_unused _ _ _ _ _ Hv n Hm) in Hn.
    + intros m Hne. by rewrite lookup_insert_ne.
    + intros k Hk. rewrite lookup_insert_eq in Hk. simplify_eq. split; [done|]. split; [exact Hf'|].
      intros m j b Hne Hj Hb. rewrite (same_contents_owned _ _ _ _ b Hs).
      exact (vo_disjoint _ _ _ _ _ Hv m _ j i b Hne Hj Hn Hb).
    + intros m Hm. rewrite lookup_insert_ne; [exact (vo_unused _ _ _ _ _ Hv m Hm)|].
      intros ->. by rewrite (vo_unused _ _ _ _ _ Hv m Hm) in Hn.
  - apply (kept_but_insert_same n _ _ _ i); [exact Hn|exact Hs|]. intros m k Hne Hk. by apply (Hkept m k).
Qed.

(** The files are as they were. *)
Lemma volume_same fs F T L last fs' L' :
  volume fs F T L last → fs_ok fs' → is_free (abs fs') F → free_inodes (abs fs') L' last → L' ⊆ L →
  sb_inode_table_blocks (superblock fs') = sb_inode_table_blocks (superblock fs) →
  sb_blocks (superblock fs') = sb_blocks (superblock fs) →
  (∀ m, valid_inumber (superblock fs) m → a_inode (abs fs') m = a_inode (abs fs) m) →
  (∀ b, data_block (superblock fs) b → a_block (abs fs') b = a_block (abs fs) b) →
  volume fs' F T L' last ∧ kept_but None fs T fs' T.
Proof.
  intros Hv Hok Hfree HL Hsub Ht Hbl Hino Hb.
  assert (∀ m k, T !! m = Some k → file_state fs' k F ∧ same_contents fs k fs' k) as Hkept.
  { intros m k Hk. destruct (volume_member _ _ _ _ _ _ _ Hv Hk) as (Ek & Hfk & Hvk & Hstk & _).
    apply (member_frame fs k F fs' F Hfk Hok Hfree Ht Hbl).
    - intros b _ Hd HbF. split; [exact HbF|exact (Hb b Hd)].
    - rewrite Ek, Hino; [exact Hstk|exact Hvk]. }
  split; [|intros m i i' _ Hi Hi'; simplify_eq; by apply (Hkept m)].
  split; [exact Hok|exact Hfree|exact HL| | |].
  - intros n i Hi. split; [by apply (vo_member _ _ _ _ _ Hv)|]. by apply (Hkept n).
  - intros n m i j b Hne Hi Hj. rewrite (same_contents_owned _ _ _ _ b (proj2 (Hkept n i Hi))).
    rewrite (same_contents_owned _ _ _ _ b (proj2 (Hkept m j Hj))). exact (vo_disjoint _ _ _ _ _ Hv n m i j b Hne Hi Hj).
  - intros m Hm. apply (vo_unused _ _ _ _ _ Hv). by apply Hsub.
Qed.

Lemma volume_equiv fs F T L last fs' :
  volume fs F T L last → fs_ok fs' → abs fs' ≡ abs fs →
  volume fs' F T L last ∧ kept_but None fs T fs' T.
Proof.
  intros Hv Hok Habs. pose proof Habs as (Hs & Hi & Hb). change (superblock fs' = superblock fs) in Hs.
  apply (volume_same fs F T L last fs' L Hv Hok); [by rewrite Habs; exact (vo_free _ _ _ _ _ Hv)| |done|by rewrite Hs|by rewrite Hs| |].
  - eapply free_inodes_equiv; [symmetry; exact Habs|exact (vo_inodes _ _ _ _ _ Hv)].
  - intros m Hm. apply Hi. change (valid_inumber (superblock fs') m). by rewrite Hs.
  - intros b Hd. apply Hb. change (data_block (superblock fs') b). by rewrite Hs.
Qed.

(** A block of a file is written. *)
Lemma volume_written fs F T L last n i j blk fs' i' F' :
  volume fs F T L last → T !! n = Some i → fs_ok fs' → 0 ≤ j < file_blocks →
  written (abs fs) i F j blk (abs fs') i' F' →
  volume fs' F' (<[n := i']> T) L last ∧ kept_but (Some n) fs T fs' (<[n := i']> T).
Proof.
  intros Hv Hn Hok Hj Hw. destruct (volume_member _ _ _ _ _ _ _ Hv Hn) as (E & Hf & Hvn & Hst & _).
  pose proof (wr_sb _ _ _ _ _ _ _ _ Hw) as Hsb. simpl in Hsb.
  assert (sb_inode_table_blocks (superblock fs') = sb_inode_table_blocks (superblock fs)) as Ht
    by exact (f_equal sb_inode_table_blocks Hsb).
  pose proof (wr_free _ _ _ _ _ _ _ _ Hw) as Hfree.
  assert (∀ m, valid_inumber (superblock fs) m → valid_inumber (superblock fs') m) as Hvv.
  { intros m. unfold valid_inumber. by rewrite Ht. }
  assert (∀ m k, m ≠ n → T !! m = Some k → beside fs i F k) as Hbe.
  { intros m k Hne Hk. destruct (vo_member _ _ _ _ _ Hv m k Hk) as [Ek Hfk]. split; [exact Hfk|congruence|].
    intros b. exact (vo_disjoint _ _ _ _ _ Hv m n k i b Hne Hk Hn). }
  assert (∀ m k, m ≠ n → T !! m = Some k → file_state fs' k F' ∧ same_contents fs k fs' k) as Hkept.
  { intros m k Hne Hk. destruct (volume_member _ _ _ _ _ _ _ Hv Hk) as (Ek & Hfk & Hvk & Hstk & _).
    apply (member_frame fs k F fs' F' Hfk Hok Hfree Ht (f_equal sb_blocks Hsb)).
    - intros b Hob Hd HbF. split; [|exact (written_other_block _ _ _ _ _ _ _ _ _ _ Hw (Hbe m k Hne Hk) Hj Hob Hd HbF)].
      intros Hin. apply HbF. rewrite (wr_alloc _ _ _ _ _ _ _ _ Hw). apply elem_of_app. by right.
    - rewrite Ek. rewrite (wr_inodes _ _ _ _ _ _ _ _ Hw); [exact Hstk|exact Hvk|congruence]. }
  split; [|apply kept_but_insert; intros m k Hne Hk; by apply (Hkept m k)].
  apply (volume_change n fs F T L last); [exact Hv|exact Hok|exact Hfree| | |exact Hkept| |].
  - apply (free_inodes_ext (abs fs)); [exact (f_equal sb_free_inode_head Hsb)|exact Hvv| |exact (vo_inodes _ _ _ _ _ Hv)].
    intros m Hm Hvm. apply (wr_inodes _ _ _ _ _ _ _ _ Hw); [exact Hvm|]. rewrite E. intros ->.
    by rewrite (vo_unused _ _ _ _ _ Hv n Hm) in Hn.
  - intros m Hne. by rewrite lookup_insert_ne.
  - intros k Hk. rewrite lookup_insert_eq in Hk. injection Hk as <-.
    pose proof (wr_inumber _ _ _ _ _ _ _ _ Hw) as Enum. split; [congruence|]. split.
    + split; [exact Hok|exact Hfree|exact (wr_wf _ _ _ _ _ _ _ _ Hw)|exact (wr_ok _ _ _ _ _ _ _ _ Hw)| |].
      * rewrite Enum, E. exact (Hvv n Hvn).
      * rewrite Enum. apply (wr_stored _ _ _ _ _ _ _ _ Hw). by rewrite E.
    + intros m j' b Hne Hj' Hb Hb'.
      destruct (written_owned _ _ _ _ _ _ _ _ _ Hw Hb') as [Hin|Hin].
      * exact (vo_disjoint _ _ _ _ _ Hv m n j' i b Hne Hj' Hn Hb Hin).
      * destruct (vo_member _ _ _ _ _ Hv m j' Hj') as [_ Hfj]. pose proof (f_wf _ _ _ Hfj) as Hwf.
        apply elem_of_owned in Hb as [Hnz [->|(k & Hk & ->)]].
        -- exact (proj2 (wf_ind _ _ _ Hwf Hnz) Hin).
        -- exact (proj1 (proj2 (wf_ptr _ _ _ Hwf k Hk Hnz)) Hin).
  - intros m Hm. rewrite lookup_insert_ne; [exact (vo_unused _ _ _ _ _ Hv m Hm)|].
    intros ->. by rewrite (vo_unused _ _ _ _ _ Hv m Hm) in Hn.
Qed.

(** The block that was written is there. *)
Lemma written_ptr_nonzero fs i F j blk a' i' F' :
  fs_ok fs → is_free (abs fs) F → 0 ≤ j < file_blocks → written (abs fs) i F j blk a' i' F' → file_ptr a' i' j ≠ 0.
Proof.
  intros Hok Hfree Hj Hw. destruct (Z.eqb_spec (file_ptr (abs fs) i j) 0) as [Hz|Hnz].
  - assert (file_ptr a' i' j ∈ F) as Hin.
    { rewrite (wr_alloc _ _ _ _ _ _ _ _ Hw), Hz. left. }
    pose proof (data_block_range _ _ (free_data_block _ _ _ Hfree Hin) (proj1 (ok_table _ Hok))). lia.
  - rewrite (wr_ptr _ _ _ _ _ _ _ _ Hw); [exact Hnz|exact Hj|by right].
Qed.

(** The first free inode is taken off the list. *)
Lemma volume_allocated fs F T n L last fs' :
  volume fs F T (n :: L) last → fs_ok fs' →
  abs fs' ≡ upd_sb (set_free_inode_head (i_size (a_inode (abs fs) n)) (superblock fs)) (abs fs) →
  volume fs' F T L last ∧ kept_but None fs T fs' T.
Proof.
  intros Hv Hok Habs. pose proof Habs as (Hs & Hi & Hb).
  change (superblock fs' = set_free_inode_head (i_size (a_inode (abs fs) n)) (superblock fs)) in Hs.
  assert (∀ m, valid_inumber (superblock fs') m ↔ valid_inumber (superblock fs) m) as Hvv by (intros m; by rewrite Hs).
  assert (∀ m, valid_inumber (superblock fs) m → a_inode (abs fs') m = a_inode (abs fs) m) as Hino.
  { intros m Hm. rewrite Hi; [done|]. by apply Hvv. }
  pose proof (vo_inodes _ _ _ _ _ Hv) as [Hnd (_ & Hvn & _ & HL)].
  apply (volume_same fs F T (n :: L) last fs' L Hv Hok); [| |by apply list_subseteq_cons|by rewrite Hs|by rewrite Hs|exact Hino|].
  - rewrite Habs. eapply is_free_ext; [..|exact (vo_free _ _ _ _ _ Hv)]; done.
  - split; [by apply NoDup_cons in Hnd as [_ ?]|]. change (a_sb (abs fs')) with (superblock fs'). rewrite Hs.
    apply (inode_list_ext (abs fs)); [intros m; apply Hvv|intros m _ Hm; by apply Hino|exact HL].
  - intros b Hd. apply Hb. change (data_block (superblock fs') b). by rewrite Hs.
Qed.

(** A new file, all holes, in an inode that is neither in use nor free. *)
Lemma volume_new fs F T L last n i fs' :
  volume fs F T L last → T !! n = None → n ∉ L → valid_inumber (superblock fs) n → fs_ok fs' →
  abs fs' ≡ upd_inode i (abs fs) → i_inumber i = n → i_block_pointers i = replicate 14 0 → inode_ok i = true →
  volume fs' F (<[n := i]> T) L last ∧ kept_but None fs T fs' (<[n := i]> T).
Proof.
  intros Hv Hn HnL Hvn Hok Habs Hnum Hp Hio.
  assert (superblock fs' = superblock fs) as Hsb by exact (proj1 Habs).
  assert (is_free (abs fs') F) as Hfree.
  { rewrite Habs. apply is_free_upd_inode. exact (vo_free _ _ _ _ _ Hv). }
  assert (∀ m, valid_inumber (superblock fs) m → m ≠ n → a_inode (abs fs') m = a_inode (abs fs) m) as Hino.
  { intros m Hm Hne. destruct Habs as (_ & Hi & _). rewrite Hi; [|change (valid_inumber (superblock fs') m); by rewrite Hsb].
    simpl. by rewrite Hnum, (proj2 (Z.eqb_neq _ _)). }
  assert (∀ m k, m ≠ n → T !! m = Some k → file_state fs' k F ∧ same_contents fs k fs' k) as Hkept.
  { intros m k Hne Hk. destruct (volume_member _ _ _ _ _ _ _ Hv Hk) as (Ek & Hfk & Hvk & Hstk & _).
    apply (member_frame fs k F fs' F Hfk Hok Hfree); [by rewrite Hsb|by rewrite Hsb| |].
    - intros b _ Hd HbF. split; [exact HbF|]. destruct Habs as (_ & _ & Hb). apply Hb.
      change (data_block (superblock fs') b). by rewrite Hsb.
    - rewrite Ek, Hino; [exact Hstk|exact Hvk|exact Hne]. }
  split.
  - apply (volume_change n fs F T L last); [exact Hv|exact Hok|exact Hfree| | |exact Hkept| |].
    + apply (free_inodes_ext (abs fs)); [by rewrite (proj1 Habs)|by rewrite (proj1 Habs)| |exact (vo_inodes _ _ _ _ _ Hv)].
      intros m Hm Hvm. apply Hino; [exact Hvm|]. by intros ->.
    + intros m Hne. by rewrite lookup_insert_ne.
    + intros k Hk. rewrite lookup_insert_eq in Hk. injection Hk as <-. split; [exact Hnum|]. split.
      * split; [exact Hok|exact Hfree|by apply file_wf_holes|exact Hio|rewrite Hsb, Hnum; exact Hvn|].
        destruct Habs as (_ & Hi & _). rewrite Hi; [simpl; by rewrite Z.eqb_refl|].
        change (valid_inumber (superblock fs') (i_inumber i)). rewrite Hsb, Hnum. exact Hvn.
      * intros m k b _ _ _. rewrite elem_of_owned. unfold bp. intros [Hnz [->|(k' & _ & ->)]]; apply Hnz; [by rewrite Hp|].
        by apply file_ptr_hole.
    + intros m Hm. rewrite lookup_insert_ne; [exact (vo_unused _ _ _ _ _ Hv m Hm)|]. by intros ->.
  - apply kept_but_insert_none; [exact Hn|]. intros m k Hne Hk. by apply (Hkept m k).
Qed.

(** A file is given back: its inode with its direct blocks. *)
Lemma volume_freed fs F T L last n i inode fs' inode' :
  volume fs F T L last → T !! n = Some i → i_inumber inode = n →
  i_block_pointers inode = i_block_pointers i → fs_ok fs' → deallocated (abs fs) inode F (abs fs') inode' →
  volume fs' (direct_blocks inode ++ F) (delete n T) (n :: L) last ∧ kept_but None fs T fs' (delete n T).
Proof.
  intros Hv Hn Hnum Hp Hok [Hi' Hfree Hfr]. pose proof (frame_geometry _ _ _ Hfr) as (Ht & Hbl & Hh).
  destruct (volume_member _ _ _ _ _ _ _ Hv Hn) as (E & Hf & Hvn & _). simpl in Ht, Hbl, Hh.
  assert (∀ b, b ∈ direct_blocks inode → b ∈ owned (abs fs) i) as Hown.
  { intros b (Hnz & k & Hk & E')%elem_of_direct_upto. apply elem_of_owned. split; [done|]. right.
    exists k. split; [unfold file_blocks; change SFS_NIND_BLOCKS with 64; lia|].
    rewrite file_ptr_direct by lia. unfold bp in *. by rewrite <-Hp. }
  assert (∀ m k, m ≠ n → T !! m = Some k →
    file_state fs' k (direct_blocks inode ++ F) ∧ same_contents fs k fs' k) as Hkept.
  { intros m k Hne Hk. destruct (volume_member _ _ _ _ _ _ _ Hv Hk) as (Ek & Hfk & Hvk & Hstk & _).
    apply (member_frame fs k F fs' _ Hfk Hok Hfree Ht Hbl).
    - intros b Hob Hd HbF. assert (b ∉ direct_blocks inode ++ F) as Hn'.
      { rewrite elem_of_app. intros [Hin|Hin]; [|exact (HbF Hin)].
        exact (vo_disjoint _ _ _ _ _ Hv m n k i b Hne Hk Hn Hob (Hown b Hin)). }
      split; [exact Hn'|]. by apply (proj2 (proj2 Hfr)).
    - rewrite Ek, (proj1 (proj2 Hfr)) by exact Hvk. simpl. rewrite Hi'. simpl. rewrite Hnum.
      by rewrite (proj2 (Z.eqb_neq _ _) Hne). }
  split.
  - apply (volume_change n fs F T L last); [exact Hv|exact Hok|exact Hfree| | |exact Hkept| |].
    + apply (free_inodes_frame _ _ _ _ _ Hfr). rewrite Hi'. rewrite <-Hnum.
      apply (free_inodes_cons _ (set_size_ (sb_free_inode_head (superblock fs)) inode)); [exact (vo_inodes _ _ _ _ _ Hv)| | |done].
      * simpl. rewrite Hnum. exact Hvn.
      * simpl. rewrite Hnum. intros Hin. by rewrite (vo_unused _ _ _ _ _ Hv n Hin) in Hn.
    + intros m Hne. by rewrite lookup_delete_ne.
    + intros k Hk. by rewrite lookup_delete_eq in Hk.
    + intros m [->|Hm]%elem_of_cons; [apply lookup_delete_eq|]. destruct (decide (m = n)) as [->|Hne]; [apply lookup_delete_eq|].
      rewrite lookup_delete_ne by done. exact (vo_unused _ _ _ _ _ Hv m Hm).
  - intros m k k' _ Hk Hk'. destruct (decide (m = n)) as [->|Hne]; [by rewrite lookup_delete_eq in Hk'|].
    rewrite lookup_delete_ne, Hk in Hk' by done. injection Hk' as <-. by apply (Hkept m k).
Qed.

(** ** The operations on a volume *)
Lemma read_inode_volume fs F T L last n i :
  volume fs F T L last → T !! n = Some i →
  wp (sfs_fs_read_inode n) fs (λ o fs', o = Some i ∧ volume fs' F T L last ∧ kept_but None fs T fs' T ∧ abs fs' ≡ abs fs).
Proof.
  intros Hv Hn. destruct (volume_member _ _ _ _ _ _ _ Hv Hn) as (_ & _ & Hvn & Hst & _).
  eapply wp_mono; [apply read_inode_spec; [exact (vo_ok _ _ _ _ _ Hv)|exact Hvn]|].
  intros o fs' (-> & Hok & Habs). destruct (volume_equiv _ _ _ _ _ _ Hv Hok Habs) as [Hv' Hk].
  split; [by rewrite <-Hst|]. exact (conj Hv' (conj Hk Habs)).
Qed.

Lemma time_volume fs F T L last :
  volume fs F T L last →
  wp (at_disk time_) fs (λ t fs', 0 ≤ t < 2 ^ 64 ∧ volume fs' F T L last ∧ kept_but None fs T fs' T ∧ abs fs' = abs fs).
Proof.
  intros Hv. eapply wp_mono; [apply time_spec; exact (vo_ok _ _ _ _ _ Hv)|].
  intros t fs' (Ht & Hok & Habs). destruct (volume_equiv _ _ _ _ _ fs' Hv Hok ltac:(by rewrite Habs)) as [Hv' Hk].
  exact (conj Ht (conj Hv' (conj Hk Habs))).
Qed.

Lemma write_inode_volume fs F T L last n i i' :
  volume fs F T L last → T !! n = Some i → i_inumber i' = n →
  i_block_pointers i' = i_block_pointers i → inode_ok i' = true →
  wp (sfs_fs_write_inode i') fs (λ r fs', r = 0 ∧ volume fs' F (<[n := i']> T) L last ∧
    kept_but None fs T fs' (<[n := i']> T) ∧ abs fs' ≡ upd_inode i' (abs fs)).
Proof.
  intros Hv Hn Hnum Hp Hio. destruct (volume_member _ _ _ _ _ _ _ Hv Hn) as (_ & _ & Hvn & _).
  eapply wp_mono; [apply write_inode_spec; [exact (vo_ok _ _ _ _ _ Hv)|by rewrite Hnum|exact Hio]|].
  intros r fs' (-> & Hok & Habs). destruct (volume_upd _ _ _ _ _ _ _ _ _ Hv Hn Hok Habs Hnum Hp Hio) as [Hv' Hk].
  split; [done|]. exact (conj Hv' (conj Hk Habs)).
Qed.

Lemma block_write_volume fs F T L last n i j blk :
  volume fs F T L last → T !! n = Some i → 0 ≤ j < file_blocks →
  j < SFS_NDIR_BLOCKS ∨ bp i SFS_IND_BLOCK ≠ 0 → length blk = 512%nat →
  F ≠ [] ∨ file_ptr (abs fs) i j ≠ 0 →
  wp (sfs_fs_inode_block_write i j blk) fs (λ '(r, i') fs', r = 0 ∧ ∃ F',
    volume fs' F' (<[n := i']> T) L last ∧ kept_but (Some n) fs T fs' (<[n := i']> T) ∧
    written (abs fs) i F j blk (abs fs') i' F').
Proof.
  intros Hv Hn Hj Hcase Hblk HF. destruct (volume_member _ _ _ _ _ _ _ Hv Hn) as (E & Hf & Hvn & _ & Hio).
  eapply wp_mono; [apply (block_write_spec stack_len fs i F j blk); try done; try apply Hf; by rewrite E|].
  intros [[|p|p] i'] fs' [Hok Hw]; [|by destruct Hw as (_ & -> & ? & _), HF..].
  destruct Hw as [F' Hw]. split; [done|]. exists F'.
  destruct (volume_written _ _ _ _ _ _ _ _ _ _ _ _ Hv Hn Hok Hj Hw) as [Hv' Hk].
  exact (conj Hv' (conj Hk Hw)).
Qed.

End volume.
