(* ===== verification/Format.v ===== *)
(** * fs.c: formatting a disk and opening a file system *)

From S2P Require Export Fs.

Definition S_IFMT : Z := 61440.     (* 0170000 *)
Definition S_IFDIR : Z := 16384.    (* 0040000 *)
Definition S_IFREG : Z := 32768.    (* 0100000 *)
Definition S_ISGID : Z := 1024.     (* 02000 *)
Definition ROOT_MODE : Z := 16877.  (* S_IFDIR | S_IRWXU | S_IRGRP | S_IXGRP | S_IROTH | S_IXOTH *)

(** The geometry that [format_fs] computes from the number of blocks. *)
Definition table_blocks (blocks : Z) : Z :=
  let t := u64 (blocks - 1) / 16 in if t =? 0 then 1 else t.
Definition free_head (blocks : Z) : Z := u64 (2 + table_blocks blocks).
Definition free_blocks (blocks : Z) : Z := u64 (blocks - free_head blocks).
Definition slots_per_block : Z := BLOCK_SIZE / Z.of_nat (c_size u64_c) - 1.
Definition first_free_block (blocks : Z) : Z :=
  u64 (free_head blocks + free_blocks blocks
       - u64 (free_blocks blocks * slots_per_block) / (slots_per_block + 1)).

Section format.
  Context `{Env}.

(** One inode of the table; [tmp_block] and [next_free] are the loop's
    variables. *)
Definition format_inode (i j : Z) (acc : list byte * Z) : M world (list byte * Z) :=
  let '(tmp_block, next_free) := acc in
  if (i =? 1) && (j =? 0) then
    let root := get_at inode_c 0 tmp_block in
    t ← time_;
    mret (set_at inode_c 0
            (set_size_ 0 (set_modified_time t (set_change_time t (set_access_time t
              (set_links 1 (set_gid env_gid (set_uid env_uid
                (set_mode ROOT_MODE (set_inumber 1 root)))))))))
            tmp_block, next_free)
  else
    let free := c_dec inode_c (replicate (c_size inode_c) x00) in
    mret (set_at inode_c (Z.to_nat j)
            (set_size_ next_free (set_inumber (u64 (next_free - 1)) free)) tmp_block,
          u64 (next_free + 1)).

Definition format_inode_block (i : Z) (acc : list byte * Z)
    : M world (ctl (list byte * Z) Z) :=
  e ← for_range 0 inodes_per_block acc (λ j acc,
        acc ← format_inode i j acc; mret (Continue (R := Z) acc));
  match e with
  | inr r => mret (Return r)
  | inl (tmp_block, next_free) =>
      r ← block_write i tmp_block;
      return_if negb (r =? BLOCK_SIZE) with Return (-1);
      mret (Continue (tmp_block, next_free))
  end.

(** One free block entered in the index; the loop's variables are
    [tmp_block], [cur_index_block] and [cur_index_block_pos]. *)
Definition format_index_entry (first_free : Z) (i : Z) (acc : list byte * Z * Z)
    : M world (ctl (list byte * Z * Z) Z) :=
  let '(free_index, cur, pos) := acc in
  let '(cur, pos) := if pos =? Z.of_nat index_slots then (u64 (cur + 1), 0) else (cur, pos) in
  assert_ (cur <? first_free);;
  let '(free_index, pos) :=
    if pos =? 0 then
      (index_set 0 (if cur <? u64 (first_free - 1) then u64 (cur + 1) else 0) free_index, pos + 1)
    else (free_index, pos) in
  let free_index := index_set (Z.to_nat pos) i free_index in
  let pos := pos + 1 in
  if pos =? Z.of_nat index_slots then
    r ← block_write cur free_index;
    return_if negb (r =? BLOCK_SIZE) with Return (-1);
    mret (Continue (free_index, cur, pos))
  else mret (Continue (free_index, cur, pos)).

(** Returns the new superblock, or [None] for -1. *)
Definition format_fs : M world (option sfs_fs_superblock) :=
  w ← get;
  return_if negb env_fstat_ok with None;
  let disk_size := w_size w in
  let blocks := u64 (Z.quot disk_size BLOCK_SIZE) in
  return_if blocks <? 3 with None;
  create_time ← time_;
  let T := table_blocks blocks in
  let superblock :=
    Superblock SFS_FILE_TYPE_SIGNATURE create_time BLOCK_SIZE T
      (u64 (T * inodes_per_block)) blocks (free_head blocks) 2 in
  (* the inode table *)
  e ← for_range 1 (u64 (T + 1)) (zero_block, 3) format_inode_block;
  match e with
  | inr _ => mret None
  | inl (tmp_block, _) =>
      (* the index of free blocks *)
      let first_free := first_free_block blocks in
      e ← for_range first_free blocks (tmp_block, free_head blocks, 0)
            (format_index_entry first_free);
      match e with
      | inr _ => mret None
      | inl (_, cur, _) =>
          assert_ (cur =? u64 (first_free - 1));;
          r ← write_superblock superblock;
          return_if negb (r =? 0) with None;
          mret (Some superblock)
      end
  end.

(** [maybe_format] only decides whether a message is logged. *)
Definition sfs_fs_open_disk (maybe_format : bool)
    : M world (option (sfs_fs_superblock * inode_cache)) :=
  ok ← malloc_;
  return_if negb ok with None;
  let cache := InodeCache env_heap_dirty 0 env_heap_data in
  '(r, superblock_data) ← block_read 0 env_stack_block;
  return_if negb (r =? BLOCK_SIZE) with None;
  let sb := get_at superblock_c 0 superblock_data in
  o ← (if bool_decide (sb_signature sb = SFS_FILE_TYPE_SIGNATURE) then mret (Some sb)
       else format_fs);
  match o with
  | None => mret None
  | Some fsb =>
      (* asctime() of the create time read from the disk, before formatting *)
      if env_asctime_ok (sb_create_time sb) then mret (Some (fsb, cache))
      else crash_with UndefinedBehaviour
  end.

End format.
