(* ===== verification/Dir.v ===== *)
(** * dir.c: directories

    A directory is a file whose blocks are arrays of entries.  An iterator
    holds a pointer to the caller's inode of the directory: that object is
    passed to the functions and returned by them. *)

From S2P Require Export Format.

Record dir_iterator := DirIterator {
  it_iblock : Z;
  it_entry : Z;
  it_cached_block : list byte;
}.

Abbreviation entry_at := (get_at dir_entry_c).

Section dir.
  Context `{Env}.

Definition sfs_dir_root : M filesystem (option sfs_fs_inode) := sfs_fs_read_inode 1.

Definition sfs_dir_iterate (inode : sfs_fs_inode) : M filesystem (option dir_iterator) :=
  assert_ (negb (Z.land (i_mode inode) S_IFDIR =? 0));;
  ok ← at_disk malloc_;
  return_if negb ok with None;
  mret (Some (DirIterator 0 0 env_heap_data)).

(** The entries of the cached block from [it_entry] on: stop at the first one
    in use. *)
Fixpoint scan_entries (n : nat) (entry : Z) (block : list byte) : option Z :=
  match n with
  | O => None
  | S n' =>
      if d_inumber (entry_at (Z.to_nat entry) block) =? 0
      then scan_entries n' (entry + 1) block
      else Some entry
  end.

(** What an iteration step hands out: the new iterator, the entry that
    [direntry] points to (its index in the cached block, and its contents),
    and the entry's inode when the caller asked for it. *)
Record dir_item := DirItem {
  di_iter : dir_iterator;
  di_index : Z;
  di_entry : sfs_dir_entry;
  di_inode : option sfs_fs_inode;
}.

(** One turn of the outer loop; [None] is [goto end].  The variables are the
    iterator and the directory's inode. *)
Definition iternext_step (want_inode : bool) (acc : dir_iterator * sfs_fs_inode)
    : M filesystem (ctl (dir_iterator * sfs_fs_inode) (option dir_item * sfs_fs_inode)) :=
  let '(it, dir) := acc in
  return_if i_size dir <=? u64 (it_iblock it * BLOCK_SIZE) with Return (None, dir);
  r ← (if it_entry it =? 0 then
         '(r, blk) ← sfs_fs_inode_block_read dir (it_iblock it) (it_cached_block it);
         return_if negb (r =? 0) with (-1, blk, dir);
         t ← at_disk time_;
         let dir := set_access_time t dir in
         r ← sfs_fs_write_inode dir;
         return_if negb (r =? 0) with (-1, blk, dir);
         mret (0, blk, dir)
       else mret (0, it_cached_block it, dir));
  let '(r, blk, dir) := r in
  return_if negb (r =? 0) with Return (None, dir);
  match scan_entries (Z.to_nat (entries_per_block - it_entry it)) (it_entry it) blk with
  | Some e =>
      let ent := entry_at (Z.to_nat e) blk in
      let it := DirIterator (it_iblock it) (e + 1) blk in
      if want_inode then
        o ← sfs_fs_read_inode (d_inumber ent);
        match o with
        | None => mret (Return (None, dir))
        | Some inode => mret (Return (Some (DirItem it e ent (Some inode)), dir))
        end
      else mret (Return (Some (DirItem it e ent None), dir))
  | None => mret (Continue (DirIterator (u64 (it_iblock it + 1)) 0 blk, dir))
  end.

(** A directory has a block for every [iblock] below its size, so the outer
    loop makes at most one turn per block. *)
Definition iternext_fuel (it : dir_iterator) (dir : sfs_fs_inode) : nat :=
  Z.to_nat ((i_size dir + BLOCK_SIZE - 1) / BLOCK_SIZE - it_iblock it) + 2.

Definition sfs_dir_iternext (it : dir_iterator) (dir : sfs_fs_inode) (want_inode : bool)
    : M filesystem (option dir_item * sfs_fs_inode) :=
  e ← while_true (iternext_fuel it dir) (it, dir) (iternext_step want_inode);
  match e with
  | inr r => mret r
  | inl (_, dir) => mret (None, dir)     (* the loop has no break *)
  end.

(** [direntry] is the entry at [index] of the cached block. *)
Definition sfs_dir_iter_unlink (it : dir_iterator) (dir : sfs_fs_inode) (index : Z)
    : M filesystem (Z * sfs_fs_inode) :=
  let ent := entry_at (Z.to_nat index) (it_cached_block it) in
  o ← sfs_fs_read_inode (d_inumber ent);
  match o with
  | None => mret (-1, dir)
  | Some inode =>
      let inode := set_links (u32 (i_links inode - 1)) inode in
      t ← at_disk time_;
      let inode := set_change_time t inode in
      r ← (if i_links inode =? 0 then
             '(r, _) ← sfs_fs_inode_deallocate inode; mret r
           else sfs_fs_write_inode inode);
      return_if negb (r =? 0) with (-1, dir);
      let blk := set_at dir_entry_c (Z.to_nat index) (DirEntry 0 (d_name ent))
                   (it_cached_block it) in
      t ← at_disk time_;
      let dir := set_modified_time t dir in
      r ← sfs_fs_write_inode dir;
      return_if negb (r =? 0) with (-1, dir);
      '(r, dir) ← sfs_fs_inode_block_write dir (it_iblock it) blk;
      return_if negb (r =? 0) with (-1, dir);
      mret (0, dir)
  end.

(** [strncpy(dst, name, 256)] of a string of at most 255 characters. *)
Definition strncpy_name (name : list byte) : list byte := resize 256 x00 name.

(** The first unused entry of a block, from [j] on. *)
Fixpoint free_entry (n : nat) (j : nat) (block : list byte) : option nat :=
  match n with
  | O => None
  | S n' =>
      if d_inumber (entry_at j block) =? 0 then Some j else free_entry n' (S j) block
  end.

(** The entry is entered in block [i] at [j]; returns the inodes of the
    directory and of the file as changed in place. *)
Definition link_at (dir : sfs_fs_inode) (name : list byte) (inode : sfs_fs_inode)
    (i : Z) (j : nat) (tmp_block : list byte)
    : M filesystem (Z * sfs_fs_inode * sfs_fs_inode) :=
  let tmp_block := set_at dir_entry_c j (DirEntry (i_inumber inode) (strncpy_name name)) tmp_block in
  '(r, dir) ← sfs_fs_inode_block_write dir i tmp_block;
  return_if negb (r =? 0) with (-1, dir, inode);
  let inode := set_links (u32 (i_links inode + 1)) inode in
  t ← at_disk time_;
  let inode := set_change_time t inode in
  let dir := set_modified_time t dir in
  r ← sfs_fs_write_inode dir;
  return_if negb (r =? 0) with (-1, dir, inode);
  r ← sfs_fs_write_inode inode;
  return_if negb (r =? 0) with (-1, dir, inode);
  mret (0, dir, inode).

(** A new block at the end of the directory. *)
Definition link_append (dir : sfs_fs_inode) (name : list byte) (inode : sfs_fs_inode)
    : M filesystem (Z * sfs_fs_inode * sfs_fs_inode) :=
  let tmp_block := set_at dir_entry_c 0 (DirEntry (i_inumber inode) (strncpy_name name)) zero_block in
  '(r, dir) ← sfs_fs_inode_block_write dir (i_size dir / BLOCK_SIZE) tmp_block;
  return_if negb (r =? 0) with (-1, dir, inode);
  let dir := set_size_ (u64 (i_size dir + BLOCK_SIZE)) dir in
  t ← at_disk time_;
  let dir := set_modified_time t dir in
  r ← sfs_fs_write_inode dir;
  return_if negb (r =? 0) with (-1, dir, inode);
  let inode := set_links (u32 (i_links inode + 1)) inode in
  t ← at_disk time_;
  let inode := set_change_time t inode in
  r ← sfs_fs_write_inode inode;
  return_if negb (r =? 0) with (-1, dir, inode);
  mret (0, dir, inode).

(** The search of [sfs_dir_link] for a block with an unused entry. *)
Definition link_search (dir : sfs_fs_inode) : M filesystem (() + option (Z * nat * list byte)) :=
  for_range 0 (i_size dir / BLOCK_SIZE) tt (λ i _,
    '(r, tmp_block) ← sfs_fs_inode_block_read dir i env_stack_block;
    return_if negb (r =? 0) with Return None;
    match free_entry (Z.to_nat entries_per_block) 0 tmp_block with
    | Some j => mret (Return (Some (i, j, tmp_block)))
    | None => mret (Continue tt)
    end).

Definition sfs_dir_link (dir : sfs_fs_inode) (name : list byte) (inode : sfs_fs_inode)
    : M filesystem (Z * sfs_fs_inode * sfs_fs_inode) :=
  return_if 255 <? Z.of_nat (length name) with (-1, dir, inode);
  e ← link_search dir;
  match e with
  | inr None => mret (-1, dir, inode)
  | inr (Some (i, j, tmp_block)) => link_at dir name inode i j tmp_block
  | inl _ => link_append dir name inode
  end.

End dir.
