(* ===== verification/Filedescriptor.v ===== *)
(** * filedescriptor.c: the slab allocator of file descriptors

    A pool is a linked list of slabs of 4088 slots and a free list threaded
    through the slots.  Slot [j] of the [k]-th slab is number
    [k * slots_per_slab + j]; that number stands for the slot's address. *)

From S2P Require Export World.

(** sizeof(slab->data) / sizeof(union slot) *)
Definition slots_per_slab : nat := Pos.to_nat 4088.

(** The eight bytes that [n.next] and [s.inumber] share. *)
Inductive word8 :=
  | WPtr (p : option nat)
  | WInt (z : Z).

(** [union slot]: the members [s.fd] and [n.fd] are the same bytes too. *)
Record slot := Slot {
  sl_fd : Z;
  sl_word : word8;
  sl_flags : option Z;     (* [None]: never written *)
}.

Record pool := Pool {
  nslabs : nat;
  slots : list slot;       (* of all slabs, in the order of their links *)
  freelist : option nat;
  p_mallocs : nat;
}.

Definition set_freelist (f : option nat) (p : pool) : pool :=
  Pool (nslabs p) (slots p) f (p_mallocs p).
Definition set_slot (s : nat) (v : slot) (p : pool) : pool :=
  Pool (nslabs p) (<[s := v]> (slots p)) (freelist p) (p_mallocs p).

(** The slots of a new slab whose first slot is number [first]: a free list of
    descriptors [base], [base + 1], ... *)
Definition init_slab (base : Z) (first : nat) : list slot :=
  map (λ i, Slot (base + Z.of_nat i)
                 (WPtr (if (i <? slots_per_slab - 1)%nat then Some (first + i + 1)%nat else None))
                 None)
      (seq 0 slots_per_slab).

(** [*s], for a slot's address. *)
Definition deref (s : nat) : M pool slot := λ p,
  match slots p !! s with
  | Some v => Done v p
  | None => Crash UndefinedBehaviour
  end.

Section filedescriptor.
  Context `{Env}.

Definition sfs_filedescriptor_pool_init : M world (option pool) :=
  ok ← malloc_;
  return_if negb ok with None;
  ok ← malloc_;
  return_if negb ok with None;
  mret (Some (Pool 1 (init_slab 0 0) (Some 0%nat) 0)).

(** Each turn frees the head slab and moves to the next; [rest] is the number
    of slabs after the head. *)
Fixpoint deinit_loop (rest : nat) (p : pool) : pool :=
  match rest with
  | O => p
  | S rest' =>
      deinit_loop rest' (Pool (nslabs p - 1) (drop slots_per_slab (slots p))
                              (freelist p) (p_mallocs p))
  end.

Definition sfs_filedescriptor_pool_deinit : M pool () :=
  p ← get;
  assert_ (negb (nslabs p =? 0)%nat);;
  put (deinit_loop (nslabs p - 1) p).

(** Reading the shared bytes as a pointer or as a number. *)
Definition word_as_ptr (w : word8) : M pool (option nat) :=
  match w with
  | WPtr p => mret p
  | WInt z => if z =? 0 then mret None else crash_with UndefinedBehaviour
  end.

Definition word_as_int (w : word8) : Z :=
  match w with
  | WPtr p => env_pointer p
  | WInt z => z
  end.

Definition init_slot_as_sfs_fd (s : nat) : M pool nat :=
  v ← deref s;
  modify (set_slot s (Slot (sl_fd v) (sl_word v) (sl_flags v)));;
  mret s.

(** A new slab at the end of the list; [false] when malloc fails. *)
Definition grow : M pool bool :=
  p ← get;
  let num_fds_already := Z.of_nat (slots_per_slab * nslabs p) in
  let ok := env_slab_malloc (p_mallocs p) in
  put (Pool (nslabs p) (slots p) (freelist p) (S (p_mallocs p)));;
  return_if negb ok with false;
  (* the numbers are ints *)
  if 2 ^ 31 <=? num_fds_already + Z.of_nat slots_per_slab - 1
  then crash_with UndefinedBehaviour
  else
    let first := length (slots p) in
    put (Pool (S (nslabs p)) (slots p ++ init_slab num_fds_already first)
              (Some first) (S (p_mallocs p)));;
    mret true.

(** The function calls itself after it has added a slab. *)
Fixpoint allocate_rec (fuel : nat) : M pool (option nat) :=
  match fuel with
  | O => crash_with Diverges
  | S fuel' =>
      p ← get;
      match freelist p with
      | Some s =>
          v ← deref s;
          next ← word_as_ptr (sl_word v);
          modify (set_freelist next);;
          s ← init_slot_as_sfs_fd s;
          mret (Some s)
      | None =>
          ok ← grow;
          return_if negb ok with None;
          allocate_rec fuel'
      end
  end.

Definition sfs_filedescriptor_allocate : M pool (option nat) := allocate_rec 2.

(** [fd] is an int. *)
Definition sfs_filedescriptor_get_from_fd (fd : Z) : M pool (option nat) :=
  assert_ (0 <=? fd);;
  p ← get;
  let slab_index := fd / Z.of_nat slots_per_slab in
  let slot_index := fd `mod` Z.of_nat slots_per_slab in
  return_if Z.of_nat (nslabs p) <=? slab_index with None;
  mret (Some (Z.to_nat slab_index * slots_per_slab + Z.to_nat slot_index)%nat).

Definition sfs_filedescriptor_free (s : nat) : M pool () :=
  v ← deref s;
  p ← get;
  modify (set_slot s (Slot (sl_fd v) (WPtr (freelist p)) (sl_flags v)));;
  modify (set_freelist (Some s)).

(** The members of an open descriptor: [fd->inumber], and the assignments of
    [inumber] and [flags]. *)
Definition fd_inumber (s : nat) : M pool Z :=
  v ← deref s; mret (word_as_int (sl_word v)).

Definition fd_set (s : nat) (inumber flags : Z) : M pool Z :=
  v ← deref s;
  modify (set_slot s (Slot (sl_fd v) (WInt inumber) (Some flags)));;
  mret (sl_fd v).

End filedescriptor.

Lemma slots_per_slab_Z : Z.of_nat slots_per_slab = 4088.
Proof. apply positive_nat_Z. Qed.

#[global] Opaque slots_per_slab.
