(* ===== verification/FdPool.v ===== *)
(** * The pool of descriptors as a list of free slots

    The invariant of the pool and what each operation does to the free list. *)

From S2P Require Export Filedescriptor.

(** The slots [L] in the order of the free list that starts at [head]. *)
Fixpoint fchain (sl : list slot) (head : option nat) (L : list nat) : Prop :=
  match L with
  | [] => head = None
  | s :: L' => head = Some s ∧ ∃ v next,
      sl !! s = Some v ∧ sl_word v = WPtr next ∧ fchain sl next L'
  end.

Record pool_ok (p : pool) (L : list nat) : Prop := PoolOk {
  po_length : length (slots p) = (nslabs p * slots_per_slab)%nat;
  po_slabs : (1 ≤ nslabs p)%nat;
  po_fd i v : slots p !! i = Some v → sl_fd v = Z.of_nat i;
  po_chain : fchain (slots p) (freelist p) L;
  po_nodup : NoDup L;
}.

Lemma slots_per_slab_pos : (0 < slots_per_slab)%nat.
Proof. pose proof slots_per_slab_Z. lia. Qed.

Lemma fchain_insert sl head L s v : s ∉ L → fchain sl head L → fchain (<[s := v]> sl) head L.
Proof.
  revert head. induction L as [|x L IH]; intros head; simpl; [done|].
  intros [Hne Hs]%not_elem_of_cons (-> & w & next & Hx & Hw & Hc). split; [done|].
  exists w, next. split_and!; [by rewrite list_lookup_insert_ne|done|auto].
Qed.

Lemma fchain_lt sl head L s : fchain sl head L → s ∈ L → (s < length sl)%nat.
Proof.
  revert head. induction L as [|x L IH]; intros head; simpl; [by intros _ ?%not_elem_of_nil|].
  intros (-> & w & next & Hx & Hw & Hc) [->|Hs]%elem_of_cons; [by eapply lookup_lt_Some|eauto].
Qed.

(** ** A new slab *)
Lemma length_init_slab base first : length (init_slab base first) = slots_per_slab.
Proof. unfold init_slab. by rewrite length_map, length_seq. Qed.

Lemma lookup_init_slab base first i :
  (i < slots_per_slab)%nat →
  init_slab base first !! i =
    Some (Slot (base + Z.of_nat i)
      (WPtr (if (i <? slots_per_slab - 1)%nat then Some (first + i + 1)%nat else None)) None).
Proof. intros. unfold init_slab. by rewrite list_lookup_fmap, lookup_seq_lt. Qed.

Lemma fchain_slab_suffix sl base k :
  (k ≤ slots_per_slab)%nat →
  fchain (sl ++ init_slab base (length sl))
    (if (k =? 0)%nat then None else Some (length sl + (slots_per_slab - k))%nat)
    (seq (length sl + (slots_per_slab - k)) k).
Proof.
  induction k as [|k IH]; intros Hk; [done|]. simpl. split; [done|].
  eexists _, _. split_and!.
  - rewrite lookup_app_r by lia.
    replace (length sl + (slots_per_slab - S k) - length sl)%nat with (slots_per_slab - S k)%nat by lia.
    apply lookup_init_slab. lia.
  - reflexivity.
  - replace (S (length sl + (slots_per_slab - S k)))%nat with (length sl + (slots_per_slab - k))%nat by lia.
    specialize (IH ltac:(lia)). destruct k as [|k]; simpl in IH |- *.
    + by rewrite (proj2 (Nat.ltb_ge _ _)) by lia.
    + rewrite (proj2 (Nat.ltb_lt _ _)) by lia.
      by replace (length sl + (slots_per_slab - S (S k)) + 1)%nat
        with (length sl + (slots_per_slab - S k))%nat by lia.
Qed.

Lemma fchain_slab sl base :
  fchain (sl ++ init_slab base (length sl)) (Some (length sl)) (seq (length sl) slots_per_slab).
Proof.
  pose proof (fchain_slab_suffix sl base slots_per_slab ltac:(done)) as Hc.
  pose proof slots_per_slab_pos. rewrite (proj2 (Nat.eqb_neq _ 0)) in Hc by lia.
  by replace (length sl + (slots_per_slab - slots_per_slab))%nat with (length sl) in Hc by lia.
Qed.

(** The pool after a slab is added to it. *)
Definition grown (p : pool) : pool :=
  Pool (S (nslabs p)) (slots p ++ init_slab (Z.of_nat (length (slots p))) (length (slots p)))
    (Some (length (slots p))) (S (p_mallocs p)).

Lemma pool_ok_grown p L :
  pool_ok p L → pool_ok (grown p) (seq (length (slots p)) slots_per_slab).
Proof.
  intros Hp. split; simpl.
  - rewrite length_app, length_init_slab, (po_length _ _ Hp). lia.
  - lia.
  - intros i v [Hi|[Hlt Hi]]%lookup_app_Some; [by apply (po_fd _ _ Hp)|].
    assert (i - length (slots p) < slots_per_slab)%nat as Hlt'.
    { apply lookup_lt_Some in Hi. by rewrite length_init_slab in Hi. }
    rewrite lookup_init_slab in Hi by done. simplify_eq/=. lia.
  - apply fchain_slab.
  - apply NoDup_seq.
Qed.

Lemma pool_ok_init : pool_ok (Pool 1 (init_slab 0 0) (Some 0%nat) 0) (seq 0 slots_per_slab).
Proof.
  split; simpl.
  - rewrite length_init_slab. lia.
  - lia.
  - intros i v Hi. pose proof (lookup_lt_Some _ _ _ Hi) as Hlt. rewrite length_init_slab in Hlt.
    rewrite lookup_init_slab in Hi by done. by simplify_eq/=.
  - apply (fchain_slab [] 0).
  - apply NoDup_seq.
Qed.

(** ** The operations *)
Section pool.
  Context `{Env}.

Lemma deref_ok s v p : slots p !! s = Some v → deref s p = Done v p.
Proof. unfold deref. by intros ->. Qed.

(** Taking the head of the free list. *)
Lemma allocate_rec_cons n p s L :
  pool_ok p (s :: L) →
  ∃ p', allocate_rec (S n) p = Done (Some s) p' ∧ pool_ok p' L ∧
        slots p' = slots p ∧ nslabs p' = nslabs p ∧ p_mallocs p' = p_mallocs p.
Proof.
  intros Hp. destruct (po_chain _ _ Hp) as (Hh & v & next & Hv & Hw & Hc).
  simpl. run. rewrite Hh. run by (by apply deref_ok). rewrite Hw. run.
  unfold init_slot_as_sfs_fd. run. run by (by apply deref_ok). run.
  eexists. split; [reflexivity|]. unfold set_slot, set_freelist. simpl.
  assert (<[s := Slot (sl_fd v) (sl_word v) (sl_flags v)]> (slots p) = slots p) as ->.
  { apply list_insert_id. rewrite Hv. by destruct v. }
  split; [|done]. destruct Hp. apply NoDup_cons in po_nodup0 as [_ ?]. by split.
Qed.

(** How many descriptors may exist: their numbers are [int]s. *)
Definition room (p : pool) : Prop :=
  Z.of_nat (length (slots p)) + Z.of_nat slots_per_slab ≤ 2 ^ 31.

Lemma allocate_grow p :
  pool_ok p [] → env_slab_malloc (p_mallocs p) = true → room p →
  ∃ p', sfs_filedescriptor_allocate p = Done (Some (length (slots p))) p' ∧
    pool_ok p' (seq (S (length (slots p))) (slots_per_slab - 1)) ∧
    slots p' = slots (grown p) ∧ nslabs p' = S (nslabs p) ∧ p_mallocs p' = S (p_mallocs p).
Proof.
  intros Hp Hm Hr. pose proof (pool_ok_grown p [] Hp) as Hg. pose proof slots_per_slab_pos.
  pose proof (po_length _ _ Hp) as Hl. unfold room in Hr.
  destruct (allocate_rec_cons 0 (grown p) (length (slots p))
              (seq (S (length (slots p))) (slots_per_slab - 1))) as (p' & Hrun & Hp' & Hs & Hn & Hm').
  { replace slots_per_slab with (S (slots_per_slab - 1)) in Hg by lia. exact Hg. }
  exists p'. split; [|done]. unfold sfs_filedescriptor_allocate.
  pose proof (po_chain _ _ Hp) as Hc. simpl in Hc.
  simpl. run. rewrite Hc. unfold grow. run. rewrite Hm. run.
  rewrite (Nat.mul_comm slots_per_slab), <-Hl.
  rewrite (proj2 (Z.leb_gt _ _)) by lia. run.
  exact Hrun.
Qed.

Lemma allocate_no_memory p :
  pool_ok p [] → env_slab_malloc (p_mallocs p) = false →
  ∃ p', sfs_filedescriptor_allocate p = Done None p' ∧ pool_ok p' [] ∧ slots p' = slots p ∧
        nslabs p' = nslabs p.
Proof.
  intros Hp Hm. pose proof (po_chain _ _ Hp) as Hc. simpl in Hc.
  unfold sfs_filedescriptor_allocate. simpl. run. rewrite Hc. unfold grow. run. rewrite Hm. run.
  eexists. split; [reflexivity|]. destruct Hp. by split.
Qed.

Lemma free_ok p L s v :
  pool_ok p L → slots p !! s = Some v → s ∉ L →
  ∃ p', sfs_filedescriptor_free s p = Done tt p' ∧ pool_ok p' (s :: L) ∧
    slots p' = <[s := Slot (sl_fd v) (WPtr (freelist p)) (sl_flags v)]> (slots p) ∧
    nslabs p' = nslabs p.
Proof.
  intros Hp Hv Hs. unfold sfs_filedescriptor_free. run by (by apply deref_ok).
  eexists. split; [reflexivity|]. split; [|done].
  pose proof (lookup_lt_Some _ _ _ Hv). destruct Hp. split; simpl.
  - by rewrite length_insert.
  - done.
  - intros i w [(<- & <- & _)|[_ Hi]]%list_lookup_insert_Some; simpl; eauto.
  - split; [done|]. eexists _, _. split_and!; [by apply list_lookup_insert_eq|done|].
    by apply fchain_insert.
  - by constructor.
Qed.

Lemma fd_set_ok p L s v inumber flags :
  pool_ok p L → slots p !! s = Some v → s ∉ L →
  ∃ p', fd_set s inumber flags p = Done (Z.of_nat s) p' ∧ pool_ok p' L ∧
    slots p' = <[s := Slot (sl_fd v) (WInt inumber) (Some flags)]> (slots p) ∧
    nslabs p' = nslabs p ∧ p_mallocs p' = p_mallocs p.
Proof.
  intros Hp Hv Hs. unfold fd_set. run by (by apply deref_ok).
  rewrite (po_fd _ _ Hp _ _ Hv).
  eexists. split; [reflexivity|]. split; [|done]. destruct Hp. split; simpl.
  - by rewrite length_insert.
  - done.
  - intros i w [(<- & <- & _)|[_ Hi]]%list_lookup_insert_Some; simpl; eauto.
  - by apply fchain_insert.
  - done.
Qed.

(** A number is looked up by position only. *)
Lemma get_from_fd_ok p L fd :
  pool_ok p L → 0 ≤ fd →
  sfs_filedescriptor_get_from_fd fd p =
    Done (if fd <? Z.of_nat (length (slots p)) then Some (Z.to_nat fd) else None) p.
Proof.
  intros Hp Hfd. pose proof slots_per_slab_Z. pose proof (po_length _ _ Hp) as Hl.
  unfold sfs_filedescriptor_get_from_fd.
  rewrite bind_assert by (by apply Z.leb_le). run.
  pose proof (Z.div_mod fd (Z.of_nat slots_per_slab) ltac:(lia)).
  pose proof (Z.mod_pos_bound fd (Z.of_nat slots_per_slab) ltac:(lia)).
  pose proof (Z.div_pos fd (Z.of_nat slots_per_slab) ltac:(lia) ltac:(lia)).
  set (q := fd / Z.of_nat slots_per_slab) in *. set (r := fd `mod` Z.of_nat slots_per_slab) in *.
  destruct (Z.leb_spec (Z.of_nat (nslabs p)) q) as [Hq|Hq].
  - rewrite (proj2 (Z.ltb_ge _ _)) by nia. done.
  - rewrite (proj2 (Z.ltb_lt _ _)) by nia.
    unfold mret, M_ret. do 2 f_equal. nia.
Qed.

End pool.
