(* ===== verification/Sfs.v ===== *)
(** * sfs.c: the FUSE operations

    The state is [struct sfs_state]: the mutex, the file system (or, before it
    is opened and after it is closed, only the disk) and the pool of file
    descriptors.  A handler's result is its return value with what it stored
    through its pointer arguments. *)

From S2P Require Export Dir Filedescriptor.
From Stdlib Require Strings.String.

Record sfs_state := SfsState {
  mu : bool;                       (* the mutex is held *)
  s_fs : world + filesystem;       (* [inl]: [fs == NULL] *)
  fd_pool : option pool;
  sigterm : bool;                  (* the process sent itself SIGTERM *)
}.

Definition set_mu (b : bool) (s : sfs_state) : sfs_state :=
  SfsState b (s_fs s) (fd_pool s) (sigterm s).
Definition set_fs (f : world + filesystem) (s : sfs_state) : sfs_state :=
  SfsState (mu s) f (fd_pool s) (sigterm s).
Definition set_pool (p : option pool) (s : sfs_state) : sfs_state :=
  SfsState (mu s) (s_fs s) p (sigterm s).
Definition set_sigterm (s : sfs_state) : sfs_state :=
  SfsState (mu s) (s_fs s) (fd_pool s) true.

Definition state_disk (f : world + filesystem) : world :=
  match f with inl w => w | inr fs => disk fs end.

Definition with_disk (w : world) (f : world + filesystem) : world + filesystem :=
  match f with inl _ => inl w | inr fs => inr (set_disk w fs) end.

Definition at_world {A} (m : M world A) : M sfs_state A :=
  zoom (λ s, state_disk (s_fs s)) (λ w s, set_fs (with_disk w (s_fs s)) s) m.

(** Every function of fs.c and dir.c asserts [fs != NULL]. *)
Definition at_fs {A} (m : M filesystem A) : M sfs_state A := λ s,
  match s_fs s with
  | inl _ => Crash AssertFailed
  | inr fs => zoom (λ _, fs) (λ fs s, set_fs (inr fs) s) m s
  end.

(** Every function of filedescriptor.c asserts [pool != NULL]. *)
Definition at_pool {A} (m : M pool A) : M sfs_state A := λ s,
  match fd_pool s with
  | None => Crash AssertFailed
  | Some p => zoom (λ _, p) (λ p s, set_pool (Some p) s) m s
  end.

(** [pthread_mutex_lock] of a mutex the (only) thread already holds never
    returns. *)
Definition lock : M sfs_state () :=
  s ← get; if mu s then crash_with Deadlock else put (set_mu true s).
Definition unlock : M sfs_state () := modify (set_mu false).

(** [SFS_UNLOCK_OR_FAIL(...); return a;] *)
Definition unlock_ret {A} (a : A) : M sfs_state A := unlock;; mret a.

Notation "'unlock_ret_if' c 'with' r ; k" := (if c then unlock_ret r else k)
  (at level 20, c at level 100, r at level 100, k at level 200,
   format "'unlock_ret_if'  c  'with'  r ; '/' k") : sfs_scope.

(** ** errno *)
Definition ENOENT : Z := 2.
Definition ENOMEM : Z := 12.
Definition EACCES : Z := 13.
Definition EEXIST : Z := 17.
Definition ENOTDIR : Z := 20.
Definition ENAMETOOLONG : Z := 36.
Definition EDQUOT : Z := 122.
Definition O_EXCL : Z := 128.
Definition PATH_MAX : Z := 4096.

(** ** Strings: the characters before the NUL *)
Definition slash : byte := Byte.byte.of_Z 47.
Definition dot : byte := Byte.byte.of_Z 46.
Definition is_slash (c : byte) : bool := bool_decide (c = slash).

Fixpoint take_until (p : byte → bool) (l : list byte) : list byte :=
  match l with
  | [] => []
  | c :: l' => if p c then [] else c :: take_until p l'
  end.

Fixpoint drop_while (p : byte → bool) (l : list byte) : list byte :=
  match l with
  | [] => []
  | c :: l' => if p c then drop_while p l' else l
  end.

(** The string that starts at a char array. *)
Definition c_string (a : list byte) : list byte := take_until (λ c, bool_decide (c = x00)) a.

(** [strncmp(a, b, n) == 0]. *)
Definition strn_eq (n : nat) (a b : list byte) : bool :=
  bool_decide (take n (c_string a) = take n b).

Definition strip_slashes (p : list byte) : list byte := rev (drop_while is_slash (rev p)).
Definition last_component (p : list byte) : list byte := rev (take_until is_slash (rev p)).

(** basename(3) and dirname(3) of libgen.h. *)
Definition basename (p : list byte) : list byte :=
  match p with
  | [] => [dot]
  | _ => match strip_slashes p with
         | [] => [slash]
         | p' => last_component p'
         end
  end.

(** The directory part of a path when it has slashes only: glibc keeps two. *)
Definition only_slashes (p : list byte) : list byte :=
  if (length p =? 2)%nat then [slash; slash] else [slash].

Definition dirname (p : list byte) : list byte :=
  match strip_slashes p with
  | [] => match p with [] => [dot] | _ => only_slashes p end
  | p' =>
      match take (length p' - length (last_component p')) p' with
      | [] => [dot]
      | d => match strip_slashes d with [] => only_slashes d | d' => d' end
      end
  end.

(** [strsep(&s, "/")]: the token, and the new value of [s]. *)
Definition strsep (s : option (list byte)) : option (list byte) * option (list byte) :=
  match s with
  | None => (None, None)
  | Some l =>
      let tok := take_until is_slash l in
      (Some tok, if (length tok =? length l)%nat then None else Some (drop (S (length tok)) l))
  end.

Section sfs.
  Context `{Env}.

(** ** Common steps of the handlers *)

(** The name to look up in the root directory, or the error to return.  When
    [strdup] fails, [dirname(NULL)] is ".". *)
Definition path_name (path : list byte) : M sfs_state (Z + list byte) :=
  s ← get;
  let path_copy := if env_strdup (state_disk (s_fs s)) path then dirname path else [dot] in
  return_if negb (bool_decide (path_copy = [slash])) with inl (- ENOENT);
  if PATH_MAX <=? Z.of_nat (length path) then crash_with UndefinedBehaviour
  else
    let name := basename path in
    return_if 255 <? Z.of_nat (length name) with inl (- ENAMETOOLONG);
    mret (inr name).

(** [while ((iter = sfs_dir_iternext(iter, &direntry, NULL)) != NULL)] up to the
    first entry of that name. *)
Definition search_fuel (dir : sfs_fs_inode) : nat :=
  Z.to_nat (entries_per_block * ((i_size dir + BLOCK_SIZE - 1) / BLOCK_SIZE)) + 2.

Definition dir_search (name : list byte) (it : dir_iterator) (dir : sfs_fs_inode)
    : M filesystem (option dir_item * sfs_fs_inode) :=
  e ← while_true (search_fuel dir) (it, dir) (λ '(it, dir),
        '(o, dir) ← sfs_dir_iternext it dir false;
        match o with
        | None => mret (Return (None, dir))
        | Some item =>
            if strn_eq 256 (d_name (di_entry item)) name
            then mret (Return (Some item, dir))
            else mret (Continue (di_iter item, dir))
        end);
  match e with
  | inl (_, dir) => mret (None, dir)
  | inr r => mret r
  end.

(** [++file.links] and its time, for an open of an existing file. *)
Definition up_links (inumber : Z) : M filesystem (option sfs_fs_inode) :=
  o ← sfs_fs_read_inode inumber;
  match o with
  | None => mret None
  | Some file =>
      let file := set_links (u32 (i_links file + 1)) file in
      t ← at_disk time_;
      let file := set_change_time t file in
      r ← sfs_fs_write_inode file;
      return_if negb (r =? 0) with None;
      mret (Some file)
  end.

(** A new descriptor for the inode; its number goes to [fi->fh]. *)
Definition open_fd (inumber flags : Z) : M sfs_state (Z * option Z) :=
  o ← at_pool sfs_filedescriptor_allocate;
  match o with
  | None => mret (- ENOMEM, None)
  | Some s =>
      fh ← at_pool (fd_set s inumber (u64 flags));
      mret (0, Some (u64 fh))
  end.

(** The descriptor of [fi->fh], or [None]. *)
Definition get_fd (fh : Z) : M sfs_state (option nat) :=
  at_pool (sfs_filedescriptor_get_from_fd (int32 fh)).

(** ** init and destroy *)
Definition sfs_init : M sfs_state () :=
  lock;;
  p ← at_world sfs_filedescriptor_pool_init;
  modify (set_pool p);;
  match p with
  | None => modify set_sigterm;; unlock_ret tt
  | Some _ =>
      o ← at_world (sfs_fs_open_disk true);
      match o with
      | None =>
          modify (λ s, set_sigterm (set_fs (inl (state_disk (s_fs s))) s));;
          unlock_ret tt
      | Some (sb, cache) =>
          modify (λ s, set_fs (inr (Filesystem (state_disk (s_fs s)) sb cache)) s);;
          unlock_ret tt
      end
  end.

(** The C field [fs] keeps the freed pointer; no handler runs after this one, so
    only the disk is kept.  Without a pool [sfs_init] has not set [fs], which
    [main] leaves uninitialised: to read it is undefined. *)
Definition sfs_destroy : M sfs_state () :=
  lock;;
  s ← get;
  (match s_fs s with
   | inl _ => match fd_pool s with None => crash_with UndefinedBehaviour | Some _ => mret tt end
   | inr _ =>
       _ ← at_fs sfs_fs_close;
       modify (λ s, set_fs (inl (state_disk (s_fs s))) s)
   end);;
  s ← get;
  (match fd_pool s with
   | None => mret tt
   | Some _ => at_pool sfs_filedescriptor_pool_deinit
   end);;
  unlock_ret tt.

(** ** getattr *)
Definition sfs_getattr (path : list byte) : M sfs_state (Z * option stat) :=
  lock;;
  n ← path_name path;
  match n with
  | inl err => unlock_ret (err, None)
  | inr name =>
      o ← at_fs sfs_dir_root;
      match o with
      | None => unlock_ret (- ENOENT, None)
      | Some directory =>
          unlock_ret_if bool_decide (path = [slash])
            with (0, Some (sfs_fs_inode_to_stat directory));
          o ← at_fs (sfs_dir_iterate directory);
          match o with
          | None => unlock_ret (-1, None)
          | Some iter =>
              '(o, _) ← at_fs (dir_search name iter directory);
              match o with
              | None => unlock_ret (- ENOENT, None)
              | Some item =>
                  (* [direntry] points into the iterator, which was just freed *)
                  let cached := env_freed (it_cached_block (di_iter item)) in
                  let direntry := get_at dir_entry_c (Z.to_nat (di_index item)) cached in
                  o ← at_fs (sfs_fs_read_inode (d_inumber direntry));
                  match o with
                  | None => unlock_ret (-1, None)
                  | Some file => unlock_ret (0, Some (sfs_fs_inode_to_stat file))
                  end
              end
          end
      end
  end.

(** ** create *)
Record fuse_ctx := FuseCtx { c_uid : Z; c_gid : Z; c_umask : Z }.

(** The inode of a new file and its entry in [directory]; [inl] is the value
    to return. *)
Definition create_file (ctx : fuse_ctx) (mode : Z) (name : list byte) (directory : sfs_fs_inode)
    : M filesystem (Z + Z) :=
  o ← sfs_fs_inode_allocate;
  match o with
  | None => mret (inl (- EDQUOT))
  | Some file =>
      let m := Z.lor (Z.land (Z.land 4095 mode) (Z.lnot (c_umask ctx))) S_IFREG in
      t1 ← at_disk time_;
      t2 ← at_disk time_;
      t3 ← at_disk time_;
      let file :=
        Inode (i_inumber file) m (c_uid ctx)
          (if Z.land (i_mode directory) S_ISGID =? 0 then c_gid ctx else i_gid file)
          1 t1 t2 t3 0 (replicate (Z.to_nat SFS_N_BLOCKS) 0) in
      r ← sfs_fs_write_inode file;
      return_if negb (r =? 0) with inl (-1);
      '(r, _, _) ← sfs_dir_link directory name file;
      return_if negb (r =? 0) with inl (-1);
      mret (inr (i_inumber file))
  end.

Definition sfs_create (ctx : fuse_ctx) (path : list byte) (mode flags : Z)
    : M sfs_state (Z * option Z) :=
  lock;;
  n ← path_name path;
  match n with
  | inl err => unlock_ret (err, None)
  | inr name =>
      o ← at_fs sfs_dir_root;
      match o with
      | None => unlock_ret (- ENOENT, None)
      | Some directory =>
          o ← at_fs (sfs_dir_iterate directory);
          match o with
          | None => unlock_ret (-1, None)
          | Some iter =>
              '(o, directory) ← at_fs (dir_search name iter directory);
              f ← (match o with
                   | Some item =>
                       let found := d_inumber (di_entry item) in
                       return_if negb (Z.land flags O_EXCL =? 0) with inl (- EEXIST);
                       o ← at_fs (up_links found);
                       match o with
                       | None => mret (inl (-1))
                       | Some _ => mret (inr found)
                       end
                   | None => at_fs (create_file ctx mode name directory)
                   end);
              match f with
              | inl err => unlock_ret (err, None)
              | inr found_inumber => r ← open_fd found_inumber flags; unlock_ret r
              end
          end
      end
  end.

(** ** unlink *)
Definition sfs_unlink (path : list byte) : M sfs_state Z :=
  lock;;
  n ← path_name path;
  match n with
  | inl err => unlock_ret err
  | inr name =>
      o ← at_fs sfs_dir_root;
      match o with
      | None => unlock_ret (- ENOENT)
      | Some directory =>
          unlock_ret_if bool_decide (path = [slash]) with - EACCES;
          o ← at_fs (sfs_dir_iterate directory);
          match o with
          | None => unlock_ret (-1)
          | Some iter =>
              '(o, directory) ← at_fs (dir_search name iter directory);
              match o with
              | None => unlock_ret (- ENOENT)
              | Some item =>
                  '(r, _) ← at_fs (sfs_dir_iter_unlink (di_iter item) directory (di_index item));
                  unlock_ret_if negb (r =? 0) with -1;
                  unlock_ret 0
              end
          end
      end
  end.

(** ** open *)
Definition sfs_open (path : list byte) (flags : Z) : M sfs_state (Z * option Z) :=
  lock;;
  n ← path_name path;
  match n with
  | inl err => unlock_ret (err, None)
  | inr name =>
      o ← at_fs sfs_dir_root;
      match o with
      | None => unlock_ret (- ENOENT, None)
      | Some directory =>
          o ← at_fs (sfs_dir_iterate directory);
          match o with
          | None => unlock_ret (-1, None)
          | Some iter =>
              '(o, _) ← at_fs (dir_search name iter directory);
              match o with
              | None => unlock_ret (- ENOENT, None)
              | Some item =>
                  o ← at_fs (up_links (d_inumber (di_entry item)));
                  match o with
                  | None => unlock_ret (-1, None)
                  | Some file => r ← open_fd (i_inumber file) flags; unlock_ret r
                  end
              end
          end
      end
  end.

(** ** release *)
Definition drop_link (inode : sfs_fs_inode) : M filesystem Z :=
  assert_ (0 <? i_links inode);;
  let inode := set_links (u32 (i_links inode - 1)) inode in
  t ← at_disk time_;
  let inode := set_change_time t inode in
  if i_links inode =? 0 then
    '(r, _) ← sfs_fs_inode_deallocate inode;
    return_if negb (r =? 0) with -1;
    mret 0
  else
    r ← sfs_fs_write_inode inode;
    return_if negb (r =? 0) with -1;
    mret 0.

Definition sfs_release (fh : Z) : M sfs_state Z :=
  lock;;
  o ← get_fd fh;
  match o with
  | None => unlock_ret (-1)
  | Some fd =>
      inumber ← at_pool (fd_inumber fd);
      o ← at_fs (sfs_fs_read_inode inumber);
      match o with
      | None => unlock_ret (-1)
      | Some inode =>
          r ← at_fs (drop_link inode);
          unlock_ret_if negb (r =? 0) with -1;
          at_pool (sfs_filedescriptor_free fd);;
          unlock_ret 0
      end
  end.

(** ** read and write *)

(** The blocks a transfer touches. *)
Definition first_block (offset : Z) : Z := u64 (Z.quot offset BLOCK_SIZE).
Definition first_block_offset (offset : Z) : Z := u64 (Z.rem offset BLOCK_SIZE).
Definition last_block_len (offset size : Z) : Z :=
  let l := u64 (offset + size) `mod` BLOCK_SIZE in if l =? 0 then BLOCK_SIZE else l.
Definition last_block (offset size : Z) : Z :=
  u64 (u64 (offset + size) / BLOCK_SIZE - (if last_block_len offset size =? BLOCK_SIZE then 1 else 0)).

Definition slice_a (offset iblock : Z) : Z :=
  if (iblock =? first_block offset) && negb (first_block_offset offset =? 0)
  then first_block_offset offset else 0.
Definition slice_b (offset size iblock : Z) : Z :=
  if (iblock =? last_block offset size) && negb (last_block_len offset size =? BLOCK_SIZE)
  then last_block_len offset size else BLOCK_SIZE.

(** Access to [n] bytes at index [i] of the caller's buffer. *)
Definition in_buffer (buf : list byte) (i n : Z) : bool :=
  (0 <=? i) && (i + n <=? Z.of_nat (length buf)).
Definition load (buf : list byte) (i n : Z) : M filesystem (list byte) :=
  if in_buffer buf i n then mret (slice (Z.to_nat i) (Z.to_nat n) buf)
  else crash_with UndefinedBehaviour.
Definition store (buf : list byte) (i : Z) (bs : list byte) : M filesystem (list byte) :=
  if in_buffer buf i (Z.of_nat (length bs)) then mret (splice (Z.to_nat i) bs buf)
  else crash_with UndefinedBehaviour.

(** The block of the caller's buffer at index [i], where it has one. *)
Definition window (buf : list byte) (i : Z) : list byte :=
  if in_buffer buf i BLOCK_SIZE then slice (Z.to_nat i) (Z.to_nat BLOCK_SIZE) buf else zero_block.

(** The buffer with a block read into it, which need not have succeeded. *)
Definition set_window (buf : list byte) (i : Z) (target : list byte) : list byte :=
  if in_buffer buf i BLOCK_SIZE then splice (Z.to_nat i) target buf else buf.

(** One block of a read; the variables are the caller's buffer and
    [tmp_block].  The adjusted [buf] is the caller's minus
    [first_block_offset]; the address [buf + iblock * BLOCK_SIZE] is used when
    [sfs_fs_inode_block_read] has found something to put there.  An early
    return leaves what is in the buffer by then. *)
Definition read_step (inode : sfs_fs_inode) (offset size iblock : Z) (acc : list byte * list byte)
    : M filesystem (ctl (list byte * list byte) (list byte)) :=
  let '(buf, tmp_block) := acc in
  let base := - first_block_offset offset in
  let a := slice_a offset iblock in
  let b := slice_b offset size iblock in
  if (a =? 0) && (b =? BLOCK_SIZE) then
    let i := base + iblock * BLOCK_SIZE in
    '(r, target) ← sfs_fs_inode_block_read inode iblock (window buf i);
    return_if negb (r =? 0) with Return (set_window buf i target);
    buf ← store buf i target;
    mret (Continue (buf, tmp_block))
  else
    '(r, tmp_block) ← sfs_fs_inode_block_read inode iblock tmp_block;
    return_if negb (r =? 0) with Return buf;
    if (a =? 0) && negb (b =? BLOCK_SIZE) then
      buf ← store buf (base + a) (slice (Z.to_nat a) (Z.to_nat (b - a)) tmp_block);
      mret (Continue (buf, tmp_block))
    else mret (Continue (buf, tmp_block)).

Definition read_blocks (inode : sfs_fs_inode) (buf : list byte) (size offset : Z)
    : M filesystem (Z * list byte) :=
  e ← for_range (first_block offset) (last_block offset size + 1) (buf, env_stack_block)
        (read_step inode offset size);
  match e with
  | inr buf => mret (-1, buf)
  | inl (buf, _) => mret (int32 size, buf)
  end.

(** [buf] is the caller's buffer of [size] bytes. *)
Definition sfs_read (buf : list byte) (size offset fh : Z) : M sfs_state (Z * list byte) :=
  lock;;
  unlock_ret_if size =? 0 with (0, buf);
  o ← get_fd fh;
  match o with
  | None => unlock_ret (-1, buf)
  | Some fd =>
      inumber ← at_pool (fd_inumber fd);
      o ← at_fs (sfs_fs_read_inode inumber);
      match o with
      | None => unlock_ret (-1, buf)
      | Some inode =>
          t ← at_world time_;
          let inode := set_access_time t inode in
          r ← at_fs (sfs_fs_write_inode inode);
          unlock_ret_if negb (r =? 0) with (-1, buf);
          r ← at_fs (read_blocks inode buf size offset);
          unlock_ret r
      end
  end.

(** A block written from the caller's buffer at index [i].  The address is
    used when there is a block to write to: a block that is refused, or that
    cannot be allocated, is not looked at. *)
Definition block_write_from (inode : sfs_fs_inode) (iblock : Z) (buf : list byte) (i : Z)
    : M filesystem (Z * sfs_fs_inode) :=
  '(r, inode) ← sfs_fs_inode_block_write inode iblock (window buf i);
  access_ (negb (r =? 0) || in_buffer buf i BLOCK_SIZE);;
  mret (r, inode).

(** One block of a write; the variables are the inode, which
    [sfs_fs_inode_block_write] changes in place, and [tmp_block]. *)
Definition write_step (buf : list byte) (offset size iblock : Z) (acc : sfs_fs_inode * list byte)
    : M filesystem (ctl (sfs_fs_inode * list byte) Z) :=
  let '(inode, tmp_block) := acc in
  let base := - first_block_offset offset in
  let a := slice_a offset iblock in
  let b := slice_b offset size iblock in
  if (a =? 0) && (b =? BLOCK_SIZE) then
    '(r, inode) ← block_write_from inode iblock buf (base + iblock * BLOCK_SIZE);
    return_if negb (r =? 0) with Return (-1);
    mret (Continue (inode, tmp_block))
  else
    t ← (if (a =? 0) && negb (b =? BLOCK_SIZE) then
           '(r, tmp_block) ← sfs_fs_inode_block_read inode iblock tmp_block;
           return_if negb (r =? 0) with None;
           bs ← load buf (base + a) (b - a);
           mret (Some (splice (Z.to_nat a) bs tmp_block))
         else mret (Some tmp_block));
    match t with
    | None => mret (Return (-1))
    | Some tmp_block =>
        '(r, inode) ← sfs_fs_inode_block_write inode iblock tmp_block;
        return_if negb (r =? 0) with Return (-1);
        mret (Continue (inode, tmp_block))
    end.

Definition write_blocks (inode : sfs_fs_inode) (buf : list byte) (size offset : Z)
    : M filesystem Z :=
  e ← for_range (first_block offset) (last_block offset size + 1) (inode, env_stack_block)
        (write_step buf offset size);
  match e with
  | inr r => mret r
  | inl _ => mret (int32 size)
  end.

Definition sfs_write (buf : list byte) (size offset fh : Z) : M sfs_state Z :=
  lock;;
  unlock_ret_if size =? 0 with 0;
  o ← get_fd fh;
  match o with
  | None => unlock_ret (-1)
  | Some fd =>
      inumber ← at_pool (fd_inumber fd);
      o ← at_fs (sfs_fs_read_inode inumber);
      match o with
      | None => unlock_ret (-1)
      | Some inode =>
          t ← at_world time_;
          let inode := set_access_time t inode in
          inode ← (if i_size inode <? u64 (offset + size) then
                     t ← at_world time_;
                     mret (set_size_ (u64 (offset + size)) (set_change_time t inode))
                   else mret inode);
          r ← at_fs (sfs_fs_write_inode inode);
          unlock_ret_if negb (r =? 0) with -1;
          r ← at_fs (write_blocks inode buf size offset);
          unlock_ret r
      end
  end.

(** ** Directories *)
Definition sfs_mkdir (path : list byte) (mode : Z) : M sfs_state Z := mret 0.

Definition sfs_rmdir (path : list byte) : M sfs_state Z :=
  return_if bool_decide (path = [slash]) with -1;
  mret 0.

(** How the search of [sfs_opendir] ends: with the directory to open, or with
    a value returned at once, with or without the mutex released. *)
Inductive opendir_exit :=
  | Opened (directory : sfs_fs_inode)
  | Failed (unlocks : bool) (r : Z).

Definition S_ISDIR (mode : Z) : bool := Z.land mode S_IFMT =? S_IFDIR.

(** [iter == NULL] reaches the [assert] of [sfs_dir_iternext]. *)
Definition opendir_iterate (directory : sfs_fs_inode) : M filesystem dir_iterator :=
  o ← sfs_dir_iterate directory;
  match o with
  | Some iter => mret iter
  | None => crash_with AssertFailed
  end.

(** The variables are [iter], [directory], [tok] and [path_tok]. *)
Definition opendir_step (acc : dir_iterator * sfs_fs_inode * list byte * option (list byte))
    : M filesystem (ctl (dir_iterator * sfs_fs_inode * list byte * option (list byte)) opendir_exit) :=
  let '(iter, directory, tok, path_tok) := acc in
  '(o, directory) ← sfs_dir_iternext iter directory true;
  match o with
  | None => mret (Return (Opened directory))
  | Some item =>
      if bool_decide (c_string (d_name (di_entry item)) = tok) then
        let found_inumber := d_inumber (di_entry item) in
        let entry := default directory (di_inode item) in
        let '(tok', path_tok) := strsep path_tok in
        match tok' with
        | None =>
            return_if negb (S_ISDIR (i_mode entry)) with Return (Failed false (- ENOTDIR));
            o ← up_links found_inumber;
            match o with
            | None => mret (Return (Failed true (-1)))
            | Some directory => mret (Return (Opened directory))
            end
        | Some tok =>
            iter ← opendir_iterate entry;
            mret (Continue (iter, entry, tok, path_tok))
        end
      else mret (Continue (di_iter item, directory, tok, path_tok))
  end.

(** The path is "/", so two directories at most are searched; a directory has
    at most 12 + 64 readable blocks, of one entry each. *)
Definition opendir_fuel : nat :=
  2 * Z.to_nat (entries_per_block * (SFS_NDIR_BLOCKS + SFS_NIND_BLOCKS) + 1).

Definition sfs_opendir (path : list byte) (flags : Z) : M sfs_state (Z * option Z) :=
  lock;;
  (* returns with the mutex held *)
  return_if negb (bool_decide (path = [slash])) with (- ENOENT, None);
  o ← at_fs sfs_dir_root;
  match o with
  | None => unlock_ret (- ENOENT, None)
  | Some directory =>
      let '(tok, path_tok) := strsep (Some path) in
      let tok := default [] tok in
      return_if negb (bool_decide (tok = [])) with (-1, None);
      iter ← at_fs (opendir_iterate directory);
      e ← at_fs (while_true opendir_fuel (iter, directory, tok, path_tok) opendir_step);
      match e with
      | inr (Failed unlocks r) =>
          if unlocks then unlock_ret (r, None) else mret (r, None)
      | inr (Opened directory) =>
          r ← open_fd (i_inumber directory) flags; unlock_ret r
      | inl _ => crash_with Diverges
      end
  end.

(** [filler n] is what the n-th call of the callback returns: whether the
    buffer is full.  The result is the list of entries handed to it. *)
Definition readdir_fill (filler : nat → bool)
    (acc : dir_iterator * sfs_fs_inode * list (list byte * option stat))
    : M filesystem (ctl (dir_iterator * sfs_fs_inode * list (list byte * option stat))
                        (list (list byte * option stat))) :=
  let '(it, inode, out) := acc in
  '(o, inode) ← sfs_dir_iternext it inode true;
  match o with
  | None => mret (Return out)
  | Some item =>
      let st := sfs_fs_inode_to_stat (default inode (di_inode item)) in
      let out' := out ++ [(c_string (d_name (di_entry item)), Some st)] in
      if filler (length out) then mret (Return out')
      else mret (Continue (di_iter item, inode, out'))
  end.

Definition sfs_readdir (path : list byte) (filler : nat → bool)
    : M sfs_state (Z * list (list byte * option stat)) :=
  lock;;
  unlock_ret_if negb (bool_decide (path = [slash])) with (-1, []);
  o ← at_fs sfs_dir_root;
  match o with
  | None => unlock_ret (-1, [])
  | Some inode =>
      let out := [([dot], None)] in
      unlock_ret_if filler 0%nat with (0, out);
      let out := out ++ [([dot; dot], None)] in
      unlock_ret_if filler 1%nat with (0, out);
      it ← at_fs (opendir_iterate inode);
      e ← at_fs (while_true (search_fuel inode) (it, inode, out) (readdir_fill filler));
      match e with
      | inr out => unlock_ret (0, out)
      | inl (_, _, out) => unlock_ret (0, out)
      end
  end.

Definition sfs_releasedir (fh : Z) : M sfs_state Z :=
  lock;;
  o ← get_fd fh;
  match o with
  | None => unlock_ret (-1)
  | Some fd =>
      inumber ← at_pool (fd_inumber fd);
      o ← at_fs (sfs_fs_read_inode inumber);
      match o with
      | None => unlock_ret (-1)
      | Some inode =>
          let inode := set_links (u32 (i_links inode - 1)) inode in
          t ← at_world time_;
          let inode := set_change_time t inode in
          r ← at_fs (sfs_fs_write_inode inode);
          unlock_ret_if negb (r =? 0) with -1;
          at_pool (sfs_filedescriptor_free fd);;
          unlock_ret 0
      end
  end.

(** ** The table of operations *)

(** The members of [struct fuse_operations] that sfs sets; the others - links,
    renames, attributes, sizes, times, locks, ioctl - are NULL. *)
Record fuse_operations := FuseOperations {
  fo_init : M sfs_state ();
  fo_destroy : M sfs_state ();
  fo_getattr : list byte → M sfs_state (Z * option stat);
  fo_create : fuse_ctx → list byte → Z → Z → M sfs_state (Z * option Z);
  fo_unlink : list byte → M sfs_state Z;
  fo_open : list byte → Z → M sfs_state (Z * option Z);
  fo_release : Z → M sfs_state Z;
  fo_read : list byte → Z → Z → Z → M sfs_state (Z * list byte);
  fo_write : list byte → Z → Z → Z → M sfs_state Z;
  fo_rmdir : list byte → M sfs_state Z;
  fo_mkdir : list byte → Z → M sfs_state Z;
  fo_opendir : list byte → Z → M sfs_state (Z * option Z);
  fo_readdir : list byte → (nat → bool) → M sfs_state (Z * list (list byte * option stat));
  fo_releasedir : Z → M sfs_state Z;
}.

Definition sfs_oper : fuse_operations := {|
  fo_init := sfs_init;
  fo_destroy := sfs_destroy;
  fo_getattr := sfs_getattr;
  fo_create := sfs_create;
  fo_unlink := sfs_unlink;
  fo_open := sfs_open;
  fo_release := sfs_release;
  fo_read := sfs_read;
  fo_write := sfs_write;
  fo_rmdir := sfs_rmdir;
  fo_mkdir := sfs_mkdir;
  fo_opendir := sfs_opendir;
  fo_readdir := sfs_readdir;
  fo_releasedir := sfs_releasedir;
|}.

End sfs.
