(* ===== verification/DirSpec.v ===== *)
(** * Directories as lists of entries

    A directory of [n] blocks holds [n] entries, one in each block; an entry
    with inode number 0 is unused.  The specifications of the iterator and of
    the search for a name, on that view. *)

From S2P Require Export FsInodes Sfs.

Definition dir_entry_at (a : fs_abs) (dir : sfs_fs_inode) (i : Z) : sfs_dir_entry :=
  entry_at 0 (file_block a dir i).
Definition live (a : fs_abs) (dir : sfs_fs_inode) (i : Z) : Prop :=
  d_inumber (dir_entry_at a dir i) ≠ 0.

(** A well-formed directory of [n] blocks whose entries name inodes of the
    table. *)
Record dir_state (fs : filesystem) (dir : sfs_fs_inode) (F : list Z) (n : Z) : Prop := DirState {
  ds_file : file_state fs dir F;
  ds_blocks : 0 ≤ n ≤ file_blocks;
  ds_size : i_size dir = n * BLOCK_SIZE;
  ds_names i : 0 ≤ i < n → live (abs fs) dir i →
    valid_inumber (superblock fs) (d_inumber (dir_entry_at (abs fs) dir i));
}.

(** Iterating only changes the access time of the directory. *)
Record touched (fs : filesystem) (dir : sfs_fs_inode) (F : list Z) (n : Z)
    (fs' : filesystem) (dir' : sfs_fs_inode) : Prop := Touched {
  to_state : dir_state fs' dir' F n;
  to_dir : ∃ t, dir' = set_access_time t dir;
  to_abs : abs fs' ≡ upd_inode dir' (abs fs);
  to_block j : 0 ≤ j < file_blocks → file_block (abs fs') dir' j = file_block (abs fs) dir j;
}.

Lemma touched_refl fs dir F n : dir_state fs dir F n → touched fs dir F n fs dir.
Proof.
  intros Hd. split; [done| | |done].
  - exists (i_access_time dir). by destruct dir.
  - by eapply upd_inode_stored, ds_file.
Qed.

Lemma touched_trans fs1 dir1 F n fs2 dir2 fs3 dir3 :
  touched fs1 dir1 F n fs2 dir2 → touched fs2 dir2 F n fs3 dir3 → touched fs1 dir1 F n fs3 dir3.
Proof.
  intros [H1 [t1 ->] A1 B1] [H2 [t2 ->] A2 B2]. split; [done|by exists t2| |].
  - rewrite A2, A1. by apply upd_inode_twice.
  - intros j Hj. by rewrite B2, B1.
Qed.

Lemma touched_entry fs dir F n fs' dir' j :
  touched fs dir F n fs' dir' → 0 ≤ j < file_blocks →
  dir_entry_at (abs fs') dir' j = dir_entry_at (abs fs) dir j.
Proof. intros Ht Hj. unfold dir_entry_at. by rewrite (to_block _ _ _ _ _ _ Ht). Qed.

Lemma touched_superblock fs dir F n fs' dir' :
  touched fs dir F n fs' dir' → superblock fs' = superblock fs.
Proof. intros Ht. apply (to_abs _ _ _ _ _ _ Ht). Qed.

(** Names still name inodes after a change that keeps the blocks. *)
Lemma dir_state_kept fs fs' dir dir' F F' n :
  dir_state fs dir F n → file_state fs' dir' F' →
  sb_inode_table_blocks (superblock fs') = sb_inode_table_blocks (superblock fs) →
  i_size dir' = i_size dir →
  (∀ j, 0 ≤ j < file_blocks → file_block (abs fs') dir' j = file_block (abs fs) dir j) →
  dir_state fs' dir' F' n.
Proof.
  intros [Hf Hn Hs Hv] Hf' Hsb Hsz Hb. split; [done|done|by rewrite Hsz|].
  intros i Hi. unfold live, dir_entry_at. rewrite Hb by lia.
  intros Hl. specialize (Hv i Hi Hl). unfold valid_inumber in *. by rewrite Hsb.
Qed.

Lemma dir_state_update fs fs' dir dir' F n :
  dir_state fs dir F n → file_state fs' dir' F → superblock fs' = superblock fs →
  i_size dir' = i_size dir →
  (∀ j, 0 ≤ j < file_blocks → file_block (abs fs') dir' j = file_block (abs fs) dir j) →
  dir_state fs' dir' F n.
Proof. intros Hd Hf' Hsb. apply (dir_state_kept _ _ _ _ _ _ _ Hd Hf'). by rewrite Hsb. Qed.

(** The next entry an iterator looks at. *)
Definition position (it : dir_iterator) : Z := it_iblock it + it_entry it.

Record iter_ok (it : dir_iterator) (n : Z) : Prop := IterOk {
  io_entry : it_entry it = 0 ∨ it_entry it = 1;
  io_iblock : 0 ≤ it_iblock it ≤ n;
  io_block : length (it_cached_block it) = 512%nat;
}.

(** What is handed out for entry [j]; [inode] is the inode it names. *)
Definition item_at (a : fs_abs) (dir : sfs_fs_inode) (j : Z) (inode : option sfs_fs_inode) : dir_item :=
  DirItem (DirIterator j 1 (file_block a dir j)) 0 (dir_entry_at a dir j) inode.

Section iter.
  Context `{Env, !ReliableIO, !EnvOk}.

(** The inode table at the end of an iteration step. *)
Definition named_inode (want : bool) (fs' : filesystem) (e : sfs_dir_entry) : option sfs_fs_inode :=
  if want then Some (a_inode (abs fs') (d_inumber e)) else None.

Definition iternext_inv (fs : filesystem) (dir : sfs_fs_inode) (F : list Z) (n start : Z)
    (m : nat) (acc : dir_iterator * sfs_fs_inode) (s : filesystem) : Prop :=
  let '(it, dir') := acc in
  touched fs dir F n s dir' ∧ iter_ok it n ∧ start ≤ position it ∧
  m = Z.to_nat (n - it_iblock it) ∧
  ∀ i, 0 ≤ i → start ≤ i < position it → ¬ live (abs fs) dir i.

Definition iternext_post (want : bool) (fs : filesystem) (dir : sfs_fs_inode) (F : list Z) (n start : Z)
    (r : option dir_item * sfs_fs_inode) (s : filesystem) : Prop :=
  let '(o, dir') := r in
  touched fs dir F n s dir' ∧
  match o with
  | None => ∀ i, 0 ≤ i → start ≤ i < n → ¬ live (abs fs) dir i
  | Some item => ∃ j, start ≤ j < n ∧ 0 ≤ j ∧ live (abs fs) dir j ∧
      (∀ i, 0 ≤ i → start ≤ i < j → ¬ live (abs fs) dir i) ∧
      item = item_at (abs fs) dir j (named_inode want s (dir_entry_at (abs fs) dir j))
  end.

(** The directory's block at the iterator is read and its time updated. *)
Lemma load_entries fs dir F n blk i :
  dir_state fs dir F n → 0 ≤ i < n → length blk = 512%nat →
  wp ('(r, blk) ← sfs_fs_inode_block_read dir i blk;
      return_if negb (r =? 0) with (-1, blk, dir);
      t ← at_disk time_;
      let dir := set_access_time t dir in
      r ← sfs_fs_write_inode dir;
      return_if negb (r =? 0) with (-1, blk, dir);
      mret (0, blk, dir)) fs (λ '(r, blk', dir') fs',
    r = 0 ∧ blk' = file_block (abs fs) dir i ∧ touched fs dir F n fs' dir').
Proof.
  intros Hd Hi Hblk. pose proof (ds_file _ _ _ _ Hd) as Hf. pose proof (ds_blocks _ _ _ _ Hd) as Hn.
  wp_apply (block_read_ok_file fs dir F i); [done|lia|done|].
  intros ? fs1 (-> & Hf1 & Habs1 & Hb1). simpl.
  wp_apply time_spec; [apply (f_ok _ _ _ Hf1)|]. intros t fs2 (Ht & Hok2 & Habs2).
  assert (file_state fs2 dir F) as Hf2 by (eapply file_state_equiv; [done|done|by rewrite Habs2]).
  cbv zeta. wp_apply (update_inode_ok fs2 dir (set_access_time t dir) F); [done|done|done| |].
  { apply inode_ok_set_access_time; [apply (f_inode _ _ _ Hf)|done]. }
  intros ? fs3 (-> & Hf3 & Habs3 & Hb3). simpl. wp_pure. split; [done|]. split; [done|].
  assert (∀ j, 0 ≤ j < file_blocks →
    file_block (abs fs3) (set_access_time t dir) j = file_block (abs fs) dir j) as Hb.
  { intros j Hj. by rewrite Hb3, Habs2, Hb1. }
  assert (abs fs3 ≡ upd_inode (set_access_time t dir) (abs fs)) as Habs.
  { by rewrite Habs3, Habs2, Habs1. }
  split; [|by exists t|done|done].
  eapply dir_state_update; [exact Hd|done|apply Habs|done|done].
Qed.

(** Reading another inode does not touch the directory. *)
Lemma touched_equiv fs dir F n s s' dir' :
  touched fs dir F n s dir' → fs_ok s' → abs s' ≡ abs s → touched fs dir F n s' dir'.
Proof.
  intros Ht Hok Habs. eapply touched_trans; [exact Ht|].
  pose proof (to_state _ _ _ _ _ _ Ht) as Hd. pose proof (ds_file _ _ _ _ Hd) as Hf.
  assert (∀ j, 0 ≤ j < file_blocks → file_block (abs s') dir' j = file_block (abs s) dir' j) as Hb.
  { intros j Hj. symmetry. eapply file_block_equiv; [by symmetry|apply (f_wf _ _ _ Hf)|done]. }
  split; [|exists (i_access_time dir'); by destruct dir'| |done].
  - eapply dir_state_update; [exact Hd|by eapply file_state_equiv|apply Habs|done|done].
  - rewrite Habs. by eapply upd_inode_stored.
Qed.

(** The iterator goes on to the next block. *)
Lemma iternext_advance fs dir F n start s dir' it blk :
  touched fs dir F n s dir' → 0 ≤ it_iblock it < n → n ≤ file_blocks → length blk = 512%nat → start ≤ it_iblock it + 1 →
  (∀ i, 0 ≤ i → start ≤ i < it_iblock it + 1 → ¬ live (abs fs) dir i) →
  ∃ m', (m' < Z.to_nat (n - it_iblock it))%nat ∧
    iternext_inv fs dir F n start m' (DirIterator (u64 (it_iblock it + 1)) 0 blk, dir') s.
Proof.
  intros Ht Hi Hn Hb Hs Hdead. change file_blocks with 76 in Hn. rewrite u64_small by lia.
  exists (Z.to_nat (n - (it_iblock it + 1))). split; [lia|]. unfold iternext_inv, position. simpl.
  split; [exact Ht|]. split; [split; simpl; [by left|lia|exact Hb]|].
  split; [lia|]. split; [done|]. intros i Hi0 Hi1. apply Hdead; lia.
Qed.

Lemma iternext_step_ok want fs dir F n start m acc s :
  dir_state fs dir F n → iternext_inv fs dir F n start m acc s →
  wp (iternext_step want acc) s (λ c s', match c with
    | Continue acc' => ∃ m', (m' < m)%nat ∧ iternext_inv fs dir F n start m' acc' s'
    | Break _ => False
    | Return r => iternext_post want fs dir F n start r s'
    end).
Proof.
  intros Hd. destruct acc as [it dir']. intros (Ht & Hit & Hpos & -> & Hdead).
  pose proof (ds_blocks _ _ _ _ Hd) as Hn. assert (n ≤ 76) as Hn' by apply Hn.
  destruct Hit as [He Hib Hlb]. unfold iternext_step, position in *.
  pose proof (to_state _ _ _ _ _ _ Ht) as Hd'. rewrite (ds_size _ _ _ _ Hd').
  rewrite u64_small by (unfold BLOCK_SIZE; lia).
  destruct (Z.leb_spec (n * BLOCK_SIZE) (it_iblock it * BLOCK_SIZE)) as [Hend|Hlt].
  { wp_pure. split; [done|]. intros i Hi0 Hi. apply Hdead; [done|].
    unfold BLOCK_SIZE in *. lia. }
  assert (it_iblock it < n) as Hib' by (unfold BLOCK_SIZE in Hlt; lia).
  apply wp_bind. destruct He as [He|He]; rewrite He in *.
  2: { simpl. wp_pure. simpl. change (Z.to_nat (entries_per_block - 1)) with 0%nat. simpl. wp_pure.
    apply iternext_advance; [exact Ht|lia|lia|exact Hlb|lia|]. intros i Hi0 Hi. apply Hdead; lia. }
  simpl. eapply wp_mono; [apply (load_entries s dir' F n); [exact Hd'|lia|done]|].
  intros [[r blk] dir2] s2 (-> & -> & Ht2). simpl.
  rewrite (to_block _ _ _ _ _ _ Ht) by (change file_blocks with 76; lia).
  pose proof (touched_trans _ _ _ _ _ _ _ _ Ht Ht2) as Ht'.
  change (Z.to_nat (entries_per_block - 0)) with 1%nat. simpl.
  change (Z.to_nat 0) with 0%nat. fold (dir_entry_at (abs fs) dir (it_iblock it)).
  destruct (Z.eqb_spec (d_inumber (dir_entry_at (abs fs) dir (it_iblock it))) 0) as [Hz|Hnz].
  { wp_pure. apply iternext_advance; [exact Ht'|lia|lia|apply length_file_block|lia|].
    intros i Hi0 Hi. destruct (decide (i = it_iblock it)) as [->|]; [by intros []|]. apply Hdead; lia. }
  assert (∀ i, 0 ≤ i → start ≤ i < it_iblock it → ¬ live (abs fs) dir i) as Hdead'.
  { intros i Hi0 Hi. apply Hdead; lia. }
  destruct want; [|wp_pure; split; [done|]; exists (it_iblock it); split_and!; try done; lia].
  assert (valid_inumber (superblock s2) (d_inumber (dir_entry_at (abs fs) dir (it_iblock it)))) as Hv.
  { rewrite (touched_superblock _ _ _ _ _ _ Ht'). apply (ds_names _ _ _ _ Hd); [lia|done]. }
  wp_apply read_inode_spec; [apply (f_ok _ _ _ (ds_file _ _ _ _ (to_state _ _ _ _ _ _ Ht')))|done|].
  intros ? s3 (-> & Hok3 & Habs3). wp_pure. split; [by apply (touched_equiv _ _ _ _ s2)|].
  exists (it_iblock it). split_and!; try done; [lia..|].
  unfold item_at, named_inode. do 2 f_equal.
  destruct Habs3 as (Hs3 & Hi3 & _). symmetry. apply Hi3. by rewrite Hs3.
Qed.

Lemma iternext_spec want fs dir F n it :
  dir_state fs dir F n → iter_ok it n →
  wp (sfs_dir_iternext it dir want) fs (iternext_post want fs dir F n (position it)).
Proof.
  intros Hd Hit. unfold sfs_dir_iternext.
  eapply wp_bind, wp_while_true with (I := iternext_inv fs dir F n (position it))
    (n := Z.to_nat (n - it_iblock it)).
  - unfold iternext_fuel. rewrite (ds_size _ _ _ _ Hd).
    replace ((n * BLOCK_SIZE + BLOCK_SIZE - 1) / BLOCK_SIZE) with n; [lia|].
    unfold BLOCK_SIZE. apply Z.div_unique with 511; lia.
  - split_and!; [by apply touched_refl|done|done|done|lia].
  - intros m acc s Hinv. eapply wp_mono; [by apply iternext_step_ok|].
    intros [acc'|acc'|r] s' Hs'; [done|done|]. by wp_pure.
Qed.

(** ** Searching a name *)
Definition matches (name : list byte) (e : sfs_dir_entry) : Prop := strn_eq 256 (d_name e) name = true.

Definition search_inv (name : list byte) (fs : filesystem) (dir : sfs_fs_inode) (F : list Z) (n : Z)
    (m : nat) (acc : dir_iterator * sfs_fs_inode) (s : filesystem) : Prop :=
  let '(it, dir') := acc in
  touched fs dir F n s dir' ∧ iter_ok it n ∧ m = Z.to_nat (n + 1 - position it) ∧
  ∀ i, 0 ≤ i < n → i < position it → live (abs fs) dir i → ¬ matches name (dir_entry_at (abs fs) dir i).

(** The result of a search: the first entry in use that has the name. *)
Definition search_post (name : list byte) (fs : filesystem) (dir : sfs_fs_inode) (F : list Z) (n : Z)
    (r : option dir_item * sfs_fs_inode) (s : filesystem) : Prop :=
  let '(o, dir') := r in
  touched fs dir F n s dir' ∧
  match o with
  | None => ∀ i, 0 ≤ i < n → live (abs fs) dir i → ¬ matches name (dir_entry_at (abs fs) dir i)
  | Some item => ∃ j, 0 ≤ j < n ∧ live (abs fs) dir j ∧ matches name (dir_entry_at (abs fs) dir j) ∧
      (∀ i, 0 ≤ i < j → live (abs fs) dir i → ¬ matches name (dir_entry_at (abs fs) dir i)) ∧
      item = item_at (abs fs) dir j None
  end.

Lemma item_iter_ok fs dir j o n : 0 ≤ j < n → iter_ok (di_iter (item_at (abs fs) dir j o)) n.
Proof. intros Hj. split; simpl; [by right|lia|apply length_file_block]. Qed.

Lemma position_range it n : iter_ok it n → 0 ≤ position it ≤ n + 1.
Proof. intros [[E|E] ? ?]; unfold position; lia. Qed.

(** The entries are the same after the directory was touched. *)
Lemma touched_live fs dir F n fs' dir' j :
  touched fs dir F n fs' dir' → 0 ≤ j < file_blocks → live (abs fs') dir' j ↔ live (abs fs) dir j.
Proof. intros Ht Hj. unfold live. by rewrite (touched_entry _ _ _ _ _ _ j Ht). Qed.

Lemma touched_item fs dir F n fs' dir' j o :
  touched fs dir F n fs' dir' → 0 ≤ j < file_blocks →
  item_at (abs fs') dir' j o = item_at (abs fs) dir j o.
Proof.
  intros Ht Hj. unfold item_at.
  by rewrite (touched_entry _ _ _ _ _ _ j Ht), (to_block _ _ _ _ _ _ Ht).
Qed.

(** One more entry, from a state the iteration reached. *)
Lemma iternext_touched want fs dir F n s dir' it :
  touched fs dir F n s dir' → iter_ok it n →
  wp (sfs_dir_iternext it dir' want) s (λ '(o, dir2) s', touched fs dir F n s' dir2 ∧
    match o with
    | None => ∀ i, 0 ≤ i → position it ≤ i < n → ¬ live (abs fs) dir i
    | Some item => ∃ j, position it ≤ j < n ∧ 0 ≤ j ∧ live (abs fs) dir j ∧
        (∀ i, 0 ≤ i → position it ≤ i < j → ¬ live (abs fs) dir i) ∧
        item = item_at (abs fs) dir j (named_inode want s' (dir_entry_at (abs fs) dir j))
    end).
Proof.
  intros Ht Hit. pose proof (to_state _ _ _ _ _ _ Ht) as Hd. pose proof (ds_blocks _ _ _ _ Hd) as Hn.
  eapply wp_mono; [by apply iternext_spec|].
  intros [o dir2] s' [Ht2 Ho]. split; [by eapply touched_trans|]. destruct o as [item|].
  - destruct Ho as (j & Hj & Hj0 & Hl & Hdead & ->).
    exists j. split_and!; [lia|lia|lia| | |].
    + apply (touched_live _ _ _ _ _ _ j Ht); [lia|done].
    + intros i Hi0 Hi Hli. apply (Hdead i Hi0 Hi). apply (touched_live _ _ _ _ _ _ i Ht); [lia|done].
    + rewrite (touched_entry _ _ _ _ _ _ j Ht), (touched_item _ _ _ _ _ _ j _ Ht) by lia. done.
  - intros i Hi0 Hi Hli. apply (Ho i Hi0 Hi). apply (touched_live _ _ _ _ _ _ i Ht); [lia|done].
Qed.

Lemma search_fuel_enough dir n :
  0 ≤ n → i_size dir = n * BLOCK_SIZE → search_fuel dir = (Z.to_nat n + 2)%nat.
Proof.
  intros Hn Hs. unfold search_fuel. rewrite Hs.
  replace ((n * BLOCK_SIZE + BLOCK_SIZE - 1) / BLOCK_SIZE) with n.
  - change entries_per_block with 1. lia.
  - unfold BLOCK_SIZE. apply Z.div_unique with 511; lia.
Qed.

Lemma dir_search_spec name fs dir F n it :
  dir_state fs dir F n → iter_ok it n → position it = 0 →
  wp (dir_search name it dir) fs (search_post name fs dir F n).
Proof.
  intros Hd Hit Hp. unfold dir_search. pose proof (ds_blocks _ _ _ _ Hd) as Hn.
  eapply wp_bind, wp_while_true with (I := search_inv name fs dir F n)
    (n := Z.to_nat (n + 1)).
  - rewrite (search_fuel_enough _ n) by (apply (ds_size _ _ _ _ Hd) || lia). lia.
  - split_and!; [by apply touched_refl|done|f_equal; lia|lia].
  - intros m [it' dir'] s (Ht & Hit' & -> & Hno). pose proof (position_range _ _ Hit') as Hpr.
    wp_apply (iternext_touched false); [done|done|].
    intros [o dir2] s' [Ht' Ho]. destruct o as [item|].
    + destruct Ho as (j & Hj & Hj0 & Hl & Hdead & ->). simpl.
      assert (∀ i, 0 ≤ i < j → live (abs fs) dir i → ¬ matches name (dir_entry_at (abs fs) dir i)) as Hbefore.
      { intros i Hi Hli. destruct (decide (i < position it')); [apply Hno; (done || lia)|].
        exfalso. eapply (Hdead i); [lia|lia|done]. }
      destruct (strn_eq 256 _ name) eqn:Hm.
      * wp_pure. split; [done|]. exists j. split_and!; try done; lia.
      * wp_pure. rewrite !Z.add_1_r. exists (Z.to_nat (n + 1 - (j + 1))). split; [lia|].
        split_and!; [done|apply (item_iter_ok fs dir j None); lia|done|].
        intros i Hi Hij Hli. unfold position in Hij. simpl in Hij.
        destruct (decide (i = j)) as [->|]; [unfold matches; by rewrite Hm|].
        apply Hbefore; [lia|done].
    + wp_pure. split; [done|]. intros i Hi Hli. destruct (decide (i < position it')).
      * by apply Hno.
      * exfalso. eapply (Ho i); [lia|lia|done].
Qed.

(** ** Listing *)
Definition live_upto (a : fs_abs) (dir : sfs_fs_inode) (k : Z) : list Z :=
  List.filter (λ i, negb (d_inumber (dir_entry_at a dir i) =? 0)) (seqZ 0 k).

(** What [readdir] hands to the callback for the entry [i]. *)
Definition listed (a : fs_abs) (dir : sfs_fs_inode) (i : Z) : list byte * option stat :=
  (c_string (d_name (dir_entry_at a dir i)),
   Some (sfs_fs_inode_to_stat (a_inode a (d_inumber (dir_entry_at a dir i))))).

Lemma live_upto_S a dir k :
  0 ≤ k → live_upto a dir (k + 1) =
    live_upto a dir k ++ (if d_inumber (dir_entry_at a dir k) =? 0 then [] else [k]).
Proof.
  intros Hk. unfold live_upto. rewrite seqZ_app, List.filter_app by lia. simpl.
  rewrite Z.add_0_l. by destruct (_ =? 0).
Qed.

Lemma live_upto_dead a dir j k :
  0 ≤ j ≤ k → (∀ i, 0 ≤ i → j ≤ i < k → ¬ live a dir i) → live_upto a dir k = live_upto a dir j.
Proof.
  intros Hj. replace k with (j + Z.of_nat (Z.to_nat (k - j))) by lia.
  induction (Z.to_nat (k - j)) as [|d IH]; intros Hdead; [f_equal; lia|].
  replace (j + Z.of_nat (S d)) with (j + Z.of_nat d + 1) by lia.
  rewrite live_upto_S by lia. rewrite IH by (intros; apply Hdead; lia).
  destruct (Z.eqb_spec (d_inumber (dir_entry_at a dir (j + Z.of_nat d))) 0) as [|Hnz];
    [apply app_nil_r|]. destruct (Hdead (j + Z.of_nat d)); [lia|lia|exact Hnz].
Qed.

Lemma live_upto_next a dir p j :
  0 ≤ p ≤ j → live a dir j → (∀ i, 0 ≤ i → p ≤ i < j → ¬ live a dir i) →
  live_upto a dir (j + 1) = live_upto a dir p ++ [j].
Proof.
  intros Hp Hl Hdead. rewrite live_upto_S by lia. rewrite (live_upto_dead a dir p j) by (done || lia).
  by rewrite (proj2 (Z.eqb_neq _ 0) Hl).
Qed.

Definition readdir_inv (fs : filesystem) (dir : sfs_fs_inode) (F : list Z) (n : Z)
    (base : list (list byte * option stat)) (m : nat)
    (acc : dir_iterator * sfs_fs_inode * list (list byte * option stat)) (s : filesystem) : Prop :=
  let '(it, dir', out) := acc in
  touched fs dir F n s dir' ∧ iter_ok it n ∧ m = Z.to_nat (n + 1 - position it) ∧
  out = base ++ map (listed (abs fs) dir) (live_upto (abs fs) dir (Z.min n (position it))).

(** The whole directory is listed when the callback always has room. *)
Lemma readdir_spec filler fs dir F n it base :
  dir_state fs dir F n → iter_ok it n → position it = 0 → (∀ k, filler k = false) →
  (∀ i, 0 ≤ i < n → live (abs fs) dir i → d_inumber (dir_entry_at (abs fs) dir i) ≠ i_inumber dir) →
  wp (while_true (search_fuel dir) (it, dir, base) (readdir_fill filler)) fs (λ e s,
    e = inr (base ++ map (listed (abs fs) dir) (live_upto (abs fs) dir n)) ∧
    ∃ dir', touched fs dir F n s dir').
Proof.
  intros Hd Hit Hp Hfill Hself. pose proof (ds_blocks _ _ _ _ Hd) as Hn.
  eapply wp_while_true with (I := readdir_inv fs dir F n base) (n := Z.to_nat (n + 1)).
  - rewrite (search_fuel_enough _ n) by (apply (ds_size _ _ _ _ Hd) || lia). lia.
  - split_and!; [by apply touched_refl|done|f_equal; lia|].
    rewrite Hp, Z.min_r by lia. unfold live_upto. simpl. by rewrite app_nil_r.
  - intros m [[it' dir'] out] s (Ht & Hit' & -> & ->). pose proof (position_range _ _ Hit') as Hpr.
    unfold readdir_fill. wp_apply (iternext_touched true); [done|done|].
    intros [o dir2] s' [Ht' Ho]. destruct o as [item|].
    + destruct Ho as (j & Hj & Hj0 & Hl & Hdead & ->). cbn [di_inode di_iter di_entry item_at].
      rewrite Hfill. wp_pure. exists (Z.to_nat (n + 1 - (j + 1))). split; [lia|].
      split_and!; [done|apply (item_iter_ok fs dir j None); lia|done|].
      match goal with |- context [position (DirIterator ?a ?b ?c)] =>
        change (position (DirIterator a b c)) with (j + 1) end.
      rewrite !Z.min_r by lia.
      rewrite (live_upto_next _ _ (position it') j) by (done || lia).
      rewrite map_app, app_assoc. simpl. unfold listed at 3. do 4 f_equal.
      unfold default, named_inode. f_equal. f_equal.
      pose proof (to_abs _ _ _ _ _ _ Ht') as (Hs & Hi & _). change (view s') with (a_inode (abs s')).
      rewrite Hi.
      * simpl. rewrite (proj2 (Z.eqb_neq _ _)); [done|].
        destruct (to_dir _ _ _ _ _ _ Ht') as [t ->]. simpl. apply Hself; [lia|done].
      * change (a_sb (abs s')) with (superblock s').
        rewrite (Hs : superblock s' = superblock fs). apply (ds_names _ _ _ _ Hd); [lia|done].
    + wp_pure. split; [|by exists dir2]. f_equal. f_equal. f_equal.
      destruct (Z.min_spec n (position it')) as [[? ->]|[? ->]]; [done|].
      symmetry. apply live_upto_dead; [lia|exact Ho].
Qed.

End iter.
