(* ===== verification/DirLink.v ===== *)
(** * Linking a file in a directory

    [sfs_dir_link] enters a name in the first unused entry of a directory, or
    in a new block at its end. *)

From S2P Require Export DirSpec.

Lemma dir_entry_ok num name :
  0 ≤ num < 2 ^ 64 → (length name ≤ 255)%nat →
  c_ok dir_entry_c (DirEntry num (strncpy_name name)) = true.
Proof.
  intros Hnum Hname. cbv [c_ok dir_entry_c iso_c pair_c bytes_c u64_c uint_c fst snd d_inumber d_name].
  rewrite andb_true_iff, in_width_spec, Nat.eqb_eq. split; [done|].
  unfold strncpy_name. apply length_resize.
Qed.

Lemma entry_fits (blk : list byte) :
  length blk = 512%nat → ((0 + 1) * c_size dir_entry_c ≤ length blk)%nat.
Proof. intros ->. change (c_size dir_entry_c) with 264%nat. lia. Qed.

(** The string stored for a name. *)
Lemma c_string_strncpy name :
  (length name ≤ 255)%nat → x00 ∉ name → c_string (strncpy_name name) = name.
Proof.
  intros Hl H0. unfold c_string, strncpy_name. rewrite resize_ge by lia.
  replace (256 - length name)%nat with (S (255 - length name)) by lia. simpl.
  generalize (replicate (255 - length name) x00) as l. clear Hl. intros l.
  induction name as [|c name IH]; simpl; [done|].
  apply not_elem_of_cons in H0 as [Hc H0]. rewrite bool_decide_eq_false_2 by done.
  by rewrite IH.
Qed.

Lemma matches_strncpy num name :
  (length name ≤ 255)%nat → x00 ∉ name → matches name (DirEntry num (strncpy_name name)).
Proof.
  intros Hl H0. unfold matches, strn_eq. simpl.
  rewrite c_string_strncpy by done. by apply bool_decide_eq_true_2.
Qed.

Section link.
  Context `{Env, !ReliableIO, !EnvOk}.

(** Writing the inode of another file. *)
Lemma write_other_inode fs dir F i :
  file_state fs dir F → valid_inumber (superblock fs) (i_inumber i) → inode_ok i = true →
  i_inumber i ≠ i_inumber dir →
  wp (sfs_fs_write_inode i) fs (λ r fs', r = 0 ∧ file_state fs' dir F ∧
    abs fs' ≡ upd_inode i (abs fs) ∧
    ∀ j, 0 ≤ j < file_blocks → file_block (abs fs') dir j = file_block (abs fs) dir j).
Proof.
  intros [Hok Hfree Hwf Hio Hv Hst] Hvi Hoki Hne.
  eapply wp_mono; [by apply write_inode_spec|].
  intros r fs' (-> & Hok' & Habs). split; [done|].
  assert (file_wf (upd_inode i (abs fs)) dir F) as Hwf' by (destruct Hwf; by split).
  assert (superblock fs' = superblock fs) as Hsb by apply Habs.
  split_and!; [|done|].
  - split; try done.
    + rewrite Habs. by apply is_free_upd_inode.
    + eapply file_wf_proper; [symmetry; exact Habs|exact Hwf'].
    + by rewrite Hsb.
    + destruct Habs as (Hs & Hi & _). rewrite Hi; [|by rewrite Hs].
      simpl. by rewrite (proj2 (Z.eqb_neq _ _)).
  - intros j Hj. symmetry.
    exact (file_block_equiv (upd_inode i (abs fs)) (abs fs') dir F j (symmetry Habs) Hwf' Hj).
Qed.

Lemma link_search_spec fs dir F n :
  file_state fs dir F → 0 ≤ n ≤ file_blocks → i_size dir = n * BLOCK_SIZE →
  wp (link_search dir) fs (λ e s, file_state s dir F ∧ abs s ≡ abs fs ∧
    (∀ j, 0 ≤ j < file_blocks → file_block (abs s) dir j = file_block (abs fs) dir j) ∧
    match e with
    | inl _ => ∀ i, 0 ≤ i < n → live (abs fs) dir i
    | inr None => False
    | inr (Some (i, j, blk)) => 0 ≤ i < n ∧ j = 0%nat ∧ blk = file_block (abs fs) dir i ∧
        ¬ live (abs fs) dir i ∧ ∀ k, 0 ≤ k < i → live (abs fs) dir k
    end).
Proof.
  intros Hd Hn Hsz. unfold link_search. rewrite Hsz, Z.div_mul by done.
  apply (wp_for_range (λ i _ s, file_state s dir F ∧ abs s ≡ abs fs ∧
    (∀ j, 0 ≤ j < file_blocks → file_block (abs s) dir j = file_block (abs fs) dir j) ∧
    ∀ k, 0 ≤ k < i → live (abs fs) dir k)); [lia| | |done].
  - split_and!; [exact Hd|done|done|lia].
  - intros i [] s Hi (Hf & Habs & Hb & Hl).
    wp_apply (block_read_ok_file s dir F i); [done|lia|apply stack_len|].
    intros ? s1 (-> & Hf1 & Habs1 & Hb1). simpl. rewrite Hb by lia.
    assert (∀ j, 0 ≤ j < file_blocks → file_block (abs s1) dir j = file_block (abs fs) dir j) as Hb'.
    { intros j Hj. by rewrite Hb1, Hb. }
    rewrite Habs in Habs1. change (entry_at 0 (file_block (abs fs) dir i)) with (dir_entry_at (abs fs) dir i).
    destruct (Z.eqb_spec (d_inumber (dir_entry_at (abs fs) dir i)) 0) as [Hz|Hnz]; wp_pure.
    + split_and!; try done; [lia..|]. by intros [].
    + split_and!; [done..|]. intros k Hk. destruct (decide (k = i)) as [->|]; [done|].
      apply Hl. lia.
Qed.

(** ** The result of a link *)
Record linked (fs : filesystem) (dir : sfs_fs_inode) (n : Z) (name : list byte) (inode : sfs_fs_inode)
    (fs' : filesystem) (dir' : sfs_fs_inode) (F' : list Z) (inode' : sfs_fs_inode) (j : Z) : Prop := Linked {
  li_state : dir_state fs' dir' F' (Z.max n (j + 1));
  li_pos : 0 ≤ j ≤ n;
  li_unused : j < n → ¬ live (abs fs) dir j;
  li_first i : 0 ≤ i < j → live (abs fs) dir i;
  li_entry : dir_entry_at (abs fs') dir' j = DirEntry (i_inumber inode) (strncpy_name name);
  li_other i : 0 ≤ i < n → i ≠ j → dir_entry_at (abs fs') dir' i = dir_entry_at (abs fs) dir i;
  li_number : i_inumber dir' = i_inumber dir;
  li_mode : i_mode dir' = i_mode dir;
  li_links : ∃ t, inode' = set_change_time t (set_links (u32 (i_links inode + 1)) inode);
  li_inode : a_inode (abs fs') (i_inumber inode) = inode';
}.

Lemma linked_intro fs dir F n name inode j fs' dir' F' inode' :
  dir_state fs dir F n → 0 ≤ j ≤ n → j < file_blocks → (j < n → ¬ live (abs fs) dir j) →
  (∀ i, 0 ≤ i < j → live (abs fs) dir i) →
  valid_inumber (superblock fs) (i_inumber inode) → inode_ok inode = true →
  (length name ≤ 255)%nat →
  (∀ m, valid_inumber (superblock fs) m → valid_inumber (superblock fs') m) →
  (∀ i, 0 ≤ i < file_blocks → ∃ blk, length blk = 512%nat ∧
    file_block (abs fs') dir' i =
      if i =? j then set_at dir_entry_c 0 (DirEntry (i_inumber inode) (strncpy_name name)) blk
      else file_block (abs fs) dir i) →
  file_state fs' dir' F' → i_size dir' = Z.max n (j + 1) * BLOCK_SIZE →
  i_inumber dir' = i_inumber dir → i_mode dir' = i_mode dir →
  (∃ t, inode' = set_change_time t (set_links (u32 (i_links inode + 1)) inode)) →
  a_inode (abs fs') (i_inumber inode) = inode' →
  linked fs dir n name inode fs' dir' F' inode' j.
Proof.
  intros Hd Hj Hjb Hun Hfirst Hv Hio Hname Hvv Hb Hf' Hsz Hn' Hmd Hlk Hin.
  pose proof (ds_blocks _ _ _ _ Hd) as Hnb.
  assert (0 ≤ i_inumber inode < 2 ^ 64) as Hnum by (apply inode_ok_spec in Hio; tauto).
  assert (dir_entry_at (abs fs') dir' j = DirEntry (i_inumber inode) (strncpy_name name)) as He.
  { unfold dir_entry_at. destruct (Hb j) as (blk & Hl & ->); [lia|]. rewrite Z.eqb_refl.
    apply (get_set_at_eq dir_entry_c); [by apply dir_entry_ok|by apply entry_fits]. }
  assert (∀ i, 0 ≤ i < n → i ≠ j → dir_entry_at (abs fs') dir' i = dir_entry_at (abs fs) dir i) as Ho.
  { intros i Hi Hne. unfold dir_entry_at. destruct (Hb i) as (blk & _ & ->); [lia|].
    by rewrite (proj2 (Z.eqb_neq _ _) Hne). }
  split; try done. split; [done|lia|done|].
  intros i Hi Hli. apply Hvv. unfold live in Hli. destruct (decide (i = j)) as [->|Hne].
  - by rewrite He.
  - rewrite Ho in Hli |- * by lia. apply (ds_names _ _ _ _ Hd); [lia|done].
Qed.

(** The block with the new entry is written. *)
Lemma write_entry fs dir F j blk num name :
  file_state fs dir F → F ≠ [] → 0 ≤ j < file_blocks →
  j < SFS_NDIR_BLOCKS ∨ bp dir SFS_IND_BLOCK ≠ 0 → length blk = 512%nat →
  0 ≤ num < 2 ^ 64 → (length name ≤ 255)%nat →
  let blk' := set_at dir_entry_c 0 (DirEntry num (strncpy_name name)) blk in
  wp (sfs_fs_inode_block_write dir j blk') fs (λ '(r, dir1) s, r = 0 ∧
    ∃ F1, file_state s dir1 F1 ∧ (length F ≤ S (length F1))%nat ∧
      set_block_pointers [] dir1 = set_block_pointers [] dir ∧
      (∀ m, valid_inumber (superblock fs) m → valid_inumber (superblock s) m) ∧
      ∀ i, 0 ≤ i < file_blocks →
        file_block (abs s) dir1 i = if i =? j then blk' else file_block (abs fs) dir i).
Proof.
  intros Hf HF Hj Hcase Hblk Hnum Hname blk'.
  eapply wp_mono; [apply (block_write_ok_file fs dir F j blk'); [done|done|done| |by left]|].
  { unfold blk'. rewrite (length_set_at dir_entry_c); [done|by apply dir_entry_ok|by apply entry_fits]. }
  intros [r dir1] s (-> & F1 & Hf1 & Hfew & _ & _ & Hmem & Hsb & _ & _ & Hb). split; [done|].
  exists F1. split_and!; [done|done|done| |done].
  intros m. unfold valid_inumber. destruct (superblock fs), (superblock s). by simplify_eq/=.
Qed.

(** ** The two ways to enter a name *)
Lemma link_at_spec fs dir F n name inode i blk s :
  dir_state fs dir F n → F ≠ [] → 0 ≤ i < n → ¬ live (abs fs) dir i →
  (∀ k, 0 ≤ k < i → live (abs fs) dir k) →
  i < SFS_NDIR_BLOCKS ∨ bp dir SFS_IND_BLOCK ≠ 0 →
  valid_inumber (superblock fs) (i_inumber inode) → inode_ok inode = true →
  i_inumber inode ≠ i_inumber dir → (length name ≤ 255)%nat → blk = file_block (abs fs) dir i →
  file_state s dir F → abs s ≡ abs fs →
  (∀ j, 0 ≤ j < file_blocks → file_block (abs s) dir j = file_block (abs fs) dir j) →
  wp (link_at dir name inode i 0 blk) s (λ '(r, dir', inode') s', r = 0 ∧
    ∃ F', (length F ≤ S (length F'))%nat ∧ linked fs dir n name inode s' dir' F' inode' i).
Proof.
  intros Hd HF Hi Hun Hfirst Hcase Hv Hio Hne Hname -> Hs Habs Hbs.
  pose proof (ds_blocks _ _ _ _ Hd) as Hn. assert (superblock s = superblock fs) as Hsb by apply Habs.
  assert (0 ≤ i_inumber inode < 2 ^ 64) as Hnum by (apply inode_ok_spec in Hio; tauto).
  unfold link_at.
  wp_apply (write_entry s dir F i (file_block (abs fs) dir i)); [done|done|lia|done|apply length_file_block|done|done|].
  intros [r dir1] s1 (-> & F1 & Hs1 & Hfew & Hmem & Hvv & Hb1). simpl.
  wp_apply time_spec; [apply (f_ok _ _ _ Hs1)|]. intros t s2 (Ht & Hok2 & Habs2). cbv zeta.
  assert (file_state s2 dir1 F1) as Hs2 by (eapply file_state_equiv; [done|done|by rewrite Habs2]).
  wp_apply (update_inode_ok s2 dir1 (set_modified_time t dir1) F1); [done|done|done| |].
  { apply inode_ok_set_modified_time; [apply (f_inode _ _ _ Hs2)|done]. }
  intros ? s3 (-> & Hs3 & Habs3 & Hb3). simpl.
  assert (i_inumber dir1 = i_inumber dir ∧ i_size dir1 = i_size dir) as [Hn1 Hsz1].
  { split; [exact (f_equal i_inumber Hmem)|exact (f_equal i_size Hmem)]. }
  assert (∀ m, valid_inumber (superblock fs) m → valid_inumber (superblock s3) m) as Hvv3.
  { intros m Hm. rewrite (proj1 Habs3 : superblock s3 = superblock s2).
    rewrite (f_equal a_sb Habs2 : superblock s2 = superblock s1). apply Hvv. by rewrite Hsb. }
  set (inode' := set_change_time t _).
  assert (inode_ok inode' = true) as Hio'.
  { apply inode_ok_set_change_time; [|done]. apply inode_ok_set_links; [done|].
    by apply Z.mod_pos_bound. }
  wp_apply (write_other_inode s3 (set_modified_time t dir1) F1 inode');
    [done|by apply Hvv3|done|simpl; congruence|].
  intros ? s4 (-> & Hs4 & Habs4 & Hb4). simpl. wp_pure. split; [done|]. exists F1. split; [exact Hfew|].
  apply (linked_intro fs dir F n name inode i s4 (set_modified_time t dir1) F1 inode' Hd);
    [lia|lia|intros _; exact Hun|exact Hfirst|exact Hv|exact Hio|exact Hname| | |exact Hs4| |exact Hn1|exact (f_equal i_mode Hmem)
    |exists t; reflexivity|].
  - intros m Hm. rewrite (proj1 Habs4 : superblock s4 = superblock s3). by apply Hvv3.
  - intros k Hk. exists (file_block (abs fs) dir i). split; [apply length_file_block|].
    rewrite Hb4, Hb3 by done. rewrite Habs2, Hb1 by done. destruct (k =? i); [done|]. by apply Hbs.
  - simpl. rewrite Hsz1, (ds_size _ _ _ _ Hd). f_equal. lia.
  - destruct Habs4 as (Hs' & Hi4 & _). rewrite Hi4; [simpl; by rewrite Z.eqb_refl|].
    rewrite Hs'. by apply Hvv3.
Qed.

Lemma link_append_spec fs dir F n name inode s :
  dir_state fs dir F n → F ≠ [] → n < file_blocks →
  (∀ k, 0 ≤ k < n → live (abs fs) dir k) →
  n < SFS_NDIR_BLOCKS ∨ bp dir SFS_IND_BLOCK ≠ 0 →
  valid_inumber (superblock fs) (i_inumber inode) → inode_ok inode = true →
  i_inumber inode ≠ i_inumber dir → (length name ≤ 255)%nat →
  file_state s dir F → abs s ≡ abs fs →
  (∀ j, 0 ≤ j < file_blocks → file_block (abs s) dir j = file_block (abs fs) dir j) →
  wp (link_append dir name inode) s (λ '(r, dir', inode') s', r = 0 ∧
    ∃ F', (length F ≤ S (length F'))%nat ∧ linked fs dir n name inode s' dir' F' inode' n).
Proof.
  intros Hd HF Hnb Hfirst Hcase Hv Hio Hne Hname Hs Habs Hbs.
  pose proof (ds_blocks _ _ _ _ Hd) as Hn. assert (superblock s = superblock fs) as Hsb by apply Habs.
  assert (0 ≤ i_inumber inode < 2 ^ 64) as Hnum by (apply inode_ok_spec in Hio; tauto).
  unfold link_append. rewrite (ds_size _ _ _ _ Hd), Z.div_mul by done.
  wp_apply (write_entry s dir F n zero_block); [done|done|lia|done|apply length_zero_block|done|done|].
  intros [r dir1] s1 (-> & F1 & Hs1 & Hfew & Hmem & Hvv & Hb1). simpl.
  assert (i_inumber dir1 = i_inumber dir ∧ i_size dir1 = i_size dir) as [Hn1 Hsz1].
  { split; [exact (f_equal i_inumber Hmem)|exact (f_equal i_size Hmem)]. }
  wp_apply time_spec; [apply (f_ok _ _ _ Hs1)|]. intros t s2 (Ht & Hok2 & Habs2).
  assert (file_state s2 dir1 F1) as Hs2 by (eapply file_state_equiv; [done|done|by rewrite Habs2]).
  set (dir2 := set_modified_time t _).
  assert (i_size dir2 = Z.max n (n + 1) * BLOCK_SIZE) as Hsz2.
  { simpl. rewrite Hsz1, (ds_size _ _ _ _ Hd). change file_blocks with 76 in Hnb.
    unfold BLOCK_SIZE. rewrite u64_small by lia. lia. }
  wp_apply (update_inode_ok s2 dir1 dir2 F1); [done|done|done| |].
  { apply inode_ok_set_modified_time, Ht. apply inode_ok_set_size; [apply (f_inode _ _ _ Hs2)|].
    by apply Z.mod_pos_bound. }
  intros ? s3 (-> & Hs3 & Habs3 & Hb3). simpl.
  assert (∀ m, valid_inumber (superblock fs) m → valid_inumber (superblock s3) m) as Hvv3.
  { intros m Hm. rewrite (proj1 Habs3 : superblock s3 = superblock s2).
    rewrite (f_equal a_sb Habs2 : superblock s2 = superblock s1). apply Hvv. by rewrite Hsb. }
  wp_apply time_spec; [apply (f_ok _ _ _ Hs3)|]. intros t' s4 (Ht' & Hok4 & Habs4). cbv zeta.
  assert (file_state s4 dir2 F1) as Hs4 by (eapply file_state_equiv; [done|done|by rewrite Habs4]).
  set (inode' := set_change_time t' _).
  assert (inode_ok inode' = true) as Hio'.
  { apply inode_ok_set_change_time; [|done]. apply inode_ok_set_links; [done|].
    by apply Z.mod_pos_bound. }
  assert (superblock s4 = superblock s3) as Hsb4 by exact (f_equal a_sb Habs4).
  wp_apply (write_other_inode s4 dir2 F1 inode');
    [done|rewrite Hsb4; by apply Hvv3|done|simpl; congruence|].
  intros ? s5 (-> & Hs5 & Habs5 & Hb5). simpl. wp_pure. split; [done|]. exists F1. split; [exact Hfew|].
  apply (linked_intro fs dir F n name inode n s5 dir2 F1 inode' Hd);
    [lia|lia|intros ?; lia|exact Hfirst|exact Hv|exact Hio|exact Hname| | |exact Hs5|exact Hsz2|exact Hn1|exact (f_equal i_mode Hmem)
    |exists t'; reflexivity|].
  - intros m Hm. rewrite (proj1 Habs5 : superblock s5 = superblock s4), Hsb4. by apply Hvv3.
  - intros k Hk. exists zero_block. split; [apply length_zero_block|].
    rewrite Hb5, Habs4, Hb3 by done. rewrite Habs2, Hb1 by done. destruct (k =? n); [done|]. by apply Hbs.
  - destruct Habs5 as (Hs' & Hi5 & _). rewrite Hi5; [simpl; by rewrite Z.eqb_refl|].
    rewrite Hs'. change (a_sb (upd_inode inode' (abs s4))) with (superblock s4). rewrite Hsb4. by apply Hvv3.
Qed.

Lemma dir_link_spec fs dir F n name inode :
  dir_state fs dir F n → F ≠ [] → n < file_blocks →
  n < SFS_NDIR_BLOCKS ∨ bp dir SFS_IND_BLOCK ≠ 0 →
  valid_inumber (superblock fs) (i_inumber inode) → inode_ok inode = true →
  i_inumber inode ≠ i_inumber dir → (length name ≤ 255)%nat →
  wp (sfs_dir_link dir name inode) fs (λ '(r, dir', inode') s', r = 0 ∧
    ∃ F' j, (length F ≤ S (length F'))%nat ∧ linked fs dir n name inode s' dir' F' inode' j).
Proof.
  intros Hd HF Hnb Hcase Hv Hio Hne Hname. unfold sfs_dir_link.
  rewrite (proj2 (Z.ltb_ge _ _)) by lia.
  wp_apply link_search_spec; [exact (ds_file _ _ _ _ Hd)|exact (ds_blocks _ _ _ _ Hd)|exact (ds_size _ _ _ _ Hd)|]. intros [u|[[[i j] blk]|]] s (Hs & Habs & Hb & Hpost).
  - eapply wp_mono; [by eapply link_append_spec|].
    intros [[r dir'] inode'] s' (-> & F' & Hl). split; [done|]. by exists F', n.
  - destruct Hpost as (Hi & -> & -> & Hun & Hfirst).
    eapply wp_mono; [eapply link_at_spec; try done|].
    { destruct Hcase; [left; lia|by right]. }
    intros [[r dir'] inode'] s' (-> & F' & Hl). split; [done|]. by exists F', i.
  - done.
Qed.

End link.
