(* ===== verification/Testbed.v ===== *)
(** * A concrete environment and a small file system

    The states at which the theorems are instantiated: a disk of ten blocks
    with an inode table of one block (the root directory, a file "a" and a
    free inode), an index of free blocks and a file of one direct and one indirect
    block. *)

From S2P Require Export FileState Sfs.

Definition env_with (io : nat → io_outcome) (heap_dirty : bool) : Env := {|
  env_io := io;
  env_clock := λ n, 1700000000 + Z.of_nat n;
  env_malloc := λ _, true;
  env_slab_malloc := λ _, true;
  env_strdup := λ _ _, true;
  env_fstat_ok := true;
  env_uid := 1000;
  env_gid := 100;
  env_asctime_ok := λ _, true;
  env_heap_dirty := heap_dirty;
  env_heap_data := zero_block;
  env_stack_block := zero_block;
  env_freed := id;
  env_pointer := λ p, match p with None => 0 | Some n => 4096 + 24 * Z.of_nat n end;
|}.

Definition demo_env : Env := env_with (λ _, IoOk) false.

(** The same, but for a [true] in the memory that malloc returns. *)
Definition dirty_env : Env := env_with (λ _, IoOk) true.

#[export] Instance demo_reliable : ReliableIO (H := demo_env).
Proof. done. Qed.

#[export] Instance dirty_reliable : ReliableIO (H := dirty_env).
Proof. done. Qed.

#[export] Instance dirty_malloc : ReliableMalloc (H := dirty_env).
Proof. by split. Qed.

#[export] Instance demo_malloc : ReliableMalloc (H := demo_env).
Proof. by split. Qed.

(** The state after an operation. *)
Definition demo_after {S A} (m : M S A) (s : S) : S :=
  match m s with Done _ s' => s' | Crash _ => s end.

(** What an operation returns. *)
Definition returned {S A} (m : M S A) (s : S) : option A :=
  match m s with Done a _ => Some a | Crash _ => None end.

Lemma demo_run {S A} (m : M S A) s a :
  returned m s = Some a → m s = Done a (demo_after m s).
Proof. unfold returned, demo_after. destruct (m s); naive_solver. Qed.

Definition no_pointers : list Z := replicate 14 0.

Definition demo_root : sfs_fs_inode :=
  Inode 1 ROOT_MODE 1000 100 1 1000 1000 1000 512 (<[0%nat := 6]> no_pointers).
Definition demo_file : sfs_fs_inode :=
  Inode 2 33188 1000 100 2 1000 1000 1000 1024 (<[12%nat := 8]> (<[0%nat := 7]> no_pointers)).
Definition demo_free_inode : sfs_fs_inode :=
  Inode 3 0 0 0 0 0 0 0 4 no_pointers.

Definition demo_sb : sfs_fs_superblock :=
  Superblock SFS_FILE_TYPE_SIGNATURE 1000 512 1 3 10 3 3.

Definition demo_table : list byte :=
  set_at inode_c 0 demo_root (set_at inode_c 1 demo_file (set_at inode_c 2 demo_free_inode zero_block)).

Definition demo_disk : world := World 5120
  {[ 0 := superblock_block demo_sb;
     1 := demo_table;
     3 := index_set 1 4 (index_set 2 5 zero_block);
     6 := set_at dir_entry_c 0 (DirEntry 2 (strncpy_name [Byte.byte.of_Z 97])) zero_block;
     7 := replicate 512 (Byte.byte.of_Z 65);
     8 := index_set 0 9 zero_block;
     9 := replicate 512 (Byte.byte.of_Z 66) ]} 0 0 0.

Definition demo_fs : filesystem :=
  Filesystem demo_disk demo_sb (InodeCache false 1 demo_table).

Lemma demo_fs_ok : fs_ok demo_fs.
Proof.
  split; try (by vm_compute); unfold BLOCK_SIZE; simpl; lia.
Qed.

Definition demo_free : list Z := [3; 4; 5].

Lemma demo_is_free : is_free (abs demo_fs) demo_free.
Proof.
  split_and!.
  - apply (bool_decide_unpack _). by vm_compute.
  - repeat constructor.
  - exists [3]. split.
    + split_and!; [done|done|by vm_compute].
    + vm_compute. reflexivity.
Qed.

(** A decidable form of [file_wf], to check it on concrete files. *)
Definition file_wf_b (a : fs_abs) (inode : sfs_fs_inode) (F : list Z) : bool :=
  let ib := bp inode SFS_IND_BLOCK in
  let used := nonzero (file_ptrs a inode) in
  let in_range b := (sb_inode_table_blocks (a_sb a) <? b) && (b <? sb_blocks (a_sb a)) in
  ((ib =? 0) || (in_range ib && bool_decide (ib ∉ F))) &&
  forallb (λ b, in_range b && bool_decide (b ∉ F) && negb (b =? ib)) used &&
  bool_decide (NoDup used).

Lemma nonzero_nodup_inj l j k v :
  NoDup (nonzero l) → v ≠ 0 → l !! j = Some v → l !! k = Some v → j = k.
Proof.
  intros Hnd Hv. revert j k. induction l as [|x l IH]; intros j k Hj Hk; [done|].
  simpl in Hnd. assert (NoDup (nonzero l)) as Hnd'.
  { destruct (negb (x =? 0)); [by apply NoDup_cons in Hnd as [_ ?]|done]. }
  assert (x = v → ∀ m, l !! m = Some v → False) as Hx.
  { intros -> m Hm. rewrite (proj2 (Z.eqb_neq _ _) Hv) in Hnd. simpl in Hnd.
    apply NoDup_cons in Hnd as [Hn _]. apply Hn, elem_of_nonzero; split; [done|].
    by eapply list_elem_of_lookup_2. }
  destruct j as [|j], k as [|k]; simpl in *; simplify_eq.
  - done.
  - destruct (Hx eq_refl _ Hk).
  - destruct (Hx eq_refl _ Hj).
  - f_equal. by apply IH.
Qed.

Lemma file_wf_b_sound a inode F : file_wf_b a inode F = true → file_wf a inode F.
Proof.
  unfold file_wf_b. intros Hb. rewrite !andb_true_iff, forallb_forall in Hb.
  destruct Hb as [[Hib Hused] Hnd%bool_decide_eq_true].
  assert (∀ i, 0 ≤ i < file_blocks →
    file_ptrs a inode !! Z.to_nat i = Some (file_ptr a inode i)) as Hl.
  { intros i Hi. unfold file_ptrs. rewrite list_lookup_fmap, lookup_seqZ_lt by lia.
    simpl. f_equal. f_equal. lia. }
  split.
  - intros Hnz. apply orb_true_iff in Hib as [E%Z.eqb_eq|Hib]; [done|].
    rewrite !andb_true_iff, !Z.ltb_lt, bool_decide_eq_true in Hib.
    unfold data_block. tauto.
  - intros i Hi Hnz. specialize (Hl i Hi). apply list_elem_of_lookup_2 in Hl.
    pose proof (proj2 (elem_of_nonzero _ _) (conj Hnz Hl)) as Hl'. clear Hl. rename Hl' into Hl. apply list_elem_of_In, Hused in Hl.
    rewrite !andb_true_iff, !Z.ltb_lt, bool_decide_eq_true, negb_true_iff, Z.eqb_neq in Hl.
    unfold data_block. tauto.
  - intros i j Hi Hj Hnz E. pose proof (Hl i Hi) as Hli. pose proof (Hl j Hj) as Hlj.
    rewrite <-E in Hlj. pose proof (nonzero_nodup_inj _ _ _ _ Hnd Hnz Hli Hlj). lia.
Qed.

Lemma demo_file_wf : file_wf (abs demo_fs) demo_file demo_free.
Proof. apply file_wf_b_sound. by vm_compute. Qed.

Lemma demo_root_wf : file_wf (abs demo_fs) demo_root demo_free.
Proof. apply file_wf_b_sound. by vm_compute. Qed.
