(* ===== verification/SfsMutex.v ===== *)
(** * The mutex

    Every handler takes the mutex of the state and must give it back on each
    of its returns: FUSE calls the next one with the same state. *)

From S2P Require Export Testbed.

(** What the next handler sees. *)
Definition releases {A} (m : M sfs_state A) : Prop :=
  ∀ s a s', m s = Done a s' → mu s' = false.
Definition deadlocks {A} (m : M sfs_state A) : Prop :=
  ∀ s, mu s = true → m s = Crash Deadlock.

(** Every path through the rest of a handler ends with an unlock. *)
Class Unlocks {A} (m : M sfs_state A) : Prop := unlocks : releases m.

#[export] Instance unlocks_ret {A} (a : A) : Unlocks (unlock_ret a).
Proof. by intros s a' s' [= _ <-]. Qed.

#[export] Instance unlocks_bind {A B} (m : M sfs_state A) (f : A → M sfs_state B) :
  (∀ a, Unlocks (f a)) → Unlocks (m ≫= f).
Proof.
  intros Hf s b s' Hrun. unfold mbind, M_bind in Hrun.
  destruct (m s) as [a s1|] eqn:E; [|done]. by eapply Hf.
Qed.

#[export] Instance unlocks_crash {A} c : Unlocks (crash_with (A := A) c).
Proof. by intros s a s'. Qed.

#[export] Instance unlocks_if {A} (b : bool) (m m' : M sfs_state A) :
  Unlocks m → Unlocks m' → Unlocks (if b then m else m').
Proof. by destruct b. Qed.

#[export] Instance unlocks_option {A B} (o : option B) (f : B → M sfs_state A) m :
  (∀ b, Unlocks (f b)) → Unlocks m → Unlocks (match o with Some b => f b | None => m end).
Proof. destruct o; auto. Qed.

#[export] Instance unlocks_sum {A B C} (x : B + C) (f : B → M sfs_state A) (g : C → M sfs_state A) :
  (∀ b, Unlocks (f b)) → (∀ c, Unlocks (g c)) →
  Unlocks (match x with inl b => f b | inr c => g c end).
Proof. destruct x; auto. Qed.

#[export] Instance unlocks_pair {A B C} (p : B * C) (f : B → C → M sfs_state A) :
  (∀ b c, Unlocks (f b c)) → Unlocks (let '(b, c) := p in f b c).
Proof. destruct p; auto. Qed.

Lemma lock_deadlocks {A} (f : () → M sfs_state A) : deadlocks (lock ≫= f).
Proof. intros s Hs. unfold lock. run. by rewrite Hs. Qed.

#[export] Hint Resolve lock_deadlocks : sfs.

Section mutex.
  Context `{Env}.

(** C19: every handler that takes the mutex, but [sfs_opendir], gives it back.
    Whatever the path through it, error returns included, when one of init,
    destroy, getattr, create, unlink, open, release, read, write, readdir and
    releasedir returns, the mutex is free; and each of them, and [sfs_opendir],
    waits for ever when it is called with the mutex held.  [sfs_mkdir] and
    [sfs_rmdir] take no mutex: they return from every state and leave it alone. *)
Theorem handlers_release_mutex ctx path mode flags buf size offset fh filler :
  (releases sfs_init ∧ releases sfs_destroy ∧ releases (sfs_getattr path) ∧
   releases (sfs_create ctx path mode flags) ∧ releases (sfs_unlink path) ∧
   releases (sfs_open path flags) ∧ releases (sfs_release fh) ∧
   releases (sfs_read buf size offset fh) ∧ releases (sfs_write buf size offset fh) ∧
   releases (sfs_readdir path filler) ∧ releases (sfs_releasedir fh)) ∧
  (deadlocks sfs_init ∧ deadlocks sfs_destroy ∧ deadlocks (sfs_getattr path) ∧
   deadlocks (sfs_create ctx path mode flags) ∧ deadlocks (sfs_unlink path) ∧
   deadlocks (sfs_open path flags) ∧ deadlocks (sfs_release fh) ∧
   deadlocks (sfs_read buf size offset fh) ∧ deadlocks (sfs_write buf size offset fh) ∧
   deadlocks (sfs_opendir path flags) ∧ deadlocks (sfs_readdir path filler) ∧
   deadlocks (sfs_releasedir fh)) ∧
  (∀ s, sfs_mkdir path mode s = Done 0 s ∧
        sfs_rmdir path s = Done (if bool_decide (path = [slash]) then -1 else 0) s).
Proof.
  split; [|split].
  - split_and!; apply unlocks_bind; intros []; cbv zeta; apply _.
  - split_and!; apply lock_deadlocks.
  - intros s. split; [done|]. unfold sfs_rmdir. by destruct (bool_decide _).
Qed.

(** C36: [sfs_opendir] of any path but "/" returns -ENOENT with the mutex still
    held, so that from then on every operation on the file system, looking up
    a name included, never returns. *)
Theorem opendir_error_keeps_mutex path flags path' s :
  path ≠ [slash] → mu s = false →
  ∃ s', sfs_opendir path flags s = Done (- ENOENT, None) s' ∧ mu s' = true ∧
        sfs_getattr path' s' = Crash Deadlock.
Proof.
  intros Hp Hs. exists (set_mu true s). split_and!; [|done|by apply lock_deadlocks].
  unfold sfs_opendir, lock. run. rewrite Hs. run. by rewrite bool_decide_eq_false_2.
Qed.

End mutex.

Lemma opendir_error_keeps_mutex_witness :
  ∃ s', sfs_opendir (H := demo_env) [slash; dot] 0 (SfsState false (inr demo_fs) None false)
          = Done (- ENOENT, None) s' ∧ mu s' = true ∧
        sfs_getattr (H := demo_env) [slash] s' = Crash Deadlock.
Proof. by apply (opendir_error_keeps_mutex (H := demo_env)). Defined.
