(* ===== verification/FormatSpec.v ===== *)
(** * What formatting writes

    The geometry of a disk of N blocks, and the two loops of [format_fs]: the
    inode table and the index of free blocks, each against a closed form of
    what it leaves on the disk. *)

From S2P Require Export FsInodes Format.

(** ** The geometry *)
Record geometry (N T H F D : Z) : Prop := Geometry {
  ge_blocks : 3 ≤ N < 2 ^ 35;
  ge_table : table_blocks N = T;
  ge_table_pos : 1 ≤ T ≤ N - 2;
  ge_head : free_head N = H;
  ge_head_eq : H = T + 2;
  ge_free : F = N - H;
  ge_data : D = F * 63 / 64;
  ge_first : first_free_block N = N - D;
}.

Lemma geometry_of N : 3 ≤ N < 2 ^ 35 → ∃ T H F D, geometry N T H F D.
Proof.
  intros HN. set (T := if (N - 1) / 16 =? 0 then 1 else (N - 1) / 16).
  assert (table_blocks N = T) as ET by (unfold table_blocks; by rewrite u64_small by lia).
  assert (1 ≤ T ≤ N - 2) as HT.
  { unfold T. destruct (Z.eqb_spec ((N - 1) / 16) 0); div_lia. }
  assert (free_head N = T + 2) as EH by (unfold free_head; rewrite ET, u64_small; lia).
  assert (free_blocks N = N - (T + 2)) as EF by (unfold free_blocks; rewrite EH, u64_small; lia).
  exists T, (T + 2), (N - (T + 2)), ((N - (T + 2)) * 63 / 64). split; try done.
  unfold first_free_block. rewrite EF, EH. change slots_per_block with 63.
  rewrite (u64_small (_ * 63)) by lia. change (63 + 1) with 64.
  rewrite u64_small by div_lia. lia.
Qed.

(** The index nodes are the [N - D - H] blocks before the first listed one. *)
Lemma geometry_nodes N T H F D :
  geometry N T H F D → 0 ≤ D ∧ 64 * (N - D - H) - 64 < F ≤ 64 * (N - D - H) ∧ H ≤ N - D ≤ N.
Proof. intros [? ? ? ? ? -> -> ?]. split_and!; div_lia. Qed.

Lemma geometry_room N T H F D : geometry N T H F D → D ≤ 63 * (N - D - H).
Proof. intros [? ? ? ? ? EF -> ?]. pose proof (Z.mul_div_le (F * 63) 64 ltac:(lia)). lia. Qed.

(** ** The inode table *)

(** The root directory and a free inode as formatting writes them. *)
Definition format_root `{Env} (t : Z) : sfs_fs_inode :=
  Inode 1 ROOT_MODE env_uid env_gid 1 t t t 0 (replicate 14 0).
Definition format_free (n : Z) : sfs_fs_inode :=
  Inode n 0 0 0 0 0 0 0 (n + 1) (replicate 14 0).
Definition format_table `{Env} (t n : Z) : sfs_fs_inode :=
  if n =? 1 then format_root t else format_free n.

(** The caller's ids are 32 bits wide. *)
Class IdsOk `{Env} := {
  uid_ok : 0 ≤ env_uid < 2 ^ 32;
  gid_ok : 0 ≤ env_gid < 2 ^ 32;
}.

Lemma zero_inode : c_dec inode_c (replicate (c_size inode_c) x00) = Inode 0 0 0 0 0 0 0 0 0 (replicate 14 0).
Proof. by vm_compute. Qed.

Lemma zero_inode_at : get_at inode_c 0 zero_block = Inode 0 0 0 0 0 0 0 0 0 (replicate 14 0).
Proof. by vm_compute. Qed.

Section table.
  Context `{Env, !ReliableIO, !EnvOk, !IdsOk}.

Lemma format_table_ok t n : 0 ≤ t < 2 ^ 64 → 0 ≤ n < 2 ^ 63 → inode_ok (format_table t n) = true.
Proof.
  intros Ht Hn. pose proof uid_ok. pose proof gid_ok. apply inode_ok_spec. unfold format_table.
  destruct (n =? 1); cbn [i_inumber i_mode i_uid i_gid i_links i_access_time i_modified_time
    i_change_time i_size i_block_pointers format_root format_free]; change ROOT_MODE with 16877;
    split_and!; (lia || done).
Qed.

(** The number that [next_free] holds before inode [n] is written. *)
Definition next_number (n : Z) : Z := Z.max 3 (n + 1).

Lemma format_inode_spec i j n blk w :
  1 ≤ i < 2 ^ 35 → 0 ≤ j < 3 → n = 3 * (i - 1) + j + 1 → length blk = 512%nat →
  (n = 1 → blk = zero_block) →
  wp (format_inode i j (blk, next_number n)) w (λ '(blk', next) w', ∃ t, 0 ≤ t < 2 ^ 64 ∧
    blk' = set_at inode_c (Z.to_nat j) (format_table t n) blk ∧ next = next_number (n + 1) ∧
    w_blocks w' = w_blocks w ∧ w_size w' = w_size w).
Proof.
  intros Hi Hj Hn Hblk Hz. unfold format_inode.
  destruct ((i =? 1) && (j =? 0)) eqn:E.
  - apply andb_true_iff in E as [->%Z.eqb_eq ->%Z.eqb_eq]. subst n.
    cbv zeta. rewrite Hz, zero_inode_at by done. unfold time_, mbind, M_bind, wp.
    eexists. split; [by apply Z.mod_pos_bound|]. done.
  - assert (n ≠ 1) as Hn1.
    { intros ->. apply andb_false_iff in E as [?%Z.eqb_neq|?%Z.eqb_neq]; lia. }
    wp_pure. exists 0. split; [lia|]. rewrite zero_inode. unfold format_table.
    rewrite (proj2 (Z.eqb_neq n 1) Hn1). unfold next_number.
    rewrite !u64_small by lia. split_and!; [|lia|done|done].
    f_equal. cbv [set_size_ set_inumber format_free]. cbn [i_inumber i_mode i_uid i_gid i_links
      i_access_time i_modified_time i_change_time i_block_pointers]. f_equal; lia.
Qed.

Lemma format_table_time t t' n : n ≠ 1 → format_table t n = format_table t' n.
Proof. intros Hn. unfold format_table. by rewrite (proj2 (Z.eqb_neq n 1) Hn). Qed.

(** The first [k] inodes of block [i] of the table. *)
Definition table_part (i k : Z) (blk : list byte) : Prop :=
  length blk = 512%nat ∧ ∃ t, 0 ≤ t < 2 ^ 64 ∧
  ∀ j, 0 ≤ j < k → get_at inode_c (Z.to_nat j) blk = format_table t (3 * (i - 1) + j + 1).

Lemma inode_at_fits j (blk : list byte) :
  0 ≤ j < 3 → length blk = 512%nat → ((Z.to_nat j + 1) * c_size inode_c ≤ length blk)%nat.
Proof. intros Hj ->. change (c_size inode_c) with 168%nat. lia. Qed.

Lemma table_part_step i k t blk :
  1 ≤ i < 2 ^ 35 → 0 ≤ k < 3 → table_part i k blk → 0 ≤ t < 2 ^ 64 →
  table_part i (k + 1) (set_at inode_c (Z.to_nat k) (format_table t (3 * (i - 1) + k + 1)) blk).
Proof.
  intros Hi Hk (Hlen & t0 & Ht0 & Hg) Ht.
  assert (inode_ok (format_table t (3 * (i - 1) + k + 1)) = true) as Hok by (apply format_table_ok; lia).
  pose proof (inode_at_fits k blk Hk Hlen) as Hfit.
  split; [by rewrite (length_set_at inode_c)|].
  exists (if k =? 0 then t else t0). split; [by destruct (k =? 0)|].
  intros j Hj. destruct (Z.eq_dec j k) as [->|Hne].
  - rewrite (get_set_at_eq inode_c) by done. destruct (Z.eqb_spec k 0) as [->|Hk0]; [done|].
    apply format_table_time. lia.
  - rewrite (get_set_at_ne inode_c) by (done || lia). rewrite Hg by lia.
    by rewrite (proj2 (Z.eqb_neq k 0)) by lia.
Qed.

Lemma format_inode_block_spec i blk w :
  1 ≤ i < 2 ^ 35 → on_disk w i → length blk = 512%nat → (i = 1 → blk = zero_block) →
  wp (format_inode_block i (blk, next_number (3 * (i - 1) + 1))) w (λ c w', ∃ blk',
    c = Continue (blk', next_number (3 * i + 1)) ∧ table_part i 3 blk' ∧
    w_size w' = w_size w ∧ ∀ b, wblk w' b = if b =? i then blk' else wblk w b).
Proof.
  intros Hi Hd Hlen Hz. unfold format_inode_block. change inodes_per_block with 3.
  eapply wp_bind, (wp_for_range (λ j acc w', acc.2 = next_number (3 * (i - 1) + j + 1) ∧
    table_part i j acc.1 ∧ w_blocks w' = w_blocks w ∧ w_size w' = w_size w ∧ (j = 0 → acc.1 = blk))); [lia| | |].
  - split; [cbn [snd]; f_equal; lia|]. split; [|done]. split; [done|]. exists 0. split; [lia|]. intros j. lia.
  - intros j [b next] w1 Hj (Hnext & Hp & Hb & Hs & Hz0). cbn [fst snd] in *. subst next.
    wp_apply (format_inode_spec i j (3 * (i - 1) + j + 1) b w1); [done|done|lia|apply Hp| |].
    { intros E. rewrite Hz0 by lia. apply Hz. lia. }
    intros [b' next'] w2 (t & Ht & -> & -> & Hb2 & Hs2). wp_pure. cbn [fst snd].
    split_and!; [f_equal; lia|by apply table_part_step|congruence|congruence|lia].
  - intros [b next] w1 (Hnext & Hp & Hb & Hs & _). cbn [fst snd] in *.
    assert (on_disk w1 i) as Hd1 by (unfold on_disk in *; by rewrite Hs).
    eapply wp_bind, wp_done; [apply block_write_ok; [done|apply Hp]|]. cbn [Z.eqb negb].
    rewrite Z.eqb_refl. wp_pure. exists b. split; [subst next; do 3 f_equal; lia|].
    split; [done|]. split; [by simpl|]. intros b'. destruct (Z.eqb_spec b' i) as [->|Hne].
    + apply wblk_set_eq, Hp.
    + rewrite wblk_set_ne by congruence. by apply wblk_ext.
Qed.

(** The whole table: inode [n] of blocks [1 .. T]. *)
Definition table_done (T : Z) (w : world) : Prop :=
  ∃ t, 0 ≤ t < 2 ^ 64 ∧ ∀ n, 1 ≤ n ≤ 3 * T → inode_at_disk w n = format_table t n.

Lemma table_done_step T blk w w' :
  0 ≤ T → table_done T w → table_part (T + 1) 3 blk →
  (∀ b, wblk w' b = if b =? T + 1 then blk else wblk w b) → table_done (T + 1) w'.
Proof.
  intros HT (t0 & Ht0 & Hold) (_ & t & Ht & Hnew) Hb.
  exists (if T =? 0 then t else t0). split; [by destruct (T =? 0)|].
  intros n Hn. unfold inode_at_disk. rewrite Hb.
  assert (inode_block n = (n - 1) / 3 + 1) as Eb by done.
  assert (inode_pos n = Z.to_nat ((n - 1) `mod` 3)) as Ep by done.
  destruct (Z.eqb_spec (inode_block n) (T + 1)) as [E|E].
  - rewrite Ep, Hnew by div_lia.
    replace (3 * (T + 1 - 1) + (n - 1) `mod` 3 + 1) with n by div_lia.
    destruct (Z.eqb_spec T 0); [done|]. apply format_table_time. div_lia.
  - change (inode_at_disk w n = format_table (if T =? 0 then t else t0) n).
    rewrite Hold by div_lia. destruct (Z.eqb_spec T 0); [div_lia|done].
Qed.

Lemma format_table_spec T w :
  0 ≤ T < 2 ^ 35 → (T + 1) * BLOCK_SIZE ≤ w_size w → w_size w < 2 ^ 63 →
  wp (for_range 1 (T + 1) (zero_block, 3) format_inode_block) w (λ e w', ∃ blk next,
    e = inl (blk, next) ∧ length blk = 512%nat ∧ table_done T w' ∧ w_size w' = w_size w ∧
    ∀ b, ¬ (1 ≤ b ≤ T) → wblk w' b = wblk w b).
Proof.
  intros HT Hsz Hmax.
  apply (wp_for_range (λ i acc w', acc.2 = next_number (3 * (i - 1) + 1) ∧ length acc.1 = 512%nat ∧
    (i = 1 → acc.1 = zero_block) ∧ table_done (i - 1) w' ∧ w_size w' = w_size w ∧
    ∀ b, ¬ (1 ≤ b < i) → wblk w' b = wblk w b)); [lia| | |].
  - split_and!; [done|apply length_zero_block|done| |done|done].
    exists 0. split; [lia|]. intros n. lia.
  - intros i [blk next] w1 Hi (Hnext & Hl & Hz & Ht & Hs & Hb). cbn [fst snd] in *. subst next.
    eapply wp_mono; [apply format_inode_block_spec; [lia| |done|done]|].
    { unfold on_disk. rewrite Hs. unfold BLOCK_SIZE in *. lia. }
    intros c w2 (blk' & -> & Hp & Hs2 & Hb2). cbn [fst snd].
    split_and!; [f_equal; lia|apply Hp|lia| |congruence|].
    + replace (i + 1 - 1) with (i - 1 + 1) by lia.
      apply (table_done_step (i - 1) blk' w1); [lia|done| |].
      * by replace (i - 1 + 1) with i by lia.
      * intros b. replace (i - 1 + 1) with i by lia. apply Hb2.
    + intros b Hnb. rewrite Hb2, (proj2 (Z.eqb_neq b i)) by lia. apply Hb. lia.
  - intros [blk next] w1 (Hnext & Hl & Hz & Ht & Hs & Hb). cbn [fst snd] in *.
    exists blk, next. replace (T + 1 - 1) with T in Ht by lia. split_and!; try done.
    intros b Hnb. apply Hb. lia.
Qed.

End table.
