(* ===== verification/FormatIndex.v ===== *)
(** * The index of free blocks that formatting writes

    The second loop of [format_fs] lists the data blocks in nodes of 63
    numbers.  A node is written when it is full; the last one, when it is not
    full, never is. *)

From S2P Require Export FormatSpec.

Section index.
  (** the first block of the index, the first block listed, and the number of
      blocks listed *)
  Variables H P D : Z.

(** The node at block [c] with its first [cnt] numbers. *)
Definition index_node (c base cnt : Z) (idx : list byte) : Prop :=
  length idx = 512%nat ∧ index_get 0 idx = (if c <? P - 1 then c + 1 else 0) ∧
  ∀ s, 1 ≤ s ≤ cnt → index_get (Z.to_nat s) idx = base + s - 1.

(** The next number is entered. *)
Lemma index_node_add c base cnt v idx :
  0 ≤ cnt < 63 → index_node c base cnt idx → v = base + cnt → 0 ≤ v < 2 ^ 64 →
  index_node c base (cnt + 1) (index_set (Z.to_nat (cnt + 1)) v idx).
Proof.
  intros Hc (Hl & H0' & Hs) Hv Hr.
  assert (c_ok u64_c v = true) as Hok by (by apply in_width_u64).
  assert ((Z.to_nat (cnt + 1) + 1) * c_size u64_c ≤ length idx)%nat as Hfit
    by (apply index_fits; [done|lia]).
  split; [apply length_index_set; [done|lia|done]|]. split.
  - rewrite index_set_next by (done || lia). done.
  - intros s Hs'. destruct (Z.eq_dec s (cnt + 1)) as [->|Hne].
    + rewrite (get_set_at_eq u64_c) by done. lia.
    + rewrite (get_set_at_ne u64_c) by (done || lia). apply Hs. lia.
Qed.

Lemma index_node_start c base idx :
  length idx = 512%nat → 0 ≤ c < 2 ^ 63 →
  index_node c base 0 (index_set 0 (if c <? P - 1 then c + 1 else 0) idx).
Proof.
  intros Hl Hc. set (v := if c <? P - 1 then c + 1 else 0).
  assert (0 ≤ v < 2 ^ 64) as Hv by (unfold v; destruct (c <? P - 1); lia).
  split; [by apply length_index_set; [|lia|]|]. split; [|intros s; lia].
  apply (get_set_at_eq u64_c); [by apply in_width_u64|apply index_fits; [done|lia]].
Qed.

(** The state of the loop when [m] blocks have been listed. *)
Record index_inv (w : world) (m : Z) (acc : list byte * Z * Z) (w' : world) : Prop := IndexInv {
  ii_length : length acc.1.1 = 512%nat;
  ii_pos : (m = 0 ∧ acc.1.2 = H ∧ acc.2 = 0) ∨
    ∃ k r, 0 ≤ k ∧ 1 ≤ r ≤ 63 ∧ m = 63 * k + r ∧ acc.1.2 = H + k ∧ acc.2 = r + 1 ∧
      index_node (H + k) (P + 63 * k) r acc.1.1;
  ii_written k : 0 ≤ k < m / 63 → index_node (H + k) (P + 63 * k) 63 (wblk w' (H + k));
  ii_size : w_size w' = w_size w;
  ii_other b : ¬ (H ≤ b < H + m / 63) → wblk w' b = wblk w b;
}.

  Context `{Env, !ReliableIO}.

(** The nodes are on the disk and enough for the numbers. *)
Record index_room (w : world) : Prop := IndexRoom {
  ir_head : 0 ≤ H;
  ir_nodes : D ≤ 63 * (P - H);
  ir_order : H ≤ P;
  ir_data : 0 ≤ D;
  ir_disk : (P + D) * BLOCK_SIZE ≤ w_size w;
  ir_max : w_size w < 2 ^ 62;
}.

(** A number is entered in a node that has room, and the node is written when
    it is full. *)
Lemma index_flush_spec w w1 k r idx :
  index_room w → w_size w1 = w_size w → 0 ≤ k → 0 ≤ r < 63 → 63 * k + r < D →
  index_node (H + k) (P + 63 * k) r idx →
  (∀ k', 0 ≤ k' < k → index_node (H + k') (P + 63 * k') 63 (wblk w1 (H + k'))) →
  (∀ b, ¬ (H ≤ b < H + k) → wblk w1 b = wblk w b) →
  let idx' := index_set (Z.to_nat (r + 1)) (P + (63 * k + r)) idx in
  wp (if (r + 1 + 1 =? Z.of_nat index_slots) then
        r0 ← block_write (H + k) idx';
        return_if negb (r0 =? BLOCK_SIZE) with Return (-1);
        mret (Continue (idx', H + k, r + 1 + 1))
      else mret (Continue (R := Z) (idx', H + k, r + 1 + 1))) w1 (λ c w', ∃ acc,
    c = Continue acc ∧ index_inv w (63 * k + r + 1) acc w').
Proof.
  intros [R1 R2 R3 R4 R5 R6] Hs Hk Hr Hm Hn Hw Ho idx'. unfold BLOCK_SIZE in R5.
  assert (index_node (H + k) (P + 63 * k) (r + 1) idx') as Hn'.
  { apply index_node_add; [done|done|lia|lia]. }
  change (Z.of_nat index_slots) with 64. destruct (Z.eqb_spec (r + 1 + 1) 64) as [E|E].
  - assert (on_disk w1 (H + k)) as Hd by (unfold on_disk, BLOCK_SIZE; rewrite Hs; lia).
    eapply wp_bind, wp_done; [apply block_write_ok; [done|apply Hn']|]. rewrite Z.eqb_refl.
    cbn [negb]. wp_pure. eexists. split; [done|].
    assert ((63 * k + r + 1) / 63 = k + 1) as Eq by div_lia.
    split; cbn [fst snd]; rewrite ?Eq.
    + apply Hn'.
    + right. exists k, (r + 1). split_and!; (lia || done).
    + intros k' Hk'. destruct (Z.eq_dec k' k) as [->|Hne].
      * rewrite wblk_set_eq by apply Hn'. by replace 63 with (r + 1) at 2 by lia.
      * rewrite wblk_set_ne, wblk_tick by lia. apply Hw. lia.
    + done.
    + intros b Hb. rewrite wblk_set_ne, wblk_tick by lia. apply Ho. lia.
  - wp_pure. eexists. split; [done|].
    assert ((63 * k + r + 1) / 63 = k) as Eq by div_lia.
    split; cbn [fst snd]; rewrite ?Eq; [apply Hn'| |exact Hw|exact Hs|exact Ho].
    right. exists k, (r + 1). split_and!; (lia || done).
Qed.

Lemma format_index_entry_spec w m acc w1 :
  index_room w → 0 ≤ m < D → index_inv w m acc w1 →
  wp (format_index_entry P (P + m) acc) w1 (λ c w', ∃ acc',
    c = Continue acc' ∧ index_inv w (m + 1) acc' w').
Proof.
  intros Hroom Hm Hinv. pose proof Hroom as [R1 R2 R3 R4 R5 R6]. unfold BLOCK_SIZE in R5.
  destruct acc as [[idx cur] pos]. pose proof (ii_length _ _ _ _ Hinv) as Hl. cbn [fst snd] in Hl.
  (* either a node has room, or a new one is begun *)
  assert ((∃ k r, 0 ≤ k ∧ 1 ≤ r < 63 ∧ m = 63 * k + r ∧ cur = H + k ∧ pos = r + 1 ∧
             index_node (H + k) (P + 63 * k) r idx) ∨
          (∃ k, 0 ≤ k ∧ m = 63 * k ∧
             (if pos =? Z.of_nat index_slots then (u64 (cur + 1), 0) else (cur, pos)) = (H + k, 0)))
    as [(k & r & Hk & Hr & -> & -> & -> & Hn)|(k & Hk & -> & E)].
  { change (Z.of_nat index_slots) with 64.
    pose proof (ii_pos _ _ _ _ Hinv) as Hpos. cbn [fst snd] in Hpos.
    destruct Hpos as [(-> & -> & ->)|(k & r & Hk & Hr & -> & -> & -> & Hn)].
    - right. exists 0. split_and!; [lia|lia|]. simpl. f_equal. lia.
    - destruct (Z.eq_dec r 63) as [->|Hne]; [right|left; exists k, r; split_and!; (lia || done)].
      exists (k + 1). split_and!; [lia|lia|]. simpl. rewrite u64_small by lia. f_equal. lia. }
  all: pose proof (ii_written _ _ _ _ Hinv) as Hw; pose proof (ii_other _ _ _ _ Hinv) as Ho;
       pose proof (ii_size _ _ _ _ Hinv) as Hs.
  - replace ((63 * k + r) / 63) with k in Hw, Ho by div_lia.
    unfold format_index_entry. change (Z.of_nat index_slots) with 64.
    rewrite (proj2 (Z.eqb_neq (r + 1) 64)) by lia.
    apply wp_bind, wp_assert; [apply Z.ltb_lt; lia|].
    rewrite (proj2 (Z.eqb_neq (r + 1) 0)) by lia.
    apply (index_flush_spec w w1 k r idx); (lia || done).
  - replace (63 * k / 63) with k in Hw, Ho by div_lia.
    unfold format_index_entry. rewrite E.
    apply wp_bind, wp_assert; [apply Z.ltb_lt; lia|]. cbn [Z.eqb].
    rewrite (u64_small (P - 1)), (u64_small (H + k + 1)) by lia.
    replace (63 * k + 1) with (63 * k + 0 + 1) by lia. replace (P + 63 * k) with (P + (63 * k + 0)) by lia.
    apply (index_flush_spec w w1 k 0); try (lia || done).
    apply index_node_start; [done|lia].
Qed.

(** The loop ends, with every full node on the disk. *)
Lemma format_index_spec w tmp :
  index_room w → length tmp = 512%nat →
  wp (for_range P (P + D) (tmp, H, 0) (format_index_entry P)) w (λ e w', ∃ acc,
    e = inl acc ∧ index_inv w D acc w').
Proof.
  intros Hroom Hl. pose proof Hroom as [R1 R2 R3 R4 R5 R6].
  apply (wp_for_range (λ i acc w', index_inv w (i - P) acc w')); [lia| | |].
  - rewrite Z.sub_diag. split; cbn [fst snd]; [done|by left|intros k; change (0 / 63) with 0; lia|done|done].
  - intros i acc w1 Hi Hinv. replace i with (P + (i - P)) by lia.
    eapply wp_mono; [apply (format_index_entry_spec w (i - P) acc w1); [done|lia|]|].
    + done.
    + intros c w' (acc' & -> & Hinv'). by replace (P + (i - P) + 1 - P) with (i - P + 1) by lia.
  - intros acc w1 Hinv. exists acc. split; [done|]. by replace (P + D - P) with D in Hinv by lia.
Qed.

(** Where the loop stands at its end: the last node that has a number. *)
Lemma index_inv_last w acc w' :
  index_inv w D acc w' → 0 ≤ D → acc.1.2 = if D =? 0 then H else H + (D - 1) / 63.
Proof.
  intros Hinv HD. destruct (ii_pos _ _ _ _ Hinv) as [(-> & E & _)|(k & r & Hk & Hr & Hm & E & _)].
  - exact E.
  - rewrite E, (proj2 (Z.eqb_neq D 0)) by lia. f_equal. div_lia.
Qed.

(** ** The free blocks that the index on the disk stands for *)
Section free.
  Variables (a : fs_abs) (q : Z).
  Hypothesis Hq : 0 ≤ q ≤ P - H ∧ P - H ≤ q + 1.
  Hypothesis Hpos : 0 < H ≤ P.
  Hypothesis Hfull : ∀ k, 0 ≤ k < q → index_node (H + k) (P + 63 * k) 63 (a_block a (H + k)).
  Hypothesis Hrest : ∀ k, q ≤ k < P - H → a_block a (H + k) = zero_block.
  Hypothesis Hdata : ∀ b, H ≤ b < P + 63 * q → data_block (a_sb a) b.

Lemma node_next k : 0 ≤ k < P - H → index_get 0 (a_block a (H + k)) = if k =? P - H - 1 then 0 else H + (k + 1).
Proof.
  intros Hk. destruct (Z_lt_dec k q) as [Hlt|Hge].
  - destruct (Hfull k ltac:(lia)) as (_ & -> & _).
    destruct (Z.ltb_spec (H + k) (P - 1)), (Z.eqb_spec k (P - H - 1)); lia.
  - rewrite Hrest, index_next_zero by lia. by rewrite (proj2 (Z.eqb_eq k _)) by lia.
Qed.

Lemma node_entries k :
  0 ≤ k < P - H → nonzero (index_entries (a_block a (H + k))) = if k <? q then seqZ (P + 63 * k) 63 else [].
Proof.
  intros Hk. destruct (Z.ltb_spec k q) as [Hlt|Hge].
  - destruct (Hfull k ltac:(lia)) as (_ & _ & Hs). rewrite (index_entries_seqZ (P + 63 * k)) by done.
    apply nonzero_none_zero, Forall_forall. intros v Hv%elem_of_seqZ. apply Z.eqb_neq. lia.
  - rewrite Hrest by lia. apply index_entries_zero.
Qed.

Lemma nodes_chain j :
  Z.of_nat j ≤ P - H → let k := P - H - Z.of_nat j in
  chain a (if k =? P - H then 0 else H + k) (seqZ (H + k) (Z.of_nat j)) ∧
  free_of a (seqZ (H + k) (Z.of_nat j)) ≡ₚ seqZ (H + k) (Z.of_nat j) ++ seqZ (P + 63 * k) (63 * (q - k)).
Proof.
  intros Hj. induction j as [|j IH]; intros k.
  - subst k. rewrite Z.sub_0_r, Z.eqb_refl. split; [done|]. simpl. rewrite seqZ_nil by lia. done.
  - specialize (IH ltac:(lia)). set (k' := P - H - Z.of_nat j) in *. assert (k' = k + 1) as E by lia.
    destruct IH as [IHc IHf]. rewrite (proj2 (Z.eqb_neq k (P - H))) by lia.
    assert (seqZ (H + k) (Z.of_nat (S j)) = (H + k) :: seqZ (H + k') (Z.of_nat j)) as ->.
    { rewrite seqZ_cons by lia. f_equal. f_equal; lia. }
    cbn [chain free_of]. split.
    + split; [done|]. split; [apply Hdata; lia|]. rewrite node_next by lia.
      rewrite E in IHc. replace (k + 1 =? P - H) with (k =? P - H - 1) in IHc
        by (destruct (Z.eqb_spec k (P - H - 1)), (Z.eqb_spec (k + 1) (P - H)); lia).
      exact (eq_rect_r (λ x, chain a _ (seqZ (H + x) _)) IHc E).
    + rewrite IHf, node_entries by lia. simpl. constructor. rewrite (Permutation_app_comm (seqZ (H + k') _)).
      destruct (Z.ltb_spec k q) as [Hlt|Hge].
      * rewrite app_assoc. replace (63 * (q - k)) with (63 + 63 * (q - k')) by lia.
        rewrite (seqZ_app _ 63) by lia. replace (P + 63 * k + 63) with (P + 63 * k') by lia.
        apply Permutation_app_comm.
      * rewrite !(seqZ_nil (P + _)) by lia. by rewrite app_nil_r.
Qed.

Lemma index_is_free :
  sb_free_blocks_head (a_sb a) = H → 0 < P - H → is_free a (seqZ H (P - H) ++ seqZ P (63 * q)).
Proof.
  intros Hh Hn. split; [|split].
  - apply NoDup_app. split_and!; [apply NoDup_seqZ| |apply NoDup_seqZ].
    intros b Hb%elem_of_seqZ Hb'%elem_of_seqZ. lia.
  - apply Forall_app. split; apply Forall_forall; intros b Hb%elem_of_seqZ; apply Hdata; lia.
  - exists (seqZ H (P - H)). destruct (nodes_chain (Z.to_nat (P - H)) ltac:(lia)) as [Hc Hf].
    rewrite Z2Nat.id, Z.sub_diag in Hc, Hf by lia. rewrite Z.add_0_r in Hc, Hf.
    rewrite (proj2 (Z.eqb_neq 0 (P - H))) in Hc by lia.
    rewrite Hh. split; [exact Hc|]. rewrite Hf. by rewrite Z.mul_0_r, Z.add_0_r, Z.sub_0_r.
Qed.

End free.

End index.
