(* ===== verification/SfsFiles.v ===== *)
(** * sfs_read and sfs_write on the blocks of a file

    The transfer loops of [sfs_read] and [sfs_write], for transfers of whole
    blocks from the start of the file, and the state in which a descriptor of
    the file is open. *)

From S2P Require Export FdPool Testbed.

(** The computation of the blocks of a transfer. *)
Lemma transfer_whole k :
  1 ≤ k ≤ file_blocks →
  first_block 0 = 0 ∧ first_block_offset 0 = 0 ∧
  last_block 0 (k * BLOCK_SIZE) = k - 1 ∧ last_block_len 0 (k * BLOCK_SIZE) = BLOCK_SIZE.
Proof.
  intros Hk. change file_blocks with 76 in Hk.
  assert (last_block_len 0 (k * BLOCK_SIZE) = BLOCK_SIZE) as Hl.
  { unfold last_block_len, BLOCK_SIZE. rewrite Z.add_0_l, u64_small, Z.mod_mul by lia. done. }
  split_and!; [done|done| |done]. unfold last_block. rewrite Hl, Z.eqb_refl. unfold BLOCK_SIZE.
  rewrite Z.add_0_l, (u64_small (k * 512)), Z.div_mul, u64_small by lia. done.
Qed.

Lemma slices_whole k i :
  1 ≤ k ≤ file_blocks → 0 ≤ i < k →
  slice_a 0 i = 0 ∧ slice_b 0 (k * BLOCK_SIZE) i = BLOCK_SIZE.
Proof.
  intros Hk Hi. destruct (transfer_whole k Hk) as (E1 & E2 & E3 & E4).
  unfold slice_a, slice_b. rewrite E1, E2, E4. by rewrite !andb_false_r.
Qed.

Lemma in_buffer_whole (buf : list byte) k i :
  length buf = Z.to_nat (k * BLOCK_SIZE) → 0 ≤ i < k →
  in_buffer buf (i * BLOCK_SIZE) BLOCK_SIZE = true.
Proof.
  intros Hl Hi. unfold in_buffer, BLOCK_SIZE in *. apply andb_true_iff.
  split; apply Z.leb_le; lia.
Qed.

(** The [j]-th block of a buffer. *)
Definition buf_block (buf : list byte) (j : Z) : list byte :=
  slice (Z.to_nat (j * BLOCK_SIZE)) 512 buf.

(** A block inside the buffer. *)
Lemma window_block buf k j :
  length buf = Z.to_nat (k * BLOCK_SIZE) → 0 ≤ j < k → window buf (j * BLOCK_SIZE) = buf_block buf j.
Proof. intros Hl Hj. unfold window. by rewrite (in_buffer_whole buf k j Hl Hj). Qed.

Lemma wp_block_write_from `{Env} inode iblock buf k s Q :
  length buf = Z.to_nat (k * BLOCK_SIZE) → 0 ≤ iblock < k →
  wp (sfs_fs_inode_block_write inode iblock (buf_block buf iblock)) s Q →
  wp (block_write_from inode iblock buf (iblock * BLOCK_SIZE)) s Q.
Proof.
  intros Hl Hi Hwp. unfold block_write_from. apply wp_bind. rewrite (window_block buf k iblock Hl Hi).
  eapply wp_mono; [exact Hwp|]. intros [r inode'] s' HQ.
  rewrite (in_buffer_whole buf k iblock Hl Hi), orb_true_r. by wp_pure.
Qed.

(** A buffer of whole blocks is its blocks. *)
Lemma buf_blocks_eq k (b1 b2 : list byte) :
  length b1 = Z.to_nat (k * BLOCK_SIZE) → length b2 = length b1 →
  (∀ j, 0 ≤ j < k → buf_block b1 j = buf_block b2 j) → b1 = b2.
Proof.
  intros H1 H2 Hb. apply list_eq_same_length with (length b1); [done|done|].
  intros i x y Hi Hx Hy. unfold BLOCK_SIZE in *.
  specialize (Hb (Z.of_nat (i / 512)) ltac:(rewrite Nat2Z.inj_div; change (Z.of_nat 512) with 512; div_lia)).
  unfold buf_block, slice in Hb. apply (f_equal (λ l, l !! (i mod 512)%nat)) in Hb.
  pose proof (Nat.mod_upper_bound i 512 ltac:(lia)). pose proof (Nat.div_mod_eq i 512).
  rewrite !lookup_take_lt, !lookup_drop in Hb by done.
  replace (Z.to_nat (Z.of_nat (i / 512) * BLOCK_SIZE) + i mod 512)%nat with i in Hb by (unfold BLOCK_SIZE; lia).
  rewrite Hx, Hy in Hb. congruence.
Qed.

Section transfers.
  Context `{Env, !ReliableIO, !EnvOk}.

Definition read_inv (fs : filesystem) (inode : sfs_fs_inode) (F : list Z) (k : Z)
    (i : Z) (acc : list byte * list byte) (s : filesystem) : Prop :=
  file_state s inode F ∧ abs s ≡ abs fs ∧
  (∀ j, 0 ≤ j < file_blocks → file_block (abs s) inode j = file_block (abs fs) inode j) ∧
  length acc.1 = Z.to_nat (k * BLOCK_SIZE) ∧
  ∀ j, 0 ≤ j < i → buf_block acc.1 j = file_block (abs fs) inode j.

Lemma read_blocks_spec fs inode F k buf :
  file_state fs inode F → 1 ≤ k ≤ file_blocks → length buf = Z.to_nat (k * BLOCK_SIZE) →
  wp (read_blocks inode buf (k * BLOCK_SIZE) 0) fs (λ '(r, buf') fs',
    r = k * BLOCK_SIZE ∧ file_state fs' inode F ∧ abs fs' ≡ abs fs ∧
    length buf' = length buf ∧
    ∀ j, 0 ≤ j < k → buf_block buf' j = file_block (abs fs) inode j).
Proof.
  intros Hf Hk Hlen. destruct (transfer_whole k Hk) as (E1 & E2 & E3 & E4).
  unfold read_blocks. apply wp_bind. rewrite E1, E3. replace (k - 1 + 1) with k by lia.
  apply (wp_for_range (read_inv fs inode F k)); [lia| | |].
  - split_and!; [done|done|done|done|lia].
  - intros i [b tmp] s Hi (Hs & Habs & Hfb & Hlb & Hb). simpl in *.
    unfold read_step. destruct (slices_whole k i Hk Hi) as [-> ->]. rewrite E2. simpl.
    rewrite !Z.add_0_l.
    rewrite (window_block b k i Hlb Hi).
    assert (Z.to_nat (i * BLOCK_SIZE) + 512 ≤ length b)%nat as Hfit.
    { rewrite Hlb. unfold BLOCK_SIZE. lia. }
    wp_apply (block_read_ok_file s inode F i); [done|lia|by apply length_slice|].
    intros ? s1 (-> & Hs1 & Habs1 & Hfb1). simpl. rewrite Hfb by lia.
    assert (length (file_block (abs fs) inode i) = 512%nat) as Hl512.
    { unfold file_block. destruct (_ =? 0); [apply length_zero_block|apply length_a_block]. }
    unfold store. rewrite Hl512. change (Z.of_nat 512) with BLOCK_SIZE. rewrite (in_buffer_whole b k i Hlb Hi). wp_pure.
    split; [done|]. split; [by rewrite Habs1|]. split; [intros; rewrite Hfb1; auto|].
    simpl. split; [by rewrite length_splice by (rewrite Hl512; lia)|].
    intros j Hj. unfold buf_block. destruct (decide (j = i)) as [->|Hne].
    + rewrite <-Hl512 at 1. apply slice_splice_eq. rewrite Hl512. lia.
    + rewrite slice_splice_ne by (rewrite ?Hl512; unfold BLOCK_SIZE in *; lia). apply Hb. lia.
  - intros [b tmp] s (Hs & Habs & Hfb & Hlb & Hb). wp_pure. simpl in *.
    split_and!; [|done|done|congruence|done].
    apply int32_small. unfold BLOCK_SIZE. change file_blocks with 76 in Hk. lia.
Qed.

Definition write_inv (fs : filesystem) (inode : sfs_fs_inode) (F : list Z) (k : Z) (buf : list byte)
    (i : Z) (acc : sfs_fs_inode * list byte) (s : filesystem) : Prop :=
  ∃ F', file_state s acc.1 F' ∧ k - i ≤ Z.of_nat (length F') ∧ others_kept fs inode F s acc.1 F' ∧
  bp acc.1 SFS_IND_BLOCK = bp inode SFS_IND_BLOCK ∧ set_block_pointers [] acc.1 = set_block_pointers [] inode ∧
  ∀ j, 0 ≤ j < file_blocks →
    file_block (abs s) acc.1 j = if j <? i then buf_block buf j else file_block (abs fs) inode j.

Lemma write_blocks_spec fs inode F k buf :
  file_state fs inode F → 1 ≤ k ≤ file_blocks → length buf = Z.to_nat (k * BLOCK_SIZE) →
  k ≤ SFS_NDIR_BLOCKS ∨ bp inode SFS_IND_BLOCK ≠ 0 → k ≤ Z.of_nat (length F) →
  wp (write_blocks inode buf (k * BLOCK_SIZE) 0) fs (λ r fs',
    r = k * BLOCK_SIZE ∧ ∃ inode' F', file_state fs' inode' F' ∧
    set_block_pointers [] inode' = set_block_pointers [] inode ∧
    others_kept fs inode F fs' inode' F' ∧
    ∀ j, 0 ≤ j < file_blocks →
      file_block (abs fs') inode' j = if j <? k then buf_block buf j else file_block (abs fs) inode j).
Proof.
  intros Hf Hk Hlen Hind HF. destruct (transfer_whole k Hk) as (E1 & E2 & E3 & E4).
  unfold write_blocks. apply wp_bind. rewrite E1, E3. replace (k - 1 + 1) with k by lia.
  apply (wp_for_range (write_inv fs inode F k buf)); [lia| | |].
  - exists F. split_and!; [done|lia|apply others_kept_refl|done|done|]. intros j Hj. by rewrite (proj2 (Z.ltb_ge _ _)) by lia.
  - intros i [ino tmp] s Hi (F' & Hs & HF' & Hoth & Hib & Hn & Hb). simpl in *.
    unfold write_step. destruct (slices_whole k i Hk Hi) as [-> ->]. rewrite E2. simpl.
    rewrite !Z.add_0_l.
    assert (length (buf_block buf i) = 512%nat) as Hl512.
    { apply length_slice. rewrite Hlen. unfold BLOCK_SIZE. lia. }
    apply wp_bind, (wp_block_write_from _ _ _ k); [done|done|].
    eapply wp_mono; [eapply (block_write_ok_file s ino F' i)|]; [done|lia| |exact Hl512| |].
    { rewrite Hib. destruct Hind; [left; lia|by right]. }
    { left. intros ->. simpl in HF'. lia. }
    intros [r ino'] s1 (-> & F1 & Hs1 & HF1 & _ & Hib1 & Hn1 & _ & _ & Hoth1 & Hb1). simpl. wp_pure.
    exists F1. simpl. split_and!; [done|lia|by eapply others_kept_trans|congruence|congruence|].
    intros j Hj. rewrite Hb1 by done. destruct (Z.eqb_spec j i) as [->|Hne].
    + by rewrite (proj2 (Z.ltb_lt _ _)) by lia.
    + rewrite Hb by done. destruct (Z.ltb_spec j i); [by rewrite (proj2 (Z.ltb_lt _ _)) by lia|].
      by rewrite (proj2 (Z.ltb_ge _ _)) by lia.
  - intros [ino tmp] s (F' & Hs & HF' & Hoth & Hib & Hn & Hb). wp_pure.
    split; [|by exists ino, F'].
    apply int32_small. unfold BLOCK_SIZE. change file_blocks with 76 in Hk. lia.
Qed.

(** A read of [k] blocks and the first [r] bytes of the next. *)
Definition tail_inv (fs : filesystem) (inode : sfs_fs_inode) (F : list Z) (k r : Z) (buf : list byte)
    (i : Z) (acc : list byte * list byte) (s : filesystem) : Prop :=
  file_state s inode F ∧
  (∀ j, 0 ≤ j < file_blocks → file_block (abs s) inode j = file_block (abs fs) inode j) ∧
  length acc.1 = length buf ∧ length acc.2 = 512%nat ∧
  (∀ m, (Z.to_nat (k * BLOCK_SIZE) ≤ m)%nat → acc.1 !! m = buf !! m) ∧
  (i = k + 1 → slice 0 (Z.to_nat r) acc.1 = take (Z.to_nat r) (file_block (abs fs) inode k)).

Lemma transfer_tail k r :
  0 ≤ k < file_blocks → 0 < r < BLOCK_SIZE →
  last_block_len 0 (k * BLOCK_SIZE + r) = r ∧ last_block 0 (k * BLOCK_SIZE + r) = k.
Proof.
  intros Hk Hr. change file_blocks with 76 in Hk. unfold BLOCK_SIZE in Hr.
  assert (u64 (0 + (k * 512 + r)) = r + k * 512) as E by (rewrite u64_small; lia).
  assert (last_block_len 0 (k * BLOCK_SIZE + r) = r) as Hl.
  { unfold last_block_len, BLOCK_SIZE. rewrite E, Z.mod_add, Z.mod_small by lia.
    by rewrite (proj2 (Z.eqb_neq r 0)) by lia. }
  split; [done|]. unfold last_block. rewrite Hl. unfold BLOCK_SIZE.
  rewrite (proj2 (Z.eqb_neq r 512)), E, Z.div_add, (Z.div_small r), u64_small by lia. lia.
Qed.

Lemma read_blocks_tail_spec fs inode F k r buf :
  file_state fs inode F → 1 ≤ k < file_blocks → 0 < r < BLOCK_SIZE →
  length buf = Z.to_nat (k * BLOCK_SIZE + r) →
  wp (read_blocks inode buf (k * BLOCK_SIZE + r) 0) fs (λ '(n, buf') fs',
    n = k * BLOCK_SIZE + r ∧
    slice 0 (Z.to_nat r) buf' = take (Z.to_nat r) (file_block (abs fs) inode k) ∧
    slice (Z.to_nat (k * BLOCK_SIZE)) (Z.to_nat r) buf'
      = slice (Z.to_nat (k * BLOCK_SIZE)) (Z.to_nat r) buf).
Proof.
  intros Hf Hk Hr Hlen. destruct (transfer_tail k r ltac:(lia) Hr) as [E4 E3].
  change (first_block 0) with 0 in *. unfold read_blocks. apply wp_bind.
  change (first_block 0) with 0. rewrite E3.
  assert (∀ i, length (file_block (abs fs) inode i) = 512%nat) as Hl512.
  { intros i. unfold file_block. destruct (_ =? 0); [apply length_zero_block|apply length_a_block]. }
  apply (wp_for_range (tail_inv fs inode F k r buf)); [lia| | |].
  - split_and!; [done|done|done|apply stack_len|done|lia].
  - intros i [b tmp] s Hi (Hs & Hfb & Hlb & Hlt & Hrest & _). simpl in *.
    unfold read_step, slice_a, slice_b. rewrite E3, E4.
    change (first_block_offset 0) with 0. rewrite andb_false_r. simpl. rewrite ?Z.add_0_l.
    unfold BLOCK_SIZE in Hr, Hlen. rewrite (proj2 (Z.eqb_neq r BLOCK_SIZE)) by (unfold BLOCK_SIZE; lia).
    rewrite andb_true_r. destruct (Z.eqb_spec i k) as [->|Hne].
    + rewrite (proj2 (Z.eqb_neq r BLOCK_SIZE)) by (unfold BLOCK_SIZE; lia). simpl.
      wp_apply (block_read_ok_file s inode F k); [done|lia|done|].
      intros ? s1 (-> & Hs1 & Habs1 & Hfb1). simpl. rewrite Hfb by lia.
      rewrite Z.sub_0_r. change (Z.to_nat 0) with 0%nat.
      assert (length (slice 0 (Z.to_nat r) (file_block (abs fs) inode k)) = Z.to_nat r) as Hls.
      { rewrite length_slice; [done|]. rewrite Hl512. lia. }
      assert (in_buffer b 0 (Z.of_nat (Z.to_nat r)) = true) as Hin.
      { unfold in_buffer. apply andb_true_iff. split; apply Z.leb_le; lia. }
      unfold store. rewrite Hls, Hin. wp_pure.
      split_and!; [done|intros; rewrite Hfb1; auto| | | |].
      * simpl. rewrite length_splice by (rewrite Hls; lia). done.
      * apply Hl512.
      * intros m Hm. simpl. rewrite lookup_splice_out by (rewrite ?Hls; unfold BLOCK_SIZE in *; lia).
        by apply Hrest.
      * intros _. simpl. rewrite <-Hls at 1. rewrite slice_splice_eq by (rewrite Hls; lia).
        done.
    + rewrite Z.eqb_refl.
      assert (in_buffer b (i * BLOCK_SIZE) BLOCK_SIZE = true) as Hin.
      { unfold in_buffer, BLOCK_SIZE. apply andb_true_iff. split; apply Z.leb_le; lia. }
      unfold window. rewrite Hin.
      wp_apply (block_read_ok_file s inode F i); [done|lia|apply length_slice; unfold BLOCK_SIZE; lia|].
      intros ? s1 (-> & Hs1 & Habs1 & Hfb1). simpl. rewrite Hfb by lia.
      unfold store. rewrite Hl512. change (Z.of_nat 512) with BLOCK_SIZE. rewrite Hin. wp_pure.
      split_and!; [done|intros; rewrite Hfb1; auto| |done| |intros; lia].
      * simpl. rewrite length_splice by (rewrite Hl512; unfold BLOCK_SIZE; lia). done.
      * intros m Hm. simpl.
        rewrite lookup_splice_out by (rewrite ?Hl512; unfold BLOCK_SIZE in *; lia). by apply Hrest.
  - intros [b tmp] s (Hs & Hfb & Hlb & Hlt & Hrest & Htail). wp_pure. simpl in *.
    split_and!.
    + apply int32_small. unfold BLOCK_SIZE in *. change file_blocks with 76 in Hk. lia.
    + by apply Htail.
    + apply slice_ext. intros m Hm. apply Hrest. lia.
Qed.

End transfers.
