(* ===== verification/FsTheorems.v ===== *)
(** * Properties of fs.c: inodes, blocks and files

    The theorems about the inode table, the allocator and the blocks of files,
    each with an instance on the small file system of Testbed.v. *)

From S2P Require Export Testbed.

(** ** The inode table *)
Inductive inode_op :=
  | ReadInode (n : Z)
  | WriteInode (i : sfs_fs_inode).

Section table.
  Context `{Env}.

Fixpoint run_inode_ops (ops : list inode_op) : M filesystem (list (option sfs_fs_inode)) :=
  match ops with
  | [] => mret []
  | ReadInode n :: ops =>
      r ← sfs_fs_read_inode n; rs ← run_inode_ops ops; mret (r :: rs)
  | WriteInode i :: ops =>
      r ← sfs_fs_write_inode i; rs ← run_inode_ops ops;
      mret ((if r =? 0 then Some i else None) :: rs)
  end.

End table.

(** The same operations on the abstract table. *)
Fixpoint spec_inode_ops (ops : list inode_op) (a : fs_abs) : list (option sfs_fs_inode) * fs_abs :=
  match ops with
  | [] => ([], a)
  | ReadInode n :: ops =>
      let '(rs, a') := spec_inode_ops ops a in (Some (a_inode a n) :: rs, a')
  | WriteInode i :: ops =>
      let '(rs, a') := spec_inode_ops ops (upd_inode i a) in (Some i :: rs, a')
  end.

Definition inode_op_ok (sb : sfs_fs_superblock) (op : inode_op) : Prop :=
  match op with
  | ReadInode n => valid_inumber sb n
  | WriteInode i => valid_inumber sb (i_inumber i) ∧ inode_ok i = true
  end.

Lemma spec_inode_ops_equiv ops a a' sb :
  a ≡ a' → a_sb a = sb → Forall (inode_op_ok sb) ops →
  (spec_inode_ops ops a).1 = (spec_inode_ops ops a').1 ∧
  (spec_inode_ops ops a).2 ≡ (spec_inode_ops ops a').2.
Proof.
  intros Ha Hsb Hops. revert a a' Ha Hsb. induction Hops as [|op ops Hop Hops IH]; intros a a' Ha Hsb;
    [done|].
  destruct op as [n|i]; simpl in *.
  - destruct (IH a a' Ha Hsb) as [IH1 IH2].
    destruct (spec_inode_ops ops a), (spec_inode_ops ops a'); simpl in *. split; [|done].
    f_equal; [|done]. f_equal. apply Ha. by rewrite Hsb.
  - destruct (IH (upd_inode i a) (upd_inode i a')) as [IH1 IH2]; [by rewrite Ha|done|].
    destruct (spec_inode_ops ops (upd_inode i a)), (spec_inode_ops ops (upd_inode i a')).
    simpl in *. by split; [f_equal|].
Qed.

Section table_theorems.
  Context `{Env, !ReliableIO}.

(** C8: the write-back cache of inodes is invisible.  Every sequence of reads
    and writes of inodes of the table returns what it returns on a plain table
    of inodes and leaves the same table, whatever block was cached, dirty or
    not; no other block and no member of the superblock changes. *)
Theorem inode_table_refinement fs ops :
  fs_ok fs → Forall (inode_op_ok (superblock fs)) ops →
  ∃ fs', run_inode_ops ops fs = Done (spec_inode_ops ops (abs fs)).1 fs' ∧
         abs fs' ≡ (spec_inode_ops ops (abs fs)).2 ∧ fs_ok fs'.
Proof.
  intros Hok Hops. remember (superblock fs) as sb eqn:Hsb. revert fs Hok Hsb.
  induction Hops as [|op ops Hop Hops IH]; intros fs Hok Hsb; [by exists fs|].
  destruct op as [n|i]; simpl in Hop |- *; rewrite Hsb in Hop.
  - destruct (proj1 (wp_iff _ _ _) (read_inode_spec fs n Hok Hop))
      as (r & fs1 & Hrun & -> & Hok1 & Habs1).
    assert (superblock fs1 = sb) as Hsb1 by (rewrite Hsb; apply Habs1).
    destruct (IH fs1 Hok1 (eq_sym Hsb1)) as (fs' & Hrun' & Habs' & Hok').
    destruct (spec_inode_ops_equiv ops _ _ sb Habs1 Hsb1 Hops) as [E1 E2].
    destruct (spec_inode_ops ops (abs fs)) as [rs a'] eqn:E. simpl in *.
    exists fs'. rewrite (bind_done _ _ _ _ _ Hrun), (bind_done _ _ _ _ _ Hrun'), E1.
    split; [done|]. by rewrite Habs'.
  - destruct Hop as [Hn Hi].
    destruct (proj1 (wp_iff _ _ _) (write_inode_spec fs i Hok Hn Hi))
      as (r & fs1 & Hrun & -> & Hok1 & Habs1).
    assert (superblock fs1 = sb) as Hsb1 by (rewrite Hsb; apply Habs1).
    destruct (IH fs1 Hok1 (eq_sym Hsb1)) as (fs' & Hrun' & Habs' & Hok').
    destruct (spec_inode_ops_equiv ops _ _ sb Habs1 Hsb1 Hops) as [E1 E2].
    destruct (spec_inode_ops ops (upd_inode i (abs fs))) as [rs a'] eqn:E. simpl in *.
    exists fs'. rewrite (bind_done _ _ _ _ _ Hrun), (bind_done _ _ _ _ _ Hrun'), E1.
    split; [done|]. by rewrite Habs'.
Qed.

End table_theorems.

Definition demo_ops : list inode_op :=
  [ReadInode 1; WriteInode (set_links 9 demo_file); ReadInode 2; ReadInode 3].

Lemma inode_table_refinement_witness :
  ∃ fs', run_inode_ops (H := demo_env) demo_ops demo_fs
           = Done (spec_inode_ops demo_ops (abs demo_fs)).1 fs' ∧
         abs fs' ≡ (spec_inode_ops demo_ops (abs demo_fs)).2 ∧ fs_ok fs'.
Proof.
  apply (inode_table_refinement (H := demo_env) demo_fs demo_ops demo_fs_ok).
  repeat (constructor; [try split; done|]). constructor.
Defined.

(** ** Closing and opening again *)

#[export] Instance demo_env_ok : EnvOk (H := demo_env).
Proof. split; try done; apply length_zero_block. Qed.

#[export] Instance dirty_env_ok : EnvOk (H := dirty_env).
Proof. split; try done; apply length_zero_block. Qed.

Section open_close.
  Context `{Env, !ReliableIO, !ReliableMalloc, !EnvOk}.

Lemma close_ok fs : fs_ok fs → sfs_fs_close fs = Done 0 (saved (flushed fs)).
Proof.
  intros Hok. unfold sfs_fs_close. run by (by apply write_back_ok).
  by run by (by apply save_superblock_ok, fs_ok_flushed).
Qed.

(** A formatted disk: block 0 holds a superblock with the signature. *)
Definition formatted (w : world) (sb : sfs_fs_superblock) : Prop :=
  on_disk w 0 ∧ wblk w 0 = superblock_block sb ∧ c_ok superblock_c sb = true ∧
  sb_signature sb = SFS_FILE_TYPE_SIGNATURE.

Lemma open_formatted_ok maybe_format w sb :
  formatted w sb →
  sfs_fs_open_disk maybe_format w =
    Done (Some (sb, InodeCache env_heap_dirty 0 env_heap_data))
         (tick_io (World (w_size w) (w_blocks w) (w_ios w) (w_times w) (S (w_mallocs w)))).
Proof.
  intros (Hd & Hb & Hsb & Hsig). unfold sfs_fs_open_disk, malloc_.
  erewrite bind_done by reflexivity. rewrite reliable_malloc. simpl.
  set (w1 := World _ _ _ _ _).
  assert (wblk w1 0 = superblock_block sb) as Hb1 by apply Hb.
  run by (apply (block_read_ok 0 env_stack_block w1); [exact Hd|apply stack_len]).
  rewrite Hb1, get_superblock_block by done.
  rewrite bool_decide_eq_true_2 by done. run. by rewrite time_ok.
Qed.

Lemma close_formatted fs :
  fs_ok fs → sb_signature (superblock fs) = SFS_FILE_TYPE_SIGNATURE →
  formatted (disk (saved (flushed fs))) (superblock fs).
Proof.
  intros Hok Hsig. pose proof (fs_ok_flushed _ Hok) as Hokf.
  pose proof (ok_sb _ Hok) as Hsb. pose proof (ok_table _ Hok). pose proof (ok_blocks _ Hok).
  split_and!; [|simpl|done|done].
  - apply (on_disk_block _ _ (fs_ok_saved _ Hokf)). simpl. rewrite superblock_flushed. lia.
  - rewrite wblk_set_eq, superblock_flushed; [done|].
    apply length_superblock_block. by rewrite superblock_flushed.
Qed.

(** Opening the disk that closing leaves: the same superblock, inodes (those
    only in the cache included) and data blocks. *)
Lemma reopen_spec fs w maybe_format :
  fs_ok fs → env_heap_dirty = false →
  w_blocks w = w_blocks (disk (saved (flushed fs))) → w_size w = w_size (disk (saved (flushed fs))) →
  ∃ w', sfs_fs_open_disk maybe_format w = Done (Some (superblock fs, InodeCache false 0 env_heap_data)) w' ∧
    let fs' := Filesystem w' (superblock fs) (InodeCache false 0 env_heap_data) in
    abs fs' ≡ abs fs ∧ fs_ok fs'.
Proof.
  intros Hok Hclean Hwb Hws. pose proof (ok_table _ Hok) as Ht.
  pose proof (fs_ok_saved _ (fs_ok_flushed _ Hok)) as Hoks.
  assert (formatted w (superblock fs)) as Hfmt.
  { destruct (close_formatted fs Hok (ok_signature _ Hok)) as (Hd & Hb & Hsb & Hsig).
    split; [unfold on_disk in *; by rewrite Hws|]. split; [by rewrite (wblk_ext _ _ _ Hwb)|done]. }
  eexists. split; [rewrite (open_formatted_ok maybe_format w _ Hfmt), Hclean; reflexivity|]. split.
  - split; [done|]. split; simpl.
    + intros n Hn. rewrite <-(inode_at_flushed fs n Hok) by (destruct Hn; lia).
      pose proof (inode_block_range _ _ Hn).
      unfold view at 1; cbn [icache block_number disk].
      rewrite (proj2 (Z.eqb_neq 0 (inode_block n))) by lia.
      rewrite (inode_at_disk_ext _ (disk (saved (flushed fs)))) by exact Hwb.
      etrans; [apply (inode_at_disk_set_blk _ _ _ (superblock fs)); [done|lia]|done].
    + intros b Hb. pose proof (data_block_range _ _ Hb ltac:(lia)).
      rewrite <-(block_at_flushed fs b Hok Hb).
      rewrite (wblk_ext _ (disk (saved (flushed fs)))) by exact Hwb.
      etrans; [apply wblk_set_ne; lia|done].
  - destruct Hoks. simpl in *. rewrite superblock_flushed in *. rewrite <-Hws in *.
    split; simpl; try done; [apply heap_len|lia].
Qed.

(** C37: the [dirty] flag of the inode cache is not initialised when a disk is
    opened.  When the allocated memory happens to read as true there, the first
    inode the program reads makes it write the uninitialised cache to block 0,
    and the superblock on the disk is gone. *)
Theorem uninitialised_cache_destroys_superblock w sb maybe_format :
  formatted w sb → env_heap_dirty = true →
  0 < sb_inode_table_blocks sb < 2 ^ 31 → on_disk w 1 →
  ∃ cache w1 r fs',
    sfs_fs_open_disk maybe_format w = Done (Some (sb, cache)) w1 ∧
    sfs_fs_read_inode 1 (Filesystem w1 sb cache) = Done r fs' ∧
    wblk (disk fs') 0 = env_heap_data.
Proof.
  intros Hw Hdirty Ht Hd1. pose proof Hw as (Hd0 & _).
  eexists _, _, _, _. split; [by apply open_formatted_ok|].
  set (w1 := tick_io _). split.
  - unfold sfs_fs_read_inode. run. rewrite Hdirty. unfold write_back. run. run. change (u64 0) with 0. simpl.
    run by (apply at_disk_done, block_write_ok; [exact Hd0|apply heap_len]).
    run. run by (apply at_disk_done, block_read_ok; [exact Hd1|apply heap_len]).
    reflexivity.
  - simpl. rewrite wblk_tick. apply wblk_set_eq, heap_len.
Qed.

End open_close.

Lemma demo_formatted : formatted (disk (saved demo_fs)) demo_sb.
Proof.
  split_and!; [|by apply wblk_set_eq|by vm_compute|done].
  split_and!; by vm_compute.
Qed.

Lemma uninitialised_cache_witness :
  ∃ cache w1 r fs',
    sfs_fs_open_disk (H := dirty_env) true (disk (saved demo_fs)) = Done (Some (demo_sb, cache)) w1 ∧
    sfs_fs_read_inode (H := dirty_env) 1 (Filesystem w1 demo_sb cache) = Done r fs' ∧
    wblk (disk fs') 0 = zero_block.
Proof.
  apply (uninitialised_cache_destroys_superblock (H := dirty_env) _ _ true demo_formatted eq_refl).
  - simpl; lia.
  - split_and!; by vm_compute.
Defined.

(** ** I/O errors *)
Section io_errors.
  Context `{Env}.

(** C40: a failed read of a block of inodes is answered with success the next
    time.  When the read fails [sfs_fs_read_inode] returns -1, but the cache
    already claims to hold the block, so the same call again returns 0 without
    any I/O, and the inode is the first bytes of a zeroed block. *)
Theorem failed_inode_read_poisons_cache fs n :
  valid_inumber (superblock fs) n → sb_inode_table_blocks (superblock fs) < 2 ^ 31 →
  0 ≤ block_number (icache fs) < 2 ^ 31 → block_number (icache fs) ≠ inode_block n →
  dirty (icache fs) = false → env_io (w_ios (disk fs)) = IoError →
  ∃ fs1, sfs_fs_read_inode n fs = Done None fs1 ∧
         sfs_fs_read_inode n fs1 = Done (Some (get_at inode_c (inode_pos n) zero_block)) fs1.
Proof.
  intros Hn Ht Hb Hne Hd Hio. pose proof (inode_block_range _ _ Hn).
  unfold sfs_fs_read_inode.
  rewrite bind_assert by (apply Z.ltb_lt; destruct Hn; lia). run.
  rewrite u64_small, (proj2 (Z.eqb_neq _ _) Hne) by lia. simpl.
  unfold write_back. run. rewrite Hd. run. run. simpl.
  rewrite int32_small by lia.
  run by (apply at_disk_done, block_read_error, Hio).
  eexists. split; [reflexivity|].
  rewrite bind_assert by (apply Z.ltb_lt; destruct Hn; lia). run.
  rewrite u64_small, Z.eqb_refl by lia. do 3 run. by rewrite bind_access by apply inode_pos_inside.
Qed.

(** A failed write of an inode destroys the inodes around it.  When the
    cache holds a dirty block of the table, it is written back, and then the
    read of the inode's own block fails, [sfs_fs_write_inode] returns -1 with
    a zeroed block cached as that block and still marked dirty, which
    [sfs_fs_close] (reporting success) writes over the block on the disk. *)
Lemma failed_inode_write_erases_block fs i :
  fs_ok fs → valid_inumber (superblock fs) (i_inumber i) →
  dirty (icache fs) = true → block_number (icache fs) ≠ inode_block (i_inumber i) →
  let k := w_ios (disk fs) in
  env_io k = IoOk → env_io (S k) = IoError → env_io (S (S k)) = IoOk → env_io (S (S (S k))) = IoOk →
  ∃ fs1 fs2, sfs_fs_write_inode i fs = Done (-1) fs1 ∧ sfs_fs_close fs1 = Done 0 fs2 ∧
    wblk (disk fs2) (inode_block (i_inumber i)) = zero_block.
Proof.
  intros Hok Hn Hd Hne k E0 E1 E2 E3. pose proof (inode_block_range _ _ Hn).
  pose proof (ok_table _ Hok). pose proof (ok_range _ Hok). pose proof (ok_blocks _ Hok).
  unfold sfs_fs_write_inode.
  rewrite bind_assert by (apply Z.ltb_lt; destruct Hn; lia). run.
  rewrite u64_small, (proj2 (Z.eqb_neq _ _) Hne) by lia. simpl.
  run by (apply write_back_run; [done|exact E0]). run.
  set (fs1 := set_icache _ (flushed fs)).
  assert (w_ios (disk fs1) = S k) as Hk by (unfold fs1, flushed; by rewrite Hd).
  run by (apply at_disk_done, block_read_error; by rewrite Hk). simpl.
  eexists _, _. split; [reflexivity|]. rewrite Hd, int32_small by lia.
  set (fs2 := set_icache (InodeCache true _ zero_block) _).
  assert (fs_ok fs2) as Hok2.
  { destruct (fs_ok_flushed _ Hok). rewrite superblock_flushed in *.
    split; simpl; rewrite ?superblock_flushed; try done; lia. }
  assert (w_ios (disk fs2) = S (S k)) as Hk2 by (simpl; by rewrite <-Hk).
  assert (w_ios (disk (flushed fs2)) = S (S (S k))) as Hk3 by (simpl; by rewrite <-Hk).
  split.
  - unfold sfs_fs_close. run by (apply write_back_run; [done|by rewrite Hk2]).
    by run by (apply save_superblock_io;
      [by rewrite Hk3|apply (on_disk_block _ _ (fs_ok_flushed _ Hok2)); simpl; rewrite ?superblock_flushed; lia
      |apply (ok_sb _ (fs_ok_flushed _ Hok2))]).
  - simpl. rewrite wblk_set_ne, wblk_tick by lia. by apply wblk_set_eq.
Qed.

End io_errors.

(** The first I/O call fails. *)
Definition fail_first : Env := env_with (λ n, match n with O => IoError | _ => IoOk end) false.
(** The second one fails. *)
Definition fail_second : Env := env_with (λ n, match n with 1%nat => IoError | _ => IoOk end) false.

Definition just_opened : filesystem := Filesystem demo_disk demo_sb (InodeCache false 0 zero_block).

Lemma failed_inode_read_witness :
  ∃ fs1, sfs_fs_read_inode (H := fail_first) 2 just_opened = Done None fs1 ∧
         sfs_fs_read_inode (H := fail_first) 2 fs1 = Done (Some (get_at inode_c 1 zero_block)) fs1.
Proof. by apply (failed_inode_read_poisons_cache (H := fail_first) just_opened 2). Defined.

(** A table of two blocks, the first of them cached and dirty. *)
Definition two_block_table : filesystem :=
  Filesystem demo_disk (Superblock SFS_FILE_TYPE_SIGNATURE 1000 512 2 6 10 0 0)
    (InodeCache true 1 demo_table).

Lemma failed_inode_write_witness :
  ∃ fs1 fs2,
    sfs_fs_write_inode (H := fail_second) (set_inumber 4 demo_file) two_block_table = Done (-1) fs1 ∧
    sfs_fs_close (H := fail_second) fs1 = Done 0 fs2 ∧ wblk (disk fs2) 2 = zero_block.
Proof.
  apply (failed_inode_write_erases_block (H := fail_second) two_block_table (set_inumber 4 demo_file));
    done.
Defined.
