(* ===== verification/AllocTheorems.v ===== *)
(** * Properties of the allocator of data blocks

    [sfs_fs_allocate_block] and [sfs_fs_free_block] as one state machine: a
    client takes blocks, writes the blocks it holds, reads and writes inodes,
    and gives blocks back, in any order. *)

From S2P Require Export FsTheorems.

Section machine.
  Context `{Env}.

(** A state: the file system, and the blocks the client holds. *)
Inductive alloc_step : relation (filesystem * list Z) :=
  | AllocStep b fs fs' held :
      sfs_fs_allocate_block fs = Done (Some b) fs' →
      alloc_step (fs, held) (fs', b :: held)
  | AllocFullStep fs fs' held :
      sfs_fs_allocate_block fs = Done None fs' →
      alloc_step (fs, held) (fs', held)
  | FreeStep b r fs fs' l1 l2 :
      sfs_fs_free_block b fs = Done r fs' →
      alloc_step (fs, l1 ++ b :: l2) (fs', l1 ++ l2)
  | WriteStep b blk r fs fs' held :
      b ∈ held → length blk = 512%nat →
      at_disk (block_write b blk) fs = Done r fs' →
      alloc_step (fs, held) (fs', held)
  | ReadInodeStep n r fs fs' held :
      valid_inumber (superblock fs) n →
      sfs_fs_read_inode n fs = Done r fs' →
      alloc_step (fs, held) (fs', held)
  | WriteInodeStep i r fs fs' held :
      valid_inumber (superblock fs) (i_inumber i) → inode_ok i = true →
      sfs_fs_write_inode i fs = Done r fs' →
      alloc_step (fs, held) (fs', held).

End machine.

(** The invariant: what is held and what is free make up the blocks that were
    free at the start. *)
Definition conserves (F0 : list Z) (s : filesystem * list Z) : Prop :=
  fs_ok s.1 ∧ ∃ F, is_free (abs s.1) F ∧ s.2 ++ F ≡ₚ F0.

Section alloc_theorems.
  Context `{Env, !ReliableIO, !EnvOk}.

Lemma alloc_step_conserves F0 s s' :
  NoDup F0 → Forall (data_block (superblock s.1)) F0 →
  conserves F0 s → alloc_step s s' →
  conserves F0 s' ∧ sb_inode_table_blocks (superblock s'.1) = sb_inode_table_blocks (superblock s.1) ∧
  sb_blocks (superblock s'.1) = sb_blocks (superblock s.1).
Proof.
  intros Hnd Hd [Hok (F & Hfree & HF)] Hstep. destruct Hstep; simpl in *.
  - eapply wp_done_inv in H2; [|by apply (allocate_block_spec stack_len _ F)].
    destruct H2 as (Hok' & F' & HF' & Hfree' & Hfr).
    apply frame_geometry in Hfr as (? & ? & _). split; [|done]. split; [done|].
    exists F'. split; [done|]. simpl. by rewrite <-HF, HF', Permutation_middle.
  - eapply wp_done_inv in H2; [|by apply (allocate_block_spec stack_len _ F)].
    destruct H2 as (Hok' & -> & Habs). rewrite <-Habs in Hfree.
    split; [split; [done|by exists []]|]. by rewrite (proj1 Habs : superblock fs' = superblock fs).
  - rewrite <-app_assoc in HF. simpl in HF.
    assert (b ∉ F) as HbF.
    { rewrite <-HF, <-Permutation_middle in Hnd. apply NoDup_cons in Hnd as [Hnd _].
      rewrite !elem_of_app in Hnd. tauto. }
    assert (data_block (superblock fs) b) as Hb.
    { rewrite Forall_forall in Hd. apply Hd. rewrite <-HF. apply elem_of_app. right. left. }
    eapply wp_done_inv in H2; [|by apply (free_block_spec _ F)].
    destruct H2 as (_ & Hok' & Hfree' & Hfr). apply frame_geometry in Hfr as (? & ? & _).
    split; [|done]. split; [done|]. exists (b :: F). split; [done|]. simpl.
    by rewrite <-HF, <-app_assoc, <-(Permutation_middle l2).
  - assert (data_block (superblock fs) b) as Hb.
    { rewrite Forall_forall in Hd. apply Hd. rewrite <-HF. apply elem_of_app. by left. }
    eapply wp_done_inv in H4; [|by apply data_write_spec].
    destruct H4 as (_ & Hok' & Habs).
    split; [|by rewrite (proj1 Habs : superblock fs' = superblock fs)].
    split; [done|]. exists F. split; [|done]. simpl. rewrite Habs.
    apply is_free_upd_block; [|done]. rewrite <-HF in Hnd.
    intros Hin. apply NoDup_app in Hnd as (_ & Hdis & _). by eapply Hdis.
  - eapply wp_done_inv in H3; [|by apply read_inode_spec]. destruct H3 as (_ & Hok' & Habs).
    split; [|by rewrite (proj1 Habs : superblock fs' = superblock fs)].
    split; [done|]. exists F. simpl. by rewrite Habs.
  - eapply wp_done_inv in H4; [|by apply write_inode_spec]. destruct H4 as (_ & Hok' & Habs).
    split; [|by rewrite (proj1 Habs : superblock fs' = superblock fs)].
    split; [done|]. exists F. simpl. rewrite Habs. split; [by apply is_free_upd_inode|done].
Qed.

Lemma alloc_reachable fs0 F0 s :
  fs_ok fs0 → is_free (abs fs0) F0 → rtc alloc_step (fs0, []) s → conserves F0 s.
Proof.
  intros Hok Hfree Hsteps. pose proof Hfree as (Hnd & Hd & _). simpl in Hd.
  assert (conserves F0 (fs0, [])) as H0' by (split; [done|by exists F0]).
  change (superblock fs0) with (superblock (fs0, @nil Z).1) in Hd.
  remember (fs0, []) as s0 eqn:E. clear E Hfree Hok.
  induction Hsteps as [|s1 s2 s3 H12 H23 IH]; [done|].
  destruct (alloc_step_conserves F0 s1 s2 Hnd Hd H0' H12) as (Hc & Ht & Hb).
  apply IH; [|done]. eapply Forall_impl; [exact Hd|].
  intros b. unfold data_block. by rewrite Ht, Hb.
Qed.

(** C11: the allocator neither loses nor duplicates blocks.  In every state
    reachable by allocating, freeing and writing held blocks, and by reading
    and writing inodes, the held and the free blocks together are exactly the
    blocks that were free at the start, so no block is handed out twice. *)
Theorem allocator_conserves_blocks fs0 F0 fs held :
  fs_ok fs0 → is_free (abs fs0) F0 → rtc alloc_step (fs0, []) (fs, held) →
  fs_ok fs ∧ NoDup held ∧ ∃ F, is_free (abs fs) F ∧ held ++ F ≡ₚ F0.
Proof.
  intros Hok Hfree Hsteps. pose proof Hfree as (Hnd & _).
  destruct (alloc_reachable _ _ _ Hok Hfree Hsteps) as [Hok' (F & HF & Hp)].
  split; [done|]. split; [|by exists F]. simpl in Hp.
  rewrite <-Hp in Hnd. by apply NoDup_app in Hnd as [? _].
Qed.

(** C23: allocation never fails while a block is left.  In every reachable
    state [sfs_fs_allocate_block] returns; it returns a block that nobody
    holds, or, exactly when every block that was free at the start is held, it
    fails with -1. *)
Theorem allocation_fails_only_when_full fs0 F0 fs held :
  fs_ok fs0 → is_free (abs fs0) F0 → rtc alloc_step (fs0, []) (fs, held) →
  ∃ r fs', sfs_fs_allocate_block fs = Done r fs' ∧
    match r with
    | Some b => b ∈ F0 ∧ (b ∉ held) ∧ ¬ held ≡ₚ F0
    | None => held ≡ₚ F0
    end.
Proof.
  intros Hok Hfree Hsteps. pose proof Hfree as (Hnd & _).
  destruct (alloc_reachable _ _ _ Hok Hfree Hsteps) as [Hok' (F & HF & Hp)]. simpl in *.
  destruct (proj1 (wp_iff _ _ _) (allocate_block_spec stack_len fs F Hok' HF))
    as (r & fs' & Hrun & _ & Hr).
  exists r, fs'. split; [done|]. destruct r as [b|].
  - destruct Hr as (F' & HF' & _). rewrite HF' in Hp. split_and!.
    + rewrite <-Hp. apply elem_of_app. right. left.
    + rewrite <-Hp in Hnd. intros Hin. apply NoDup_app in Hnd as (_ & Hdis & _).
      apply (Hdis b Hin). left.
    + intros E%Permutation_length. apply Permutation_length in Hp.
      rewrite length_app in Hp. simpl in Hp. lia.
  - destruct Hr as [-> _]. by rewrite app_nil_r in Hp.
Qed.

(** C24: freeing a block always ends and succeeds: whatever the shape of the
    list of index blocks, [sfs_fs_free_block] of a block that is in use returns
    0, the block joins the free ones, and only free blocks change. *)
Theorem free_block_succeeds fs F b :
  fs_ok fs → is_free (abs fs) F → data_block (superblock fs) b → b ∉ F →
  ∃ fs', sfs_fs_free_block b fs = Done 0 fs' ∧
    is_free (abs fs') (b :: F) ∧ frame (b :: F) (abs fs) (abs fs') ∧ fs_ok fs'.
Proof.
  intros Hok Hfree Hb HbF.
  destruct (proj1 (wp_iff _ _ _) (free_block_spec fs F b Hok Hfree Hb HbF))
    as (r & fs' & Hrun & -> & ? & ? & ?). by exists fs'.
Qed.

End alloc_theorems.

(** Two allocations and a free on the small file system: blocks 4 and 5 are
    taken, 4 comes back. *)
Definition demo_fs1 : filesystem := demo_after (sfs_fs_allocate_block (H := demo_env)) demo_fs.
Definition demo_fs2 : filesystem := demo_after (sfs_fs_allocate_block (H := demo_env)) demo_fs1.
Definition demo_fs3 : filesystem := demo_after (sfs_fs_free_block (H := demo_env) 4) demo_fs2.

Lemma demo_alloc_steps : rtc (alloc_step (H := demo_env)) (demo_fs, []) (demo_fs3, [5]).
Proof.
  apply rtc_l with (demo_fs1, [4]); [apply AllocStep; by vm_compute|].
  apply rtc_l with (demo_fs2, [5; 4]); [apply AllocStep; by vm_compute|].
  apply rtc_once. apply (FreeStep (H := demo_env) 4 0 demo_fs2 demo_fs3 [5] []). by vm_compute.
Qed.

Lemma allocator_conserves_blocks_witness :
  fs_ok demo_fs3 ∧ NoDup [5] ∧ ∃ F, is_free (abs demo_fs3) F ∧ [5] ++ F ≡ₚ demo_free.
Proof.
  exact (allocator_conserves_blocks (H := demo_env) _ _ _ _ demo_fs_ok demo_is_free demo_alloc_steps).
Defined.

Lemma allocation_fails_only_when_full_witness :
  ∃ r fs', sfs_fs_allocate_block (H := demo_env) demo_fs3 = Done r fs' ∧
    match r with
    | Some b => b ∈ demo_free ∧ (b ∉ [5]) ∧ ¬ [5] ≡ₚ demo_free
    | None => [5] ≡ₚ demo_free
    end.
Proof.
  exact (allocation_fails_only_when_full (H := demo_env) _ _ _ _ demo_fs_ok demo_is_free demo_alloc_steps).
Defined.

Lemma free_block_succeeds_witness :
  ∃ fs', sfs_fs_free_block (H := demo_env) 7 demo_fs = Done 0 fs' ∧
    is_free (abs fs') (7 :: demo_free) ∧ frame (7 :: demo_free) (abs demo_fs) (abs fs') ∧ fs_ok fs'.
Proof.
  apply (free_block_succeeds (H := demo_env) demo_fs demo_free 7 demo_fs_ok demo_is_free).
  - split; by vm_compute.
  - apply (bool_decide_unpack _). by vm_compute.
Defined.
