(* ===== verification/FileTheorems.v ===== *)
(** * Properties of the blocks of files

    A file behaves as an array of 76 blocks: the refinement for sequences of
    block reads and writes, the separation of files, the errors, and what
    happens where the code does not keep the invariant. *)

From S2P Require Export AllocTheorems.

Inductive file_op :=
  | ReadBlock (i : Z)
  | WriteBlock (i : Z) (blk : list byte).

Section file_ops.
  Context `{Env}.

(** The inode is the caller's object, changed in place by writes. *)
Fixpoint run_file_ops (inode : sfs_fs_inode) (ops : list file_op)
    : M filesystem (list (option (list byte)) * sfs_fs_inode) :=
  match ops with
  | [] => mret ([], inode)
  | ReadBlock i :: ops =>
      '(r, blk) ← sfs_fs_inode_block_read inode i zero_block;
      '(rs, inode) ← run_file_ops inode ops;
      mret ((if r =? 0 then Some blk else None) :: rs, inode)
  | WriteBlock i blk :: ops =>
      '(r, inode) ← sfs_fs_inode_block_write inode i blk;
      '(rs, inode) ← run_file_ops inode ops;
      mret ((if r =? 0 then Some blk else None) :: rs, inode)
  end.

End file_ops.

(** The same on an array of blocks. *)
Fixpoint spec_file_ops (f : Z → list byte) (ops : list file_op)
    : list (option (list byte)) * (Z → list byte) :=
  match ops with
  | [] => ([], f)
  | ReadBlock i :: ops => let '(rs, f') := spec_file_ops f ops in (Some (f i) :: rs, f')
  | WriteBlock i blk :: ops =>
      let '(rs, f') := spec_file_ops (λ j, if j =? i then blk else f j) ops in
      (Some blk :: rs, f')
  end.

Fixpoint writes (ops : list file_op) : nat :=
  match ops with
  | [] => 0
  | ReadBlock _ :: ops => writes ops
  | WriteBlock _ _ :: ops => S (writes ops)
  end.

Definition file_op_ok (inode : sfs_fs_inode) (op : file_op) : Prop :=
  match op with
  | ReadBlock i => 0 ≤ i < file_blocks
  | WriteBlock i blk =>
      0 ≤ i < file_blocks ∧ (i < SFS_NDIR_BLOCKS ∨ bp inode SFS_IND_BLOCK ≠ 0) ∧
      length blk = 512%nat
  end.

Lemma spec_file_ops_ext ops f g inode :
  Forall (file_op_ok inode) ops → (∀ j, 0 ≤ j < file_blocks → f j = g j) →
  (spec_file_ops f ops).1 = (spec_file_ops g ops).1 ∧
  ∀ j, 0 ≤ j < file_blocks → (spec_file_ops f ops).2 j = (spec_file_ops g ops).2 j.
Proof.
  intros Hops. revert f g. induction Hops as [|op ops Hop Hops IH]; intros f g Hfg; [done|].
  destruct op as [i|i blk]; simpl in *.
  - destruct (IH f g Hfg) as [E1 E2].
    destruct (spec_file_ops f ops), (spec_file_ops g ops); simpl in *.
    by rewrite E1, Hfg.
  - destruct (IH (λ j, if j =? i then blk else f j) (λ j, if j =? i then blk else g j)) as [E1 E2].
    { intros j Hj. destruct (j =? i); auto. }
    destruct (spec_file_ops _ ops), (spec_file_ops _ ops); simpl in *. by rewrite E1.
Qed.

Section file_theorems.
  Context `{Env, !ReliableIO, !EnvOk}.

(** C9: a file is an array of blocks.  On a well-formed file every sequence of
    block reads and writes (directly pointed to or through the indirect block)
    that the free blocks suffice for succeeds, every read returns what the last
    write to that block stored, or zeros in a hole, and the inode table holds
    the inode the caller ends with. *)
Theorem file_blocks_refinement fs inode F ops :
  file_state fs inode F → Forall (file_op_ok inode) ops → (writes ops ≤ length F)%nat →
  ∃ inode' fs' F',
    run_file_ops inode ops fs = Done ((spec_file_ops (file_block (abs fs) inode) ops).1, inode') fs' ∧
    (∀ j, 0 ≤ j < file_blocks →
      file_block (abs fs') inode' j = (spec_file_ops (file_block (abs fs) inode) ops).2 j) ∧
    file_state fs' inode' F'.
Proof.
  intros Hf Hops. revert fs inode F Hf Hops.
  induction ops as [|op ops IH]; intros fs inode F Hf Hops Hlen; [by exists inode, fs, F|].
  apply Forall_cons in Hops as [Hop Hops]. destruct op as [i|i blk]; simpl in *.
  - destruct (proj1 (wp_iff _ _ _) (block_read_ok_file _ _ _ _ zero_block Hf Hop length_zero_block))
      as (r & fs1 & Hrun & -> & Hf1 & _ & Hb).
    destruct (IH fs1 inode F Hf1 Hops ltac:(lia)) as (inode' & fs' & F' & Hrun' & Hb' & Hf').
    destruct (spec_file_ops_ext _ _ _ _ Hops Hb) as [E1 E2].
    exists inode', fs', F'. rewrite (bind_done _ _ _ _ _ Hrun). simpl.
    rewrite (bind_done _ _ _ _ _ Hrun'). simpl. rewrite E1.
    destruct (spec_file_ops (file_block (abs fs) inode) ops) as [rs f']; simpl in *.
    split_and!; [done| |done]. intros. rewrite <-E2; auto.
  - destruct Hop as (Hi & Hcase & Hblk).
    assert (F ≠ []) as HF by (intros ->; simpl in *; lia).
    destruct (proj1 (wp_iff _ _ _) (block_write_ok_file _ _ _ _ blk Hf Hi Hcase Hblk (or_introl HF)))
      as ([r inode1] & fs1 & Hrun & -> & F1 & Hf1 & Hl & _ & Hind & _ & _ & _ & _ & Hb).
    assert (Forall (file_op_ok inode1) ops) as Hops1.
    { eapply Forall_impl; [exact Hops|]. intros [|]; simpl; [done|]. by rewrite Hind. }
    destruct (IH fs1 inode1 F1 Hf1 Hops1 ltac:(lia)) as (inode' & fs' & F' & Hrun' & Hb' & Hf').
    destruct (spec_file_ops_ext _ _ _ _ Hops1 Hb) as [E1 E2].
    exists inode', fs', F'. rewrite (bind_done _ _ _ _ _ Hrun). simpl.
    rewrite (bind_done _ _ _ _ _ Hrun'). simpl. rewrite E1.
    destruct (spec_file_ops (λ j, _) ops) as [rs f']; simpl in *.
    split_and!; [done| |done]. intros. rewrite <-E2; auto.
Qed.

(** No block of a file is beyond the single indirection. *)
Lemma block_ops_beyond fs inode i buf :
  file_blocks ≤ i →
  sfs_fs_inode_block_read inode i buf fs = Done (-1, buf) fs ∧
  sfs_fs_inode_block_write inode i buf fs = Done (-1, inode) fs.
Proof.
  intros Hi. change file_blocks with 76 in Hi. unfold sfs_fs_inode_block_read, sfs_fs_inode_block_write, block_for_write.
  rewrite (proj2 (Z.ltb_ge i SFS_NDIR_BLOCKS)) by (change SFS_NDIR_BLOCKS with 12; lia).
  rewrite (proj2 (Z.ltb_ge i (SFS_NDIR_BLOCKS + SFS_NIND_BLOCKS))) by exact Hi. by split.
Qed.

Section pointers.
  Context (fs : filesystem) (inode : sfs_fs_inode) (i : Z) (buf : list byte).
  Context (Hok : fs_ok fs) (Hi : 0 ≤ i < file_blocks) (Hbuf : length buf = 512%nat).
  Context (Hind : bp inode SFS_IND_BLOCK ≠ 0 → data_block (superblock fs) (bp inode SFS_IND_BLOCK)).
  Context (Hnz : file_ptr (abs fs) inode i ≠ 0).

Lemma block_read_refused :
  bad_block (superblock fs) (file_ptr (abs fs) inode i) = true →
  ∃ fs', sfs_fs_inode_block_read inode i buf fs = Done (-1, buf) fs' ∧ abs fs' ≡ abs fs.
Proof.
  intros Hbad. enough (wp (sfs_fs_inode_block_read inode i buf) fs (λ r fs', r = (-1, buf) ∧ abs fs' ≡ abs fs)) as Hwp.
  { apply wp_iff in Hwp as (r & fs' & Hrun & -> & Habs). by exists fs'. }
  unfold sfs_fs_inode_block_read. eapply wp_bind_mono; [by apply (read_pointer_spec stack_len)|].
  intros o fs1 (-> & Hok1 & Habs1). rewrite (proj2 (Z.eqb_neq _ _) Hnz). wp_pure.
  rewrite (proj1 Habs1 : superblock fs1 = superblock fs), Hbad. by wp_pure.
Qed.

Lemma block_write_refused :
  bad_block (superblock fs) (file_ptr (abs fs) inode i) = true →
  ∃ fs', sfs_fs_inode_block_write inode i buf fs = Done (-1, inode) fs' ∧ abs fs' ≡ abs fs.
Proof.
  intros Hbad. enough (wp (sfs_fs_inode_block_write inode i buf) fs (λ r fs', r = (-1, inode) ∧ abs fs' ≡ abs fs)) as Hwp.
  { apply wp_iff in Hwp as (r & fs' & Hrun & -> & Habs). by exists fs'. }
  unfold sfs_fs_inode_block_write. eapply wp_bind_mono; [by apply (block_for_write_mapped stack_len)|].
  intros ? fs1 (-> & Hok1 & Habs1). wp_pure. rewrite (proj1 Habs1 : superblock fs1 = superblock fs), Hbad. by wp_pure.
Qed.

Lemma block_write_accepted :
  data_block (superblock fs) (file_ptr (abs fs) inode i) →
  ∃ fs', sfs_fs_inode_block_write inode i buf fs = Done (0, inode) fs' ∧
    abs fs' ≡ upd_block (file_ptr (abs fs) inode i) buf (abs fs).
Proof.
  intros Hd. pose proof (ok_table _ Hok). enough (wp (sfs_fs_inode_block_write inode i buf) fs (λ r fs', r = (0, inode) ∧
    abs fs' ≡ upd_block (file_ptr (abs fs) inode i) buf (abs fs))) as Hwp.
  { apply wp_iff in Hwp as (r & fs' & Hrun & -> & Habs). by exists fs'. }
  unfold sfs_fs_inode_block_write. eapply wp_bind_mono; [by apply (block_for_write_mapped stack_len)|].
  intros ? fs1 (-> & Hok1 & Habs1). wp_pure. pose proof (proj1 Habs1 : superblock fs1 = superblock fs) as Hsb.
  rewrite Hsb, data_block_not_bad by (done || lia).
  wp_apply data_write_spec; [done|by rewrite Hsb|done|]. intros ? fs2 (-> & Hok2 & Habs2). cbn [Z.eqb negb]. rewrite Z.eqb_refl.
  wp_pure. split; [done|]. by rewrite Habs2, Habs1.
Qed.

End pointers.

(** C27: which blocks the block operations refuse.  Logical blocks from 76 on
    are refused with -1 by read and write, from 12 on by remove, and
    [sfs_fs_inode_get_block_number] answers 0 for those.  Below 76, a pointer of
    the file that is not 0, direct or in its indirect block, is accepted exactly
    when it lies behind the inode table and inside the disk: otherwise read and
    write return -1 and leave the buffer, the inode and every inode and block of
    the disk alone; and when it does, they read and write that block. *)
Theorem block_operation_errors fs inode i buf :
  fs_ok fs → length buf = 512%nat →
  (bp inode SFS_IND_BLOCK ≠ 0 → data_block (superblock fs) (bp inode SFS_IND_BLOCK)) →
  let p := file_ptr (abs fs) inode i in
  (file_blocks ≤ i →
     sfs_fs_inode_block_read inode i buf fs = Done (-1, buf) fs ∧
     sfs_fs_inode_block_write inode i buf fs = Done (-1, inode) fs) ∧
  (SFS_NDIR_BLOCKS ≤ i →
     sfs_fs_inode_block_remove inode i fs = Done (-1) fs ∧ sfs_fs_inode_get_block_number inode i fs = Done 0 fs) ∧
  (0 ≤ i < SFS_NDIR_BLOCKS → sfs_fs_inode_get_block_number inode i fs = Done p fs) ∧
  (0 ≤ i < file_blocks → p ≠ 0 → p ≤ sb_inode_table_blocks (superblock fs) ∨ sb_blocks (superblock fs) ≤ p →
     (∃ fs', sfs_fs_inode_block_read inode i buf fs = Done (-1, buf) fs' ∧ abs fs' ≡ abs fs) ∧
     (∃ fs', sfs_fs_inode_block_write inode i buf fs = Done (-1, inode) fs' ∧ abs fs' ≡ abs fs)) ∧
  (0 ≤ i < file_blocks → sb_inode_table_blocks (superblock fs) < p < sb_blocks (superblock fs) →
     (∃ fs', sfs_fs_inode_block_read inode i buf fs = Done (0, a_block (abs fs) p) fs' ∧ abs fs' ≡ abs fs) ∧
     (∃ fs', sfs_fs_inode_block_write inode i buf fs = Done (0, inode) fs' ∧ abs fs' ≡ upd_block p buf (abs fs))).
Proof.
  intros Hok Hbuf Hind p. pose proof (ok_table _ Hok). split_and!.
  - intros Hi. by apply block_ops_beyond.
  - intros Hi. unfold sfs_fs_inode_block_remove, sfs_fs_inode_get_block_number.
    by rewrite !(proj2 (Z.leb_le _ _) Hi).
  - intros Hi. unfold sfs_fs_inode_get_block_number, p, file_ptr.
    by rewrite (proj2 (Z.leb_gt _ _)), (proj2 (Z.ltb_lt _ _)), pointer_at_direct by lia.
  - intros Hi Hnz Hout. assert (bad_block (superblock fs) p = true) as Hbad by (apply outside_bad; [done|lia]).
    split.
    + by apply block_read_refused.
    + by apply block_write_refused.
  - intros Hi Hin. assert (p ≠ 0) as Hnz by lia. split.
    + destruct (proj1 (wp_iff _ _ _) (block_read_spec stack_len fs inode i buf Hok Hi Hbuf Hind (λ _, Hin)))
        as (r & fs' & Hrun & -> & _ & Habs). exists fs'. split; [|done]. rewrite Hrun. unfold file_block. fold p.
      by rewrite (proj2 (Z.eqb_neq _ _) Hnz).
    + by apply block_write_accepted.
Qed.

(** Writing to a hole of a file on a full disk fails with -1 and changes
    nothing. *)
Lemma write_to_full_disk_fails fs inode i blk :
  file_state fs inode [] → 0 ≤ i < file_blocks →
  i < SFS_NDIR_BLOCKS ∨ bp inode SFS_IND_BLOCK ≠ 0 → length blk = 512%nat →
  file_ptr (abs fs) inode i = 0 →
  ∃ fs', sfs_fs_inode_block_write inode i blk fs = Done (-1, inode) fs' ∧ abs fs' ≡ abs fs.
Proof.
  intros [Hok Hfree Hwf Hio Hvi Hst] Hi Hcase Hblk Hz.
  destruct (proj1 (wp_iff _ _ _)
    (block_write_spec stack_len fs inode [] i blk Hok Hfree Hwf Hio Hvi Hi Hcase Hblk))
    as ([r inode'] & fs' & Hrun & Hok' & Hpost).
  destruct r as [|r|r]; [|by destruct Hpost|].
  2: { destruct Hpost as ([= ->] & _ & _ & -> & ?). by exists fs'. }
  destruct Hpost as [F' Hw]. pose proof (wr_alloc _ _ _ _ _ _ _ _ Hw) as HF.
  rewrite Hz in HF. by apply Permutation_nil_l in HF.
Qed.

(** C39: a new indirect block is not cleared.  Its 64 numbers are whatever the
    block held before, so the first write to a logical block behind it is made
    to the data block a stale number names, whoever that block belongs to,
    and still reports success. *)
Theorem stale_indirect_block_is_followed fs fs1 inode F i blk b w :
  file_state fs inode F → SFS_NDIR_BLOCKS ≤ i < file_blocks → length blk = 512%nat →
  bp inode SFS_IND_BLOCK = 0 →
  sfs_fs_allocate_block fs = Done (Some b) fs1 →
  index_get (Z.to_nat (i - SFS_NDIR_BLOCKS)) (a_block (abs fs) b) = w →
  data_block (superblock fs) w →
  ∃ inode' fs', sfs_fs_inode_block_write inode i blk fs = Done (0, inode') fs' ∧
    a_block (abs fs') w = blk.
Proof.
  intros [Hok Hfree Hwf Hio Hvi Hst] Hi Hblk Hib Halloc Hw Hdw.
  pose proof (allocate_block_spec stack_len fs F Hok Hfree) as Ha.
  eapply wp_done_inv in Ha; [|exact Halloc]. destruct Ha as (Hok1 & F' & HF & Hfree1 & Hfr).
  assert (b ∈ F) as HbF by (rewrite HF; left).
  pose proof (free_data_block _ _ _ Hfree HbF) as Hb.
  pose proof (data_block_range _ _ Hb (proj1 (ok_table _ Hok))) as Hbr.
  pose proof (data_block_range _ _ Hdw (proj1 (ok_table _ Hok))) as Hwr. simpl in Hbr, Hwr.
  pose proof (ok_size _ Hok) as Hsz. pose proof (ok_table _ Hok) as Ht. unfold BLOCK_SIZE in Hsz.
  assert (a_block (abs fs1) b = a_block (abs fs) b) as Hbb.
  { apply Hfr; [exact Hb|exact (free_cons_notin _ _ _ _ Hfree HF)]. }
  enough (wp (sfs_fs_inode_block_write inode i blk) fs
            (λ '(r, _) fs', r = 0 ∧ a_block (abs fs') w = blk)) as Hwp.
  { apply wp_iff in Hwp as ([r inode'] & fs' & Hrun & -> & Hx). by exists inode', fs'. }
  unfold sfs_fs_inode_block_write, block_for_write.
  change file_blocks with 76 in Hi. change SFS_NDIR_BLOCKS with 12 in *. change SFS_NIND_BLOCKS with 64.
  rewrite (proj2 (Z.ltb_ge i 12)), (proj2 (Z.ltb_lt i (12 + 64))) by lia.
  rewrite pointer_at_ind. wp_pure. rewrite Hib. simpl.
  apply wp_bind, wp_bind. eapply wp_done; [exact Halloc|]. cbv beta iota.
  wp_apply time_spec; [done|]. intros t fs2 (Ht' & Hok2 & Habs2).
  pose proof (frame_valid _ _ _ (i_inumber inode) Hfr) as Hvi1.
  assert (superblock fs2 = superblock fs1) as Hsb2 by exact (f_equal a_sb Habs2).
  wp_apply write_inode_spec; [done| |apply inode_ok_set_change_time, Ht'; by apply inode_ok_set_bp; [|lia]|].
  { rewrite Hsb2. by apply Hvi1. }
  intros ? fs3 (-> & Hok3 & Habs3). simpl. wp_pure. simpl.
  assert (superblock fs3 = superblock fs1) as Hsb3.
  { etrans; [apply (proj1 Habs3)|exact Hsb2]. }
  pose proof (frame_data_block _ _ _ b Hfr) as Hdb. pose proof (frame_data_block _ _ _ w Hfr) as Hdw1.
  simpl in Hdb, Hdw1.
  rewrite pointer_at_ind. wp_pure.
  change (bp (set_change_time t (set_bp SFS_IND_BLOCK b inode)) SFS_IND_BLOCK)
    with (bp (set_bp SFS_IND_BLOCK b inode) SFS_IND_BLOCK).
  rewrite bp_set_bp_eq by (rewrite (inode_ok_pointers _ Hio); change SFS_IND_BLOCK with 12; lia).
  unfold read_from_indirect. rewrite (proj2 (Z.eqb_neq b 0)) by lia.
  wp_pure. wp_apply data_read_spec; [done|rewrite Hsb3; by apply Hdb|apply stack_len|].
  intros ? fs4 (-> & Hok4 & Habs4). simpl.
  assert (wblk (disk fs3) b = a_block (abs fs) b) as ->.
  { rewrite <-Hbb. etrans; [apply Habs3; simpl; rewrite Hsb3; by apply Hdb|]. by rewrite Habs2. }
  rewrite number_at_ok by (change SFS_NIND_BLOCKS with 64; change file_blocks with 76 in *; lia). wp_pure.
  rewrite Hw, (proj2 (Z.eqb_neq w 0)) by lia. simpl. wp_pure.
  assert (superblock fs4 = superblock fs1) as Hsb4.
  { etrans; [apply (proj1 Habs4)|exact Hsb3]. }
  pose proof (ok_table _ Hok4).
  rewrite data_block_not_bad by (rewrite ?Hsb4; first [by apply Hdw1|rewrite <-?Hsb4; lia]).
  wp_apply data_write_spec; [done|rewrite Hsb4; by apply Hdw1|done|].
  intros ? fs5 (-> & Hok5 & Habs5). simpl. wp_pure. split; [done|].
  etrans; [apply Habs5; simpl|simpl; by rewrite Z.eqb_refl].
  rewrite (proj1 Habs5 : superblock fs5 = superblock fs4), Hsb4. by apply Hdw1.
Qed.

(** [sfs_fs_inode_block_remove] frees the block of a direct pointer but
    leaves the pointer in the inode, in memory and on the disk: it returns 0,
    the block is free, and the file still uses it, so the file is no longer
    well-formed and the next allocation may give its block to another. *)
Lemma block_remove_leaves_dangling_pointer fs inode F i :
  file_state fs inode F → 0 ≤ i < SFS_NDIR_BLOCKS → bp inode i ≠ 0 →
  ∃ fs', sfs_fs_inode_block_remove inode i fs = Done 0 fs' ∧
    is_free (abs fs') (bp inode i :: F) ∧
    a_inode (abs fs') (i_inumber inode) = inode ∧
    ¬ file_wf (abs fs') inode (bp inode i :: F).
Proof.
  intros [Hok Hfree Hwf Hio Hvi Hst] Hi Hnz.
  assert (0 ≤ i < file_blocks) as Hi'.
  { change file_blocks with 76. change SFS_NDIR_BLOCKS with 12 in Hi. lia. }
  assert (∀ a, file_ptr a inode i = bp inode i) as Hp.
  { intros a. unfold file_ptr. by rewrite (proj2 (Z.ltb_lt _ _)) by lia. }
  destruct (wf_ptr _ _ _ Hwf i Hi') as (Hd & HF & _); rewrite ?Hp in *; [done|].
  destruct (free_block_succeeds fs F (bp inode i)) as (fs' & Hrun & Hfree' & Hfr & Hok'); [done..|].
  exists fs'. split_and!; [|done| |].
  - unfold sfs_fs_inode_block_remove.
    rewrite (proj2 (Z.leb_gt _ _)), pointer_at_direct by lia. run. rewrite (proj2 (Z.eqb_neq _ 0) Hnz).
    by rewrite (bind_done _ _ _ _ _ Hrun).
  - etrans; [|exact Hst]. by apply Hfr.
  - intros Hwf'. destruct (wf_ptr _ _ _ Hwf' i Hi') as (_ & HF' & _); rewrite ?Hp in *; [done|].
    apply HF'. left.
Qed.

End file_theorems.

(** ** On the small file system *)
Lemma demo_file_state : file_state demo_fs demo_file demo_free.
Proof.
  split; [exact demo_fs_ok|exact demo_is_free|exact demo_file_wf|by vm_compute..].
Qed.

Lemma demo_root_state : file_state demo_fs demo_root demo_free.
Proof.
  split; [exact demo_fs_ok|exact demo_is_free|exact demo_root_wf|by vm_compute..].
Qed.

Definition block_of (c : Z) : list byte := replicate 512 (Byte.byte.of_Z c).

Definition demo_file_ops : list file_op :=
  [ReadBlock 12; WriteBlock 13 (block_of 67); ReadBlock 13;
   WriteBlock 0 (block_of 69); ReadBlock 0; ReadBlock 5; WriteBlock 75 (block_of 70)].

Lemma file_blocks_refinement_witness :
  ∃ inode' fs' F',
    run_file_ops (H := demo_env) demo_file demo_file_ops demo_fs
      = Done ((spec_file_ops (file_block (abs demo_fs) demo_file) demo_file_ops).1, inode') fs' ∧
    (∀ j, 0 ≤ j < file_blocks → file_block (abs fs') inode' j
       = (spec_file_ops (file_block (abs demo_fs) demo_file) demo_file_ops).2 j) ∧
    file_state fs' inode' F'.
Proof.
  apply (file_blocks_refinement (H := demo_env) _ _ _ _ demo_file_state).
  - repeat constructor; by vm_compute || (right; by vm_compute) || (left; by vm_compute).
  - simpl. lia.
Defined.

(** A file with pointers at the ends of the data area, 2 to 9, and just
    outside of it, direct and indirect. *)
Definition edge_file : sfs_fs_inode :=
  Inode 2 33188 1000 100 2 1000 1000 1000 1024 [1; 2; 9; 10; 0; 0; 0; 0; 0; 0; 0; 0; 8; 0].
Definition edge_fs : filesystem :=
  set_disk (set_blk 8 (index_set 0 1 (index_set 1 2 (index_set 2 9 (index_set 3 10 zero_block)))) demo_disk) demo_fs.

Lemma edge_fs_ok : fs_ok edge_fs.
Proof. split; try (by vm_compute); unfold BLOCK_SIZE; simpl; lia. Qed.

Lemma block_operation_errors_witness :
  let read i := sfs_fs_inode_block_read (H := demo_env) edge_file i zero_block edge_fs in
  let write i := sfs_fs_inode_block_write (H := demo_env) edge_file i zero_block edge_fs in
  read 76 = Done (-1, zero_block) edge_fs ∧
  Forall (λ i, (∃ fs', read i = Done (-1, zero_block) fs' ∧ abs fs' ≡ abs edge_fs) ∧
               (∃ fs', write i = Done (-1, edge_file) fs' ∧ abs fs' ≡ abs edge_fs)) [0; 3; 12; 15] ∧
  Forall (λ i, (∃ fs', read i = Done (0, a_block (abs edge_fs) (file_ptr (abs edge_fs) edge_file i)) fs' ∧ abs fs' ≡ abs edge_fs) ∧
               (∃ fs', write i = Done (0, edge_file) fs' ∧
                 abs fs' ≡ upd_block (file_ptr (abs edge_fs) edge_file i) zero_block (abs edge_fs))) [1; 2; 13; 14].
Proof.
  assert (∀ b, 1 < b < 10 → data_block (superblock edge_fs) b) as Hd by done.
  pose proof (λ i, block_operation_errors (H := demo_env) edge_fs edge_file i zero_block edge_fs_ok (length_replicate _ _)
    (λ _, Hd 8 (conj eq_refl eq_refl))) as Hops.
  split; [|split].
  - apply (proj1 (Hops 76)). by vm_compute.
  - repeat (apply Forall_cons; split); try apply Forall_nil_2; apply (proj1 (proj2 (proj2 (proj2 (Hops _)))));
      first [by vm_compute|left; by vm_compute|right; by vm_compute].
  - repeat (apply Forall_cons; split); try apply Forall_nil_2; apply (proj2 (proj2 (proj2 (proj2 (Hops _))))); by vm_compute.
Defined.

(** The same disk with nothing free. *)
Definition full_fs : filesystem := set_superblock (set_free_blocks_head 0 demo_sb) demo_fs.

Lemma full_root_state : file_state full_fs demo_root [].
Proof.
  split; [|split_and!; [constructor|constructor|by exists []]|apply file_wf_b_sound; by vm_compute
         |by vm_compute..].
  by apply (fs_ok_set_superblock _ _ demo_fs_ok).
Qed.

Lemma write_to_full_disk_fails_witness :
  ∃ fs', sfs_fs_inode_block_write (H := demo_env) demo_root 3 zero_block full_fs
           = Done (-1, demo_root) fs' ∧ abs fs' ≡ abs full_fs.
Proof.
  apply (write_to_full_disk_fails (H := demo_env) _ _ _ _ full_root_state); [done| |done|by vm_compute].
  left. by vm_compute.
Defined.

(** The free block 4 once was an indirect block and still starts with 7, now
    the first block of the file "a". *)
Definition stale_fs : filesystem :=
  set_disk (set_blk 4 (index_set 0 7 zero_block) (tick_io demo_disk)) demo_fs.

Lemma stale_root_state : file_state stale_fs demo_root demo_free.
Proof.
  split; [|split_and!|apply file_wf_b_sound; by vm_compute|by vm_compute..].
  - apply (fs_ok_set_blk demo_fs 4 _ demo_fs_ok). simpl. lia.
  - apply (bool_decide_unpack _). by vm_compute.
  - repeat constructor.
  - exists [3]. split; [split_and!; [done|done|by vm_compute]|vm_compute; reflexivity].
Qed.

Lemma stale_indirect_block_is_followed_witness :
  ∃ inode' fs', sfs_fs_inode_block_write (H := demo_env) demo_root 12 (block_of 67) stale_fs
                  = Done (0, inode') fs' ∧ a_block (abs fs') 7 = block_of 67.
Proof.
  apply (stale_indirect_block_is_followed (H := demo_env) stale_fs
           (demo_after (sfs_fs_allocate_block (H := demo_env)) stale_fs) demo_root demo_free
           12 (block_of 67) 4 7 stale_root_state); try by vm_compute.
Defined.

Lemma block_remove_leaves_dangling_pointer_witness :
  ∃ fs', sfs_fs_inode_block_remove (H := demo_env) demo_file 0 demo_fs = Done 0 fs' ∧
    is_free (abs fs') (7 :: demo_free) ∧ a_inode (abs fs') 2 = demo_file ∧
    ¬ file_wf (abs fs') demo_file (7 :: demo_free).
Proof.
  apply (block_remove_leaves_dangling_pointer (H := demo_env) _ _ _ 0 demo_file_state);
    [done|by vm_compute].
Defined.
