(* ===== verification/InodeTheorems.v ===== *)
(** * Properties of the allocator of inodes *)

From S2P Require Export FileTheorems FsInodes.

Section inode_theorems.
  Context `{Env, !ReliableIO, !EnvOk}.

(** The list of free inodes after its head is taken, and with a new head. *)
Lemma free_inodes_tail a n L last :
  free_inodes a (n :: L) last →
  free_inodes (upd_sb (set_free_inode_head (i_size (a_inode a n)) (a_sb a)) a) L last.
Proof.
  intros [[Hn Hnd]%NoDup_cons (_ & _ & _ & HL)]. split; [done|]. by apply (inode_list_ext a).
Qed.

(** C25: inodes are allocated and given back in a consistent way.
    Deallocating the inode of a file returns 0, frees its direct blocks and
    puts it at the head of the list of free inodes; the next allocation takes
    that inode and leaves the list as it was. *)
Theorem inode_deallocate_then_allocate fs inode F L last :
  file_state fs inode F → free_inodes (abs fs) L last → i_inumber inode ∉ L →
  ∃ inode' fs1 fs2,
    sfs_fs_inode_deallocate inode fs = Done (0, inode') fs1 ∧
    is_free (abs fs1) (direct_blocks inode ++ F) ∧
    free_inodes (abs fs1) (i_inumber inode :: L) last ∧
    sfs_fs_inode_allocate fs1 = Done (Some inode') fs2 ∧ i_inumber inode' = i_inumber inode ∧
    is_free (abs fs2) (direct_blocks inode ++ F) ∧ free_inodes (abs fs2) L last.
Proof.
  intros [Hok Hfree Hwf Hio Hvi Hst] HL HnL.
  destruct (wp_pair _ _ _ (inode_deallocate_spec fs inode F Hok Hfree Hwf Hio Hvi))
    as (r & inode' & fs1 & Hrun & -> & Hok1 & [Hi' Hfree1 Hfr1]).
  assert (free_inodes (abs fs1) (i_inumber inode :: L) last) as HL1.
  { apply (free_inodes_frame _ _ _ _ _ Hfr1). subst inode'.
    by apply (free_inodes_cons _ (set_size_ (sb_free_inode_head (superblock fs)) inode)). }
  destruct (proj1 (wp_iff _ _ _) (inode_allocate_spec fs1 _ _ _ Hok1 HL1))
    as (r & fs2 & Hrun2 & -> & Hok2 & Habs2).
  assert (a_inode (abs fs1) (i_inumber inode) = inode') as Hin.
  { etrans; [apply Hfr1, Hvi|]. subst inode'. simpl. by rewrite Z.eqb_refl. }
  rewrite Hin in Hrun2.
  exists inode', fs1, fs2. split_and!; try done.
  - by subst inode'.
  - rewrite Habs2. eapply is_free_ext; [..|exact Hfree1]; done.
  - eapply free_inodes_equiv; [symmetry; exact Habs2|]. by apply free_inodes_tail.
Qed.

(** Deallocating an inode leaks every block behind its indirect block.
    After a successful [sfs_fs_inode_deallocate] the indirect block and the
    blocks it points to are not among the free blocks, although no inode in
    use refers to them any more. *)
Lemma inode_deallocate_leaks_indirect fs inode F :
  file_state fs inode F → bp inode SFS_IND_BLOCK ≠ 0 →
  ∃ inode' fs' F',
    sfs_fs_inode_deallocate inode fs = Done (0, inode') fs' ∧ is_free (abs fs') F' ∧
    (bp inode SFS_IND_BLOCK ∉ F') ∧
    ∀ i, SFS_NDIR_BLOCKS ≤ i < file_blocks → file_ptr (abs fs) inode i ≠ 0 →
      file_ptr (abs fs) inode i ∉ F'.
Proof.
  intros [Hok Hfree Hwf Hio Hvi Hst] Hnz.
  destruct (wp_pair _ _ _ (inode_deallocate_spec fs inode F Hok Hfree Hwf Hio Hvi))
    as (r & inode' & fs1 & Hrun & -> & Hok1 & [Hi' Hfree1 Hfr1]).
  exists inode', fs1, (direct_blocks inode ++ F). split_and!; [done|done| |].
  - destruct (wf_ind _ _ _ Hwf Hnz) as [_ HF]. rewrite elem_of_app.
    intros [Hin|?]; [|done]. apply elem_of_direct_upto in Hin as (_ & i & Hi & E).
    pose proof (wf_ptr _ _ _ Hwf i) as Hw. rewrite file_ptr_direct in Hw by apply Hi.
    change file_blocks with 76 in Hw. change SFS_NDIR_BLOCKS with 12 in Hi.
    destruct Hw as (_ & _ & Hne); [lia|congruence|]. congruence.
  - intros i Hi Hpz. destruct (wf_ptr _ _ _ Hwf i) as (_ & HF & _); [|done|].
    { change file_blocks with 76 in *. change SFS_NDIR_BLOCKS with 12 in Hi. lia. }
    rewrite elem_of_app. intros [Hin|?]; [|done].
    apply elem_of_direct_upto in Hin as (_ & j & Hj & E).
    change file_blocks with 76 in *. change SFS_NDIR_BLOCKS with 12 in Hi, Hj.
    rewrite <-(file_ptr_direct (abs fs) inode j) in E by apply Hj.
    pose proof (wf_inj _ _ _ Hwf i j ltac:(change file_blocks with 76; lia)
      ltac:(change file_blocks with 76; lia) Hpz E). lia.
Qed.

(** ** Running out of inodes *)

(** The list of free inodes that [format_fs] writes does not end with 0 but
    with the number after the last inode, so running out of inodes is not
    noticed: the allocation reads the data block behind the table as inodes
    and succeeds. *)
Lemma allocate_past_table fs :
  fs_ok fs →
  sb_free_inode_head (superblock fs) = inodes_per_block * sb_inode_table_blocks (superblock fs) + 1 →
  sb_inode_table_blocks (superblock fs) + 1 < sb_blocks (superblock fs) →
  sb_inode_table_blocks (superblock fs) + 1 < 2 ^ 31 →
  ∃ fs', sfs_fs_inode_allocate fs =
    Done (Some (get_at inode_c 0 (a_block (abs fs) (sb_inode_table_blocks (superblock fs) + 1)))) fs'.
Proof.
  intros Hok Hh Hb Hb'. pose proof (ok_table _ Hok) as Ht. pose proof (ok_range _ Hok) as Hr.
  set (T := sb_inode_table_blocks (superblock fs)) in *. set (n := inodes_per_block * T + 1) in *.
  assert (inode_block n = T + 1 ∧ inode_pos n = 0%nat) as [Hbl Hpos].
  { unfold n, inode_block, inode_pos. change inodes_per_block with 3.
    replace (3 * T + 1 - 1) with (T * 3) by lia. rewrite Z.div_mul, Z.mod_mul by lia. done. }
  assert (1 ≤ n) as Hn by (unfold n; change inodes_per_block with 3; lia).
  unfold sfs_fs_inode_allocate. run. rewrite Hh, (proj2 (Z.eqb_neq n 0)) by lia.
  run by (apply read_inode_run; [done|done|lia|lia]).
  rewrite Hbl, (proj2 (Z.eqb_neq _ (T + 1))) by lia.
  assert (view fs n = get_at inode_c 0 (wblk (disk fs) (T + 1))) as Hv.
  { unfold view, inode_at_disk. by rewrite Hbl, Hpos, (proj2 (Z.eqb_neq _ (T + 1))) by lia. }
  rewrite Hv. run. set (fs1 := set_superblock _ _).
  assert (on_disk (disk fs1) 0) as Hd.
  { destruct (on_disk_block fs 0 Hok) as (H1' & H2' & H3'); [lia|].
    unfold on_disk. simpl. by rewrite w_size_flushed. }
  assert (c_ok superblock_c (superblock fs1) = true) as Hsb.
  { apply c_ok_free_inode_head; simpl; [rewrite superblock_flushed; apply (ok_sb _ Hok)|].
    rewrite <-Hv. by apply i_size_range, view_inode_ok. }
  exists (saved fs1). by rewrite (bind_done _ _ _ _ _ (save_superblock_run fs1 Hd Hsb)).
Qed.

(** C38: creating one file more than there are inodes aborts the file system.
    On a disk as [format_fs] leaves it the block behind the inode table is
    zero, so the inode that is allocated has number 0, and writing it fails an
    assertion instead of returning [EDQUOT]. *)
Theorem create_beyond_last_inode_aborts ctx mode name directory fs :
  fs_ok fs →
  sb_free_inode_head (superblock fs) = inodes_per_block * sb_inode_table_blocks (superblock fs) + 1 →
  sb_inode_table_blocks (superblock fs) + 1 < sb_blocks (superblock fs) →
  sb_inode_table_blocks (superblock fs) + 1 < 2 ^ 31 →
  a_block (abs fs) (sb_inode_table_blocks (superblock fs) + 1) = zero_block →
  create_file ctx mode name directory fs = Crash AssertFailed.
Proof.
  intros Hok Hh Hb Hb' Hz.
  destruct (allocate_past_table fs Hok Hh Hb Hb') as [fs' Hrun].
  rewrite Hz in Hrun. unfold create_file. erewrite bind_done by exact Hrun. cbv beta iota.
  assert (i_inumber (get_at inode_c 0 zero_block) = 0) as -> by (vm_compute; reflexivity).
  reflexivity.
Qed.

End inode_theorems.

(** ** On the small file system *)
Lemma demo_free_inodes : free_inodes (abs demo_fs) [3] 4.
Proof. split; [apply NoDup_singleton|]. by vm_compute. Qed.

Lemma inode_deallocate_then_allocate_witness :
  ∃ inode' fs1 fs2,
    sfs_fs_inode_deallocate (H := demo_env) demo_file demo_fs = Done (0, inode') fs1 ∧
    is_free (abs fs1) (direct_blocks demo_file ++ demo_free) ∧
    free_inodes (abs fs1) (2 :: [3]) 4 ∧
    sfs_fs_inode_allocate (H := demo_env) fs1 = Done (Some inode') fs2 ∧ i_inumber inode' = 2 ∧
    is_free (abs fs2) (direct_blocks demo_file ++ demo_free) ∧ free_inodes (abs fs2) [3] 4.
Proof.
  apply (inode_deallocate_then_allocate (H := demo_env) demo_fs demo_file demo_free [3] 4
           demo_file_state demo_free_inodes).
  apply (bool_decide_unpack _). by vm_compute.
Defined.

Lemma inode_deallocate_leaks_indirect_witness :
  ∃ inode' fs' F',
    sfs_fs_inode_deallocate (H := demo_env) demo_file demo_fs = Done (0, inode') fs' ∧
    is_free (abs fs') F' ∧ (8 ∉ F') ∧
    ∀ i, SFS_NDIR_BLOCKS ≤ i < file_blocks → file_ptr (abs demo_fs) demo_file i ≠ 0 →
      file_ptr (abs demo_fs) demo_file i ∉ F'.
Proof.
  apply (inode_deallocate_leaks_indirect (H := demo_env) _ _ _ demo_file_state). by vm_compute.
Defined.

(** The same disk when its last inode is taken. *)
Definition exhausted_fs : filesystem := set_superblock (set_free_inode_head 4 demo_sb) demo_fs.

Lemma create_beyond_last_inode_witness :
  create_file (H := demo_env) (FuseCtx 1000 100 18) 420 [] demo_root exhausted_fs = Crash AssertFailed.
Proof.
  apply (create_beyond_last_inode_aborts (H := demo_env)).
  - by apply (fs_ok_set_superblock _ _ demo_fs_ok).
  - by vm_compute.
  - by vm_compute.
  - by vm_compute.
  - by vm_compute.
Defined.
