(* ===== verification/FsSafety.v ===== *)
(** * No crash under any I/O behaviour

    Whatever the calls of the operating system return (errors, short reads and
    writes included), the functions of fs.c without a loop over the free list
    return: no assertion fails and nothing is accessed out of bounds. *)

From S2P Require Export InodeTheorems.

(** A computation that returns from every state. *)
Class Total {S A} (m : M S A) : Prop := total s : ∃ a s', m s = Done a s'.

#[export] Instance total_ret {S A} (a : A) : Total (S := S) (mret a).
Proof. intros s. by exists a, s. Qed.

#[export] Instance total_bind {S A B} (m : M S A) (f : A → M S B) :
  Total m → (∀ a, Total (f a)) → Total (m ≫= f).
Proof.
  intros Hm Hf s. destruct (Hm s) as (a & s1 & E). rewrite (bind_done _ _ _ _ _ E). apply Hf.
Qed.

#[export] Instance total_get {S} : Total (S := S) get.
Proof. intros s. by exists s, s. Qed.

#[export] Instance total_modify {S} (f : S → S) : Total (modify f).
Proof. intros s. by exists tt, (f s). Qed.

#[export] Instance total_put {S} (s' : S) : Total (put s').
Proof. intros s. by exists tt, s'. Qed.

#[export] Instance total_if {S A} (b : bool) (m m' : M S A) :
  Total m → Total m' → Total (if b then m else m').
Proof. by destruct b. Qed.

#[export] Instance total_option {S A B} (o : option B) (f : B → M S A) (m : M S A) :
  (∀ b, Total (f b)) → Total m → Total (match o with Some b => f b | None => m end).
Proof. destruct o; auto. Qed.

#[export] Instance total_pair {S A B C} (p : B * C) (f : B → C → M S A) :
  (∀ b c, Total (f b c)) → Total (let '(b, c) := p in f b c).
Proof. destruct p; auto. Qed.

#[export] Instance total_zoom {S T A} proj upd (m : M T A) :
  Total m → Total (S := S) (zoom proj upd m).
Proof.
  intros Hm s. unfold zoom. destruct (Hm (proj s)) as (a & t & ->). by exists a, (upd t s).
Qed.

Section safety.
  Context `{Env}.

#[export] Instance total_time : Total time_.
Proof. intros w. by eexists _, _. Qed.
#[export] Instance total_malloc : Total malloc_.
Proof. intros w. by eexists _, _. Qed.
#[export] Instance total_pread buf off : Total (pread buf off).
Proof. intros w. by eexists _, _. Qed.
#[export] Instance total_pwrite buf off : Total (pwrite buf off).
Proof. intros w. by eexists _, _. Qed.
#[export] Instance total_block_read b buf : Total (block_read b buf).
Proof. unfold block_read. apply _. Qed.
#[export] Instance total_block_write b buf : Total (block_write b buf).
Proof. unfold block_write. apply _. Qed.
#[export] Instance total_at_disk {A} (m : M world A) : Total m → Total (at_disk m).
Proof. unfold at_disk. apply _. Qed.
#[export] Instance total_write_back : Total write_back.
Proof. unfold write_back. apply _. Qed.
#[export] Instance total_write_superblock sb : Total (write_superblock sb).
Proof. unfold write_superblock. apply _. Qed.
#[export] Instance total_save_superblock : Total save_superblock.
Proof. unfold save_superblock. apply _. Qed.
#[export] Instance total_allocate_block : Total sfs_fs_allocate_block.
Proof. unfold sfs_fs_allocate_block. apply _. Qed.

#[export] Instance total_inode_access n : Total (S := filesystem) (access_ (Z.of_nat (inode_pos n) <? inodes_per_block)).
Proof. intros fs. exists tt, fs. by rewrite inode_pos_inside. Qed.

Lemma total_assert {S} (b : bool) : b = true → Total (S := S) (assert_ b).
Proof. intros -> s. by exists tt, s. Qed.

Lemma total_read_inode n : 0 < n → Total (sfs_fs_read_inode n).
Proof.
  intros Hn. unfold sfs_fs_read_inode. apply total_bind; [|apply _].
  by apply total_assert, Z.ltb_lt.
Qed.

Lemma total_write_inode i : 0 < i_inumber i → Total (sfs_fs_write_inode i).
Proof.
  intros Hi. unfold sfs_fs_write_inode. apply total_bind; [|apply _].
  by apply total_assert, Z.ltb_lt.
Qed.

Lemma total_pointer_direct inode i : 0 ≤ i < SFS_NDIR_BLOCKS → Total (pointer_at inode i).
Proof. intros Hi. rewrite pointer_at_direct by done. apply _. Qed.

#[export] Instance total_pointer_ind inode : Total (pointer_at inode SFS_IND_BLOCK).
Proof. rewrite pointer_at_ind. apply _. Qed.

(** The index is inside the indirect block. *)
Lemma total_read_from_indirect ib k c : 0 ≤ k < SFS_NIND_BLOCKS → Total (read_from_indirect ib k c).
Proof.
  intros Hk. unfold read_from_indirect. assert (∀ arr, Total (number_at k arr)); [|apply _].
  intros arr. rewrite number_at_ok by done. apply _.
Qed.

(** A case of the logical block, in which the access is inside the array. *)
Lemma total_block_cases {A} i (direct indirect refused : M filesystem A) :
  0 ≤ i → (0 ≤ i < SFS_NDIR_BLOCKS → Total direct) → (0 ≤ i - SFS_NDIR_BLOCKS < SFS_NIND_BLOCKS → Total indirect) →
  Total refused →
  Total (if i <? SFS_NDIR_BLOCKS then direct
         else if i <? SFS_NDIR_BLOCKS + SFS_NIND_BLOCKS then indirect else refused).
Proof.
  intros Hi Hd Hn Hr. destruct (Z.ltb_spec i SFS_NDIR_BLOCKS); [apply Hd; lia|].
  destruct (Z.ltb_spec i (SFS_NDIR_BLOCKS + SFS_NIND_BLOCKS)); [apply Hn; lia|done].
Qed.

Lemma total_inode_block_read inode i blk : 0 ≤ i → Total (sfs_fs_inode_block_read inode i blk).
Proof.
  intros Hi. unfold sfs_fs_inode_block_read. apply total_bind; [|apply _].
  apply total_block_cases; [done|intros Hd|intros Hk|apply _].
  - pose proof (total_pointer_direct inode i Hd). apply _.
  - pose proof (λ p, total_read_from_indirect p _ false Hk). apply _.
Qed.

Lemma total_block_for_write inode i : 0 ≤ i → 0 < i_inumber inode → Total (block_for_write inode i).
Proof.
  intros Hi0 Hi. unfold block_for_write.
  assert (∀ k v, Total (sfs_fs_write_inode (set_bp k v inode))) by (intros; by apply total_write_inode).
  assert (∀ t k v, Total (sfs_fs_write_inode (set_change_time t (set_bp k v inode))))
    by (intros; by apply total_write_inode).
  apply total_block_cases; [done|intros Hd|intros Hk|apply _].
  - pose proof (total_pointer_direct inode i Hd). apply _.
  - pose proof (λ p, total_read_from_indirect p _ true Hk). apply _.
Qed.

Lemma total_get_block_number inode i : 0 ≤ i → Total (sfs_fs_inode_get_block_number inode i).
Proof.
  intros Hi. unfold sfs_fs_inode_get_block_number. destruct (Z.leb_spec SFS_NDIR_BLOCKS i); [apply _|].
  apply total_pointer_direct. lia.
Qed.

(** C26: no I/O behaviour can crash the reading and writing of inodes and
    blocks, and no index leaves an array.  From any state at all, whether or not
    it is well-formed, whatever [pread] and [pwrite] return and for every logical
    block i >= 0, these functions return: the accesses to the pointers of the
    inode, to the numbers in an indirect block and to the inodes in the cached
    block are inside those arrays.  Only an inode number 0 stops them, through
    the [assert].  The same accesses are undefined one past their end. *)
Theorem fs_operations_never_crash fs inode n i blk :
  0 < n → 0 < i_inumber inode → 0 ≤ i →
  (∃ r fs', sfs_fs_read_inode n fs = Done r fs') ∧
  (∃ r fs', sfs_fs_write_inode inode fs = Done r fs') ∧
  (∃ r fs', sfs_fs_allocate_block fs = Done r fs') ∧
  (∃ r fs', sfs_fs_inode_get_block_number inode i fs = Done r fs') ∧
  (∃ r fs', sfs_fs_inode_block_read inode i blk fs = Done r fs') ∧
  (∃ r fs', sfs_fs_inode_block_write inode i blk fs = Done r fs') ∧
  (∃ r fs', sfs_fs_close fs = Done r fs') ∧
  sfs_fs_read_inode 0 fs = Crash AssertFailed ∧
  pointer_at inode SFS_N_BLOCKS fs = Crash UndefinedBehaviour ∧
  number_at SFS_NIND_BLOCKS blk fs = Crash UndefinedBehaviour.
Proof.
  intros Hn Hi Hi0. pose proof (total_block_for_write inode i Hi0 Hi).
  assert (Total (sfs_fs_inode_block_write inode i blk)) as Hw by (unfold sfs_fs_inode_block_write; apply _).
  assert (Total sfs_fs_close) as Hc by (unfold sfs_fs_close; apply _).
  split_and!; [by apply total_read_inode|by apply total_write_inode|apply total|by apply total_get_block_number|
    by apply total_inode_block_read|exact (Hw fs)|exact (Hc fs)|reflexivity..].
Qed.

End safety.

(** Every I/O call moves three bytes only. *)
Definition short_env : Env := env_with (λ _, IoShort 3) false.

Lemma fs_operations_never_crash_witness :
  (∃ r fs', sfs_fs_read_inode (H := short_env) 4 demo_fs = Done r fs') ∧
  (∃ r fs', sfs_fs_write_inode (H := short_env) demo_file demo_fs = Done r fs') ∧
  (∃ r fs', sfs_fs_allocate_block (H := short_env) demo_fs = Done r fs') ∧
  (∃ r fs', sfs_fs_inode_get_block_number demo_file 12 demo_fs = Done r fs') ∧
  (∃ r fs', sfs_fs_inode_block_read (H := short_env) demo_file 12 zero_block demo_fs = Done r fs') ∧
  (∃ r fs', sfs_fs_inode_block_write (H := short_env) demo_file 12 zero_block demo_fs = Done r fs') ∧
  (∃ r fs', sfs_fs_close (H := short_env) demo_fs = Done r fs') ∧
  sfs_fs_read_inode (H := short_env) 0 demo_fs = Crash AssertFailed ∧
  pointer_at demo_file 14 demo_fs = Crash UndefinedBehaviour ∧
  number_at 64 zero_block demo_fs = Crash UndefinedBehaviour.
Proof. by apply (fs_operations_never_crash (H := short_env)). Defined.
