(* ===== verification/FdTheorems.v ===== *)
(** * Properties of the pool of file descriptors *)

From S2P Require Export FdPool Testbed.

(** ** The pool and its client *)
Section machine.
  Context `{Env}.

(** A state: the pool, and the open descriptors with the inode each names. *)
Inductive fd_step : relation (pool * gmap nat Z) :=
  | OpenStep s inumber flags fh p p1 p2 held :
      sfs_filedescriptor_allocate p = Done (Some s) p1 →
      fd_set s inumber flags p1 = Done fh p2 →
      fd_step (p, held) (p2, <[s := inumber]> held)
  | OpenFailsStep p p' held :
      sfs_filedescriptor_allocate p = Done None p' →
      fd_step (p, held) (p', held)
  | CloseStep s p p' held :
      is_Some (held !! s) → sfs_filedescriptor_free s p = Done tt p' →
      fd_step (p, held) (p', delete s held).

(** A slot is free or open, never both; an open one holds its inode. *)
Definition fd_inv (st : pool * gmap nat Z) : Prop :=
  ∃ L, pool_ok st.1 L ∧
    (∀ s n, st.2 !! s = Some n →
       (s ∉ L) ∧ ∃ v, slots st.1 !! s = Some v ∧ sl_word v = WInt n) ∧
    (∀ s, (s < length (slots st.1))%nat → s ∈ L ∨ is_Some (st.2 !! s)).

(** What a returning allocation did. *)
Lemma allocate_cases p L r p' :
  pool_ok p L → sfs_filedescriptor_allocate p = Done r p' →
  match r with
  | Some s => ∃ L', pool_ok p' L' ∧ (s ∉ L') ∧ (s < length (slots p'))%nat ∧
      (∀ i v, slots p !! i = Some v → slots p' !! i = Some v) ∧
      (∀ i, (i < length (slots p'))%nat →
         i = s ∨ i ∈ L' ∨ ((i < length (slots p))%nat ∧ i ∉ L)) ∧
      (∀ i, i = s ∨ i ∈ L' → i ∈ L ∨ (length (slots p) ≤ i)%nat)
  | None => pool_ok p' L ∧ slots p' = slots p ∧ L = []
  end.
Proof.
  intros Hp Hrun. pose proof slots_per_slab_pos. destruct L as [|s L].
  - destruct (env_slab_malloc (p_mallocs p)) eqn:Hm.
    + destruct (decide (room p)) as [Hr|Hr].
      * destruct (allocate_grow p Hp Hm Hr) as (p'' & Hrun' & Hp' & Hs & _).
        rewrite Hrun' in Hrun. simplify_eq. rewrite Hs. simpl.
        rewrite length_app, length_init_slab.
        eexists. split; [exact Hp'|]. split_and!.
        -- rewrite elem_of_seq. lia.
        -- lia.
        -- intros i v. apply lookup_app_l_Some.
        -- intros i Hi. rewrite elem_of_seq.
           destruct (decide (i < length (slots p))%nat); [|lia].
           right. right. split; [done|apply not_elem_of_nil].
        -- intros i [->|Hi%elem_of_seq]; lia.
      * exfalso. pose proof (po_chain _ _ Hp) as Hc. simpl in Hc.
        pose proof (po_length _ _ Hp) as Hl. unfold room in Hr. revert Hrun.
        unfold sfs_filedescriptor_allocate. simpl. run. rewrite Hc. unfold grow. run. rewrite Hm. run.
        rewrite (Nat.mul_comm slots_per_slab), <-Hl.
        by rewrite (proj2 (Z.leb_le _ _)) by lia.
    + destruct (allocate_no_memory p Hp Hm) as (p'' & Hrun' & ? & ? & _).
      rewrite Hrun' in Hrun. by simplify_eq.
  - destruct (allocate_rec_cons 1 p s L Hp) as (p'' & Hrun' & Hp' & Hs & _).
    unfold sfs_filedescriptor_allocate in Hrun. rewrite Hrun' in Hrun. simplify_eq. rewrite Hs.
    pose proof (po_nodup _ _ Hp) as [HsL _]%NoDup_cons. exists L. split_and!; [done|done| |done| |].
    + apply (fchain_lt _ _ _ s (po_chain _ _ Hp)). left.
    + intros i Hi. destruct (decide (i ∈ s :: L)) as [Hin|]; [|by auto].
      apply elem_of_cons in Hin. tauto.
    + intros i [->|?]; left; [left|by right].
Qed.

Lemma fd_step_inv st st' : fd_inv st → fd_step st st' → fd_inv st'.
Proof.
  intros (L & Hp & Hh & Hall) Hstep. destruct Hstep as
    [s inumber flags fh p p1 p2 held Ha Hset|p p' held Ha|s p p' held [n Hn] Hfree]; simpl in *.
  - apply (allocate_cases _ _ _ _ Hp) in Ha as (L1 & Hp1 & HsL1 & Hlt & Hsame & Hpart & Hsub).
    apply lookup_lt_is_Some in Hlt as [v Hv].
    destruct (fd_set_ok p1 L1 s v inumber flags Hp1 Hv HsL1) as (p' & Hset' & Hp2 & Hs2 & _).
    rewrite Hset' in Hset. simplify_eq. exists L1. simpl. rewrite Hs2. split_and!; [done| |].
    + intros i m [[<- <-]|[Hne Hi]]%lookup_insert_Some.
      * split; [done|]. eexists. split; [apply list_lookup_insert_eq; by eapply lookup_lt_Some|done].
      * destruct (Hh i m Hi) as (HiL & w & Hw & ?). split.
        -- intros Hin. destruct (Hsub i (or_intror Hin)) as [?|Hge]; [done|].
           apply lookup_lt_Some in Hw. lia.
        -- exists w. rewrite list_lookup_insert_ne by done. auto.
    + intros i. rewrite length_insert. intros Hi.
      destruct (decide (i = s)) as [->|Hne]; [right; by rewrite lookup_insert_eq|].
      rewrite lookup_insert_ne by done.
      destruct (Hpart i Hi) as [?|[?|[Hi' HiL]]]; [done|by left|]. right.
      by destruct (Hall i Hi').
  - apply (allocate_cases _ _ _ _ Hp) in Ha as (Hp' & Hs & ->). exists []. simpl. by rewrite Hs.
  - destruct (Hh s n Hn) as (HsL & v & Hv & _).
    destruct (free_ok p L s v Hp Hv HsL) as (p'' & Hfree' & Hp' & Hs & _).
    rewrite Hfree' in Hfree. simplify_eq. exists (s :: L). simpl. rewrite Hs. split_and!; [done| |].
    + intros i m [Hne Hi]%lookup_delete_Some. destruct (Hh i m Hi) as (HiL & w & Hw & ?). split.
      * by apply not_elem_of_cons.
      * exists w. by rewrite list_lookup_insert_ne.
    + intros i. rewrite length_insert. intros Hi.
      destruct (decide (i = s)) as [->|Hne]; [left; left|].
      rewrite lookup_delete_ne by done. destruct (Hall i Hi); [left; by right|by right].
Qed.

Definition new_pool : pool := Pool 1 (init_slab 0 0) (Some 0%nat) 0.

Lemma fd_reachable st : rtc fd_step (new_pool, ∅) st → fd_inv st.
Proof.
  assert (fd_inv (new_pool, ∅)) as Hinit.
  { exists (seq 0 slots_per_slab). split_and!; [apply pool_ok_init|done|].
    intros s Hs. left. apply elem_of_seq. simpl in Hs. rewrite length_init_slab in Hs. lia. }
  revert Hinit. generalize (new_pool, ∅ : gmap nat Z). intros st0 Hinit Hsteps.
  induction Hsteps; [done|]. eauto using fd_step_inv.
Qed.

(** C21: an open descriptor stays valid until it is closed.  After any sequence
    of opens and closes, the number of every open descriptor looks up that
    descriptor, and the descriptor still names the inode it was opened for. *)
Theorem open_descriptors_stay_valid p held s n :
  rtc fd_step (new_pool, ∅) (p, held) → held !! s = Some n →
  sfs_filedescriptor_get_from_fd (Z.of_nat s) p = Done (Some s) p ∧ fd_inumber s p = Done n p.
Proof.
  intros (L & Hp & Hh & _)%fd_reachable Hs. simpl in *.
  destruct (Hh s n Hs) as (_ & v & Hv & Hw). split.
  - rewrite (get_from_fd_ok p L) by (done || lia). apply lookup_lt_Some in Hv.
    by rewrite (proj2 (Z.ltb_lt _ _)), Nat2Z.id by lia.
  - unfold fd_inumber. run by (by apply deref_ok). by rewrite Hw.
Qed.

(** C22: an allocation returns (it calls itself at most once), and gives a
    descriptor that is not open; it fails only when every slot of the pool is
    open and [malloc] gives no new slab. *)
Theorem allocate_gives_unused_descriptor p held :
  rtc fd_step (new_pool, ∅) (p, held) → room p →
  ∃ r p', sfs_filedescriptor_allocate p = Done r p' ∧
    match r with
    | Some s => held !! s = None ∧ ∃ v, slots p' !! s = Some v ∧ sl_fd v = Z.of_nat s
    | None => env_slab_malloc (p_mallocs p) = false ∧
              ∀ s, (s < length (slots p))%nat → is_Some (held !! s)
    end.
Proof.
  intros (L & Hp & Hh & Hall)%fd_reachable Hroom. simpl in *.
  assert (∃ r p', sfs_filedescriptor_allocate p = Done r p' ∧
            (r = None → env_slab_malloc (p_mallocs p) = false)) as (r & p' & Hrun & Hr).
  { destruct L as [|s L].
    - destruct (env_slab_malloc (p_mallocs p)) eqn:Hm.
      + destruct (allocate_grow p Hp Hm Hroom) as (p' & ? & _). by eexists _, p'.
      + destruct (allocate_no_memory p Hp Hm) as (p' & ? & _). by eexists _, p'.
    - destruct (allocate_rec_cons 1 p s L Hp) as (p' & ? & _). by eexists _, p'. }
  exists r, p'. split; [done|]. pose proof (allocate_cases _ _ _ _ Hp Hrun) as Hc. destruct r as [s|].
  - destruct Hc as (L' & Hp' & HsL' & Hlt & _ & _ & Hsub). split.
    + apply eq_None_not_Some. intros [n Hn]. destruct (Hh s n Hn) as (HsL & v & Hv & _).
      apply lookup_lt_Some in Hv. destruct (Hsub s (or_introl eq_refl)); [done|lia].
    + apply lookup_lt_is_Some in Hlt as [v Hv]. exists v. split; [done|]. by apply (po_fd _ _ Hp').
  - destruct Hc as (_ & _ & ->). split; [auto|]. intros s Hs.
    destruct (Hall s Hs) as [Hin|]; [by apply not_elem_of_nil in Hin|done].
Qed.

(** What a number looks up.  For a number that is not negative the lookup
    finds the slot exactly when the number is below the capacity of the slabs,
    and NULL otherwise; whether the slot is open plays no part, so numbers that
    were never handed out, or that were closed, are accepted. *)
Lemma get_from_fd_by_position p held fd :
  rtc fd_step (new_pool, ∅) (p, held) →
  sfs_filedescriptor_get_from_fd fd p =
    if fd <? 0 then Crash AssertFailed
    else Done (if fd <? Z.of_nat (length (slots p)) then Some (Z.to_nat fd) else None) p.
Proof.
  intros (L & Hp & _)%fd_reachable. destruct (Z.ltb_spec fd 0) as [Hneg|Hpos].
  - unfold sfs_filedescriptor_get_from_fd.
    rewrite (bind_crash _ _ _ AssertFailed); [done|].
    by rewrite (proj2 (Z.leb_gt _ _)).
  - by apply get_from_fd_ok with L.
Qed.

End machine.

(** ** Two opens and a close *)
Definition pool_a : pool := demo_after (sfs_filedescriptor_allocate (H := demo_env)) new_pool.
Definition pool_b : pool := demo_after (fd_set 0 2 0) pool_a.
Definition pool_c : pool := demo_after (sfs_filedescriptor_allocate (H := demo_env)) pool_b.
Definition pool_d : pool := demo_after (fd_set 1 5 0) pool_c.
Definition pool_e : pool := demo_after (sfs_filedescriptor_free 0) pool_d.

Definition demo_held : gmap nat Z := delete 0%nat (<[1%nat := 5]> (<[0%nat := 2]> ∅)).

Lemma demo_fd_steps : rtc (fd_step (H := demo_env)) (new_pool, ∅) (pool_e, demo_held).
Proof.
  eapply rtc_l with (pool_b, _).
  { apply (OpenStep (H := demo_env) 0 2 0 0 new_pool pool_a pool_b ∅);
      apply demo_run; vm_compute; reflexivity. }
  eapply rtc_l with (pool_d, _).
  { apply (OpenStep (H := demo_env) 1 5 0 1 pool_b pool_c pool_d);
      apply demo_run; vm_compute; reflexivity. }
  apply rtc_once, (CloseStep (H := demo_env) 0 pool_d pool_e).
  - by eexists.
  - apply demo_run; vm_compute; reflexivity.
Qed.

Lemma open_descriptors_stay_valid_witness :
  sfs_filedescriptor_get_from_fd 1 pool_e = Done (Some 1%nat) pool_e ∧
  fd_inumber (H := demo_env) 1 pool_e = Done 5 pool_e.
Proof. exact (open_descriptors_stay_valid (H := demo_env) _ _ 1 5 demo_fd_steps eq_refl). Defined.

Lemma allocate_gives_unused_descriptor_witness :
  ∃ r p', sfs_filedescriptor_allocate (H := demo_env) pool_e = Done r p' ∧
    match r with
    | Some s => demo_held !! s = None ∧
                ∃ v, slots p' !! s = Some v ∧ sl_fd v = Z.of_nat s
    | None => env_slab_malloc (Env := demo_env) (p_mallocs pool_e) = false ∧
              ∀ s, (s < length (slots pool_e))%nat →
                is_Some (demo_held !! s)
    end.
Proof.
  apply (allocate_gives_unused_descriptor (H := demo_env) _ _ demo_fd_steps).
  unfold room. by vm_compute.
Defined.

Lemma get_from_fd_by_position_witness :
  sfs_filedescriptor_get_from_fd 4087 pool_e =
    if 4087 <? 0 then Crash AssertFailed
    else Done (if 4087 <? Z.of_nat (length (slots pool_e)) then Some (Z.to_nat 4087) else None) pool_e.
Proof. exact (get_from_fd_by_position (H := demo_env) _ _ 4087 demo_fd_steps). Defined.
