(* ===== verification/FdTest.v ===== *)
(** * filedescriptor_test.c: the program's own test of the pool

    The test as a definition, for any number of descriptors, and the theorem
    that it passes. *)

From S2P Require Export FdTheorems.

Section test.
  Context `{Env}.

(** [fd->fd] of an allocation that returned NULL is undefined. *)
Definition allocated (o : option nat) : M pool nat :=
  match o with
  | Some s => mret s
  | None => crash_with UndefinedBehaviour
  end.

Definition allocate_and_free : M pool (() + ()) :=
  for_range 0 10 tt (λ _ _,
    o ← sfs_filedescriptor_allocate;
    s ← allocated o;
    sfs_filedescriptor_free s;;
    mret (Continue tt)).

Definition allocate_many (big : Z) : M pool (list nat + ()) :=
  for_range 0 big [] (λ i arr,
    o ← sfs_filedescriptor_allocate;
    s ← allocated o;
    v ← deref s;
    assert_ (sl_fd v =? i);;
    mret (Continue (arr ++ [s]))).

Definition free_many (big : Z) (arr : list nat) : M pool (() + ()) :=
  for_range 0 big tt (λ i _,
    match arr !! Z.to_nat i with
    | Some s => sfs_filedescriptor_free s;; mret (Continue tt)
    | None => crash_with UndefinedBehaviour
    end).

(** [main], after the pool is made; [big] is BIG_NUMBER. *)
Definition test_main (big : Z) : M pool () :=
  _ ← allocate_and_free;
  e ← allocate_many big;
  match e with
  | inl arr => _ ← free_many big arr; sfs_filedescriptor_pool_deinit
  | inr _ => mret tt
  end.

Lemma seq_cons i n : (0 < n)%nat → seq i n = i :: seq (S i) (n - 1).
Proof. intros. destruct n as [|n]; [lia|]. simpl. by rewrite Nat.sub_0_r. Qed.

Lemma allocate_first p s L :
  pool_ok p (s :: L) →
  wp sfs_filedescriptor_allocate p (λ o p', o = Some s ∧ pool_ok p' L ∧ slots p' = slots p).
Proof.
  intros Hp. destruct (allocate_rec_cons 1 p s L Hp) as (p' & Hrun & Hp' & Hs & _).
  by eapply wp_done.
Qed.

Lemma free_spec p L s :
  pool_ok p L → (s < length (slots p))%nat → s ∉ L →
  wp (sfs_filedescriptor_free s) p (λ _ p', pool_ok p' (s :: L) ∧
    length (slots p') = length (slots p)).
Proof.
  intros Hp [v Hv]%lookup_lt_is_Some Hs.
  destruct (free_ok p L s v Hp Hv Hs) as (p' & Hrun & Hp' & E & _).
  eapply wp_done; [exact Hrun|]. split; [done|]. by rewrite E, length_insert.
Qed.

Lemma allocate_and_free_spec p :
  pool_ok p (seq 0 slots_per_slab) → length (slots p) = slots_per_slab →
  wp allocate_and_free p (λ _ p', pool_ok p' (seq 0 slots_per_slab) ∧
    length (slots p') = slots_per_slab).
Proof.
  intros Hp Hl. pose proof slots_per_slab_pos.
  apply (wp_for_range (λ _ _ q, pool_ok q (seq 0 slots_per_slab) ∧
                               length (slots q) = slots_per_slab)); [lia|done| |done].
  intros i [] q _ [Hq Hlq]. rewrite seq_cons in Hq |- * by done.
  wp_apply allocate_first; [done|]. intros ? q1 (-> & Hq1 & Hs1). simpl. wp_pure.
  wp_apply (free_spec q1); [done|by rewrite Hs1, Hlq| |].
  - rewrite elem_of_seq. lia.
  - intros _ q2 [Hq2 Hl2]. wp_pure. split; [done|]. by rewrite Hl2, Hs1.
Qed.

(** The [i]-th allocation gives the descriptor [i]. *)
Definition many_inv (i : Z) (arr : list nat) (p : pool) : Prop :=
  arr = seq 0 (Z.to_nat i) ∧ (Z.to_nat i ≤ length (slots p))%nat ∧
  pool_ok p (seq (Z.to_nat i) (length (slots p) - Z.to_nat i)).

Lemma allocate_many_spec big p :
  (∀ n, env_slab_malloc n = true) → 0 ≤ big → big + Z.of_nat slots_per_slab ≤ 2 ^ 31 →
  many_inv 0 [] p → wp (allocate_many big) p (λ e p', ∃ arr, e = inl arr ∧ many_inv big arr p').
Proof.
  intros Hm Hb Hroom Hinit. pose proof slots_per_slab_pos.
  apply (wp_for_range many_inv); [done|done| |by eauto].
  intros i arr q Hi (-> & Hle & Hq).
  assert (wp sfs_filedescriptor_allocate q (λ o q', o = Some (Z.to_nat i) ∧
    (Z.to_nat i < length (slots q'))%nat ∧
    pool_ok q' (seq (S (Z.to_nat i)) (length (slots q') - S (Z.to_nat i))))) as Ha.
  { destruct (decide (Z.to_nat i < length (slots q))%nat) as [Hlt|Hge].
    - rewrite seq_cons in Hq by lia. eapply wp_mono; [by apply allocate_first|].
      intros o q' (-> & Hq' & Hs). rewrite Hs. split_and!; [done|done|].
      by replace (length (slots q) - S (Z.to_nat i))%nat
        with (length (slots q) - Z.to_nat i - 1)%nat by lia.
    - replace (length (slots q) - Z.to_nat i)%nat with 0%nat in Hq by lia. simpl in Hq.
      destruct (allocate_grow q Hq (Hm _)) as (q' & Hrun & Hq' & Hs & _); [unfold room; lia|].
      assert (length (slots q) = Z.to_nat i) as E by lia. rewrite E in *.
      eapply wp_done; [exact Hrun|]. rewrite Hs. simpl. rewrite length_app, length_init_slab, E.
      split_and!; [done|lia|].
      by replace (Z.to_nat i + slots_per_slab - S (Z.to_nat i))%nat with (slots_per_slab - 1)%nat by lia. }
  wp_apply Ha. intros o q1 (-> & Hlt & Hq1). simpl. wp_pure.
  apply lookup_lt_is_Some in Hlt as [v Hv].
  apply wp_bind. eapply wp_done; [by apply deref_ok|].
  rewrite (po_fd _ _ Hq1 _ _ Hv). apply wp_bind, wp_assert; [apply Z.eqb_eq; lia|]. wp_pure.
  apply lookup_lt_Some in Hv. unfold many_inv. replace (Z.to_nat (i + 1)) with (S (Z.to_nat i)) by lia.
  split_and!; [by rewrite seq_S|lia|done].
Qed.

Lemma free_many_spec big p L :
  0 ≤ big → pool_ok p L → (Z.to_nat big ≤ length (slots p))%nat →
  (∀ s, s ∈ L → (Z.to_nat big ≤ s)%nat) →
  wp (free_many big (seq 0 (Z.to_nat big))) p (λ _ p', ∃ L', pool_ok p' L').
Proof.
  intros Hb Hp Hl HL.
  apply (wp_for_range (λ i _ q, (Z.to_nat big ≤ length (slots q))%nat ∧ ∃ L', pool_ok q L' ∧
    ∀ s, s ∈ L' → (Z.to_nat big ≤ s)%nat ∨ (s < Z.to_nat i)%nat)); [done|by eauto 6| |].
  - intros i [] q Hi (Hlq & L' & Hq & HL'). rewrite lookup_seq_lt by lia. simpl.
    wp_apply (free_spec q L'); [done|lia|intros Hin; specialize (HL' _ Hin); lia|].
    intros _ q1 [Hq1 Hl1]. wp_pure. split; [lia|]. eexists. split; [exact Hq1|].
    intros s [->|Hs]%elem_of_cons; [lia|]. specialize (HL' _ Hs). lia.
  - intros [] q (_ & L' & Hq & _). by exists L'.
Qed.

(** C31: the test passes.  When [malloc] does not fail, [main] of
    filedescriptor_test.c runs to its end for every number of descriptors that
    leaves room in an [int]: allocating and freeing reuses one slot, the i-th
    of many allocations gives descriptor i across the slabs, and all of them
    can be freed. *)
Theorem filedescriptor_test_passes big :
  (∀ n, env_slab_malloc n = true) → 0 ≤ big → big + Z.of_nat slots_per_slab ≤ 2 ^ 31 →
  ∃ p, test_main big new_pool = Done tt p.
Proof.
  intros Hm Hb Hroom. enough (wp (test_main big) new_pool (λ _ _, True)) as Hwp.
  { destruct (proj1 (wp_iff _ _ _) Hwp) as ([] & p & Hrun & _). exists p. exact Hrun. }
  unfold test_main. wp_apply allocate_and_free_spec; [apply pool_ok_init|apply length_init_slab|].
  intros _ p1 [Hp1 Hl1].
  wp_apply allocate_many_spec; [done|done|done| |].
  { split_and!; [done|lia|]. by rewrite Hl1, Nat.sub_0_r. }
  intros ? p2 (arr & -> & -> & Hle & Hp2).
  wp_apply free_many_spec; [done|exact Hp2|done|intros s Hs%elem_of_seq; lia|].
  intros _ p3 (L3 & Hp3). unfold sfs_filedescriptor_pool_deinit. wp_pure.
  apply wp_bind, wp_assert; [|by wp_pure].
  pose proof (po_slabs _ _ Hp3). by rewrite (proj2 (Nat.eqb_neq _ 0)) by lia.
Qed.

(** Closing the pool: [sfs_filedescriptor_pool_deinit] frees every slab but the
    last one of the list. *)
Lemma pool_deinit_spec p L :
  pool_ok p L → ∃ p', sfs_filedescriptor_pool_deinit p = Done tt p' ∧
    nslabs p' = 1%nat ∧ slots p' = drop ((nslabs p - 1) * slots_per_slab) (slots p).
Proof.
  intros Hp. pose proof (po_slabs _ _ Hp).
  assert (∀ n q, (n < nslabs q)%nat → nslabs (deinit_loop n q) = (nslabs q - n)%nat ∧
            slots (deinit_loop n q) = drop (n * slots_per_slab) (slots q)) as Hloop.
  { induction n as [|n IH]; intros q Hn; simpl; [by rewrite Nat.sub_0_r|].
    destruct (IH (Pool (nslabs q - 1) (drop slots_per_slab (slots q)) (freelist q) (p_mallocs q)))
      as [-> ->]; simpl; [lia|]. rewrite drop_drop. split; [lia|]. done. }
  destruct (Hloop (nslabs p - 1)%nat p ltac:(lia)) as [Hn Hs].
  exists (deinit_loop (nslabs p - 1) p). split_and!; [|rewrite Hn; lia|done].
  unfold sfs_filedescriptor_pool_deinit. run.
  by rewrite (proj2 (Nat.eqb_neq _ 0)) by lia.
Qed.

End test.

(** ** Instances *)
Lemma filedescriptor_test_passes_witness : ∃ p, test_main (H := demo_env) 1000000 new_pool = Done tt p.
Proof.
  apply (filedescriptor_test_passes (H := demo_env)); [done|lia|]. rewrite slots_per_slab_Z. lia.
Defined.

