(* ===== verification/SfsTheorems.v ===== *)
(** * Properties of sfs_read and sfs_write *)

From S2P Require Export SfsFiles FileTheorems FdTheorems.

(** Descriptor [fh] is open for the file of [inode], and no handler runs. *)
Record open_at (s : sfs_state) (fh : Z) (fs : filesystem) (inode : sfs_fs_inode) : Prop := OpenAt {
  oa_mu : mu s = false;
  oa_fs : s_fs s = inr fs;
  oa_fd : ∃ p L n v, fd_pool s = Some p ∧ pool_ok p L ∧ fh = Z.of_nat n ∧ Z.of_nat n < 2 ^ 31 ∧
    slots p !! n = Some v ∧ (n ∉ L) ∧ sl_word v = WInt (i_inumber inode);
}.

Section state.
  Context `{Env, !ReliableIO, !EnvOk}.

(** ** Steps of the handlers *)
Lemma wp_at_fs {A} (m : M filesystem A) s fs (Q : A → sfs_state → Prop) :
  s_fs s = inr fs → wp m fs (λ a fs', Q a (set_fs (inr fs') s)) → wp (at_fs m) s Q.
Proof. intros Hs Hm. unfold at_fs, wp, zoom in *. rewrite Hs. by destruct (m fs). Qed.

Lemma at_world_done {A} (m : M world A) s fs a fs' :
  s_fs s = inr fs → at_disk m fs = Done a fs' → at_world m s = Done a (set_fs (inr fs') s).
Proof.
  unfold at_world, at_disk, zoom. intros ->. simpl. destruct (m (disk fs)); [|discriminate].
  by intros [= -> <-].
Qed.

Lemma at_pool_done {A} (m : M pool A) s p a p' :
  fd_pool s = Some p → m p = Done a p' → at_pool m s = Done a (set_pool (Some p') s).
Proof. unfold at_pool, zoom. by intros -> ->. Qed.

Lemma set_pool_id s p : fd_pool s = Some p → set_pool (Some p) s = s.
Proof. destruct s. simpl. by intros ->. Qed.

(** Looking up the descriptor and reading its inode number. *)
Lemma get_fd_open s fh fs inode :
  open_at s fh fs inode →
  ∃ n, get_fd fh s = Done (Some n) s ∧ at_pool (fd_inumber n) s = Done (i_inumber inode) s.
Proof.
  intros [_ _ (p & L & n & v & Hp & Hok & -> & Hn & Hv & _ & Hw)]. exists n. split.
  - unfold get_fd. rewrite int32_small by lia.
    erewrite at_pool_done; [|done|by apply (get_from_fd_ok p L); [|lia]].
    apply lookup_lt_Some in Hv.
    by rewrite (proj2 (Z.ltb_lt _ _)), Nat2Z.id, set_pool_id by (done || lia).
  - erewrite at_pool_done; [by rewrite set_pool_id|done|].
    unfold fd_inumber. erewrite bind_done by by apply deref_ok. by rewrite Hw.
Qed.

Lemma open_at_set_fs s fh fs inode fs' inode' :
  open_at s fh fs inode → i_inumber inode' = i_inumber inode →
  open_at (set_fs (inr fs') s) fh fs' inode'.
Proof. intros [] Hn. split; simpl; [done|done|by rewrite Hn]. Qed.

Lemma wp_unlock_ret {A} (a : A) s (Q : A → sfs_state → Prop) :
  Q a (set_mu false s) → wp (unlock_ret a) s Q.
Proof. done. Qed.

(** The state with the mutex held, in the middle of a handler. *)
Definition inside (s : sfs_state) (fh : Z) (fs : filesystem) (inode : sfs_fs_inode) : Prop :=
  open_at (set_mu false s) fh fs inode.

Lemma get_fd_inside s fh fs inode :
  inside s fh fs inode →
  ∃ n, get_fd fh s = Done (Some n) s ∧ at_pool (fd_inumber n) s = Done (i_inumber inode) s.
Proof.
  intros [Hm Hf (p & L & n & v & Hp & Hok & -> & Hn & Hv & HnL & Hw)]. simpl in *.
  destruct (get_fd_open (set_mu false s) (Z.of_nat n) fs inode) as (m & E1 & E2).
  { split; simpl; eauto 12. }
  exists m. unfold get_fd, at_pool in *. simpl in *. rewrite Hp in *. unfold zoom in *.
  destruct (sfs_filedescriptor_get_from_fd _ p) eqn:E; simplify_eq.
  destruct (fd_inumber m p) eqn:E'; simplify_eq.
  destruct s. simpl in *. unfold set_pool, set_mu in *. simpl in *. by simplify_eq.
Qed.

(** Both transfers start alike: the inode of the descriptor is read and
    written back with new times and size. *)
Lemma inside_set_fs s fh fs inode fs' inode' :
  inside s fh fs inode → i_inumber inode' = i_inumber inode →
  inside (set_fs (inr fs') s) fh fs' inode'.
Proof. intros Hi Hn. exact (open_at_set_fs _ _ _ _ fs' inode' Hi Hn). Qed.

Lemma at_fs_done {A} (m : M filesystem A) s fs a fs' :
  s_fs s = inr fs → m fs = Done a fs' → at_fs m s = Done a (set_fs (inr fs') s).
Proof. unfold at_fs, zoom. by intros -> ->. Qed.

Lemma touch_inode s fh fs inode F inode' :
  inside s fh fs inode → file_state fs inode F →
  i_inumber inode' = i_inumber inode → i_block_pointers inode' = i_block_pointers inode →
  inode_ok inode' = true →
  ∃ fs', at_fs (sfs_fs_write_inode inode') s = Done 0 (set_fs (inr fs') s) ∧
    inside (set_fs (inr fs') s) fh fs' inode' ∧ same_file fs inode F fs' inode'.
Proof.
  intros Hi Hf Hn Hp Hok.
  destruct (proj1 (wp_iff _ _ _) (update_inode_ok _ _ inode' _ Hf Hn Hp Hok))
    as (r & fs' & Hrun & -> & Hf' & Habs & Hb).
  exists fs'. split_and!; [by eapply at_fs_done; [apply (oa_fs _ _ _ _ Hi)|]|by eapply inside_set_fs|].
  split; [done|by eapply update_inode_others|done|exact Habs|exact Hn].
Qed.

Lemma read_own_inode s fh fs inode F :
  inside s fh fs inode → file_state fs inode F →
  ∃ fs', at_fs (sfs_fs_read_inode (i_inumber inode)) s = Done (Some inode) (set_fs (inr fs') s) ∧
    inside (set_fs (inr fs') s) fh fs' inode ∧ same_file fs inode F fs' inode.
Proof.
  intros Hi Hf.
  destruct (proj1 (wp_iff _ _ _) (read_inode_spec _ _ (f_ok _ _ _ Hf) (f_valid _ _ _ Hf)))
    as (r & fs' & Hrun & -> & Hok' & Habs).
  rewrite (f_stored _ _ _ Hf) in Hrun. exists fs'. split_and!.
  - by eapply at_fs_done; [apply (oa_fs _ _ _ _ Hi)|].
  - by eapply inside_set_fs.
  - by apply same_file_equiv.
Qed.

Lemma time_in_handler s fh fs inode F :
  inside s fh fs inode → file_state fs inode F →
  ∃ t fs', at_world time_ s = Done t (set_fs (inr fs') s) ∧ 0 ≤ t < 2 ^ 64 ∧
    inside (set_fs (inr fs') s) fh fs' inode ∧ same_file fs inode F fs' inode.
Proof.
  intros Hi Hf.
  destruct (proj1 (wp_iff _ _ _) (time_spec _ (f_ok _ _ _ Hf))) as (t & fs' & Hrun & Ht & Hok' & Habs).
  exists t, fs'. split_and!; [|apply Ht|apply Ht| |].
  - eapply at_world_done; [exact (oa_fs _ _ _ _ Hi)|exact Hrun].
  - by eapply inside_set_fs.
  - apply same_file_equiv; [done|done|by rewrite Habs].
Qed.

(** ** Reading *)
Lemma read_prologue s fh fs inode F buf size offset :
  open_at s fh fs inode → file_state fs inode F → size ≠ 0 →
  ∃ t fs', let inode' := set_access_time t inode in let s' := set_fs (inr fs') (set_mu true s) in
    sfs_read buf size offset fh s =
      (r ← at_fs (read_blocks inode' buf size offset); unlock_ret r) s' ∧
    inside s' fh fs' inode' ∧ same_file fs inode F fs' inode'.
Proof.
  intros Ho Hf Hsz. unfold sfs_read, lock. run. rewrite (oa_mu _ _ _ _ Ho). run.
  rewrite (proj2 (Z.eqb_neq _ _) Hsz).
  assert (inside (set_mu true s) fh fs inode) as Hi by (destruct Ho; split; done).
  destruct (get_fd_inside _ _ _ _ Hi) as (n & E1 & E2).
  rewrite (bind_done _ _ _ _ _ E1), (bind_done _ _ _ _ _ E2).
  destruct (read_own_inode _ _ _ _ _ Hi Hf) as (fs1 & E3 & Hi1 & Hf1).
  rewrite (bind_done _ _ _ _ _ E3).
  destruct (time_in_handler _ _ _ _ _ Hi1 (sf_state _ _ _ _ _ Hf1)) as (t & fs2 & E4 & Ht & Hi2 & Hf2).
  rewrite (bind_done _ _ _ _ _ E4).
  destruct (touch_inode _ _ _ _ _ (set_access_time t inode) Hi2 (sf_state _ _ _ _ _ Hf2)) as (fs3 & E5 & Hi3 & Hf3);
    [done|done|by apply inode_ok_set_access_time; [apply (f_inode _ _ _ Hf)|]|].
  cbv zeta. rewrite (bind_done _ _ _ _ _ E5).
  exists t, fs3. split; [reflexivity|]. split; [exact Hi3|].
  exact (same_file_trans _ _ _ _ _ _ _ (same_file_trans _ _ _ _ _ _ _ Hf1 Hf2) Hf3).
Qed.

(** Reading whole blocks from the start of a file. *)
Lemma read_whole_spec s fh fs inode F k buf :
  open_at s fh fs inode → file_state fs inode F → 1 ≤ k ≤ file_blocks →
  length buf = Z.to_nat (k * BLOCK_SIZE) →
  ∃ buf' s' fs' t,
    sfs_read buf (k * BLOCK_SIZE) 0 fh s = Done (k * BLOCK_SIZE, buf') s' ∧
    length buf' = length buf ∧
    (∀ j, 0 ≤ j < k → buf_block buf' j = file_block (abs fs) inode j) ∧
    open_at s' fh fs' (set_access_time t inode) ∧ same_file fs inode F fs' (set_access_time t inode).
Proof.
  intros Ho Hf Hk Hlen.
  enough (wp (sfs_read buf (k * BLOCK_SIZE) 0 fh) s (λ '(r, buf') s', r = k * BLOCK_SIZE ∧
    length buf' = length buf ∧ (∀ j, 0 ≤ j < k → buf_block buf' j = file_block (abs fs) inode j) ∧
    ∃ fs' t, open_at s' fh fs' (set_access_time t inode) ∧
      same_file fs inode F fs' (set_access_time t inode))) as Hwp.
  { apply wp_pair in Hwp as (r & buf' & s' & Hrun & -> & ? & ? & fs' & t & ? & ?).
    exists buf', s', fs', t. by split_and!. }
  destruct (read_prologue s fh fs inode F buf (k * BLOCK_SIZE) 0 Ho Hf)
    as (t & fs1 & Hrun & Hin & Hsame); [unfold BLOCK_SIZE; lia|].
  pose proof (sf_state _ _ _ _ _ Hsame) as Hf1.
  unfold wp at 1. rewrite Hrun. apply wp_bind.
  eapply wp_at_fs; [apply (oa_fs _ _ _ _ Hin)|].
  eapply wp_mono; [by eapply read_blocks_spec|].
  intros [r buf'] fs2 (-> & Hf2 & Habs2 & Hl & Hb). apply wp_unlock_ret. split_and!; [done|done| |].
  - intros j Hj. rewrite Hb by done. apply (sf_block _ _ _ _ _ Hsame). lia.
  - exists fs2, t. split; [by apply (open_at_set_fs _ _ _ _ fs2 (set_access_time t inode) Hin)|].
    eapply same_file_trans; [exact Hsame|].
    apply same_file_equiv; [exact Hf1|exact (f_ok _ _ _ Hf2)|exact Habs2].
Qed.

(** ** Writing *)
Lemma write_prologue s fh fs inode F buf size offset :
  open_at s fh fs inode → file_state fs inode F → size ≠ 0 →
  ∃ inode1 fs', let s' := set_fs (inr fs') (set_mu true s) in
    sfs_write buf size offset fh s =
      (r ← at_fs (write_blocks inode1 buf size offset); unlock_ret r) s' ∧
    i_inumber inode1 = i_inumber inode ∧ i_block_pointers inode1 = i_block_pointers inode ∧
    i_size inode1 = Z.max (i_size inode) (u64 (offset + size)) ∧
    inside s' fh fs' inode1 ∧ same_file fs inode F fs' inode1 ∧
    i_mode inode1 = i_mode inode ∧ i_links inode1 = i_links inode ∧ i_uid inode1 = i_uid inode.
Proof.
  intros Ho Hf Hsz. unfold sfs_write, lock. run. rewrite (oa_mu _ _ _ _ Ho). run.
  rewrite (proj2 (Z.eqb_neq _ _) Hsz).
  assert (inside (set_mu true s) fh fs inode) as Hi by (destruct Ho; split; done).
  destruct (get_fd_inside _ _ _ _ Hi) as (n & E1 & E2).
  rewrite (bind_done _ _ _ _ _ E1), (bind_done _ _ _ _ _ E2).
  destruct (read_own_inode _ _ _ _ _ Hi Hf) as (fs1 & E3 & Hi1 & Hf1).
  rewrite (bind_done _ _ _ _ _ E3).
  destruct (time_in_handler _ _ _ _ _ Hi1 (sf_state _ _ _ _ _ Hf1)) as (t & fs2 & E4 & Ht & Hi2 & Hf2).
  rewrite (bind_done _ _ _ _ _ E4). cbv zeta.
  assert (0 ≤ u64 (offset + size) < 2 ^ 64) as Hu by by apply Z.mod_pos_bound.
  pose proof (inode_ok_set_access_time t inode (f_inode _ _ _ Hf) Ht) as Hio.
  change (i_size (set_access_time t inode)) with (i_size inode).
  destruct (Z.ltb_spec (i_size inode) (u64 (offset + size))) as [Hlt|Hge].
  - destruct (time_in_handler _ _ _ _ _ Hi2 (sf_state _ _ _ _ _ Hf2)) as (t2 & fs3 & E5 & Ht2 & Hi3 & Hf3).
    rewrite bind_assoc, (bind_done _ _ _ _ _ E5). cbv beta. rewrite bind_ret.
    set (inode1 := set_size_ _ _).
    destruct (touch_inode _ _ _ _ _ inode1 Hi3 (sf_state _ _ _ _ _ Hf3)) as (fs4 & E6 & Hi4 & Hf4);
      [done|done|by apply inode_ok_set_size; [apply inode_ok_set_change_time|]|].
    rewrite (bind_done _ _ _ _ _ E6). exists inode1, fs4. split; [reflexivity|].
    split_and!; [done|done|simpl; lia|exact Hi4| |done|done|done].
    exact (same_file_trans _ _ _ _ _ _ _ (same_file_trans _ _ _ _ _ _ _ (same_file_trans _ _ _ _ _ _ _ Hf1 Hf2) Hf3) Hf4).
  - rewrite bind_ret. set (inode1 := set_access_time _ _).
    destruct (touch_inode _ _ _ _ _ inode1 Hi2 (sf_state _ _ _ _ _ Hf2)) as (fs4 & E6 & Hi4 & Hf4); [done..|].
    rewrite (bind_done _ _ _ _ _ E6). exists inode1, fs4. split; [reflexivity|].
    split_and!; [done|done|simpl; lia|exact Hi4| |done|done|done].
    exact (same_file_trans _ _ _ _ _ _ _ (same_file_trans _ _ _ _ _ _ _ Hf1 Hf2) Hf4).
Qed.

Lemma write_whole_spec s fh fs inode F k buf :
  open_at s fh fs inode → file_state fs inode F → 1 ≤ k ≤ file_blocks →
  length buf = Z.to_nat (k * BLOCK_SIZE) →
  k ≤ SFS_NDIR_BLOCKS ∨ bp inode SFS_IND_BLOCK ≠ 0 → k ≤ Z.of_nat (length F) →
  wp (sfs_write buf (k * BLOCK_SIZE) 0 fh) s (λ r s', r = k * BLOCK_SIZE ∧
    ∃ fs' inode' F', open_at s' fh fs' inode' ∧ file_state fs' inode' F' ∧
      i_size inode' = Z.max (i_size inode) (k * BLOCK_SIZE) ∧
      i_inumber inode' = i_inumber inode ∧ others_kept fs inode F fs' inode' F' ∧
      ∀ j, 0 ≤ j < file_blocks →
        file_block (abs fs') inode' j = if j <? k then buf_block buf j else file_block (abs fs) inode j).
Proof.
  intros Ho Hf Hk Hlen Hcase HF.
  destruct (write_prologue s fh fs inode F buf (k * BLOCK_SIZE) 0 Ho Hf)
    as (inode1 & fs1 & Hrun & Hn & Hp & Hs & Hin & [Hf1 Ho1 Hb1 _ _] & _); [unfold BLOCK_SIZE; lia|].
  unfold wp at 1. rewrite Hrun. apply wp_bind.
  eapply wp_at_fs; [apply (oa_fs _ _ _ _ Hin)|].
  eapply wp_mono; [eapply write_blocks_spec; [exact Hf1|done|done| |done]|].
  { unfold bp in *. by rewrite Hp. }
  intros r fs2 (-> & inode2 & F2 & Hf2 & Hmem & Ho2 & Hb2). apply wp_unlock_ret. split; [done|].
  exists fs2, inode2, F2. split_and!.
  - apply (open_at_set_fs _ _ _ _ fs2 inode2 Hin). by destruct inode1, inode2; simplify_eq/=.
  - done.
  - rewrite Z.add_0_l, u64_small in Hs by (unfold BLOCK_SIZE; change file_blocks with 76 in Hk; lia).
    by destruct inode1, inode2; simplify_eq/=.
  - rewrite <-Hn. exact (f_equal i_inumber Hmem).
  - by eapply others_kept_trans.
  - intros j Hj. rewrite Hb2 by done. destruct (j <? k); auto.
Qed.

(** C10: what is written is read back.  [sfs_write] of k whole blocks at the
    start of a file that is open, with free blocks for them, returns the size,
    makes the file at least that large and leaves the blocks behind as they
    were; [sfs_read] of k blocks then returns the bytes written.  Every other
    file keeps its inode and its blocks. *)
Theorem write_then_read s fh fs inode F k buf buf0 :
  open_at s fh fs inode → file_state fs inode F → 1 ≤ k ≤ file_blocks →
  length buf = Z.to_nat (k * BLOCK_SIZE) → length buf0 = length buf →
  k ≤ SFS_NDIR_BLOCKS ∨ bp inode SFS_IND_BLOCK ≠ 0 → k ≤ Z.of_nat (length F) →
  ∃ s1 fs1 inode1 F1 s2,
    sfs_write buf (k * BLOCK_SIZE) 0 fh s = Done (k * BLOCK_SIZE) s1 ∧
    open_at s1 fh fs1 inode1 ∧ file_state fs1 inode1 F1 ∧
    i_size inode1 = Z.max (i_size inode) (k * BLOCK_SIZE) ∧
    (∀ j, k ≤ j < file_blocks → file_block (abs fs1) inode1 j = file_block (abs fs) inode j) ∧
    others_kept fs inode F fs1 inode1 F1 ∧
    sfs_read buf0 (k * BLOCK_SIZE) 0 fh s1 = Done (k * BLOCK_SIZE, buf) s2.
Proof.
  intros Ho Hf Hk Hlen Hlen0 Hcase HF.
  destruct (proj1 (wp_iff _ _ _) (write_whole_spec _ _ _ _ _ k buf Ho Hf Hk Hlen Hcase HF))
    as (r & s1 & Hrun & -> & fs1 & inode1 & F1 & Ho1 & Hf1 & Hs1 & _ & Hoth & Hb1).
  assert (length buf0 = Z.to_nat (k * BLOCK_SIZE)) as Hl0 by congruence.
  destruct (read_whole_spec s1 fh fs1 inode1 F1 k buf0 Ho1 Hf1 Hk Hl0)
    as (buf' & s2 & _ & _ & Hrun2 & Hl2 & Hb2 & _).
  assert (buf' = buf) as ->.
  { apply (buf_blocks_eq k); [congruence|congruence|]. intros j Hj. rewrite Hb2, Hb1 by lia.
    by rewrite (proj2 (Z.ltb_lt _ _)) by lia. }
  exists s1, fs1, inode1, F1, s2. split_and!; try done.
  intros j Hj. rewrite Hb1 by lia. by rewrite (proj2 (Z.ltb_ge _ _)) by lia.
Qed.

(** ** Transfers that go wrong *)
Lemma bind_at_fs_crash {A B} (m : M filesystem A) (f : A → M sfs_state B) s fs c :
  s_fs s = inr fs → m fs = Crash c → (at_fs m ≫= f) s = Crash c.
Proof. intros Hs Hm. apply bind_crash. unfold at_fs, zoom. by rewrite Hs, Hm. Qed.

Lemma transfer_later q k :
  1 ≤ k ≤ q → q ≤ 2 ^ 40 →
  first_block (q * BLOCK_SIZE) = q ∧ first_block_offset (q * BLOCK_SIZE) = 0 ∧
  last_block (q * BLOCK_SIZE) (k * BLOCK_SIZE) = q + k - 1 ∧
  slice_a (q * BLOCK_SIZE) q = 0 ∧ slice_b (q * BLOCK_SIZE) (k * BLOCK_SIZE) q = BLOCK_SIZE.
Proof.
  intros Hk Hq.
  assert (first_block (q * BLOCK_SIZE) = q) as E1.
  { unfold first_block, BLOCK_SIZE. by rewrite Z.quot_mul, u64_small by lia. }
  assert (first_block_offset (q * BLOCK_SIZE) = 0) as E2.
  { unfold first_block_offset, BLOCK_SIZE. by rewrite Z.rem_mul by lia. }
  assert (u64 (q * BLOCK_SIZE + k * BLOCK_SIZE) = (q + k) * BLOCK_SIZE) as E.
  { unfold BLOCK_SIZE. rewrite u64_small; lia. }
  assert (last_block_len (q * BLOCK_SIZE) (k * BLOCK_SIZE) = BLOCK_SIZE) as E4.
  { unfold last_block_len. rewrite E. unfold BLOCK_SIZE. by rewrite Z.mod_mul by lia. }
  assert (last_block (q * BLOCK_SIZE) (k * BLOCK_SIZE) = q + k - 1) as E3.
  { unfold last_block. rewrite E4, Z.eqb_refl, E. unfold BLOCK_SIZE.
    by rewrite Z.div_mul, u64_small by lia. }
  split_and!; [done..| |].
  - unfold slice_a. by rewrite E2, andb_false_r.
  - unfold slice_b. by rewrite E4, andb_false_r.
Qed.

Lemma for_range_crash {S A R} lo hi (acc : A) (body : Z → A → M S (ctl A R)) s c :
  lo < hi → body lo acc s = Crash c → for_range lo hi acc body s = Crash c.
Proof.
  intros Hlt Hb. unfold for_range. replace (Z.to_nat (hi - lo)) with (Datatypes.S (Z.to_nat (hi - lo - 1))) by lia.
  simpl. by apply bind_crash.
Qed.

Lemma for_range_return {S A R} lo hi (acc : A) (body : Z → A → M S (ctl A R)) s r s' :
  lo < hi → body lo acc s = Done (Return r) s' → for_range lo hi acc body s = Done (inr r) s'.
Proof.
  intros Hlt Hb. unfold for_range. replace (Z.to_nat (hi - lo)) with (Datatypes.S (Z.to_nat (hi - lo - 1))) by lia.
  simpl. by rewrite (bind_done _ _ _ _ _ Hb).
Qed.

Section later.
  Context (q k : Z) (buf : list byte).
  Context (Hk : 1 ≤ k ≤ q) (Hq : q ≤ 2 ^ 40) (Hlen : length buf = Z.to_nat (k * BLOCK_SIZE)).
Let offset := q * BLOCK_SIZE.
Let size := k * BLOCK_SIZE.

Lemma window_later : in_buffer buf (q * BLOCK_SIZE) BLOCK_SIZE = false.
Proof. unfold in_buffer. apply andb_false_iff. right. apply Z.leb_gt. unfold BLOCK_SIZE in *. lia. Qed.

Lemma read_blocks_later fs inode F :
  file_state fs inode F → q < file_blocks → read_blocks inode buf size offset fs = Crash UndefinedBehaviour.
Proof.
  intros Hf Hq76. destruct (transfer_later q k Hk Hq) as (E1 & E2 & E3 & E4 & E5).
  unfold read_blocks, offset, size. apply bind_crash. rewrite E1, E3. apply for_range_crash; [lia|].
  unfold read_step. rewrite E2, E4, E5. cbn [Z.eqb andb]. rewrite Z.eqb_refl. cbv zeta. rewrite Z.add_0_l.
  destruct (proj1 (wp_iff _ _ _) (block_read_ok_file fs inode F q (window buf (q * BLOCK_SIZE)) Hf ltac:(lia)
    ltac:(unfold window; by rewrite window_later))) as (r & fs1 & Hrun & -> & _).
  rewrite (bind_done _ _ _ _ _ Hrun). cbn [Z.eqb negb]. apply bind_crash. unfold store.
  rewrite length_file_block. change (Z.of_nat 512) with BLOCK_SIZE. by rewrite window_later.
Qed.

Lemma write_blocks_later fs inode F :
  file_state fs inode F → q < file_blocks → q < SFS_NDIR_BLOCKS ∨ bp inode SFS_IND_BLOCK ≠ 0 → F ≠ [] →
  write_blocks inode buf size offset fs = Crash UndefinedBehaviour.
Proof.
  intros Hf Hq76 Hcase HF. destruct (transfer_later q k Hk Hq) as (E1 & E2 & E3 & E4 & E5).
  unfold write_blocks, offset, size. apply bind_crash. rewrite E1, E3. apply for_range_crash; [lia|].
  unfold write_step. rewrite E2, E4, E5. cbn [Z.eqb andb]. rewrite Z.eqb_refl. rewrite Z.add_0_l. apply bind_crash.
  destruct (proj1 (wp_iff _ _ _) (block_write_ok_file fs inode F q (window buf (q * BLOCK_SIZE)) Hf ltac:(lia) Hcase
    ltac:(unfold window; by rewrite window_later) (or_introl HF))) as ([r inode'] & fs1 & Hrun & -> & _).
  unfold block_write_from. rewrite (bind_done _ _ _ _ _ Hrun). rewrite window_later. reflexivity.
Qed.

Lemma blocks_beyond fs inode :
  file_blocks ≤ q →
  read_blocks inode buf size offset fs = Done (-1, buf) fs ∧ write_blocks inode buf size offset fs = Done (-1) fs.
Proof.
  intros Hq76. destruct (transfer_later q k Hk Hq) as (E1 & E2 & E3 & E4 & E5).
  destruct (block_ops_beyond fs inode q (window buf (q * BLOCK_SIZE)) Hq76) as [Er Ew]. split.
  - unfold read_blocks, offset, size. rewrite E1, E3.
    erewrite bind_done; [|apply for_range_return; [lia|]]; [reflexivity|].
    unfold read_step. rewrite E2, E4, E5. cbn [Z.eqb andb]. rewrite Z.eqb_refl. cbv zeta. rewrite Z.add_0_l.
    rewrite (bind_done _ _ _ _ _ Er). cbn [Z.eqb negb]. unfold set_window. by rewrite window_later.
  - unfold write_blocks, offset, size. rewrite E1, E3.
    erewrite bind_done; [|apply for_range_return; [lia|]]; [reflexivity|].
    unfold write_step. rewrite E2, E4, E5. cbn [Z.eqb andb]. rewrite Z.eqb_refl. rewrite Z.add_0_l.
    unfold block_write_from. rewrite bind_assoc, (bind_done _ _ _ _ _ Ew). reflexivity.
Qed.

End later.

(** C32: reading or writing behind the start of a file leaves the caller's
    buffer.  The loops index the buffer with the number of the block in the
    file, not in the transfer.  A transfer of k blocks at block q >= k of the
    file, q below 76, accesses memory outside the buffer when it reaches its
    first block: a read always, a write when there is a free block (and, from
    block 12 on, an indirect block).  From q = 76 on the block is refused
    before the buffer is used, and the answer is -1. *)
Theorem transfer_behind_start_overflows s fh fs inode F q k buf :
  open_at s fh fs inode → file_state fs inode F → 1 ≤ k ≤ q → q ≤ 2 ^ 40 →
  length buf = Z.to_nat (k * BLOCK_SIZE) →
  (q < file_blocks → sfs_read buf (k * BLOCK_SIZE) (q * BLOCK_SIZE) fh s = Crash UndefinedBehaviour) ∧
  (q < file_blocks → q < SFS_NDIR_BLOCKS ∨ bp inode SFS_IND_BLOCK ≠ 0 → F ≠ [] →
     sfs_write buf (k * BLOCK_SIZE) (q * BLOCK_SIZE) fh s = Crash UndefinedBehaviour) ∧
  (file_blocks ≤ q →
     (∃ s', sfs_read buf (k * BLOCK_SIZE) (q * BLOCK_SIZE) fh s = Done (-1, buf) s') ∧
     (∃ s', sfs_write buf (k * BLOCK_SIZE) (q * BLOCK_SIZE) fh s = Done (-1) s')).
Proof.
  intros Ho Hf Hk Hq Hlen. assert (k * BLOCK_SIZE ≠ 0) as Hsz by (unfold BLOCK_SIZE; lia).
  destruct (read_prologue s fh fs inode F buf (k * BLOCK_SIZE) (q * BLOCK_SIZE) Ho Hf Hsz)
    as (t & fs1 & Hrun & Hin & Hsame).
  destruct (write_prologue s fh fs inode F buf (k * BLOCK_SIZE) (q * BLOCK_SIZE) Ho Hf Hsz)
    as (inode2 & fs2 & Hrun2 & _ & Hp2 & _ & Hin2 & Hsame2 & _).
  split; [|split].
  - intros Hq76. rewrite Hrun. eapply bind_at_fs_crash; [apply (oa_fs _ _ _ _ Hin)|].
    by eapply read_blocks_later; [..|apply (sf_state _ _ _ _ _ Hsame)|].
  - intros Hq76 Hcase HF. rewrite Hrun2. eapply bind_at_fs_crash; [apply (oa_fs _ _ _ _ Hin2)|].
    eapply write_blocks_later; [done..|exact (sf_state _ _ _ _ _ Hsame2)|done| |exact HF].
    unfold bp in *. by rewrite Hp2.
  - intros Hq76. split.
    + rewrite Hrun. eexists. erewrite bind_done; [reflexivity|].
      eapply at_fs_done; [apply (oa_fs _ _ _ _ Hin)|]. by apply (blocks_beyond q k buf Hk Hq Hlen).
    + rewrite Hrun2. eexists. erewrite bind_done; [reflexivity|].
      eapply at_fs_done; [apply (oa_fs _ _ _ _ Hin2)|]. by apply (blocks_beyond q k buf Hk Hq Hlen).
Qed.

(** C33: the end of a read that is not whole blocks goes to the wrong place.
    A read of k >= 1 blocks and r more bytes returns the full size, but the r
    last bytes overwrite the first bytes of the buffer, and the end of the
    buffer is left as the caller had it. *)
Theorem partial_read_overwrites_front s fh fs inode F k r buf :
  open_at s fh fs inode → file_state fs inode F → 1 ≤ k < file_blocks → 0 < r < BLOCK_SIZE →
  length buf = Z.to_nat (k * BLOCK_SIZE + r) →
  ∃ buf' s', sfs_read buf (k * BLOCK_SIZE + r) 0 fh s = Done (k * BLOCK_SIZE + r, buf') s' ∧
    slice 0 (Z.to_nat r) buf' = take (Z.to_nat r) (file_block (abs fs) inode k) ∧
    slice (Z.to_nat (k * BLOCK_SIZE)) (Z.to_nat r) buf'
      = slice (Z.to_nat (k * BLOCK_SIZE)) (Z.to_nat r) buf.
Proof.
  intros Ho Hf Hk Hr Hlen.
  destruct (read_prologue s fh fs inode F buf (k * BLOCK_SIZE + r) 0 Ho Hf)
    as (t & fs1 & Hrun & Hin & [Hf1 _ Hb1 _ _]); [unfold BLOCK_SIZE in *; lia|].
  destruct (wp_pair _ _ _ (read_blocks_tail_spec fs1 _ F k r buf Hf1 Hk Hr Hlen))
    as (n & buf' & fs2 & Hrun2 & -> & Hfront & Hend).
  eexists buf', _. split_and!; [| |done].
  - rewrite Hrun. erewrite bind_done; [reflexivity|].
    eapply at_fs_done; [apply (oa_fs _ _ _ _ Hin)|exact Hrun2].
  - rewrite Hfront, Hb1; [done|lia].
Qed.

End state.

(** ** On the small file system: descriptor 1 is open for the file "a" *)
Definition demo_pool : pool := demo_after (fd_set 1 2 0) pool_c.
Definition demo_state : sfs_state := SfsState false (inr demo_fs) (Some demo_pool) false.

Lemma pool_c_ok :
  ∃ L, pool_ok pool_c L ∧ (1 ∉ L)%nat ∧ is_Some (slots pool_c !! 1%nat).
Proof.
  pose proof slots_per_slab_Z as Hz.
  assert (pool_ok new_pool (seq 0 slots_per_slab)) as H0 by exact pool_ok_init.
  replace (seq 0 slots_per_slab) with (0 :: 1 :: seq 2 (slots_per_slab - 2))%nat in H0.
  2: { destruct slots_per_slab as [|[|n]]; [lia|lia|]. simpl. by rewrite Nat.sub_0_r. }
  destruct (allocate_rec_cons (H := demo_env) 1 _ _ _ H0) as (p1 & E1 & H1 & S1 & _).
  assert (pool_a = p1) as Ea by (unfold pool_a, demo_after, sfs_filedescriptor_allocate; by rewrite E1).
  assert (∃ v0, slots p1 !! 0%nat = Some v0) as [v0 Hv0].
  { apply lookup_lt_is_Some. rewrite S1. simpl. rewrite length_init_slab. lia. }
  destruct (fd_set_ok p1 _ 0 v0 2 0 H1 Hv0) as (p2 & E2 & H2 & S2 & _).
  { rewrite elem_of_cons, elem_of_seq. lia. }
  assert (pool_b = p2) as Eb by (unfold pool_b, demo_after; by rewrite Ea, E2).
  destruct (allocate_rec_cons (H := demo_env) 1 _ _ _ H2) as (p3 & E3 & H3 & S3 & _).
  assert (pool_c = p3) as Ec
    by (unfold pool_c, demo_after, sfs_filedescriptor_allocate; by rewrite Eb, E3).
  rewrite Ec. eexists. split; [exact H3|]. split; [rewrite elem_of_seq; lia|].
  apply lookup_lt_is_Some. rewrite S3, S2, length_insert, S1. simpl. rewrite length_init_slab. lia.
Qed.

Lemma demo_open : open_at demo_state 1 demo_fs demo_file.
Proof.
  destruct pool_c_ok as (L & Hp & HL & [v Hv]).
  destruct (fd_set_ok pool_c L 1 v 2 0 Hp Hv HL) as (p' & E & Hp' & S' & _).
  assert (demo_pool = p') as Ed by (unfold demo_pool, demo_after; by rewrite E).
  split; [done|done|]. exists p', L, 1%nat, (Slot (sl_fd v) (WInt 2) (Some 0)).
  split; [simpl; by rewrite Ed|]. split_and!; [done|done|lia| |done|done].
  rewrite S'. apply list_lookup_insert_eq. by eapply lookup_lt_Some.
Qed.

Lemma write_then_read_witness :
  ∃ s1 fs1 inode1 F1 s2,
    sfs_write (H := demo_env) (block_of 67 ++ block_of 68) 1024 0 1 demo_state = Done 1024 s1 ∧
    open_at s1 1 fs1 inode1 ∧ file_state fs1 inode1 F1 ∧ i_size inode1 = Z.max 1024 1024 ∧
    (∀ j, 2 ≤ j < file_blocks → file_block (abs fs1) inode1 j = file_block (abs demo_fs) demo_file j) ∧
    others_kept demo_fs demo_file demo_free fs1 inode1 F1 ∧
    sfs_read (H := demo_env) (replicate 1024 x00) 1024 0 1 s1
      = Done (1024, block_of 67 ++ block_of 68) s2.
Proof.
  apply (write_then_read (H := demo_env) demo_state 1 demo_fs demo_file demo_free 2
           (block_of 67 ++ block_of 68) (replicate 1024 x00) demo_open demo_file_state).
  - by vm_compute.
  - by vm_compute.
  - by vm_compute.
  - left. by vm_compute.
  - by vm_compute.
Defined.

Lemma transfer_behind_start_overflows_witness :
  (sfs_read (H := demo_env) zero_block 512 512 1 demo_state = Crash UndefinedBehaviour ∧
   sfs_write (H := demo_env) zero_block 512 512 1 demo_state = Crash UndefinedBehaviour) ∧
  (∃ s', sfs_read (H := demo_env) zero_block 512 (76 * 512) 1 demo_state = Done (-1, zero_block) s').
Proof.
  split.
  - destruct (transfer_behind_start_overflows (H := demo_env) demo_state 1 demo_fs demo_file demo_free 1 1
      zero_block demo_open demo_file_state ltac:(done) ltac:(done) eq_refl) as (Hr & Hw & _).
    split; [by apply Hr|]. apply Hw; [done|left|]; done.
  - by apply (transfer_behind_start_overflows (H := demo_env) demo_state 1 demo_fs demo_file demo_free 76 1
      zero_block demo_open demo_file_state ltac:(done) ltac:(done) eq_refl).
Defined.

Lemma partial_read_overwrites_front_witness :
  ∃ buf' s', sfs_read (H := demo_env) (replicate 600 x00) 600 0 1 demo_state = Done (600, buf') s' ∧
    slice 0 88 buf' = take 88 (file_block (abs demo_fs) demo_file 1) ∧
    slice 512 88 buf' = slice 512 88 (replicate 600 x00).
Proof.
  apply (partial_read_overwrites_front (H := demo_env) demo_state 1 demo_fs demo_file demo_free 1 88
           (replicate 600 x00) demo_open demo_file_state); by vm_compute.
Defined.
