(* ===== verification/DirTheorems.v ===== *)
(** * Properties of directories and of the handlers that look names up *)

From S2P Require Export DirLink SfsTheorems.

(** ** Paths of the root directory *)
Lemma take_until_app (l1 l2 : list byte) c :
  slash ∉ l1 → c = slash → take_until is_slash (l1 ++ c :: l2) = l1.
Proof.
  intros Hl ->. induction l1 as [|x l1 IH]; simpl; [done|].
  apply not_elem_of_cons in Hl as [Hx Hl]. unfold is_slash at 1.
  rewrite bool_decide_eq_false_2 by congruence. by rewrite IH.
Qed.

Lemma strip_slashes_name (name : list byte) :
  name ≠ [] → slash ∉ name → strip_slashes (slash :: name) = slash :: name.
Proof.
  intros Hne Hs. unfold strip_slashes.
  destruct (exists_last Hne) as (l & c & ->). simpl. rewrite rev_app_distr. simpl.
  unfold is_slash at 1. rewrite bool_decide_eq_false_2; [|intros ->; apply Hs, elem_of_app; right; left].
  simpl. rewrite rev_app_distr. simpl. by rewrite rev_involutive.
Qed.

Lemma last_component_name (name : list byte) :
  slash ∉ name → last_component (slash :: name) = name.
Proof.
  intros Hs. unfold last_component. simpl. rewrite take_until_app; [apply rev_involutive| |done].
  intros Hin%list_elem_of_In%in_rev. by apply Hs, list_elem_of_In.
Qed.

Lemma dirname_name (name : list byte) :
  name ≠ [] → slash ∉ name → dirname (slash :: name) = [slash].
Proof.
  intros Hne Hs. unfold dirname. rewrite strip_slashes_name, last_component_name by done.
  by replace (length (slash :: name) - length name)%nat with 1%nat by (simpl; lia).
Qed.

Lemma basename_name (name : list byte) :
  name ≠ [] → slash ∉ name → basename (slash :: name) = name.
Proof.
  intros Hne Hs. unfold basename. rewrite strip_slashes_name by done.
  by apply last_component_name.
Qed.

Lemma path_name_root `{Env, !ReliableMalloc} (name : list byte) s :
  name ≠ [] → slash ∉ name → (length name ≤ 255)%nat →
  path_name (slash :: name) s = Done (inr name) s.
Proof.
  intros Hne Hs Hl. unfold path_name. rewrite bind_get, reliable_strdup. cbv zeta.
  rewrite dirname_name, basename_name by done.
  rewrite bool_decide_eq_true_2 by done. cbn [negb].
  rewrite (proj2 (Z.leb_gt _ _)) by (unfold PATH_MAX; simpl; lia).
  by rewrite (proj2 (Z.ltb_ge _ _)) by lia.
Qed.

(** The root directory of a mounted file system, with [n] blocks. *)
Record rooted (s : sfs_state) (fs : filesystem) (root : sfs_fs_inode) (F : list Z) (n : Z) : Prop := Rooted {
  ro_mu : mu s = false;
  ro_fs : s_fs s = inr fs;
  ro_dir : dir_state fs root F n;
  ro_number : i_inumber root = 1;
  ro_mode : Z.land (i_mode root) S_IFDIR ≠ 0;
}.

Section dir_theorems.
  Context `{Env, !ReliableIO, !EnvOk}.

(** C20: a name is looked up as the first entry in use that has it.  On a
    well-formed directory the search returns; it finds the first such entry,
    or nothing exactly when no entry in use has the name, and it changes no
    more than the access time of the directory. *)
Theorem dir_search_finds_first name fs dir F n it :
  dir_state fs dir F n → iter_ok it n → position it = 0 →
  ∃ o dir' fs', dir_search name it dir fs = Done (o, dir') fs' ∧
    touched fs dir F n fs' dir' ∧
    match o with
    | Some item => ∃ j, 0 ≤ j < n ∧ live (abs fs) dir j ∧ matches name (dir_entry_at (abs fs) dir j) ∧
        (∀ i, 0 ≤ i < j → live (abs fs) dir i → ¬ matches name (dir_entry_at (abs fs) dir i)) ∧
        item = item_at (abs fs) dir j None
    | None => ∀ i, 0 ≤ i < n → live (abs fs) dir i → ¬ matches name (dir_entry_at (abs fs) dir i)
    end.
Proof.
  intros Hd Hit Hp. by apply wp_pair, (wp_mono _ _ (search_post name fs dir F n));
    [apply dir_search_spec|intros [o dir'] s'].
Qed.

(** A linked name is found.  [sfs_dir_link] of a name that is not in the
    directory reuses the first unused entry or appends a block, raises the
    link count of the inode by one and leaves the other entries as they were;
    looking the name up afterwards finds the entry of that inode. *)
Theorem link_then_lookup fs dir F n name inode it :
  dir_state fs dir F n → F ≠ [] → n < file_blocks →
  n < SFS_NDIR_BLOCKS ∨ bp dir SFS_IND_BLOCK ≠ 0 →
  valid_inumber (superblock fs) (i_inumber inode) → inode_ok inode = true →
  i_inumber inode ≠ i_inumber dir → (length name ≤ 255)%nat → x00 ∉ name →
  (∀ i, 0 ≤ i < n → live (abs fs) dir i → ¬ matches name (dir_entry_at (abs fs) dir i)) →
  iter_ok it 0 → position it = 0 →
  ∃ dir1 inode1 fs1 F1 j item dir2 fs2,
    sfs_dir_link dir name inode fs = Done (0, dir1, inode1) fs1 ∧
    linked fs dir n name inode fs1 dir1 F1 inode1 j ∧
    dir_search name it dir1 fs1 = Done (Some item, dir2) fs2 ∧
    d_inumber (di_entry item) = i_inumber inode.
Proof.
  intros Hd HF Hnb Hcase Hv Hio Hne Hname Hnul Hno Hit Hp.
  destruct (proj1 (wp_iff _ _ _) (dir_link_spec fs dir F n name inode Hd HF Hnb Hcase Hv Hio Hne Hname))
    as ([[r dir1] inode1] & fs1 & Hrun & -> & F1 & j & _ & Hl).
  pose proof (li_state _ _ _ _ _ _ _ _ _ _ Hl) as Hd1. pose proof (li_pos _ _ _ _ _ _ _ _ _ _ Hl) as Hj.
  assert (iter_ok it (Z.max n (j + 1))) as Hit1.
  { destruct Hit as [He Hb Hlb]. split; [done|lia|done]. }
  destruct (proj1 (wp_iff _ _ _) (dir_search_spec name fs1 dir1 F1 _ it Hd1 Hit1 Hp))
    as ([o dir2] & fs2 & Hrun2 & _ & Ho).
  pose proof (li_entry _ _ _ _ _ _ _ _ _ _ Hl) as He.
  assert (live (abs fs1) dir1 j) as Hlj.
  { unfold live. rewrite He. destruct Hv. simpl. lia. }
  assert (matches name (dir_entry_at (abs fs1) dir1 j)) as Hm by (rewrite He; by apply matches_strncpy).
  destruct o as [item|].
  - destruct Ho as (i & Hi & Hli & Hmi & Hfirst & ->).
    exists dir1, inode1, fs1, F1, j. eexists _, dir2, fs2. split_and!; [done|done|exact Hrun2|].
    simpl. destruct (decide (i = j)) as [->|Hij]; [by rewrite He|]. exfalso.
    destruct (decide (j < i)); [by apply (Hfirst j); [lia| |]|].
    assert (0 ≤ i < n) as Hin by lia.
    pose proof (li_other _ _ _ _ _ _ _ _ _ _ Hl i Hin Hij) as Heq.
    unfold live in Hli. rewrite Heq in Hli, Hmi. by apply (Hno i).
  - exfalso. apply (Ho j); [lia|done|done].
Qed.

(** ** The handlers *)
Lemma lock_run {B} s (f : () → M sfs_state B) :
  mu s = false → (lock ≫= f) s = f tt (set_mu true s).
Proof. intros Hs. unfold lock. run. by rewrite Hs. Qed.

(** Opening the root directory and an iterator on it. *)
Lemma open_root `{!ReliableMalloc} s fs root F n :
  rooted s fs root F n →
  ∃ fs1 fs2, at_fs sfs_dir_root (set_mu true s)
      = Done (Some root) (set_fs (inr fs1) (set_mu true s)) ∧
    sfs_dir_iterate root fs1 = Done (Some (DirIterator 0 0 env_heap_data)) fs2 ∧
    dir_state fs1 root F n ∧ dir_state fs2 root F n ∧ abs fs1 ≡ abs fs ∧ abs fs2 ≡ abs fs ∧
    ∀ j, 0 ≤ j < file_blocks → file_block (abs fs2) root j = file_block (abs fs) root j.
Proof.
  intros [Hm Hs Hd Hn1 Hmode]. pose proof (ds_file _ _ _ _ Hd) as Hf.
  pose proof (f_valid _ _ _ Hf) as Hv. rewrite Hn1 in Hv.
  destruct (proj1 (wp_iff _ _ _) (read_inode_spec _ _ (f_ok _ _ _ Hf) Hv))
    as (r & fs1 & Hrun & -> & Hok1 & Habs1).
  pose proof (f_stored _ _ _ Hf) as Hst. rewrite Hn1 in Hst. rewrite Hst in Hrun.
  assert (∀ fs', fs_ok fs' → abs fs' ≡ abs fs → dir_state fs' root F n ∧
    ∀ j, 0 ≤ j < file_blocks → file_block (abs fs') root j = file_block (abs fs) root j) as Hkeep.
  { intros fs' Hok' Habs'.
    assert (∀ j, 0 ≤ j < file_blocks → file_block (abs fs') root j = file_block (abs fs) root j) as Hb.
    { intros j Hj. symmetry. eapply file_block_equiv; [by symmetry|apply (f_wf _ _ _ Hf)|done]. }
    split; [|done]. eapply dir_state_update; [exact Hd|by eapply file_state_equiv|apply Habs'|done|done]. }
  set (fs2 := set_disk (World (w_size (disk fs1)) (w_blocks (disk fs1)) (w_ios (disk fs1))
                          (w_times (disk fs1)) (S (w_mallocs (disk fs1)))) fs1).
  assert (fs_ok fs2) as Hok2 by (destruct Hok1; by split).
  assert (abs fs2 = abs fs1) as Habs2 by done.
  destruct (Hkeep fs1 Hok1 Habs1) as [Hd1 _].
  destruct (Hkeep fs2 Hok2) as [Hd2 Hb2]; [by rewrite Habs2|].
  exists fs1, fs2. split_and!; [eapply at_fs_done; [done|exact Hrun]| |exact Hd1|exact Hd2|exact Habs1|by rewrite Habs2|exact Hb2].
  unfold sfs_dir_iterate.
  rewrite bind_assert by (by apply negb_true_iff, Z.eqb_neq).
  erewrite bind_done; [|eapply at_disk_done; reflexivity].
  simpl. rewrite reliable_malloc. done.
Qed.

Lemma new_iter_ok n : 0 ≤ n → iter_ok (DirIterator 0 0 env_heap_data) n.
Proof. intros Hn. split; [by left|simpl; lia|apply heap_len]. Qed.

Lemma opendir_iterate_run dir it fs fs' :
  sfs_dir_iterate dir fs = Done (Some it) fs' → opendir_iterate dir fs = Done it fs'.
Proof. intros E. unfold opendir_iterate. by erewrite bind_done by exact E. Qed.

(** A whole listing: the directory gets a new access time. *)
Lemma readdir_run `{!ReliableMalloc} s fs root F n filler :
  rooted s fs root F n → (∀ k, filler k = false) →
  (∀ i, 0 ≤ i < n → live (abs fs) root i → d_inumber (dir_entry_at (abs fs) root i) ≠ 1) →
  ∃ fs' root', sfs_readdir [slash] filler s =
      Done (0, [([dot], None); ([dot; dot], None)]
               ++ map (listed (abs fs) root) (live_upto (abs fs) root n)) (set_fs (inr fs') s) ∧
    (∃ t, root' = set_access_time t root) ∧ abs fs' ≡ upd_inode root' (abs fs) ∧ dir_state fs' root' F n.
Proof.
  intros Hr Hfill Hself. destruct (open_root s fs root F n Hr)
    as (fs1 & fs2 & E1 & E2 & Hd1 & Hd2 & Habs1 & Habs2 & Hb2).
  pose proof (ds_blocks _ _ _ _ Hd2) as Hn.
  assert (∀ i, 0 ≤ i < n → dir_entry_at (abs fs2) root i = dir_entry_at (abs fs) root i) as He.
  { intros i Hi. unfold dir_entry_at. by rewrite Hb2 by lia. }
  set (base := [([dot], None); ([dot; dot], None)] : list (list byte * option stat)).
  assert (wp (while_true (search_fuel root) (DirIterator 0 0 env_heap_data, root, base)
                (readdir_fill filler)) fs2 (λ e s,
    e = inr (base ++ map (listed (abs fs2) root) (live_upto (abs fs2) root n)) ∧
    ∃ dir', touched fs2 root F n s dir')) as Hwp.
  { apply readdir_spec; [done|apply new_iter_ok; lia|done|done|].
    intros i Hi. unfold live. rewrite He, (ro_number _ _ _ _ _ Hr) by done. by apply Hself. }
  destruct (proj1 (wp_iff _ _ _) Hwp) as (e & fs3 & Hrun & -> & root' & [T1 T2 T3 _]).
  assert (live_upto (abs fs2) root n = live_upto (abs fs) root n) as Hlu.
  { unfold live_upto. apply filter_ext_in. intros i Hi%list_elem_of_In%elem_of_seqZ.
    by rewrite He by lia. }
  assert (map (listed (abs fs2) root) (live_upto (abs fs) root n)
          = map (listed (abs fs) root) (live_upto (abs fs) root n)) as Hmap.
  { apply map_ext_in. intros i Hi. unfold live_upto in Hi. apply filter_In in Hi as [Hi Hl].
    apply list_elem_of_In, elem_of_seqZ in Hi. apply negb_true_iff, Z.eqb_neq in Hl.
    unfold listed. rewrite He by lia. do 3 f_equal. destruct Habs2 as (Hs2 & Hi2 & _).
    apply Hi2. rewrite Hs2. apply (ds_names _ _ _ _ (ro_dir _ _ _ _ _ Hr)); [lia|done]. }
  rewrite Hlu, Hmap in Hrun.
  exists fs3, root'. split; [|split; [exact T2|split; [rewrite T3, Habs2; reflexivity|exact T1]]].
  unfold sfs_readdir. rewrite lock_run by apply (ro_mu _ _ _ _ _ Hr).
  rewrite bool_decide_eq_true_2 by done. cbn [negb].
  rewrite (bind_done _ _ _ _ _ E1). cbv zeta. rewrite !Hfill. cbn [app].
  erewrite bind_done by by eapply at_fs_done; [|eapply opendir_iterate_run; exact E2].
  erewrite bind_done by by eapply at_fs_done; [|exact Hrun].
  pose proof (ro_mu _ _ _ _ _ Hr) as Hm. unfold unlock_ret, unlock. run.
  destruct s as [m f p g]. simpl in Hm. by rewrite Hm.
Qed.

(** C18: [sfs_readdir] lists the directory.  On the root directory, with a
    callback that always has room, it returns 0 and hands over ".", ".." and
    then the name and the attributes of the inode of every entry in use, in
    order, each once. *)
Theorem readdir_lists_entries `{!ReliableMalloc} s fs root F n filler :
  rooted s fs root F n → (∀ k, filler k = false) →
  (∀ i, 0 ≤ i < n → live (abs fs) root i → d_inumber (dir_entry_at (abs fs) root i) ≠ 1) →
  ∃ s', sfs_readdir [slash] filler s =
      Done (0, [([dot], None); ([dot; dot], None)]
               ++ map (listed (abs fs) root) (live_upto (abs fs) root n)) s' ∧
    mu s' = false.
Proof.
  intros Hr Hfill Hself. destruct (readdir_run s fs root F n filler Hr Hfill Hself) as (fs' & root' & E & _).
  exists (set_fs (inr fs') s). split; [exact E|exact (ro_mu _ _ _ _ _ Hr)].
Qed.

End dir_theorems.

(** ** On the small file system: the root directory holds "a" *)
Definition name_a : list byte := [Byte.byte.of_Z 97].
Definition name_b : list byte := [Byte.byte.of_Z 98].
Definition demo_iter : dir_iterator := DirIterator 0 0 zero_block.

Lemma demo_live : dir_entry_at (abs demo_fs) demo_root 0 = DirEntry 2 (strncpy_name name_a).
Proof. by vm_compute. Qed.

Lemma demo_dir_state : dir_state demo_fs demo_root demo_free 1.
Proof.
  split; [apply demo_root_state|by vm_compute|done|].
  intros i Hi _. replace i with 0 by lia. rewrite demo_live. by vm_compute.
Qed.

Lemma demo_iter_ok n : 0 ≤ n → iter_ok demo_iter n.
Proof. intros Hn. split; [by left|simpl; lia|apply length_zero_block]. Qed.

Definition demo_mounted : sfs_state := SfsState false (inr demo_fs) (Some demo_pool) false.

Lemma demo_rooted : rooted demo_mounted demo_fs demo_root demo_free 1.
Proof. split; [done|done|apply demo_dir_state|done|by vm_compute]. Qed.

Lemma dir_search_finds_first_witness :
  ∃ o dir' fs', dir_search (H := demo_env) name_b demo_iter demo_root demo_fs = Done (o, dir') fs' ∧
    touched demo_fs demo_root demo_free 1 fs' dir' ∧
    match o with
    | Some item => ∃ j, 0 ≤ j < 1 ∧ live (abs demo_fs) demo_root j ∧
        matches name_b (dir_entry_at (abs demo_fs) demo_root j) ∧
        (∀ i, 0 ≤ i < j → live (abs demo_fs) demo_root i →
           ¬ matches name_b (dir_entry_at (abs demo_fs) demo_root i)) ∧
        item = item_at (abs demo_fs) demo_root j None
    | None => ∀ i, 0 ≤ i < 1 → live (abs demo_fs) demo_root i →
        ¬ matches name_b (dir_entry_at (abs demo_fs) demo_root i)
    end.
Proof.
  apply (dir_search_finds_first (H := demo_env) name_b demo_fs demo_root demo_free 1 demo_iter).
  - apply demo_dir_state.
  - by apply demo_iter_ok.
  - done.
Defined.

Lemma link_then_lookup_witness :
  ∃ dir1 inode1 fs1 F1 j item dir2 fs2,
    sfs_dir_link (H := demo_env) demo_root name_b demo_file demo_fs = Done (0, dir1, inode1) fs1 ∧
    linked demo_fs demo_root 1 name_b demo_file fs1 dir1 F1 inode1 j ∧
    dir_search (H := demo_env) name_b demo_iter dir1 fs1 = Done (Some item, dir2) fs2 ∧
    d_inumber (di_entry item) = 2.
Proof.
  apply (link_then_lookup (H := demo_env) demo_fs demo_root demo_free 1 name_b demo_file demo_iter).
  - apply demo_dir_state.
  - done.
  - by vm_compute.
  - left. by vm_compute.
  - by vm_compute.
  - by vm_compute.
  - done.
  - apply leb_complete. by vm_compute.
  - apply (bool_decide_unpack _). by vm_compute.
  - intros i Hi _. replace i with 0 by lia. rewrite demo_live. by vm_compute.
  - by apply demo_iter_ok.
  - done.
Defined.

Lemma readdir_lists_entries_witness :
  ∃ s', sfs_readdir (H := demo_env) [slash] (λ _, false) demo_mounted =
      Done (0, [([dot], None); ([dot; dot], None)]
               ++ map (listed (abs demo_fs) demo_root) (live_upto (abs demo_fs) demo_root 1)) s' ∧
    mu s' = false.
Proof.
  apply (readdir_lists_entries (H := demo_env) demo_mounted demo_fs demo_root demo_free 1 (λ _, false)).
  - apply demo_rooted.
  - done.
  - intros i Hi _. replace i with 0 by lia. by rewrite demo_live.
Defined.
