(* ===== verification/HandlerTheorems.v ===== *)
(** * Properties of the handlers that look a name up

    [sfs_getattr], [sfs_open], [sfs_unlink] and [sfs_create] begin alike: they
    take the name of the path, read the root directory and search it. *)

From S2P Require Export DirTheorems.

(** A name the handlers accept. *)
Definition good_name (name : list byte) : Prop :=
  name ≠ [] ∧ (slash ∉ name) ∧ (length name ≤ 255)%nat.

Section handlers.
  Context `{Env, !ReliableIO, !EnvOk, !ReliableMalloc}.

(** What the search of the root directory leaves: the directory with a new
    access time, and the rest as it was. *)
Record searched (name : list byte) (fs : filesystem) (root : sfs_fs_inode) (F : list Z) (n : Z)
    (o : option dir_item) (root' : sfs_fs_inode) (fs' : filesystem) : Prop := Searched {
  se_dir : dir_state fs' root' F n;
  se_root : ∃ t, root' = set_access_time t root;
  se_abs : abs fs' ≡ upd_inode root' (abs fs);
  se_block j : 0 ≤ j < file_blocks → file_block (abs fs') root' j = file_block (abs fs) root j;
  se_result : match o with
    | Some item => ∃ j, 0 ≤ j < n ∧ live (abs fs) root j ∧ matches name (dir_entry_at (abs fs) root j) ∧
        (∀ i, 0 ≤ i < j → live (abs fs) root i → ¬ matches name (dir_entry_at (abs fs) root i)) ∧
        item = item_at (abs fs) root j None
    | None => ∀ i, 0 ≤ i < n → live (abs fs) root i → ¬ matches name (dir_entry_at (abs fs) root i)
    end;
}.

Lemma search_root name s fs root F n :
  rooted s fs root F n →
  ∃ fs1 fs2 fs3 it o root',
    at_fs sfs_dir_root (set_mu true s) = Done (Some root) (set_fs (inr fs1) (set_mu true s)) ∧
    at_fs (sfs_dir_iterate root) (set_fs (inr fs1) (set_mu true s))
      = Done (Some it) (set_fs (inr fs2) (set_mu true s)) ∧
    at_fs (dir_search name it root) (set_fs (inr fs2) (set_mu true s))
      = Done (o, root') (set_fs (inr fs3) (set_mu true s)) ∧
    searched name fs root F n o root' fs3.
Proof.
  intros Hr. destruct (open_root s fs root F n Hr)
    as (fs1 & fs2 & E1 & E2 & Hd1 & Hd2 & Habs1 & Habs2 & Hb2).
  pose proof (ds_blocks _ _ _ _ Hd2) as Hn.
  assert (∀ i, 0 ≤ i < n → dir_entry_at (abs fs2) root i = dir_entry_at (abs fs) root i) as He.
  { intros i Hi. unfold dir_entry_at. by rewrite Hb2 by lia. }
  assert (∀ i, 0 ≤ i < n → live (abs fs2) root i ↔ live (abs fs) root i) as Hl.
  { intros i Hi. unfold live. by rewrite He. }
  destruct (proj1 (wp_iff _ _ _) (dir_search_spec name fs2 root F n _ Hd2
    (new_iter_ok n (proj1 Hn)) eq_refl)) as ([o root'] & fs3 & E3 & Ht & Ho).
  exists fs1, fs2, fs3, (DirIterator 0 0 env_heap_data), o, root'. split; [exact E1|].
  split; [exact (at_fs_done _ (set_fs (inr fs1) (set_mu true s)) _ _ _ eq_refl E2)|].
  split; [exact (at_fs_done _ (set_fs (inr fs2) (set_mu true s)) _ _ _ eq_refl E3)|].
  destruct Ht as [T1 T2 T3 T4]. split; [done|done|by rewrite T3, Habs2| |].
  - intros j Hj. by rewrite T4, Hb2.
  - destruct o as [item|].
    + destruct Ho as (j & Hj & Hlj & Hm & Hfirst & ->). exists j.
      rewrite He in Hm by done. split_and!; [lia|lia|exact (proj1 (Hl j Hj) Hlj)|exact Hm| |].
      * intros i Hi Hli. rewrite <-He by lia. apply Hfirst; [lia|]. apply Hl; [lia|done].
      * unfold item_at. rewrite He by done. by rewrite Hb2 by lia.
    + intros i Hi Hli. rewrite <-He by lia. apply Ho; [lia|]. by apply Hl.
Qed.

(** A name that is not in the directory, in the three handlers. *)
Lemma missing_name_run name flags s fs root F n :
  rooted s fs root F n → good_name name →
  (∀ i, 0 ≤ i < n → live (abs fs) root i → ¬ matches name (dir_entry_at (abs fs) root i)) →
  ∃ fs' t, let s' := set_fs (inr fs') s in
    sfs_getattr (slash :: name) s = Done (- ENOENT, None) s' ∧
    sfs_open (slash :: name) flags s = Done (- ENOENT, None) s' ∧
    sfs_unlink (slash :: name) s = Done (- ENOENT) s' ∧
    rooted s' fs' (set_access_time t root) F n ∧
    abs fs' ≡ upd_inode (set_access_time t root) (abs fs).
Proof.
  intros Hr (Hne & Hs & Hl) Hno.
  destruct (search_root name s fs root F n Hr) as (fs1 & fs2 & fs3 & it & o & root' & E1 & E2 & E3 & Hse).
  destruct (se_root _ _ _ _ _ _ _ _ Hse) as [t ->]. exists fs3, t.
  destruct o as [item|].
  { exfalso. destruct (se_result _ _ _ _ _ _ _ _ Hse) as (j & Hj & Hlj & Hm & _).
    by apply (Hno j). }
  assert (bool_decide (slash :: name = [slash]) = false) as Hroot.
  { apply bool_decide_eq_false_2. by intros [=]. }
  pose proof (path_name_root name (set_mu true s) Hne Hs Hl) as E0.
  pose proof (ro_mu _ _ _ _ _ Hr) as Hm.
  assert (∀ fs', set_mu false (set_fs (inr fs') (set_mu true s)) = set_fs (inr fs') s) as Hset.
  { intros fs'. destruct s. simpl in *. by rewrite Hm. }
  cbv zeta. split_and!.
  - unfold sfs_getattr. rewrite lock_run, (bind_done _ _ _ _ _ E0), (bind_done _ _ _ _ _ E1) by done.
    rewrite Hroot, (bind_done _ _ _ _ _ E2), (bind_done _ _ _ _ _ E3). unfold unlock_ret, unlock. run.
    by rewrite Hset.
  - unfold sfs_open. rewrite lock_run, (bind_done _ _ _ _ _ E0), (bind_done _ _ _ _ _ E1) by done.
    rewrite (bind_done _ _ _ _ _ E2), (bind_done _ _ _ _ _ E3). unfold unlock_ret, unlock. run.
    by rewrite Hset.
  - unfold sfs_unlink. rewrite lock_run, (bind_done _ _ _ _ _ E0), (bind_done _ _ _ _ _ E1) by done.
    rewrite Hroot, (bind_done _ _ _ _ _ E2), (bind_done _ _ _ _ _ E3). unfold unlock_ret, unlock. run.
    by rewrite Hset.
  - destruct Hr. split; [done|done|apply (se_dir _ _ _ _ _ _ _ _ Hse)|done|done].
  - apply (se_abs _ _ _ _ _ _ _ _ Hse).
Qed.

(** A name that is not in the directory is reported.  For a well-formed
    path "/name" whose name no entry in use has, [sfs_getattr], [sfs_open] and
    [sfs_unlink] return -ENOENT with the mutex free; the file system is as
    before but for the access time of the root directory. *)
Lemma missing_name_enoent name flags s fs root F n :
  rooted s fs root F n → good_name name →
  (∀ i, 0 ≤ i < n → live (abs fs) root i → ¬ matches name (dir_entry_at (abs fs) root i)) →
  ∃ fs' t, let s' := set_fs (inr fs') s in
    sfs_getattr (slash :: name) s = Done (- ENOENT, None) s' ∧
    sfs_open (slash :: name) flags s = Done (- ENOENT, None) s' ∧
    sfs_unlink (slash :: name) s = Done (- ENOENT) s' ∧
    rooted s' fs' (set_access_time t root) F n ∧
    abs fs' ≡ upd_inode (set_access_time t root) (abs fs).
Proof. exact (missing_name_run name flags s fs root F n). Qed.

(** ** Opening and releasing a file *)

(** The inode of a file with its link count changed by [d] at time [t]. *)
Definition relinked (d t : Z) (file : sfs_fs_inode) : sfs_fs_inode :=
  set_change_time t (set_links (u32 (i_links file + d)) file).

Lemma inode_ok_relinked d t file :
  inode_ok file = true → 0 ≤ t < 2 ^ 64 → inode_ok (relinked d t file) = true.
Proof.
  intros Hf Ht. apply inode_ok_set_change_time; [|done].
  apply inode_ok_set_links; [done|]. by apply Z.mod_pos_bound.
Qed.

Lemma up_links_spec fs dir F num :
  file_state fs dir F → valid_inumber (superblock fs) num → num ≠ i_inumber dir →
  i_inumber (a_inode (abs fs) num) = num →
  wp (up_links num) fs (λ o fs', ∃ t, 0 ≤ t < 2 ^ 64 ∧
    o = Some (relinked 1 t (a_inode (abs fs) num)) ∧ file_state fs' dir F ∧
    abs fs' ≡ upd_inode (relinked 1 t (a_inode (abs fs) num)) (abs fs) ∧
    ∀ j, 0 ≤ j < file_blocks → file_block (abs fs') dir j = file_block (abs fs) dir j).
Proof.
  intros Hf Hv Hne Hnum. unfold up_links.
  wp_apply read_inode_spec; [apply (f_ok _ _ _ Hf)|done|]. intros ? fs1 (-> & Hok1 & Habs1).
  pose proof (file_state_equiv _ _ _ _ Hf Hok1 Habs1) as Hf1.
  cbv zeta. wp_apply time_spec; [done|]. intros t fs2 (Ht & Hok2 & Habs2).
  assert (abs fs2 ≡ abs fs) as Habs2' by (rewrite Habs2; exact Habs1).
  pose proof (file_state_equiv _ _ _ _ Hf Hok2 Habs2') as Hf2.
  change (view fs num) with (a_inode (abs fs) num).
  fold (relinked 1 t (a_inode (abs fs) num)). set (file' := relinked 1 t _).
  assert (i_inumber file' = num) as Hn' by done.
  wp_apply (write_other_inode fs2 dir F file'); [done| | |by rewrite Hn'|].
  { rewrite Hn'. by rewrite (proj1 Habs2' : superblock fs2 = superblock fs). }
  { apply inode_ok_relinked; [|done]. apply view_inode_ok, (f_ok _ _ _ Hf). }
  intros ? fs3 (-> & Hf3 & Habs3 & Hb3). simpl. wp_pure. exists t. split; [exact Ht|]. split; [reflexivity|]. split; [exact Hf3|]. split.
  - rewrite Habs3, Habs2'. reflexivity.
  - intros j Hj. rewrite Hb3 by done. symmetry.
    eapply file_block_equiv; [by symmetry|apply (f_wf _ _ _ Hf)|done].
Qed.

Lemma free_head_fresh p d L : pool_ok p (d :: L) → d ∉ L.
Proof. intros Hok. exact (proj1 (proj1 (NoDup_cons _ _) (po_nodup _ _ Hok))). Qed.

(** The descriptor taken is the first of the free list. *)
Lemma open_fd_spec s p d L num flags :
  fd_pool s = Some p → pool_ok p (d :: L) → Z.of_nat d < 2 ^ 31 → (d ∉ L) →
  ∃ p' v, open_fd num flags s = Done (0, Some (Z.of_nat d)) (set_pool (Some p') s) ∧
    pool_ok p' L ∧ slots p' !! d = Some v ∧ sl_word v = WInt num ∧
    ∀ k, k ≠ d → slots p' !! k = slots p !! k.
Proof.
  intros Hp Hok Hd HdL.
  destruct (allocate_rec_cons 1 p d L Hok) as (p1 & E1 & Hp1 & Hs1 & _).
  assert (∃ v, slots p !! d = Some v) as [v Hv].
  { destruct (po_chain _ _ Hok) as (_ & v & _ & Hv & _). by exists v. }
  destruct (fd_set_ok p1 L d v num (u64 flags) Hp1) as (p2 & E2 & Hp2 & Hs2 & _);
    [by rewrite Hs1|done|].
  exists p2, (Slot (sl_fd v) (WInt num) (Some (u64 flags))). split_and!; [|done| |done|].
  - unfold open_fd. rewrite (bind_done _ _ _ _ _ (at_pool_done _ _ _ _ _ Hp E1)).
    rewrite (bind_done _ _ _ _ _ (at_pool_done _ (set_pool (Some p1) s) p1 _ _ eq_refl E2)).
    unfold u64. rewrite Z.mod_small by lia. done.
  - rewrite Hs2. apply list_lookup_insert_eq. rewrite Hs1. by eapply lookup_lt_Some.
  - intros k Hk. by rewrite Hs2, list_lookup_insert_ne, Hs1.
Qed.

(** The entry that a name stands for. *)
Record entry_of (fs : filesystem) (root : sfs_fs_inode) (n : Z) (name : list byte) (j num : Z) : Prop := EntryOf {
  eo_pos : 0 ≤ j < n;
  eo_live : live (abs fs) root j;
  eo_name : matches name (dir_entry_at (abs fs) root j);
  eo_first i : 0 ≤ i < j → live (abs fs) root i → ¬ matches name (dir_entry_at (abs fs) root i);
  eo_number : d_inumber (dir_entry_at (abs fs) root j) = num;
}.

(** The search finds that entry. *)
Lemma search_entry name fs root F n o root' fs' j num :
  searched name fs root F n o root' fs' → entry_of fs root n name j num →
  o = Some (item_at (abs fs) root j None).
Proof.
  intros Hse [Hj Hl Hm Hfirst _]. pose proof (se_result _ _ _ _ _ _ _ _ Hse) as Hr.
  destruct o as [item|]; [|by destruct (Hr j)].
  destruct Hr as (i & Hi & Hli & Hmi & Hfi & ->). do 2 f_equal.
  destruct (Ztrichotomy i j) as [Hlt|[->|Hgt]]; [|done|].
  - destruct (Hfirst i); [lia|done|done].
  - destruct (Hfi j); [lia|done|done].
Qed.

(** The inode table after the search and one more update. *)
Lemma searched_then name fs root F n o root' fs3 fs4 file' num :
  searched name fs root F n o root' fs3 → num ≠ i_inumber root → i_inumber file' = num →
  valid_inumber (superblock fs) num →
  abs fs4 ≡ upd_inode file' (abs fs3) → a_inode (abs fs4) num = file'.
Proof.
  intros Hse Hne Hn Hv (Hs & Hi & _). rewrite Hi; simpl.
  - by rewrite Hn, Z.eqb_refl.
  - change (superblock fs4 = superblock fs3) in Hs. change (valid_inumber (superblock fs4) num).
    rewrite Hs. destruct (se_abs _ _ _ _ _ _ _ _ Hse) as (Hs3 & _).
    change (superblock fs3 = superblock fs) in Hs3. by rewrite Hs3.
Qed.

Lemma searched_inode name fs root F n o root' fs3 num :
  searched name fs root F n o root' fs3 → num ≠ i_inumber root →
  valid_inumber (superblock fs) num →
  superblock fs3 = superblock fs ∧ a_inode (abs fs3) num = a_inode (abs fs) num.
Proof.
  intros Hse Hne Hv. destruct (se_abs _ _ _ _ _ _ _ _ Hse) as (Hs3 & Hi & _).
  change (superblock fs3 = superblock fs) in Hs3. split; [done|]. rewrite Hi.
  - destruct (se_root _ _ _ _ _ _ _ _ Hse) as [t ->]. simpl.
    by rewrite (proj2 (Z.eqb_neq _ _) Hne).
  - change (valid_inumber (superblock fs3) num). by rewrite Hs3.
Qed.

(** The search leaves every file beside the directory alone. *)
Lemma searched_others name fs root F n o root' fs' :
  dir_state fs root F n → searched name fs root F n o root' fs' → others_kept fs root F fs' root' F.
Proof.
  intros Hd Hse. destruct (se_root _ _ _ _ _ _ _ _ Hse) as [t E].
  apply update_inode_others; [exact (ds_file _ _ _ _ Hd)|exact (ds_file _ _ _ _ (se_dir _ _ _ _ _ _ _ _ Hse))|
    by rewrite E|by rewrite E|exact (se_abs _ _ _ _ _ _ _ _ Hse)].
Qed.

Lemma open_entry name flags s fs root F n j num p d L :
  rooted s fs root F n → good_name name → entry_of fs root n name j num →
  num ≠ 1 → i_inumber (a_inode (abs fs) num) = num →
  fd_pool s = Some p → pool_ok p (d :: L) → Z.of_nat d < 2 ^ 31 →
  ∃ s' fs' root' t p', let file' := relinked 1 t (a_inode (abs fs) num) in
    sfs_open (slash :: name) flags s = Done (0, Some (Z.of_nat d)) s' ∧
    rooted s' fs' root' F n ∧ open_at s' (Z.of_nat d) fs' file' ∧
    a_inode (abs fs') num = file' ∧ valid_inumber (superblock fs') num ∧
    fd_pool s' = Some p' ∧ pool_ok p' L ∧ (∃ v, slots p' !! d = Some v) ∧
    (beside fs root F (a_inode (abs fs) num) → file_state fs' file' F ∧
     ∀ j, 0 ≤ j < file_blocks → file_block (abs fs') file' j = file_block (abs fs) (a_inode (abs fs) num) j).
Proof.
  intros Hr (Hne & Hs & Hl) He Hn1 Hnum Hp Hok Hd.
  destruct (search_root name s fs root F n Hr) as (fs1 & fs2 & fs3 & it & o & root' & E1 & E2 & E3 & Hse).
  rewrite (search_entry _ _ _ _ _ _ _ _ _ _ Hse He) in E3.
  pose proof (ro_number _ _ _ _ _ Hr) as Hroot.
  assert (valid_inumber (superblock fs) num) as Hv.
  { rewrite <-(eo_number _ _ _ _ _ _ He). apply (ds_names _ _ _ _ (ro_dir _ _ _ _ _ Hr)).
    - apply (eo_pos _ _ _ _ _ _ He).
    - apply (eo_live _ _ _ _ _ _ He). }
  rewrite <-Hroot in Hn1.
  destruct (searched_inode _ _ _ _ _ _ _ _ _ Hse Hn1 Hv) as [Hs3 Hi3].
  pose proof (se_dir _ _ _ _ _ _ _ _ Hse) as Hd3.
  destruct (se_root _ _ _ _ _ _ _ _ Hse) as [t0 Hroot'].
  assert (i_inumber root' = i_inumber root) as Hn' by by rewrite Hroot'.
  destruct (proj1 (wp_iff _ _ _) (up_links_spec fs3 root' F num (ds_file _ _ _ _ Hd3)
    ltac:(by rewrite Hs3) ltac:(by rewrite Hn') ltac:(by rewrite Hi3)))
    as (? & fs4 & E4 & t & Ht & -> & Hf4 & Habs4 & Hb4).
  rewrite Hi3 in E4, Habs4. set (file' := relinked 1 t (a_inode (abs fs) num)) in *.
  assert (i_inumber file' = num) as Hnf by done.
  destruct (open_fd_spec (set_fs (inr fs4) (set_mu true s)) p d L num flags Hp Hok Hd) as
    (p' & v & E5 & Hp' & Hv' & Hw & _).
  { by eapply free_head_fresh. }
  exists (set_mu false (set_pool (Some p') (set_fs (inr fs4) (set_mu true s)))), fs4, root', t, p'.
  assert (a_inode (abs fs4) num = file') as Hst by by eapply searched_then.
  cbv zeta. fold file'. split.
  { unfold sfs_open. rewrite lock_run by apply (ro_mu _ _ _ _ _ Hr).
    rewrite (bind_done _ _ _ _ _ (path_name_root name _ Hne Hs Hl)), (bind_done _ _ _ _ _ E1).
    rewrite (bind_done _ _ _ _ _ E2), (bind_done _ _ _ _ _ E3). simpl.
    rewrite (eo_number _ _ _ _ _ _ He).
    rewrite (bind_done _ _ _ _ _ (at_fs_done _ (set_fs (inr fs3) (set_mu true s)) _ _ _ eq_refl E4)).
    rewrite Hnf, (bind_done _ _ _ _ _ E5). reflexivity. }
  split.
  { split; [done|done| |congruence|].
    - eapply dir_state_update; [exact Hd3|exact Hf4|apply Habs4|done|exact Hb4].
    - rewrite Hroot'. apply (ro_mode _ _ _ _ _ Hr). }
  split.
  { split; [done|done|]. exists p', L, d, v. split_and!; [done|done|done|done|done| |rewrite Hnf; exact Hw].
    by eapply free_head_fresh. }
  split; [done|]. split; [by rewrite (proj1 Habs4 : superblock fs4 = superblock fs3), Hs3|].
  split; [done|]. split; [done|]. split; [by exists v|]. intros Hbe.
  destruct (ke_others _ _ _ _ _ _ (searched_others _ _ _ _ _ _ _ _ (ro_dir _ _ _ _ _ Hr) Hse) _ Hbe) as [Hbe3 Hb3].
  pose proof (be_state _ _ _ _ Hbe3) as Hfile3.
  destruct (file_state_upd fs3 _ file' F fs4 Hfile3 (f_ok _ _ _ Hf4) Habs4) as [Hf4' Hbf4];
    [congruence|done|by apply inode_ok_relinked; [apply (f_inode _ _ _ Hfile3)|]|].
  split; [exact Hf4'|]. intros k Hk. by rewrite Hbf4, Hb3.
Qed.

(** The inode of a file that keeps a link, written back. *)
Lemma links_lowered t file :
  inode_ok file = true → 1 < i_links file → i_links (relinked (-1) t file) = i_links file - 1.
Proof.
  intros Hio Hlk. assert (i_links file < 2 ^ 32) as Hmax by (apply inode_ok_spec in Hio; tauto).
  simpl. unfold u32. rewrite Z.mod_small by lia. lia.
Qed.

Lemma write_relinked fs fs1 dir F num file d t :
  file_state fs dir F → fs_ok fs1 → abs fs1 ≡ abs fs → num ≠ i_inumber dir →
  i_inumber file = num → valid_inumber (superblock fs) num → a_inode (abs fs) num = file →
  0 ≤ t < 2 ^ 64 →
  wp (sfs_fs_write_inode (relinked d t file)) fs1 (λ r fs', r = 0 ∧ file_state fs' dir F ∧
    abs fs' ≡ upd_inode (relinked d t file) (abs fs) ∧
    ∀ j, 0 ≤ j < file_blocks → file_block (abs fs') dir j = file_block (abs fs) dir j).
Proof.
  intros Hf Hok1 Habs1 Hne Hnum Hv Hst Ht.
  pose proof (file_state_equiv _ _ _ _ Hf Hok1 Habs1) as Hf1.
  assert (inode_ok file = true) as Hio by (rewrite <-Hst; apply view_inode_ok, (f_ok _ _ _ Hf)).
  eapply wp_mono; [apply (write_other_inode fs1 dir F (relinked d t file));
    [exact Hf1| |by apply inode_ok_relinked|simpl; congruence]|].
  { simpl. rewrite Hnum. by rewrite (proj1 Habs1 : superblock fs1 = superblock fs). }
  intros r fs2 (-> & Hf2 & Habs2 & Hb2). split; [done|]. split; [exact Hf2|].
  split; [rewrite Habs2, Habs1; reflexivity|].
  intros j Hj. rewrite Hb2 by done. symmetry.
  eapply file_block_equiv; [by symmetry|apply (f_wf _ _ _ Hf)|done].
Qed.

(** The file of a descriptor that is not its last link. *)
Lemma drop_link_spec fs fs1 root F num file :
  file_state fs root F → fs_ok fs1 → abs fs1 ≡ abs fs → num ≠ i_inumber root →
  i_inumber file = num → valid_inumber (superblock fs) num → a_inode (abs fs) num = file →
  1 < i_links file →
  wp (drop_link file) fs1 (λ r fs', r = 0 ∧ ∃ t, 0 ≤ t < 2 ^ 64 ∧ file_state fs' root F ∧
    abs fs' ≡ upd_inode (relinked (-1) t file) (abs fs) ∧
    ∀ j, 0 ≤ j < file_blocks → file_block (abs fs') root j = file_block (abs fs) root j).
Proof.
  intros Hf Hok1 Habs1 Hne Hnum Hv Hst Hlk. unfold drop_link.
  rewrite (proj2 (Z.ltb_lt _ _)) by lia. wp_pure. cbv zeta.
  wp_apply time_spec; [exact Hok1|]. intros t fs2 (Ht & Hok2 & Habs2).
  change (set_change_time t _) with (relinked (-1) t file).
  assert (inode_ok file = true) as Hio by (rewrite <-Hst; apply view_inode_ok, (f_ok _ _ _ Hf)).
  rewrite (links_lowered t file Hio Hlk), (proj2 (Z.eqb_neq _ 0)) by lia.
  wp_apply (write_relinked fs fs2 root F num file (-1) t);
    [exact Hf|exact Hok2|by rewrite Habs2|exact Hne|exact Hnum|exact Hv|exact Hst|exact Ht|].
  intros ? fs3 (-> & Hf3 & Habs3 & Hb3). simpl. wp_pure. split; [done|]. exists t.
  split; [exact Ht|]. split; [exact Hf3|]. split; [exact Habs3|exact Hb3].
Qed.

(** Releasing a descriptor of a file with other links. *)
Lemma release_entry s fs root F n num fh file :
  rooted s fs root F n → open_at s fh fs file → num ≠ 1 → i_inumber file = num →
  valid_inumber (superblock fs) num → a_inode (abs fs) num = file → 1 < i_links file →
  ∃ s' fs' t p' L, sfs_release fh s = Done 0 s' ∧ rooted s' fs' root F n ∧
    a_inode (abs fs') num = relinked (-1) t file ∧ 0 ≤ t < 2 ^ 64 ∧
    fd_pool s' = Some p' ∧ pool_ok p' L ∧ head L = Some (Z.to_nat fh).
Proof.
  intros Hr Ho Hn1 Hnum Hv Hst Hlk.
  pose proof (ds_file _ _ _ _ (ro_dir _ _ _ _ _ Hr)) as Hf.
  pose proof (ro_number _ _ _ _ _ Hr) as Hroot.
  destruct (proj1 (wp_iff _ _ _) (read_inode_spec fs num (f_ok _ _ _ Hf) Hv))
    as (? & fs1 & E1 & -> & Hok1 & Habs1).
  change (view fs num) with (a_inode (abs fs) num) in E1. rewrite Hst in E1.
  pose proof (file_state_equiv _ _ _ _ Hf Hok1 Habs1) as Hf1.
  destruct (proj1 (wp_iff _ _ _) (drop_link_spec fs fs1 root F num file Hf Hok1 Habs1
    ltac:(by rewrite Hroot) Hnum Hv Hst Hlk)) as (? & fs2 & E2 & -> & t & Ht & Hf2 & Habs2 & Hb2).
  destruct Ho as [Hm Hfs (p & L & d & v & Hp & Hok & -> & Hd & Hvd & HdL & Hw)].
  destruct (get_fd_inside (set_mu true s) (Z.of_nat d) fs file) as (d' & E3 & E4).
  { split; [done|done|]. exists p, L, d, v. split_and!; done. }
  assert (d' = d) as ->.
  { unfold get_fd in E3. rewrite int32_small in E3 by lia.
    erewrite at_pool_done in E3; [|done|by apply (get_from_fd_ok p L); [|lia]].
    pose proof (lookup_lt_Some _ _ _ Hvd) as Hlt.
    rewrite (proj2 (Z.ltb_lt _ _)), Nat2Z.id in E3 by lia. by injection E3. }
  destruct (free_ok p L d v Hok Hvd HdL) as (p' & E5 & Hp' & _).
  exists (set_mu false (set_pool (Some p') (set_fs (inr fs2) (set_mu true s)))), fs2, t, p', (d :: L).
  split.
  { unfold sfs_release. rewrite lock_run by done.
    rewrite (bind_done _ _ _ _ _ E3), (bind_done _ _ _ _ _ E4), Hnum.
    rewrite (bind_done _ _ _ _ _ (at_fs_done _ (set_mu true s) _ _ _ Hfs E1)).
    rewrite (bind_done _ _ _ _ _ (at_fs_done _ (set_fs (inr fs1) (set_mu true s)) _ _ _ eq_refl E2)).
    simpl. rewrite (bind_done _ _ _ _ _ (at_pool_done _ (set_fs (inr fs2) (set_mu true s)) p _ _ Hp E5)).
    reflexivity. }
  split.
  { split; [done|done| |done|apply (ro_mode _ _ _ _ _ Hr)].
    eapply dir_state_update; [apply (ro_dir _ _ _ _ _ Hr)|exact Hf2|apply Habs2|done|].
    exact Hb2. }
  split; [|split; [exact Ht|]].
  - destruct Habs2 as (Hs2 & Hi2 & _). change (superblock fs2 = superblock fs) in Hs2.
    rewrite Hi2.
    + simpl. by rewrite Hnum, Z.eqb_refl.
    + change (valid_inumber (superblock fs2) num). by rewrite Hs2.
  - split; [done|]. split; [done|]. simpl. by rewrite Nat2Z.id.
Qed.

Lemma relinked_back t1 t2 file :
  inode_ok file = true → relinked (-1) t2 (relinked 1 t1 file) = set_change_time t2 file.
Proof.
  intros Hio. apply inode_ok_spec in Hio as (_ & _ & _ & _ & Hl & _).
  unfold relinked. destruct file. unfold set_change_time, set_links. simpl in *. f_equal.
  unfold u32. rewrite Zplus_mod_idemp_l, <-Z.add_assoc, Z.add_0_r. by apply Z.mod_small.
Qed.

(** Opening and releasing a file are balanced.  [sfs_open] of a name in
    the root directory returns 0 and the first free descriptor, open for the
    file the name stands for, and raises the file's link count by one;
    [sfs_release] of that descriptor returns 0, puts the link count back and
    the descriptor first on the free list.  The rest of the inode is as it was,
    but for the time of change. *)
Lemma open_then_release name flags s fs root F n j num p d L :
  rooted s fs root F n → good_name name → entry_of fs root n name j num →
  num ≠ 1 → i_inumber (a_inode (abs fs) num) = num →
  1 ≤ i_links (a_inode (abs fs) num) < 2 ^ 32 - 1 →
  fd_pool s = Some p → pool_ok p (d :: L) → Z.of_nat d < 2 ^ 31 →
  ∃ s1 fs1 root1 t1 s2 fs2 t2 p2 L2,
    sfs_open (slash :: name) flags s = Done (0, Some (Z.of_nat d)) s1 ∧
    rooted s1 fs1 root1 F n ∧ open_at s1 (Z.of_nat d) fs1 (relinked 1 t1 (a_inode (abs fs) num)) ∧
    a_inode (abs fs1) num = relinked 1 t1 (a_inode (abs fs) num) ∧
    sfs_release (Z.of_nat d) s1 = Done 0 s2 ∧ rooted s2 fs2 root1 F n ∧
    a_inode (abs fs2) num = set_change_time t2 (a_inode (abs fs) num) ∧
    fd_pool s2 = Some p2 ∧ pool_ok p2 L2 ∧ head L2 = Some d.
Proof.
  intros Hr Hg He Hn1 Hnum Hlk Hp Hok Hd.
  destruct (open_entry name flags _ _ _ _ _ _ _ _ _ _ Hr Hg He Hn1 Hnum Hp Hok Hd)
    as (s1 & fs1 & root1 & t1 & p1 & E1 & Hr1 & Ho1 & Hst1 & Hv1 & _).
  assert (inode_ok (a_inode (abs fs) num) = true) as Hio.
  { apply view_inode_ok, (f_ok _ _ _ (ds_file _ _ _ _ (ro_dir _ _ _ _ _ Hr))). }
  destruct (release_entry s1 fs1 root1 F n num (Z.of_nat d) _ Hr1 Ho1 Hn1 Hnum)
    as (s2 & fs2 & t2 & p2 & L2 & E2 & Hr2 & Hst2 & _ & Hp2 & Hok2 & Hhd).
  - done.
  - done.
  - change (1 < u32 (i_links (a_inode (abs fs) num) + 1)). unfold u32. rewrite Z.mod_small; lia.
  - rewrite relinked_back in Hst2 by done. rewrite Nat2Z.id in Hhd.
    exists s1, fs1, root1, t1, s2, fs2, t2, p2, L2. split_and!; done.
Qed.

(** ** Removing a name *)
Lemma cleared_entry_ok fs dir j :
  c_ok dir_entry_c (DirEntry 0 (d_name (dir_entry_at (abs fs) dir j))) = true.
Proof.
  pose proof (get_at_ok dir_entry_c 0 (file_block (abs fs) dir j)
                (entry_fits _ (length_file_block _ _ _))) as Hok.
  fold (dir_entry_at (abs fs) dir j) in Hok. revert Hok.
  destruct (dir_entry_at (abs fs) dir j) as [num name].
  cbv [c_ok dir_entry_c iso_c pair_c bytes_c u64_c uint_c fst snd d_inumber d_name].
  by intros [_ ->]%andb_true_iff.
Qed.

(** An update of another inode. *)
Lemma upd_inode_other fs fs' i num :
  abs fs' ≡ upd_inode i (abs fs) → valid_inumber (superblock fs) num → num ≠ i_inumber i →
  a_inode (abs fs') num = a_inode (abs fs) num.
Proof.
  intros (Hs & Hi & _) Hv Hne. change (superblock fs' = superblock fs) in Hs. rewrite Hi.
  - simpl. by rewrite (proj2 (Z.eqb_neq _ _) Hne).
  - change (valid_inumber (superblock fs') num). by rewrite Hs.
Qed.

Lemma upd_inode_same fs fs' i :
  abs fs' ≡ upd_inode i (abs fs) → valid_inumber (superblock fs) (i_inumber i) →
  a_inode (abs fs') (i_inumber i) = i.
Proof.
  intros (Hs & Hi & _) Hv. change (superblock fs' = superblock fs) in Hs. rewrite Hi.
  - simpl. by rewrite Z.eqb_refl.
  - change (valid_inumber (superblock fs') (i_inumber i)). by rewrite Hs.
Qed.

Lemma valid_inumber_same sb sb' m :
  set_free_blocks_head 0 sb' = set_free_blocks_head 0 sb → valid_inumber sb m → valid_inumber sb' m.
Proof. unfold valid_inumber. destruct sb, sb'. intros. by simplify_eq/=. Qed.

(** A directory one of whose blocks was written. *)
Lemma dir_state_cleared fs dir F n fs' dir' F' j :
  dir_state fs dir F n → file_state fs' dir' F' → i_size dir' = i_size dir →
  (∀ m, valid_inumber (superblock fs) m → valid_inumber (superblock fs') m) →
  d_inumber (dir_entry_at (abs fs') dir' j) = 0 →
  (∀ i, 0 ≤ i < n → i ≠ j → dir_entry_at (abs fs') dir' i = dir_entry_at (abs fs) dir i) →
  dir_state fs' dir' F' n.
Proof.
  intros [Hf Hn Hsz Hnames] Hf' Hsz' Hv Hj Ho. split; [done|done|congruence|].
  intros i Hi. unfold live. destruct (decide (i = j)) as [->|Hne]; [by rewrite Hj|].
  rewrite Ho by done. intros Hl. by apply Hv, Hnames.
Qed.

(** An entry in use is in a block of the disk. *)
Lemma live_ptr a dir j : live a dir j → file_ptr a dir j ≠ 0.
Proof.
  intros Hl E. apply Hl. unfold dir_entry_at, file_block. rewrite E. by vm_compute.
Qed.

(** The block of the entry is written back without it. *)
Lemma clear_entry_spec fs dir F n j :
  dir_state fs dir F n → 0 ≤ j < n → j < SFS_NDIR_BLOCKS ∨ bp dir SFS_IND_BLOCK ≠ 0 →
  live (abs fs) dir j →
  let e := dir_entry_at (abs fs) dir j in
  let blk := set_at dir_entry_c 0 (DirEntry 0 (d_name e)) (file_block (abs fs) dir j) in
  wp (t ← at_disk time_;
      let dir := set_modified_time t dir in
      r ← sfs_fs_write_inode dir;
      return_if negb (r =? 0) with (-1, dir);
      '(r, dir) ← sfs_fs_inode_block_write dir j blk;
      return_if negb (r =? 0) with (-1, dir);
      mret (0, dir)) fs (λ '(r, dir') fs', r = 0 ∧
    dir_state fs' dir' F n ∧ i_inumber dir' = i_inumber dir ∧ i_mode dir' = i_mode dir ∧
    dir_entry_at (abs fs') dir' j = DirEntry 0 (d_name e) ∧
    (∀ i, 0 ≤ i < n → i ≠ j → dir_entry_at (abs fs') dir' i = dir_entry_at (abs fs) dir i) ∧
    set_free_blocks_head 0 (superblock fs') = set_free_blocks_head 0 (superblock fs) ∧
    ∀ m, valid_inumber (superblock fs) m → m ≠ i_inumber dir →
      valid_inumber (superblock fs') m ∧ a_inode (abs fs') m = a_inode (abs fs) m).
Proof.
  intros Hd Hj Hcase Hlive e blk.
  pose proof (ds_file _ _ _ _ Hd) as Hf. pose proof (ds_blocks _ _ _ _ Hd) as Hn.
  wp_apply time_spec; [apply (f_ok _ _ _ Hf)|]. intros t fs1 (Ht & Hok1 & Habs1). cbv zeta.
  assert (file_state fs1 dir F) as Hf1.
  { apply (file_state_equiv fs); [done|done|by rewrite Habs1]. }
  wp_apply (update_inode_ok fs1 dir (set_modified_time t dir) F); [exact Hf1|done|done| |].
  { apply inode_ok_set_modified_time; [apply (f_inode _ _ _ Hf)|done]. }
  intros ? fs2 (-> & Hf2 & Habs2 & Hb2). simpl. rewrite Habs1 in Habs2.
  pose proof (cleared_entry_ok fs dir j) as Hce. fold e in Hce.
  pose proof (entry_fits _ (length_file_block fs dir j)) as Hfits.
  assert (live (abs fs2) (set_modified_time t dir) j) as Hlive2.
  { unfold live, dir_entry_at in *. by rewrite Hb2, Habs1 by lia. }
  apply live_ptr in Hlive2.
  wp_apply (block_write_ok_file fs2 (set_modified_time t dir) F j blk);
    [exact Hf2|lia|exact Hcase| |by right|].
  { unfold blk. rewrite (length_set_at dir_entry_c); [apply length_file_block|exact Hce|exact Hfits]. }
  intros [r dir3] fs3 (-> & F3 & Hf3 & _ & HF3 & _ & Hmem & Hsb3 & Hin3 & _ & Hb3). simpl. wp_pure.
  split; [done|].
  apply (file_state_perm fs3 dir3 F3 F (symmetry (HF3 Hlive2))) in Hf3.
  assert (superblock fs2 = superblock fs) as Hsb2 by exact (proj1 Habs2).
  assert (∀ m, valid_inumber (superblock fs) m → valid_inumber (superblock fs3) m) as Hv.
  { intros m. rewrite <-Hsb2. exact (valid_inumber_same _ _ m Hsb3). }
  assert (dir_entry_at (abs fs3) dir3 j = DirEntry 0 (d_name e)) as Hj3.
  { unfold dir_entry_at. rewrite Hb3, Z.eqb_refl by lia.
    exact (get_set_at_eq dir_entry_c _ _ _ Hce Hfits). }
  assert (∀ i, 0 ≤ i < n → i ≠ j → dir_entry_at (abs fs3) dir3 i = dir_entry_at (abs fs) dir i) as Ho3.
  { intros i Hi Hij. unfold dir_entry_at.
    rewrite Hb3, (proj2 (Z.eqb_neq _ _) Hij), Hb2, Habs1 by lia. done. }
  split; [|split; [exact (f_equal i_inumber Hmem)|]].
  - apply (dir_state_cleared fs dir F n fs3 dir3 F j Hd Hf3);
      [exact (f_equal i_size Hmem)|exact Hv|by rewrite Hj3|exact Ho3].
  - split; [exact (f_equal i_mode Hmem)|]. split; [exact Hj3|]. split; [exact Ho3|].
    split; [by rewrite <-Hsb2|]. intros m Hm Hne. split; [by apply Hv|].
    etrans; [apply Hin3; [by rewrite Hsb2|exact Hne]|exact (upd_inode_other _ _ _ _ Habs2 Hm Hne)].
Qed.

Lemma iter_unlink_spec fs dir F n j it :
  dir_state fs dir F n → 0 ≤ j < n → j < SFS_NDIR_BLOCKS ∨ bp dir SFS_IND_BLOCK ≠ 0 →
  let e := dir_entry_at (abs fs) dir j in
  let file := a_inode (abs fs) (d_inumber e) in
  live (abs fs) dir j → d_inumber e ≠ i_inumber dir → i_inumber file = d_inumber e →
  1 < i_links file → it_iblock it = j → it_cached_block it = file_block (abs fs) dir j →
  wp (sfs_dir_iter_unlink it dir 0) fs (λ '(r, dir') fs', r = 0 ∧ ∃ t,
    dir_state fs' dir' F n ∧ i_inumber dir' = i_inumber dir ∧ i_mode dir' = i_mode dir ∧
    dir_entry_at (abs fs') dir' j = DirEntry 0 (d_name e) ∧
    (∀ i, 0 ≤ i < n → i ≠ j → dir_entry_at (abs fs') dir' i = dir_entry_at (abs fs) dir i) ∧
    a_inode (abs fs') (d_inumber e) = relinked (-1) t file).
Proof.
  intros Hd Hj Hcase e file Hl Hne Hnum Hlk Hib Hblk.
  pose proof (ds_file _ _ _ _ Hd) as Hf. pose proof (ds_blocks _ _ _ _ Hd) as Hn.
  pose proof (ds_names _ _ _ _ Hd j Hj Hl) as Hv.
  assert (inode_ok file = true) as Hio by (apply view_inode_ok, (f_ok _ _ _ Hf)).
  unfold sfs_dir_iter_unlink. rewrite Hblk, Hib. change (Z.to_nat 0) with 0%nat.
  fold (dir_entry_at (abs fs) dir j). fold e.
  wp_apply read_inode_spec; [apply (f_ok _ _ _ Hf)|exact Hv|]. intros ? fs1 (-> & Hok1 & Habs1).
  change (view fs (d_inumber e)) with file. cbv zeta.
  wp_apply time_spec; [exact Hok1|]. intros t fs2 (Ht & Hok2 & Habs2).
  change (set_change_time t (set_links _ _)) with (relinked (-1) t file).
  rewrite (links_lowered t file Hio Hlk), (proj2 (Z.eqb_neq _ 0)) by lia.
  wp_apply (write_relinked fs fs2 dir F (d_inumber e) file (-1) t);
    [exact Hf|exact Hok2|by rewrite Habs2|exact Hne|exact Hnum|exact Hv|done|exact Ht|].
  intros ? fs3 (-> & Hf3 & Habs3 & Hb3). cbn [Z.eqb negb].
  assert (superblock fs3 = superblock fs) as Hsb3 by exact (proj1 Habs3).
  assert (dir_state fs3 dir F n) as Hd3 by (by apply (dir_state_update fs fs3 dir dir F n Hd Hf3)).
  assert (∀ i, 0 ≤ i < n → dir_entry_at (abs fs3) dir i = dir_entry_at (abs fs) dir i) as He3.
  { intros i Hi. unfold dir_entry_at. by rewrite Hb3 by lia. }
  assert (live (abs fs3) dir j) as Hl3 by (unfold live; by rewrite He3).
  pose proof (clear_entry_spec fs3 dir F n j Hd3 Hj Hcase Hl3) as Hclear. cbv zeta in Hclear.
  rewrite (He3 j Hj), (Hb3 j ltac:(lia)) in Hclear. eapply wp_mono; [exact Hclear|].
  intros [r dir4] fs4 (-> & Hd4 & Hn4 & Hm4 & Hj4 & Ho4 & _ & Hin4). split; [done|].
  exists t. split; [exact Hd4|]. split; [exact Hn4|]. split; [exact Hm4|]. split; [exact Hj4|].
  split; [intros i Hi Hij; by rewrite Ho4, He3|].
  rewrite (proj2 (Hin4 (d_inumber e) ltac:(by rewrite Hsb3) Hne)), <-Hnum.
  apply (upd_inode_same fs fs3 (relinked (-1) t file) Habs3). simpl. rewrite Hnum. exact Hv.
Qed.

(** What the search preserves of the entries. *)
Lemma searched_entry name fs root F n o root' fs' i :
  searched name fs root F n o root' fs' → 0 ≤ i < file_blocks →
  dir_entry_at (abs fs') root' i = dir_entry_at (abs fs) root i.
Proof. intros Hse Hi. unfold dir_entry_at. by rewrite (se_block _ _ _ _ _ _ _ _ Hse). Qed.

Lemma set_fs_rooted s fs root F n fs' :
  rooted s fs root F n → set_mu false (set_fs (inr fs') (set_mu true s)) = set_fs (inr fs') s.
Proof. intros [Hm]. destruct s. simpl in *. by rewrite Hm. Qed.

(** [sfs_unlink] up to its call of [sfs_dir_iter_unlink], and after it. *)
Lemma unlink_found name s fs root F n j num :
  rooted s fs root F n → good_name name → entry_of fs root n name j num →
  ∃ root3 fs3, searched name fs root F n (Some (item_at (abs fs) root j None)) root3 fs3 ∧
    ∀ root4 fs4,
      sfs_dir_iter_unlink (DirIterator j 1 (file_block (abs fs) root j)) root3 0 fs3 = Done (0, root4) fs4 →
      sfs_unlink (slash :: name) s = Done 0 (set_fs (inr fs4) s).
Proof.
  intros Hr (Hne & Hs & Hl) He.
  destruct (search_root name s fs root F n Hr) as (fs1 & fs2 & fs3 & it & o & root3 & E1 & E2 & E3 & Hse).
  pose proof (search_entry _ _ _ _ _ _ _ _ _ _ Hse He) as ->. exists root3, fs3. split; [exact Hse|].
  intros root4 fs4 E4. unfold sfs_unlink. rewrite lock_run by apply (ro_mu _ _ _ _ _ Hr).
  rewrite (bind_done _ _ _ _ _ (path_name_root name _ Hne Hs Hl)), (bind_done _ _ _ _ _ E1).
  rewrite bool_decide_eq_false_2 by (by intros [=]).
  rewrite (bind_done _ _ _ _ _ E2), (bind_done _ _ _ _ _ E3). cbn [di_iter di_index item_at].
  rewrite (bind_done _ _ _ _ _ (at_fs_done _ (set_fs (inr fs3) (set_mu true s)) _ _ _ eq_refl E4)).
  rewrite <-(set_fs_rooted _ _ _ _ _ fs4 Hr). reflexivity.
Qed.

(** C16: [sfs_unlink] removes a name.  For a name in the root directory whose
    file has other links it returns 0 with the mutex free; the first entry of
    that name is unused afterwards, every other entry is as it was, and the
    file has one link less.  No block is taken or given back. *)
Theorem unlink_removes_name name s fs root F n j num :
  rooted s fs root F n → good_name name → entry_of fs root n name j num →
  num ≠ 1 → i_inumber (a_inode (abs fs) num) = num → 1 < i_links (a_inode (abs fs) num) →
  j < SFS_NDIR_BLOCKS ∨ bp root SFS_IND_BLOCK ≠ 0 →
  ∃ fs' root' t, sfs_unlink (slash :: name) s = Done 0 (set_fs (inr fs') s) ∧
    rooted (set_fs (inr fs') s) fs' root' F n ∧
    ¬ live (abs fs') root' j ∧
    (∀ i, 0 ≤ i < n → i ≠ j → dir_entry_at (abs fs') root' i = dir_entry_at (abs fs) root i) ∧
    a_inode (abs fs') num = relinked (-1) t (a_inode (abs fs) num).
Proof.
  intros Hr Hname He Hn1 Hnum Hlk Hcase.
  destruct (unlink_found name s fs root F n j num Hr Hname He) as (root3 & fs3 & Hse & Hrun).
  pose proof (ro_number _ _ _ _ _ Hr) as Hroot. rewrite <-Hroot in Hn1.
  pose proof (eo_pos _ _ _ _ _ _ He) as Hj.
  pose proof (eo_number _ _ _ _ _ _ He) as Hej.
  pose proof (ds_names _ _ _ _ (ro_dir _ _ _ _ _ Hr) j Hj (eo_live _ _ _ _ _ _ He)) as Hv.
  rewrite Hej in Hv.
  destruct (searched_inode _ _ _ _ _ _ _ _ _ Hse Hn1 Hv) as [Hs3 Hi3].
  pose proof (se_dir _ _ _ _ _ _ _ _ Hse) as Hd3. pose proof (ds_blocks _ _ _ _ Hd3) as Hn.
  destruct (se_root _ _ _ _ _ _ _ _ Hse) as [t0 Hroot3].
  assert (i_inumber root3 = i_inumber root) as Hn3 by by rewrite Hroot3.
  pose proof (searched_entry _ _ _ _ _ _ _ _ j Hse ltac:(lia)) as He3.
  destruct (proj1 (wp_iff _ _ _) (iter_unlink_spec fs3 root3 F n j (DirIterator j 1 (file_block (abs fs) root j))
    Hd3 Hj ltac:(by rewrite Hroot3)
    ltac:(unfold live; rewrite He3; apply (eo_live _ _ _ _ _ _ He))
    ltac:(rewrite He3, Hej, Hn3; exact Hn1) ltac:(rewrite He3, Hej, Hi3; exact Hnum)
    ltac:(rewrite He3, Hej, Hi3; exact Hlk) eq_refl
    ltac:(symmetry; apply (se_block _ _ _ _ _ _ _ _ Hse); lia)))
    as ([r root4] & fs4 & E4 & -> & t & Hd4 & Hn4 & Hm4 & Hj4 & Ho4 & Hi4).
  exists fs4, root4, t. split; [exact (Hrun _ _ E4)|]. split; [|split; [|split]].
  - split; [apply (ro_mu _ _ _ _ _ Hr)|done|exact Hd4|congruence|].
    rewrite Hm4, Hroot3. apply (ro_mode _ _ _ _ _ Hr).
  - unfold live. rewrite Hj4. simpl. lia.
  - intros i Hi Hij. rewrite Ho4 by done. apply (searched_entry _ _ _ _ _ _ _ _ i Hse). lia.
  - rewrite He3, Hej, Hi3 in Hi4. exact Hi4.
Qed.

(** ** The attributes of a file *)

(** [sfs_getattr] up to the read of the entry it has just freed. *)
Lemma getattr_found name s fs root F n j num :
  rooted s fs root F n → good_name name → entry_of fs root n name j num →
  ∃ root' fs', searched name fs root F n (Some (item_at (abs fs) root j None)) root' fs' ∧
  sfs_getattr (slash :: name) s =
    (o ← at_fs (sfs_fs_read_inode (d_inumber (entry_at 0 (env_freed (file_block (abs fs) root j)))));
     match o with
     | None => unlock_ret (-1, None)
     | Some file => unlock_ret (0, Some (sfs_fs_inode_to_stat file))
     end) (set_fs (inr fs') (set_mu true s)).
Proof.
  intros Hr (Hne & Hs & Hl) He.
  destruct (search_root name s fs root F n Hr) as (fs1 & fs2 & fs3 & it & o & root' & E1 & E2 & E3 & Hse).
  pose proof (search_entry _ _ _ _ _ _ _ _ _ _ Hse He) as ->. exists root', fs3. split; [exact Hse|].
  unfold sfs_getattr. rewrite lock_run by apply (ro_mu _ _ _ _ _ Hr).
  rewrite (bind_done _ _ _ _ _ (path_name_root name _ Hne Hs Hl)), (bind_done _ _ _ _ _ E1).
  rewrite bool_decide_eq_false_2 by (by intros [=]).
  rewrite (bind_done _ _ _ _ _ E2), (bind_done _ _ _ _ _ E3). reflexivity.
Qed.

(** [sfs_getattr] gives the attributes of a file as long as freed memory
    keeps its contents.  For a name in the root directory it returns 0 and the
    attributes of the file's inode, with the mutex free, provided the block of
    the iterator still reads the same after the iterator was freed. *)
Lemma getattr_gives_attributes name s fs root F n j num :
  rooted s fs root F n → good_name name → entry_of fs root n name j num → num ≠ 1 →
  env_freed (file_block (abs fs) root j) = file_block (abs fs) root j →
  ∃ fs', sfs_getattr (slash :: name) s
      = Done (0, Some (sfs_fs_inode_to_stat (a_inode (abs fs) num))) (set_fs (inr fs') s).
Proof.
  intros Hr Hg He Hn1 Hfreed. destruct (getattr_found name s fs root F n j num Hr Hg He)
    as (root' & fs3 & Hse & ->).
  rewrite Hfreed. fold (dir_entry_at (abs fs) root j). rewrite (eo_number _ _ _ _ _ _ He).
  pose proof (ds_names _ _ _ _ (ro_dir _ _ _ _ _ Hr) j (eo_pos _ _ _ _ _ _ He) (eo_live _ _ _ _ _ _ He)) as Hv.
  rewrite (eo_number _ _ _ _ _ _ He) in Hv. rewrite <-(ro_number _ _ _ _ _ Hr) in Hn1.
  destruct (searched_inode _ _ _ _ _ _ _ _ _ Hse Hn1 Hv) as [Hs3 Hi3].
  destruct (proj1 (wp_iff _ _ _) (read_inode_spec fs3 num
    (f_ok _ _ _ (ds_file _ _ _ _ (se_dir _ _ _ _ _ _ _ _ Hse))) ltac:(by rewrite Hs3)))
    as (o & fs4 & E4 & -> & _).
  exists fs4. rewrite <-(set_fs_rooted _ _ _ _ _ fs4 Hr), <-Hi3.
  rewrite (bind_done _ _ _ _ _ (at_fs_done _ (set_fs (inr fs3) (set_mu true s)) _ _ _ eq_refl E4)).
  reflexivity.
Qed.

(** C34: [sfs_getattr] reads the directory entry after it is freed.  The inode
    it opens is the one the freed block of the iterator names: when the
    allocator has cleared that memory, looking up the attributes of any file
    aborts the process. *)
Theorem getattr_reads_freed_entry name s fs root F n j num :
  rooted s fs root F n → good_name name → entry_of fs root n name j num →
  d_inumber (entry_at 0 (env_freed (file_block (abs fs) root j))) = 0 →
  sfs_getattr (slash :: name) s = Crash AssertFailed.
Proof.
  intros Hr Hg He Hfreed. destruct (getattr_found name s fs root F n j num Hr Hg He)
    as (root' & fs3 & Hse & ->).
  rewrite Hfreed. by eapply bind_at_fs_crash.
Qed.

End handlers.

(** ** On the small file system, with no descriptor in use *)
Definition demo_idle : sfs_state := SfsState false (inr demo_fs) (Some new_pool) false.

Lemma demo_idle_rooted : rooted demo_idle demo_fs demo_root demo_free 1.
Proof. split; [done|done|apply demo_dir_state|done|by vm_compute]. Qed.

Lemma new_pool_ok : pool_ok new_pool (0%nat :: seq 1 (slots_per_slab - 1)).
Proof.
  pose proof slots_per_slab_pos. change (0%nat :: seq 1 (slots_per_slab - 1)) with (seq 0 (S (slots_per_slab - 1))).
  replace (S (slots_per_slab - 1)) with slots_per_slab by lia. exact pool_ok_init.
Qed.

Lemma good_name_a : good_name name_a.
Proof. split; [done|]. split; [by apply (bool_decide_unpack _); vm_compute|simpl; lia]. Qed.

Lemma good_name_b : good_name name_b.
Proof. split; [done|]. split; [by apply (bool_decide_unpack _); vm_compute|simpl; lia]. Qed.

Lemma demo_no_b i :
  0 ≤ i < 1 → live (abs demo_fs) demo_root i → ¬ matches name_b (dir_entry_at (abs demo_fs) demo_root i).
Proof. intros Hi _. replace i with 0 by lia. rewrite demo_live. by vm_compute. Qed.

Lemma demo_entry_a : entry_of demo_fs demo_root 1 name_a 0 2.
Proof.
  split; [lia| | |lia|by rewrite demo_live].
  - unfold live. by rewrite demo_live.
  - unfold matches. rewrite demo_live. by vm_compute.
Qed.

Lemma missing_name_enoent_witness :
  ∃ fs' t, let s' := set_fs (inr fs') demo_idle in
    sfs_getattr (H := demo_env) (slash :: name_b) demo_idle = Done (- ENOENT, None) s' ∧
    sfs_open (H := demo_env) (slash :: name_b) 0 demo_idle = Done (- ENOENT, None) s' ∧
    sfs_unlink (H := demo_env) (slash :: name_b) demo_idle = Done (- ENOENT) s' ∧
    rooted s' fs' (set_access_time t demo_root) demo_free 1 ∧
    abs fs' ≡ upd_inode (set_access_time t demo_root) (abs demo_fs).
Proof.
  exact (missing_name_enoent (H := demo_env) name_b 0 demo_idle demo_fs demo_root demo_free 1
           demo_idle_rooted good_name_b demo_no_b).
Defined.

Lemma open_then_release_witness :
  ∃ s1 fs1 root1 t1 s2 fs2 t2 p2 L2,
    sfs_open (H := demo_env) (slash :: name_a) 0 demo_idle = Done (0, Some 0) s1 ∧
    rooted s1 fs1 root1 demo_free 1 ∧ open_at s1 0 fs1 (relinked 1 t1 demo_file) ∧
    a_inode (abs fs1) 2 = relinked 1 t1 demo_file ∧
    sfs_release (H := demo_env) 0 s1 = Done 0 s2 ∧ rooted s2 fs2 root1 demo_free 1 ∧
    a_inode (abs fs2) 2 = set_change_time t2 demo_file ∧
    fd_pool s2 = Some p2 ∧ pool_ok p2 L2 ∧ head L2 = Some 0%nat.
Proof.
  pose proof (f_stored _ _ _ demo_file_state : a_inode (abs demo_fs) 2 = demo_file) as E.
  pose proof (open_then_release (H := demo_env) name_a 0 demo_idle demo_fs demo_root demo_free 1 0 2
    new_pool 0 (seq 1 (slots_per_slab - 1)) demo_idle_rooted good_name_a demo_entry_a) as Hw.
  rewrite E in Hw. apply Hw; [done|done|simpl; lia|done|exact new_pool_ok|lia].
Defined.

Lemma unlink_removes_name_witness :
  ∃ fs' root' t, sfs_unlink (H := demo_env) (slash :: name_a) demo_idle = Done 0 (set_fs (inr fs') demo_idle) ∧
    rooted (set_fs (inr fs') demo_idle) fs' root' demo_free 1 ∧ ¬ live (abs fs') root' 0 ∧
    (∀ i, 0 ≤ i < 1 → i ≠ 0 → dir_entry_at (abs fs') root' i = dir_entry_at (abs demo_fs) demo_root i) ∧
    a_inode (abs fs') 2 = relinked (-1) t demo_file.
Proof.
  pose proof (f_stored _ _ _ demo_file_state : a_inode (abs demo_fs) 2 = demo_file) as E.
  pose proof (unlink_removes_name (H := demo_env) name_a demo_idle demo_fs demo_root demo_free 1 0 2
    demo_idle_rooted good_name_a demo_entry_a) as Hw.
  rewrite E in Hw. apply Hw; [done|done|simpl; lia|by left].
Defined.

Lemma getattr_gives_attributes_witness :
  ∃ fs', sfs_getattr (H := demo_env) (slash :: name_a) demo_idle
    = Done (0, Some (sfs_fs_inode_to_stat (a_inode (abs demo_fs) 2))) (set_fs (inr fs') demo_idle).
Proof.
  apply (getattr_gives_attributes (H := demo_env) name_a demo_idle demo_fs demo_root demo_free 1 0 2
           demo_idle_rooted good_name_a demo_entry_a); done.
Defined.

(** The same environment, but [free] clears the memory. *)
Definition clearing_env : Env := {|
  env_io := @env_io demo_env; env_clock := @env_clock demo_env;
  env_malloc := @env_malloc demo_env; env_slab_malloc := @env_slab_malloc demo_env;
  env_strdup := @env_strdup demo_env;
  env_fstat_ok := true; env_uid := 1000; env_gid := 100; env_asctime_ok := λ _, true;
  env_heap_dirty := false; env_heap_data := zero_block; env_stack_block := zero_block;
  env_freed := λ _, zero_block; env_pointer := @env_pointer demo_env;
|}.

#[export] Instance clearing_reliable : ReliableIO (H := clearing_env).
Proof. done. Qed.
#[export] Instance clearing_malloc : ReliableMalloc (H := clearing_env).
Proof. by split. Qed.
#[export] Instance clearing_ok : EnvOk (H := clearing_env).
Proof. by split. Qed.

Lemma getattr_reads_freed_entry_witness :
  sfs_getattr (H := clearing_env) (slash :: name_a) demo_idle = Crash AssertFailed.
Proof.
  apply (getattr_reads_freed_entry (H := clearing_env) name_a demo_idle demo_fs demo_root demo_free 1 0 2
           demo_idle_rooted good_name_a demo_entry_a). by vm_compute.
Defined.
