(* ===== verification/CreateTheorems.v ===== *)
(** * Creating a file

    [sfs_create] of a new name takes a free inode, writes it, links it in the
    root directory and opens it. *)

From S2P Require Export HandlerTheorems InodeTheorems.

(** The mode of a new file, as [sfs_create] computes it. *)
Definition new_mode (ctx : fuse_ctx) (mode : Z) : Z :=
  Z.lor (Z.land (Z.land 4095 mode) (Z.lnot (c_umask ctx))) S_IFREG.

Lemma new_mode_range ctx mode : 0 ≤ new_mode ctx mode < 2 ^ 32.
Proof.
  assert (Z.land (new_mode ctx mode) (Z.ones 32) = new_mode ctx mode) as E.
  { unfold new_mode. rewrite Z.land_lor_distr_l.
    rewrite <-(Z.land_assoc 4095), <-(Z.land_assoc 4095), (Z.land_comm _ (Z.ones 32)), Z.land_assoc.
    change (Z.land 4095 (Z.ones 32)) with 4095. done. }
  rewrite <-E, Z.land_ones by lia. by apply Z.mod_pos_bound.
Qed.

Definition ids_ok (ctx : fuse_ctx) : Prop :=
  0 ≤ c_uid ctx < 2 ^ 32 ∧ 0 ≤ c_gid ctx < 2 ^ 32.

(** The inode of a new file; [gid] is the group of a file in a directory with
    the set-group-ID bit. *)
Definition new_file (ctx : fuse_ctx) (mode : Z) (directory : sfs_fs_inode) (m gid t1 t2 t3 : Z) : sfs_fs_inode :=
  Inode m (new_mode ctx mode) (c_uid ctx)
    (if Z.land (i_mode directory) S_ISGID =? 0 then c_gid ctx else gid)
    1 t1 t2 t3 0 (replicate (Z.to_nat SFS_N_BLOCKS) 0).

Lemma new_file_ok ctx mode dir m gid t1 t2 t3 :
  ids_ok ctx → 0 ≤ m < 2 ^ 64 → 0 ≤ gid < 2 ^ 32 → 0 ≤ t1 < 2 ^ 64 → 0 ≤ t2 < 2 ^ 64 →
  0 ≤ t3 < 2 ^ 64 → inode_ok (new_file ctx mode dir m gid t1 t2 t3) = true.
Proof.
  intros [Hu Hg] Hm Hgid H1' H2' H3'. apply inode_ok_spec. unfold new_file. cbn [i_inumber i_mode i_uid
    i_gid i_links i_access_time i_modified_time i_change_time i_size i_block_pointers].
  pose proof (new_mode_range ctx mode). split_and?; try lia; try done.
  - destruct (_ =? 0); lia.
  - destruct (_ =? 0); lia.
Qed.

Section create.
  Context `{Env, !ReliableIO, !EnvOk, !ReliableMalloc}.

(** A directory after the list of free inodes changed. *)
Lemma dir_state_upd_sb fs fs' dir F n v :
  dir_state fs dir F n → fs_ok fs' → abs fs' ≡ upd_sb (set_free_inode_head v (superblock fs)) (abs fs) →
  dir_state fs' dir F n ∧
  ∀ j, 0 ≤ j < file_blocks → file_block (abs fs') dir j = file_block (abs fs) dir j.
Proof.
  intros [[Hok Hfree Hwf Hio Hv Hst] Hn Hsz Hnames] Hok' Habs.
  set (a1 := upd_sb (set_free_inode_head v (superblock fs)) (abs fs)) in *.
  assert (file_wf a1 dir F) as Hwf1 by (destruct Hwf; by split).
  assert (∀ j, 0 ≤ j < file_blocks → file_block (abs fs') dir j = file_block (abs fs) dir j) as Hb.
  { intros j Hj. exact (eq_sym (file_block_equiv a1 (abs fs') dir F j (symmetry Habs) Hwf1 Hj)). }
  assert (superblock fs' = set_free_inode_head v (superblock fs)) as Hsb by exact (proj1 Habs).
  assert (∀ m, valid_inumber (superblock fs) m → valid_inumber (superblock fs') m) as Hvv.
  { intros m. by rewrite Hsb. }
  split; [|exact Hb]. split; [|done|done|].
  - split; [done| | |done|by apply Hvv|].
    + rewrite Habs. eapply is_free_ext; [..|exact Hfree]; done.
    + exact (file_wf_proper _ _ dir F (symmetry Habs) Hwf1).
    + destruct Habs as (_ & Hi & _). rewrite Hi; [exact Hst|]. by apply Hvv.
  - intros i Hi. unfold live, dir_entry_at. rewrite Hb by lia. intros Hl. by apply Hvv, Hnames.
Qed.

(** A new file and its entry. *)
Record created (fs : filesystem) (dir : sfs_fs_inode) (n m : Z) (name : list byte) (ctx : fuse_ctx) (mode : Z)
    (fs' : filesystem) (dir' : sfs_fs_inode) (F' : list Z) (j : Z) : Prop := Created {
  cr_state : dir_state fs' dir' F' (Z.max n (j + 1));
  cr_pos : 0 ≤ j ≤ n;
  cr_unused : j < n → ¬ live (abs fs) dir j;
  cr_entry : dir_entry_at (abs fs') dir' j = DirEntry m (strncpy_name name);
  cr_other i : 0 ≤ i < n → i ≠ j → dir_entry_at (abs fs') dir' i = dir_entry_at (abs fs) dir i;
  cr_number : i_inumber dir' = i_inumber dir;
  cr_mode : i_mode dir' = i_mode dir;
  cr_file : ∃ t1 t2 t3 t4, a_inode (abs fs') m =
    set_change_time t4 (set_links 2
      (new_file ctx mode dir m (i_gid (a_inode (abs fs) m)) t1 t2 t3));
}.

Lemma create_file_spec ctx mode name fs dir F n m ML last :
  dir_state fs dir F n → free_inodes (abs fs) (m :: ML) last → m ≠ i_inumber dir → ids_ok ctx →
  F ≠ [] → n < file_blocks → n < SFS_NDIR_BLOCKS ∨ bp dir SFS_IND_BLOCK ≠ 0 →
  (length name ≤ 255)%nat →
  wp (create_file ctx mode name dir) fs (λ r fs', r = inr m ∧
    ∃ dir' F' j, (length F ≤ S (length F'))%nat ∧ created fs dir n m name ctx mode fs' dir' F' j).
Proof.
  intros Hd HL Hne Hids HF Hnb Hcase Hname.
  pose proof (ds_file _ _ _ _ Hd) as Hf. pose proof (f_ok _ _ _ Hf) as Hok.
  destruct HL as [Hnd (Hh & Hv & Hi & HL)].
  unfold create_file.
  wp_apply (inode_allocate_spec fs m ML last); [done|by split|]. intros ? fs1 (-> & Hok1 & Habs1).
  cbv zeta. rewrite Hi. set (gid := i_gid (a_inode (abs fs) m)).
  assert (inode_ok (a_inode (abs fs) m) = true) as Hio by (apply view_inode_ok, Hok).
  assert (0 ≤ gid < 2 ^ 32) as Hgid by (apply inode_ok_spec in Hio; tauto).
  assert (0 ≤ m < 2 ^ 64) as Hm by (rewrite <-Hi; apply inode_ok_spec in Hio; tauto).
  destruct (dir_state_upd_sb fs fs1 dir F n _ Hd Hok1 Habs1) as [Hd1 Hb1].
  wp_apply time_spec; [exact Hok1|]. intros t1 fs2 (Ht1 & Hok2 & Habs2).
  wp_apply time_spec; [exact Hok2|]. intros t2 fs3 (Ht2 & Hok3 & Habs3).
  wp_apply time_spec; [exact Hok3|]. intros t3 fs4 (Ht3 & Hok4 & Habs4).
  assert (abs fs4 = abs fs1) as Habs41 by (rewrite Habs4, Habs3; exact Habs2).
  pose proof (file_state_equiv fs1 fs4 dir F (ds_file _ _ _ _ Hd1) Hok4
    (eq_ind_r (λ a, a ≡ abs fs1) (reflexivity _) Habs41)) as Hf4.
  change (Inode m _ _ _ _ _ _ _ _ _) with (new_file ctx mode dir m gid t1 t2 t3).
  assert (superblock fs4 = superblock fs1) as Hsb4 by exact (f_equal a_sb Habs41).
  assert (valid_inumber (superblock fs1) m) as Hv1.
  { rewrite (proj1 Habs1 : superblock fs1 = set_free_inode_head _ (superblock fs)). exact Hv. }
  wp_apply (write_other_inode fs4 dir F (new_file ctx mode dir m gid t1 t2 t3));
    [exact Hf4|rewrite Hsb4; exact Hv1|by apply new_file_ok|exact Hne|].
  intros ? fs5 (-> & Hf5 & Habs5 & Hb5). cbn [Z.eqb negb].
  assert (superblock fs5 = superblock fs4) as Hsb5 by exact (proj1 Habs5).
  assert (∀ j, 0 ≤ j < file_blocks → file_block (abs fs5) dir j = file_block (abs fs1) dir j) as Hb51.
  { intros j Hj. rewrite Hb5 by done. by rewrite Habs41. }
  assert (dir_state fs5 dir F n) as Hd5.
  { apply (dir_state_update fs1 fs5 dir dir F n Hd1 Hf5); [congruence|done|exact Hb51]. }
  assert (∀ i, 0 ≤ i < n → dir_entry_at (abs fs5) dir i = dir_entry_at (abs fs) dir i) as He5.
  { pose proof (ds_blocks _ _ _ _ Hd). intros i Hi'. unfold dir_entry_at. by rewrite Hb51, Hb1 by lia. }
  wp_apply (dir_link_spec fs5 dir F n name (new_file ctx mode dir m gid t1 t2 t3));
    [exact Hd5|exact HF|exact Hnb|exact Hcase| |by apply new_file_ok|exact Hne|exact Hname|].
  { rewrite Hsb5, Hsb4. exact Hv1. }
  intros [[r dir'] file'] fs6 (-> & F' & j & Hfew & Hl). cbn [Z.eqb negb]. wp_pure. split; [done|].
  exists dir', F', j. split; [exact Hfew|]. destruct Hl as [L1 L2 L3 L4 L5 L6 L7 L8 [t4 ->] L10].
  split; [exact L1|exact L2| |exact L5| |exact L7|exact L8|].
  - intros Hj Hlj. apply (L3 Hj). unfold live. rewrite He5 by lia. exact Hlj.
  - intros i Hi' Hij. rewrite L6 by done. by apply He5.
  - exists t1, t2, t3, t4. exact L10.
Qed.

(** What the handler leaves: the root directory with the entry, and the new
    file with its descriptor. *)
Record creation (ctx : fuse_ctx) (name : list byte) (mode : Z) (fs : filesystem) (root : sfs_fs_inode)
    (F : list Z) (n m fh : Z) (s' : sfs_state) (fs' : filesystem) (root' : sfs_fs_inode) (F' : list Z)
    (j : Z) (file : sfs_fs_inode) : Prop := Creation {
  cn_root : rooted s' fs' root' F' (Z.max n (j + 1));
  cn_open : open_at s' fh fs' file;
  cn_file : beside fs' root' F' file;
  cn_few : (length F ≤ S (length F'))%nat;
  cn_pos : 0 ≤ j ≤ n;
  cn_unused : j < n → ¬ live (abs fs) root j;
  cn_entry : dir_entry_at (abs fs') root' j = DirEntry m (strncpy_name name);
  cn_other i : 0 ≤ i < n → i ≠ j → dir_entry_at (abs fs') root' i = dir_entry_at (abs fs) root i;
  cn_inode : ∃ t1 t2 t3 t4, file = set_change_time t4 (set_links 2
    (new_file ctx mode root m (i_gid (a_inode (abs fs) m)) t1 t2 t3));
}.

Lemma owned_holes a inode b : i_block_pointers inode = replicate 14 0 → b ∉ owned a inode.
Proof.
  intros Hp. rewrite elem_of_owned. intros [Hb [->|(i & _ & ->)]].
  - apply Hb. unfold bp. by rewrite Hp.
  - apply Hb. by apply file_ptr_hole.
Qed.

(** A lookup leaves the list of free inodes alone. *)
Lemma searched_free_inodes name fs root F n o root' fs' L last :
  searched name fs root F n o root' fs' → i_inumber root ∉ L →
  free_inodes (abs fs) L last → free_inodes (abs fs') L last.
Proof.
  intros Hse Hroot HL. pose proof (proj1 (se_abs _ _ _ _ _ _ _ _ Hse) : superblock fs' = superblock fs) as Hs.
  apply (free_inodes_ext (abs fs)); [by simpl; rewrite Hs|by simpl; rewrite Hs| |exact HL].
  intros k Hk Hv. apply (searched_inode _ _ _ _ _ _ _ _ k Hse); [by intros ->|exact Hv].
Qed.

(** A file without blocks, beside the root directory. *)
Lemma beside_holes fs root F m file n :
  dir_state fs root F n → valid_inumber (superblock fs) m → m ≠ i_inumber root →
  a_inode (abs fs) m = file → i_inumber file = m → i_block_pointers file = replicate 14 0 →
  beside fs root F file.
Proof.
  intros Hd Hv Hne Ha Hm Hp. pose proof (ds_file _ _ _ _ Hd) as Hf. pose proof (f_ok _ _ _ Hf) as Hok. split.
  - split; [exact Hok|exact (f_free _ _ _ Hf)|by apply file_wf_holes|rewrite <-Ha; by apply view_inode_ok|by rewrite Hm|by rewrite Hm].
  - by rewrite Hm.
  - intros b Hb. by apply owned_holes in Hb.
Qed.

Lemma create_spec ctx name mode flags s fs root F n m ML last p d L :
  rooted s fs root F n → good_name name →
  (∀ i, 0 ≤ i < n → live (abs fs) root i → ¬ matches name (dir_entry_at (abs fs) root i)) →
  free_inodes (abs fs) (m :: ML) last → (1 ∉ m :: ML) → ids_ok ctx →
  F ≠ [] → n < file_blocks → n < SFS_NDIR_BLOCKS ∨ bp root SFS_IND_BLOCK ≠ 0 →
  fd_pool s = Some p → pool_ok p (d :: L) → Z.of_nat d < 2 ^ 31 →
  ∃ s' fs' root' F' j file, sfs_create ctx (slash :: name) mode flags s
      = Done (0, Some (Z.of_nat d)) s' ∧
    creation ctx name mode fs root F n m (Z.of_nat d) s' fs' root' F' j file.
Proof.
  intros Hr (Hne & Hs & Hl) Hno HL Hm1 Hids HF Hnb Hcase Hp Hok Hd.
  destruct (search_root name s fs root F n Hr) as (fs1 & fs2 & fs3 & it & o & root3 & E1 & E2 & E3 & Hse).
  destruct o as [item|].
  { destruct (se_result _ _ _ _ _ _ _ _ Hse) as (j & Hj & Hlj & Hm & _). by destruct (Hno j). }
  pose proof (ro_number _ _ _ _ _ Hr) as Hroot.
  pose proof (se_dir _ _ _ _ _ _ _ _ Hse) as Hd3. pose proof (ds_blocks _ _ _ _ Hd3) as Hn.
  destruct (se_root _ _ _ _ _ _ _ _ Hse) as [t0 Hroot3].
  assert (i_inumber root3 = 1) as Hn3 by (by rewrite Hroot3).
  assert (superblock fs3 = superblock fs) as Hs3 by exact (proj1 (se_abs _ _ _ _ _ _ _ _ Hse)).
  assert (free_inodes (abs fs3) (m :: ML) last) as HL3.
  { apply (searched_free_inodes _ _ _ _ _ _ _ _ _ _ Hse); [by rewrite Hroot|exact HL]. }
  assert (m ≠ i_inumber root3) as Hm3 by (rewrite Hn3; intros ->; apply Hm1; left).
  destruct (proj1 (wp_iff _ _ _) (create_file_spec ctx mode name fs3 root3 F n m ML last
    Hd3 HL3 Hm3 Hids HF Hnb ltac:(by rewrite Hroot3) Hl)) as (r & fs4 & E4 & -> & root4 & F4 & j & Hfew & Hc).
  destruct Hc as [C1 C2 C3 C4 C5 C6 C7 (t1 & t2 & t3 & t4 & C8)].
  destruct (open_fd_spec (set_fs (inr fs4) (set_mu true s)) p d L m flags Hp Hok Hd
    (free_head_fresh _ _ _ Hok)) as (p' & v & E5 & Hp' & Hv' & Hw & _).
  exists (set_mu false (set_pool (Some p') (set_fs (inr fs4) (set_mu true s)))), fs4, root4, F4, j,
    (a_inode (abs fs4) m).
  split.
  { unfold sfs_create. rewrite lock_run by apply (ro_mu _ _ _ _ _ Hr).
    rewrite (bind_done _ _ _ _ _ (path_name_root name _ Hne Hs Hl)), (bind_done _ _ _ _ _ E1).
    rewrite (bind_done _ _ _ _ _ E2), (bind_done _ _ _ _ _ E3).
    rewrite (bind_done _ _ _ _ _ (at_fs_done _ (set_fs (inr fs3) (set_mu true s)) _ _ _ eq_refl E4)).
    rewrite (bind_done _ _ _ _ _ E5). reflexivity. }
  assert (valid_inumber (superblock fs4) m) as Hv4.
  { pose proof (ds_names _ _ _ _ C1 j ltac:(lia)) as Hv4. unfold live in Hv4. rewrite C4 in Hv4.
    apply Hv4. simpl. destruct HL as [_ (_ & Hv & _)]. destruct Hv; simpl; lia. }
  pose proof (ds_file _ _ _ _ C1) as Hf4. pose proof (f_ok _ _ _ Hf4) as Hok4.
  split; [| | |exact Hfew|exact C2| |exact C4| |].
  - split; [done|done|exact C1|congruence|]. rewrite C7, Hroot3. apply (ro_mode _ _ _ _ _ Hr).
  - split; [done|done|]. exists p', L, d, v. split_and!; [done|done|done|done|done| |].
    + exact (free_head_fresh _ _ _ Hok).
    + rewrite Hw, C8. reflexivity.
  - apply (beside_holes fs4 root4 F4 m _ _ C1 Hv4); [rewrite C6, Hn3, <-Hn3; exact Hm3|done|by rewrite C8|by rewrite C8].
  - intros Hj. specialize (C3 Hj). unfold live in *. by rewrite (searched_entry _ _ _ _ _ _ _ _ j Hse) in C3 by lia.
  - intros i Hi Hij. rewrite C5 by done. apply (searched_entry _ _ _ _ _ _ _ _ i Hse). lia.
  - exists t1, t2, t3, t4. rewrite C8. unfold new_file. rewrite Hroot3. cbn [i_mode set_access_time].
    by rewrite (proj2 (searched_inode _ _ _ _ _ _ _ _ m Hse ltac:(rewrite Hroot, <-Hn3; exact Hm3) (proj1 (proj2 (proj2 HL))))).
Qed.

(** C15: [sfs_create] makes a new file.  For a name that is not in the root
    directory, with a free inode, a free block and a free descriptor, it
    returns 0 and the first free descriptor with the mutex free.  The name is
    entered in the first unused entry or at the end, every other entry is as
    it was, and the descriptor is open for the first free inode: an empty
    regular file of the caller, with the mode asked for less the umask and two
    links, one for the entry and one for the descriptor. *)
Theorem create_makes_file ctx name mode flags s fs root F n m ML last p d L :
  rooted s fs root F n → good_name name →
  (∀ i, 0 ≤ i < n → live (abs fs) root i → ¬ matches name (dir_entry_at (abs fs) root i)) →
  free_inodes (abs fs) (m :: ML) last → (1 ∉ m :: ML) → ids_ok ctx →
  F ≠ [] → n < file_blocks → n < SFS_NDIR_BLOCKS ∨ bp root SFS_IND_BLOCK ≠ 0 →
  fd_pool s = Some p → pool_ok p (d :: L) → Z.of_nat d < 2 ^ 31 →
  ∃ s' fs' root' F' j file, sfs_create ctx (slash :: name) mode flags s
      = Done (0, Some (Z.of_nat d)) s' ∧
    rooted s' fs' root' F' (Z.max n (j + 1)) ∧ open_at s' (Z.of_nat d) fs' file ∧
    file_state fs' file F' ∧
    0 ≤ j ≤ n ∧ (j < n → ¬ live (abs fs) root j) ∧
    dir_entry_at (abs fs') root' j = DirEntry m (strncpy_name name) ∧
    (∀ i, 0 ≤ i < n → i ≠ j → dir_entry_at (abs fs') root' i = dir_entry_at (abs fs) root i) ∧
    a_inode (abs fs') m = file ∧ i_inumber file = m ∧ i_mode file = new_mode ctx mode ∧
    i_uid file = c_uid ctx ∧ i_links file = 2 ∧ i_size file = 0 ∧
    i_block_pointers file = replicate 14 0.
Proof.
  intros Hr Hname Hno HL Hm1 Hids HF Hnb Hcase Hp Hok Hd.
  destruct (create_spec ctx name mode flags s fs root F n m ML last p d L Hr Hname Hno HL Hm1 Hids HF
    Hnb Hcase Hp Hok Hd) as (s' & fs' & root' & F' & j & file & E & [C1 C2 C3 _ C5 C6 C7 C8 (t1 & t2 & t3 & t4 & ->)]).
  eexists s', fs', root', F', j, _. pose proof (f_stored _ _ _ (be_state _ _ _ _ C3)) as Hst.
  split_and!; [exact E|exact C1|exact C2|exact (be_state _ _ _ _ C3)|lia|lia|exact C6|exact C7|exact C8|
    exact Hst|reflexivity..].
Qed.

End create.

(** ** On the small file system *)
Lemma create_makes_file_witness :
  ∃ s' fs' root' F' j file,
    sfs_create (H := demo_env) (FuseCtx 1000 100 18) (slash :: name_b) 438 0 demo_idle = Done (0, Some 0) s' ∧
    rooted s' fs' root' F' (Z.max 1 (j + 1)) ∧ open_at s' 0 fs' file ∧
    file_state fs' file F' ∧
    0 ≤ j ≤ 1 ∧ (j < 1 → ¬ live (abs demo_fs) demo_root j) ∧
    dir_entry_at (abs fs') root' j = DirEntry 3 (strncpy_name name_b) ∧
    (∀ i, 0 ≤ i < 1 → i ≠ j → dir_entry_at (abs fs') root' i = dir_entry_at (abs demo_fs) demo_root i) ∧
    a_inode (abs fs') 3 = file ∧ i_inumber file = 3 ∧ i_mode file = 33188 ∧
    i_uid file = 1000 ∧ i_links file = 2 ∧ i_size file = 0 ∧ i_block_pointers file = replicate 14 0.
Proof.
  apply (create_makes_file (H := demo_env) (FuseCtx 1000 100 18) name_b 438 0 demo_idle demo_fs demo_root
           demo_free 1 3 [] 4 new_pool 0 (seq 1 (slots_per_slab - 1)) demo_idle_rooted good_name_b demo_no_b
           demo_free_inodes).
  - apply (bool_decide_unpack _). by vm_compute.
  - split; simpl; lia.
  - done.
  - by vm_compute.
  - by left.
  - done.
  - exact new_pool_ok.
  - lia.
Defined.
