(* ===== verification/DeleteTheorems.v ===== *)
(** * Deleting a file

    [sfs_unlink] of the last link of a file gives its inode and its direct
    blocks back. *)

From S2P Require Export CreateTheorems.

Section delete.
  Context `{EV : Env, RI : !ReliableIO, EO : !EnvOk, RM : !ReliableMalloc}.

Lemma direct_owned a inode b : b ∈ direct_blocks inode → b ∈ owned a inode.
Proof.
  intros (Hnz & i & Hi & E)%elem_of_direct_upto. apply elem_of_owned. split; [done|]. right.
  exists i. split; [unfold file_blocks; change SFS_NIND_BLOCKS with 64; lia|].
  by rewrite file_ptr_direct by lia.
Qed.

(** Deallocating one file leaves another alone. *)
Lemma deallocated_other fs inode F fs' inode' other :
  fs_ok fs' → deallocated (abs fs) inode F (abs fs') inode' →
  i_inumber inode' = i_inumber inode → beside fs inode F other →
  file_state fs' other (direct_blocks inode ++ F) ∧
  sb_inode_table_blocks (superblock fs') = sb_inode_table_blocks (superblock fs) ∧
  ∀ j, 0 ≤ j < file_blocks → file_block (abs fs') other j = file_block (abs fs) other j.
Proof.
  intros Hok' [_ Hfree Hfr] Hn' [Ho Hne Hdis].
  destruct (frame_geometry _ _ _ Hfr) as (Ht & Hbl & _). simpl in Ht, Hbl.
  destruct (file_state_frame fs other F fs' (direct_blocks inode ++ F) Ho Hok' Hfree Ht Hbl) as (Ho' & _ & Hb).
  - intros b Hob Hd HbF. assert (b ∉ (direct_blocks inode ++ F)) as Hn.
    { rewrite elem_of_app. intros [Hin|Hin]; [|done]. exact (Hdis b Hob (direct_owned _ _ _ Hin)). }
    split; [exact Hn|]. by apply (proj2 (proj2 Hfr)).
  - rewrite (proj1 (proj2 Hfr)) by exact (f_valid _ _ _ Ho). simpl.
    rewrite Hn', (proj2 (Z.eqb_neq _ _) Hne). exact (f_stored _ _ _ Ho).
  - split_and!; [exact Ho'|exact Ht|exact Hb].
Qed.

(** [sfs_dir_iter_unlink] of the last link of a file. *)
Lemma iter_unlink_last_spec fs dir F n j it L last :
  dir_state fs dir F n → 0 ≤ j < n → j < SFS_NDIR_BLOCKS ∨ bp dir SFS_IND_BLOCK ≠ 0 →
  let e := dir_entry_at (abs fs) dir j in
  let file := a_inode (abs fs) (d_inumber e) in
  live (abs fs) dir j → i_inumber file = d_inumber e → beside fs dir F file → i_links file = 1 →
  free_inodes (abs fs) L last → i_inumber file ∉ L → i_inumber dir ∉ L →
  it_iblock it = j → it_cached_block it = file_block (abs fs) dir j →
  wp (sfs_dir_iter_unlink it dir 0) fs (λ '(r, dir') fs', r = 0 ∧
    dir_state fs' dir' (direct_blocks file ++ F) n ∧ i_inumber dir' = i_inumber dir ∧ i_mode dir' = i_mode dir ∧
    dir_entry_at (abs fs') dir' j = DirEntry 0 (d_name e) ∧
    (∀ i, 0 ≤ i < n → i ≠ j → dir_entry_at (abs fs') dir' i = dir_entry_at (abs fs) dir i) ∧
    free_inodes (abs fs') (i_inumber file :: L) last).
Proof.
  intros Hd Hj Hcase e file Hl Hnum Hbe Hlk HL HnL HdL Hib Hblk.
  pose proof (ds_file _ _ _ _ Hd) as Hf. pose proof (ds_blocks _ _ _ _ Hd) as Hn.
  pose proof (be_state _ _ _ _ Hbe) as Hfile. pose proof (f_valid _ _ _ Hfile) as Hv.
  unfold sfs_dir_iter_unlink. rewrite Hblk, Hib. change (Z.to_nat 0) with 0%nat.
  fold (dir_entry_at (abs fs) dir j). fold e. rewrite <-Hnum.
  wp_apply read_inode_spec; [apply (f_ok _ _ _ Hf)|exact Hv|]. intros ? fs1 (-> & Hok1 & Habs1).
  change (view fs (i_inumber file)) with (a_inode (abs fs) (i_inumber file)). rewrite (f_stored _ _ _ Hfile). cbv zeta.
  wp_apply time_spec; [exact Hok1|]. intros t fs2 (Ht & Hok2 & Habs2).
  change (set_change_time t (set_links _ _)) with (relinked (-1) t file).
  assert (i_links (relinked (-1) t file) = 0) as Hlk0 by (simpl; by rewrite Hlk). rewrite Hlk0, Z.eqb_refl.
  assert (abs fs2 ≡ abs fs) as Ha2 by (rewrite Habs2; exact Habs1).
  pose proof (same_file_equiv fs dir F fs2 Hf Hok2 Ha2) as [Hf2 Hk2 Hb2 _ _].
  destruct (ke_others _ _ _ _ _ _ Hk2 file Hbe) as [Hbe2 _].
  pose proof (be_state _ _ _ _ Hbe2) as Hfile2.
  apply wp_bind. wp_apply (inode_deallocate_spec fs2 (relinked (-1) t file) F);
    [exact Hok2|exact (f_free _ _ _ Hf2)| | |exact (f_valid _ _ _ Hfile2)|].
  { destruct (f_wf _ _ _ Hfile2). by split. }
  { apply inode_ok_relinked; [exact (f_inode _ _ _ Hfile)|exact Ht]. }
  intros [r inode'] fs3 (-> & Hok3 & Hde). wp_pure. cbn [Z.eqb negb].
  pose proof Hde as [Hi' Hfree3 Hfr3].
  destruct (beside_sym _ _ _ _ Hf2 Hbe2) as [Hs2 Hne2 Hdis2].
  destruct (deallocated_other fs2 (relinked (-1) t file) F fs3 inode' dir Hok3 Hde ltac:(by rewrite Hi')
    (Beside fs2 (relinked (-1) t file) F dir Hs2 Hne2 Hdis2)) as (Hf3 & Ht3 & Hb3).
  pose proof (dir_state_kept fs2 fs3 dir dir F _ n (dir_state_update fs fs2 dir dir F n Hd Hf2 (proj1 Ha2) eq_refl Hb2)
    Hf3 Ht3 eq_refl Hb3) as Hd3.
  assert (∀ i, 0 ≤ i < n → dir_entry_at (abs fs3) dir i = dir_entry_at (abs fs) dir i) as He3.
  { intros i Hi. unfold dir_entry_at. by rewrite Hb3, Hb2 by lia. }
  assert (free_inodes (abs fs3) (i_inumber file :: L) last) as HL3.
  { apply (free_inodes_frame _ _ _ _ _ Hfr3). subst inode'.
    apply (free_inodes_cons _ (set_size_ (sb_free_inode_head (superblock fs2)) (relinked (-1) t file)));
      [|exact (f_valid _ _ _ Hfile2)|exact HnL|done].
    eapply free_inodes_equiv; [symmetry; exact Ha2|exact HL]. }
  assert (live (abs fs3) dir j) as Hl3 by (unfold live; by rewrite He3).
  pose proof (clear_entry_spec fs3 dir _ n j Hd3 Hj Hcase Hl3) as Hclear. cbv zeta in Hclear.
  rewrite (He3 j Hj), (Hb3 j ltac:(lia)), (Hb2 j ltac:(lia)) in Hclear. eapply wp_mono; [exact Hclear|].
  intros [r dir4] fs4 (-> & Hd4 & Hn4 & Hm4 & Hj4 & Ho4 & Hsb4 & Hin4). split; [done|].
  split; [exact Hd4|]. split; [exact Hn4|]. split; [exact Hm4|]. split; [exact Hj4|].
  split; [intros i Hi Hij; by rewrite Ho4, He3|].
  apply (free_inodes_ext (abs fs3)); [exact (f_equal sb_free_inode_head Hsb4)| | |exact HL3].
  - intros m. exact (valid_inumber_same _ _ m Hsb4).
  - intros m Hm Hvm. apply Hin4; [exact Hvm|]. intros ->.
    apply elem_of_cons in Hm as [E|Hm]; [|exact (HdL Hm)]. by apply (be_number _ _ _ _ Hbe).
Qed.

(** C17: [sfs_unlink] of the last name of a file that is not open deletes the
    file.  It returns 0 with the mutex free; the entry is unused and the others
    are as they were; the inode is the first of the free inodes, and the free
    blocks are those of before and the direct blocks of the file. *)
Theorem unlink_deletes_file name s fs root F n j file L last :
  rooted s fs root F n → good_name name → entry_of fs root n name j (i_inumber file) →
  beside fs root F file → i_links file = 1 →
  free_inodes (abs fs) L last → i_inumber file ∉ L → 1 ∉ L →
  j < SFS_NDIR_BLOCKS ∨ bp root SFS_IND_BLOCK ≠ 0 →
  ∃ fs' root', sfs_unlink (slash :: name) s = Done 0 (set_fs (inr fs') s) ∧
    rooted (set_fs (inr fs') s) fs' root' (direct_blocks file ++ F) n ∧
    ¬ live (abs fs') root' j ∧
    (∀ i, 0 ≤ i < n → i ≠ j → dir_entry_at (abs fs') root' i = dir_entry_at (abs fs) root i) ∧
    free_inodes (abs fs') (i_inumber file :: L) last.
Proof.
  intros Hr Hname He Hbe Hlk HL HnL H1L Hcase.
  destruct (unlink_found name s fs root F n j _ Hr Hname He) as (root3 & fs3 & Hse & Hrun).
  pose proof (ro_number _ _ _ _ _ Hr) as Hroot. pose proof (ro_dir _ _ _ _ _ Hr) as Hd.
  pose proof (se_dir _ _ _ _ _ _ _ _ Hse) as Hd3. pose proof (ds_blocks _ _ _ _ Hd3) as Hn.
  destruct (se_root _ _ _ _ _ _ _ _ Hse) as [t0 Hroot3].
  assert (i_inumber root3 = 1) as Hn3 by (rewrite Hroot3; exact Hroot).
  pose proof (eo_pos _ _ _ _ _ _ He) as Hj.
  pose proof (searched_entry _ _ _ _ _ _ _ _ j Hse ltac:(lia)) as He3.
  destruct (ke_others _ _ _ _ _ _ (searched_others _ _ _ _ _ _ _ _ Hd Hse) file Hbe) as [Hbe3 _].
  pose proof (f_stored _ _ _ (be_state _ _ _ _ Hbe3)) as Hst3.
  assert (free_inodes (abs fs3) L last) as HL3.
  { destruct (se_abs _ _ _ _ _ _ _ _ Hse) as (Hs3 & _).
    apply (free_inodes_ext (abs fs)); [by rewrite Hs3|by rewrite Hs3| |exact HL].
    intros k Hk Hv. apply (searched_inode _ _ _ _ _ _ _ _ k Hse); [|exact Hv].
    rewrite Hroot. by intros ->. }
  assert (d_inumber (dir_entry_at (abs fs3) root3 j) = i_inumber file) as Hej
    by (rewrite He3; exact (eo_number _ _ _ _ _ _ He)).
  pose proof (iter_unlink_last_spec fs3 root3 F n j (DirIterator j 1 (file_block (abs fs) root j)) L last
    Hd3 Hj ltac:(by rewrite Hroot3)) as Hspec. cbv zeta in Hspec. rewrite Hej, Hst3 in Hspec.
  destruct (proj1 (wp_iff _ _ _) (Hspec
    ltac:(unfold live; rewrite Hej, <-(eo_number _ _ _ _ _ _ He); exact (eo_live _ _ _ _ _ _ He))
    eq_refl Hbe3 Hlk HL3 HnL ltac:(by rewrite Hn3) eq_refl
    ltac:(symmetry; apply (se_block _ _ _ _ _ _ _ _ Hse); lia)))
    as ([r root4] & fs4 & E4 & -> & Hd4 & Hn4 & Hm4 & Hj4 & Ho4 & HL4).
  exists fs4, root4. split; [exact (Hrun _ _ E4)|]. split; [|split; [|split; [|exact HL4]]].
  - split; [apply (ro_mu _ _ _ _ _ Hr)|done|exact Hd4|congruence|].
    rewrite Hm4, Hroot3. apply (ro_mode _ _ _ _ _ Hr).
  - unfold live. rewrite Hj4. simpl. lia.
  - intros i Hi Hij. rewrite Ho4 by done. apply (searched_entry _ _ _ _ _ _ _ _ i Hse). lia.
Qed.

End delete.

(** ** On the small file system, with the file "a" closed *)
Definition closed_file : sfs_fs_inode := set_links 1 demo_file.
Definition closed_fs : filesystem :=
  Filesystem demo_disk demo_sb (InodeCache true 1 (set_at inode_c 1 closed_file demo_table)).
Definition closed_state : sfs_state := SfsState false (inr closed_fs) (Some new_pool) false.

Lemma closed_fs_ok : fs_ok closed_fs.
Proof. destruct demo_fs_ok. split; simpl in *; try done; by vm_compute. Qed.

Lemma closed_is_free : is_free (abs closed_fs) demo_free.
Proof.
  split_and!.
  - apply (bool_decide_unpack _). by vm_compute.
  - repeat constructor.
  - exists [3]. split; [split_and!; [done|done|by vm_compute]|]. vm_compute. reflexivity.
Qed.

Lemma closed_live : dir_entry_at (abs closed_fs) demo_root 0 = DirEntry 2 (strncpy_name name_a).
Proof. by vm_compute. Qed.

Lemma closed_file_state : file_state closed_fs closed_file demo_free.
Proof.
  split; [exact closed_fs_ok|exact closed_is_free|apply file_wf_b_sound; by vm_compute|by vm_compute..].
Qed.

Lemma closed_rooted : rooted closed_state closed_fs demo_root demo_free 1.
Proof.
  split; [done|done| |done|by vm_compute].
  split; [|by vm_compute|done|].
  - split; [exact closed_fs_ok|exact closed_is_free|apply file_wf_b_sound; by vm_compute|by vm_compute..].
  - intros i Hi _. replace i with 0 by lia. rewrite closed_live. by vm_compute.
Qed.

Lemma closed_beside : beside closed_fs demo_root demo_free closed_file.
Proof.
  split; [exact closed_file_state|done|]. intros b Hb Hb'.
  assert (owned (abs closed_fs) closed_file = [8; 7; 9]) as E by (by vm_compute).
  assert (owned (abs closed_fs) demo_root = [6]) as E' by (by vm_compute).
  rewrite E in Hb. rewrite E', list_elem_of_singleton in Hb'. subst b.
  revert Hb. apply (bool_decide_unpack (6 ∉ [8; 7; 9])). by vm_compute.
Qed.

Lemma unlink_deletes_file_witness :
  ∃ fs' root', sfs_unlink (H := demo_env) (slash :: name_a) closed_state = Done 0 (set_fs (inr fs') closed_state) ∧
    rooted (set_fs (inr fs') closed_state) fs' root' [7; 3; 4; 5] 1 ∧ ¬ live (abs fs') root' 0 ∧
    (∀ i, 0 ≤ i < 1 → i ≠ 0 → dir_entry_at (abs fs') root' i = dir_entry_at (abs closed_fs) demo_root i) ∧
    free_inodes (abs fs') [2; 3] 4.
Proof.
  apply (unlink_deletes_file (EV := demo_env) name_a closed_state closed_fs demo_root demo_free 1 0 closed_file
    [3] 4 closed_rooted good_name_a).
  - split; [lia| | |lia|by rewrite closed_live].
    + unfold live. by rewrite closed_live.
    + rewrite closed_live. by vm_compute.
  - exact closed_beside.
  - done.
  - split; [apply NoDup_singleton|]. by vm_compute.
  - apply (bool_decide_unpack _). by vm_compute.
  - apply (bool_decide_unpack _). by vm_compute.
  - by left.
Defined.
