(* ===== verification/OpendirTheorems.v ===== *)
(** * Opening and releasing a directory

    [sfs_opendir] of "/" walks the root directory and opens a descriptor of
    it; [sfs_releasedir] gives the descriptor back and lowers the link count. *)

From S2P Require Export HandlerTheorems.

Section opendir.
  Context `{Env, !ReliableIO, !EnvOk, !ReliableMalloc}.

Definition opendir_inv (fs : filesystem) (dir : sfs_fs_inode) (F : list Z) (n : Z) (m : nat)
    (acc : dir_iterator * sfs_fs_inode * list byte * option (list byte)) (s : filesystem) : Prop :=
  let '(it, dir', tok, path_tok) := acc in
  touched fs dir F n s dir' ∧ iter_ok it n ∧ m = Z.to_nat (n + 1 - position it) ∧ tok = [].

(** No entry has the empty name, so the walk passes every entry. *)
Lemma opendir_walk fs dir F n it path_tok :
  dir_state fs dir F n → iter_ok it n → position it = 0 →
  (∀ i, 0 ≤ i < n → live (abs fs) dir i → c_string (d_name (dir_entry_at (abs fs) dir i)) ≠ []) →
  wp (while_true opendir_fuel (it, dir, [], path_tok) opendir_step) fs (λ e s,
    ∃ dir', e = inr (Opened dir') ∧ touched fs dir F n s dir').
Proof.
  intros Hd Hit Hp Hnames. pose proof (ds_blocks _ _ _ _ Hd) as Hn. change file_blocks with 76 in Hn.
  eapply wp_while_true with (I := opendir_inv fs dir F n) (n := Z.to_nat (n + 1)).
  - unfold opendir_fuel. change (entries_per_block * (SFS_NDIR_BLOCKS + SFS_NIND_BLOCKS) + 1) with 77. lia.
  - split_and!; [by apply touched_refl|done|f_equal; lia|done].
  - intros m [[[it' dir'] tok] ptok] s (Ht & Hit' & -> & ->). pose proof (position_range _ _ Hit') as Hpr.
    unfold opendir_step. wp_apply (iternext_touched true); [exact Ht|exact Hit'|].
    intros [o dir2] s' [Ht' Ho]. destruct o as [item|]; [|wp_pure; by exists dir2].
    destruct Ho as (j & Hj & Hj0 & Hl & Hdead & ->). cbn [di_entry di_iter di_inode item_at].
    rewrite bool_decide_eq_false_2 by (apply Hnames; [lia|exact Hl]). wp_pure.
    exists (Z.to_nat (n + 1 - (j + 1))). split; [lia|]. split; [exact Ht'|].
    split; [apply (item_iter_ok fs dir j None); lia|]. split; [done|done].
Qed.

(** The walk leaves the root directory as it was but for its access time, and
    a descriptor is opened for it. *)
Lemma opendir_run s fs root F n :
  rooted s fs root F n →
  (∀ i, 0 ≤ i < n → live (abs fs) root i → c_string (d_name (dir_entry_at (abs fs) root i)) ≠ []) →
  ∃ fs' root', (∃ t, root' = set_access_time t root) ∧ abs fs' ≡ upd_inode root' (abs fs) ∧ dir_state fs' root' F n ∧
    ∀ flags r s', open_fd 1 flags (set_fs (inr fs') (set_mu true s)) = Done r s' →
      sfs_opendir [slash] flags s = Done r (set_mu false s').
Proof.
  intros Hr Hnames. destruct (open_root s fs root F n Hr)
    as (fs1 & fs2 & E1 & E2 & Hd1 & Hd2 & Habs1 & Habs2 & Hb2).
  pose proof (ds_blocks _ _ _ _ Hd2) as Hn. pose proof (ro_number _ _ _ _ _ Hr) as Hroot.
  assert (∀ i, 0 ≤ i < n → dir_entry_at (abs fs2) root i = dir_entry_at (abs fs) root i) as He.
  { intros i Hi. unfold dir_entry_at. by rewrite Hb2 by lia. }
  destruct (proj1 (wp_iff _ _ _) (opendir_walk fs2 root F n (DirIterator 0 0 env_heap_data) (Some []) Hd2
    (new_iter_ok n (proj1 Hn)) eq_refl
    ltac:(intros i Hi; unfold live; rewrite He by exact Hi; exact (Hnames i Hi))))
    as (e & fs3 & E3 & root3 & -> & [T1 [t T2] T3 T4]).
  assert (i_inumber root3 = 1) as Hn3 by by rewrite T2.
  exists fs3, root3. split; [by exists t|]. split; [by rewrite T3, Habs2|]. split; [exact T1|]. intros flags r s' E5.
  unfold sfs_opendir. rewrite lock_run by apply (ro_mu _ _ _ _ _ Hr).
  rewrite bool_decide_eq_true_2 by done. cbn [negb]. rewrite (bind_done _ _ _ _ _ E1).
  change (strsep (Some [slash])) with (Some ([] : list byte), Some ([] : list byte)).
  cbv zeta beta iota. cbn [default]. rewrite bool_decide_eq_true_2 by done. cbn [negb].
  rewrite (bind_done _ _ _ _ _ (at_fs_done _ (set_fs (inr fs1) (set_mu true s)) _ _ _ eq_refl
    (opendir_iterate_run _ _ _ _ E2))).
  rewrite (bind_done _ _ _ _ _ (at_fs_done _ (set_fs (inr fs2) (set_mu true s)) _ _ _ eq_refl E3)).
  rewrite Hn3. change (set_fs (inr fs3) (set_fs (inr fs2) (set_mu true s))) with (set_fs (inr fs3) (set_mu true s)).
  rewrite (bind_done _ _ _ _ _ E5). by destruct r.
Qed.

Lemma opendir_root flags s fs root F n p d L :
  rooted s fs root F n →
  (∀ i, 0 ≤ i < n → live (abs fs) root i → c_string (d_name (dir_entry_at (abs fs) root i)) ≠ []) →
  fd_pool s = Some p → pool_ok p (d :: L) → Z.of_nat d < 2 ^ 31 →
  ∃ s1 fs1 root1 t, sfs_opendir [slash] flags s = Done (0, Some (Z.of_nat d)) s1 ∧
    open_at s1 (Z.of_nat d) fs1 root1 ∧ file_state fs1 root1 F ∧ root1 = set_access_time t root.
Proof.
  intros Hr Hnames Hp Hok Hd. destruct (opendir_run s fs root F n Hr Hnames) as (fs3 & root3 & [t Et] & _ & Hd3 & Hrun).
  pose proof (ro_number _ _ _ _ _ Hr) as Hroot. assert (i_inumber root3 = 1) as Hn3 by by rewrite Et.
  destruct (open_fd_spec (set_fs (inr fs3) (set_mu true s)) p d L 1 flags Hp Hok Hd
    (free_head_fresh _ _ _ Hok)) as (p' & v & E5 & Hp' & Hv' & Hw & _).
  exists (set_mu false (set_pool (Some p') (set_fs (inr fs3) (set_mu true s)))), fs3, root3, t.
  split; [exact (Hrun _ _ _ E5)|]. split; [|split; [apply (ds_file _ _ _ _ Hd3)|exact Et]].
  split; [done|done|]. exists p', L, d, v. split_and!; [done|done|done|done|done| |by rewrite Hw, Hn3].
  exact (free_head_fresh _ _ _ Hok).
Qed.

(** The descriptor of the directory is given back, whatever the link count. *)
Lemma releasedir_run s fs inode F p L d v :
  mu s = false → s_fs s = inr fs → fd_pool s = Some p → pool_ok p L → Z.of_nat d < 2 ^ 31 →
  slots p !! d = Some v → d ∉ L → sl_word v = WInt (i_inumber inode) → file_state fs inode F →
  ∃ fs' t p', sfs_releasedir (Z.of_nat d) s = Done 0 (set_mu false (set_pool (Some p') (set_fs (inr fs') (set_mu true s)))) ∧
    same_file fs inode F fs' (relinked (-1) t inode) ∧ pool_ok p' (d :: L) ∧
    length (slots p') = length (slots p) ∧ ∀ k, k ≠ d → slots p' !! k = slots p !! k.
Proof.
  intros Hm Hfs Hp Hok Hd Hvd HdL Hw Hf.
  assert (inside (set_mu true s) (Z.of_nat d) fs inode) as Hi by (split; [done|done|]; by exists p, L, d, v).
  destruct (get_fd_inside _ _ _ _ Hi) as (d' & E1 & E2).
  destruct (read_own_inode _ _ _ _ _ Hi Hf) as (fs1 & E3 & Hi1 & Hf1).
  destruct (time_in_handler _ _ _ _ _ Hi1 (sf_state _ _ _ _ _ Hf1)) as (t & fs2 & E4 & Ht & Hi2 & Hf2).
  destruct (touch_inode _ _ _ _ _ (relinked (-1) t inode) Hi2 (sf_state _ _ _ _ _ Hf2)) as (fs3 & E5 & Hi3 & Hf3);
    [done|done|apply inode_ok_relinked; [apply (f_inode _ _ _ Hf)|exact Ht]|].
  assert (d' = d) as ->.
  { unfold get_fd in E1. rewrite int32_small in E1 by lia.
    erewrite at_pool_done in E1; [|exact Hp|by apply (get_from_fd_ok p L); [|lia]].
    pose proof (lookup_lt_Some _ _ _ Hvd) as Hlt.
    rewrite (proj2 (Z.ltb_lt _ _)), Nat2Z.id in E1 by lia. by injection E1. }
  destruct (free_ok p L d v Hok Hvd HdL) as (p' & E6 & Hp' & Hs' & _).
  exists fs3, t, p'. split; [|split; [|split; [exact Hp'|]]].
  3: { split; [by rewrite Hs', length_insert|]. intros k Hk. by rewrite Hs', list_lookup_insert_ne. }
  - unfold sfs_releasedir. rewrite lock_run by exact Hm.
    rewrite (bind_done _ _ _ _ _ E1), (bind_done _ _ _ _ _ E2), (bind_done _ _ _ _ _ E3). cbv zeta.
    rewrite (bind_done _ _ _ _ _ E4).
    change (set_change_time t (set_links _ _)) with (relinked (-1) t inode).
    rewrite (bind_done _ _ _ _ _ E5). cbn [Z.eqb negb].
    rewrite (bind_done _ _ _ _ _ (at_pool_done _ (set_fs (inr fs3) (set_mu true s)) p _ _ Hp E6)).
    reflexivity.
  - exact (same_file_trans _ _ _ _ _ _ _ (same_file_trans _ _ _ _ _ _ _ Hf1 Hf2) Hf3).
Qed.

Lemma releasedir_spec s fh fs inode F :
  open_at s fh fs inode → file_state fs inode F →
  ∃ s' fs' t, sfs_releasedir fh s = Done 0 s' ∧ mu s' = false ∧ s_fs s' = inr fs' ∧
    a_inode (abs fs') (i_inumber inode) = relinked (-1) t inode.
Proof.
  intros [Hm Hfs (p & L & d & v & Hp & Hok & -> & Hd & Hvd & HdL & Hw)] Hf.
  destruct (releasedir_run s fs inode F p L d v Hm Hfs Hp Hok Hd Hvd HdL Hw Hf) as (fs' & t & p' & E & Hf' & _).
  eexists _, fs', t. split; [exact E|]. split; [done|]. split; [done|]. exact (f_stored _ _ _ (sf_state _ _ _ _ _ Hf')).
Qed.

(** C35: opening and releasing the root directory loses a link.  [sfs_opendir]
    of "/" returns 0 and the first free descriptor and leaves the link count of
    the directory alone, but [sfs_releasedir] of that descriptor returns 0 and
    lowers the link count by one, modulo 2^32: from 0 it goes to 2^32 - 1. *)
Theorem opendir_releasedir_loses_link flags s fs root F n p d L :
  rooted s fs root F n →
  (∀ i, 0 ≤ i < n → live (abs fs) root i → c_string (d_name (dir_entry_at (abs fs) root i)) ≠ []) →
  fd_pool s = Some p → pool_ok p (d :: L) → Z.of_nat d < 2 ^ 31 →
  ∃ s1 fs1 root1 s2 fs2,
    sfs_opendir [slash] flags s = Done (0, Some (Z.of_nat d)) s1 ∧ mu s1 = false ∧
    open_at s1 (Z.of_nat d) fs1 root1 ∧ i_inumber root1 = 1 ∧
    a_inode (abs fs1) 1 = root1 ∧ i_links root1 = i_links root ∧
    sfs_releasedir (Z.of_nat d) s1 = Done 0 s2 ∧ mu s2 = false ∧ s_fs s2 = inr fs2 ∧
    i_links (a_inode (abs fs2) 1) = u32 (i_links root - 1).
Proof.
  intros Hr Hnames Hp Hok Hd.
  destruct (opendir_root flags s fs root F n p d L Hr Hnames Hp Hok Hd)
    as (s1 & fs1 & root1 & t & E1 & Ho & Hf & ->).
  destruct (releasedir_spec s1 _ fs1 _ F Ho Hf) as (s2 & fs2 & t2 & E2 & Hm2 & Hfs2 & Hst).
  pose proof (ro_number _ _ _ _ _ Hr) as Hroot. pose proof (f_stored _ _ _ Hf) as Hst1.
  cbn [i_inumber set_access_time] in Hst, Hst1. rewrite Hroot in Hst, Hst1.
  exists s1, fs1, (set_access_time t root), s2, fs2.
  split; [exact E1|]. split; [apply (oa_mu _ _ _ _ Ho)|]. split; [exact Ho|]. split; [exact Hroot|].
  split; [exact Hst1|]. split; [done|]. split; [exact E2|]. split; [exact Hm2|].
  split; [exact Hfs2|]. rewrite Hst. reflexivity.
Qed.

End opendir.

(** ** On the small file system *)
Lemma opendir_releasedir_loses_link_witness :
  ∃ s1 fs1 root1 s2 fs2,
    sfs_opendir (H := demo_env) [slash] 0 demo_idle = Done (0, Some 0) s1 ∧ mu s1 = false ∧
    open_at s1 0 fs1 root1 ∧ i_inumber root1 = 1 ∧
    a_inode (abs fs1) 1 = root1 ∧ i_links root1 = 1 ∧
    sfs_releasedir (H := demo_env) 0 s1 = Done 0 s2 ∧ mu s2 = false ∧ s_fs s2 = inr fs2 ∧
    i_links (a_inode (abs fs2) 1) = u32 (1 - 1).
Proof.
  apply (opendir_releasedir_loses_link (H := demo_env) 0 demo_idle demo_fs demo_root demo_free 1
           new_pool 0 (seq 1 (slots_per_slab - 1)) demo_idle_rooted).
  - intros i Hi _. replace i with 0 by lia. rewrite demo_live. by vm_compute.
  - done.
  - exact new_pool_ok.
  - lia.
Defined.
