(* ===== verification/FormatTheorems.v ===== *)
(** * Properties of formatting and mounting *)

From S2P Require Export FormatIndex CreateTheorems.

(** ** When the final assertion of [format_fs] holds *)

(** [F] blocks are left for the index and the data. *)
Definition format_fits (F : Z) : Prop := F = 1 ∨ (F ≠ 0 ∧ F `mod` 64 ≠ 1).

#[export] Instance format_fits_dec F : Decision (format_fits F).
Proof. unfold format_fits. apply _. Defined.

Lemma format_fits_spec N T H F D :
  geometry N T H F D →
  format_fits F ↔ (if D =? 0 then H else H + (D - 1) / 63) = N - D - 1.
Proof.
  intros [? ? ? ? ? EF ED ?]. unfold format_fits.
  assert (0 ≤ F) by lia. assert (N = H + F) as -> by lia. rewrite ED.
  destruct (Z.eqb_spec (F * 63 / 64) 0); div_lia.
Qed.

Lemma inode_block_table T n : 1 ≤ n ≤ 3 * T → 0 < inode_block n ≤ T.
Proof. intros Hn. unfold inode_block. change inodes_per_block with 3. div_lia. Qed.

Lemma disk_blocks_max s : 0 ≤ s < 2 ^ 44 → 0 ≤ s / BLOCK_SIZE < 2 ^ 35.
Proof. unfold BLOCK_SIZE. intros. div_lia. Qed.

Lemma disk_blocks_fit s : s / BLOCK_SIZE * BLOCK_SIZE ≤ s.
Proof. unfold BLOCK_SIZE. div_lia. Qed.

Section format.
  Context `{EV : Env, RI : !ReliableIO, EO : !EnvOk, IO : !IdsOk}.

Definition disk_blocks (w : world) : Z := w_size w / BLOCK_SIZE.

Lemma format_too_small w :
  env_fstat_ok = true → 0 ≤ w_size w < 2 ^ 44 → disk_blocks w < 3 → format_fs w = Done None w.
Proof.
  intros Hstat Hsz Hn. unfold format_fs. rewrite bind_get, Hstat. cbn [negb].
  rewrite Z.quot_div_nonneg by (unfold BLOCK_SIZE; lia).
  pose proof (disk_blocks_max _ Hsz). unfold disk_blocks in Hn.
  by rewrite u64_small, (proj2 (Z.ltb_lt _ 3)) by lia.
Qed.

(** What is on the disk after formatting. *)
Record formatted_as (N T H D : Z) (w w' : world) (sb : sfs_fs_superblock) : Prop := FormattedAs {
  fa_sb : ∃ t, 0 ≤ t < 2 ^ 64 ∧
    sb = Superblock SFS_FILE_TYPE_SIGNATURE t BLOCK_SIZE T (3 * T) N H 2;
  fa_sb_block : wblk w' 0 = superblock_block sb;
  fa_table : table_done T w';
  fa_nodes k : 0 ≤ k < D / 63 → index_node (N - D) (H + k) (N - D + 63 * k) 63 (wblk w' (H + k));
  fa_other b : T < b → ¬ (H ≤ b < H + D / 63) → wblk w' b = wblk w b;
  fa_size : w_size w' = w_size w;
}.

(** The two loops, up to the final assertion. *)
Lemma format_loops w N T H F D :
  geometry N T H F D → N * BLOCK_SIZE ≤ w_size w < 2 ^ 44 →
  ∃ blk next w2 acc w3,
    for_range 1 (T + 1) (zero_block, 3) format_inode_block w = Done (inl (blk, next)) w2 ∧
    for_range (N - D) N (blk, H, 0) (format_index_entry (N - D)) w2 = Done (inl acc) w3 ∧
    acc.1.2 = (if D =? 0 then H else H + (D - 1) / 63) ∧ table_done T w3 ∧
    (∀ k, 0 ≤ k < D / 63 → index_node (N - D) (H + k) (N - D + 63 * k) 63 (wblk w3 (H + k))) ∧
    (∀ b, T < b → ¬ (H ≤ b < H + D / 63) → wblk w3 b = wblk w b) ∧ w_size w3 = w_size w.
Proof.
  intros Hg Hsz. pose proof (geometry_nodes _ _ _ _ _ Hg) as (G1 & G2 & G3).
  pose proof Hg as [? ? ? ? ? EF ED ?]. unfold BLOCK_SIZE in Hsz.
  destruct (proj1 (wp_iff _ _ _) (format_table_spec T w ltac:(lia) ltac:(unfold BLOCK_SIZE; lia) ltac:(lia)))
    as (? & w2 & E2 & blk & next & -> & Hl & Ht & Hs2 & Hb2).
  assert (index_room H (N - D) D w2) as Hroom.
  { pose proof (geometry_room _ _ _ _ _ Hg) as Hroom. split; unfold BLOCK_SIZE; rewrite ?Hs2; lia. }
  destruct (proj1 (wp_iff _ _ _) (format_index_spec H (N - D) D w2 blk Hroom Hl))
    as (? & w3 & E3 & acc & -> & Hinv).
  replace (N - D + D) with N in E3 by lia.
  exists blk, next, w2, acc, w3. split; [exact E2|]. split; [exact E3|].
  split; [exact (index_inv_last _ _ _ _ _ _ Hinv G1)|].
  assert (∀ b, b < H → wblk w3 b = wblk w2 b) as Hlow.
  { intros b Hb. apply (ii_other _ _ _ _ _ _ Hinv). lia. }
  split; [|split; [exact (ii_written _ _ _ _ _ _ Hinv)|split]].
  - destruct Ht as (t & Hr & Ht). exists t. split; [exact Hr|]. intros n Hn.
    rewrite <-(Ht n Hn). unfold inode_at_disk. rewrite Hlow; [reflexivity|].
    pose proof (inode_block_table T n Hn). lia.
  - intros b Hb Hnb. rewrite (ii_other _ _ _ _ _ _ Hinv b Hnb). apply Hb2. lia.
  - rewrite (ii_size _ _ _ _ _ _ Hinv). exact Hs2.
Qed.

Lemma format_superblock_ok N T H F D t :
  geometry N T H F D → 0 ≤ t < 2 ^ 64 →
  c_ok superblock_c (Superblock SFS_FILE_TYPE_SIGNATURE t BLOCK_SIZE T (3 * T) N H 2) = true.
Proof.
  intros [] Ht. apply superblock_ok_spec. cbn [sb_signature sb_create_time sb_block_size
    sb_inode_table_blocks sb_inodes sb_blocks sb_free_blocks_head sb_free_inode_head].
  unfold BLOCK_SIZE. split_and!; (lia || done).
Qed.

(** Formatting a disk of a known geometry. *)
Lemma format_fs_spec w N T H F D :
  env_fstat_ok = true → N = disk_blocks w → w_size w < 2 ^ 44 → geometry N T H F D →
  if decide (format_fits F)
  then ∃ sb w', format_fs w = Done (Some sb) w' ∧ formatted_as N T H D w w' sb
  else format_fs w = Crash AssertFailed.
Proof.
  intros Hstat HN Hmax Hg. pose proof Hg as [? HT ? HH HHeq EF ED HP]. unfold disk_blocks in HN.
  assert (N * BLOCK_SIZE ≤ w_size w) as Hsz by (rewrite HN; apply disk_blocks_fit).
  assert (u64 (Z.quot (w_size w) BLOCK_SIZE) = N) as EN.
  { rewrite Z.quot_div_nonneg, <-HN by (unfold BLOCK_SIZE in *; lia). apply u64_small. lia. }
  pose proof (geometry_nodes _ _ _ _ _ Hg) as (G1 & G2 & G3).
  set (w1 := World (w_size w) (w_blocks w) (w_ios w) (S (w_times w)) (w_mallocs w)).
  set (t := u64 (env_clock (w_times w))).
  set (sb := Superblock SFS_FILE_TYPE_SIGNATURE t BLOCK_SIZE T (3 * T) N H 2).
  destruct (format_loops w1 N T H F D Hg ltac:(done))
    as (blk & next & w2 & acc & w3 & E2 & E3 & Ecur & Htab & Hnodes & Hother & Hsize).
  assert (∀ k, format_fs w = k → k = (assert_ (acc.1.2 =? N - D - 1);;
    r ← write_superblock sb; return_if negb (r =? 0) with None; mret (Some sb)) w3) as Hrun.
  { intros k <-. unfold format_fs. rewrite bind_get, Hstat. cbn [negb]. rewrite EN.
    rewrite (proj2 (Z.ltb_ge N 3)) by lia.
    rewrite (bind_done _ _ w t w1) by reflexivity. cbv zeta. rewrite HT, HH, HP.
    rewrite (u64_small (T + 1)), (bind_done _ _ _ _ _ E2) by lia.
    rewrite (bind_done _ _ _ _ _ E3). destruct acc as [[idx cur] pos].
    rewrite (u64_small (N - D - 1)), (u64_small (T * inodes_per_block)) by
      (change inodes_per_block with 3; lia).
    change inodes_per_block with 3. rewrite (Z.mul_comm T 3). done. }
  rewrite (Hrun _ eq_refl), Ecur.
  pose proof (format_fits_spec N T H F D Hg) as Hfits. case_decide as Hf.
  - rewrite (proj2 (Z.eqb_eq _ _) (proj1 Hfits Hf)).
    assert (c_ok superblock_c sb = true) as Hsb.
    { eapply format_superblock_ok; [done|by apply Z.mod_pos_bound]. }
    assert (on_disk w3 0) as Hd by (unfold on_disk; rewrite Hsize; unfold BLOCK_SIZE in *; simpl; lia).
    exists sb, (set_blk 0 (superblock_block sb) (tick_io w3)). split.
    { rewrite bind_assert by done. unfold write_superblock. rewrite bind_assoc.
      erewrite bind_done by (by apply block_write_ok, length_superblock_block). done. }
    split.
    + exists t. split; [by apply Z.mod_pos_bound|done].
    + by apply wblk_set_eq, length_superblock_block.
    + destruct Htab as (t' & Hr & Ht'). exists t'. split; [exact Hr|]. intros n Hn.
      rewrite <-(Ht' n Hn). unfold inode_at_disk. rewrite wblk_set_ne; [reflexivity|].
      pose proof (inode_block_table T n Hn). lia.
    + intros k Hk. rewrite wblk_set_ne by lia. by apply Hnodes.
    + intros b Hb Hnb. rewrite wblk_set_ne by lia. etrans; [apply (Hother b Hb Hnb)|done].
    + done.
  - rewrite (proj2 (Z.eqb_neq _ _)); [done|]. intros E. by apply Hf, Hfits.
Qed.

(** C13: what formatting does, for every size of the disk.  A disk of fewer
    than 3 blocks is refused.  On a larger one, with reliable I/O, [format_fs]
    stops the process at its final assertion when the F blocks behind the table
    are 0, or are one more than a multiple of 64 (except 1).  For every other
    size it succeeds: the superblock is on the disk, the table holds the root
    directory and the list of the free inodes, every full node of the index
    lists 63 blocks and points to the next node, and every other block behind
    the table is untouched. *)
Theorem format_outcome w :
  env_fstat_ok = true → 0 ≤ w_size w < 2 ^ 44 →
  if disk_blocks w <? 3 then format_fs w = Done None w
  else ∃ T H F D, geometry (disk_blocks w) T H F D ∧
    if decide (format_fits F)
    then ∃ sb w', format_fs w = Done (Some sb) w' ∧ formatted_as (disk_blocks w) T H D w w' sb
    else format_fs w = Crash AssertFailed.
Proof.
  intros Hstat Hsz. destruct (Z.ltb_spec (disk_blocks w) 3) as [Hsmall|Hge].
  - by apply format_too_small.
  - destruct (geometry_of (disk_blocks w)) as (T & H & F & D & Hg).
    { exact (conj Hge (proj2 (disk_blocks_max _ Hsz))). }
    exists T, H, F, D. split; [exact Hg|]. exact (format_fs_spec w _ T H F D Hstat eq_refl (proj2 Hsz) Hg).
Qed.

End format.

(** ** On an empty disk of 70 blocks *)
#[export] Instance demo_ids : IdsOk (H := demo_env).
Proof. by split. Qed.

Definition blank_disk : world := World (70 * BLOCK_SIZE) ∅ 0 0 0.

Lemma blank_geometry : geometry 70 4 6 64 63.
Proof. by split. Qed.

Lemma format_outcome_witness :
  if disk_blocks blank_disk <? 3 then format_fs (H := demo_env) blank_disk = Done None blank_disk
  else ∃ T H F D, geometry (disk_blocks blank_disk) T H F D ∧
    if decide (format_fits F)
    then ∃ sb w', format_fs (H := demo_env) blank_disk = Done (Some sb) w' ∧
      formatted_as (EV := demo_env) (disk_blocks blank_disk) T H D blank_disk w' sb
    else format_fs (H := demo_env) blank_disk = Crash AssertFailed.
Proof. by apply (format_outcome (EV := demo_env) blank_disk). Defined.
