(* ===== verification/MountTheorems.v ===== *)
(** * From an unformatted disk to stored files

    Mounting an unformatted disk formats it; what the disk then holds is a
    well-formed file system with an empty root directory, and the handlers
    store files in it. *)

From S2P Require Export FormatTheorems FdTest.

(** The blocks that are free after formatting: the nodes of the index and the
    blocks that the full nodes list. *)
Definition fresh_blocks (N H D : Z) : list Z := seqZ H (N - D - H) ++ seqZ (N - D) (63 * (D / 63)).

(** The last node of the index is only written when it is full. *)
Definition last_node_ok (N F D : Z) (w : world) : Prop :=
  F `mod` 64 = 0 ∨ wblk w (N - D - 1) = zero_block.

Lemma length_fresh_blocks N H D : H ≤ N - D → 0 ≤ D → Z.of_nat (length (fresh_blocks N H D)) = N - D - H + 63 * (D / 63).
Proof. intros. unfold fresh_blocks. rewrite length_app, !length_seqZ. pose proof (Z.div_pos D 63). lia. Qed.

Lemma table_blocks_range N : 3 ≤ N → N < 2 ^ 35 → 1 ≤ table_blocks N < 2 ^ 31.
Proof.
  intros ??. unfold table_blocks. rewrite u64_small by lia.
  destruct (Z.eqb_spec ((N - 1) / 16) 0); div_lia.
Qed.

(** The nodes that are full, and the one that may not be. *)
Lemma full_nodes N T H F D :
  geometry N T H F D → format_fits F →
  0 ≤ D / 63 ≤ N - D - H ∧ N - D - H ≤ D / 63 + 1 ∧ 0 < N - D - H ∧ (F `mod` 64 = 0 → N - D - H = D / 63).
Proof.
  intros [? ? ? ? ? EF ED ?] Hf. assert (0 ≤ F) as H0 by lia. assert (N - D - H = F - D) as -> by lia.
  assert (F ≠ 0) as Hne by (destruct Hf as [->|[? _]]; lia). subst D. clear - H0 Hne. split_and!; div_lia.
Qed.

Section mount.
  Context `{EV : Env, RI : !ReliableIO, EO : !EnvOk, IO : !IdsOk}.

(** The state just after the disk is opened. *)
Definition opened (w : world) (sb : sfs_fs_superblock) : filesystem :=
  Filesystem w sb (InodeCache false 0 env_heap_data).

Lemma view_opened w sb n : 1 ≤ n → view (opened w sb) n = inode_at_disk w n.
Proof.
  intros Hn. unfold view. cbn [opened icache block_number disk].
  destruct (Z.eqb_spec 0 (inode_block n)) as [E|]; [|done].
  unfold inode_block in E. change inodes_per_block with 3 in E. exfalso. clear -E Hn. div_lia.
Qed.

Lemma formatted_ok N T H F D w w' sb :
  geometry N T H F D → N * BLOCK_SIZE ≤ w_size w < 2 ^ 44 → formatted_as N T H D w w' sb → fs_ok (opened w' sb).
Proof.
  intros Hg Hsz [(t & Ht & ->) _ _ _ _ Hs]. pose proof (format_superblock_ok _ _ _ _ _ _ Hg Ht) as Hsb.
  pose proof (table_blocks_range N (proj1 (ge_blocks _ _ _ _ _ Hg)) (proj2 (ge_blocks _ _ _ _ _ Hg))) as HT.
  rewrite (ge_table _ _ _ _ _ Hg) in HT. destruct Hg. unfold BLOCK_SIZE in Hsz.
  split; cbn [opened superblock disk icache block_number dirty data sb_inode_table_blocks sb_blocks];
    unfold BLOCK_SIZE; try lia; try done. apply heap_len.
Qed.

Lemma formatted_free_inodes N T H F D w w' sb :
  geometry N T H F D → formatted_as N T H D w w' sb →
  free_inodes (abs (opened w' sb)) (seqZ 2 (3 * T - 1)) (3 * T + 1).
Proof.
  intros [_ _ HT _ _ _ _ _] [(t0 & _ & ->) _ (t & Ht & Htab) _ _ _]. split; [apply NoDup_seqZ|].
  change (sb_free_inode_head _) with 2.
  assert (∀ (k : nat) n, 2 ≤ n → n + Z.of_nat k = 3 * T + 1 →
    inode_list (abs (opened w' (Superblock SFS_FILE_TYPE_SIGNATURE t0 BLOCK_SIZE T (3 * T) N H 2)))
      n (seqZ n (Z.of_nat k)) (3 * T + 1)) as Hlist.
  { induction k as [|k IH]; intros n Hn E; [simpl; lia|].
    rewrite seqZ_cons by lia. cbn [inode_list]. change (a_inode (abs ?fs) ?m) with (view fs m).
    rewrite view_opened, Htab by lia. unfold format_table. rewrite (proj2 (Z.eqb_neq n 1)) by lia.
    split; [done|]. split; [unfold valid_inumber; simpl; change inodes_per_block with 3; lia|]. split; [done|].
    cbn [format_free i_size]. replace (Z.pred (Z.of_nat (S k))) with (Z.of_nat k) by lia.
    apply IH; lia. }
  replace (3 * T - 1) with (Z.of_nat (Z.to_nat (3 * T - 1))) by lia. apply Hlist; lia.
Qed.

Lemma formatted_is_free N T H F D w w' sb :
  geometry N T H F D → format_fits F → last_node_ok N F D w → formatted_as N T H D w w' sb →
  is_free (abs (opened w' sb)) (fresh_blocks N H D).
Proof.
  intros Hg Hf Hlast [(t & _ & ->) _ _ Hn Ho _]. destruct (full_nodes _ _ _ _ _ Hg Hf) as (K1 & K2 & K3 & K4).
  pose proof (geometry_nodes _ _ _ _ _ Hg) as (G1 & _ & G3). pose proof Hg as [? ? ? ? ? ? ? ?].
  pose proof (Z.mul_div_le D 63 ltac:(lia)) as Hq.
  unfold fresh_blocks. apply index_is_free; [exact (conj K1 K2)|lia|exact Hn| | |reflexivity|exact K3].
  - intros k Hk. destruct Hlast as [E|E]; [rewrite (K4 E) in Hk; lia|].
    cbn [abs opened a_block disk]. rewrite Ho by lia. replace (H + k) with (N - D - 1) by lia. exact E.
  - intros b Hb. unfold data_block. cbn [abs opened a_sb superblock sb_inode_table_blocks sb_blocks]. lia.
Qed.

(** A freshly formatted disk is a well-formed file system with an empty root
    directory. *)
Lemma formatted_root N T H F D w w' sb :
  geometry N T H F D → N * BLOCK_SIZE ≤ w_size w < 2 ^ 44 → format_fits F → last_node_ok N F D w →
  formatted_as N T H D w w' sb →
  ∃ t, 0 ≤ t < 2 ^ 64 ∧ dir_state (opened w' sb) (format_root t) (fresh_blocks N H D) 0.
Proof.
  intros Hg Hsz Hf Hlast Hw. pose proof (fa_table _ _ _ _ _ _ _ Hw) as (t & Ht & Htab). exists t.
  split; [exact Ht|]. pose proof (fa_sb _ _ _ _ _ _ _ Hw) as (t0 & _ & Hsb).
  pose proof (formatted_ok _ _ _ _ _ _ _ _ Hg Hsz Hw) as Hok.
  pose proof (formatted_is_free _ _ _ _ _ _ _ _ Hg Hf Hlast Hw) as Hfree.
  pose proof (ge_table_pos _ _ _ _ _ Hg) as HT.
  split; [|split; [lia|done]|done|intros i; lia].
  split; [exact Hok|exact Hfree|by apply file_wf_holes|exact (format_table_ok t 1 Ht ltac:(lia))| |].
  - rewrite Hsb. unfold valid_inumber. simpl. change inodes_per_block with 3. lia.
  - change (view (opened w' sb) 1 = format_root t). rewrite view_opened, (Htab 1) by lia. done.
Qed.

(** Opening an unformatted disk. *)
Lemma open_unformatted `{RM : !ReliableMalloc} maybe_format w sb w' :
  on_disk w 0 → sb_signature (get_at superblock_c 0 (wblk w 0)) ≠ SFS_FILE_TYPE_SIGNATURE →
  env_heap_dirty = false →
  format_fs (tick_io (World (w_size w) (w_blocks w) (w_ios w) (w_times w) (S (w_mallocs w)))) = Done (Some sb) w' →
  sfs_fs_open_disk maybe_format w = Done (Some (sb, InodeCache false 0 env_heap_data)) w'.
Proof.
  intros Hd Hsig Hclean Hfmt. unfold sfs_fs_open_disk, malloc_.
  erewrite bind_done by reflexivity. rewrite reliable_malloc. simpl.
  set (w1 := World _ _ _ _ _) in *.
  assert (wblk w1 0 = wblk w 0) as Hb1 by reflexivity.
  run by (apply (block_read_ok 0 env_stack_block w1); [exact Hd|apply stack_len]).
  rewrite Hb1, bool_decide_eq_false_2 by exact Hsig. rewrite (bind_done _ _ _ _ _ Hfmt).
  by rewrite time_ok, Hclean.
Qed.

(** A disk without a file system that formatting succeeds on; the block of the
    last node of the index holds zeros, if that node is not full. *)
Record unformatted (w : world) (N T H F D : Z) : Prop := Unformatted {
  un_size : w_size w < 2 ^ 44;
  un_blocks : N = disk_blocks w;
  un_geometry : geometry N T H F D;
  un_fits : format_fits F;
  un_last : last_node_ok N F D w;
  un_signature : sb_signature (get_at superblock_c 0 (wblk w 0)) ≠ SFS_FILE_TYPE_SIGNATURE;
}.

(** The state after [sfs_init]: no handler runs, no descriptor is in use. *)
Definition mounted (s : sfs_state) (fs : filesystem) : sfs_state :=
  SfsState false (inr fs) (Some new_pool) (sigterm s).

Lemma pool_init_run `{RM : !ReliableMalloc} w :
  sfs_filedescriptor_pool_init w
    = Done (Some new_pool) (World (w_size w) (w_blocks w) (w_ios w) (w_times w) (S (S (w_mallocs w)))).
Proof.
  unfold sfs_filedescriptor_pool_init, malloc_. erewrite bind_done by reflexivity.
  rewrite reliable_malloc. cbn [negb]. erewrite bind_done by reflexivity. by rewrite reliable_malloc.
Qed.

Lemma init_spec `{RM : !ReliableMalloc} s w sb cache w' :
  mu s = false → s_fs s = inl w →
  sfs_fs_open_disk true (World (w_size w) (w_blocks w) (w_ios w) (w_times w) (S (S (w_mallocs w))))
    = Done (Some (sb, cache)) w' →
  sfs_init s = Done tt (mounted s (Filesystem w' sb cache)).
Proof.
  intros Hm Hs E. unfold sfs_init. rewrite lock_run by exact Hm.
  erewrite (bind_done _ _ (set_mu true s)); [|unfold at_world, zoom; simpl; rewrite Hs; simpl;
    rewrite pool_init_run; reflexivity].
  cbv beta. erewrite (bind_done (modify _)) by reflexivity. cbv beta iota.
  erewrite (bind_done (at_world _)); [|unfold at_world, zoom; simpl; rewrite E; reflexivity].
  reflexivity.
Qed.

Lemma mount_fresh `{RM : !ReliableMalloc} s w N T H F D :
  mu s = false → s_fs s = inl w → unformatted w N T H F D →
  env_fstat_ok = true → env_heap_dirty = false →
  ∃ fs t, sfs_init s = Done tt (mounted s fs) ∧
    rooted (mounted s fs) fs (format_root t) (fresh_blocks N H D) 0 ∧
    free_inodes (abs fs) (seqZ 2 (3 * T - 1)) (3 * T + 1).
Proof.
  intros Hm Hs [Hmax HN Hg Hf Hlast Hsig] Hstat Hclean.
  assert (N * BLOCK_SIZE ≤ w_size w) as Hsz by (rewrite HN; apply disk_blocks_fit).
  set (w1 := World (w_size w) (w_blocks w) (w_ios w) (w_times w) (S (S (w_mallocs w)))).
  set (w2 := tick_io (World (w_size w1) (w_blocks w1) (w_ios w1) (w_times w1) (S (w_mallocs w1)))).
  pose proof (format_fs_spec w2 N T H F D Hstat HN Hmax Hg) as Hfmt. rewrite decide_True in Hfmt by exact Hf.
  destruct Hfmt as (sb & w' & Hrun & Hw').
  assert (on_disk w1 0) as Hd.
  { pose proof (ge_blocks _ _ _ _ _ Hg) as HN3. unfold on_disk. simpl. unfold BLOCK_SIZE in *. lia. }
  pose proof (open_unformatted true w1 sb w' Hd Hsig Hclean Hrun) as Hopen.
  destruct (formatted_root N T H F D w2 w' sb Hg (conj Hsz Hmax) Hf Hlast Hw') as (t & Ht & Hdir).
  exists (opened w' sb), t. split; [exact (init_spec s w sb _ w' Hm Hs Hopen)|]. split.
  - by split.
  - exact (formatted_free_inodes N T H F D w2 w' sb Hg Hw').
Qed.

(** C12: mounting an unformatted disk gives an empty file system.  If the memory
    of the inode cache is clean, the size is one that [format_fs] accepts and
    the last node of the index, which it does not write unless it is full, is
    zero on the disk, then [sfs_init] succeeds, with the mutex free and no
    descriptor in use: the root directory is well-formed and has no entries,
    every inode of the table but the root's is free, and so are all the nodes
    of the index and all the blocks its full nodes list. *)
Theorem mount_formats_disk `{RM : !ReliableMalloc} s w N T H F D :
  mu s = false → s_fs s = inl w → unformatted w N T H F D →
  env_fstat_ok = true → env_heap_dirty = false →
  ∃ s' fs t, sfs_init s = Done tt s' ∧ rooted s' fs (format_root t) (fresh_blocks N H D) 0 ∧
    fd_pool s' = Some new_pool ∧ sigterm s' = sigterm s ∧
    free_inodes (abs fs) (seqZ 2 (3 * T - 1)) (3 * T + 1) ∧
    Z.of_nat (length (fresh_blocks N H D)) = N - D - H + 63 * (D / 63).
Proof.
  intros Hm Hs Hun Hstat Hclean. destruct (mount_fresh s w N T H F D Hm Hs Hun Hstat Hclean) as (fs & t & E & Hr & Hi).
  destruct (geometry_nodes _ _ _ _ _ (un_geometry _ _ _ _ _ _ Hun)) as (? & _ & ? & _).
  exists (mounted s fs), fs, t. split_and!; [exact E|exact Hr|done|done|exact Hi|by apply length_fresh_blocks].
Qed.

End mount.

(** ** Unmounting and mounting again *)
Section remount.
  Context `{EV : Env, RI : !ReliableIO, EO : !EnvOk, RM : !ReliableMalloc}.

Lemma destroy_spec s fs p L :
  mu s = false → s_fs s = inr fs → fs_ok fs → fd_pool s = Some p → pool_ok p L →
  ∃ p', sfs_destroy s
    = Done tt (SfsState false (inl (disk (saved (flushed fs)))) (Some p') (sigterm s)).
Proof.
  intros Hm Hs Hok Hp Hpok. destruct (pool_deinit_spec p L Hpok) as (p' & E & _ & _).
  exists p'. unfold sfs_destroy. rewrite lock_run by exact Hm. rewrite bind_get. cbn [s_fs set_mu]. rewrite Hs.
  pose proof (close_ok fs Hok) as Hclose.
  pose proof (at_fs_done sfs_fs_close (set_mu true s) fs _ _ Hs Hclose) as E1.
  rewrite bind_assoc, (bind_done _ _ _ _ _ E1). unfold modify. erewrite bind_done by reflexivity.
  rewrite bind_get. cbn [fd_pool set_fs set_mu]. rewrite Hp.
  erewrite bind_done; [|by apply (at_pool_done _ _ p _ p'); [exact Hp|exact E]]. reflexivity.
Qed.

Lemma remount_spec s fs p L :
  mu s = false → s_fs s = inr fs → fs_ok fs → fd_pool s = Some p → pool_ok p L → env_heap_dirty = false →
  ∃ s1 fs2, sfs_destroy s = Done tt s1 ∧ sfs_init s1 = Done tt (mounted s1 fs2) ∧
    fs_ok fs2 ∧ abs fs2 ≡ abs fs.
Proof.
  intros Hm Hs Hok Hp Hpok Hclean. destruct (destroy_spec s fs p L Hm Hs Hok Hp Hpok) as (p' & E1).
  set (w := disk (saved (flushed fs))) in *.
  destruct (reopen_spec fs (World (w_size w) (w_blocks w) (w_ios w) (w_times w) (S (S (w_mallocs w)))) true
    Hok Hclean eq_refl eq_refl) as (w' & E2 & Habs & Hok').
  eexists _, _. split; [exact E1|]. split; [|split; [exact Hok'|exact Habs]].
  apply (init_spec _ w); [reflexivity|reflexivity|exact E2].
Qed.

Lemma remount_rooted s s' fs fs' root F n :
  rooted s fs root F n → mu s' = false → s_fs s' = inr fs' → fs_ok fs' → abs fs' ≡ abs fs →
  rooted s' fs' root F n ∧
  ∀ i, 0 ≤ i < n → dir_entry_at (abs fs') root i = dir_entry_at (abs fs) root i.
Proof.
  intros [_ _ Hd Hn1 Hmode] Hm Hs Hok Habs.
  pose proof (same_file_equiv fs root F fs' (ds_file _ _ _ _ Hd) Hok Habs) as [Hf _ Hb _ _].
  split.
  - split; [exact Hm|exact Hs| |exact Hn1|exact Hmode].
    apply (dir_state_update fs fs' root root F n Hd Hf (proj1 Habs) eq_refl Hb).
  - intros i Hi. pose proof (ds_blocks _ _ _ _ Hd). unfold dir_entry_at. by rewrite Hb by lia.
Qed.

(** C14: nothing is lost when the file system is unmounted and mounted again.
    From any well-formed mounted state, [sfs_destroy] and then [sfs_init] give
    a state with the same superblock, the same inodes (those only in the cache
    included) and the same data blocks, with no descriptor in use, provided the
    memory of the new cache is clean; the root directory and its entries are
    as before. *)
Theorem unmount_then_mount s fs root F n p L :
  rooted s fs root F n → fd_pool s = Some p → pool_ok p L → env_heap_dirty = false →
  ∃ s1 s2 fs2, sfs_destroy s = Done tt s1 ∧ sfs_init s1 = Done tt s2 ∧
    fd_pool s2 = Some new_pool ∧ abs fs2 ≡ abs fs ∧ rooted s2 fs2 root F n ∧
    ∀ i, 0 ≤ i < n → dir_entry_at (abs fs2) root i = dir_entry_at (abs fs) root i.
Proof.
  intros Hr Hp Hpok Hclean. pose proof (f_ok _ _ _ (ds_file _ _ _ _ (ro_dir _ _ _ _ _ Hr))) as Hok.
  destruct (remount_spec s fs p L (ro_mu _ _ _ _ _ Hr) (ro_fs _ _ _ _ _ Hr) Hok Hp Hpok Hclean)
    as (s1 & fs2 & E1 & E2 & Hok2 & Habs).
  exists s1, (mounted s1 fs2), fs2. split; [exact E1|]. split; [exact E2|]. split; [done|]. split; [exact Habs|].
  exact (remount_rooted s (mounted s1 fs2) fs fs2 root F n Hr eq_refl eq_refl Hok2 Habs).
Qed.

(** A file of the root directory, found and read after mounting again. *)
Lemma reread_spec name flags s fs root F n p L j file k buf0 :
  rooted s fs root F n → fd_pool s = Some p → pool_ok p L → env_heap_dirty = false → good_name name →
  entry_of fs root n name j (i_inumber file) → beside fs root F file →
  1 ≤ k ≤ file_blocks → length buf0 = Z.to_nat (k * BLOCK_SIZE) →
  ∃ s1 s2 s3 s4 buf', sfs_destroy s = Done tt s1 ∧ sfs_init s1 = Done tt s2 ∧
    sfs_open (slash :: name) flags s2 = Done (0, Some 0) s3 ∧
    sfs_read buf0 (k * BLOCK_SIZE) 0 0 s3 = Done (k * BLOCK_SIZE, buf') s4 ∧
    length buf' = length buf0 ∧ ∀ i, 0 ≤ i < k → buf_block buf' i = file_block (abs fs) file i.
Proof.
  intros Hr Hp Hpok Hclean Hname He Hbe Hk Hl.
  pose proof (ds_file _ _ _ _ (ro_dir _ _ _ _ _ Hr)) as Hroot.
  destruct (remount_spec s fs p L (ro_mu _ _ _ _ _ Hr) (ro_fs _ _ _ _ _ Hr) (f_ok _ _ _ Hroot) Hp Hpok Hclean)
    as (s1 & fs2 & E1 & E2 & Hok2 & Habs).
  destruct (remount_rooted s (mounted s1 fs2) fs fs2 root F n Hr eq_refl eq_refl Hok2 Habs) as [Hr2 Hent].
  destruct (ke_others _ _ _ _ _ _ (others_kept_equiv fs root F fs2 (f_wf _ _ _ Hroot) Hok2 Habs) file Hbe)
    as [Hbe2 Hb2].
  pose proof (f_stored _ _ _ (be_state _ _ _ _ Hbe2)) as Hst2.
  assert (entry_of fs2 root n name j (i_inumber file)) as He2.
  { destruct He as [A1 A2 A3 A4 A5]. unfold live in *. rewrite <-Hent in A2, A3, A5 by done. split; try done.
    intros i Hi. unfold live. rewrite Hent by lia. by apply A4. }
  destruct (open_entry name flags (mounted s1 fs2) fs2 root F n j (i_inumber file) new_pool 0
    (seq 1 (slots_per_slab - 1)) Hr2 Hname He2)
    as (s3 & fs3 & root3 & t & p3 & E3 & _ & Ho3 & _ & _ & _ & _ & _ & Hfile);
    [|by rewrite Hst2|done|exact new_pool_ok|done|].
  { rewrite <-(ro_number _ _ _ _ _ Hr). exact (be_number _ _ _ _ Hbe2). }
  rewrite Hst2 in Ho3, Hfile. destruct (Hfile Hbe2) as [Hf3 Hb3].
  destruct (read_whole_spec s3 0 fs3 _ F k buf0 Ho3 Hf3 Hk Hl) as (buf' & s4 & fs4 & t4 & E4 & Hl4 & Hb4 & _).
  exists s1, (mounted s1 fs2), s3, s4, buf'. split_and!; [exact E1|exact E2|exact E3|exact E4|exact Hl4|].
  intros i Hi. rewrite Hb4, Hb3, Hb2 by lia. done.
Qed.

End remount.

(** ** From an empty disk to a file that survives *)
Section story.
  Context `{EV : Env, RI : !ReliableIO, EO : !EnvOk, IO : !IdsOk, RM : !ReliableMalloc}.

(** A file is created and written in an empty root directory. *)
Lemma first_file_spec ctx name mode flags s fs root F ML last k buf :
  rooted s fs root F 0 → free_inodes (abs fs) (2 :: ML) last → (1 ∉ 2 :: ML) → ids_ok ctx →
  fd_pool s = Some new_pool → good_name name → x00 ∉ name →
  1 ≤ k ≤ SFS_NDIR_BLOCKS → k < Z.of_nat (length F) → length buf = Z.to_nat (k * BLOCK_SIZE) →
  ∃ s1 s2 fs2 root2 F2 p L file,
    sfs_create ctx (slash :: name) mode flags s = Done (0, Some 0) s1 ∧
    sfs_write buf (k * BLOCK_SIZE) 0 0 s1 = Done (k * BLOCK_SIZE) s2 ∧
    rooted s2 fs2 root2 F2 1 ∧ fd_pool s2 = Some p ∧ pool_ok p L ∧
    entry_of fs2 root2 1 name 0 (i_inumber file) ∧ beside fs2 root2 F2 file ∧
    ∀ j, 0 ≤ j < k → file_block (abs fs2) file j = buf_block buf j.
Proof.
  intros Hr HL Hm1 Hids Hp Hname Hnul Hk HF Hlen.
  destruct (create_spec ctx name mode flags s fs root F 0 2 ML last new_pool 0 (seq 1 (slots_per_slab - 1)))
    as (s1 & fs1 & root1 & F1 & j & file & E1 & Hc); [exact Hr|exact Hname|intros i; lia|exact HL|exact Hm1|exact Hids|
      by intros ->; simpl in HF; lia|done|by left|exact Hp|exact new_pool_ok|done|].
  destruct Hc as [C1 C2 C3 C4 C5 _ C7 _ (t1 & t2 & t3 & t4 & C9)].
  assert (j = 0) as -> by lia. change (Z.max 0 (0 + 1)) with 1 in C1.
  assert (i_inumber file = 2) as Hnum by (by rewrite C9).
  pose proof (be_state _ _ _ _ C3) as Hf1. pose proof (ds_file _ _ _ _ (ro_dir _ _ _ _ _ C1)) as Hroot1.
  destruct (proj1 (wp_iff _ _ _) (write_whole_spec s1 0 fs1 file F1 k buf C2 Hf1
    ltac:(change SFS_NDIR_BLOCKS with 12 in Hk; change file_blocks with 76; lia) Hlen
    ltac:(left; apply Hk) ltac:(lia)))
    as (r & s2 & E2 & -> & fs2 & file2 & F2 & Ho2 & Hf2 & _ & Hnum2 & Hoth & Hb2).
  destruct (ke_others _ _ _ _ _ _ Hoth root1 (beside_sym _ _ _ _ Hroot1 C3)) as [Hbe2 Hbr].
  destruct (oa_fd _ _ _ _ Ho2) as (p2 & L2 & d & v & Hp2 & Hpok2 & _).
  assert (rooted s2 fs2 root1 F2 1) as Hr2.
  { split; [exact (oa_mu _ _ _ _ Ho2)|exact (oa_fs _ _ _ _ Ho2)| |exact (ro_number _ _ _ _ _ C1)|exact (ro_mode _ _ _ _ _ C1)].
    exact (dir_state_kept fs1 fs2 root1 root1 F1 F2 1 (ro_dir _ _ _ _ _ C1) (be_state _ _ _ _ Hbe2)
      (ke_table _ _ _ _ _ _ Hoth) eq_refl Hbr). }
  assert (dir_entry_at (abs fs2) root1 0 = DirEntry 2 (strncpy_name name)) as Hent.
  { rewrite <-C7. unfold dir_entry_at. by rewrite Hbr. }
  exists s1, s2, fs2, root1, F2, p2, L2, file2. split_and!; [exact E1|exact E2|exact Hr2|exact Hp2|exact Hpok2| | |].
  - rewrite Hnum2, Hnum. split; [lia|unfold live; by rewrite Hent| |intros i; lia|by rewrite Hent].
    rewrite Hent. apply matches_strncpy; [apply Hname|exact Hnul].
  - exact (beside_sym _ _ _ _ Hf2 Hbe2).
  - intros i Hi. rewrite Hb2 by (change SFS_NDIR_BLOCKS with 12 in Hk; change file_blocks with 76; lia).
    by rewrite (proj2 (Z.ltb_lt _ _)) by lia.
Qed.

(** The whole program stores files.  On an unformatted disk that formatting
    accepts, with reliable I/O and memory, mounting, creating a file, writing k
    blocks to it, unmounting, mounting again, opening the file by its name and
    reading k blocks gives the bytes written, for up to 12 blocks and as many
    as are free besides the one the directory takes. *)
Lemma files_survive_remount ctx name mode flags flags' s w N T H F D k buf buf0 :
  mu s = false → s_fs s = inl w → unformatted w N T H F D →
  env_fstat_ok = true → env_heap_dirty = false → ids_ok ctx → good_name name → x00 ∉ name →
  1 ≤ k ≤ SFS_NDIR_BLOCKS → k < Z.of_nat (length (fresh_blocks N H D)) →
  length buf = Z.to_nat (k * BLOCK_SIZE) → length buf0 = length buf →
  ∃ s1 s2 s3 s4 s5 s6 s7,
    sfs_init s = Done tt s1 ∧
    sfs_create ctx (slash :: name) mode flags s1 = Done (0, Some 0) s2 ∧
    sfs_write buf (k * BLOCK_SIZE) 0 0 s2 = Done (k * BLOCK_SIZE) s3 ∧
    sfs_destroy s3 = Done tt s4 ∧ sfs_init s4 = Done tt s5 ∧
    sfs_open (slash :: name) flags' s5 = Done (0, Some 0) s6 ∧
    sfs_read buf0 (k * BLOCK_SIZE) 0 0 s6 = Done (k * BLOCK_SIZE, buf) s7.
Proof.
  intros Hm Hs Hun Hstat Hclean Hids Hname Hnul Hk HF Hlen Hlen0.
  destruct (mount_fresh s w N T H F D Hm Hs Hun Hstat Hclean) as (fs & t & E1 & Hr & HL).
  pose proof (ge_table_pos _ _ _ _ _ (un_geometry _ _ _ _ _ _ Hun)) as HT.
  rewrite seqZ_cons in HL by lia.
  destruct (first_file_spec ctx name mode flags (mounted s fs) fs (format_root t) (fresh_blocks N H D)
    (seqZ (Z.succ 2) (Z.pred (3 * T - 1))) (3 * T + 1) k buf Hr HL)
    as (s2 & s3 & fs3 & root3 & F3 & p & L & file & E2 & E3 & Hr3 & Hp & Hpok & He & Hbe & Hb);
    [|exact Hids|done|exact Hname|exact Hnul|exact Hk|exact HF|exact Hlen|].
  { rewrite elem_of_cons, elem_of_seqZ. lia. }
  destruct (reread_spec name flags' s3 fs3 root3 F3 1 p L 0 file k buf0 Hr3 Hp Hpok Hclean Hname He Hbe)
    as (s4 & s5 & s6 & s7 & buf' & E4 & E5 & E6 & E7 & Hl & Hb'); [|congruence|].
  { change SFS_NDIR_BLOCKS with 12 in Hk. change file_blocks with 76. lia. }
  assert (buf' = buf) as ->.
  { apply (buf_blocks_eq k); [congruence|congruence|]. intros j Hj. by rewrite Hb', Hb. }
  exists (mounted s fs), s2, s3, s4, s5, s6, s7. split_and!; done.
Qed.

End story.

(** ** On the small file system and on an empty disk *)
Lemma unmount_then_mount_witness :
  ∃ s1 s2 fs2, sfs_destroy (H := demo_env) demo_idle = Done tt s1 ∧ sfs_init (H := demo_env) s1 = Done tt s2 ∧
    fd_pool s2 = Some new_pool ∧ abs fs2 ≡ abs demo_fs ∧ rooted s2 fs2 demo_root demo_free 1 ∧
    ∀ i, 0 ≤ i < 1 → dir_entry_at (abs fs2) demo_root i = dir_entry_at (abs demo_fs) demo_root i.
Proof.
  by apply (unmount_then_mount (EV := demo_env) demo_idle demo_fs demo_root demo_free 1 new_pool
    (0%nat :: seq 1 (slots_per_slab - 1)) demo_idle_rooted eq_refl new_pool_ok).
Defined.

Definition blank_state : sfs_state := SfsState false (inl blank_disk) None false.

Lemma blank_unformatted : unformatted blank_disk 70 4 6 64 63.
Proof.
  split; [done|done|exact blank_geometry|by right|by left|].
  apply (bool_decide_unpack (_ ≠ _)). by vm_compute.
Qed.

Lemma mount_formats_disk_witness :
  ∃ s' fs t, sfs_init (H := demo_env) blank_state = Done tt s' ∧
    rooted s' fs (format_root (H := demo_env) t) (fresh_blocks 70 6 63) 0 ∧
    fd_pool s' = Some new_pool ∧ sigterm s' = false ∧
    free_inodes (abs fs) (seqZ 2 11) 13 ∧ Z.of_nat (length (fresh_blocks 70 6 63)) = 64.
Proof. by apply (mount_formats_disk (EV := demo_env) blank_state blank_disk 70 4 6 64 63 eq_refl eq_refl blank_unformatted). Defined.

Lemma files_survive_remount_witness :
  ∃ s1 s2 s3 s4 s5 s6 s7,
    sfs_init (H := demo_env) blank_state = Done tt s1 ∧
    sfs_create (H := demo_env) (FuseCtx 1000 100 18) (slash :: name_b) 438 0 s1 = Done (0, Some 0) s2 ∧
    sfs_write (H := demo_env) (block_of 67 ++ block_of 68) 1024 0 0 s2 = Done 1024 s3 ∧
    sfs_destroy (H := demo_env) s3 = Done tt s4 ∧ sfs_init (H := demo_env) s4 = Done tt s5 ∧
    sfs_open (H := demo_env) (slash :: name_b) 0 s5 = Done (0, Some 0) s6 ∧
    sfs_read (H := demo_env) (replicate 1024 x00) 1024 0 0 s6 = Done (1024, block_of 67 ++ block_of 68) s7.
Proof.
  apply (files_survive_remount (EV := demo_env) (FuseCtx 1000 100 18) name_b 438 0 0 blank_state blank_disk
    70 4 6 64 63 2 (block_of 67 ++ block_of 68) (replicate 1024 x00)); try done.
  - exact blank_unformatted.
  - exact good_name_b.
  - apply (bool_decide_unpack _). by vm_compute.
Defined.
