(* ===== verification/VfsSpec.v ===== *)
(** * The abstract file system

    What a client of the file system sees, with no blocks, no cache and no
    inode table: a directory of names, files that are strings of bytes, and
    open descriptors.  [vfs_step] answers a request; [serve] is the handler of
    sfs.c that answers the same request.  [System.v] shows that they agree.

    [vfs_step] is [None] where this specification says nothing: no inode or no
    block left, a path longer than PATH_MAX, a link count at its bound, a
    directory or a transfer of more than 12 blocks, a transfer that does not
    start at the start of the file or is neither of whole blocks nor shorter
    than one, a descriptor that was closed, opening another directory than "/"
    (the handler keeps the mutex), opening or creating "/" as a file,
    unmounting with open descriptors.  The theorems of the handlers tell what
    some of these do. *)

From S2P Require Export CreateTheorems DeleteTheorems OpendirTheorems MountTheorems.

(** A file: its bytes, in whole blocks, and its attributes. *)
Record vfile := VFile {
  vf_data : list byte;
  vf_size : Z;
  vf_links : Z;
  vf_mode : Z;
  vf_uid : Z;
}.

(** The attributes of the root directory that are not times. *)
Record vroot := VRoot {
  vr_mode : Z;
  vr_links : Z;
  vr_uid : Z;
}.

(** A slot of the root directory: a name with the number of its inode. *)
Abbreviation vslot := (option (list byte * Z)).

Record vfs := Vfs {
  v_dir : list vslot;
  v_files : gmap Z vfile;
  v_open : gmap nat Z;         (* the inode number of each open descriptor, 1 for "/" *)
  v_ids : list Z;              (* the free inode numbers, next first *)
  v_fds : list nat;            (* the free descriptors, next first *)
  v_room : Z;                  (* so many blocks are free, at least *)
  v_root : vroot;
}.

(** ** Paths: the names between the slashes, none for "/" *)
Abbreviation vpath := (list (list byte)).

Fixpoint path_bytes (p : vpath) : list byte :=
  match p with
  | [] => [slash]
  | [c] => slash :: c
  | c :: p => slash :: c ++ path_bytes p
  end.

Definition comp_ok (c : list byte) : bool :=
  bool_decide (c ≠ []) && bool_decide (slash ∉ c) && bool_decide (x00 ∉ c).

Definition path_ok (p : vpath) : bool :=
  forallb comp_ok p && (Z.of_nat (length (path_bytes p)) <? PATH_MAX).

Definition name_ok (name : list byte) : bool := comp_ok name && (length name <=? 255)%nat.

(** What a path stands for: the root directory, a name in it, or an error. *)
Inductive target :=
  | Root
  | Named (name : list byte)
  | Nowhere (err : Z).

Definition resolve (p : vpath) : option target :=
  if negb (path_ok p) then None
  else match p with
  | [] => Some Root
  | [name] => Some (if (length name <=? 255)%nat then Named name else Nowhere (- ENAMETOOLONG))
  | _ => Some (Nowhere (- ENOENT))
  end.

Definition names (name : list byte) (o : vslot) : Prop := fst <$> o = Some name.

#[export] Instance names_dec name o : Decision (names name o).
Proof. unfold names. apply _. Defined.

(** The slot and the inode number of a name. *)
Definition v_find (name : list byte) (dir : list vslot) : option (nat * Z) :=
  match list_find (names name) dir with
  | Some (i, Some (_, num)) => Some (i, num)
  | _ => None
  end.

(** The first unused slot, or the one behind the last. *)
Definition v_slot (dir : list vslot) : nat :=
  match list_find (λ o, o = None) dir with
  | Some (i, _) => i
  | None => length dir
  end.

Definition v_enter (i : nat) (e : list byte * Z) (dir : list vslot) : list vslot :=
  if (i <? length dir)%nat then <[i := Some e]> dir else dir ++ [Some e].

(** ** Files *)
Definition v_blocks (f : vfile) : Z := Z.of_nat (length (vf_data f)) / BLOCK_SIZE.

Definition add_links (d : Z) (f : vfile) : vfile :=
  VFile (vf_data f) (vf_size f) (vf_links f + d) (vf_mode f) (vf_uid f).

(** The number of bytes in the blocks that [n] bytes touch. *)
Definition round_up (n : nat) : nat := Z.to_nat ((Z.of_nat n + BLOCK_SIZE - 1) / BLOCK_SIZE * BLOCK_SIZE).

(** With zeros behind, up to [n] bytes. *)
Definition extended (n : nat) (data : list byte) : list byte := data ++ replicate (n - length data) x00.

(** The bytes at the start are written; the file grows by whole blocks. *)
Definition vf_write (buf : list byte) (f : vfile) : vfile :=
  VFile (buf ++ drop (length buf) (extended (round_up (length buf)) (vf_data f)))
    (Z.max (vf_size f) (Z.of_nat (length buf))) (vf_links f) (vf_mode f) (vf_uid f).

(** The first [n] bytes, with zeros behind the last block. *)
Definition vf_read (n : nat) (f : vfile) : list byte :=
  take n (vf_data f ++ replicate n x00).

(** ** The steps *)
Definition set_v_files (g : gmap Z vfile → gmap Z vfile) (v : vfs) : vfs :=
  Vfs (v_dir v) (g (v_files v)) (v_open v) (v_ids v) (v_fds v) (v_room v) (v_root v).

Definition set_v_root (r : vroot) (v : vfs) : vfs :=
  Vfs (v_dir v) (v_files v) (v_open v) (v_ids v) (v_fds v) (v_room v) r.

(** One more link, for a new descriptor. *)
Definition v_attach (num : Z) (d : nat) (fds : list nat) (v : vfs) : vfs :=
  Vfs (v_dir v) (alter (add_links 1) num (v_files v)) (<[d := num]> (v_open v)) (v_ids v) fds (v_room v) (v_root v).

(** A descriptor of the root directory. *)
Definition v_open_root (d : nat) (fds : list nat) (v : vfs) : vfs :=
  Vfs (v_dir v) (v_files v) (<[d := 1]> (v_open v)) (v_ids v) fds (v_room v) (v_root v).

(** One link less; a file without links is gone. *)
Definition v_drop (num : Z) (v : vfs) : vfs :=
  match v_files v !! num with
  | None => v
  | Some f =>
      if vf_links f =? 1
      then Vfs (v_dir v) (delete num (v_files v)) (v_open v) (num :: v_ids v) (v_fds v) (v_room v + v_blocks f) (v_root v)
      else set_v_files (alter (add_links (-1)) num) v
  end.

Definition v_unlink (i : nat) (v : vfs) : vfs :=
  Vfs (<[i := None]> (v_dir v)) (v_files v) (v_open v) (v_ids v) (v_fds v) (v_room v) (v_root v).

Definition v_detach (d : nat) (v : vfs) : vfs :=
  Vfs (v_dir v) (v_files v) (delete d (v_open v)) (v_ids v) (d :: v_fds v) (v_room v) (v_root v).

(** A link of the root directory is lost, modulo 2^32. *)
Definition v_unlink_root (v : vfs) : vfs :=
  set_v_root (VRoot (vr_mode (v_root v)) (u32 (vr_links (v_root v) - 1)) (vr_uid (v_root v))) v.

Definition v_create (name : list byte) (m : Z) (mode uid : Z) (ids : list Z) (d : nat) (fds : list nat) (v : vfs) : vfs :=
  let i := v_slot (v_dir v) in
  Vfs (v_enter i (name, m) (v_dir v)) (<[m := VFile [] 0 2 mode uid]> (v_files v)) (<[d := m]> (v_open v))
    ids fds (if (i <? length (v_dir v))%nat then v_room v else v_room v - 1) (v_root v).

(** The number of descriptors there are, open and free. *)
Definition v_total (v : vfs) : nat := size (v_open v) + length (v_fds v).

(** The next descriptor, and those that are free after it: the first free one,
    or, when all are open, the first of a new slab. *)
Definition next_fd (v : vfs) : option (nat * list nat) :=
  match v_fds v with
  | d :: fds => Some (d, fds)
  | [] =>
      let n := v_total v in
      if Z.of_nat n + Z.of_nat slots_per_slab <=? 2 ^ 31
      then Some (n, seq (S n) (slots_per_slab - 1)) else None
  end.

(** No descriptor of this number was ever given. *)
Definition unknown_fd (fh : Z) (v : vfs) : bool := (Z.of_nat (v_total v) <=? fh) && (fh <? 2 ^ 31).

(** ** Requests and answers *)
Inductive req :=
  | Create (ctx : fuse_ctx) (p : vpath) (mode flags : Z)
  | Open (p : vpath) (flags : Z)
  | Write (fh : Z) (buf : list byte)
  | Read (fh : Z) (n : Z)               (* [n] bytes *)
  | Release (fh : Z)
  | Unlink (p : vpath)
  | Getattr (p : vpath)
  | Readdir (p : vpath)
  | Opendir (p : vpath) (flags : Z)
  | Releasedir (fh : Z)
  | Mkdir (p : vpath) (mode : Z)
  | Rmdir (p : vpath)
  | Remount.                            (* unmount and mount again *)

(** Of the attributes, those that do not depend on the clock or the group. *)
Definition attributes : Type := Z * Z * Z * Z * Z.
Definition stat_attributes (st : stat) : attributes :=
  (st_ino st, st_mode st, st_nlink st, st_uid st, st_size st).

Inductive resp :=
  | RInt (r : Z)
  | RFd (r : Z) (fh : option Z)
  | RBytes (r : Z) (bytes : list byte)
  | RAttributes (r : Z) (st : option attributes)
  | RList (r : Z) (entries : list (list byte * option attributes))
  | RDone.

Definition v_attributes (num : Z) (f : vfile) : attributes :=
  (num, vf_mode f, vf_links f, vf_uid f, int64 (vf_size f)).

(** What [readdir] hands over for a slot. *)
Definition v_listed (v : vfs) (o : vslot) : option (list byte * option attributes) :=
  match o with
  | None => None
  | Some (name, num) => Some (name, v_attributes num <$> v_files v !! num)
  end.

Definition ids_ok_b (ctx : fuse_ctx) : bool :=
  in_width 4 (c_uid ctx) && in_width 4 (c_gid ctx).

Definition v_root_attributes (v : vfs) : attributes :=
  let r := v_root v in
  (1, vr_mode r, vr_links r, vr_uid r, int64 (Z.of_nat (length (v_dir v)) * BLOCK_SIZE)).

Definition v_open_file (num : Z) (v : vfs) : option (resp * vfs) :=
  match v_files v !! num, next_fd v with
  | Some f, Some (d, fds) =>
      if vf_links f <? 2 ^ 32 - 1 then Some (RFd 0 (Some (Z.of_nat d)), v_attach num d fds v) else None
  | _, _ => None
  end.

Definition v_file_of (fh : Z) (v : vfs) : option (Z * vfile) :=
  if fh <? 0 then None
  else
    num ← v_open v !! Z.to_nat fh;
    f ← v_files v !! num;
    Some (num, f).

(** The number of blocks of a transfer: of whole blocks, 12 at most, or of a
    part of one. *)
Definition transfer_blocks (n : Z) : option Z :=
  let k := n / BLOCK_SIZE in
  if (n =? k * BLOCK_SIZE) && (1 <=? k) && (k <=? SFS_NDIR_BLOCKS) then Some k
  else if (1 <=? n) && (n <? BLOCK_SIZE) then Some 1
  else None.

Definition v_do_create (ctx : fuse_ctx) (name : list byte) (mode flags : Z) (v : vfs) : option (resp * vfs) :=
  match v_find name (v_dir v) with
  | Some (_, num) =>
      if negb (Z.land flags O_EXCL =? 0) then Some (RFd (- EEXIST) None, v) else v_open_file num v
  | None =>
      match v_ids v, next_fd v with
      | m :: ids, Some (d, fds) =>
          if (Z.of_nat (v_slot (v_dir v)) <? SFS_NDIR_BLOCKS) && (1 <=? v_room v)
          then Some (RFd 0 (Some (Z.of_nat d)), v_create name m (new_mode ctx mode) (c_uid ctx) ids d fds v)
          else None
      | _, _ => None
      end
  end.

Definition v_do_open (name : list byte) (v : vfs) : option (resp * vfs) :=
  match v_find name (v_dir v) with
  | Some (_, num) => v_open_file num v
  | None => Some (RFd (- ENOENT) None, v)
  end.

Definition v_do_unlink (name : list byte) (v : vfs) : resp * vfs :=
  match v_find name (v_dir v) with
  | Some (i, num) => (RInt 0, v_unlink i (v_drop num v))
  | None => (RInt (- ENOENT), v)
  end.

Definition v_do_getattr (name : list byte) (v : vfs) : resp :=
  match v_find name (v_dir v) with
  | Some (_, num) => RAttributes 0 (v_attributes num <$> v_files v !! num)
  | None => RAttributes (- ENOENT) None
  end.

Definition v_do_write (fh : Z) (buf : list byte) (v : vfs) : option (resp * vfs) :=
  '(num, f) ← v_file_of fh v;
  k ← transfer_blocks (Z.of_nat (length buf));
  let need := Z.max 0 (k - v_blocks f) in
  if need <=? v_room v
  then Some (RInt (Z.of_nat (length buf)),
             Vfs (v_dir v) (<[num := vf_write buf f]> (v_files v)) (v_open v) (v_ids v) (v_fds v)
               (v_room v - need) (v_root v))
  else None.

Definition v_do_read (fh n : Z) (v : vfs) : option resp :=
  '(num, f) ← v_file_of fh v;
  k ← transfer_blocks n;
  Some (RBytes n (vf_read (Z.to_nat n) f)).

Definition v_do_readdir (v : vfs) : list (list byte * option attributes) :=
  ([dot], None) :: ([dot; dot], None) :: omap (v_listed v) (v_dir v).

Definition vfs_step (v : vfs) (r : req) : option (resp * vfs) :=
  match r with
  | Create ctx p mode flags =>
      t ← resolve p;
      match t with
      | Root => None
      | Nowhere err => Some (RFd err None, v)
      | Named name => if ids_ok_b ctx then v_do_create ctx name mode flags v else None
      end
  | Open p flags =>
      t ← resolve p;
      match t with
      | Root => None
      | Nowhere err => Some (RFd err None, v)
      | Named name => v_do_open name v
      end
  | Write fh buf =>
      if (length buf =? 0)%nat then Some (RInt 0, v)
      else if unknown_fd fh v then Some (RInt (-1), v)
      else v_do_write fh buf v
  | Read fh n =>
      if n =? 0 then Some (RBytes 0 [], v)
      else if unknown_fd fh v then Some (RBytes (-1) (replicate (Z.to_nat n) x00), v)
      else a ← v_do_read fh n v; Some (a, v)
  | Release fh =>
      if unknown_fd fh v then Some (RInt (-1), v)
      else '(num, f) ← v_file_of fh v; Some (RInt 0, v_detach (Z.to_nat fh) (v_drop num v))
  | Unlink p =>
      t ← resolve p;
      Some match t with
      | Root => (RInt (- EACCES), v)
      | Nowhere err => (RInt err, v)
      | Named name => v_do_unlink name v
      end
  | Getattr p =>
      t ← resolve p;
      Some (match t with
            | Root => RAttributes 0 (Some (v_root_attributes v))
            | Nowhere err => RAttributes err None
            | Named name => v_do_getattr name v
            end, v)
  | Readdir p =>
      t ← resolve p;
      Some (match t with Root => RList 0 (v_do_readdir v) | _ => RList (-1) [] end, v)
  | Opendir p flags =>
      match resolve p, next_fd v with
      | Some Root, Some (d, fds) => Some (RFd 0 (Some (Z.of_nat d)), v_open_root d fds v)
      | _, _ => None
      end
  | Releasedir fh =>
      if unknown_fd fh v then Some (RInt (-1), v)
      else if (0 <=? fh) && bool_decide (v_open v !! Z.to_nat fh = Some 1)
      then Some (RInt 0, v_unlink_root (v_detach (Z.to_nat fh) v)) else None
  | Mkdir p mode => Some (RInt 0, v)
  | Rmdir p => t ← resolve p; Some (RInt (match t with Root => -1 | _ => 0 end), v)
  | Remount =>
      if decide (v_open v = ∅)
      then Some (RDone, Vfs (v_dir v) (v_files v) ∅ (v_ids v) (seq 0 slots_per_slab) (v_room v) (v_root v))
      else None
  end.

Fixpoint vfs_run (v : vfs) (rs : list req) : option (list resp * vfs) :=
  match rs with
  | [] => Some ([], v)
  | r :: rs =>
      '(a, v) ← vfs_step v r;
      '(l, v) ← vfs_run v rs;
      Some (a :: l, v)
  end.

(** ** The handlers *)
Section serve.
  Context `{Env}.

(** libfuse calls the operations in the table, with the path of the file. *)
Definition serve (r : req) : M sfs_state resp :=
  match r with
  | Create ctx p mode flags =>
      '(r, fh) ← fo_create sfs_oper ctx (path_bytes p) mode flags; mret (RFd r fh)
  | Open p flags => '(r, fh) ← fo_open sfs_oper (path_bytes p) flags; mret (RFd r fh)
  | Write fh buf => r ← fo_write sfs_oper buf (Z.of_nat (length buf)) 0 fh; mret (RInt r)
  | Read fh n =>
      '(r, buf) ← fo_read sfs_oper (replicate (Z.to_nat n) x00) n 0 fh;
      mret (RBytes r buf)
  | Release fh => r ← fo_release sfs_oper fh; mret (RInt r)
  | Unlink p => r ← fo_unlink sfs_oper (path_bytes p); mret (RInt r)
  | Getattr p =>
      '(r, st) ← fo_getattr sfs_oper (path_bytes p); mret (RAttributes r (stat_attributes <$> st))
  | Readdir p =>
      '(r, l) ← fo_readdir sfs_oper (path_bytes p) (λ _, false);
      mret (RList r (map (λ e, (e.1, stat_attributes <$> e.2)) l))
  | Opendir p flags => '(r, fh) ← fo_opendir sfs_oper (path_bytes p) flags; mret (RFd r fh)
  | Releasedir fh => r ← fo_releasedir sfs_oper fh; mret (RInt r)
  | Mkdir p mode => r ← fo_mkdir sfs_oper (path_bytes p) mode; mret (RInt r)
  | Rmdir p => r ← fo_rmdir sfs_oper (path_bytes p); mret (RInt r)
  | Remount => fo_destroy sfs_oper;; fo_init sfs_oper;; mret RDone
  end.

Fixpoint serve_all (rs : list req) : M sfs_state (list resp) :=
  match rs with
  | [] => mret []
  | r :: rs => a ← serve r; l ← serve_all rs; mret (a :: l)
  end.

End serve.

(** [serve] with the handlers the table holds. *)
Ltac unfold_serve :=
  unfold serve, sfs_oper;
  cbn [fo_init fo_destroy fo_getattr fo_create fo_unlink fo_open fo_release fo_read fo_write fo_rmdir fo_mkdir
    fo_opendir fo_readdir fo_releasedir path_bytes].
