(* ===== verification/Paths.v ===== *)
(** * Paths

    How [dirname], [basename] and the handlers take the path of a request
    apart, for a path made of the names of [VfsSpec.v]. *)

From S2P Require Export VfsSpec.

Lemma strip_slashes_end (l : list byte) x : x ≠ slash → strip_slashes (l ++ [x]) = l ++ [x].
Proof.
  intros Hx. unfold strip_slashes. rewrite rev_app_distr. cbn [rev app drop_while].
  unfold is_slash at 1. rewrite bool_decide_eq_false_2 by done. cbn [rev]. by rewrite rev_involutive.
Qed.

Lemma strip_slashes_slash (l : list byte) : strip_slashes (l ++ [slash]) = strip_slashes l.
Proof.
  unfold strip_slashes. rewrite rev_app_distr. cbn [rev app drop_while].
  unfold is_slash at 1. by rewrite bool_decide_eq_true_2.
Qed.

Lemma last_component_app (a b : list byte) : slash ∉ b → last_component (a ++ slash :: b) = b.
Proof.
  intros Hb. unfold last_component. rewrite rev_app_distr. cbn [rev]. rewrite <-app_assoc. cbn [app].
  rewrite take_until_app; [apply rev_involutive| |done].
  intros Hin%list_elem_of_In%in_rev. by apply Hb, list_elem_of_In.
Qed.

(** What is before the last slash. *)
Lemma dirname_app (a b : list byte) x :
  x ≠ slash → b ≠ [] → slash ∉ b → dirname ((a ++ [x]) ++ slash :: b) = a ++ [x].
Proof.
  intros Hx Hb Hs. set (d := a ++ [x]). assert (d ≠ []) as Hd by (by destruct a).
  assert (strip_slashes (d ++ slash :: b) = d ++ slash :: b) as E1.
  { destruct (exists_last Hb) as (b' & y & ->). assert (y ≠ slash) as Hy by (intros ->; apply Hs, elem_of_app; right; left).
    replace (d ++ slash :: b' ++ [y]) with ((d ++ slash :: b') ++ [y]) by (by rewrite <-app_assoc).
    by apply strip_slashes_end. }
  assert (take (length (d ++ slash :: b) - length b) (d ++ slash :: b) = d ++ [slash]) as E2.
  { replace (d ++ slash :: b) with ((d ++ [slash]) ++ b) by (by rewrite <-app_assoc).
    rewrite (length_app (d ++ [slash])). replace (length (d ++ [slash]) + length b - length b)%nat with (length (d ++ [slash])) by lia.
    apply take_app_length. }
  assert (strip_slashes (d ++ [slash]) = d) as E3 by (rewrite strip_slashes_slash; by apply strip_slashes_end).
  pose proof (last_component_app d b Hs) as E0.
  assert (d ++ slash :: b ≠ []) as HP by (by intros [_ [=]]%app_eq_nil).
  unfold dirname. destruct (d ++ slash :: b) as [|c P]; [done|]. rewrite E1, E0, E2.
  destruct (d ++ [slash]) as [|c' P'] eqn:E4; [by apply app_eq_nil in E4 as [_ [=]]|]. rewrite E3. clearbody d. by destruct d.
Qed.

Lemma comp_ok_spec c : comp_ok c = true → c ≠ [] ∧ (slash ∉ c) ∧ (x00 ∉ c).
Proof. unfold comp_ok. rewrite !andb_true_iff, !bool_decide_eq_true. tauto. Qed.

Lemma path_bytes_cons c d p : path_bytes (c :: d :: p) = slash :: c ++ path_bytes (d :: p).
Proof. done. Qed.

(** The last name of a path, with what is before it. *)
Lemma path_bytes_last c p :
  forallb comp_ok (c :: p) = true →
  ∃ a b, path_bytes (c :: p) = a ++ slash :: b ∧ b ≠ [] ∧ (slash ∉ b) ∧
    (p ≠ [] → ∃ a' x, a = slash :: a' ++ [x] ∧ x ≠ slash).
Proof.
  revert c. induction p as [|d p IH]; intros c [Hc Hp]%andb_true_iff; apply comp_ok_spec in Hc as (Hne & Hs & _).
  - by exists [], c.
  - destruct (IH d Hp) as (a & b & E & Hb & Hsb & Ha). exists (slash :: c ++ a), b.
    split; [rewrite path_bytes_cons, E; cbn [app]; by rewrite <-app_assoc|]. split; [exact Hb|]. split; [exact Hsb|]. intros _.
    destruct p as [|e p].
    + assert (a = []) as ->.
      { change (path_bytes [d]) with ([] ++ slash :: d) in E. cbn [forallb] in Hp.
        apply andb_true_iff in Hp as [(_ & Hd & _)%comp_ok_spec _].
        destruct a as [|x a]; [done|]. injection E as _ E. exfalso. apply Hd. rewrite E. apply elem_of_app. right. left. }
      rewrite app_nil_r. destruct (exists_last Hne) as (c' & x & ->). exists c', x. split; [done|].
      intros ->. apply Hs, elem_of_app. right. left.
    + destruct (Ha ltac:(done)) as (a' & x & -> & Hx). exists (c ++ slash :: a'), x. by rewrite <-app_assoc.
Qed.

Lemma dirname_deep c d p : forallb comp_ok (c :: d :: p) = true → dirname (path_bytes (c :: d :: p)) ≠ [slash].
Proof.
  intros Hok. destruct (path_bytes_last c (d :: p) Hok) as (a & b & -> & Hb & Hs & Ha).
  destruct (Ha ltac:(done)) as (a' & x & -> & Hx). change (slash :: a' ++ [x]) with ((slash :: a') ++ [x]).
  rewrite dirname_app by done. destruct a'; [by intros [=]|by intros [= _ [=]%app_eq_nil]].
Qed.

Lemma path_bytes_root p : path_ok p = true → path_bytes p = [slash] ↔ p = [].
Proof.
  intros [Hok _]%andb_true_iff. split; [|by intros ->]. destruct p as [|c [|d p]]; [done| |].
  - intros [= ->]. cbn [forallb] in Hok. by apply andb_true_iff in Hok as [(? & _)%comp_ok_spec _].
  - rewrite path_bytes_cons. intros [= [-> _]%app_eq_nil]. cbn [forallb] in Hok. by apply andb_true_iff in Hok as [(? & _)%comp_ok_spec _].
Qed.

Lemma resolve_ok p t : resolve p = Some t → path_ok p = true.
Proof. unfold resolve. by destruct (path_ok p). Qed.

Lemma resolve_root p : resolve p = Some Root → p = [].
Proof.
  unfold resolve. destruct (negb (path_ok p)); [done|]. destruct p as [|c [|d p]]; [done| |done].
  by destruct (length c <=? 255)%nat.
Qed.

Section path_name.
  Context `{Env, !ReliableMalloc}.

(** The handlers turn away what [resolve] turns away. *)
Lemma path_name_nowhere p err s : resolve p = Some (Nowhere err) → path_name (path_bytes p) s = Done (inl err) s.
Proof.
  intros Hr. pose proof (resolve_ok _ _ Hr) as Hok. apply andb_true_iff in Hok as [Hok Hlen%Z.ltb_lt].
  unfold resolve in Hr. rewrite (proj2 (andb_true_iff _ _) (conj Hok (proj2 (Z.ltb_lt _ _) Hlen)) : path_ok p = true) in Hr.
  cbn [negb] in Hr. destruct p as [|c [|d p]]; [done| |].
  - destruct (Nat.leb_spec (length c) 255) as [|Hl]; [done|]. injection Hr as <-.
    cbn [forallb] in Hok. apply andb_true_iff in Hok as [(Hne & Hs & _)%comp_ok_spec _].
    unfold path_name. rewrite bind_get, reliable_strdup. cbn [path_bytes] in *. rewrite dirname_name, basename_name by done.
    rewrite bool_decide_eq_true_2 by done. cbn [negb]. rewrite (proj2 (Z.leb_gt _ _)) by exact Hlen.
    by rewrite (proj2 (Z.ltb_lt _ _)) by lia.
  - injection Hr as <-. unfold path_name. rewrite bind_get, reliable_strdup, bool_decide_eq_false_2 by (by apply dirname_deep). done.
Qed.

Lemma path_name_slash s : path_name [slash] s = Done (inr [slash]) s.
Proof. unfold path_name. by rewrite bind_get, reliable_strdup. Qed.

End path_name.
