(* ===== verification/VfsInvariant.v ===== *)
(** * The invariant of the abstract file system

    Every name and every descriptor stands for a file, no name is entered
    twice, the link count of a file is the number of its names and open
    descriptors, and what is free is not in use. *)

From S2P Require Export VfsSpec.

(** ** Counting the references to a file *)
Definition refers (n : Z) (o : vslot) : Z :=
  match o with Some (_, m) => if m =? n then 1 else 0 | None => 0 end.

Fixpoint slots_of (n : Z) (dir : list vslot) : Z :=
  match dir with
  | [] => 0
  | o :: dir => refers n o + slots_of n dir
  end.

Definition opens_of (n : Z) (open : gmap nat Z) : Z :=
  Z.of_nat (size (filter (λ kv, kv.2 = n) open)).

Definition refs (v : vfs) (n : Z) : Z := slots_of n (v_dir v) + opens_of n (v_open v).

Lemma refers_range n o : 0 ≤ refers n o ≤ 1.
Proof. destruct o as [[name m]|]; simpl; [destruct (m =? n)|]; lia. Qed.

Lemma slots_of_nonneg n dir : 0 ≤ slots_of n dir.
Proof. induction dir as [|o dir IH]; simpl; [lia|]. pose proof (refers_range n o). lia. Qed.

Lemma slots_of_app n d1 d2 : slots_of n (d1 ++ d2) = slots_of n d1 + slots_of n d2.
Proof. induction d1 as [|o d1 IH]; simpl; [done|]. rewrite IH. lia. Qed.

Lemma slots_of_insert n dir i o o' :
  dir !! i = Some o → slots_of n (<[i := o']> dir) = slots_of n dir - refers n o + refers n o'.
Proof.
  revert i. induction dir as [|x dir IH]; intros [|i] Hi; simplify_eq/=; [lia|].
  rewrite (IH i Hi). lia.
Qed.

Lemma slots_of_lookup n dir i name : dir !! i = Some (Some (name, n)) → 1 ≤ slots_of n dir.
Proof.
  revert i. induction dir as [|x dir IH]; intros [|i] Hi; simplify_eq/=.
  - rewrite Z.eqb_refl. pose proof (slots_of_nonneg n dir). lia.
  - pose proof (refers_range n x). specialize (IH i Hi). lia.
Qed.

Lemma opens_of_insert n (open : gmap nat Z) d m :
  open !! d = None → opens_of n (<[d := m]> open) = opens_of n open + (if m =? n then 1 else 0).
Proof.
  intros Hd. unfold opens_of. destruct (Z.eqb_spec m n) as [->|Hne].
  - rewrite map_filter_insert_True by done.
    rewrite map_size_insert_None by (rewrite map_lookup_filter, Hd; done). lia.
  - rewrite map_filter_insert_False by done. rewrite delete_id by done. lia.
Qed.

Lemma opens_of_delete n (open : gmap nat Z) d m :
  open !! d = Some m → opens_of n (delete d open) = opens_of n open - (if m =? n then 1 else 0).
Proof.
  intros Hd. pose proof (opens_of_insert n (delete d open) d m (lookup_delete_eq _ _)) as E.
  rewrite insert_delete_id in E by done. lia.
Qed.

Lemma opens_of_lookup n (open : gmap nat Z) d : open !! d = Some n → 1 ≤ opens_of n open.
Proof.
  intros Hd. pose proof (opens_of_delete n open d n Hd) as E. rewrite Z.eqb_refl in E.
  unfold opens_of in *. lia.
Qed.

Lemma opens_of_empty n : opens_of n ∅ = 0.
Proof. done. Qed.

Lemma slots_of_none n dir : (∀ i name, dir !! i ≠ Some (Some (name, n))) → slots_of n dir = 0.
Proof.
  induction dir as [|o dir IH]; intros Hn; simpl; [done|]. rewrite IH by (intros i; apply (Hn (S i))).
  destruct o as [[x m]|]; simpl; [|done]. destruct (Z.eqb_spec m n) as [->|]; [|done]. by destruct (Hn 0%nat x).
Qed.

Lemma opens_of_none n (open : gmap nat Z) : (∀ d, open !! d ≠ Some n) → opens_of n open = 0.
Proof.
  intros Hn. unfold opens_of. rewrite map_empty_filter_2; [done|].
  intros d m Hd E. simpl in E. subst m. by apply (Hn d).
Qed.

(** ** Descriptors *)

(** Open and free descriptors are apart, and they are the numbers below their
    number. *)
Record fds_sound (open : gmap nat Z) (fds : list nat) : Prop := FdsSound {
  fd_nodup : NoDup fds;
  fd_free d : d ∈ fds → open !! d = None;
  fd_below d : d ∈ fds ∨ is_Some (open !! d) → (d < size open + length fds)%nat;
  fd_int : Z.of_nat (size open + length fds) ≤ 2 ^ 31;
}.

Lemma fds_sound_int open fds d : fds_sound open fds → d ∈ fds ∨ is_Some (open !! d) → Z.of_nat d < 2 ^ 31.
Proof. intros H Hd. pose proof (fd_below _ _ H d Hd). pose proof (fd_int _ _ H). lia. Qed.

Lemma fds_sound_new : fds_sound ∅ (seq 0 slots_per_slab).
Proof.
  pose proof slots_per_slab_Z. split; [apply NoDup_seq|done| |rewrite map_size_empty, length_seq; lia].
  intros d [Hd%elem_of_seq|[n Hn]]; [rewrite map_size_empty, length_seq; lia|by rewrite lookup_empty in Hn].
Qed.

(** A descriptor is opened: the first free one, or one of a new slab. *)
Lemma fds_sound_next v d fds n :
  fds_sound (v_open v) (v_fds v) → next_fd v = Some (d, fds) →
  v_open v !! d = None ∧ Z.of_nat d < 2 ^ 31 ∧ fds_sound (<[d := n]> (v_open v)) fds.
Proof.
  intros [H1 H2 H3 H4]. unfold next_fd, v_total. destruct (v_fds v) as [|d' fds'] eqn:Efds.
  - rewrite Nat.add_0_r in *. set (t := size (v_open v)) in *. pose proof slots_per_slab_pos.
    destruct (Z.leb_spec (Z.of_nat t + Z.of_nat slots_per_slab) (2 ^ 31)) as [Hle|]; [|done]. intros [= <- <-].
    assert (∀ k, (t ≤ k)%nat → v_open v !! k = None) as Hno.
    { intros k Hk. apply eq_None_not_Some. intros Hs. pose proof (H3 k (or_intror Hs)). simpl in *. lia. }
    split; [by apply Hno|]. split; [lia|].
    assert (size (<[t := n]> (v_open v)) = S t) as Esz by (apply map_size_insert_None, Hno; lia).
    split; rewrite ?Esz, ?length_seq; [apply NoDup_seq| | |lia].
    + intros k Hk%elem_of_seq. rewrite lookup_insert_ne by lia. apply Hno. lia.
    + intros k [Hk%elem_of_seq|[m [[<- _]|[_ Hk]]%lookup_insert_Some]]; [lia|lia|].
      pose proof (H3 k (or_intror (mk_is_Some _ _ Hk))). simpl in *. lia.
  - intros [= <- <-]. apply NoDup_cons in H1 as [Hd Hnd]. assert (v_open v !! d' = None) as HdN by (apply H2; left).
    split; [exact HdN|]. split; [pose proof (H3 d' ltac:(left; left)); lia|].
    assert (size (<[d' := n]> (v_open v)) = S (size (v_open v))) as Esz by (by apply map_size_insert_None).
    split; rewrite ?Esz; [exact Hnd| | |simpl in H4; lia].
    + intros k Hk. rewrite lookup_insert_ne by (by intros ->). apply H2. by right.
    + intros k Hk. assert (k < size (v_open v) + length (d' :: fds'))%nat; [|simpl in *; lia]. apply H3.
      destruct Hk as [Hk|[m [[<- _]|[_ Hk]]%lookup_insert_Some]]; [left; by right|left; left|right; by exists m].
Qed.

(** A descriptor is closed. *)
Lemma fds_sound_close open fds d n : fds_sound open fds → open !! d = Some n → fds_sound (delete d open) (d :: fds).
Proof.
  intros [H1 H2 H3 H4] Hd. assert (size open = S (size (delete d open))) as Esz.
  { rewrite <-(insert_delete_id open d n Hd) at 1. apply map_size_insert_None, lookup_delete_eq. }
  split; cbn [length]; [| | |lia].
  - constructor; [|exact H1]. intros Hin. by rewrite (H2 d Hin) in Hd.
  - intros k [->|Hk]%elem_of_cons; [apply lookup_delete_eq|]. apply lookup_delete_None. right. by apply H2.
  - intros k Hk. assert (k < size open + length fds)%nat; [|lia]. apply H3.
    destruct Hk as [[->|Hk]%elem_of_cons|[m [_ Hk]%lookup_delete_Some]]; [right; by exists n|by left|right; by exists m].
Qed.

(** ** The invariant *)
Record v_sound (v : vfs) : Prop := VSound {
  vs_name i name n : v_dir v !! i = Some (Some (name, n)) → name_ok name = true ∧ is_Some (v_files v !! n);
  vs_distinct i j name n m : v_dir v !! i = Some (Some (name, n)) → v_dir v !! j = Some (Some (name, m)) → i = j;
  vs_open d n : v_open v !! d = Some n → n ≠ 1 → is_Some (v_files v !! n);
  vs_data n f : v_files v !! n = Some f →
    Z.of_nat (length (vf_data f)) = v_blocks f * BLOCK_SIZE ∧ v_blocks f ≤ SFS_NDIR_BLOCKS;
  vs_root : v_files v !! 1 = None ∧ (1 ∉ v_ids v);
  vs_ids : NoDup (v_ids v) ∧ ∀ n, n ∈ v_ids v → v_files v !! n = None;
  vs_fds : fds_sound (v_open v) (v_fds v);
  vs_width n f : v_files v !! n = Some f → vf_links f < 2 ^ 32 ∧ vf_size f < 2 ^ 63 ∧ 0 ≤ vf_size f;
}.

(** The link counts are right, but for [num], which has one too many. *)
Definition v_counted (num : option Z) (v : vfs) : Prop :=
  ∀ n f, v_files v !! n = Some f → vf_links f = refs v n + (if decide (Some n = num) then 1 else 0).

Definition v_wf (v : vfs) : Prop := v_sound v ∧ v_counted None v.

(** ** The parts of a step *)
Lemma v_blocks_nil : v_blocks (VFile [] 0 2 0 0) = 0.
Proof. done. Qed.

Lemma list_find_names name dir i o :
  list_find (names name) dir = Some (i, o) → ∃ n, o = Some (name, n) ∧ dir !! i = Some (Some (name, n)).
Proof.
  intros (Hi & Hn & _)%list_find_Some. unfold names in Hn. destruct o as [[x n]|]; simplify_eq/=. by exists n.
Qed.

Lemma v_find_Some name dir i n : v_find name dir = Some (i, n) → dir !! i = Some (Some (name, n)).
Proof.
  unfold v_find. destruct (list_find _ _) as [[j o]|] eqn:E; [|done].
  apply list_find_names in E as (m & -> & Hj). intros [= -> ->]. exact Hj.
Qed.

Lemma v_find_None name dir i n : v_find name dir = None → dir !! i ≠ Some (Some (name, n)).
Proof.
  unfold v_find. destruct (list_find _ _) as [[j o]|] eqn:E.
  - apply list_find_names in E as (m & -> & Hj). done.
  - intros _ Hi. apply list_find_None in E. rewrite Forall_forall in E.
    apply (E (Some (name, n))); [by eapply list_elem_of_lookup_2|done].
Qed.

Lemma v_slot_spec dir :
  (v_slot dir ≤ length dir)%nat ∧ (∀ o, dir !! v_slot dir = Some o → o = None) ∧
  ∀ j o, (j < v_slot dir)%nat → dir !! j = Some o → o ≠ None.
Proof.
  unfold v_slot. destruct (list_find _ _) as [[i o]|] eqn:E.
  - apply list_find_Some in E as (Hi & -> & Hbefore). split; [apply lookup_lt_Some in Hi; lia|].
    split; [intros o Ho; congruence|]. intros j o Hj Ho. exact (Hbefore j o Ho Hj).
  - apply list_find_None in E. rewrite Forall_forall in E. split; [done|]. split.
    + intros o Ho. apply lookup_lt_Some in Ho. lia.
    + intros j o _ Ho. apply E. by eapply list_elem_of_lookup_2.
Qed.

Lemma lookup_enter dir e j :
  v_enter (v_slot dir) e dir !! j = if decide (j = v_slot dir) then Some (Some e) else dir !! j.
Proof.
  destruct (v_slot_spec dir) as (Hle & _ & _). unfold v_enter. destruct (Nat.ltb_spec (v_slot dir) (length dir)) as [Hlt|Hge].
  - case_decide as E; [subst; by rewrite list_lookup_insert_eq|]. by rewrite list_lookup_insert_ne.
  - assert (v_slot dir = length dir) as Es by lia. rewrite Es. case_decide as E.
    + subst. by rewrite lookup_app_r, Nat.sub_diag by lia.
    + destruct (decide (j < length dir)%nat); [by rewrite lookup_app_l|].
      rewrite lookup_app_r, lookup_ge_None_2, (lookup_ge_None_2 dir) by (simpl; lia). done.
Qed.

Lemma slots_of_enter n dir name m :
  slots_of n (v_enter (v_slot dir) (name, m) dir) = slots_of n dir + (if m =? n then 1 else 0).
Proof.
  destruct (v_slot_spec dir) as (Hle & Hnone & _). unfold v_enter.
  destruct (Nat.ltb_spec (v_slot dir) (length dir)) as [Hlt|Hge].
  - apply lookup_lt_is_Some_2 in Hlt as [o Ho]. rewrite (slots_of_insert n dir _ o) by done.
    rewrite (Hnone o Ho). simpl. lia.
  - rewrite slots_of_app. simpl. lia.
Qed.

Lemma v_blocks_add_links d f : v_blocks (add_links d f) = v_blocks f.
Proof. done. Qed.

(** A file whose contents are of whole blocks. *)
Lemma v_blocks_of (k : Z) f : Z.of_nat (length (vf_data f)) = k * BLOCK_SIZE → v_blocks f = k.
Proof. unfold v_blocks. intros ->. by apply Z.div_mul. Qed.

(** The files after the attributes of one changed. *)
Lemma lookup_alter_is_Some (g : vfile → vfile) (num n : Z) (files : gmap Z vfile) :
  is_Some (alter g num files !! n) ↔ is_Some (files !! n).
Proof.
  destruct (decide (num = n)) as [->|Hne]; [|by rewrite lookup_alter_ne].
  rewrite lookup_alter_eq. apply fmap_is_Some.
Qed.

Lemma v_sound_alter g num v :
  (∀ f, v_files v !! num = Some f → vf_data (g f) = vf_data f ∧ vf_links (g f) < 2 ^ 32 ∧ vf_size (g f) = vf_size f) →
  v_sound v → v_sound (set_v_files (alter g num) v).
Proof.
  intros Hg [V1 V2 V3 V4 V5 V6 V7 V9].
  assert (∀ n, v_files v !! n = None → alter g num (v_files v) !! n = None) as Hnone.
  { intros n Hn. apply eq_None_not_Some. rewrite lookup_alter_is_Some. by rewrite eq_None_not_Some in Hn. }
  assert (∀ n f, alter g num (v_files v) !! n = Some f → ∃ f0, v_files v !! n = Some f0 ∧
    vf_data f = vf_data f0 ∧ vf_links f < 2 ^ 32 ∧ vf_size f = vf_size f0) as Hf.
  { intros n f. destruct (decide (num = n)) as [->|Hne].
    - rewrite lookup_alter_eq. intros (f0 & Hf0 & ->)%fmap_Some. exists f0. split; [done|]. by apply Hg.
    - rewrite lookup_alter_ne by done. intros Hn. exists f. destruct (V9 n f Hn). by split_and!. }
  split; simpl; [| exact V2| | | | |exact V7|].
  - intros i name n Hi. rewrite lookup_alter_is_Some. by eapply V1.
  - intros d n Hd Hn. rewrite lookup_alter_is_Some. exact (V3 d n Hd Hn).
  - intros n f (f0 & Hf0 & E & _)%Hf. unfold v_blocks. rewrite E. exact (V4 n f0 Hf0).
  - split; [exact (Hnone 1 (proj1 V5))|exact (proj2 V5)].
  - split; [apply V6|]. intros n Hn. by apply Hnone, V6.
  - intros n f (f0 & Hf0 & _ & Hl & ->)%Hf. split; [done|]. by apply (V9 n f0).
Qed.

(** A free descriptor is opened for a file. *)
Lemma v_wf_attach num d fds v :
  v_wf v → is_Some (v_files v !! num) → next_fd v = Some (d, fds) →
  (∀ f, v_files v !! num = Some f → vf_links f < 2 ^ 32 - 1) → v_wf (v_attach num d fds v).
Proof.
  intros [Hs Hc] Hnum Hfds Hlk.
  assert (v_sound (set_v_files (alter (add_links 1) num) v)) as [V1 V2 V3 V4 V5 V6 _ V9].
  { apply v_sound_alter; [|exact Hs]. intros f Hf. specialize (Hlk f Hf). simpl. split_and!; [done|lia|done]. }
  destruct (fds_sound_next v d fds num (vs_fds _ Hs) Hfds) as (HdN & _ & Hfd).
  split.
  - split; simpl; [exact V1|exact V2| |exact V4|exact V5|exact V6|exact Hfd|exact V9].
    intros k n [(<- & <-)|[_ Hk]]%lookup_insert_Some Hn; [by rewrite lookup_alter_is_Some|exact (V3 k n Hk Hn)].
  - intros n f Hf. unfold refs. cbn [v_attach v_dir v_open v_files set_v_files] in *. rewrite opens_of_insert by done.
    destruct (decide (num = n)) as [->|Hne].
    + rewrite lookup_alter_eq in Hf. apply fmap_Some in Hf as (f0 & Hf0 & ->).
      specialize (Hc n f0 Hf0). unfold refs in Hc. rewrite decide_False in * by done. simpl. rewrite Z.eqb_refl. lia.
    + rewrite lookup_alter_ne in Hf by done. specialize (Hc n f Hf). unfold refs in Hc.
      rewrite (proj2 (Z.eqb_neq num n)) by done. rewrite decide_False in * by done. lia.
Qed.

(** A new file takes the first free inode, slot and descriptor. *)
Lemma v_wf_create name m mode uid ids d fds v :
  v_wf v → name_ok name = true → v_find name (v_dir v) = None → v_ids v = m :: ids → next_fd v = Some (d, fds) →
  v_wf (v_create name m mode uid ids d fds v).
Proof.
  intros [Hs Hc] Hname Hfind Hids Hfds. pose proof Hs as [V1 V2 V3 V4 V5 V6 V7 V9].
  rewrite Hids in V5, V6. destruct V6 as [Hndi Hfreei]. apply NoDup_cons in Hndi as [Hm Hndi].
  destruct (fds_sound_next v d fds m V7 Hfds) as (HdN & _ & Hfd).
  assert (v_files v !! m = None) as HmN by (apply Hfreei; left).
  assert (m ≠ 1) as Hm1 by (intros ->; apply (proj2 V5); left).
  assert (∀ n, is_Some (v_files v !! n) → is_Some (<[m := VFile [] 0 2 mode uid]> (v_files v) !! n)) as Hmono.
  { intros n Hn. destruct (decide (m = n)) as [->|Hne]; [by rewrite HmN in Hn; destruct Hn|]. by rewrite lookup_insert_ne. }
  assert (∀ i x n, v_dir v !! i = Some (Some (x, n)) → x ≠ name) as Hnew.
  { intros i x n Hi ->. by eapply v_find_None. }
  split.
  - split; cbn [v_create v_dir v_files v_open v_ids v_fds].
    + intros i x n. rewrite lookup_enter. case_decide.
      * intros [= -> ->]. split; [done|]. by rewrite lookup_insert_eq.
      * intros Hi. destruct (V1 i x n Hi). split; [done|]. by apply Hmono.
    + intros i j x n k. rewrite !lookup_enter. case_decide; case_decide; subst; intros Hi Hj; simplify_eq; [done| | |by eapply V2].
      * by destruct (Hnew j x k Hj).
      * by destruct (Hnew i x n Hi).
    + intros k n [(<- & <-)|[_ Hk]]%lookup_insert_Some Hn; [by rewrite lookup_insert_eq|]. exact (Hmono n (V3 k n Hk Hn)).
    + intros n f [(<- & <-)|[_ Hn]]%lookup_insert_Some; [|by apply (V4 n)]. split; [done|by vm_compute].
    + split; [rewrite lookup_insert_ne by done; apply V5|]. intros H1. apply (proj2 V5). by right.
    + split; [done|]. intros n Hn. rewrite lookup_insert_ne by (by intros ->). apply Hfreei. by right.
    + exact Hfd.
    + intros n f [(<- & <-)|[_ Hn]]%lookup_insert_Some; [by simpl; lia|by apply (V9 n)].
  - intros n f Hf. unfold refs. cbn [v_create v_dir v_open v_files] in *.
    rewrite slots_of_enter, opens_of_insert by done. rewrite decide_False by done.
    apply lookup_insert_Some in Hf as [(-> & <-)|[Hne Hn]].
    + rewrite Z.eqb_refl. simpl. assert (slots_of n (v_dir v) = 0 ∧ opens_of n (v_open v) = 0); [|lia]. split.
      * apply slots_of_none. intros i x Hi. destruct (V1 i x n Hi) as [_ [? ?]]. congruence.
      * apply opens_of_none. intros k Hk. destruct (V3 k n Hk Hm1) as [? ?]. congruence.
    + rewrite (proj2 (Z.eqb_neq m n)) by done. specialize (Hc n f Hn). unfold refs in Hc.
      rewrite decide_False in Hc by done. lia.
Qed.

(** A file with one link too many loses it. *)
Lemma v_wf_drop num v :
  v_sound v → v_counted (Some num) v → is_Some (v_files v !! num) → v_wf (v_drop num v).
Proof.
  intros Hs Hc [f Hf]. pose proof (Hc num f Hf) as Hlk. rewrite decide_True in Hlk by done.
  unfold v_drop. rewrite Hf. destruct (Z.eqb_spec (vf_links f) 1) as [E|Hne].
  - pose proof Hs as [V1 V2 V3 V4 V5 V6 V7 V9]. assert (num ≠ 1) as Hn1 by (intros ->; by rewrite (proj1 V5) in Hf).
    pose proof (slots_of_nonneg num (v_dir v)) as Hsl. unfold refs in Hlk.
    assert (slots_of num (v_dir v) = 0 ∧ opens_of num (v_open v) = 0) as [Hs0 Ho0] by (unfold opens_of in *; lia).
    assert (∀ n, n ≠ num → is_Some (v_files v !! n) → is_Some (delete num (v_files v) !! n)) as Hmono.
    { intros n Hne Hn. by rewrite lookup_delete_ne. }
    assert (num ∉ v_ids v) as Hnew by (intros Hin; rewrite (proj2 V6 num Hin) in Hf; done).
    split.
    + split; cbn [v_dir v_files v_open v_ids v_fds]; [|exact V2| | | | |exact V7|].
      * intros i name n Hi. destruct (V1 i name n Hi) as [Hname Hn]. split; [exact Hname|]. apply Hmono; [|exact Hn].
        intros ->. pose proof (slots_of_lookup _ _ _ _ Hi). lia.
      * intros d n Hd Hn. apply Hmono; [|exact (V3 d n Hd Hn)]. intros ->. pose proof (opens_of_lookup _ _ _ Hd). lia.
      * intros n g [Hne Hn]%lookup_delete_Some. by apply (V4 n).
      * split; [rewrite lookup_delete_ne by done; apply V5|]. intros [?|H1]%elem_of_cons; [congruence|by apply (proj2 V5)].
      * split; [by constructor; [|apply V6]|]. intros n [->|Hn]%elem_of_cons; [apply lookup_delete_eq|].
        apply lookup_delete_None. right. by apply V6.
      * intros n g [Hne Hn]%lookup_delete_Some. by apply (V9 n).
    + intros n g Hg. cbn [v_files] in Hg. apply lookup_delete_Some in Hg as [Hne Hn]. specialize (Hc n g Hn). rewrite decide_False in Hc by congruence; rewrite decide_False by done. exact Hc.
  - split.
    + apply v_sound_alter; [|exact Hs]. intros g Hg. destruct (vs_width _ Hs num g Hg). simpl. split_and!; [done|lia|done].
    + intros n g Hg. rewrite decide_False by done. unfold refs. cbn [set_v_files v_files v_dir v_open] in *.
      destruct (decide (num = n)) as [->|Hn].
      * rewrite lookup_alter_eq in Hg. apply fmap_Some in Hg as (g0 & Hg0 & ->). rewrite Hf in Hg0. injection Hg0 as <-.
        unfold refs in Hlk. simpl. lia.
      * rewrite lookup_alter_ne in Hg by done. specialize (Hc n g Hg). unfold refs in Hc.
        rewrite decide_False in Hc by congruence. lia.
Qed.

(** The order of the two parts of a removal does not matter. *)
Lemma v_unlink_drop i num v : v_unlink i (v_drop num v) = v_drop num (v_unlink i v).
Proof. unfold v_drop, v_unlink. simpl. destruct (v_files v !! num) as [f|]; [|done]. by destruct (_ =? 1). Qed.

Lemma v_detach_drop d num v : v_detach d (v_drop num v) = v_drop num (v_detach d v).
Proof. unfold v_drop, v_detach. simpl. destruct (v_files v !! num) as [f|]; [|done]. by destruct (_ =? 1). Qed.

Lemma v_wf_unlink i name num v :
  v_wf v → v_dir v !! i = Some (Some (name, num)) → v_wf (v_unlink i (v_drop num v)).
Proof.
  intros [Hs Hc] Hi. rewrite v_unlink_drop. pose proof Hs as [V1 V2 V3 V4 V5 V6 V7 V9].
  assert (∀ j o, <[i := None]> (v_dir v) !! j = Some (Some o) → v_dir v !! j = Some (Some o)) as Hsub.
  { intros j o [(_ & ? & _)|[_ Hj]]%list_lookup_insert_Some; done. }
  apply v_wf_drop.
  - split; cbn [v_unlink v_dir v_files v_open v_ids v_fds]; try done.
    + intros j x n Hj. eapply V1, Hsub, Hj.
    + intros j k x n m Hj Hk. eapply V2; by apply Hsub.
  - intros n f Hf. unfold refs. cbn [v_unlink v_dir v_files v_open] in *. specialize (Hc n f Hf). unfold refs in Hc.
    rewrite (slots_of_insert n _ i _ None Hi). simpl. rewrite decide_False in Hc by done.
    destruct (Z.eqb_spec num n) as [->|]; [rewrite decide_True by done; lia|rewrite decide_False by congruence; lia].
  - by destruct (V1 i name num Hi).
Qed.

Lemma v_wf_detach d num v :
  v_wf v → v_open v !! d = Some num → is_Some (v_files v !! num) → v_wf (v_detach d (v_drop num v)).
Proof.
  intros [Hs Hc] Hd Hnum. rewrite v_detach_drop. pose proof Hs as [V1 V2 V3 V4 V5 V6 V7 V9].
  apply v_wf_drop.
  - split; cbn [v_detach v_dir v_files v_open v_ids v_fds]; try done.
    + intros k n [_ Hk]%lookup_delete_Some. exact (V3 k n Hk).
    + exact (fds_sound_close _ _ d num V7 Hd).
  - intros n f Hf. unfold refs. cbn [v_detach v_dir v_files v_open] in *. specialize (Hc n f Hf). unfold refs in Hc.
    rewrite (opens_of_delete n _ d num Hd). rewrite decide_False in Hc by done.
    destruct (Z.eqb_spec num n) as [->|]; [rewrite decide_True by done; lia|rewrite decide_False by congruence; lia].
  - exact Hnum.
Qed.

(** Descriptors of the root directory do not count as links. *)
Lemma opens_of_root n (open : gmap nat Z) d : n ≠ 1 → open !! d = None → opens_of n (<[d := 1]> open) = opens_of n open.
Proof. intros Hn Hd. rewrite opens_of_insert, (proj2 (Z.eqb_neq 1 n)) by done. lia. Qed.

Lemma v_counted_open v v' :
  v_counted None v → v_files v !! 1 = None → v_files v' = v_files v → v_dir v' = v_dir v →
  (∀ n, n ≠ 1 → opens_of n (v_open v') = opens_of n (v_open v)) → v_counted None v'.
Proof.
  intros Hc H1 Ef Ed Ho n f. rewrite Ef. intros Hn. assert (n ≠ 1) as Hne by congruence.
  unfold refs. rewrite Ed, Ho by done. exact (Hc n f Hn).
Qed.

Lemma v_wf_open_root d fds v : v_wf v → next_fd v = Some (d, fds) → v_wf (v_open_root d fds v).
Proof.
  intros [Hs Hc] Hfds. pose proof Hs as [V1 V2 V3 V4 V5 V6 V7 V9].
  destruct (fds_sound_next v d fds 1 V7 Hfds) as (HdN & _ & Hfd). split.
  - split; cbn [v_open_root v_dir v_files v_open v_ids v_fds]; try done.
    intros k n [(<- & <-)|[_ Hk]]%lookup_insert_Some Hn; [done|exact (V3 k n Hk Hn)].
  - apply (v_counted_open v); [exact Hc|exact (proj1 V5)|done|done|]. intros n Hn. by apply opens_of_root.
Qed.

Lemma v_wf_close_root d v : v_wf v → v_open v !! d = Some 1 → v_wf (v_unlink_root (v_detach d v)).
Proof.
  intros [Hs Hc] Hd. pose proof Hs as [V1 V2 V3 V4 V5 V6 V7 V9]. split.
  - split; cbn [v_unlink_root set_v_root v_detach v_dir v_files v_open v_ids v_fds]; try done.
    + intros k n [_ Hk]%lookup_delete_Some. exact (V3 k n Hk).
    + exact (fds_sound_close _ _ d 1 V7 Hd).
  - apply (v_counted_open v); [exact Hc|exact (proj1 V5)|done|done|]. intros n Hn. cbn [v_unlink_root set_v_root v_detach v_open].
    rewrite (opens_of_delete n _ d 1 Hd), (proj2 (Z.eqb_neq 1 n)) by done. lia.
Qed.

(** ** Writing *)
Lemma transfer_blocks_Some n k :
  transfer_blocks n = Some k → 1 ≤ k ≤ SFS_NDIR_BLOCKS ∧ (n = k * BLOCK_SIZE ∨ k = 1 ∧ 1 ≤ n < BLOCK_SIZE).
Proof.
  unfold transfer_blocks. destruct ((n =? _) && _ && _) eqn:E.
  - intros [= <-]. rewrite !andb_true_iff, Z.eqb_eq, !Z.leb_le in E. split; [lia|left; lia].
  - destruct ((1 <=? n) && _) eqn:E2; [|done]. intros [= <-]. apply andb_true_iff in E2 as [H1%Z.leb_le H2%Z.ltb_lt].
    split; [done|]. right. lia.
Qed.

Lemma round_up_transfer n k :
  transfer_blocks (Z.of_nat n) = Some k → round_up n = Z.to_nat (k * BLOCK_SIZE) ∧ (n ≤ round_up n)%nat.
Proof.
  intros (Hk & Hn)%transfer_blocks_Some. change SFS_NDIR_BLOCKS with 12 in Hk. unfold round_up, BLOCK_SIZE in *.
  assert ((Z.of_nat n + 512 - 1) / 512 = k) as -> by (destruct Hn as [Hn|[-> Hn]]; clear Hk; div_lia).
  split; [done|lia].
Qed.

Lemma length_extended n data : length (extended n data) = Nat.max n (length data).
Proof. unfold extended. rewrite length_app, length_replicate. lia. Qed.

(** The whole blocks that a write stores. *)
Definition write_image (k : Z) (buf data : list byte) : list byte :=
  buf ++ drop (length buf) (take (Z.to_nat (k * BLOCK_SIZE)) (extended (Z.to_nat (k * BLOCK_SIZE)) data)).

Lemma length_write_image k buf data :
  (length buf ≤ Z.to_nat (k * BLOCK_SIZE))%nat → length (write_image k buf data) = Z.to_nat (k * BLOCK_SIZE).
Proof. intros Hl. unfold write_image. rewrite length_app, length_drop, length_take, length_extended. lia. Qed.

Lemma vf_write_image buf f k :
  transfer_blocks (Z.of_nat (length buf)) = Some k →
  let image := write_image k buf (vf_data f) in
  length image = Z.to_nat (k * BLOCK_SIZE) ∧ vf_data (vf_write buf f) = image ++ drop (length image) (vf_data f).
Proof.
  intros Hk image. destruct (round_up_transfer _ _ Hk) as [Er Hl]. rewrite Er in Hl.
  assert (length image = Z.to_nat (k * BLOCK_SIZE)) as Hi by (by apply length_write_image). split; [exact Hi|].
  rewrite Hi. unfold vf_write, image, write_image. cbn [vf_data]. rewrite Er, <-app_assoc. f_equal.
  set (K := Z.to_nat (k * BLOCK_SIZE)) in *. unfold extended.
  destruct (decide (length (vf_data f) ≤ K)%nat) as [Hle|Hgt].
  - rewrite (drop_ge (vf_data f) K), app_nil_r, take_ge by (rewrite ?length_app, ?length_replicate; lia). done.
  - replace (K - length (vf_data f))%nat with 0%nat by lia. cbn [replicate]. rewrite app_nil_r.
    rewrite <-(take_drop K (vf_data f)) at 1. rewrite drop_app_le by (rewrite length_take; lia). done.
Qed.

Lemma v_blocks_image (k : Z) image f f' :
  1 ≤ k → length image = Z.to_nat (k * BLOCK_SIZE) → Z.of_nat (length (vf_data f)) = v_blocks f * BLOCK_SIZE →
  vf_data f' = image ++ drop (length image) (vf_data f) →
  Z.of_nat (length (vf_data f')) = v_blocks f' * BLOCK_SIZE ∧ v_blocks f' = Z.max k (v_blocks f).
Proof.
  intros Hk Hl Hd E. assert (v_blocks f' = Z.max k (v_blocks f)) as Eb.
  { apply v_blocks_of. rewrite E, length_app, length_drop, Hl. unfold BLOCK_SIZE in *. lia. }
  split; [|exact Eb]. rewrite Eb, E, length_app, length_drop, Hl. unfold BLOCK_SIZE in *. lia.
Qed.

Lemma v_wf_write num f buf k room root v :
  v_wf v → v_files v !! num = Some f → transfer_blocks (Z.of_nat (length buf)) = Some k →
  v_wf (Vfs (v_dir v) (<[num := vf_write buf f]> (v_files v)) (v_open v) (v_ids v) (v_fds v) room root).
Proof.
  intros [Hs Hc] Hf Hb. destruct (vf_write_image buf f k Hb) as [Hil Eimg].
  destruct (transfer_blocks_Some _ _ Hb) as [Hk Hlen]. pose proof Hs as [V1 V2 V3 V4 V5 V6 V7 V9].
  assert (∀ n, is_Some (v_files v !! n) → is_Some (<[num := vf_write buf f]> (v_files v) !! n)) as Hmono.
  { intros n Hn. destruct (decide (num = n)) as [->|Hne]; [by rewrite lookup_insert_eq|by rewrite lookup_insert_ne]. }
  assert (∀ n, v_files v !! n = None → <[num := vf_write buf f]> (v_files v) !! n = None) as Hnone.
  { intros n Hn. rewrite lookup_insert_ne; [done|]. intros ->. by rewrite Hf in Hn. }
  destruct (V4 num f Hf) as [Hd Hd12]. split.
  - split; cbn [v_dir v_files v_open v_ids v_fds]; [|exact V2| | | | |exact V7|].
    + intros i x n Hi. destruct (V1 i x n Hi). split; [done|by apply Hmono].
    + intros d n Hd' Hn. exact (Hmono n (V3 d n Hd' Hn)).
    + intros n g [(<- & <-)|[_ Hn]]%lookup_insert_Some; [|by apply (V4 n)].
      destruct (v_blocks_image k _ f (vf_write buf f) ltac:(lia) Hil Hd Eimg) as [E1 E2]. split; [exact E1|]. rewrite E2. lia.
    + split; [exact (Hnone 1 (proj1 V5))|exact (proj2 V5)].
    + split; [apply V6|]. intros n Hn. by apply Hnone, V6.
    + intros n g [(<- & <-)|[_ Hn]]%lookup_insert_Some; [|by apply (V9 n)]. destruct (V9 num f Hf).
      unfold vf_write. cbn [vf_links vf_size]. unfold BLOCK_SIZE in *. change SFS_NDIR_BLOCKS with 12 in Hk. lia.
  - intros n g Hg. cbn [v_files] in Hg. apply lookup_insert_Some in Hg as [(<- & <-)|[_ Hn]]; [exact (Hc num f Hf)|exact (Hc n g Hn)].
Qed.

Lemma v_wf_remount v :
  v_wf v → v_open v = ∅ → v_wf (Vfs (v_dir v) (v_files v) ∅ (v_ids v) (seq 0 slots_per_slab) (v_room v) (v_root v)).
Proof.
  intros [[V1 V2 V3 V4 V5 V6 V7 V9] Hc] Ho. split.
  - split; cbn [v_dir v_files v_open v_ids v_fds]; try done. apply fds_sound_new.
  - intros n f Hf. specialize (Hc n f Hf). unfold refs in *. rewrite Ho in Hc. exact Hc.
Qed.

Lemma v_open_file_wf num v a v' :
  v_wf v → v_open_file num v = Some (a, v') → v_wf v'.
Proof.
  intros Hwf. unfold v_open_file. destruct (v_files v !! num) as [f|] eqn:Hf; [|done].
  destruct (next_fd v) as [[d fds]|] eqn:Hfds; [|done]. destruct (Z.ltb_spec (vf_links f) (2 ^ 32 - 1)) as [Hlt|]; [|done].
  intros [= <- <-]. apply v_wf_attach; [exact Hwf|by rewrite Hf|exact Hfds|]. intros g Hg. by simplify_eq.
Qed.

Lemma v_file_of_Some fh v num f :
  v_file_of fh v = Some (num, f) → 0 ≤ fh ∧ v_open v !! Z.to_nat fh = Some num ∧ v_files v !! num = Some f.
Proof.
  unfold v_file_of. destruct (Z.ltb_spec fh 0) as [|Hfh]; [done|]. simpl.
  destruct (v_open v !! Z.to_nat fh) as [n|]; simpl; [|done]. destruct (v_files v !! n) as [g|] eqn:E; simpl; [|done].
  intros [= <- <-]. done.
Qed.

(** ** Paths *)
Lemma resolve_named p name : resolve p = Some (Named name) → p = [name] ∧ path_ok p = true ∧ name_ok name = true.
Proof.
  unfold resolve. destruct (path_ok p) eqn:Ep; cbn [negb]; [|done]. destruct p as [|c [|c' p]]; [done| |done].
  destruct (length c <=? 255)%nat eqn:El; [|done]. intros [= <-]. split; [done|]. split; [done|].
  unfold path_ok in Ep. cbn [forallb] in Ep. unfold name_ok. rewrite El.
  apply andb_true_iff in Ep as [Ep _]. by rewrite andb_true_r in Ep |- *.
Qed.

Lemma v_do_create_wf ctx name mode flags v a v' :
  v_wf v → name_ok name = true → v_do_create ctx name mode flags v = Some (a, v') → v_wf v'.
Proof.
  intros Hwf Hname. unfold v_do_create. destruct (v_find name (v_dir v)) as [[i num]|] eqn:Ef.
  - destruct (Z.land flags O_EXCL =? 0); simpl; [by apply v_open_file_wf|by intros [= <- <-]].
  - destruct (v_ids v) as [|m ids] eqn:Ei; [done|]. destruct (next_fd v) as [[d fds]|] eqn:Efd; [|done].
    destruct ((Z.of_nat _ <? _) && _); [|done]. intros [= <- <-]. by apply v_wf_create.
Qed.

Lemma v_do_write_wf fh buf v a v' : v_wf v → v_do_write fh buf v = Some (a, v') → v_wf v'.
Proof.
  intros Hwf. unfold v_do_write. destruct (v_file_of fh v) as [[num f]|] eqn:Ef; simpl; [|done].
  destruct (transfer_blocks _) as [k|] eqn:Ek; simpl; [|done]. destruct (_ <=? _); [|done]. intros [= <- <-].
  apply v_file_of_Some in Ef as (_ & _ & Hf). by apply (v_wf_write num f buf k).
Qed.

Lemma vfs_step_wf v r a v' : v_wf v → vfs_step v r = Some (a, v') → v_wf v'.
Proof.
  intros Hwf. destruct r as [ctx p mode flags|p flags|fh buf|fh n|fh|p|p|p|p flags|fh|p mode|p|]; cbn [vfs_step].
  - destruct (resolve p) as [[|name|err]|] eqn:Ep; simpl; [done| |by intros [= <- <-]|done].
    destruct (ids_ok_b ctx); [|done]. apply v_do_create_wf; [done|by apply (resolve_named p)].
  - destruct (resolve p) as [[|name|err]|]; simpl; [done| |by intros [= <- <-]|done].
    unfold v_do_open. destruct (v_find name (v_dir v)) as [[i num]|]; [by apply v_open_file_wf|by intros [= <- <-]].
  - destruct (length buf =? 0)%nat; [by intros [= <- <-]|]. destruct (unknown_fd fh v); [by intros [= <- <-]|].
    by apply v_do_write_wf.
  - destruct (n =? 0); [by intros [= <- <-]|]. destruct (unknown_fd fh v); [by intros [= <- <-]|].
    destruct (v_do_read fh n v); simpl; [|done]. by intros [= <- <-].
  - destruct (unknown_fd fh v); [by intros [= <- <-]|].
    destruct (v_file_of fh v) as [[num f]|] eqn:Ef; simpl; [|done]. intros [= <- <-].
    apply v_file_of_Some in Ef as (_ & Ho & Hf). apply v_wf_detach; [exact Hwf|exact Ho|by rewrite Hf].
  - destruct (resolve p) as [[|name|err]|]; simpl; [by intros [= <- <-]| |by intros [= <- <-]|done].
    unfold v_do_unlink. destruct (v_find name (v_dir v)) as [[i num]|] eqn:Ef; [|by intros [= <- <-]].
    intros [= <- <-]. by eapply v_wf_unlink, v_find_Some.
  - destruct (resolve p); simpl; [|done]. by intros [= <- <-].
  - destruct (resolve p); simpl; [|done]. by intros [= <- <-].
  - destruct (resolve p) as [[|name|err]|]; [|done..]. destruct (next_fd v) as [[d fds]|] eqn:Efd; [|done].
    intros [= <- <-]. by apply v_wf_open_root.
  - destruct (unknown_fd fh v); [by intros [= <- <-]|]. destruct ((0 <=? fh) && _) eqn:E; [|done].
    intros [= <- <-]. apply andb_true_iff in E as [_ Ho%bool_decide_eq_true]. by apply v_wf_close_root.
  - by intros [= <- <-].
  - destruct (resolve p); simpl; [|done]. by intros [= <- <-].
  - destruct (decide _); [|done]. intros [= <- <-]. by apply v_wf_remount.
Qed.
