(* ===== verification/Represents.v ===== *)
(** * When a disk holds an abstract file system

    [holds v fs root F T last]: the disk of [fs], with the files [T] and the
    free blocks [F], is the directory, the files and the free inodes of [v]. *)

From S2P Require Export Volume VfsInvariant.

(** An inode with its blocks is a file of the specification. *)
Record file_rep (fs : filesystem) (i : sfs_fs_inode) (f : vfile) : Prop := FileRep {
  fr_size : i_size i = vf_size f;
  fr_links : i_links i = vf_links f;
  fr_mode : i_mode i = vf_mode f;
  fr_uid : i_uid i = vf_uid f;
  fr_ptr j : 0 ≤ j < file_blocks → file_ptr (abs fs) i j ≠ 0 ↔ j < v_blocks f;
  fr_block j : 0 ≤ j < v_blocks f → file_block (abs fs) i j = buf_block (vf_data f) j;
}.

(** What a block of the root directory stores for a slot. *)
Definition slot_in (blk : list byte) (o : vslot) : Prop :=
  match o with
  | None => d_inumber (entry_at 0 blk) = 0
  | Some (name, num) => entry_at 0 blk = DirEntry num (strncpy_name name)
  end.

Record slots_rep (fs : filesystem) (root : sfs_fs_inode) (dir : list vslot) : Prop := SlotsRep {
  sl_ptr j : 0 ≤ j < file_blocks → file_ptr (abs fs) root j ≠ 0 ↔ j < Z.of_nat (length dir);
  sl_slot k o : dir !! k = Some o → slot_in (file_block (abs fs) root (Z.of_nat k)) o;
}.

Record root_rep (fs : filesystem) (root : sfs_fs_inode) (dir : list vslot) : Prop := RootRep {
  rr_mode : Z.land (i_mode root) S_IFDIR ≠ 0;
  rr_size : i_size root = Z.of_nat (length dir) * BLOCK_SIZE;
  rr_length : Z.of_nat (length dir) ≤ SFS_NDIR_BLOCKS;
  rr_slots : slots_rep fs root dir;
}.

(** The attributes of the root directory. *)
Definition root_attrs (root : sfs_fs_inode) : vroot := VRoot (i_mode root) (i_links root) (i_uid root).

Record holds (v : vfs) (fs : filesystem) (root : sfs_fs_inode) (F : list Z)
    (T : gmap Z sfs_fs_inode) (last : Z) : Prop := Holds {
  ho_volume : volume fs F T (v_ids v) last;
  ho_root : T !! 1 = Some root;
  ho_dir : root_rep fs root (v_dir v);
  ho_files n : n ≠ 1 → option_Forall2 (file_rep fs) (T !! n) (v_files v !! n);
  ho_room : v_room v ≤ Z.of_nat (length F);
  ho_attrs : root_attrs root = v_root v;
}.

(** ** Contents that do not change *)
Lemma file_rep_kept fs i f fs' i' f' :
  file_rep fs i f → same_contents fs i fs' i' → v_blocks f ≤ file_blocks → vf_data f' = vf_data f →
  i_size i' = vf_size f' → i_links i' = vf_links f' → i_mode i' = vf_mode f' → i_uid i' = vf_uid f' →
  file_rep fs' i' f'.
Proof.
  intros [_ _ _ _ R5 R6] [S1 S2 S3] Hle Hd Hs Hl Hm Hu.
  assert (v_blocks f' = v_blocks f) as Hb by (unfold v_blocks; by rewrite Hd).
  split; [done..| |].
  - intros j Hj. rewrite Hb, S2 by done. by apply R5.
  - intros j Hj. rewrite Hb in Hj. rewrite S3, Hd by lia. by apply R6.
Qed.

Lemma slots_rep_kept fs root dir fs' root' :
  slots_rep fs root dir → Z.of_nat (length dir) ≤ file_blocks → same_contents fs root fs' root' →
  slots_rep fs' root' dir.
Proof.
  intros [R1 R2] Hl [_ Hp Hb]. split.
  - intros j Hj. rewrite Hp by done. by apply R1.
  - intros k o Ho. pose proof (lookup_lt_Some _ _ _ Ho). rewrite Hb by lia. by apply R2.
Qed.

Lemma slots_fit (dir : list vslot) : Z.of_nat (length dir) ≤ SFS_NDIR_BLOCKS → Z.of_nat (length dir) ≤ file_blocks.
Proof. change SFS_NDIR_BLOCKS with 12. change file_blocks with 76. lia. Qed.

Lemma root_rep_kept fs root dir fs' root' :
  root_rep fs root dir → same_contents fs root fs' root' → i_size root' = i_size root →
  i_mode root' = i_mode root → root_rep fs' root' dir.
Proof.
  intros [R1 R2 R3 R4] Hs Hsz Hm. split; [by rewrite Hm|by rewrite Hsz|exact R3|].
  by apply (slots_rep_kept fs root); [|apply slots_fit|].
Qed.

(** One block of the directory is written: slot [k] changes. *)
Lemma slots_rep_written fs root dir F (k : nat) blk fs' root' F' dir' :
  slots_rep fs root dir → fs_ok fs → is_free (abs fs) F → (k ≤ length dir)%nat → Z.of_nat k < file_blocks →
  Z.of_nat (length dir) ≤ file_blocks →
  written (abs fs) root F (Z.of_nat k) blk (abs fs') root' F' →
  length dir' = Nat.max (length dir) (S k) → (∀ i, i ≠ k → dir' !! i = dir !! i) →
  (∀ o, dir' !! k = Some o → slot_in blk o) →
  slots_rep fs' root' dir' ∧ Z.of_nat (length F) = Z.of_nat (length F') + (if (k <? length dir)%nat then 0 else 1).
Proof.
  intros [R1 R2] Hok Hfree Hk Hkb Hl Hw Hlen Hoth Hnew. split; [split|].
  - intros j Hj. destruct (decide (j = Z.of_nat k)) as [->|Hne].
    + pose proof (written_ptr_nonzero _ _ _ _ _ _ _ _ Hok Hfree Hj Hw). split; [lia|done].
    + rewrite (wr_ptr _ _ _ _ _ _ _ _ Hw) by tauto. rewrite R1 by done. lia.
  - intros i o Ho. destruct (decide (i = k)) as [->|Hne].
    + rewrite (wr_content _ _ _ _ _ _ _ _ Hw), Z.eqb_refl by lia. by apply Hnew.
    + rewrite Hoth in Ho by done. pose proof (lookup_lt_Some _ _ _ Ho).
      rewrite (wr_content _ _ _ _ _ _ _ _ Hw), (proj2 (Z.eqb_neq _ _)) by lia. by apply R2.
  - pose proof (Permutation_length (wr_alloc _ _ _ _ _ _ _ _ Hw)) as E. rewrite length_app in E.
    specialize (R1 (Z.of_nat k) ltac:(lia)). destruct (Z.eqb_spec (file_ptr (abs fs) root (Z.of_nat k)) 0) as [Hz|Hnz];
      simpl in E; destruct (Nat.ltb_spec k (length dir)); lia.
Qed.

(** What the other lemmas need of the files of [v]. *)
Definition files_ok (v : vfs) : Prop :=
  v_files v !! 1 = None ∧
  ∀ n f, v_files v !! n = Some f →
    Z.of_nat (length (vf_data f)) = v_blocks f * BLOCK_SIZE ∧ v_blocks f ≤ SFS_NDIR_BLOCKS.

Lemma v_wf_files_ok v : v_wf v → files_ok v.
Proof. intros [Hs _]. exact (conj (proj1 (vs_root _ Hs)) (vs_data _ Hs)). Qed.

Lemma files_ok_insert num f v :
  files_ok v → num ≠ 1 → Z.of_nat (length (vf_data f)) = v_blocks f * BLOCK_SIZE → v_blocks f ≤ SFS_NDIR_BLOCKS →
  files_ok (set_v_files (insert num f) v).
Proof.
  intros [H1 H2] Hne Hd Hb. split; cbn [set_v_files v_files]; [by rewrite lookup_insert_ne|].
  intros n g [[_ <-]|[_ Hn]]%lookup_insert_Some; [by split|exact (H2 n g Hn)].
Qed.

Lemma files_ok_drop num v : files_ok v → files_ok (v_drop num v).
Proof.
  intros [H1 Hd]. unfold v_drop. destruct (v_files v !! num) as [f|] eqn:Hf; [|done].
  destruct (_ =? 1); split; simpl.
  - apply lookup_delete_None. by right.
  - intros n g [_ Hg]%lookup_delete_Some. by apply (Hd n).
  - rewrite lookup_alter_ne; [done|]. intros ->. by rewrite H1 in Hf.
  - intros n g Hg. destruct (decide (num = n)) as [->|Hne].
    + rewrite lookup_alter_eq in Hg. apply fmap_Some in Hg as (g0 & Hg0 & ->). exact (Hd n g0 Hg0).
    + rewrite lookup_alter_ne in Hg by done. by apply (Hd n).
Qed.

Lemma holds_file v fs root F T last n f :
  files_ok v → holds v fs root F T last → v_files v !! n = Some f →
  ∃ i, T !! n = Some i ∧ file_rep fs i f ∧ n ≠ 1 ∧ v_blocks f ≤ SFS_NDIR_BLOCKS ∧ v_blocks f ≤ file_blocks ∧
    Z.of_nat (length (vf_data f)) = v_blocks f * BLOCK_SIZE.
Proof.
  intros [H1 Hs] Ho Hf. assert (n ≠ 1) as Hn by (intros ->; by rewrite H1 in Hf).
  pose proof (ho_files _ _ _ _ _ _ Ho n Hn) as Hr. rewrite Hf in Hr. inversion Hr as [i g Hi E1 E2|].
  destruct (Hs n f Hf) as [Hd Hb]. exists i. change file_blocks with 76.
  change SFS_NDIR_BLOCKS with 12 in *. split_and!; [done|exact Hi|done|done|lia|exact Hd].
Qed.

(** The files other than the one that changed. *)
Lemma files_kept (x : Z) v fs root F T last fs' T' (files' : gmap Z vfile) :
  files_ok v → holds v fs root F T last → kept_but (Some x) fs T fs' T' →
  (∀ n, n ≠ x → n ≠ 1 → T' !! n = T !! n ∧ files' !! n = v_files v !! n) →
  (x ≠ 1 → option_Forall2 (file_rep fs') (T' !! x) (files' !! x)) →
  ∀ n, n ≠ 1 → option_Forall2 (file_rep fs') (T' !! n) (files' !! n).
Proof.
  intros Hwf Ho Hk Hsame Hx n Hn. destruct (decide (n = x)) as [->|Hne]; [by apply Hx|].
  destruct (Hsame n Hne Hn) as [ET Ef]. pose proof (ho_files _ _ _ _ _ _ Ho n Hn) as Hr.
  rewrite ET, Ef. destruct (v_files v !! n) as [f|] eqn:Hf.
  - destruct (holds_file _ _ _ _ _ _ _ _ Hwf Ho Hf) as (i & Hi & Hrep & _ & _ & Hb & _). rewrite Hi. constructor.
    pose proof Hrep as [R1 R2 R3 R4 _ _]. apply (file_rep_kept fs i f); try done. apply (Hk n); congruence.
  - inversion Hr. constructor.
Qed.

Section holds.
  Context `{EV : Env, RI : !ReliableIO, EO : !EnvOk}.

(** The root's inode is written with other attributes. *)
Lemma holds_root_attrs v fs root F T last fs' root' :
  files_ok v → holds v fs root F T last → fs_ok fs' → abs fs' ≡ upd_inode root' (abs fs) →
  i_inumber root' = i_inumber root → i_block_pointers root' = i_block_pointers root →
  i_size root' = i_size root → i_mode root' = i_mode root → inode_ok root' = true →
  holds (set_v_root (root_attrs root') v) fs' root' F (<[1 := root']> T) last.
Proof.
  intros Hwf Ho Hok Habs En Ep Es Em Hio. pose proof Ho as [Hv Hroot Hdir Hfiles Hroom Hattrs].
  destruct (vo_member _ _ _ _ _ Hv 1 root Hroot) as [Hnum _].
  destruct (volume_upd _ _ _ _ _ 1 root root' fs' Hv Hroot Hok Habs ltac:(congruence) Ep Hio) as [Hv' Hk].
  assert (<[1 := root']> T !! 1 = Some root') as Hroot' by apply lookup_insert_eq.
  split; [exact Hv'|exact Hroot'| | |exact Hroom|done].
  - apply (root_rep_kept fs root _ _ _ Hdir); [by apply (Hk 1)|exact Es|exact Em].
  - apply (files_kept 1 v fs root F T last fs'); [exact Hwf|exact Ho|by apply kept_but_weaken| |done].
    intros n Hn _. by rewrite lookup_insert_ne.
Qed.

(** It is written with other times only. *)
Lemma holds_root_upd v fs root F T last fs' root' :
  files_ok v → holds v fs root F T last → fs_ok fs' → abs fs' ≡ upd_inode root' (abs fs) →
  i_inumber root' = i_inumber root → i_block_pointers root' = i_block_pointers root →
  i_size root' = i_size root → root_attrs root' = root_attrs root → inode_ok root' = true →
  holds v fs' root' F (<[1 := root']> T) last.
Proof.
  intros Hwf Ho Hok Habs En Ep Es Ea Hio. pose proof (ho_attrs _ _ _ _ _ _ Ho) as Hattrs.
  assert (v = set_v_root (root_attrs root') v) as Ev by (rewrite Ea, Hattrs; by destruct v).
  rewrite Ev. apply (holds_root_attrs v fs root); try done. exact (f_equal vr_mode Ea).
Qed.

(** The inode of a file is written with other attributes. *)
Lemma holds_set_attributes v v' fs root F T last fs' n i i' f f' :
  files_ok v → holds v fs root F T last → v_files v !! n = Some f → T !! n = Some i →
  fs_ok fs' → abs fs' ≡ upd_inode i' (abs fs) → i_inumber i' = n →
  i_block_pointers i' = i_block_pointers i → inode_ok i' = true →
  v_dir v' = v_dir v → v_ids v' = v_ids v → v_room v' = v_room v → v_root v' = v_root v → v_files v' !! n = Some f' →
  (∀ m, m ≠ n → v_files v' !! m = v_files v !! m) →
  vf_data f' = vf_data f → i_size i' = vf_size f' → i_links i' = vf_links f' → i_mode i' = vf_mode f' →
  i_uid i' = vf_uid f' →
  holds v' fs' root F (<[n := i']> T) last.
Proof.
  intros Hwf Ho Hf Hi Hok Habs Hnum Hp Hio Ed Ei Er Ea Hf' Hoth Hd Hs Hl Hm Hu.
  destruct (holds_file _ _ _ _ _ _ _ _ Hwf Ho Hf) as (i0 & Hi0 & Hrep & Hn1 & _ & Hb & _).
  rewrite Hi in Hi0. injection Hi0 as <-. pose proof Ho as [Hv Hroot Hdir Hfiles Hroom Hattrs].
  destruct (volume_upd _ _ _ _ _ n i i' fs' Hv Hi Hok Habs Hnum Hp Hio) as [Hv' Hk].
  assert (<[n := i']> T !! 1 = Some root) as Hroot' by (by rewrite lookup_insert_ne).
  assert (<[n := i']> T !! n = Some i') as Hn' by apply lookup_insert_eq.
  split; [by rewrite Ei|exact Hroot'| | |by rewrite Er|by rewrite Ea].
  - rewrite Ed. apply (root_rep_kept fs root _ _ _ Hdir); [by apply (Hk 1)|done|done].
  - apply (files_kept n v fs root F T last fs'); [exact Hwf|exact Ho|by apply kept_but_weaken| |].
    + intros m Hm' _. rewrite lookup_insert_ne by done. split; [done|by apply Hoth].
    + intros _. rewrite Hn', Hf'. constructor. apply (file_rep_kept fs i f); try done. by apply (Hk n).
Qed.

Lemma holds_equiv v fs root F T last fs' :
  files_ok v → holds v fs root F T last → fs_ok fs' → abs fs' ≡ abs fs → holds v fs' root F T last.
Proof.
  intros Hwf Ho Hok Habs. pose proof Ho as [Hv Hroot Hdir Hfiles Hroom Hattrs].
  destruct (volume_equiv _ _ _ _ _ fs' Hv Hok Habs) as [Hv' Hk].
  split; [exact Hv'|exact Hroot| | |exact Hroom|exact Hattrs].
  - apply (root_rep_kept fs root _ _ _ Hdir); [by apply (Hk 1)|done|done].
  - apply (files_kept 1 v fs root F T last fs'); [exact Hwf|exact Ho|by apply kept_but_weaken|done|done].
Qed.

(** ** The root directory *)
Lemma holds_dir_state v fs root F T last :
  v_wf v → holds v fs root F T last → dir_state fs root F (Z.of_nat (length (v_dir v))) ∧ i_inumber root = 1.
Proof.
  intros Hwf Ho. pose proof Ho as [Hv Hroot Hdir Hfiles Hroom Hattrs].
  destruct (vo_member _ _ _ _ _ Hv 1 root Hroot) as [Hnum Hf]. split; [|exact Hnum].
  pose proof (rr_length _ _ _ Hdir) as Hl. change SFS_NDIR_BLOCKS with 12 in Hl.
  split; [exact Hf|change file_blocks with 76; lia|exact (rr_size _ _ _ Hdir)|].
  intros k Hk Hlive. assert (is_Some (v_dir v !! Z.to_nat k)) as [o Hlk] by (apply lookup_lt_is_Some_2; lia).
  pose proof (sl_slot _ _ _ (rr_slots _ _ _ Hdir) _ _ Hlk) as Hs. rewrite Z2Nat.id in Hs by lia.
  unfold live in Hlive.
  destruct o as [[name num]|]; [|by destruct (Hlive Hs)].
  change (dir_entry_at (abs fs) root k = DirEntry num (strncpy_name name)) in Hs. rewrite Hs. simpl.
  destruct (vs_name _ (proj1 Hwf) _ _ _ Hlk) as [_ [f Hf']].
  destruct (holds_file _ _ _ _ _ _ _ _ (v_wf_files_ok _ Hwf) Ho Hf') as (i & Hi & _).
  by destruct (volume_member _ _ _ _ _ _ _ Hv Hi) as (_ & _ & ? & _).
Qed.

(** A slot of a name that is in use. *)
Lemma holds_slot v fs root F T last k name num :
  v_wf v → holds v fs root F T last → v_dir v !! k = Some (Some (name, num)) →
  0 ≤ Z.of_nat k < Z.of_nat (length (v_dir v)) ∧
  dir_entry_at (abs fs) root (Z.of_nat k) = DirEntry num (strncpy_name name) ∧ live (abs fs) root (Z.of_nat k) ∧
  num ≠ 1 ∧ name_ok name = true.
Proof.
  intros Hwf Ho Hk. pose proof Ho as [Hv _ Hdir _ _ _]. pose proof (lookup_lt_Some _ _ _ Hk) as Hlt.
  pose proof (sl_slot _ _ _ (rr_slots _ _ _ Hdir) _ _ Hk : dir_entry_at _ _ _ = _) as Hs.
  destruct (vs_name _ (proj1 Hwf) _ _ _ Hk) as [Hname [f Hf]].
  destruct (holds_file _ _ _ _ _ _ _ _ (v_wf_files_ok _ Hwf) Ho Hf) as (i & Hi & _ & Hn1 & _).
  destruct (volume_member _ _ _ _ _ _ _ Hv Hi) as (_ & _ & Hvn & _).
  split; [lia|]. split; [exact Hs|]. split; [unfold live; rewrite Hs; simpl; destruct Hvn; lia|]. done.
Qed.

Lemma name_ok_spec name :
  name_ok name = true → name ≠ [] ∧ (slash ∉ name) ∧ (x00 ∉ name) ∧ (length name ≤ 255)%nat.
Proof.
  unfold name_ok, comp_ok. rewrite !andb_true_iff, !bool_decide_eq_true, Nat.leb_le. tauto.
Qed.

(** An entry matches a name when it is that name. *)
Lemma matches_name num x name :
  name_ok x = true → name_ok name = true → matches name (DirEntry num (strncpy_name x)) ↔ x = name.
Proof.
  intros (_ & _ & Hx0 & Hx)%name_ok_spec (_ & _ & _ & Hn)%name_ok_spec.
  unfold matches, strn_eq. simpl. rewrite c_string_strncpy, bool_decide_eq_true by done.
  by rewrite !take_ge by lia.
Qed.

Lemma holds_entry v fs root F T last name k num :
  v_wf v → holds v fs root F T last → name_ok name = true → v_find name (v_dir v) = Some (k, num) →
  entry_of fs root (Z.of_nat (length (v_dir v))) name (Z.of_nat k) num.
Proof.
  intros Hwf Ho Hname Hfind%v_find_Some.
  destruct (holds_slot _ _ _ _ _ _ _ _ _ Hwf Ho Hfind) as (Hk & He & Hl & _ & _).
  split; [exact Hk|exact Hl|rewrite He; by apply matches_name| |by rewrite He].
  intros i Hi Hli Hm. assert (is_Some (v_dir v !! Z.to_nat i)) as [o Hlk] by (apply lookup_lt_is_Some_2; lia).
  pose proof (sl_slot _ _ _ (rr_slots _ _ _ (ho_dir _ _ _ _ _ _ Ho)) _ _ Hlk) as Hs.
  rewrite Z2Nat.id in Hs by lia.
  destruct o as [[x m]|]; [|by destruct (Hli Hs)].
  change (dir_entry_at (abs fs) root i = DirEntry m (strncpy_name x)) in Hs.
  destruct (holds_slot _ _ _ _ _ _ _ _ _ Hwf Ho Hlk) as (_ & _ & _ & _ & Hx).
  rewrite Hs in Hm. apply matches_name in Hm as ->; [|done|done].
  pose proof (vs_distinct _ (proj1 Hwf) _ _ _ _ _ Hlk Hfind). lia.
Qed.

Lemma holds_no_entry v fs root F T last name :
  v_wf v → holds v fs root F T last → name_ok name = true → v_find name (v_dir v) = None →
  ∀ i, 0 ≤ i < Z.of_nat (length (v_dir v)) → live (abs fs) root i → ¬ matches name (dir_entry_at (abs fs) root i).
Proof.
  intros Hwf Ho Hname Hfind i Hi Hli Hm.
  assert (is_Some (v_dir v !! Z.to_nat i)) as [o Hlk] by (apply lookup_lt_is_Some_2; lia).
  pose proof (sl_slot _ _ _ (rr_slots _ _ _ (ho_dir _ _ _ _ _ _ Ho)) _ _ Hlk) as Hs.
  rewrite Z2Nat.id in Hs by lia.
  destruct o as [[x m]|]; [|by destruct (Hli Hs)].
  change (dir_entry_at (abs fs) root i = DirEntry m (strncpy_name x)) in Hs.
  destruct (holds_slot _ _ _ _ _ _ _ _ _ Hwf Ho Hlk) as (_ & _ & _ & _ & Hx).
  rewrite Hs in Hm. apply matches_name in Hm as ->; [|done|done]. by apply (v_find_None _ _ _ _ Hfind Hlk).
Qed.

End holds.
