(* ===== verification/HoldsOps.v ===== *)
(** * The operations of fs.c and dir.c on what a disk holds

    Each lemma says which abstract file system the disk holds after an
    operation, when it held [v] before. *)

From S2P Require Export Represents.

Section holds_ops.
  Context `{EV : Env, RI : !ReliableIO, EO : !EnvOk}.

(** One more link, for an open of a file that exists. *)
Lemma up_links_holds v fs root F T last num f :
  files_ok v → holds v fs root F T last → v_files v !! num = Some f → vf_links f < 2 ^ 32 - 1 → 0 ≤ vf_links f →
  wp (up_links num) fs (λ o fs', ∃ file T', o = Some file ∧ i_inumber file = num ∧
    holds (set_v_files (alter (add_links 1) num) v) fs' root F T' last).
Proof.
  intros Hwf Ho Hf Hmax Hmin. destruct (holds_file _ _ _ _ _ _ _ _ Hwf Ho Hf) as (i & Hi & Hrep & Hn1 & _).
  destruct (volume_member _ _ _ _ _ _ _ (ho_volume _ _ _ _ _ _ Ho) Hi) as (Enum & _ & Hvn & Hst & Hio).
  unfold up_links. wp_apply (read_inode_volume fs F T (v_ids v) last num i); [exact (ho_volume _ _ _ _ _ _ Ho)|exact Hi|].
  intros ? fs1 (-> & Hv1 & _ & Habs1). cbv zeta.
  wp_apply time_volume; [exact Hv1|]. intros t fs2 (Ht & Hv2 & _ & Habs2).
  fold (relinked 1 t i).
  wp_apply (write_inode_volume fs2 F T (v_ids v) last num i (relinked 1 t i));
    [exact Hv2|exact Hi|exact Enum|reflexivity|by apply inode_ok_relinked|].
  intros ? fs3 (-> & Hv3 & _ & Habs3). cbn [Z.eqb negb]. wp_pure.
  exists (relinked 1 t i), (<[num := relinked 1 t i]> T). split; [done|]. split; [exact Enum|].
  assert (abs fs3 ≡ upd_inode (relinked 1 t i) (abs fs)) as Habs by (by rewrite Habs3, Habs2, Habs1).
  apply (holds_set_attributes v _ fs root F T last fs3 num i (relinked 1 t i) f (add_links 1 f));
    [exact Hwf|exact Ho|exact Hf|exact Hi|exact (vo_ok _ _ _ _ _ Hv3)|exact Habs|exact Enum|reflexivity|
     by apply inode_ok_relinked|done|done|done|done| | |done| | | |].
  - simpl. by rewrite lookup_alter_eq, Hf.
  - intros m Hm. simpl. by rewrite lookup_alter_ne.
  - exact (fr_size _ _ _ Hrep).
  - simpl. rewrite (fr_links _ _ _ Hrep). unfold u32. apply Z.mod_small. lia.
  - exact (fr_mode _ _ _ Hrep).
  - exact (fr_uid _ _ _ Hrep).
Qed.

(** The file's direct blocks are as many as it has blocks. *)
Lemma nonzero_all (g : Z → Z) n : (∀ j, 0 ≤ j < n → g j ≠ 0) → Z.of_nat (length (nonzero (map g (seqZ 0 n)))) = Z.max 0 n.
Proof.
  intros Hg. unfold nonzero. rewrite List.forallb_filter_id.
  - rewrite length_map, length_seqZ. lia.
  - rewrite forallb_forall. intros x Hx%list_elem_of_In. apply list_elem_of_fmap in Hx as (j & -> & Hj).
    apply elem_of_seqZ in Hj. apply negb_true_iff, Z.eqb_neq, Hg. lia.
Qed.

Lemma direct_blocks_length fs i f :
  file_rep fs i f → 0 ≤ v_blocks f ≤ SFS_NDIR_BLOCKS → v_blocks f ≤ Z.of_nat (length (direct_blocks i)).
Proof.
  intros Hrep Hb. change SFS_NDIR_BLOCKS with 12 in Hb. unfold direct_blocks, direct_upto. change SFS_NDIR_BLOCKS with 12.
  replace 12 with (v_blocks f + (12 - v_blocks f)) by lia. rewrite seqZ_app by lia.
  rewrite map_app, nonzero_app, length_app, Nat2Z.inj_add, nonzero_all; [lia|].
  intros j Hj. rewrite <-(file_ptr_direct (abs fs)) by (change SFS_NDIR_BLOCKS with 12; lia).
  apply (fr_ptr _ _ _ Hrep); [change file_blocks with 76|]; lia.
Qed.

Lemma v_blocks_nonneg f : 0 ≤ v_blocks f.
Proof. unfold v_blocks. apply Z.div_pos; [lia|done]. Qed.

(** The last link of a file is dropped: the file is given back. *)
Lemma deallocate_holds v fs root F T last num f i t :
  files_ok v → holds v fs root F T last → v_files v !! num = Some f → T !! num = Some i → vf_links f = 1 →
  0 ≤ t < 2 ^ 64 →
  wp (sfs_fs_inode_deallocate (relinked (-1) t i)) fs (λ '(r, _) fs', r = 0 ∧ ∃ F' T',
    holds (v_drop num v) fs' root F' T' last).
Proof.
  intros Hwf Ho Hf Hi Hlk Ht. destruct (holds_file _ _ _ _ _ _ _ _ Hwf Ho Hf) as (i' & Hi' & Hrep & Hn1 & Hb & _).
  rewrite Hi in Hi'. injection Hi' as <-. pose proof Ho as [Hv Hroot Hdir Hfiles Hroom Hattrs].
  destruct (volume_member _ _ _ _ _ _ _ Hv Hi) as (Enum & Hfile & Hvn & _ & Hio).
  eapply wp_mono; [apply (inode_deallocate_spec fs (relinked (-1) t i) F);
    [exact (vo_ok _ _ _ _ _ Hv)|exact (vo_free _ _ _ _ _ Hv)| |by apply inode_ok_relinked|by rewrite <-Enum in Hvn]|].
  { destruct (f_wf _ _ _ Hfile). by split. }
  intros [r inode'] fs' (-> & Hok' & Hde). split; [done|].
  destruct (volume_freed _ _ _ _ _ num i (relinked (-1) t i) fs' inode' Hv Hi Enum eq_refl Hok' Hde) as [Hv' Hk].
  change (direct_blocks (relinked (-1) t i)) with (direct_blocks i) in Hv'.
  exists (direct_blocks i ++ F), (delete num T). unfold v_drop. rewrite Hf, Hlk. cbn [Z.eqb Pos.eqb].
  assert (delete num T !! 1 = Some root) as Hroot' by (by rewrite lookup_delete_ne).
  split; [exact Hv'|exact Hroot'| | | |exact Hattrs].
  - apply (root_rep_kept fs root _ _ _ Hdir); [by apply (Hk 1)|done|done].
  - apply (files_kept num v fs root F T last fs'); [exact Hwf|exact Ho|by apply kept_but_weaken| |].
    + intros m Hm _. cbn [v_files]. by rewrite !lookup_delete_ne.
    + intros _. cbn [v_files]. rewrite !lookup_delete_eq. constructor.
  - cbn [v_room]. rewrite length_app, Nat2Z.inj_add.
    pose proof (direct_blocks_length _ _ _ Hrep (conj (v_blocks_nonneg f) Hb)). lia.
Qed.

(** Another link than the last is dropped. *)
Lemma write_lowered_holds v fs root F T last num f i t :
  files_ok v → holds v fs root F T last → v_files v !! num = Some f → T !! num = Some i → 1 < vf_links f →
  0 ≤ t < 2 ^ 64 →
  wp (sfs_fs_write_inode (relinked (-1) t i)) fs (λ r fs', r = 0 ∧ ∃ F' T',
    holds (v_drop num v) fs' root F' T' last).
Proof.
  intros Hwf Ho Hf Hi Hlk Ht. destruct (holds_file _ _ _ _ _ _ _ _ Hwf Ho Hf) as (i' & Hi' & Hrep & Hn1 & Hb & _).
  rewrite Hi in Hi'. injection Hi' as <-. pose proof (ho_volume _ _ _ _ _ _ Ho) as Hv.
  destruct (volume_member _ _ _ _ _ _ _ Hv Hi) as (Enum & Hfile & Hvn & _ & Hio).
  eapply wp_mono; [apply (write_inode_volume fs F T (v_ids v) last num i (relinked (-1) t i));
    [exact Hv|exact Hi|exact Enum|reflexivity|by apply inode_ok_relinked]|].
  intros r fs' (-> & Hv' & _ & Habs). split; [done|]. exists F, (<[num := relinked (-1) t i]> T).
  unfold v_drop. rewrite Hf, (proj2 (Z.eqb_neq _ _)) by lia.
  pose proof (fr_links _ _ _ Hrep) as El.
  apply (holds_set_attributes v _ fs root F T last fs' num i (relinked (-1) t i) f (add_links (-1) f));
    [exact Hwf|exact Ho|exact Hf|exact Hi|exact (vo_ok _ _ _ _ _ Hv')|exact Habs|exact Enum|reflexivity|
     by apply inode_ok_relinked|done|done|done|done| | |done| | | |].
  - simpl. by rewrite lookup_alter_eq, Hf.
  - intros m Hm. simpl. by rewrite lookup_alter_ne.
  - exact (fr_size _ _ _ Hrep).
  - rewrite links_lowered; [simpl; lia|exact Hio|lia].
  - exact (fr_mode _ _ _ Hrep).
  - exact (fr_uid _ _ _ Hrep).
Qed.

(** [sfs_release] drops the link of its descriptor. *)
Lemma drop_link_holds v fs root F T last num f i :
  files_ok v → holds v fs root F T last → v_files v !! num = Some f → T !! num = Some i → 1 ≤ vf_links f →
  wp (drop_link i) fs (λ r fs', r = 0 ∧ ∃ F' T', holds (v_drop num v) fs' root F' T' last).
Proof.
  intros Hwf Ho Hf Hi Hlk. destruct (holds_file _ _ _ _ _ _ _ _ Hwf Ho Hf) as (i' & Hi' & Hrep & _).
  rewrite Hi in Hi'. injection Hi' as <-. pose proof (ho_volume _ _ _ _ _ _ Ho) as Hv.
  destruct (volume_member _ _ _ _ _ _ _ Hv Hi) as (Enum & _ & _ & _ & Hio).
  pose proof (fr_links _ _ _ Hrep) as El.
  unfold drop_link. rewrite (proj2 (Z.ltb_lt _ _)) by lia. wp_pure. cbv zeta.
  wp_apply time_volume; [exact Hv|]. intros t fs1 (Ht & Hv1 & _ & Habs1).
  assert (holds v fs1 root F T last) as Ho1.
  { apply (holds_equiv v fs); [exact Hwf|exact Ho|exact (vo_ok _ _ _ _ _ Hv1)|by rewrite Habs1]. }
  change (set_change_time t _) with (relinked (-1) t i).
  destruct (decide (vf_links f = 1)) as [E1|Hne].
  - assert (i_links (relinked (-1) t i) = 0) as -> by (simpl; by rewrite El, E1). rewrite Z.eqb_refl.
    wp_apply (deallocate_holds v fs1 root F T last num f i t); [exact Hwf|exact Ho1|exact Hf|exact Hi|exact E1|exact Ht|].
    intros [r i'] fs2 (-> & Ho2). cbn [Z.eqb negb]. wp_pure. by split.
  - rewrite (links_lowered t i Hio), (proj2 (Z.eqb_neq _ 0)) by lia.
    wp_apply (write_lowered_holds v fs1 root F T last num f i t); [exact Hwf|exact Ho1|exact Hf|exact Hi|lia|exact Ht|].
    intros r fs2 (-> & Ho2). cbn [Z.eqb negb]. wp_pure. by split.
Qed.

(** ** Removing a name *)

(** The entry of a slot, as the disk has it. *)
Lemma slot_entry fs root dir k name num :
  slots_rep fs root dir → dir !! k = Some (Some (name, num)) →
  dir_entry_at (abs fs) root (Z.of_nat k) = DirEntry num (strncpy_name name).
Proof. intros Hs Hk. exact (sl_slot _ _ _ Hs k _ Hk). Qed.

(** The root directory's inode is written, then one of its blocks. *)
Lemma root_block_written v v' fs root F T last (k : nat) blk fs' root' F' :
  files_ok v → holds v fs root F T last → (k ≤ length (v_dir v))%nat → Z.of_nat k < SFS_NDIR_BLOCKS →
  fs_ok fs' → written (abs fs) root F (Z.of_nat k) blk (abs fs') root' F' →
  volume fs' F' (<[1 := root']> T) (v_ids v) last → kept_but (Some 1) fs T fs' (<[1 := root']> T) →
  length (v_dir v') = Nat.max (length (v_dir v)) (S k) → (∀ i, i ≠ k → v_dir v' !! i = v_dir v !! i) →
  (∀ o, v_dir v' !! k = Some o → slot_in blk o) →
  slots_rep fs' root' (v_dir v') ∧
  Z.of_nat (length F) = Z.of_nat (length F') + (if (k <? length (v_dir v))%nat then 0 else 1) ∧
  i_size root' = i_size root ∧ root_attrs root' = root_attrs root ∧
  ∀ n, n ≠ 1 → option_Forall2 (file_rep fs') (<[1 := root']> T !! n) (v_files v !! n).
Proof.
  intros Hwf Ho Hk Hk12 Hok' Hw Hv' Hkept Hlen Hoth Hnew. pose proof Ho as [Hv Hroot [R1 R2 R3 R4] _ _ _].
  pose proof (wr_members _ _ _ _ _ _ _ _ Hw) as Hmem.
  destruct (slots_rep_written fs root (v_dir v) F k blk fs' root' F' (v_dir v') R4 (vo_ok _ _ _ _ _ Hv)
    (vo_free _ _ _ _ _ Hv) Hk) as [Hs HF]; [|by apply slots_fit|done..|].
  { change file_blocks with 76. change SFS_NDIR_BLOCKS with 12 in Hk12. lia. }
  split; [exact Hs|]. split; [exact HF|].
  split; [exact (f_equal i_size Hmem)|]. split; [exact (f_equal root_attrs Hmem)|].
  apply (files_kept 1 v fs root F T last fs'); [exact Hwf|exact Ho|exact Hkept| |done].
  intros n Hn _. by rewrite lookup_insert_ne.
Qed.

(** The cached block of the entry is written back without it. *)
Lemma clear_entry_holds v fs root F T last (k : nat) name num blk0 :
  files_ok v → holds v fs root F T last → v_dir v !! k = Some (Some (name, num)) → length blk0 = 512%nat →
  let blk := set_at dir_entry_c 0 (DirEntry 0 (strncpy_name name)) blk0 in
  wp (t ← at_disk time_;
      let dir := set_modified_time t root in
      r ← sfs_fs_write_inode dir;
      return_if negb (r =? 0) with (-1, dir);
      '(r, dir) ← sfs_fs_inode_block_write dir (Z.of_nat k) blk;
      return_if negb (r =? 0) with (-1, dir);
      mret (0, dir)) fs (λ '(r, root') fs', r = 0 ∧ ∃ F' T', holds (v_unlink k v) fs' root' F' T' last).
Proof.
  intros Hwf Ho Hk Hblk0 blk. pose proof Ho as [Hv Hroot Hdir Hfiles Hroom Hattrs].
  pose proof (rr_length _ _ _ Hdir) as R3. pose proof (rr_slots _ _ _ Hdir) as R4.
  pose proof (lookup_lt_Some _ _ _ Hk) as Hlt. pose proof (slots_fit _ R3) as Hfit.
  destruct (volume_member _ _ _ _ _ _ _ Hv Hroot) as (Enum & _ & _ & _ & Hio).
  assert (c_ok dir_entry_c (DirEntry 0 (strncpy_name name)) = true) as Hce.
  { pose proof (cleared_entry_ok fs root (Z.of_nat k)) as Hce. by rewrite (slot_entry _ _ _ _ _ _ R4 Hk) in Hce. }
  pose proof (entry_fits _ Hblk0) as Hfits.
  wp_apply time_volume; [exact Hv|]. intros t fs1 (Ht & Hv1 & _ & Habs1). cbv zeta.
  set (root1 := set_modified_time t root).
  assert (inode_ok root1 = true) as Hio1 by (by apply inode_ok_set_modified_time).
  wp_apply (write_inode_volume fs1 F T (v_ids v) last 1 root root1);
    [exact Hv1|exact Hroot|exact Enum|reflexivity|exact Hio1|].
  intros ? fs2 (-> & Hv2 & _ & Habs2). cbn [Z.eqb negb]. rewrite Habs1 in Habs2.
  pose proof (holds_root_upd v fs root F T last fs2 root1 Hwf Ho (vo_ok _ _ _ _ _ Hv2) Habs2
    eq_refl eq_refl eq_refl eq_refl Hio1) as Ho2.
  pose proof (rr_slots _ _ _ (ho_dir _ _ _ _ _ _ Ho2)) as R42.
  assert (Z.of_nat k < SFS_NDIR_BLOCKS) as Hk12 by lia.
  assert (length blk = 512%nat) as Hblk.
  { unfold blk. rewrite (length_set_at dir_entry_c); [exact Hblk0|exact Hce|exact Hfits]. }
  wp_apply (block_write_volume fs2 F (<[1 := root1]> T) (v_ids v) last 1 root1 (Z.of_nat k) blk);
    [exact Hv2|apply lookup_insert_eq|lia|by left|exact Hblk|right; apply (sl_ptr _ _ _ R42); lia|].
  intros [r root3] fs3 (-> & F3 & Hv3 & K3 & Hw). cbn [Z.eqb negb]. wp_pure. split; [done|].
  destruct (root_block_written v (v_unlink k v) fs2 root1 F (<[1 := root1]> T) last k blk fs3 root3 F3 Hwf Ho2
    (Nat.lt_le_incl _ _ Hlt) Hk12 (vo_ok _ _ _ _ _ Hv3) Hw Hv3 K3) as (S3 & HF3 & Hsz & Ha3 & Hf3).
  - cbn [v_unlink v_dir]. rewrite length_insert. lia.
  - intros i Hi. cbn [v_unlink v_dir]. by rewrite list_lookup_insert_ne.
  - intros o. cbn [v_unlink v_dir]. rewrite list_lookup_insert_eq by done. intros [= <-].
    simpl. unfold blk. by rewrite (get_set_at_eq dir_entry_c _ _ _ Hce Hfits).
  - exists F3, (<[1 := root3]> (<[1 := root1]> T)).
    rewrite (proj2 (Nat.ltb_lt _ _)) in HF3 by done.
    split; [exact Hv3|apply lookup_insert_eq| |exact Hf3|cbn [v_unlink v_room]; lia|rewrite Ha3; exact Hattrs].
    split; [rewrite (f_equal vr_mode Ha3 : i_mode root3 = i_mode root1); exact (rr_mode _ _ _ Hdir)| |cbn [v_unlink v_dir]; by rewrite length_insert|exact S3].
    rewrite Hsz. cbn [v_unlink v_dir]. rewrite length_insert. exact (rr_size _ _ _ Hdir).
Qed.

Lemma v_dir_drop num v : v_dir (v_drop num v) = v_dir v.
Proof. unfold v_drop. destruct (v_files v !! num); [|done]. by destruct (_ =? 1). Qed.

Lemma iter_unlink_holds v fs root F T last (k : nat) name num f it :
  files_ok v → holds v fs root F T last → v_dir v !! k = Some (Some (name, num)) →
  v_files v !! num = Some f → 1 ≤ vf_links f →
  it_iblock it = Z.of_nat k → it_cached_block it = file_block (abs fs) root (Z.of_nat k) →
  wp (sfs_dir_iter_unlink it root 0) fs (λ '(r, root') fs', r = 0 ∧ ∃ F' T',
    holds (v_unlink k (v_drop num v)) fs' root' F' T' last).
Proof.
  intros Hwf Ho Hk Hf Hlk Hib Hblk. destruct (holds_file _ _ _ _ _ _ _ _ Hwf Ho Hf) as (i & Hi & Hrep & _).
  pose proof (ho_volume _ _ _ _ _ _ Ho) as Hv. pose proof (rr_slots _ _ _ (ho_dir _ _ _ _ _ _ Ho)) as R4.
  destruct (volume_member _ _ _ _ _ _ _ Hv Hi) as (Enum & _ & _ & _ & Hio).
  pose proof (fr_links _ _ _ Hrep) as El. pose proof (slot_entry _ _ _ _ _ _ R4 Hk) as Hent.
  unfold sfs_dir_iter_unlink. rewrite Hblk, Hib. change (Z.to_nat 0) with 0%nat.
  fold (dir_entry_at (abs fs) root (Z.of_nat k)). rewrite Hent. cbn [d_inumber d_name].
  wp_apply (read_inode_volume fs F T (v_ids v) last num i); [exact Hv|exact Hi|].
  intros ? fs1 (-> & Hv1 & _ & Habs1). cbv zeta.
  wp_apply time_volume; [exact Hv1|]. intros t fs2 (Ht & Hv2 & _ & Habs2).
  assert (abs fs2 ≡ abs fs) as Ha2 by (rewrite Habs2; exact Habs1).
  pose proof (holds_equiv v fs root F T last fs2 Hwf Ho (vo_ok _ _ _ _ _ Hv2) Ha2) as Ho2.
  change (set_change_time t (set_links _ _)) with (relinked (-1) t i).
  eapply wp_bind_mono with (P := λ r fs3, r = 0 ∧ ∃ F' T', holds (v_drop num v) fs3 root F' T' last).
  - destruct (decide (vf_links f = 1)) as [E1|Hne].
    + assert (i_links (relinked (-1) t i) = 0) as -> by (simpl; by rewrite El, E1). rewrite Z.eqb_refl.
      wp_apply (deallocate_holds v fs2 root F T last num f i t); [exact Hwf|exact Ho2|exact Hf|exact Hi|exact E1|exact Ht|].
      intros [r i'] fs3 H3. wp_pure. exact H3.
    + rewrite (links_lowered t i Hio), (proj2 (Z.eqb_neq _ 0)) by lia.
      apply (write_lowered_holds v fs2 root F T last num f i t); [exact Hwf|exact Ho2|exact Hf|exact Hi|lia|exact Ht].
  - intros r fs3 (-> & F3 & T3 & Ho3). cbn [Z.eqb negb].
    apply (clear_entry_holds (v_drop num v) fs3 root F3 T3 last k name num (file_block (abs fs) root (Z.of_nat k)));
      [by apply files_ok_drop|exact Ho3|by rewrite v_dir_drop|apply length_file_block].
Qed.

(** ** Entering a name *)

(** The abstract link: the name in the first unused slot, one more link. *)
Definition v_link (name : list byte) (m : Z) (v : vfs) : vfs :=
  Vfs (v_enter (v_slot (v_dir v)) (name, m) (v_dir v)) (alter (add_links 1) m (v_files v)) (v_open v) (v_ids v) (v_fds v)
    (if (v_slot (v_dir v) <? length (v_dir v))%nat then v_room v else v_room v - 1) (v_root v).

Lemma length_enter dir e : length (v_enter (v_slot dir) e dir) = Nat.max (length dir) (S (v_slot dir)).
Proof.
  destruct (v_slot_spec dir) as (Hle & _). unfold v_enter. destruct (Nat.ltb_spec (v_slot dir) (length dir)).
  - rewrite length_insert. lia.
  - rewrite length_app. simpl. lia.
Qed.

(** The block is written, then the inode of the directory, then the file's. *)
Lemma entered_holds v fs root F T last name m f i blk fs1 root1 F1 fs2 root2 fs3 t :
  files_ok v → holds v fs root F T last → v_files v !! m = Some f → T !! m = Some i →
  0 ≤ vf_links f < 2 ^ 32 - 1 → Z.of_nat (v_slot (v_dir v)) < SFS_NDIR_BLOCKS →
  slot_in blk (Some (name, m)) →
  written (abs fs) root F (Z.of_nat (v_slot (v_dir v))) blk (abs fs1) root1 F1 →
  volume fs1 F1 (<[1 := root1]> T) (v_ids v) last → kept_but (Some 1) fs T fs1 (<[1 := root1]> T) →
  i_block_pointers root2 = i_block_pointers root1 → i_inumber root2 = 1 → root_attrs root2 = root_attrs root1 →
  i_size root2 = Z.of_nat (Nat.max (length (v_dir v)) (S (v_slot (v_dir v)))) * BLOCK_SIZE → inode_ok root2 = true →
  fs_ok fs2 → abs fs2 ≡ upd_inode root2 (abs fs1) →
  0 ≤ t < 2 ^ 64 → fs_ok fs3 → abs fs3 ≡ upd_inode (relinked 1 t i) (abs fs2) →
  ∃ T', holds (v_link name m v) fs3 root2 F1 T' last.
Proof.
  intros Hwf Ho Hf Hi Hlk Hslot Hblk Hw Hv1 K1 Ep En Ea Es Hio2 Hok2 Habs2 Ht Hok3 Habs3.
  pose proof Ho as [Hv Hroot Hdir Hfiles Hroom Hattrs]. destruct (v_slot_spec (v_dir v)) as (Hle & _).
  destruct (holds_file _ _ _ _ _ _ _ _ Hwf Ho Hf) as (i' & Hi' & Hrep & Hm1 & _).
  rewrite Hi in Hi'. injection Hi' as <-.
  destruct (volume_member _ _ _ _ _ _ _ Hv Hi) as (Enum & _ & _ & _ & Hio).
  set (v1 := Vfs (v_enter (v_slot (v_dir v)) (name, m) (v_dir v)) (v_files v) (v_open v) (v_ids v) (v_fds v)
    (if (v_slot (v_dir v) <? length (v_dir v))%nat then v_room v else v_room v - 1) (v_root v)).
  destruct (root_block_written v v1 fs root F T last (v_slot (v_dir v)) blk fs1 root1 F1 Hwf Ho Hle Hslot
    (vo_ok _ _ _ _ _ Hv1) Hw Hv1 K1) as (S1 & HF1 & Hsz1 & Ha1 & Hf1).
  { apply length_enter. }
  { intros j Hj. cbn [v1 v_dir]. rewrite lookup_enter. by rewrite decide_False. }
  { intros o. cbn [v1 v_dir]. rewrite lookup_enter, decide_True by done. intros [= <-]. exact Hblk. }
  destruct (volume_upd fs1 F1 _ _ last 1 root1 root2 fs2 Hv1 (lookup_insert_eq _ _ _) Hok2 Habs2 En Ep Hio2) as [Hv2 K2].
  assert (holds v1 fs2 root2 F1 (<[1 := root2]> (<[1 := root1]> T)) last) as Ho2.
  { split; [exact Hv2|apply lookup_insert_eq| | |cbn [v1 v_room]; destruct (_ <? _)%nat; lia|by rewrite Ea, Ha1].
    - split; [rewrite (f_equal vr_mode (eq_trans Ea Ha1) : i_mode root2 = i_mode root); exact (rr_mode _ _ _ Hdir)|rewrite Es; cbn [v1 v_dir]; by rewrite length_enter| |].
      + cbn [v1 v_dir]. rewrite length_enter. pose proof (rr_length _ _ _ Hdir). lia.
      + apply (slots_rep_kept fs1 root1); [exact S1| |].
        * apply slots_fit. cbn [v1 v_dir]. rewrite length_enter. pose proof (rr_length _ _ _ Hdir). lia.
        * apply (K2 1); [done|apply lookup_insert_eq|apply lookup_insert_eq].
    - intros n Hn. specialize (Hf1 n Hn). rewrite lookup_insert_ne by done.
      rewrite lookup_insert_ne in Hf1 |- * by done. cbn [v1 v_files].
      inversion Hf1 as [j g Hrg Ej Eg|Ej Eg]; [|constructor]. constructor.
      destruct (proj2 Hwf n g (eq_sym Eg)) as [_ Hb12]. pose proof Hrg as [G1 G2 G3 G4 _ _].
      apply (file_rep_kept fs1 j g); try done; [|change SFS_NDIR_BLOCKS with 12 in Hb12; change file_blocks with 76; lia].
      apply (K2 n); [done| |]; by rewrite !lookup_insert_ne. }
  exists (<[m := relinked 1 t i]> (<[1 := root2]> (<[1 := root1]> T))).
  apply (holds_set_attributes v1 _ fs2 root2 F1 _ last fs3 m i (relinked 1 t i) f (add_links 1 f));
    [exact Hwf|exact Ho2|exact Hf|by rewrite !lookup_insert_ne|exact Hok3|exact Habs3|exact Enum|reflexivity|
     by apply inode_ok_relinked|done|done|done|done| | |done| | | |].
  - simpl. by rewrite lookup_alter_eq, Hf.
  - intros n Hn. simpl. by rewrite lookup_alter_ne.
  - exact (fr_size _ _ _ Hrep).
  - simpl. rewrite (fr_links _ _ _ Hrep). unfold u32. apply Z.mod_small. lia.
  - exact (fr_mode _ _ _ Hrep).
  - exact (fr_uid _ _ _ Hrep).
Qed.

(** Every slot in use is in use on the disk. *)
Definition numbers_nonzero (dir : list vslot) : Prop :=
  ∀ (k : nat) name num, dir !! k = Some (Some (name, num)) → num ≠ 0.

Lemma slot_live fs root dir k o :
  slots_rep fs root dir → numbers_nonzero dir → dir !! k = Some o → live (abs fs) root (Z.of_nat k) ↔ o ≠ None.
Proof.
  intros Hs Hnz Hk. pose proof (sl_slot _ _ _ Hs k o Hk) as Hr. destruct o as [[name num]|].
  - split; [done|]. intros _. change (dir_entry_at (abs fs) root (Z.of_nat k) = DirEntry num (strncpy_name name)) in Hr.
    unfold live. rewrite Hr. exact (Hnz k name num Hk).
  - split; [|done]. intros Hl. by destruct (Hl Hr).
Qed.

(** The search finds the slot of the specification. *)
Lemma search_finds_slot fs root dir i :
  slots_rep fs root dir → numbers_nonzero dir → 0 ≤ i < Z.of_nat (length dir) →
  ¬ live (abs fs) root i → (∀ k, 0 ≤ k < i → live (abs fs) root k) → i = Z.of_nat (v_slot dir).
Proof.
  intros Hs Hnz Hi Hdead Hbefore. destruct (v_slot_spec dir) as (Hle & Hnone & Hfirst).
  assert (is_Some (dir !! Z.to_nat i)) as [o Ho] by (apply lookup_lt_is_Some_2; lia).
  pose proof (slot_live _ _ _ _ _ Hs Hnz Ho) as Hl. rewrite Z2Nat.id in Hl by lia.
  destruct (Nat.lt_trichotomy (Z.to_nat i) (v_slot dir)) as [Hlt|[E|Hgt]]; [|lia|].
  - destruct Hdead. apply Hl. exact (Hfirst _ _ Hlt Ho).
  - assert (is_Some (dir !! v_slot dir)) as [x Hx] by (apply lookup_lt_is_Some_2; lia).
    destruct (proj1 (slot_live _ _ _ _ _ Hs Hnz Hx)); [apply Hbefore; lia|by apply Hnone].
Qed.

Lemma search_finds_end fs root dir :
  slots_rep fs root dir → numbers_nonzero dir →
  (∀ k, 0 ≤ k < Z.of_nat (length dir) → live (abs fs) root k) → v_slot dir = length dir.
Proof.
  intros Hs Hnz Hall. destruct (v_slot_spec dir) as (Hle & Hnone & _).
  destruct (decide (v_slot dir = length dir)) as [|Hne]; [done|].
  assert (is_Some (dir !! v_slot dir)) as [x Hx] by (apply lookup_lt_is_Some_2; lia).
  destruct (proj1 (slot_live _ _ _ _ _ Hs Hnz Hx)); [apply Hall; lia|by apply Hnone].
Qed.

Lemma new_entry_in_block num name blk0 :
  length blk0 = 512%nat → 0 ≤ num < 2 ^ 64 → (length name ≤ 255)%nat →
  let blk := set_at dir_entry_c 0 (DirEntry num (strncpy_name name)) blk0 in
  slot_in blk (Some (name, num)) ∧ length blk = 512%nat.
Proof.
  intros Hl Hnum Hname blk. pose proof (dir_entry_ok num name Hnum Hname) as Hce. pose proof (entry_fits _ Hl) as Hfits.
  split.
  - exact (get_set_at_eq dir_entry_c _ _ _ Hce Hfits).
  - unfold blk. by rewrite (length_set_at dir_entry_c).
Qed.

(** The two ways to enter a name. *)
Lemma link_at_holds v fs root F T last name m f i blk0 :
  files_ok v → holds v fs root F T last → v_files v !! m = Some f → T !! m = Some i →
  0 ≤ vf_links f < 2 ^ 32 - 1 → (v_slot (v_dir v) < length (v_dir v))%nat → F ≠ [] →
  (length name ≤ 255)%nat → length blk0 = 512%nat →
  wp (link_at root name i (Z.of_nat (v_slot (v_dir v))) 0 blk0) fs (λ '(r, root', _) fs', r = 0 ∧
    ∃ F' T', holds (v_link name m v) fs' root' F' T' last).
Proof.
  intros Hwf Ho Hf Hi Hlk Hlt HF Hname Hblk0. pose proof Ho as [Hv Hroot Hdir _ _ _].
  destruct (holds_file _ _ _ _ _ _ _ _ Hwf Ho Hf) as (_ & _ & _ & Hm1 & _).
  destruct (volume_member _ _ _ _ _ _ _ Hv Hi) as (Enum & _ & _ & _ & Hio).
  pose proof (rr_length _ _ _ Hdir) as Hl. pose proof (slots_fit _ Hl) as Hfit.
  assert (0 ≤ m < 2 ^ 64) as Hm by (rewrite <-Enum; apply inode_ok_spec in Hio; tauto).
  destruct (new_entry_in_block m name blk0 Hblk0 Hm Hname) as [Hin Hblk].
  unfold link_at. rewrite Enum. set (blk := set_at _ _ _ _) in *.
  wp_apply (block_write_volume fs F T (v_ids v) last 1 root (Z.of_nat (v_slot (v_dir v))) blk);
    [exact Hv|exact Hroot|lia|left; lia|exact Hblk|by left|].
  intros [r root1] fs1 (-> & F1 & Hv1 & K1 & Hw). cbn [Z.eqb negb]. cbv zeta.
  pose proof (wr_members _ _ _ _ _ _ _ _ Hw) as Hmem.
  destruct (volume_member _ _ _ _ _ 1 root1 Hv1 (lookup_insert_eq _ _ _)) as (En1 & _ & _ & _ & Hio1).
  wp_apply time_volume; [exact Hv1|]. intros t fs2 (Ht & Hv2 & _ & Habs2).
  set (root2 := set_modified_time t root1).
  assert (inode_ok root2 = true) as Hio2 by (by apply inode_ok_set_modified_time).
  wp_apply (write_inode_volume fs2 F1 (<[1 := root1]> T) (v_ids v) last 1 root1 root2);
    [exact Hv2|apply lookup_insert_eq|exact En1|reflexivity|exact Hio2|].
  intros ? fs3 (-> & Hv3 & _ & Habs3). cbn [Z.eqb negb].
  change (set_change_time t (set_links _ i)) with (relinked 1 t i).
  wp_apply (write_inode_volume fs3 F1 (<[1 := root2]> (<[1 := root1]> T)) (v_ids v) last m i (relinked 1 t i));
    [exact Hv3|by rewrite !lookup_insert_ne|exact Enum|reflexivity|by apply inode_ok_relinked|].
  intros ? fs4 (-> & Hv4 & _ & Habs4). cbn [Z.eqb negb]. wp_pure. split; [done|]. exists F1.
  rewrite Habs2 in Habs3.
  assert (i_size root2 = Z.of_nat (Nat.max (length (v_dir v)) (S (v_slot (v_dir v)))) * BLOCK_SIZE) as Hsz2.
  { cbn [root2 set_modified_time i_size]. rewrite (f_equal i_size Hmem : i_size root1 = i_size root), (rr_size _ _ _ Hdir).
    f_equal. lia. }
  assert (Z.of_nat (v_slot (v_dir v)) < SFS_NDIR_BLOCKS) as Hslot by lia.
  exact (entered_holds v fs root F T last name m f i blk fs1 root1 F1 fs3 root2 fs4 t Hwf Ho Hf Hi Hlk Hslot Hin Hw Hv1 K1
    eq_refl En1 eq_refl Hsz2 Hio2 (vo_ok _ _ _ _ _ Hv3) Habs3 Ht (vo_ok _ _ _ _ _ Hv4) Habs4).
Qed.

Lemma link_append_holds v fs root F T last name m f i :
  files_ok v → holds v fs root F T last → v_files v !! m = Some f → T !! m = Some i →
  0 ≤ vf_links f < 2 ^ 32 - 1 → v_slot (v_dir v) = length (v_dir v) → Z.of_nat (length (v_dir v)) < SFS_NDIR_BLOCKS →
  F ≠ [] → (length name ≤ 255)%nat →
  wp (link_append root name i) fs (λ '(r, root', _) fs', r = 0 ∧
    ∃ F' T', holds (v_link name m v) fs' root' F' T' last).
Proof.
  intros Hwf Ho Hf Hi Hlk Hend Hl12 HF Hname. pose proof Ho as [Hv Hroot Hdir _ _ _].
  destruct (holds_file _ _ _ _ _ _ _ _ Hwf Ho Hf) as (_ & _ & _ & Hm1 & _).
  destruct (volume_member _ _ _ _ _ _ _ Hv Hi) as (Enum & _ & _ & _ & Hio).
  assert (Z.of_nat (length (v_dir v)) < file_blocks) as Hl76.
  { change SFS_NDIR_BLOCKS with 12 in Hl12. change file_blocks with 76. lia. }
  assert (0 ≤ m < 2 ^ 64) as Hm by (rewrite <-Enum; apply inode_ok_spec in Hio; tauto).
  destruct (new_entry_in_block m name zero_block length_zero_block Hm Hname) as [Hin Hblk].
  unfold link_append. rewrite Enum. set (blk := set_at _ _ _ _) in *.
  rewrite (rr_size _ _ _ Hdir), Z.div_mul, <-Hend by done.
  wp_apply (block_write_volume fs F T (v_ids v) last 1 root (Z.of_nat (v_slot (v_dir v))) blk);
    [exact Hv|exact Hroot|lia|left; lia|exact Hblk|by left|].
  intros [r root1] fs1 (-> & F1 & Hv1 & K1 & Hw). cbn [Z.eqb negb]. cbv zeta.
  pose proof (wr_members _ _ _ _ _ _ _ _ Hw) as Hmem.
  destruct (volume_member _ _ _ _ _ 1 root1 Hv1 (lookup_insert_eq _ _ _)) as (En1 & _ & _ & _ & Hio1).
  wp_apply time_volume; [exact Hv1|]. intros t fs2 (Ht & Hv2 & _ & Habs2).
  set (root2 := set_modified_time t _).
  assert (i_size root2 = (Z.of_nat (length (v_dir v)) + 1) * BLOCK_SIZE) as Hsz2.
  { cbn [root2 set_modified_time set_size_ i_size]. rewrite (f_equal i_size Hmem : i_size root1 = i_size root), (rr_size _ _ _ Hdir).
    unfold BLOCK_SIZE. change SFS_NDIR_BLOCKS with 12 in Hl12. rewrite u64_small by lia. lia. }
  assert (inode_ok root2 = true) as Hio2.
  { apply inode_ok_set_modified_time; [|exact Ht]. apply inode_ok_set_size; [exact Hio1|]. by apply Z.mod_pos_bound. }
  wp_apply (write_inode_volume fs2 F1 (<[1 := root1]> T) (v_ids v) last 1 root1 root2);
    [exact Hv2|apply lookup_insert_eq|exact En1|reflexivity|exact Hio2|].
  intros ? fs3 (-> & Hv3 & _ & Habs3). cbn [Z.eqb negb].
  wp_apply time_volume; [exact Hv3|]. intros t' fs4 (Ht' & Hv4 & _ & Habs4).
  change (set_change_time t' (set_links _ i)) with (relinked 1 t' i).
  wp_apply (write_inode_volume fs4 F1 (<[1 := root2]> (<[1 := root1]> T)) (v_ids v) last m i (relinked 1 t' i));
    [exact Hv4|by rewrite !lookup_insert_ne|exact Enum|reflexivity|by apply inode_ok_relinked|].
  intros ? fs5 (-> & Hv5 & _ & Habs5). cbn [Z.eqb negb]. wp_pure. split; [done|]. exists F1.
  rewrite Habs2 in Habs3. rewrite Habs4 in Habs5.
  assert (i_size root2 = Z.of_nat (Nat.max (length (v_dir v)) (S (v_slot (v_dir v)))) * BLOCK_SIZE) as Hsz2'.
  { rewrite Hsz2, Hend. f_equal. lia. }
  assert (Z.of_nat (v_slot (v_dir v)) < SFS_NDIR_BLOCKS) as Hslot by (by rewrite Hend).
  exact (entered_holds v fs root F T last name m f i blk fs1 root1 F1 fs3 root2 fs5 t' Hwf Ho Hf Hi Hlk Hslot Hin Hw Hv1 K1
    eq_refl En1 eq_refl Hsz2' Hio2 (vo_ok _ _ _ _ _ Hv3) Habs3 Ht' (vo_ok _ _ _ _ _ Hv5) Habs5).
Qed.

Lemma dir_link_holds v fs root F T last name m f i :
  files_ok v → holds v fs root F T last → numbers_nonzero (v_dir v) → v_files v !! m = Some f → T !! m = Some i →
  0 ≤ vf_links f < 2 ^ 32 - 1 → Z.of_nat (v_slot (v_dir v)) < SFS_NDIR_BLOCKS → F ≠ [] → (length name ≤ 255)%nat →
  wp (sfs_dir_link root name i) fs (λ '(r, root', _) fs', r = 0 ∧
    ∃ F' T', holds (v_link name m v) fs' root' F' T' last).
Proof.
  intros Hwf Ho Hnz Hf Hi Hlk Hslot HF Hname. pose proof Ho as [Hv Hroot Hdir _ _ _].
  pose proof (slots_fit _ (rr_length _ _ _ Hdir)) as Hfit. pose proof (rr_slots _ _ _ Hdir) as Hs.
  destruct (volume_member _ _ _ _ _ _ _ Hv Hroot) as (_ & Hfr & _).
  unfold sfs_dir_link. rewrite (proj2 (Z.ltb_ge _ _)) by lia.
  wp_apply (link_search_spec fs root F (Z.of_nat (length (v_dir v)))); [exact Hfr|lia|exact (rr_size _ _ _ Hdir)|].
  intros [u|[[[k j] blk]|]] s (Hfs & Habs & Hb & Hpost); [| |done].
  - pose proof (search_finds_end _ _ _ Hs Hnz Hpost) as Hend.
    apply (link_append_holds v s root F T last name m f i);
      [exact Hwf|by apply (holds_equiv v fs); [..|exact (f_ok _ _ _ Hfs)|]|exact Hf|exact Hi|exact Hlk|exact Hend|by rewrite <-Hend|exact HF|exact Hname].
  - destruct Hpost as (Hk & -> & -> & Hdead & Hbefore).
    pose proof (search_finds_slot _ _ _ k Hs Hnz Hk Hdead Hbefore) as Ek.
    pose proof (length_file_block fs root k) as Hlb. rewrite Ek in Hk |- *. rewrite Ek in Hlb.
    apply (link_at_holds v s root F T last name m f i);
      [exact Hwf|by apply (holds_equiv v fs); [..|exact (f_ok _ _ _ Hfs)|]|exact Hf|exact Hi|exact Hlk|lia|exact HF|exact Hname|exact Hlb].
Qed.

(** ** A new file *)
Lemma holds_fields v v' fs root F T last :
  v_dir v' = v_dir v → v_files v' = v_files v → v_ids v' = v_ids v → v_room v' = v_room v → v_root v' = v_root v →
  holds v fs root F T last → holds v' fs root F T last.
Proof. intros Ed Ef Ei Er Ea [H1 H2 H3 H4 H5 H6]. split; by rewrite ?Ed, ?Ef, ?Ei, ?Er, ?Ea. Qed.

Lemma holds_numbers v fs root F T last : v_wf v → holds v fs root F T last → numbers_nonzero (v_dir v).
Proof.
  intros Hwf Ho k name num Hk. destruct (holds_slot _ _ _ _ _ _ _ _ _ Hwf Ho Hk) as (_ & He & Hl & _).
  unfold live in Hl. by rewrite He in Hl.
Qed.

(** The inode of a new file is written. *)
Lemma new_inode_holds v fs root F T last m ids i fs' :
  files_ok v → holds v fs root F T last → v_ids v = ids → (m ∉ ids) → v_files v !! m = None → m ≠ 1 →
  valid_inumber (superblock fs) m → fs_ok fs' → abs fs' ≡ upd_inode i (abs fs) → i_inumber i = m →
  i_block_pointers i = replicate 14 0 → inode_ok i = true → i_size i = 0 →
  holds (set_v_files (insert m (VFile [] 0 (i_links i) (i_mode i) (i_uid i))) v) fs' root F (<[m := i]> T) last.
Proof.
  intros Hwf Ho Hids HmL Hf Hm1 Hvm Hok Habs En Ep Hio Hsz. pose proof Ho as [Hv Hroot Hdir Hfiles Hroom Hattrs].
  assert (T !! m = None) as HT by (pose proof (Hfiles m Hm1) as Hr; rewrite Hf in Hr; by inversion Hr).
  destruct (volume_new fs F T (v_ids v) last m i fs' Hv HT ltac:(by rewrite Hids) Hvm Hok Habs En Ep Hio) as [Hv' Hk].
  assert (<[m := i]> T !! 1 = Some root) as Hroot' by (by rewrite lookup_insert_ne).
  split; [exact Hv'|exact Hroot'| | |exact Hroom|exact Hattrs].
  - apply (root_rep_kept fs root _ _ _ Hdir); [by apply (Hk 1)|done|done].
  - apply (files_kept m v fs root F T last fs'); [exact Hwf|exact Ho|by apply kept_but_weaken| |].
    + intros n Hn _. cbn [set_v_files v_files]. by rewrite !lookup_insert_ne.
    + intros _. cbn [set_v_files v_files]. rewrite !lookup_insert_eq. constructor.
      assert (∀ j, file_ptr (abs fs') i j = 0) as Hp by (intros j; by apply file_ptr_hole).
      split; try done.
      * intros j Hj. rewrite Hp. change (v_blocks _) with 0. split; [done|lia].
      * intros j. change (v_blocks _) with 0. lia.
Qed.

Lemma create_file_holds ctx v fs root F T last m ids name mode d fds :
  v_wf v → holds v fs root F T last → v_ids v = m :: ids → Z.of_nat (v_slot (v_dir v)) < SFS_NDIR_BLOCKS →
  1 ≤ v_room v → (length name ≤ 255)%nat → ids_ok ctx →
  wp (create_file ctx mode name root) fs (λ r fs', r = inr m ∧ ∃ root' F' T',
    holds (v_create name m (new_mode ctx mode) (c_uid ctx) ids d fds v) fs' root' F' T' last).
Proof.
  intros Hwf Ho Hids Hslot Hroom Hname Hctx. pose proof Ho as [Hv Hroot Hdir Hfiles HF Hattrs].
  pose proof Hwf as [[_ _ _ _ [H1 H1L] [Hnd Hfree] _ _] _]. rewrite Hids in Hnd, Hfree, Hv, H1L.
  apply NoDup_cons in Hnd as [HmL Hnd].
  assert (m ≠ 1) as Hm1 by (intros ->; apply H1L; left).
  assert (v_files v !! m = None) as Hfm by (apply Hfree; left).
  pose proof (vo_inodes _ _ _ _ _ Hv) as [_ (_ & Hvm & Hi & _)].
  pose proof (view_inode_ok fs m (vo_ok _ _ _ _ _ Hv) : inode_ok (a_inode (abs fs) m) = true) as Hiom.
  unfold create_file.
  wp_apply (inode_allocate_spec fs m ids last); [exact (vo_ok _ _ _ _ _ Hv)|exact (vo_inodes _ _ _ _ _ Hv)|].
  intros ? fs1 (-> & Hok1 & Habs1). cbv zeta. rewrite Hi.
  destruct (volume_allocated _ _ _ _ _ _ _ Hv Hok1 Habs1) as [Hv1 K1].
  set (va := Vfs (v_dir v) (v_files v) (v_open v) ids (v_fds v) (v_room v) (v_root v)).
  assert (holds va fs1 root F T last) as Ho1.
  { split; [exact Hv1|exact Hroot|apply (root_rep_kept fs root _ _ _ Hdir); [by apply (K1 1)|done|done]| |exact HF|exact Hattrs].
    apply (files_kept 1 v fs root F T last fs1); [by apply v_wf_files_ok|exact Ho|by apply kept_but_weaken|done|done]. }
  pose proof (v_wf_files_ok v Hwf : files_ok va) as Hwfa.
  wp_apply time_volume; [exact Hv1|]. intros t1 fs2 (Ht1 & Hv2 & _ & Habs2).
  wp_apply time_volume; [exact Hv2|]. intros t2 fs3 (Ht2 & Hv3 & _ & Habs3).
  wp_apply time_volume; [exact Hv3|]. intros t3 fs4 (Ht3 & Hv4 & _ & Habs4).
  assert (abs fs4 = abs fs1) as Ha4 by (rewrite Habs4, Habs3; exact Habs2).
  assert (holds va fs4 root F T last) as Ho4.
  { apply (holds_equiv va fs1); [exact Hwfa|exact Ho1|exact (vo_ok _ _ _ _ _ Hv4)|by rewrite Ha4]. }
  set (file := Inode m _ _ _ _ _ _ _ _ _).
  assert (0 ≤ m < 2 ^ 64) as Hm by (rewrite <-Hi; apply inode_ok_spec in Hiom; tauto).
  assert (0 ≤ i_gid (a_inode (abs fs) m) < 2 ^ 32) as Hgid by (apply inode_ok_spec in Hiom; tauto).
  assert (inode_ok file = true) as Hio by (by apply (new_file_ok ctx mode root m _ t1 t2 t3)).
  assert (valid_inumber (superblock fs4) m) as Hvm4.
  { rewrite (f_equal a_sb Ha4 : superblock fs4 = superblock fs1), (proj1 Habs1 : superblock fs1 = set_free_inode_head _ (superblock fs)). exact Hvm. }
  wp_apply write_inode_spec; [exact (vo_ok _ _ _ _ _ Hv4)|exact Hvm4|exact Hio|].
  intros ? fs5 (-> & Hok5 & Habs5). cbn [Z.eqb negb].
  set (vb := set_v_files (insert m (VFile [] 0 1 (new_mode ctx mode) (c_uid ctx))) va).
  assert (holds vb fs5 root F (<[m := file]> T) last) as Ho5.
  { exact (new_inode_holds va fs4 root F T last m ids file fs5 Hwfa Ho4 eq_refl HmL Hfm Hm1 Hvm4 Hok5 Habs5
      eq_refl eq_refl Hio eq_refl). }
  assert (files_ok vb) as Hwfb by (by apply files_ok_insert).
  assert (F ≠ []) as HFne by (intros ->; simpl in HF; lia).
  pose proof (holds_numbers _ _ _ _ _ _ Hwf Ho) as Hnz.
  wp_apply (dir_link_holds vb fs5 root F (<[m := file]> T) last name m (VFile [] 0 1 (new_mode ctx mode) (c_uid ctx)) file);
    [exact Hwfb|exact Ho5|exact Hnz|apply lookup_insert_eq|apply lookup_insert_eq|simpl; lia|exact Hslot|exact HFne|exact Hname|].
  intros [[r root6] file6] fs6 (-> & F6 & T6 & Ho6). cbn [Z.eqb negb]. wp_pure. split; [done|].
  exists root6, F6, T6. eapply holds_fields; [| | | | |exact Ho6]; [done| |done|done|done].
  cbn [v_create v_link vb va set_v_files v_files]. apply map_eq. intros n. destruct (decide (m = n)) as [->|Hne].
  - by rewrite lookup_alter_eq, !lookup_insert_eq.
  - by rewrite lookup_alter_ne, !lookup_insert_ne.
Qed.

End holds_ops.
