(* ===== verification/HoldsIo.v ===== *)
(** * Reading and writing the bytes of a file

    The transfer loops of [sfs_read] and [sfs_write] on what a disk holds. *)

From S2P Require Export HoldsOps.

(** Bytes by blocks. *)
Lemma buf_block_write buf data k n j :
  length buf = Z.to_nat (k * BLOCK_SIZE) → Z.of_nat (length data) = n * BLOCK_SIZE → 0 ≤ k → 0 ≤ j < Z.max k n →
  buf_block (buf ++ drop (length buf) data) j = if j <? k then buf_block buf j else buf_block data j.
Proof.
  intros Hb Hd Hk Hj. unfold buf_block, slice. unfold BLOCK_SIZE in *. destruct (Z.ltb_spec j k).
  - rewrite drop_app_le by lia. rewrite take_app_le by (rewrite length_drop; lia). done.
  - rewrite drop_app_ge by lia. rewrite drop_drop.
    do 2 f_equal. lia.
Qed.

Lemma buf_block_read data n k j :
  Z.of_nat (length data) = n * BLOCK_SIZE → 0 ≤ j < k →
  buf_block (take (Z.to_nat (k * BLOCK_SIZE)) (data ++ replicate (Z.to_nat (k * BLOCK_SIZE)) x00)) j
    = if j <? n then buf_block data j else zero_block.
Proof.
  intros Hd Hj. unfold buf_block, slice. unfold BLOCK_SIZE in *.
  rewrite skipn_firstn_comm, take_take.
  destruct (Z.ltb_spec j n).
  - rewrite drop_app_le by lia. rewrite take_app_le by (rewrite length_drop; lia). f_equal. lia.
  - rewrite drop_app_ge by lia. rewrite drop_replicate, take_replicate.
    transitivity (replicate 512 x00); [f_equal; lia|]. reflexivity.
Qed.

Section holds_io.
  Context `{EV : Env, RI : !ReliableIO, EO : !EnvOk}.

(** The state of a write after [i] blocks. *)
Record writing (fs : filesystem) (F : list Z) (T : gmap Z sfs_fs_inode) (L : list Z) (last num : Z)
    (file : sfs_fs_inode) (n : Z) (buf : list byte) (i : Z) (acc : sfs_fs_inode * list byte) (s : filesystem) : Prop := Writing {
  wg_more : ∃ F', volume s F' (<[num := acc.1]> T) L last ∧
    Z.of_nat (length F) = Z.of_nat (length F') + Z.max 0 (i - n);
  wg_kept : kept_but (Some num) fs T s (<[num := acc.1]> T);
  wg_members : set_block_pointers [] acc.1 = set_block_pointers [] file;
  wg_ptr j : 0 ≤ j < file_blocks → file_ptr (abs s) acc.1 j ≠ 0 ↔ j < Z.max i n;
  wg_block j : 0 ≤ j < file_blocks →
    file_block (abs s) acc.1 j = if j <? i then buf_block buf j else file_block (abs fs) file j;
}.

Lemma writing_step fs F T L last num file n buf i ino tmp s k :
  T !! num = Some file → writing fs F T L last num file n buf i (ino, tmp) s →
  0 ≤ i < k → k ≤ SFS_NDIR_BLOCKS → 0 ≤ n → k - n ≤ Z.of_nat (length F) → length (buf_block buf i) = 512%nat →
  wp (sfs_fs_inode_block_write ino i (buf_block buf i)) s (λ '(r, ino') s', r = 0 ∧
    ∀ tmp', writing fs F T L last num file n buf (i + 1) (ino', tmp') s').
Proof.
  intros HT [(F' & Hv & HF) Hk Hm Hp Hb] Hi Hk12 Hn Hroom Hlen. cbn [fst] in *.
  assert (0 ≤ i < file_blocks) as Hi76 by (change SFS_NDIR_BLOCKS with 12 in Hk12; change file_blocks with 76; lia).
  assert (F' ≠ [] ∨ file_ptr (abs s) ino i ≠ 0) as HF'.
  { destruct (decide (i < n)) as [Hlt|Hge]; [right; apply Hp; [done|lia]|left]. intros ->. simpl in HF. lia. }
  eapply wp_mono; [apply (block_write_volume s F' (<[num := ino]> T) L last num ino i (buf_block buf i));
    [exact Hv|apply lookup_insert_eq|exact Hi76|left; lia|exact Hlen|exact HF']|].
  intros [r ino'] s' (-> & F1 & Hv1 & K1 & Hw). split; [done|]. intros tmp'.
  assert (<[num := ino']> (<[num := ino]> T) = <[num := ino']> T) as ET by apply insert_insert_eq.
  rewrite ET in Hv1, K1. split; cbn [fst].
  - exists F1. split; [exact Hv1|]. pose proof (Permutation_length (wr_alloc _ _ _ _ _ _ _ _ Hw)) as E.
    rewrite length_app in E. specialize (Hp i Hi76).
    destruct (Z.eqb_spec (file_ptr (abs s) ino i) 0) as [Hz|Hnz]; simpl in E; lia.
  - exact (kept_but_trans _ _ _ _ _ _ _ Hk K1 ltac:(auto with sfs)).
  - rewrite (wr_members _ _ _ _ _ _ _ _ Hw). exact Hm.
  - intros j Hj. destruct (decide (j = i)) as [->|Hne].
    + pose proof (written_ptr_nonzero _ _ _ _ _ _ _ _ (vo_ok _ _ _ _ _ Hv) (vo_free _ _ _ _ _ Hv) Hj Hw). split; [lia|done].
    + rewrite (wr_ptr _ _ _ _ _ _ _ _ Hw) by tauto. rewrite Hp by done. lia.
  - intros j Hj. rewrite (wr_content _ _ _ _ _ _ _ _ Hw) by done. destruct (Z.eqb_spec j i) as [->|Hne].
    + by rewrite (proj2 (Z.ltb_lt _ _)) by lia.
    + rewrite Hb by done. destruct (Z.ltb_spec j i); [by rewrite (proj2 (Z.ltb_lt _ _)) by lia|].
      by rewrite (proj2 (Z.ltb_ge _ _)) by lia.
Qed.

(** Before the first block; [s] is what reads have made of [fs]. *)
Lemma writing_start fs F T L last num file n buf tmp s :
  volume fs F T L last → T !! num = Some file → 0 ≤ n →
  (∀ j, 0 ≤ j < file_blocks → file_ptr (abs fs) file j ≠ 0 ↔ j < n) →
  fs_ok s → abs s ≡ abs fs → writing fs F T L last num file n buf 0 (file, tmp) s.
Proof.
  intros Hv HT Hn Hp Hok Habs. destruct (volume_equiv _ _ _ _ _ s Hv Hok Habs) as [Hv' Hk].
  destruct (Hk num file file ltac:(done) HT HT) as [_ S2 S3].
  split; cbn [fst]; [|rewrite insert_id by done; by apply kept_but_weaken|done| |].
  - exists F. rewrite insert_id by done. split; [exact Hv'|lia].
  - intros j Hj. rewrite S2, Hp by done. lia.
  - intros j Hj. rewrite S3, (proj2 (Z.ltb_ge _ _)) by lia. done.
Qed.

(** A write of [k] whole blocks. *)
Lemma write_blocks_volume fs F T L last num file n buf k :
  volume fs F T L last → T !! num = Some file → 1 ≤ k ≤ SFS_NDIR_BLOCKS → 0 ≤ n →
  (∀ j, 0 ≤ j < file_blocks → file_ptr (abs fs) file j ≠ 0 ↔ j < n) →
  length buf = Z.to_nat (k * BLOCK_SIZE) → k - n ≤ Z.of_nat (length F) →
  wp (write_blocks file buf (k * BLOCK_SIZE) 0) fs (λ r s, r = k * BLOCK_SIZE ∧
    ∃ acc, writing fs F T L last num file n buf k acc s).
Proof.
  intros Hv HT Hk Hn Hp Hlen HF.
  assert (1 ≤ k ≤ file_blocks) as Hk76 by (change SFS_NDIR_BLOCKS with 12 in Hk; change file_blocks with 76; lia).
  destruct (transfer_whole k Hk76) as (E1 & E2 & E3 & E4).
  unfold write_blocks. apply wp_bind. rewrite E1, E3. replace (k - 1 + 1) with k by lia.
  apply (wp_for_range (writing fs F T L last num file n buf)); [lia| | |].
  - apply writing_start; [exact Hv|exact HT|exact Hn|exact Hp|exact (vo_ok _ _ _ _ _ Hv)|done].
  - intros i [ino tmp] s Hi Hw. unfold write_step. destruct (slices_whole k i Hk76 Hi) as [-> ->]. rewrite E2.
    cbn [Z.eqb andb negb]. rewrite Z.eqb_refl. cbn [andb]. change (- 0) with 0. rewrite !Z.add_0_l.
    assert (length (buf_block buf i) = 512%nat) as Hl512.
    { apply length_slice. rewrite Hlen. unfold BLOCK_SIZE. lia. }
    apply wp_bind, (wp_block_write_from _ _ _ k); [exact Hlen|exact Hi|].
    eapply wp_mono; [eapply (writing_step fs F T L last num file n buf i ino tmp s k)|];
      [exact HT|exact Hw|lia|lia|exact Hn|exact HF|exact Hl512|].
    intros [r ino'] s' (-> & Hw'). cbn [Z.eqb negb]. wp_pure. exact (Hw' tmp).
  - intros acc s Hw. wp_pure. split; [|by exists acc].
    apply int32_small. unfold BLOCK_SIZE. change file_blocks with 76 in Hk76. lia.
Qed.

(** *** A part of the first block *)
Lemma transfer_part r : 0 < r < BLOCK_SIZE → last_block 0 r = 0 ∧ slice_a 0 0 = 0 ∧ slice_b 0 r 0 = r.
Proof.
  intros Hr. destruct (transfer_tail 0 r ltac:(done) Hr) as [E1 E2]. rewrite Z.mul_0_l, Z.add_0_l in E1, E2.
  unfold slice_a, slice_b. rewrite E2, E1. split; [done|]. split; [done|].
  by rewrite (proj2 (Z.eqb_neq r BLOCK_SIZE)) by lia.
Qed.

Lemma in_buffer_part (buf : list byte) r : length buf = Z.to_nat r → 0 < r → in_buffer buf 0 r = true.
Proof. intros Hl Hr. unfold in_buffer. apply andb_true_iff. split; apply Z.leb_le; lia. Qed.

Lemma read_part_spec fs inode F r buf :
  file_state fs inode F → 0 < r < BLOCK_SIZE → length buf = Z.to_nat r →
  wp (read_blocks inode buf r 0) fs (λ '(n, buf') fs', n = r ∧ file_state fs' inode F ∧ abs fs' ≡ abs fs ∧
    buf' = take (Z.to_nat r) (file_block (abs fs) inode 0)).
Proof.
  intros Hf Hr Hlen. destruct (transfer_part r Hr) as (E1 & E2 & E3).
  unfold read_blocks, for_range. change (first_block 0) with 0. rewrite E1. change (Z.to_nat (0 + 1 - 0)) with 1%nat.
  cbn [for_up]. unfold read_step. rewrite E2, E3, (proj2 (Z.eqb_neq r BLOCK_SIZE)) by lia. cbn [Z.eqb andb negb]. wp_pure.
  wp_apply (block_read_ok_file fs inode F 0); [exact Hf|done|apply stack_len|].
  intros ? s1 (-> & Hs1 & Habs1 & _). cbn [Z.eqb negb]. change (- first_block_offset 0 + 0) with 0. rewrite Z.sub_0_r.
  assert (length (slice (Z.to_nat 0) (Z.to_nat r) (file_block (abs fs) inode 0)) = Z.to_nat r) as Hls.
  { apply length_slice. rewrite length_file_block. unfold BLOCK_SIZE in Hr. change (Z.to_nat 0) with 0%nat. lia. }
  unfold store. rewrite Hls, Z2Nat.id, in_buffer_part by (done || lia). wp_pure.
  split; [|split; [exact Hs1|split; [exact Habs1|]]].
  - apply int32_small. unfold BLOCK_SIZE in Hr. lia.
  - rewrite splice_all by lia. done.
Qed.

(** The rest of the block is read and written back. *)
Lemma write_part_volume fs F T L last num file n buf :
  volume fs F T L last → T !! num = Some file → 0 ≤ n →
  (∀ j, 0 ≤ j < file_blocks → file_ptr (abs fs) file j ≠ 0 ↔ j < n) →
  0 < Z.of_nat (length buf) < BLOCK_SIZE → 1 - n ≤ Z.of_nat (length F) →
  wp (write_blocks file buf (Z.of_nat (length buf)) 0) fs (λ r s, r = Z.of_nat (length buf) ∧
    ∃ acc, writing fs F T L last num file n (buf ++ drop (length buf) (file_block (abs fs) file 0)) 1 acc s).
Proof.
  intros Hv HT Hn Hp Hr HF. set (r := Z.of_nat (length buf)) in *. destruct (transfer_part r Hr) as (E1 & E2 & E3).
  destruct (volume_member _ _ _ _ _ _ _ Hv HT) as (_ & Hf & _).
  assert (length buf = Z.to_nat r) as Hlen by (unfold r; lia).
  unfold write_blocks, for_range. change (first_block 0) with 0. rewrite E1. change (Z.to_nat (0 + 1 - 0)) with 1%nat.
  cbn [for_up]. unfold write_step. rewrite E2, E3, (proj2 (Z.eqb_neq r BLOCK_SIZE)) by lia. cbn [Z.eqb andb negb]. wp_pure.
  wp_apply (block_read_ok_file fs file F 0); [exact Hf|done|apply stack_len|].
  intros ? s1 (-> & Hs1 & Habs1 & _). cbn [Z.eqb negb]. change (- first_block_offset 0 + 0) with 0. rewrite Z.sub_0_r.
  unfold load. rewrite in_buffer_part by (done || lia). wp_pure.
  assert (slice (Z.to_nat 0) (Z.to_nat r) buf = buf) as -> by (unfold slice; rewrite drop_0, take_ge by lia; done).
  change (Z.to_nat 0) with 0%nat. rewrite splice_front. set (image := buf ++ drop (length buf) (file_block (abs fs) file 0)).
  assert (length image = 512%nat) as Himg.
  { unfold image. rewrite length_app, length_drop, length_file_block. unfold BLOCK_SIZE in Hr. lia. }
  assert (buf_block image 0 = image) as Hbb by (unfold buf_block, slice; rewrite drop_0, take_ge by lia; done).
  pose proof (writing_start fs F T L last num file n image env_stack_block s1 Hv HT Hn Hp (f_ok _ _ _ Hs1) Habs1) as Hw0.
  pose proof (writing_step fs F T L last num file n image 0 file env_stack_block s1 1 HT Hw0 ltac:(lia)
    ltac:(by vm_compute) Hn HF ltac:(by rewrite Hbb)) as Hstep. rewrite Hbb in Hstep.
  eapply wp_bind_mono; [exact Hstep|]. intros [r' ino'] s2 (-> & Hw). cbn [Z.eqb negb]. wp_pure.
  split; [|by exists (ino', image); apply Hw]. apply int32_small. unfold BLOCK_SIZE in Hr. lia.
Qed.

(** *** Any write *)

(** The block that is filled up is what the file has there. *)
Lemma write_image_part buf data n fs file :
  0 < Z.of_nat (length buf) < BLOCK_SIZE → Z.of_nat (length data) = n * BLOCK_SIZE → 0 ≤ n →
  (0 < n → file_block (abs fs) file 0 = buf_block data 0) → (n = 0 → file_block (abs fs) file 0 = zero_block) →
  buf ++ drop (length buf) (file_block (abs fs) file 0) = write_image 1 buf data.
Proof.
  intros Hl Hd Hn H1 H0. unfold write_image. f_equal. f_equal. change (Z.to_nat (1 * BLOCK_SIZE)) with 512%nat.
  unfold extended, BLOCK_SIZE in *. destruct (decide (n = 0)) as [E|Hne].
  - rewrite H0 by done. destruct data; [|simpl in Hd; lia]. reflexivity.
  - rewrite H1 by lia. unfold buf_block, slice. rewrite drop_0. change (take 512) with (take (A := byte) 512).
    rewrite take_app_le by lia. done.
Qed.

(** The first block of a file. *)
Lemma first_file_block fs i f :
  file_rep fs i f → 0 ≤ v_blocks f →
  (0 < v_blocks f → file_block (abs fs) i 0 = buf_block (vf_data f) 0) ∧
  (v_blocks f = 0 → file_block (abs fs) i 0 = zero_block).
Proof.
  intros Hrep Hb. split; [intros Hpos; apply (fr_block _ _ _ Hrep); lia|]. intros H0. unfold file_block.
  destruct (Z.eqb_spec (file_ptr (abs fs) i 0) 0) as [|Hnz]; [done|]. apply (fr_ptr _ _ _ Hrep) in Hnz; [lia|done].
Qed.

Lemma write_transfer_volume fs F T L last num file f buf k :
  volume fs F T L last → T !! num = Some file → file_rep fs file f →
  Z.of_nat (length (vf_data f)) = v_blocks f * BLOCK_SIZE →
  transfer_blocks (Z.of_nat (length buf)) = Some k → k - v_blocks f ≤ Z.of_nat (length F) →
  wp (write_blocks file buf (Z.of_nat (length buf)) 0) fs (λ r s, r = Z.of_nat (length buf) ∧
    ∃ acc, writing fs F T L last num file (v_blocks f) (write_image k buf (vf_data f)) k acc s).
Proof.
  intros Hv HT Hrep Hd (Hk & Hlen)%transfer_blocks_Some HF. pose proof (v_blocks_nonneg f) as Hb0.
  destruct Hlen as [Hlen|[-> Hlen]].
  - assert (write_image k buf (vf_data f) = buf) as ->.
    { unfold write_image. rewrite drop_ge, app_nil_r by (rewrite length_take, length_extended; lia). done. }
    rewrite Hlen. apply write_blocks_volume; [exact Hv|exact HT|exact Hk|exact Hb0|exact (fr_ptr _ _ _ Hrep)|lia|exact HF].
  - destruct (first_file_block fs file f Hrep Hb0) as [H1 H0].
    rewrite <-(write_image_part buf (vf_data f) (v_blocks f) fs file) by (lia || done).
    apply write_part_volume; [exact Hv|exact HT|exact Hb0|exact (fr_ptr _ _ _ Hrep)|lia|exact HF].
Qed.

Lemma read_transfer_spec fs i f F n k :
  file_state fs i F → file_rep fs i f → Z.of_nat (length (vf_data f)) = v_blocks f * BLOCK_SIZE →
  transfer_blocks n = Some k →
  wp (read_blocks i (replicate (Z.to_nat n) x00) n 0) fs (λ '(r, buf) fs', r = n ∧ file_state fs' i F ∧ abs fs' ≡ abs fs ∧
    buf = vf_read (Z.to_nat n) f).
Proof.
  intros Hf Hrep Hd (Hk & Hn)%transfer_blocks_Some. pose proof (v_blocks_nonneg f) as Hb0.
  assert (1 ≤ k ≤ file_blocks) as Hk76 by (change SFS_NDIR_BLOCKS with 12 in Hk; change file_blocks with 76; lia).
  destruct Hn as [->|[-> Hn]].
  - eapply wp_mono; [apply (read_blocks_spec fs i F k); [exact Hf|exact Hk76|apply length_replicate]|].
    intros [r buf] fs' (-> & Hf' & Habs' & Hl & Hb). split; [done|]. split; [exact Hf'|]. split; [exact Habs'|].
    rewrite length_replicate in Hl. apply (buf_blocks_eq k); [exact Hl| |].
    + unfold vf_read. rewrite length_take, length_app, length_replicate. lia.
    + intros j Hj. rewrite Hb by done. unfold vf_read. rewrite (buf_block_read _ (v_blocks f)) by done.
      destruct (Z.ltb_spec j (v_blocks f)); [apply (fr_block _ _ _ Hrep); lia|].
      unfold file_block. destruct (Z.eqb_spec (file_ptr (abs fs) i j) 0) as [|Hnz]; [done|].
      apply (fr_ptr _ _ _ Hrep) in Hnz; lia.
  - eapply wp_mono; [apply (read_part_spec fs i F n); [exact Hf|lia|apply length_replicate]|].
    intros [r buf] fs' (-> & Hf' & Habs' & ->). split; [done|]. split; [exact Hf'|]. split; [exact Habs'|].
    destruct (first_file_block fs i f Hrep Hb0) as [H1 H0]. unfold vf_read, BLOCK_SIZE in *.
    destruct (decide (v_blocks f = 0)) as [E|Hne].
    + rewrite H0 by done. destruct (vf_data f); [|simpl in Hd; lia]. cbn [app].
      change zero_block with (replicate 512 x00). rewrite !take_replicate. f_equal. lia.
    + rewrite H1 by lia. unfold buf_block, slice. rewrite drop_0, take_take, take_app_le by lia. f_equal. lia.
Qed.

End holds_io.
