(* ===== verification/System.v ===== *)
(** * The program refines the abstract file system

    [sim v s]: the state [s] of the program, between two handlers, stands for
    the abstract file system [v].  The requests on files, names and "/" that
    succeed keep that; [SystemErrors.v] has those that are refused, and
    [Refinement.v] puts them together. *)

From S2P Require Export HoldsIo.

(** The pool has the descriptors of [v]. *)
Record fds_hold (v : vfs) (p : pool) : Prop := FdsHold {
  fh_pool : pool_ok p (v_fds v);
  fh_open d num : v_open v !! d = Some num → ∃ w, slots p !! d = Some w ∧ sl_word w = WInt num;
  fh_total : length (slots p) = v_total v;
}.

Record sim (v : vfs) (s : sfs_state) : Prop := Sim {
  si_wf : v_wf v;
  si_mu : mu s = false;
  si_disk : ∃ fs root F T last, s_fs s = inr fs ∧ holds v fs root F T last;
  si_pool : ∃ p, fd_pool s = Some p ∧ fds_hold v p;
}.

(** Freed memory keeps its contents until it is used again; [sfs_getattr]
    depends on it. *)
Definition freed_kept `{Env} : Prop := ∀ bytes, env_freed bytes = bytes.

Section system.
  Context `{EV : Env, RI : !ReliableIO, EO : !EnvOk, RM : !ReliableMalloc}.

(** ** Descriptors *)

(** The pool has the next descriptor, or makes room for it. *)
Lemma allocate_next v p d fds :
  fds_hold v p → fds_sound (v_open v) (v_fds v) → next_fd v = Some (d, fds) →
  ∃ p1 w, sfs_filedescriptor_allocate p = Done (Some d) p1 ∧ pool_ok p1 fds ∧ slots p1 !! d = Some w ∧ (d ∉ fds) ∧
    length (slots p1) = S (size (v_open v) + length fds) ∧
    ∀ k x, slots p !! k = Some x → slots p1 !! k = Some x.
Proof.
  intros [Hok _ Htot] Hs Hnext. unfold next_fd in Hnext. pose proof slots_per_slab_pos as Hpos. unfold v_total in *.
  destruct (v_fds v) as [|d' fds'] eqn:Efds.
  - destruct (Z.leb_spec (Z.of_nat (size (v_open v) + length (@nil nat)) + Z.of_nat slots_per_slab) (2 ^ 31)) as [Hle|]; [|done].
    injection Hnext as Ed Efs. simpl in Htot. rewrite Nat.add_0_r in Htot.
    assert (d = length (slots p)) as -> by (rewrite <-Ed; simpl; lia).
    assert (fds = seq (S (length (slots p))) (slots_per_slab - 1)) as -> by (rewrite <-Efs; f_equal; simpl; lia).
    assert (room p) as Hroom by (unfold room; simpl in Hle; lia).
    destruct (allocate_grow p Hok (reliable_slab_malloc _) Hroom) as (p1 & E & Hp1 & Hs1 & _).
    assert (length (slots p1) = length (slots p) + slots_per_slab)%nat as Hl1.
    { rewrite Hs1. cbn [grown slots]. by rewrite length_app, length_init_slab. }
    destruct (lookup_lt_is_Some_2 (slots p1) (length (slots p))) as [w Hw]; [lia|].
    exists p1, w. split; [exact E|]. split; [exact Hp1|]. split; [exact Hw|]. split; [rewrite elem_of_seq; lia|].
    split; [rewrite Hl1, length_seq; lia|]. intros k x Hk. rewrite Hs1. by apply lookup_app_l_Some.
  - injection Hnext as <- <-. destruct (allocate_rec_cons 1 p d' fds' Hok) as (p1 & E & Hp1 & Hs1 & _).
    destruct (po_chain _ _ Hok) as (_ & w & _ & Hw & _).
    exists p1, w. rewrite Hs1. split; [exact E|]. split; [exact Hp1|]. split; [exact Hw|].
    split; [exact (proj1 (proj1 (NoDup_cons _ _) (po_nodup _ _ Hok)))|]. split; [rewrite Htot; simpl; lia|done].
Qed.

Lemma fds_open v v' p d fds num flags s :
  fd_pool s = Some p → fds_hold v p → v_sound v → next_fd v = Some (d, fds) →
  v_open v' = <[d := num]> (v_open v) → v_fds v' = fds →
  ∃ p', open_fd num flags s = Done (0, Some (Z.of_nat d)) (set_pool (Some p') s) ∧ fds_hold v' p'.
Proof.
  intros Hp Hfd Hs Hnext Eo Ef. destruct (fds_sound_next v d fds num (vs_fds _ Hs) Hnext) as (HdN & Hd & _).
  destruct (allocate_next v p d fds Hfd (vs_fds _ Hs) Hnext) as (p1 & w & E1 & Hp1 & Hw & Hnf & Hl1 & Hold).
  destruct (fd_set_ok p1 fds d w num (u64 flags) Hp1 Hw Hnf) as (p2 & E2 & Hp2 & Hs2 & _).
  exists p2. split.
  - unfold open_fd. rewrite (bind_done _ _ _ _ _ (at_pool_done _ _ _ _ _ Hp E1)).
    rewrite (bind_done _ _ _ _ _ (at_pool_done _ (set_pool (Some p1) s) p1 _ _ eq_refl E2)).
    rewrite u64_small by lia. done.
  - split; [by rewrite Ef| |].
    + intros k n. rewrite Eo, Hs2. intros [(<- & <-)|[Hne Hk]]%lookup_insert_Some.
      * eexists. split; [apply list_lookup_insert_eq; by eapply lookup_lt_Some|done].
      * rewrite list_lookup_insert_ne by done. destruct (fh_open _ _ Hfd _ _ Hk) as (x & Hx & Hxw).
        exists x. split; [by apply Hold|exact Hxw].
    + rewrite Hs2, length_insert, Hl1. unfold v_total. by rewrite Eo, Ef, map_size_insert_None.
Qed.

Lemma fds_hold_new v : v_open v = ∅ → v_fds v = seq 0 slots_per_slab → fds_hold v new_pool.
Proof.
  intros Eo Ef. split; [rewrite Ef; exact pool_ok_init| |].
  - intros d num. by rewrite Eo, lookup_empty.
  - unfold v_total. rewrite Eo, Ef, map_size_empty, length_seq. apply length_init_slab.
Qed.

(** A descriptor is given back. *)
Lemma fds_close v v' p d num :
  fds_hold v p → v_sound v → v_open v !! d = Some num → v_open v' = delete d (v_open v) → v_fds v' = d :: v_fds v →
  ∀ p', pool_ok p' (d :: v_fds v) → length (slots p') = length (slots p) → (∀ k, k ≠ d → slots p' !! k = slots p !! k) →
  fds_hold v' p'.
Proof.
  intros [Hok Hopen Htot] Hs Hd Eo Ef p' Hp' Hl Hoth. split; [by rewrite Ef| |].
  - intros k n. rewrite Eo. intros [Hne Hk]%lookup_delete_Some. rewrite Hoth by done. exact (Hopen k n Hk).
  - rewrite Hl, Htot. unfold v_total. rewrite Eo, Ef. cbn [length].
    assert (size (v_open v) = S (size (delete d (v_open v)))) as ->; [|lia].
    rewrite <-(insert_delete_id (v_open v) d num Hd) at 1. apply map_size_insert_None, lookup_delete_eq.
Qed.

Lemma fds_same v v' p : fds_hold v p → v_open v' = v_open v → v_fds v' = v_fds v → fds_hold v' p.
Proof.
  intros [H1 H2 H3] Eo Ef. split; [by rewrite Ef| |unfold v_total in *; by rewrite Eo, Ef].
  intros d num. rewrite Eo. apply H2.
Qed.

(** The descriptor a request names. *)
Lemma sim_descriptor v s fh num f :
  sim v s → v_file_of fh v = Some (num, f) →
  ∃ fs root F T last i p w, s_fs s = inr fs ∧ holds v fs root F T last ∧ v_files v !! num = Some f ∧
    T !! num = Some i ∧ file_rep fs i f ∧ open_at s fh fs i ∧ fd_pool s = Some p ∧ fds_hold v p ∧
    0 ≤ fh < 2 ^ 31 ∧ slots p !! Z.to_nat fh = Some w ∧ sl_word w = WInt num ∧ (Z.to_nat fh ∉ v_fds v) ∧
    v_open v !! Z.to_nat fh = Some num.
Proof.
  intros [Hwf Hm (fs & root & F & T & last & Hfs & Ho) (p & Hp & Hfd)] (Hfh & Hopen & Hf)%v_file_of_Some.
  destruct (holds_file _ _ _ _ _ _ _ _ (v_wf_files_ok _ Hwf) Ho Hf) as (i & Hi & Hrep & _).
  destruct (volume_member _ _ _ _ _ _ _ (ho_volume _ _ _ _ _ _ Ho) Hi) as (Enum & _).
  destruct (fh_open _ _ Hfd _ _ Hopen) as (w & Hw & Hword).
  pose proof (fds_sound_int _ _ (Z.to_nat fh) (vs_fds _ (proj1 Hwf)) ltac:(right; by rewrite Hopen)) as Hint.
  assert (Z.to_nat fh ∉ v_fds v) as Hnf.
  { intros Hin. by rewrite (fd_free _ _ (vs_fds _ (proj1 Hwf)) _ Hin) in Hopen. }
  exists fs, root, F, T, last, i, p, w. split; [exact Hfs|]. split; [exact Ho|]. split; [exact Hf|].
  split; [exact Hi|]. split; [exact Hrep|]. split.
  { split; [exact Hm|exact Hfs|]. exists p, (v_fds v), (Z.to_nat fh), w. split_and!; [exact Hp|exact (fh_pool _ _ Hfd)|
      lia|exact Hint|exact Hw|exact Hnf|by rewrite Enum]. }
  split; [exact Hp|]. split; [exact Hfd|]. split; [lia|]. by split_and!.
Qed.

(** ** Looking a name up *)
Lemma sim_rooted v s fs root F T last :
  v_wf v → mu s = false → s_fs s = inr fs → holds v fs root F T last → rooted s fs root F (Z.of_nat (length (v_dir v))).
Proof.
  intros Hwf Hm Hfs Ho. destruct (holds_dir_state _ _ _ _ _ _ Hwf Ho) as [Hd Hn].
  split; [exact Hm|exact Hfs|exact Hd|exact Hn|exact (rr_mode _ _ _ (ho_dir _ _ _ _ _ _ Ho))].
Qed.

Lemma searched_holds name v fs root F T last n o root' fs' :
  v_wf v → holds v fs root F T last → searched name fs root F n o root' fs' →
  holds v fs' root' F (<[1 := root']> T) last.
Proof.
  intros Hwf Ho Hse. pose proof (ds_file _ _ _ _ (se_dir _ _ _ _ _ _ _ _ Hse)) as Hf.
  destruct (se_root _ _ _ _ _ _ _ _ Hse) as [t E].
  apply (holds_root_upd v fs root); [by apply v_wf_files_ok|exact Ho|exact (f_ok _ _ _ Hf)|
    exact (se_abs _ _ _ _ _ _ _ _ Hse)|by rewrite E|by rewrite E|by rewrite E|by rewrite E|exact (f_inode _ _ _ Hf)].
Qed.

Lemma good_name_ok name : name_ok name = true → good_name name.
Proof. intros (H1 & H2 & _ & H3)%name_ok_spec. by split_and!. Qed.

(** A new state after a handler that left the pool alone. *)
Lemma sim_set_fs v v' s fs' root F T last :
  sim v s → v_wf v' → v_open v' = v_open v → v_fds v' = v_fds v → holds v' fs' root F T last →
  sim v' (set_fs (inr fs') s).
Proof.
  intros [_ Hm _ (p & Hp & Hfd)] Hwf Eo Ef Ho. split; [exact Hwf|exact Hm|by exists fs', root, F, T, last|].
  exists p. split; [exact Hp|]. by apply (fds_same v).
Qed.

Lemma sim_missing v s name flags :
  sim v s → name_ok name = true → v_find name (v_dir v) = None →
  ∃ s', sim v s' ∧ sfs_getattr (slash :: name) s = Done (- ENOENT, None) s' ∧
    sfs_open (slash :: name) flags s = Done (- ENOENT, None) s' ∧
    sfs_unlink (slash :: name) s = Done (- ENOENT) s'.
Proof.
  intros Hsim Hname Hfind. pose proof Hsim as [Hwf Hm (fs & root & F & T & last & Hfs & Ho) _].
  pose proof (sim_rooted _ _ _ _ _ _ _ Hwf Hm Hfs Ho) as Hr.
  destruct (missing_name_run name flags s fs root F _ Hr (good_name_ok _ Hname)
    (holds_no_entry _ _ _ _ _ _ _ Hwf Ho Hname Hfind)) as (fs' & t & E1 & E2 & E3 & Hr' & Habs).
  exists (set_fs (inr fs') s). split; [|exact (conj E1 (conj E2 E3))].
  pose proof (ds_file _ _ _ _ (ro_dir _ _ _ _ _ Hr')) as Hf.
  apply (sim_set_fs v v s fs' (set_access_time t root) F (<[1 := set_access_time t root]> T) last Hsim Hwf eq_refl eq_refl).
  apply (holds_root_upd v fs root); [by apply v_wf_files_ok|exact Ho|exact (f_ok _ _ _ Hf)|exact Habs|done|done|done|done|
    exact (f_inode _ _ _ Hf)].
Qed.

(** ** Opening *)

(** The common end of [sfs_open] and of [sfs_create] of a name that exists. *)
Lemma open_known v s fs root F T last num a v' flags :
  v_wf v → s_fs s = inr fs → holds v fs root F T last →
  (∃ p, fd_pool s = Some p ∧ fds_hold v p) → v_open_file num v = Some (a, v') →
  ∃ fs' file d p' T', a = RFd 0 (Some (Z.of_nat d)) ∧
    at_fs (up_links num) s = Done (Some file) (set_fs (inr fs') s) ∧ i_inumber file = num ∧
    open_fd num flags (set_fs (inr fs') s) = Done (0, Some (Z.of_nat d)) (set_pool (Some p') (set_fs (inr fs') s)) ∧
    holds v' fs' root F T' last ∧ fds_hold v' p' ∧ v_wf v'.
Proof.
  intros Hwf Hfs Ho (p & Hp & Hfd) Hopen. pose proof (v_open_file_wf _ _ _ _ Hwf Hopen) as Hwf'.
  unfold v_open_file in Hopen. destruct (v_files v !! num) as [f|] eqn:Hf; [|done].
  destruct (next_fd v) as [[d fds]|] eqn:Hfds; [|done]. destruct (Z.ltb_spec (vf_links f) (2 ^ 32 - 1)) as [Hlk|]; [|done].
  injection Hopen as <- <-.
  destruct (holds_file _ _ _ _ _ _ _ _ (v_wf_files_ok _ Hwf) Ho Hf) as (i & Hi & Hrep & _).
  destruct (volume_member _ _ _ _ _ _ _ (ho_volume _ _ _ _ _ _ Ho) Hi) as (_ & _ & _ & _ & Hio).
  assert (0 ≤ vf_links f) as Hlk0 by (rewrite <-(fr_links _ _ _ Hrep); apply inode_ok_spec in Hio; tauto).
  destruct (proj1 (wp_iff _ _ _) (up_links_holds v fs root F T last num f (v_wf_files_ok _ Hwf) Ho Hf Hlk Hlk0))
    as (? & fs' & E & file & T' & -> & En & Ho').
  destruct (fds_open v (v_attach num d fds v) p d fds num flags (set_fs (inr fs') s) Hp Hfd (proj1 Hwf) Hfds eq_refl eq_refl)
    as (p' & E' & Hfd').
  exists fs', file, d, p', T'. split; [done|]. split; [exact (at_fs_done _ s _ _ _ Hfs E)|]. split; [exact En|].
  split; [exact E'|]. split; [|split; [exact Hfd'|exact Hwf']].
  exact (holds_fields (set_v_files (alter (add_links 1) num) v) (v_attach num d fds v) _ _ _ _ _ eq_refl eq_refl eq_refl eq_refl eq_refl Ho').
Qed.

(** The end of a handler that opened a descriptor. *)
Lemma sim_opened v s fs root F T last p :
  v_wf v → holds v fs root F T last → fds_hold v p → sim v (set_mu false (set_pool (Some p) (set_fs (inr fs) s))).
Proof. intros Hwf Ho Hfd. split; [exact Hwf|done|by exists fs, root, F, T, last|by exists p]. Qed.

Lemma sim_open v s name flags i num a v' :
  sim v s → name_ok name = true → v_find name (v_dir v) = Some (i, num) → v_open_file num v = Some (a, v') →
  ∃ s', serve (Open [name] flags) s = Done a s' ∧ sim v' s'.
Proof.
  intros [Hwf Hm (fs & root & F & T & last & Hfs & Ho) Hpool] Hname Hfind Hopen.
  pose proof (sim_rooted _ _ _ _ _ _ _ Hwf Hm Hfs Ho) as Hr. pose proof (good_name_ok _ Hname) as (Hne & Hsl & Hl).
  destruct (search_root name s fs root F _ Hr) as (fs1 & fs2 & fs3 & it & o & root' & E1 & E2 & E3 & Hse).
  pose proof (holds_entry _ _ _ _ _ _ _ _ _ Hwf Ho Hname Hfind) as He.
  pose proof (search_entry _ _ _ _ _ _ _ _ _ _ Hse He) as ->.
  pose proof (searched_holds _ _ _ _ _ _ _ _ _ _ _ Hwf Ho Hse) as Ho3.
  destruct (open_known v (set_fs (inr fs3) (set_mu true s)) fs3 root' F _ last num a v' flags Hwf eq_refl Ho3 Hpool Hopen)
    as (fs4 & file & d & p' & T4 & -> & E4 & En & E5 & Ho4 & Hfd4 & Hwf').
  exists (set_mu false (set_pool (Some p') (set_fs (inr fs4) (set_mu true s)))).
  split; [|by apply (sim_opened _ _ _ root' F T4 last)].
  unfold_serve. unfold sfs_open. rewrite bind_assoc, lock_run by exact Hm.
  rewrite bind_assoc, (bind_done _ _ _ _ _ (path_name_root name _ Hne Hsl Hl)).
  rewrite bind_assoc, (bind_done _ _ _ _ _ E1), bind_assoc, (bind_done _ _ _ _ _ E2), bind_assoc, (bind_done _ _ _ _ _ E3).
  cbn [di_entry item_at]. rewrite (eo_number _ _ _ _ _ _ He), bind_assoc, (bind_done _ _ _ _ _ E4), En.
  rewrite bind_assoc. change (set_fs (inr fs4) (set_fs (inr fs3) (set_mu true s))) with (set_fs (inr fs4) (set_mu true s)) in *.
  rewrite (bind_done _ _ _ _ _ E5). reflexivity.
Qed.

(** ** Creating *)
Lemma ids_ok_b_spec ctx : ids_ok_b ctx = true → ids_ok ctx.
Proof. unfold ids_ok_b, ids_ok. rewrite andb_true_iff, !in_width_spec. done. Qed.

Lemma sim_create_new ctx v s name mode flags m ids d fds :
  sim v s → name_ok name = true → ids_ok ctx → v_find name (v_dir v) = None → v_ids v = m :: ids → next_fd v = Some (d, fds) →
  Z.of_nat (v_slot (v_dir v)) < SFS_NDIR_BLOCKS → 1 ≤ v_room v →
  ∃ s', serve (Create ctx [name] mode flags) s = Done (RFd 0 (Some (Z.of_nat d))) s' ∧
    sim (v_create name m (new_mode ctx mode) (c_uid ctx) ids d fds v) s'.
Proof.
  intros [Hwf Hm (fs & root & F & T & last & Hfs & Ho) (p & Hp & Hfd)] Hname Hctx Hfind Hids Hfds Hslot Hroom.
  pose proof (sim_rooted _ _ _ _ _ _ _ Hwf Hm Hfs Ho) as Hr. pose proof (good_name_ok _ Hname) as (Hne & Hsl & Hl).
  destruct (search_root name s fs root F _ Hr) as (fs1 & fs2 & fs3 & it & o & root' & E1 & E2 & E3 & Hse).
  assert (o = None) as ->.
  { destruct o as [item|]; [|done]. destruct (se_result _ _ _ _ _ _ _ _ Hse) as (j & Hj & Hlj & Hmj & _).
    by destruct (holds_no_entry _ _ _ _ _ _ _ Hwf Ho Hname Hfind j Hj Hlj). }
  pose proof (searched_holds _ _ _ _ _ _ _ _ _ _ _ Hwf Ho Hse) as Ho3.
  pose proof (v_wf_create name m (new_mode ctx mode) (c_uid ctx) ids d fds v Hwf Hname Hfind Hids Hfds) as Hwf'.
  destruct (proj1 (wp_iff _ _ _) (create_file_holds ctx v fs3 root' F _ last m ids name mode d fds Hwf Ho3 Hids Hslot Hroom Hl Hctx))
    as (? & fs4 & E4 & -> & root4 & F4 & T4 & Ho4).
  set (v' := v_create name m (new_mode ctx mode) (c_uid ctx) ids d fds v) in *.
  destruct (fds_open v v' p d fds m flags (set_fs (inr fs4) (set_mu true s)) Hp Hfd (proj1 Hwf) Hfds eq_refl eq_refl)
    as (p' & E5 & Hfd').
  exists (set_mu false (set_pool (Some p') (set_fs (inr fs4) (set_mu true s)))).
  split; [|by apply (sim_opened _ _ _ root4 F4 T4 last)].
  unfold_serve. unfold sfs_create. rewrite bind_assoc, lock_run by exact Hm.
  rewrite bind_assoc, (bind_done _ _ _ _ _ (path_name_root name _ Hne Hsl Hl)).
  rewrite bind_assoc, (bind_done _ _ _ _ _ E1), bind_assoc, (bind_done _ _ _ _ _ E2), bind_assoc, (bind_done _ _ _ _ _ E3).
  rewrite bind_assoc, (bind_done _ _ _ _ _ (at_fs_done _ (set_fs (inr fs3) (set_mu true s)) _ _ _ eq_refl E4)).
  rewrite bind_assoc, (bind_done _ _ _ _ _ E5). reflexivity.
Qed.

(** A name that exists is refused with [O_EXCL], and opened without. *)
Lemma sim_create_known ctx v s name mode flags i num :
  sim v s → name_ok name = true → v_find name (v_dir v) = Some (i, num) →
  if negb (Z.land flags O_EXCL =? 0)
  then ∃ s', serve (Create ctx [name] mode flags) s = Done (RFd (- EEXIST) None) s' ∧ sim v s'
  else ∀ a v', v_open_file num v = Some (a, v') → ∃ s', serve (Create ctx [name] mode flags) s = Done a s' ∧ sim v' s'.
Proof.
  intros Hsim Hname Hfind. pose proof Hsim as [Hwf Hm (fs & root & F & T & last & Hfs & Ho) Hpool].
  pose proof (sim_rooted _ _ _ _ _ _ _ Hwf Hm Hfs Ho) as Hr. pose proof (good_name_ok _ Hname) as (Hne & Hsl & Hl).
  destruct (search_root name s fs root F _ Hr) as (fs1 & fs2 & fs3 & it & o & root' & E1 & E2 & E3 & Hse).
  pose proof (holds_entry _ _ _ _ _ _ _ _ _ Hwf Ho Hname Hfind) as He.
  pose proof (search_entry _ _ _ _ _ _ _ _ _ _ Hse He) as ->.
  pose proof (searched_holds _ _ _ _ _ _ _ _ _ _ _ Hwf Ho Hse) as Ho3.
  destruct (negb (Z.land flags O_EXCL =? 0)) eqn:Hex.
  - exists (set_fs (inr fs3) s). split; [|by apply (sim_set_fs v v s fs3 root' F (<[1 := root']> T) last)].
    rewrite <-(set_fs_rooted _ _ _ _ _ fs3 Hr).
    unfold_serve. unfold sfs_create. rewrite bind_assoc, lock_run by exact Hm.
    rewrite bind_assoc, (bind_done _ _ _ _ _ (path_name_root name _ Hne Hsl Hl)).
    rewrite bind_assoc, (bind_done _ _ _ _ _ E1), bind_assoc, (bind_done _ _ _ _ _ E2), bind_assoc, (bind_done _ _ _ _ _ E3).
    cbn [di_entry item_at]. rewrite Hex. reflexivity.
  - intros a v' Hopen.
    destruct (open_known v (set_fs (inr fs3) (set_mu true s)) fs3 root' F _ last num a v' flags Hwf eq_refl Ho3 Hpool Hopen)
      as (fs4 & file & d & p' & T4 & -> & E4 & En & E5 & Ho4 & Hfd4 & Hwf').
    exists (set_mu false (set_pool (Some p') (set_fs (inr fs4) (set_mu true s)))).
    split; [|by apply (sim_opened _ _ _ root' F T4 last)].
    change (set_fs (inr fs4) (set_fs (inr fs3) (set_mu true s))) with (set_fs (inr fs4) (set_mu true s)) in *.
    unfold_serve. unfold sfs_create. rewrite bind_assoc, lock_run by exact Hm.
    rewrite bind_assoc, (bind_done _ _ _ _ _ (path_name_root name _ Hne Hsl Hl)).
    rewrite bind_assoc, (bind_done _ _ _ _ _ E1), bind_assoc, (bind_done _ _ _ _ _ E2), bind_assoc, (bind_done _ _ _ _ _ E3).
    cbn [di_entry item_at]. rewrite (eo_number _ _ _ _ _ _ He), Hex.
    rewrite !bind_assoc, (bind_done _ _ _ _ _ E4), bind_ret, bind_assoc, (bind_done _ _ _ _ _ E5). reflexivity.
Qed.

(** ** Removing *)
Lemma file_links v num f : v_wf v → v_files v !! num = Some f → vf_links f = refs v num.
Proof. intros [_ Hc] Hf. rewrite (Hc num f Hf), decide_False by done. lia. Qed.

Lemma sim_unlink v s name i num :
  sim v s → name_ok name = true → v_find name (v_dir v) = Some (i, num) →
  ∃ s', serve (Unlink [name]) s = Done (RInt 0) s' ∧ sim (v_unlink i (v_drop num v)) s'.
Proof.
  intros Hsim Hname Hfind. pose proof Hsim as [Hwf Hm (fs & root & F & T & last & Hfs & Ho) Hpool].
  pose proof (sim_rooted _ _ _ _ _ _ _ Hwf Hm Hfs Ho) as Hr.
  pose proof (v_find_Some _ _ _ _ Hfind) as Hslot.
  destruct (vs_name _ (proj1 Hwf) _ _ _ Hslot) as [_ [f Hf]].
  assert (1 ≤ vf_links f) as Hlk.
  { rewrite (file_links v num f Hwf Hf). unfold refs, opens_of. pose proof (slots_of_lookup _ _ _ _ Hslot). lia. }
  destruct (unlink_found name s fs root F _ (Z.of_nat i) num Hr (good_name_ok _ Hname)
    (holds_entry _ _ _ _ _ _ _ _ _ Hwf Ho Hname Hfind)) as (root3 & fs3 & Hse & Hrun).
  pose proof (searched_holds _ _ _ _ _ _ _ _ _ _ _ Hwf Ho Hse) as Ho3.
  assert (file_block (abs fs) root (Z.of_nat i) = file_block (abs fs3) root3 (Z.of_nat i)) as Hblk.
  { symmetry. apply (se_block _ _ _ _ _ _ _ _ Hse). pose proof (lookup_lt_Some _ _ _ Hslot).
    pose proof (slots_fit _ (rr_length _ _ _ (ho_dir _ _ _ _ _ _ Ho))). lia. }
  destruct (proj1 (wp_iff _ _ _) (iter_unlink_holds v fs3 root3 F _ last i name num f
    (DirIterator (Z.of_nat i) 1 (file_block (abs fs) root (Z.of_nat i))) (v_wf_files_ok _ Hwf) Ho3 Hslot Hf Hlk eq_refl Hblk))
    as ([r root4] & fs4 & E & -> & F4 & T4 & Ho4).
  exists (set_fs (inr fs4) s). split.
  - unfold_serve. by rewrite (bind_done _ _ _ _ _ (Hrun _ _ E)).
  - assert (v_open (v_drop num v) = v_open v ∧ v_fds (v_drop num v) = v_fds v) as [Eo Ef].
    { unfold v_drop. rewrite Hf. by destruct (_ =? 1). }
    apply (sim_set_fs v _ s fs4 root4 F4 T4 last Hsim); [by apply (v_wf_unlink i name)|exact Eo|exact Ef|exact Ho4].
Qed.

(** ** Releasing *)
Lemma get_fd_number s p L d w :
  fd_pool s = Some p → pool_ok p L → slots p !! d = Some w → Z.of_nat d < 2 ^ 31 →
  get_fd (Z.of_nat d) s = Done (Some d) s.
Proof.
  intros Hp Hok Hw Hd. unfold get_fd. rewrite int32_small by lia.
  erewrite at_pool_done; [|done|by apply (get_from_fd_ok p L); [|lia]].
  apply lookup_lt_Some in Hw.
  by rewrite (proj2 (Z.ltb_lt _ _)), Nat2Z.id, set_pool_id by (done || lia).
Qed.

Lemma sim_release v s fh num f :
  sim v s → v_file_of fh v = Some (num, f) →
  ∃ s', serve (Release fh) s = Done (RInt 0) s' ∧ sim (v_detach (Z.to_nat fh) (v_drop num v)) s'.
Proof.
  intros Hsim Hfile. pose proof (si_wf _ _ Hsim) as Hwf. pose proof (si_mu _ _ Hsim) as Hm.
  destruct (sim_descriptor v s fh num f Hsim Hfile)
    as (fs & root & F & T & last & i & p & w & Hfs & Ho & Hf & Hi & Hrep & Hat & Hp & Hfd & Hfh & Hw & Hword & Hnf & Hopen).
  set (d := Z.to_nat fh) in *. assert (fh = Z.of_nat d) as Efh by lia.
  assert (1 ≤ vf_links f) as Hlk.
  { rewrite (file_links v num f Hwf Hf). unfold refs. pose proof (opens_of_lookup _ _ _ Hopen).
    pose proof (slots_of_nonneg num (v_dir v)). lia. }
  destruct (proj1 (wp_iff _ _ _) (read_inode_volume fs F T (v_ids v) last num i (ho_volume _ _ _ _ _ _ Ho) Hi))
    as (? & fs1 & E1 & -> & Hv1 & _ & Habs1).
  pose proof (holds_equiv v fs root F T last fs1 (v_wf_files_ok _ Hwf) Ho (vo_ok _ _ _ _ _ Hv1) Habs1) as Ho1.
  destruct (proj1 (wp_iff _ _ _) (drop_link_holds v fs1 root F T last num f i (v_wf_files_ok _ Hwf) Ho1 Hf Hi Hlk))
    as (? & fs2 & E2 & -> & F2 & T2 & Ho2).
  pose proof (fh_pool _ _ Hfd) as Hok.
  destruct (free_ok p (v_fds v) d w Hok Hw Hnf) as (p' & E5 & Hp' & Hs' & _).
  pose proof (get_fd_number (set_mu true s) p (v_fds v) d w Hp Hok Hw ltac:(lia)) as E3.
  assert (at_pool (fd_inumber d) (set_mu true s) = Done num (set_mu true s)) as E4.
  { erewrite at_pool_done; [by rewrite set_pool_id|exact Hp|].
    unfold fd_inumber. erewrite bind_done by by apply deref_ok. by rewrite Hword. }
  assert (v_open (v_drop num v) = v_open v ∧ v_fds (v_drop num v) = v_fds v) as [Eo Ef].
  { unfold v_drop. rewrite Hf. by destruct (_ =? 1). }
  exists (set_mu false (set_pool (Some p') (set_fs (inr fs2) (set_mu true s)))). split.
  - unfold_serve. unfold sfs_release. rewrite bind_assoc, lock_run by exact Hm. rewrite Efh.
    rewrite bind_assoc, (bind_done _ _ _ _ _ E3), bind_assoc, (bind_done _ _ _ _ _ E4).
    rewrite bind_assoc, (bind_done _ _ _ _ _ (at_fs_done _ (set_mu true s) _ _ _ Hfs E1)).
    rewrite bind_assoc, (bind_done _ _ _ _ _ (at_fs_done _ (set_fs (inr fs1) (set_mu true s)) _ _ _ eq_refl E2)).
    cbn [Z.eqb negb]. rewrite bind_assoc, (bind_done _ _ _ _ _ (at_pool_done _ (set_fs (inr fs2) (set_mu true s)) p _ _ Hp E5)).
    reflexivity.
  - apply (sim_opened _ _ _ root F2 T2 last); [by apply v_wf_detach| |].
    + exact (holds_fields (v_drop num v) (v_detach d (v_drop num v)) _ _ _ _ _ eq_refl eq_refl eq_refl eq_refl eq_refl Ho2).
    + apply (fds_close v (v_detach d (v_drop num v)) p d num Hfd (proj1 Hwf) Hopen); cbn [v_detach v_open v_fds];
        [by rewrite Eo|by rewrite Ef|exact Hp'|by rewrite Hs', length_insert|].
      intros k Hne. by rewrite Hs', list_lookup_insert_ne.
Qed.

(** ** Reading and writing *)

(** The file after its blocks were written. *)
Lemma written_holds v fs root F T last num f f' file image k acc fs' :
  files_ok v → holds v fs root F T last → v_files v !! num = Some f → T !! num = Some file →
  length image = Z.to_nat (k * BLOCK_SIZE) → 1 ≤ k ≤ SFS_NDIR_BLOCKS →
  vf_data f' = image ++ drop (length image) (vf_data f) →
  vf_size f' = vf_size f → vf_links f' = vf_links f → vf_mode f' = vf_mode f → vf_uid f' = vf_uid f →
  writing fs F T (v_ids v) last num file (v_blocks f) image k acc fs' →
  ∃ F', holds (Vfs (v_dir v) (<[num := f']> (v_files v)) (v_open v) (v_ids v) (v_fds v)
    (v_room v - Z.max 0 (k - v_blocks f)) (v_root v)) fs' root F' (<[num := acc.1]> T) last.
Proof.
  intros Hwf Ho Hf Hi Hlen Hk Ed Es El Em Eu [(F' & Hv' & HF) Hkept Hmem Hptr Hblk].
  destruct (holds_file _ _ _ _ _ _ _ _ Hwf Ho Hf) as (i' & Hi' & Hrep & Hn1 & Hb12 & Hb76 & Hdata).
  rewrite Hi in Hi'. injection Hi' as <-. pose proof Ho as [Hv Hroot Hdir Hfiles Hroom Hattrs].
  assert (<[num := acc.1]> T !! 1 = Some root) as Hroot' by (by rewrite lookup_insert_ne).
  destruct (v_blocks_image k image f f' ltac:(lia) Hlen Hdata Ed) as [_ Hvb].
  pose proof (v_blocks_nonneg f) as Hb0.
  exists F'. split; [exact Hv'|exact Hroot'| | |cbn [v_room]; lia|exact Hattrs].
  - apply (root_rep_kept fs root _ _ _ Hdir); [by apply (Hkept 1); [congruence|..]|done|done].
  - apply (files_kept num v fs root F T last fs'); [exact Hwf|exact Ho|exact Hkept| |].
    + intros n Hn _. cbn [v_files]. by rewrite !lookup_insert_ne.
    + intros _. cbn [v_files]. rewrite !lookup_insert_eq. constructor. split.
      * rewrite (f_equal i_size Hmem : i_size acc.1 = i_size file), (fr_size _ _ _ Hrep), Es. done.
      * rewrite (f_equal i_links Hmem : i_links acc.1 = i_links file), El. exact (fr_links _ _ _ Hrep).
      * rewrite (f_equal i_mode Hmem : i_mode acc.1 = i_mode file), Em. exact (fr_mode _ _ _ Hrep).
      * rewrite (f_equal i_uid Hmem : i_uid acc.1 = i_uid file), Eu. exact (fr_uid _ _ _ Hrep).
      * intros j Hj. rewrite Hvb. by apply Hptr.
      * intros j. rewrite Hvb, Ed. intros Hj.
        rewrite Hblk by (change SFS_NDIR_BLOCKS with 12 in *; change file_blocks with 76 in *; lia).
        rewrite (buf_block_write image (vf_data f) k (v_blocks f) j Hlen Hdata) by lia.
        destruct (Z.ltb_spec j k); [done|]. apply (fr_block _ _ _ Hrep). lia.
Qed.

Lemma unlocked_set_fs s fs1 fs2 :
  mu s = false → set_mu false (set_fs (inr fs2) (set_fs (inr fs1) (set_mu true s))) = set_fs (inr fs2) s.
Proof. destruct s. simpl. by intros ->. Qed.

Lemma sim_write v s fh buf num f k :
  sim v s → v_file_of fh v = Some (num, f) → transfer_blocks (Z.of_nat (length buf)) = Some k →
  Z.max 0 (k - v_blocks f) ≤ v_room v →
  ∃ s', serve (Write fh buf) s = Done (RInt (Z.of_nat (length buf))) s' ∧
    sim (Vfs (v_dir v) (<[num := vf_write buf f]> (v_files v)) (v_open v) (v_ids v) (v_fds v)
      (v_room v - Z.max 0 (k - v_blocks f)) (v_root v)) s'.
Proof.
  intros Hsim Hfile Hwhole Hroom. pose proof (si_wf _ _ Hsim) as Hwf. pose proof (si_mu _ _ Hsim) as Hm.
  destruct (transfer_blocks_Some _ _ Hwhole) as [Hk Hlen]. destruct (vf_write_image buf f k Hwhole) as [Hil Eimg].
  set (sz := Z.of_nat (length buf)) in *. assert (0 < sz < 2 ^ 31) as Hsz.
  { unfold BLOCK_SIZE in Hlen. change SFS_NDIR_BLOCKS with 12 in Hk. lia. }
  destruct (sim_descriptor v s fh num f Hsim Hfile)
    as (fs & root & F & T & last & i & p & w & Hfs & Ho & Hf & Hi & Hrep & Hat & Hp & Hfd & Hfh & Hw & Hword & Hnf & Hopen).
  pose proof (v_wf_files_ok _ Hwf) as Hok.
  destruct (holds_file _ _ _ _ _ _ _ _ Hok Ho Hf) as (_ & _ & _ & _ & Hb12 & Hb76 & Hdata).
  destruct (volume_member _ _ _ _ _ _ _ (ho_volume _ _ _ _ _ _ Ho) Hi) as (Enum & Hfile' & _ & _ & Hio).
  assert (u64 (0 + sz) = sz) as Eu by (rewrite u64_small; lia).
  destruct (write_prologue s fh fs i F buf sz 0 Hat Hfile')
    as (i1 & fs1 & Hrun & En1 & Ep1 & Es1 & Hin & [Hfs1 _ _ Habs1 _] & Em1 & El1 & Eu1); [lia|].
  rewrite Eu in Es1.
  set (f1 := VFile (vf_data f) (Z.max (vf_size f) sz) (vf_links f) (vf_mode f) (vf_uid f)).
  set (v1 := set_v_files (insert num f1) v).
  assert (holds v1 fs1 root F (<[num := i1]> T) last) as Ho1.
  { apply (holds_set_attributes v v1 fs root F T last fs1 num i i1 f f1);
      [exact Hok|exact Ho|exact Hf|exact Hi|exact (f_ok _ _ _ Hfs1)|exact Habs1|congruence|exact Ep1|exact (f_inode _ _ _ Hfs1)
      |done|done|done|done|apply lookup_insert_eq| |done| | | |].
    - intros n Hn. cbn [v1 set_v_files v_files]. by rewrite lookup_insert_ne.
    - rewrite Es1, (fr_size _ _ _ Hrep). done.
    - rewrite El1. exact (fr_links _ _ _ Hrep).
    - rewrite Em1. exact (fr_mode _ _ _ Hrep).
    - rewrite Eu1. exact (fr_uid _ _ _ Hrep). }
  assert (files_ok v1) as Hok1.
  { destruct (proj2 Hok num f Hf). apply files_ok_insert; [exact Hok| |done|done].
    intros ->. rewrite (proj1 Hok) in Hf. done. }
  assert (v_files v1 !! num = Some f1) as Hf1 by apply lookup_insert_eq.
  assert (<[num := i1]> T !! num = Some i1) as Hi1 by apply lookup_insert_eq.
  destruct (holds_file _ _ _ _ _ _ num f1 Hok1 Ho1 Hf1) as (i1' & Hi1' & Hrep1 & _).
  rewrite Hi1 in Hi1'. injection Hi1' as <-.
  destruct (proj1 (wp_iff _ _ _) (write_transfer_volume fs1 F (<[num := i1]> T) (v_ids v) last num i1 f1 buf k
    (ho_volume _ _ _ _ _ _ Ho1) Hi1 Hrep1 Hdata Hwhole
    ltac:(pose proof (ho_room _ _ _ _ _ _ Ho); change (v_blocks f1) with (v_blocks f); lia)))
    as (? & fs2 & E2 & -> & acc & Hwr).
  destruct (written_holds v1 fs1 root F (<[num := i1]> T) last num f1 (vf_write buf f) i1 (write_image k buf (vf_data f)) k acc fs2
    Hok1 Ho1 Hf1 Hi1 Hil Hk Eimg eq_refl eq_refl eq_refl eq_refl Hwr) as (F2 & Ho2).
  exists (set_fs (inr fs2) s). split.
  - unfold_serve. unfold wp in *. erewrite bind_done; [reflexivity|]. fold sz. rewrite Hrun.
    rewrite (bind_done _ _ _ _ _ (at_fs_done _ (set_fs (inr fs1) (set_mu true s)) _ _ _ eq_refl E2)).
    unfold unlock_ret, unlock. run. by rewrite unlocked_set_fs.
  - apply (sim_set_fs v _ s fs2 root F2 (<[num := acc.1]> (<[num := i1]> T)) last Hsim); [|done|done|].
    + by apply (v_wf_write num f buf k).
    + refine (holds_fields _ (Vfs _ _ _ _ _ _ _) _ _ _ _ _ _ _ _ _ _ Ho2); [done| |done|done|done].
      cbn [v1 set_v_files v_files]. by rewrite insert_insert_eq.
Qed.

Lemma sim_read v s fh n k num f :
  sim v s → v_file_of fh v = Some (num, f) → transfer_blocks n = Some k →
  ∃ s', serve (Read fh n) s = Done (RBytes n (vf_read (Z.to_nat n) f)) s' ∧ sim v s'.
Proof.
  intros Hsim Hfile Hn. pose proof (si_wf _ _ Hsim) as Hwf. pose proof (si_mu _ _ Hsim) as Hm.
  destruct (sim_descriptor v s fh num f Hsim Hfile)
    as (fs & root & F & T & last & i & p & w & Hfs & Ho & Hf & Hi & Hrep & Hat & Hp & Hfd & Hfh & Hw & Hword & Hnf & Hopen).
  pose proof (v_wf_files_ok _ Hwf) as Hok.
  destruct (holds_file _ _ _ _ _ _ _ _ Hok Ho Hf) as (_ & _ & _ & _ & Hb12 & Hb76 & Hdata).
  destruct (volume_member _ _ _ _ _ _ _ (ho_volume _ _ _ _ _ _ Ho) Hi) as (Enum & Hfile' & _ & _ & Hio).
  set (buf := replicate (Z.to_nat n) x00).
  destruct (read_prologue s fh fs i F buf n 0 Hat Hfile')
    as (t & fs1 & Hrun & Hin & [Hfs1 _ Hb1 Habs1 _]).
  { pose proof (transfer_blocks_Some _ _ Hn) as [Hk Hlen]. unfold BLOCK_SIZE in Hlen. lia. }
  set (i1 := set_access_time t i) in *.
  assert (holds v fs1 root F (<[num := i1]> T) last) as Ho1.
  { apply (holds_set_attributes v v fs root F T last fs1 num i i1 f f);
      [exact Hok|exact Ho|exact Hf|exact Hi|exact (f_ok _ _ _ Hfs1)|exact Habs1|exact Enum|reflexivity|exact (f_inode _ _ _ Hfs1)
      |done|done|done|done|exact Hf|done|done|apply Hrep|apply Hrep|apply Hrep|apply Hrep]. }
  destruct (holds_file _ _ _ _ _ _ num f Hok Ho1 Hf) as (i1' & Hi1' & Hrep1 & _).
  assert (<[num := i1]> T !! num = Some i1) as Hi1 by apply lookup_insert_eq.
  rewrite Hi1 in Hi1'. injection Hi1' as <-.
  destruct (proj1 (wp_iff _ _ _) (read_transfer_spec fs1 i1 f F n k Hfs1 Hrep1 Hdata Hn)) as ([r buf'] & fs2 & E2 & -> & Hfs2 & Habs2 & ->).
  exists (set_fs (inr fs2) s). split.
  - assert (sfs_read buf n 0 fh s = Done (n, vf_read (Z.to_nat n) f) (set_fs (inr fs2) s)) as E.
    { rewrite Hrun.
      rewrite (bind_done _ _ _ _ _ (at_fs_done _ (set_fs (inr fs1) (set_mu true s)) _ _ _ eq_refl E2)).
      unfold unlock_ret, unlock. run. by rewrite unlocked_set_fs. }
    unfold_serve. fold buf. by rewrite (bind_done _ _ _ _ _ E).
  - apply (sim_set_fs v v s fs2 root F (<[num := i1]> T) last Hsim Hwf eq_refl eq_refl).
    by apply (holds_equiv v fs1); [..|exact (f_ok _ _ _ Hfs2)|].
Qed.

(** ** Attributes and listings *)
Lemma file_attributes fs i f num :
  i_inumber i = num → file_rep fs i f → stat_attributes (sfs_fs_inode_to_stat i) = v_attributes num f.
Proof. intros <- [R1 R2 R3 R4 _ _]. unfold stat_attributes, v_attributes. simpl. by rewrite R1, R2, R3, R4. Qed.

Lemma sim_getattr v s name i num f :
  freed_kept → sim v s → name_ok name = true → v_find name (v_dir v) = Some (i, num) → v_files v !! num = Some f →
  ∃ s', serve (Getattr [name]) s = Done (RAttributes 0 (Some (v_attributes num f))) s' ∧ sim v s'.
Proof.
  intros Hfreed Hsim Hname Hfind Hf. pose proof Hsim as [Hwf Hm (fs & root & F & T & last & Hfs & Ho) Hpool].
  pose proof (sim_rooted _ _ _ _ _ _ _ Hwf Hm Hfs Ho) as Hr.
  pose proof (holds_entry _ _ _ _ _ _ _ _ _ Hwf Ho Hname Hfind) as He.
  destruct (getattr_found name s fs root F _ (Z.of_nat i) num Hr (good_name_ok _ Hname) He) as (root' & fs3 & Hse & Hrun).
  pose proof (searched_holds _ _ _ _ _ _ _ _ _ _ _ Hwf Ho Hse) as Ho3.
  rewrite Hfreed in Hrun. fold (dir_entry_at (abs fs) root (Z.of_nat i)) in Hrun. rewrite (eo_number _ _ _ _ _ _ He) in Hrun.
  destruct (holds_file _ _ _ _ _ _ _ _ (v_wf_files_ok _ Hwf) Ho3 Hf) as (ino & Hi & Hrep & _).
  destruct (volume_member _ _ _ _ _ _ _ (ho_volume _ _ _ _ _ _ Ho3) Hi) as (Enum & _).
  destruct (proj1 (wp_iff _ _ _) (read_inode_volume fs3 F _ (v_ids v) last num ino (ho_volume _ _ _ _ _ _ Ho3) Hi))
    as (? & fs4 & E4 & -> & Hv4 & _ & Habs4).
  exists (set_fs (inr fs4) s). split.
  - assert (sfs_getattr (slash :: name) s = Done (0, Some (sfs_fs_inode_to_stat ino)) (set_fs (inr fs4) s)) as E.
    { rewrite Hrun. rewrite (bind_done _ _ _ _ _ (at_fs_done _ (set_fs (inr fs3) (set_mu true s)) _ _ _ eq_refl E4)).
      unfold unlock_ret, unlock. run. by rewrite unlocked_set_fs. }
    unfold_serve. rewrite (bind_done _ _ _ _ _ E). cbn [fmap option_fmap option_map].
    by rewrite (file_attributes fs3 ino f num Enum Hrep).
  - apply (sim_set_fs v v s fs4 root' F (<[1 := root']> T) last Hsim Hwf eq_refl eq_refl).
    apply (holds_equiv v fs3); [by apply v_wf_files_ok|exact Ho3|exact (vo_ok _ _ _ _ _ Hv4)|exact Habs4].
Qed.

(** The entries of the disk are the slots of the specification. *)
Lemma listed_slots v fs root F T last (k : nat) :
  v_wf v → holds v fs root F T last → (k ≤ length (v_dir v))%nat →
  map (λ e, (e.1, stat_attributes <$> e.2)) (map (listed (abs fs) root) (live_upto (abs fs) root (Z.of_nat k)))
    = omap (v_listed v) (take k (v_dir v)).
Proof.
  intros Hwf Ho. induction k as [|k IH]; intros Hk; [by rewrite take_0|].
  assert (is_Some (v_dir v !! k)) as [o Hlk] by (apply lookup_lt_is_Some_2; lia).
  rewrite (take_S_r _ _ _ Hlk), omap_app, <-IH by lia.
  replace (Z.of_nat (S k)) with (Z.of_nat k + 1) by lia. rewrite live_upto_S, map_app, map_app by lia. f_equal.
  pose proof (sl_slot _ _ _ (rr_slots _ _ _ (ho_dir _ _ _ _ _ _ Ho)) _ _ Hlk) as Hs. destruct o as [[name num]|].
  - destruct (holds_slot _ _ _ _ _ _ _ _ _ Hwf Ho Hlk) as (_ & He & Hl & _ & Hname).
    destruct (vs_name _ (proj1 Hwf) _ _ _ Hlk) as [_ [f Hf]].
    destruct (holds_file _ _ _ _ _ _ _ _ (v_wf_files_ok _ Hwf) Ho Hf) as (i & Hi & Hrep & _).
    destruct (volume_member _ _ _ _ _ _ _ (ho_volume _ _ _ _ _ _ Ho) Hi) as (Enum & _ & _ & Hst & _).
    unfold live in Hl. rewrite (proj2 (Z.eqb_neq _ 0) Hl).
    apply name_ok_spec in Hname as (_ & _ & H0 & Hlen).
    cbn [map omap list_omap v_listed listed fst snd]. unfold listed. rewrite He. cbn [d_name d_inumber fst snd fmap option_fmap option_map].
    rewrite c_string_strncpy by done. rewrite Hst, Hf. cbn [fmap option_fmap option_map].
    by rewrite (file_attributes fs i f num Enum Hrep).
  - change (d_inumber (dir_entry_at (abs fs) root (Z.of_nat k)) = 0) in Hs. by rewrite Hs.
Qed.

(** An entry in use is a name of [v]. *)
Lemma live_entry v fs root F T last i :
  v_wf v → holds v fs root F T last → 0 ≤ i < Z.of_nat (length (v_dir v)) → live (abs fs) root i →
  ∃ name num, dir_entry_at (abs fs) root i = DirEntry num (strncpy_name name) ∧ num ≠ 1 ∧ name_ok name = true.
Proof.
  intros Hwf Ho Hi Hl. assert (is_Some (v_dir v !! Z.to_nat i)) as [o Hlk] by (apply lookup_lt_is_Some_2; lia).
  pose proof (slot_live _ _ _ _ _ (rr_slots _ _ _ (ho_dir _ _ _ _ _ _ Ho)) (holds_numbers _ _ _ _ _ _ Hwf Ho) Hlk) as Hlive.
  rewrite Z2Nat.id in Hlive by lia. destruct o as [[name num]|]; [|by destruct (proj1 Hlive Hl)].
  destruct (holds_slot _ _ _ _ _ _ _ _ _ Hwf Ho Hlk) as (_ & He & _ & Hn1 & Hname). rewrite Z2Nat.id in He by lia.
  by exists name, num.
Qed.

Lemma sim_readdir v s :
  sim v s → ∃ s', serve (Readdir []) s
    = Done (RList 0 (([dot], None) :: ([dot; dot], None) :: omap (v_listed v) (v_dir v))) s' ∧ sim v s'.
Proof.
  intros Hsim. pose proof Hsim as [Hwf Hm (fs & root & F & T & last & Hfs & Ho) Hpool].
  pose proof (sim_rooted _ _ _ _ _ _ _ Hwf Hm Hfs Ho) as Hr.
  assert (∀ i, 0 ≤ i < Z.of_nat (length (v_dir v)) → live (abs fs) root i → d_inumber (dir_entry_at (abs fs) root i) ≠ 1) as Hself.
  { intros i Hi Hl. destruct (live_entry _ _ _ _ _ _ _ Hwf Ho Hi Hl) as (name & num & -> & Hn1 & _). exact Hn1. }
  destruct (readdir_run s fs root F _ (λ _, false) Hr (λ _, eq_refl) Hself) as (fs' & root' & E & [t Ht] & Habs & Hd').
  pose proof (ds_file _ _ _ _ Hd') as Hf'.
  exists (set_fs (inr fs') s). split.
  - unfold_serve. rewrite (bind_done _ _ _ _ _ E). rewrite map_app.
    rewrite (listed_slots v fs root F T last (length (v_dir v)) Hwf Ho), firstn_all by lia. reflexivity.
  - apply (sim_set_fs v v s fs' root' F (<[1 := root']> T) last Hsim Hwf eq_refl eq_refl).
    apply (holds_root_upd v fs root); [by apply v_wf_files_ok|exact Ho|exact (f_ok _ _ _ Hf')|exact Habs|
      by rewrite Ht|by rewrite Ht|by rewrite Ht|by rewrite Ht|exact (f_inode _ _ _ Hf')].
Qed.

(** The root directory gets a descriptor, or loses one. *)
Lemma sim_opendir v s flags d fds :
  sim v s → next_fd v = Some (d, fds) →
  ∃ s', serve (Opendir [] flags) s = Done (RFd 0 (Some (Z.of_nat d))) s' ∧ sim (v_open_root d fds v) s'.
Proof.
  intros Hsim Hfds. pose proof Hsim as [Hwf Hm (fs & root & F & T & last & Hfs & Ho) (p & Hp & Hfd)].
  pose proof (sim_rooted _ _ _ _ _ _ _ Hwf Hm Hfs Ho) as Hr.
  destruct (opendir_run s fs root F _ Hr) as (fs' & root' & [t Ht] & Habs & Hd' & Hrun).
  { intros i Hi Hl. destruct (live_entry _ _ _ _ _ _ _ Hwf Ho Hi Hl) as (name & num & -> & _ & (Hne & _ & H0 & Hlen)%name_ok_spec).
    cbn [d_name]. by rewrite c_string_strncpy. }
  pose proof (ds_file _ _ _ _ Hd') as Hf'.
  destruct (fds_open v (v_open_root d fds v) p d fds 1 flags (set_fs (inr fs') (set_mu true s)) Hp Hfd (proj1 Hwf) Hfds eq_refl eq_refl)
    as (p' & E & Hfd').
  exists (set_mu false (set_pool (Some p') (set_fs (inr fs') (set_mu true s)))). split.
  - unfold_serve. by rewrite (bind_done _ _ _ _ _ (Hrun _ _ _ E)).
  - apply (sim_opened _ _ _ root' F (<[1 := root']> T) last); [by apply v_wf_open_root| |exact Hfd'].
    refine (holds_fields v (v_open_root d fds v) _ _ _ _ _ eq_refl eq_refl eq_refl eq_refl eq_refl _).
    apply (holds_root_upd v fs root); [by apply v_wf_files_ok|exact Ho|exact (f_ok _ _ _ Hf')|exact Habs|
      by rewrite Ht|by rewrite Ht|by rewrite Ht|by rewrite Ht|exact (f_inode _ _ _ Hf')].
Qed.

Lemma sim_releasedir v s fh :
  sim v s → 0 ≤ fh → v_open v !! Z.to_nat fh = Some 1 →
  ∃ s', serve (Releasedir fh) s = Done (RInt 0) s' ∧ sim (v_unlink_root (v_detach (Z.to_nat fh) v)) s'.
Proof.
  intros Hsim Hfh Hopen. pose proof Hsim as [Hwf Hm (fs & root & F & T & last & Hfs & Ho) (p & Hp & Hfd)].
  destruct (volume_member _ _ _ _ _ _ _ (ho_volume _ _ _ _ _ _ Ho) (ho_root _ _ _ _ _ _ Ho)) as (Enum & Hf & _).
  set (d := Z.to_nat fh) in *. assert (fh = Z.of_nat d) as Efh by lia.
  destruct (fh_open _ _ Hfd _ _ Hopen) as (w & Hw & Hword).
  assert (Z.of_nat d < 2 ^ 31) as Hd by (apply (fds_sound_int _ _ _ (vs_fds _ (proj1 Hwf))); right; by rewrite Hopen).
  assert (d ∉ v_fds v) as Hnf by (intros Hin; by rewrite (fd_free _ _ (vs_fds _ (proj1 Hwf)) _ Hin) in Hopen).
  destruct (releasedir_run s fs root F p (v_fds v) d w Hm Hfs Hp (fh_pool _ _ Hfd) Hd Hw Hnf ltac:(by rewrite Enum) Hf)
    as (fs' & t & p' & E & [Hf' _ _ Habs _] & Hp' & Hl & Hoth).
  exists (set_mu false (set_pool (Some p') (set_fs (inr fs') (set_mu true s)))). split.
  - unfold_serve. rewrite Efh. by rewrite (bind_done _ _ _ _ _ E).
  - apply (sim_opened _ _ _ (relinked (-1) t root) F (<[1 := relinked (-1) t root]> T) last); [by apply v_wf_close_root| |].
    + refine (holds_fields (set_v_root (root_attrs (relinked (-1) t root)) v) (v_unlink_root (v_detach d v)) _ _ _ _ _
        eq_refl eq_refl eq_refl eq_refl _ _).
      * cbn [v_unlink_root set_v_root v_root v_detach]. by rewrite <-(ho_attrs _ _ _ _ _ _ Ho).
      * by apply (holds_root_attrs v fs root); [apply v_wf_files_ok|exact Ho|exact (f_ok _ _ _ Hf')|exact Habs|..|exact (f_inode _ _ _ Hf')].
    + by apply (fds_close v _ p d 1 Hfd (proj1 Hwf) Hopen).
Qed.

Lemma sim_remount v s :
  env_heap_dirty = false → sim v s → v_open v = ∅ →
  ∃ s', serve Remount s = Done RDone s' ∧
    sim (Vfs (v_dir v) (v_files v) ∅ (v_ids v) (seq 0 slots_per_slab) (v_room v) (v_root v)) s'.
Proof.
  intros Hclean Hsim Hempty. pose proof Hsim as [Hwf Hm (fs & root & F & T & last & Hfs & Ho) (p & Hp & Hfd)].
  destruct (remount_spec s fs p (v_fds v) Hm Hfs (vo_ok _ _ _ _ _ (ho_volume _ _ _ _ _ _ Ho)) Hp (fh_pool _ _ Hfd) Hclean)
    as (s1 & fs2 & E1 & E2 & Hok2 & Habs2).
  pose proof (holds_equiv v fs root F T last fs2 (v_wf_files_ok _ Hwf) Ho Hok2 Habs2) as Ho2.
  exists (mounted s1 fs2). split.
  - unfold_serve. rewrite (bind_done _ _ _ _ _ E1), (bind_done _ _ _ _ _ E2). reflexivity.
  - split; [by apply v_wf_remount|done| |].
    + exists fs2, root, F, T, last. split; [done|].
      refine (holds_fields v (Vfs _ _ _ _ _ _ _) _ _ _ _ _ _ _ _ _ _ Ho2); done.
    + exists new_pool. split; [done|]. by apply fds_hold_new.
Qed.

End system.
