(* ===== verification/SystemErrors.v ===== *)
(** * Requests that are refused, and those about "/"

    Each handler on a path or a descriptor that stands for nothing, and the
    operations on directories other than opening them. *)

From S2P Require Export System Paths.

Section refused.
  Context `{EV : Env, RI : !ReliableIO, EO : !EnvOk, RM : !ReliableMalloc}.

(** The mutex taken and given back. *)
Lemma set_mu_again s : mu s = false → set_mu false (set_mu true s) = s.
Proof. destruct s. simpl. by intros ->. Qed.

Lemma unlock_ret_again {A} (a : A) s : mu s = false → unlock_ret a (set_mu true s) = Done a s.
Proof. intros Hm. unfold unlock_ret, unlock. run. by rewrite set_mu_again. Qed.

(** ** Descriptors *)
Lemma get_fd_unknown v s p fh :
  fd_pool s = Some p → fds_hold v p → unknown_fd fh v = true → get_fd fh s = Done None s.
Proof.
  intros Hp Hfd [H1%Z.leb_le H2%Z.ltb_lt]%andb_true_iff. unfold get_fd. rewrite int32_small by lia.
  erewrite at_pool_done; [|exact Hp|by apply (get_from_fd_ok p (v_fds v)); [exact (fh_pool _ _ Hfd)|lia]].
  rewrite (fh_total _ _ Hfd), (proj2 (Z.ltb_ge _ _)), set_pool_id by done. done.
Qed.

Lemma sim_unknown v s fh :
  sim v s → unknown_fd fh v = true →
  (∀ buf, buf ≠ [] → serve (Write fh buf) s = Done (RInt (-1)) s) ∧
  (∀ n, n ≠ 0 → serve (Read fh n) s = Done (RBytes (-1) (replicate (Z.to_nat n) x00)) s) ∧
  serve (Release fh) s = Done (RInt (-1)) s ∧ serve (Releasedir fh) s = Done (RInt (-1)) s.
Proof.
  intros [_ Hm _ (p & Hp & Hfd)] Hfh.
  pose proof (get_fd_unknown v (set_mu true s) p fh Hp Hfd Hfh) as E.
  split; [|split; [|split]].
  - intros buf Hbuf. unfold_serve. unfold sfs_write. rewrite bind_assoc, lock_run by exact Hm.
    rewrite (proj2 (Z.eqb_neq (Z.of_nat (length buf)) 0)) by (destruct buf; simpl; [done|lia]).
    rewrite bind_assoc, (bind_done _ _ _ _ _ E). by rewrite (bind_done _ _ _ _ _ (unlock_ret_again _ s Hm)).
  - intros n Hn. unfold_serve. unfold sfs_read. rewrite bind_assoc, lock_run by exact Hm.
    rewrite (proj2 (Z.eqb_neq n 0)) by exact Hn.
    rewrite bind_assoc, (bind_done _ _ _ _ _ E). by rewrite (bind_done _ _ _ _ _ (unlock_ret_again _ s Hm)).
  - unfold_serve. unfold sfs_release. rewrite bind_assoc, lock_run by exact Hm.
    rewrite bind_assoc, (bind_done _ _ _ _ _ E). by rewrite (bind_done _ _ _ _ _ (unlock_ret_again _ s Hm)).
  - unfold_serve. unfold sfs_releasedir. rewrite bind_assoc, lock_run by exact Hm.
    rewrite bind_assoc, (bind_done _ _ _ _ _ E). by rewrite (bind_done _ _ _ _ _ (unlock_ret_again _ s Hm)).
Qed.

(** No bytes: the descriptor is not looked at. *)
Lemma sim_no_bytes s fh :
  mu s = false → serve (Write fh []) s = Done (RInt 0) s ∧ serve (Read fh 0) s = Done (RBytes 0 []) s.
Proof.
  intros Hm. split; unfold_serve; [unfold sfs_write|unfold sfs_read]; rewrite bind_assoc, lock_run by exact Hm;
    change (Z.of_nat (length [])) with 0; rewrite Z.eqb_refl; by rewrite (bind_done _ _ _ _ _ (unlock_ret_again _ s Hm)).
Qed.

(** ** Paths *)
Lemma sim_nowhere s p err :
  mu s = false → resolve p = Some (Nowhere err) →
  (∀ ctx mode flags, serve (Create ctx p mode flags) s = Done (RFd err None) s) ∧
  (∀ flags, serve (Open p flags) s = Done (RFd err None) s) ∧
  serve (Unlink p) s = Done (RInt err) s ∧ serve (Getattr p) s = Done (RAttributes err None) s.
Proof.
  intros Hm Hp. pose proof (path_name_nowhere p err (set_mu true s) Hp) as E.
  split; [|split; [|split]]; intros; unfold serve, sfs_oper; cbn [fo_create fo_open fo_unlink fo_getattr];
    [unfold sfs_create|unfold sfs_open|unfold sfs_unlink|unfold sfs_getattr]; rewrite bind_assoc, lock_run by exact Hm;
    rewrite bind_assoc, (bind_done _ _ _ _ _ E); by rewrite (bind_done _ _ _ _ _ (unlock_ret_again _ s Hm)).
Qed.

(** The inode of "/" is read. *)
Lemma sim_dir_root v s :
  sim v s → ∃ root fs' s', at_fs sfs_dir_root (set_mu true s) = Done (Some root) (set_fs (inr fs') (set_mu true s)) ∧
    s' = set_fs (inr fs') s ∧ (∀ A (a : A), unlock_ret a (set_fs (inr fs') (set_mu true s)) = Done a s') ∧ sim v s' ∧
    root_attrs root = v_root v ∧ i_size root = Z.of_nat (length (v_dir v)) * BLOCK_SIZE ∧ i_inumber root = 1.
Proof.
  intros Hsim. pose proof Hsim as [Hwf Hm (fs & root & F & T & last & Hfs & Ho) _].
  pose proof (sim_rooted _ _ _ _ _ _ _ Hwf Hm Hfs Ho) as Hr.
  destruct (open_root s fs root F _ Hr) as (fs1 & _ & E1 & _ & Hd1 & _ & Habs1 & _).
  exists root, fs1, (set_fs (inr fs1) s). split; [exact E1|]. split; [done|]. split.
  { intros A a. unfold unlock_ret, unlock. run. by rewrite (set_fs_rooted _ _ _ _ _ fs1 Hr). }
  split.
  - apply (sim_set_fs v v s fs1 root F T last Hsim Hwf eq_refl eq_refl).
    apply (holds_equiv v fs); [by apply v_wf_files_ok|exact Ho|exact (f_ok _ _ _ (ds_file _ _ _ _ Hd1))|exact Habs1].
  - split; [exact (ho_attrs _ _ _ _ _ _ Ho)|]. split; [exact (rr_size _ _ _ (ho_dir _ _ _ _ _ _ Ho))|exact (ro_number _ _ _ _ _ Hr)].
Qed.

Lemma sim_getattr_root v s :
  sim v s → ∃ s', serve (Getattr []) s = Done (RAttributes 0 (Some (v_root_attributes v))) s' ∧ sim v s'.
Proof.
  intros Hsim. destruct (sim_dir_root v s Hsim) as (root & fs' & s' & E & _ & Hun & Hsim' & Ha & Hsz & Hn).
  exists s'. split; [|exact Hsim']. unfold_serve. unfold sfs_getattr.
  rewrite bind_assoc, lock_run by exact (si_mu _ _ Hsim). rewrite bind_assoc, (bind_done _ _ _ _ _ (path_name_slash _)).
  rewrite bind_assoc, (bind_done _ _ _ _ _ E). rewrite bool_decide_eq_true_2 by done.
  rewrite (bind_done _ _ _ _ _ (Hun _ _)). unfold v_root_attributes. rewrite <-Ha, <-Hsz, <-Hn. reflexivity.
Qed.

Lemma sim_unlink_root v s :
  sim v s → ∃ s', serve (Unlink []) s = Done (RInt (- EACCES)) s' ∧ sim v s'.
Proof.
  intros Hsim. destruct (sim_dir_root v s Hsim) as (root & fs' & s' & E & _ & Hun & Hsim' & _).
  exists s'. split; [|exact Hsim']. unfold_serve. unfold sfs_unlink.
  rewrite bind_assoc, lock_run by exact (si_mu _ _ Hsim). rewrite bind_assoc, (bind_done _ _ _ _ _ (path_name_slash _)).
  rewrite bind_assoc, (bind_done _ _ _ _ _ E). rewrite bool_decide_eq_true_2 by done.
  by rewrite (bind_done _ _ _ _ _ (Hun _ _)).
Qed.

(** ** Directories other than "/" *)
Lemma sim_readdir_other s p t :
  mu s = false → resolve p = Some t → t ≠ Root → serve (Readdir p) s = Done (RList (-1) []) s.
Proof.
  intros Hm Hp Ht. unfold serve, sfs_oper. cbn [fo_readdir]. unfold sfs_readdir. rewrite bind_assoc, lock_run by exact Hm.
  rewrite bool_decide_eq_false_2; [cbn [negb]; by rewrite (bind_done _ _ _ _ _ (unlock_ret_again _ s Hm))|].
  intros ->%path_bytes_root; [|by eapply resolve_ok]. by injection Hp as <-.
Qed.

Lemma sim_rmdir s p t :
  resolve p = Some t → serve (Rmdir p) s = Done (RInt (match t with Root => -1 | _ => 0 end)) s.
Proof.
  intros Hp. unfold serve, sfs_oper. cbn [fo_rmdir]. unfold sfs_rmdir.
  destruct (decide (p = [])) as [->|Hne]; [by injection Hp as <-|]. rewrite bool_decide_eq_false_2.
  - destruct t; [|done..]. by apply resolve_root in Hp.
  - intros E%path_bytes_root; [done|by eapply resolve_ok].
Qed.

End refused.
