(* ===== verification/Refinement.v ===== *)
(** * The refinement

    Every request that the specification answers is answered by its handler
    alike, and so is every sequence of requests. *)

From S2P Require Export SystemErrors.

Section refinement.
  Context `{EV : Env, RI : !ReliableIO, EO : !EnvOk, RM : !ReliableMalloc}.

(** What a request needs of the environment. *)
Definition req_allowed (r : req) : Prop :=
  match r with
  | Getattr _ => freed_kept
  | Remount => env_heap_dirty = false
  | _ => True
  end.

Lemma sim_do_create ctx name mode flags v s a v' :
  sim v s → name_ok name = true → ids_ok ctx → v_do_create ctx name mode flags v = Some (a, v') →
  ∃ s', serve (Create ctx [name] mode flags) s = Done a s' ∧ sim v' s'.
Proof.
  intros Hsim Hname Hctx. unfold v_do_create. destruct (v_find name (v_dir v)) as [[i num]|] eqn:Ef.
  - pose proof (sim_create_known ctx v s name mode flags i num Hsim Hname Ef) as Hk.
    destruct (negb (Z.land flags O_EXCL =? 0)); [intros [= <- <-]; exact Hk|intros Hopen; exact (Hk a v' Hopen)].
  - destruct (v_ids v) as [|m ids] eqn:Ei; [done|]. destruct (next_fd v) as [[d fds]|] eqn:Efd; [|done].
    destruct (Z.ltb_spec (Z.of_nat (v_slot (v_dir v))) SFS_NDIR_BLOCKS); [|done].
    destruct (Z.leb_spec 1 (v_room v)); [|done]. intros [= <- <-]. by apply sim_create_new.
Qed.

Lemma sim_do_open name flags v s a v' :
  sim v s → name_ok name = true → v_do_open name v = Some (a, v') →
  ∃ s', serve (Open [name] flags) s = Done a s' ∧ sim v' s'.
Proof.
  intros Hsim Hname. unfold v_do_open. destruct (v_find name (v_dir v)) as [[i num]|] eqn:Ef; [by apply sim_open with i|].
  intros [= <- <-]. destruct (sim_missing v s name flags Hsim Hname Ef) as (s' & Hs' & _ & E & _).
  exists s'. split; [|exact Hs']. unfold_serve. by rewrite (bind_done _ _ _ _ _ E).
Qed.

Lemma sim_do_unlink name v s :
  sim v s → name_ok name = true →
  ∃ s', serve (Unlink [name]) s = Done (v_do_unlink name v).1 s' ∧ sim (v_do_unlink name v).2 s'.
Proof.
  intros Hsim Hname. unfold v_do_unlink.
  destruct (v_find name (v_dir v)) as [[i num]|] eqn:Ef; [by apply (sim_unlink v s name i num)|].
  destruct (sim_missing v s name 0 Hsim Hname Ef) as (s' & Hs' & _ & _ & E).
  exists s'. split; [|exact Hs']. unfold_serve. by rewrite (bind_done _ _ _ _ _ E).
Qed.

Lemma sim_do_getattr name v s :
  freed_kept → sim v s → name_ok name = true →
  ∃ s', serve (Getattr [name]) s = Done (v_do_getattr name v) s' ∧ sim v s'.
Proof.
  intros Hfreed Hsim Hname. unfold v_do_getattr. destruct (v_find name (v_dir v)) as [[i num]|] eqn:Ef.
  - destruct (vs_name _ (proj1 (si_wf _ _ Hsim)) _ _ _ (v_find_Some _ _ _ _ Ef)) as [_ [f Hf]]. rewrite Hf.
    by apply (sim_getattr v s name i num f).
  - destruct (sim_missing v s name 0 Hsim Hname Ef) as (s' & Hs' & E & _).
    exists s'. split; [|exact Hs']. unfold_serve. by rewrite (bind_done _ _ _ _ _ E).
Qed.

Lemma sim_do_write fh buf v s a v' :
  sim v s → v_do_write fh buf v = Some (a, v') → ∃ s', serve (Write fh buf) s = Done a s' ∧ sim v' s'.
Proof.
  intros Hsim. unfold v_do_write. destruct (v_file_of fh v) as [[num f]|] eqn:Ef; [simpl|done].
  destruct (transfer_blocks _) as [k|] eqn:Ek; [simpl|done].
  destruct (Z.leb_spec (Z.max 0 (k - v_blocks f)) (v_room v)); [|done]. intros [= <- <-]. by apply sim_write.
Qed.

Lemma sim_do_read fh n v s a :
  sim v s → v_do_read fh n v = Some a → ∃ s', serve (Read fh n) s = Done a s' ∧ sim v s'.
Proof.
  intros Hsim. unfold v_do_read. destruct (v_file_of fh v) as [[num f]|] eqn:Ef; [simpl|done].
  destruct (transfer_blocks n) as [k|] eqn:Ek; [simpl|done]. intros [= <-]. exact (sim_read v s fh n k num f Hsim Ef Ek).
Qed.

(** A request that changes nothing. *)
Lemma sim_same v s r a : sim v s → serve r s = Done a s → ∃ s', serve r s = Done a s' ∧ sim v s'.
Proof. intros Hsim E. by exists s. Qed.

Lemma sim_step v s r a v' :
  sim v s → req_allowed r → vfs_step v r = Some (a, v') → ∃ s', serve r s = Done a s' ∧ sim v' s'.
Proof.
  intros Hsim Hallowed. pose proof (si_mu _ _ Hsim) as Hm.
  destruct r as [ctx p mode flags|p flags|fh buf|fh n|fh|p|p|p|p flags|fh|p mode|p|]; cbn [vfs_step].
  - destruct (resolve p) as [[|name|err]|] eqn:Ep; cbn [mbind option_bind]; [done| | |done].
    + destruct (ids_ok_b ctx) eqn:Hctx; [|done]. destruct (resolve_named _ _ Ep) as (-> & _ & Hname).
      apply sim_do_create; [done|done|by apply ids_ok_b_spec].
    + intros [= <- <-]. exact (sim_same _ _ _ _ Hsim (proj1 (sim_nowhere s p err Hm Ep) ctx mode flags)).
  - destruct (resolve p) as [[|name|err]|] eqn:Ep; cbn [mbind option_bind]; [done| | |done].
    + destruct (resolve_named _ _ Ep) as (-> & _ & Hname). by apply sim_do_open.
    + intros [= <- <-]. exact (sim_same _ _ _ _ Hsim (proj1 (proj2 (sim_nowhere s p err Hm Ep)) flags)).
  - destruct (Nat.eqb_spec (length buf) 0) as [E0|Hne].
    { intros [= <- <-]. apply nil_length_inv in E0 as ->. exact (sim_same _ _ _ _ Hsim (proj1 (sim_no_bytes s fh Hm))). }
    destruct (unknown_fd fh v) eqn:Eu; [|by apply sim_do_write].
    intros [= <- <-]. apply (sim_same _ _ _ _ Hsim). apply (proj1 (sim_unknown v s fh Hsim Eu)). by intros ->.
  - destruct (Z.eqb_spec n 0) as [->|Hne]; [intros [= <- <-]; exact (sim_same _ _ _ _ Hsim (proj2 (sim_no_bytes s fh Hm)))|].
    destruct (unknown_fd fh v) eqn:Eu; [intros [= <- <-]; exact (sim_same _ _ _ _ Hsim (proj1 (proj2 (sim_unknown v s fh Hsim Eu)) n Hne))|].
    destruct (v_do_read fh n v) as [b|] eqn:Er; cbn [mbind option_bind]; [|done]. intros [= <- <-]. by apply sim_do_read.
  - destruct (unknown_fd fh v) eqn:Eu; [intros [= <- <-]; exact (sim_same _ _ _ _ Hsim (proj1 (proj2 (proj2 (sim_unknown v s fh Hsim Eu)))))|].
    destruct (v_file_of fh v) as [[num f]|] eqn:Ef; [cbn [mbind option_bind]|done]. intros [= <- <-]. by apply (sim_release v s fh num f).
  - destruct (resolve p) as [[|name|err]|] eqn:Ep; cbn [mbind option_bind]; [| | |done].
    + intros [= <- <-]. apply resolve_root in Ep as ->. by apply sim_unlink_root.
    + destruct (resolve_named _ _ Ep) as (-> & _ & Hname). destruct (sim_do_unlink name v s Hsim Hname) as (s' & E & Hs').
      destruct (v_do_unlink name v) as [b v1]. intros [= <- <-]. by exists s'.
    + intros [= <- <-]. exact (sim_same _ _ _ _ Hsim (proj1 (proj2 (proj2 (sim_nowhere s p err Hm Ep))))).
  - destruct (resolve p) as [[|name|err]|] eqn:Ep; cbn [mbind option_bind]; [| | |done]; intros [= <- <-].
    + apply resolve_root in Ep as ->. by apply sim_getattr_root.
    + destruct (resolve_named _ _ Ep) as (-> & _ & Hname). by apply sim_do_getattr.
    + exact (sim_same _ _ _ _ Hsim (proj2 (proj2 (proj2 (sim_nowhere s p err Hm Ep))))).
  - destruct (resolve p) as [t|] eqn:Ep; cbn [mbind option_bind]; [|done]. destruct t; intros [= <- <-].
    + apply resolve_root in Ep as ->. by apply sim_readdir.
    + exact (sim_same _ _ _ _ Hsim (sim_readdir_other s p _ Hm Ep ltac:(done))).
    + exact (sim_same _ _ _ _ Hsim (sim_readdir_other s p _ Hm Ep ltac:(done))).
  - destruct (resolve p) as [[|name|err]|] eqn:Ep; [|done..]. apply resolve_root in Ep as ->.
    destruct (next_fd v) as [[d fds]|] eqn:Efd; [|done]. intros [= <- <-]. by apply sim_opendir.
  - destruct (unknown_fd fh v) eqn:Eu; [intros [= <- <-]; exact (sim_same _ _ _ _ Hsim (proj2 (proj2 (proj2 (sim_unknown v s fh Hsim Eu)))))|].
    destruct ((0 <=? fh) && _) eqn:E; [|done]. intros [= <- <-].
    apply andb_true_iff in E as [Hfh%Z.leb_le Ho%bool_decide_eq_true]. by apply sim_releasedir.
  - intros [= <- <-]. exact (sim_same v s (Mkdir p mode) (RInt 0) Hsim eq_refl).
  - destruct (resolve p) as [t|] eqn:Ep; cbn [mbind option_bind]; [|done]. intros [= <- <-]. exact (sim_same _ _ _ _ Hsim (sim_rmdir s p t Ep)).
  - destruct (decide (v_open v = ∅)) as [He|]; [|done]. intros [= <- <-]. by apply sim_remount.
Qed.

Lemma sim_run v s rs l v' :
  sim v s → Forall req_allowed rs → vfs_run v rs = Some (l, v') → ∃ s', serve_all rs s = Done l s' ∧ sim v' s'.
Proof.
  revert v s l. induction rs as [|r rs IH]; intros v s l Hsim Hall Hrun.
  - injection Hrun as <- <-. by exists s.
  - apply Forall_cons in Hall as [Hr Hall]. cbn [vfs_run] in Hrun.
    destruct (vfs_step v r) as [[a v1]|] eqn:E1; [cbn [mbind option_bind] in Hrun|done].
    destruct (vfs_run v1 rs) as [[l1 v2]|] eqn:E2; [cbn [mbind option_bind] in Hrun|done].
    injection Hrun as <- <-. destruct (sim_step v s r a v1 Hsim Hr E1) as (s1 & R1 & Hsim1).
    destruct (IH v1 s1 l1 Hsim1 Hall E2) as (s2 & R2 & Hsim2). exists s2. split; [|exact Hsim2].
    cbn [serve_all]. by rewrite (bind_done _ _ _ _ _ R1), (bind_done _ _ _ _ _ R2).
Qed.

End refinement.
