(* ===== verification/SystemTheorems.v ===== *)
(** * What a client of the whole program can rely on

    From an unformatted disk on, every sequence of requests that the abstract
    file system answers is answered alike by the handlers, and what holds of
    the abstract file system holds of the inodes on the disk. *)

From S2P Require Export Refinement.

(** An empty file system on a disk of N blocks, made by the user [uid]. *)
Definition fresh_vfs (uid N T H D : Z) : vfs :=
  Vfs [] ∅ ∅ (seqZ 2 (3 * T - 1)) (seq 0 slots_per_slab) (Z.of_nat (length (fresh_blocks N H D)))
    (VRoot ROOT_MODE 1 uid).

Lemma fresh_vfs_wf uid N T H D : v_wf (fresh_vfs uid N T H D).
Proof.
  split; [split|done]; cbn [fresh_vfs v_dir v_files v_open v_ids v_fds]; try done.
  - split; [done|]. rewrite elem_of_seqZ. lia.
  - split; [apply NoDup_seqZ|]. intros. apply lookup_empty.
  - apply fds_sound_new.
Qed.

(** ** The abstract file system *)

(** What a request does to the files: nothing, a link more, a new file, a link
    less, or new contents. *)
Lemma step_files v r a v' :
  vfs_step v r = Some (a, v') →
  v_files v' = v_files v ∨
  (∃ num, v_open_file num v = Some (a, v')) ∨
  (∃ ctx name mode m ids d fds, v_ids v = m :: ids ∧ v' = v_create name m (new_mode ctx mode) (c_uid ctx) ids d fds v) ∨
  (∃ num, v_files v' = v_files (v_drop num v)) ∨
  (∃ fh buf num f, r = Write fh buf ∧ v_file_of fh v = Some (num, f) ∧
     v_files v' = <[num := vf_write buf f]> (v_files v)).
Proof.
  destruct r as [ctx p mode flags|p flags|fh buf|fh n|fh|p|p|p|p flags|fh|p mode|p|]; cbn [vfs_step]; intros Hs.
  - destruct (resolve p) as [[|name|err]|] eqn:Ep; cbn [mbind option_bind] in Hs; [done| |by left; injection Hs as _ <-|done].
    destruct (ids_ok_b ctx); [|done]. unfold v_do_create in Hs.
    destruct (v_find name (v_dir v)) as [[i num]|].
    + destruct (negb _); [left; by injection Hs as _ <-|right; left; by exists num].
    + destruct (v_ids v) as [|m ids] eqn:Ei; [done|]. destruct (next_fd v) as [[d fds]|]; [|done]. destruct (_ && _); [|done].
      right. right. left. injection Hs as _ <-. by exists ctx, name, mode, m, ids, d, fds.
  - destruct (resolve p) as [[|name|err]|]; cbn [mbind option_bind] in Hs; [done| |by left; injection Hs as _ <-|done].
    unfold v_do_open in Hs. destruct (v_find name (v_dir v)) as [[i num]|]; [right; left; by exists num|left; by injection Hs as _ <-].
  - destruct (length buf =? 0)%nat; [left; by injection Hs as _ <-|]. destruct (unknown_fd fh v); [left; by injection Hs as _ <-|].
    unfold v_do_write in Hs. destruct (v_file_of fh v) as [[num g]|] eqn:Ef; cbn [mbind option_bind] in Hs; [|done].
    destruct (transfer_blocks _); cbn [mbind option_bind] in Hs; [|done]. destruct (_ <=? _); [|done].
    do 4 right. injection Hs as _ <-. by exists fh, buf, num, g.
  - destruct (n =? 0); [left; by injection Hs as _ <-|]. destruct (unknown_fd fh v); [left; by injection Hs as _ <-|].
    destruct (v_do_read fh n v); cbn [mbind option_bind] in Hs; [|done]. left. by injection Hs as _ <-.
  - destruct (unknown_fd fh v); [left; by injection Hs as _ <-|].
    destruct (v_file_of fh v) as [[num g]|]; cbn [mbind option_bind] in Hs; [|done].
    do 3 right. left. injection Hs as _ <-. by exists num.
  - destruct (resolve p) as [[|name|err]|]; cbn [mbind option_bind] in Hs; [left; by injection Hs as _ <-| |left; by injection Hs as _ <-|done].
    unfold v_do_unlink in Hs. destruct (v_find name (v_dir v)) as [[i num]|]; [|left; by injection Hs as _ <-].
    do 3 right. left. injection Hs as _ <-. by exists num.
  - destruct (resolve p); cbn [mbind option_bind] in Hs; [|done]. left. by injection Hs as _ <-.
  - destruct (resolve p); cbn [mbind option_bind] in Hs; [|done]. left. by injection Hs as _ <-.
  - destruct (resolve p) as [[|name|err]|]; [|done..]. destruct (next_fd v) as [[d fds]|]; [|done]. left. by injection Hs as _ <-.
  - destruct (unknown_fd fh v); [left; by injection Hs as _ <-|]. destruct ((0 <=? fh) && _); [|done]. left. by injection Hs as _ <-.
  - left. by injection Hs as _ <-.
  - destruct (resolve p); cbn [mbind option_bind] in Hs; [|done]. left. by injection Hs as _ <-.
  - destruct (decide _); [|done]. left. by injection Hs as _ <-.
Qed.

(** The request writes to the file. *)
Definition writes_to (v : vfs) (num : Z) (r : req) : bool :=
  match r with
  | Write fh _ => match v_file_of fh v with Some (m, _) => m =? num | None => false end
  | _ => false
  end.

Lemma v_drop_data num n v f f' :
  v_files v !! n = Some f → v_files (v_drop num v) !! n = Some f' → vf_data f' = vf_data f.
Proof.
  unfold v_drop. destruct (v_files v !! num) as [g|] eqn:Hg; [|congruence]. destruct (_ =? 1); simpl.
  - intros Hn [_ Hn']%lookup_delete_Some. congruence.
  - intros Hn Hn'. destruct (decide (num = n)) as [->|Hne].
    + rewrite lookup_alter_eq, Hn in Hn'. by injection Hn' as <-.
    + rewrite lookup_alter_ne in Hn' by done. congruence.
Qed.

Lemma v_open_file_data num n v a v' f f' :
  v_open_file num v = Some (a, v') → v_files v !! n = Some f → v_files v' !! n = Some f' → vf_data f' = vf_data f.
Proof.
  unfold v_open_file. destruct (v_files v !! num) as [g|] eqn:Hg; [|done]. destruct (next_fd v) as [[d fds]|]; [|done].
  destruct (_ <? _); [|done]. intros [= <- <-]. cbn [v_attach v_files].
  destruct (decide (num = n)) as [->|Hne].
  - rewrite lookup_alter_eq. intros Hn. rewrite Hn. by intros [= <-].
  - rewrite lookup_alter_ne by done. congruence.
Qed.

Lemma vfs_step_data v r a v' n f f' :
  v_wf v → vfs_step v r = Some (a, v') → v_files v !! n = Some f → v_files v' !! n = Some f' → writes_to v n r = false →
  vf_data f' = vf_data f.
Proof.
  intros Hwf Hstep Hn Hn' Hw. destruct (step_files v r a v' Hstep)
    as [E|[[num Ho]|[(ctx & name & mode & m & ids & d & fds & Ei & ->)|[[num E1]|
       (fh & buf & num & g & -> & Ef & E)]]]].
  - congruence.
  - by eapply v_open_file_data.
  - cbn [v_create v_files] in Hn'. rewrite lookup_insert_ne in Hn'; [congruence|].
    intros ->. rewrite (proj2 (vs_ids _ (proj1 Hwf)) n) in Hn; [done|]. rewrite Ei. left.
  - rewrite E1 in Hn'. exact (v_drop_data num n v f f' Hn Hn').
  - rewrite E in Hn'. cbn [writes_to] in Hw. rewrite Ef in Hw.
    rewrite lookup_insert_ne in Hn'; [congruence|]. by apply Z.eqb_neq.
Qed.

(** What a write leaves in its file. *)
Lemma v_write_data v fh buf a v1 num f :
  v_file_of fh v = Some (num, f) → buf ≠ [] → unknown_fd fh v = false → vfs_step v (Write fh buf) = Some (a, v1) →
  ∃ k f1 rest, transfer_blocks (Z.of_nat (length buf)) = Some k ∧ v_files v1 !! num = Some f1 ∧ vf_data f1 = buf ++ rest.
Proof.
  intros Hf Hne Hu. cbn [vfs_step]. rewrite Hu. destruct (Nat.eqb_spec (length buf) 0) as [E|_]; [by apply nil_length_inv in E|].
  unfold v_do_write. rewrite Hf. cbn [mbind option_bind].
  destruct (transfer_blocks _) as [k|] eqn:Ek; [cbn [mbind option_bind]|done].
  destruct (_ <=? _); [|done]. intros [= _ <-]. cbn [v_files].
  exists k, (vf_write buf f). eexists. split; [done|]. split; [apply lookup_insert_eq|reflexivity].
Qed.

(** An open descriptor is known. *)
Lemma v_file_known fh v num f : v_wf v → v_file_of fh v = Some (num, f) → unknown_fd fh v = false.
Proof.
  intros [Hs _] (Hfh & Ho & _)%v_file_of_Some. apply andb_false_iff. left. apply Z.leb_gt.
  pose proof (fd_below _ _ (vs_fds _ Hs) (Z.to_nat fh) ltac:(right; by exists num)). unfold v_total. lia.
Qed.

(** No file without links. *)
Definition v_live (v : vfs) : Prop := ∀ n f, v_files v !! n = Some f → 1 ≤ vf_links f.

Lemma v_drop_live num v : v_live v → v_live (v_drop num v).
Proof.
  intros Hl n f. unfold v_drop. destruct (v_files v !! num) as [g|] eqn:Hg; [|apply Hl].
  pose proof (Hl num g Hg) as Hg1. destruct (Z.eqb_spec (vf_links g) 1); cbn [set_v_files v_files].
  - intros [_ Hn]%lookup_delete_Some. exact (Hl n f Hn).
  - destruct (decide (num = n)) as [->|Hne].
    + rewrite lookup_alter_eq, Hg. intros [= <-]. cbn [add_links vf_links]. lia.
    + rewrite lookup_alter_ne by done. apply Hl.
Qed.

Lemma v_open_file_live num v a v' : v_live v → v_open_file num v = Some (a, v') → v_live v'.
Proof.
  intros Hl. unfold v_open_file. destruct (v_files v !! num) as [g|] eqn:Hg; [|done]. destruct (next_fd v) as [[d fds]|]; [|done].
  destruct (_ <? _); [|done]. intros [= <- <-]. intros n f. cbn [v_attach v_files].
  destruct (decide (num = n)) as [->|Hne]; [|rewrite lookup_alter_ne by done; apply Hl].
  rewrite lookup_alter_eq, Hg. intros [= <-]. specialize (Hl n g Hg). cbn [add_links vf_links]. lia.
Qed.

Lemma vfs_step_live v r a v' : v_live v → vfs_step v r = Some (a, v') → v_live v'.
Proof.
  intros Hl Hstep. destruct (step_files v r a v' Hstep)
    as [E|[[num Ho]|[(ctx & name & mode & m & ids & d & fds & Ei & ->)|[[num E]|
       (fh & buf & num & g & _ & Ef & E)]]]].
  - intros n f. rewrite E. apply Hl.
  - by eapply v_open_file_live.
  - intros n f. cbn [v_create v_files]. intros [[_ <-]|[_ Hn]]%lookup_insert_Some; [done|exact (Hl n f Hn)].
  - intros n f. rewrite E. exact (v_drop_live num v Hl n f).
  - intros n f. rewrite E. apply v_file_of_Some in Ef as (_ & _ & Hg).
    intros [[_ <-]|[_ Hn]]%lookup_insert_Some; [exact (Hl num g Hg)|exact (Hl n f Hn)].
Qed.

Lemma vfs_run_live v rs l v' : v_live v → vfs_run v rs = Some (l, v') → v_live v'.
Proof.
  revert v l. induction rs as [|r rs IH]; intros v l Hl Hrun; [by injection Hrun as _ <-|].
  cbn [vfs_run] in Hrun. destruct (vfs_step v r) as [[a v1]|] eqn:E1; [cbn [mbind option_bind] in Hrun|done].
  destruct (vfs_run v1 rs) as [[l1 v2]|] eqn:E2; [cbn [mbind option_bind] in Hrun|done].
  injection Hrun as _ <-. exact (IH _ _ (vfs_step_live _ _ _ _ Hl E1) E2).
Qed.

Lemma fresh_live uid N T H D : v_live (fresh_vfs uid N T H D).
Proof. intros n f Hn. cbn [fresh_vfs v_files] in Hn. by rewrite lookup_empty in Hn. Qed.

(** Requests during which the file is there and not written to. *)
Fixpoint left_alone (v : vfs) (num : Z) (rs : list req) : bool :=
  match rs with
  | [] => true
  | r :: rs => negb (writes_to v num r) &&
      match vfs_step v r with
      | Some (_, v') => bool_decide (is_Some (v_files v' !! num)) && left_alone v' num rs
      | None => true
      end
  end.

Lemma vfs_run_data v rs l v' n f :
  v_wf v → vfs_run v rs = Some (l, v') → v_files v !! n = Some f → left_alone v n rs = true →
  v_wf v' ∧ ∃ f', v_files v' !! n = Some f' ∧ vf_data f' = vf_data f.
Proof.
  revert v l f. induction rs as [|r rs IH]; intros v l f Hwf Hrun Hn Hal.
  - injection Hrun as <- <-. split; [exact Hwf|]. by exists f.
  - cbn [vfs_run] in Hrun. cbn [left_alone] in Hal.
    apply andb_true_iff in Hal as [Hw%negb_true_iff Hal].
    destruct (vfs_step v r) as [[a v1]|] eqn:E1; [cbn [mbind option_bind] in Hrun|done].
    destruct (vfs_run v1 rs) as [[l1 v2]|] eqn:E2; [cbn [mbind option_bind] in Hrun|done].
    injection Hrun as <- <-. apply andb_true_iff in Hal as [[f1 Hn1]%bool_decide_eq_true Hal].
    pose proof (vfs_step_data v r a v1 n f f1 Hwf E1 Hn Hn1 Hw) as Hd.
    destruct (IH v1 l1 f1 (vfs_step_wf _ _ _ _ Hwf E1) E2 Hn1 Hal) as (Hwf' & f' & Hn' & Hd').
    split; [exact Hwf'|]. exists f'. split; [exact Hn'|congruence].
Qed.

(** ** Errors *)
Definition failed (a : resp) : bool :=
  match a with
  | RInt r | RFd r _ | RBytes r _ | RAttributes r _ | RList r _ => r <? 0
  | RDone => false
  end.

Lemma resolve_err p err : resolve p = Some (Nowhere err) → err < 0.
Proof.
  unfold resolve. destruct (negb (path_ok p)); [done|]. destruct p as [|c [|d p]]; [done| |by intros [= <-]].
  destruct (length c <=? 255)%nat; [done|]. by intros [= <-].
Qed.

Lemma open_file_succeeds num v a v' : v_open_file num v = Some (a, v') → failed a = false.
Proof.
  unfold v_open_file. destruct (v_files v !! num) as [f|]; [|done]. destruct (next_fd v) as [[d fds]|]; [|done].
  destruct (vf_links f <? 2 ^ 32 - 1); [|done]. by intros [= <- _].
Qed.

Lemma create_failed ctx name mode flags v a v' :
  v_do_create ctx name mode flags v = Some (a, v') → failed a = true → v' = v.
Proof.
  unfold v_do_create. destruct (v_find name (v_dir v)) as [[i num]|].
  - destruct (negb (Z.land flags O_EXCL =? 0)); [by intros [= _ <-]|]. intros H%open_file_succeeds. by rewrite H.
  - destruct (v_ids v) as [|m ids]; [done|]. destruct (next_fd v) as [[d fds]|]; [|done].
    destruct (_ && _); [|done]. by intros [= <- _].
Qed.

Lemma vfs_step_failed v r a v' : vfs_step v r = Some (a, v') → failed a = true → v' = v.
Proof.
  destruct r as [ctx p mode flags|p flags|fh buf|fh n|fh|p|p|p|p flags|fh|p mode|p|]; cbn [vfs_step].
  - destruct (resolve p) as [[|name|err]|]; cbn [mbind option_bind]; [done| |by intros [= _ <-]|done].
    destruct (ids_ok_b ctx); [|done]. apply create_failed.
  - destruct (resolve p) as [[|name|err]|]; cbn [mbind option_bind]; [done| |by intros [= _ <-]|done].
    unfold v_do_open. destruct (v_find name (v_dir v)) as [[i num]|]; [|by intros [= _ <-]].
    intros H%open_file_succeeds. by rewrite H.
  - destruct (length buf =? 0)%nat; [by intros [= _ <-]|]. destruct (unknown_fd fh v); [by intros [= _ <-]|].
    unfold v_do_write. destruct (v_file_of fh v) as [[num f]|]; [simpl|done].
    destruct (transfer_blocks _) as [k|]; [simpl|done]. destruct (_ <=? _); [|done].
    intros [= <- _] Hf%Z.ltb_lt. lia.
  - destruct (n =? 0); [by intros [= _ <-]|]. destruct (unknown_fd fh v); [by intros [= _ <-]|].
    destruct (v_do_read fh n v); cbn [mbind option_bind]; [|done]. by intros [= _ <-].
  - destruct (unknown_fd fh v); [by intros [= _ <-]|].
    destruct (v_file_of fh v) as [[num f]|]; cbn [mbind option_bind]; [|done]. by intros [= <- _].
  - destruct (resolve p) as [[|name|err]|]; cbn [mbind option_bind]; [by intros [= _ <-]| |by intros [= _ <-]|done].
    unfold v_do_unlink. destruct (v_find name (v_dir v)) as [[i num]|]; [by intros [= <- _]|by intros [= _ <-]].
  - destruct (resolve p) as [t|]; cbn [mbind option_bind]; [|done]. by intros [= _ <-].
  - destruct (resolve p) as [t|]; cbn [mbind option_bind]; [|done]. by intros [= _ <-].
  - destruct (resolve p) as [[|name|err]|]; [|done..]. destruct (next_fd v) as [[d fds]|]; [|done]. by intros [= <- _].
  - destruct (unknown_fd fh v); [by intros [= _ <-]|]. destruct (_ && _); [|done]. by intros [= <- _].
  - by intros [= _ <-].
  - destruct (resolve p) as [t|]; cbn [mbind option_bind]; [|done]. by intros [= _ <-].
  - destruct (decide (v_open v = ∅)); [|done]. by intros [= <- _].
Qed.

Section system_theorems.
  Context `{EV : Env, RI : !ReliableIO, EO : !EnvOk, IO : !IdsOk, RM : !ReliableMalloc}.

(** ** The program *)

(** A freshly mounted disk holds the empty file system. *)
Lemma fresh_sim s w N T H F D :
  mu s = false → s_fs s = inl w → unformatted w N T H F D → env_fstat_ok = true → env_heap_dirty = false →
  ∃ s0, sfs_init s = Done tt s0 ∧ sim (fresh_vfs env_uid N T H D) s0.
Proof.
  intros Hm Hs Hun Hstat Hclean.
  destruct (mount_fresh s w N T H F D Hm Hs Hun Hstat Hclean) as (fs & t & E & Hr & HL).
  exists (mounted s fs). split; [exact E|]. destruct Hr as [_ _ [Hf _ Hsz _] Hn1 Hmode].
  split; [apply fresh_vfs_wf|done| |].
  - exists fs, (format_root t), (fresh_blocks N H D), {[1 := format_root t]}, (3 * T + 1). split; [done|].
    assert (∀ n i, ({[1 := format_root t]} : gmap Z sfs_fs_inode) !! n = Some i → n = 1 ∧ i = format_root t) as Hone.
    { intros n i [<- <-]%lookup_singleton_Some. done. }
    split; [|by rewrite lookup_singleton_eq| | |cbn [fresh_vfs v_room]; lia|done].
    + split; [exact (f_ok _ _ _ Hf)|exact (f_free _ _ _ Hf)|exact HL| | |].
      * intros n i [-> ->]%Hone. by split.
      * intros n m i j b Hne [-> ->]%Hone [-> ->]%Hone. done.
      * intros n. cbn [fresh_vfs v_ids]. intros Hin%elem_of_seqZ. apply lookup_singleton_ne. lia.
    + split; [exact Hmode|exact Hsz|done|]. split.
      * intros j Hj. rewrite file_ptr_hole by done. simpl. split; [done|lia].
      * intros k o Hk. by destruct k.
    + intros n Hn. cbn [fresh_vfs v_files]. rewrite lookup_singleton_ne, lookup_empty by done. constructor.
  - exists new_pool. split; [done|]. by apply fds_hold_new.
Qed.

(** C1: the program implements the abstract file system.  On a disk that
    [sfs_init] formats, every sequence of requests - create, open, write, read,
    release, unlink, getattr, opendir, readdir, releasedir, mkdir, rmdir,
    unmounting and mounting again, in any order, on any path and with any
    descriptor - that the executable specification answers is served by the
    operations in sfs.c's table with the same answers: return values and
    errors, descriptors, bytes, attributes and listings; and the state
    corresponds again.  No handler crashes, waits or diverges on the way. *)
Theorem program_refines_specification s w N T H F D rs l v :
  mu s = false → s_fs s = inl w → unformatted w N T H F D → env_fstat_ok = true → env_heap_dirty = false →
  Forall req_allowed rs → vfs_run (fresh_vfs env_uid N T H D) rs = Some (l, v) →
  ∃ s0 s1, sfs_init s = Done tt s0 ∧ serve_all rs s0 = Done l s1 ∧ sim v s1.
Proof.
  intros Hm Hs Hun Hstat Hclean Hall Hrun.
  destruct (fresh_sim s w N T H F D Hm Hs Hun Hstat Hclean) as (s0 & E & Hsim).
  destruct (sim_run _ _ _ _ _ Hsim Hall Hrun) as (s1 & E1 & Hsim1). by exists s0, s1.
Qed.

Lemma holds_dom v fs root F T last : v_wf v → holds v fs root F T last → dom T = {[1]} ∪ dom (v_files v).
Proof.
  intros Hwf Ho. apply set_eq. intros n. rewrite elem_of_union, elem_of_singleton, !elem_of_dom.
  destruct (decide (n = 1)) as [->|Hne].
  - rewrite (ho_root _ _ _ _ _ _ Ho). split; [by left|by eexists].
  - destruct (ho_files _ _ _ _ _ _ Ho n Hne) as [i f _|].
    + split; [by right|by eexists].
    + split; [intros []%is_Some_None|intros [?|[]%is_Some_None]; done].
Qed.

(** The inode of a file of [v]. *)
Lemma sim_file v s num f :
  sim v s → v_files v !! num = Some f →
  ∃ fs F T last i, s_fs s = inr fs ∧ volume fs F T (v_ids v) last ∧ T !! num = Some i ∧
    a_inode (abs fs) num = i ∧ i_inumber i = num ∧ file_rep fs i f.
Proof.
  intros [Hwf Hm (fs & root & F & T & last & Hfs & Ho) _] Hf.
  destruct (holds_file _ _ _ _ _ _ _ _ (v_wf_files_ok _ Hwf) Ho Hf) as (i & Hi & Hrep & _).
  destruct (volume_member _ _ _ _ _ _ _ (ho_volume _ _ _ _ _ _ Ho) Hi) as (En & _ & _ & Ei & _).
  exists fs, F, T, last, i. split; [exact Hfs|]. split; [exact (ho_volume _ _ _ _ _ _ Ho)|]. by split_and!.
Qed.

(** C4: the disk stays consistent under the requests that the specification
    answers (files of at most 12 blocks, transfers from the start of a file).
    After any sequence of them on a fresh disk, the file system is well formed:
    the superblock, the cache and every inode are in their widths; every block of
    a file is a data block; no block belongs to two files, or to a file and the
    index of free blocks; the index and the list of free inodes have no cycle;
    and no inode is both free and in use.  The mutex is free.  With larger files
    it is not so: see [stale_indirect_block_is_followed]. *)
Theorem requests_keep_disk_consistent s w N T H F D rs l v :
  mu s = false → s_fs s = inl w → unformatted w N T H F D → env_fstat_ok = true → env_heap_dirty = false →
  Forall req_allowed rs → vfs_run (fresh_vfs env_uid N T H D) rs = Some (l, v) →
  ∃ s0 s1 fs free files last, sfs_init s = Done tt s0 ∧ serve_all rs s0 = Done l s1 ∧
    mu s1 = false ∧ s_fs s1 = inr fs ∧ volume fs free files (v_ids v) last ∧
    dom files = {[1]} ∪ dom (v_files v) ∧ v_wf v.
Proof.
  intros Hm Hs Hun Hstat Hclean Hall Hrun.
  destruct (fresh_sim s w N T H F D Hm Hs Hun Hstat Hclean) as (s0 & E & Hsim).
  destruct (sim_run _ _ _ _ _ Hsim Hall Hrun) as (s1 & E1 & Hsim1).
  pose proof Hsim1 as [Hwf Hm1 (fs & root & F' & T' & last & Hfs & Ho) _].
  exists s0, s1, fs, F', T', last. split; [exact E|]. split; [exact E1|]. split; [exact Hm1|]. split; [exact Hfs|].
  split; [exact (ho_volume _ _ _ _ _ _ Ho)|]. split; [exact (holds_dom _ _ _ _ _ _ Hwf Ho)|exact Hwf].
Qed.

(** C3: what is written stays, as long as the requests are ones that the
    specification answers (transfers from the start of a file, files of at most
    12 blocks: a file that needs an indirect block can damage others, see
    [stale_indirect_block_is_followed]).  The bytes that [sfs_write] stores at the
    start of a file, 1 to 511 of them or 1 to 12 blocks, are what [sfs_read]
    returns through any descriptor of the file after any sequence of such
    requests that does not write to the file or remove it: files made, written
    and deleted beside it, other descriptors of it opened and closed, the disk
    unmounted and mounted again. *)
Theorem written_bytes_stay v s fh buf a v1 rs l v2 num f fh' f' :
  sim v s → Forall req_allowed rs → v_file_of fh v = Some (num, f) → buf ≠ [] →
  vfs_step v (Write fh buf) = Some (a, v1) → vfs_run v1 rs = Some (l, v2) → left_alone v1 num rs = true →
  v_file_of fh' v2 = Some (num, f') →
  ∃ s1 s2 s3, serve (Write fh buf) s = Done a s1 ∧ serve_all rs s1 = Done l s2 ∧
    serve (Read fh' (Z.of_nat (length buf))) s2 = Done (RBytes (Z.of_nat (length buf)) buf) s3.
Proof.
  intros Hsim Hall Hfile Hne Hw Hrun Hal Hfile'.
  destruct (sim_step v s (Write fh buf) a v1 Hsim I Hw) as (s1 & E1 & Hsim1).
  destruct (sim_run v1 s1 rs l v2 Hsim1 Hall Hrun) as (s2 & E2 & Hsim2).
  destruct (v_write_data v fh buf a v1 num f Hfile Hne (v_file_known fh v num f (si_wf _ _ Hsim) Hfile) Hw) as (k & f1 & rest & Hk & Hf1 & Hd1).
  destruct (vfs_run_data v1 rs l v2 num f1 (si_wf _ _ Hsim1) Hrun Hf1 Hal) as (_ & f2 & Hf2 & Hd2).
  pose proof (v_file_of_Some _ _ _ _ Hfile') as (_ & _ & Hf'). rewrite Hf2 in Hf'. injection Hf' as <-.
  destruct (sim_read v2 s2 fh' _ k num f2 Hsim2 Hfile' Hk) as (s3 & E3 & _).
  exists s1, s2, s3. split; [exact E1|]. split; [exact E2|]. rewrite E3. unfold vf_read.
  by rewrite Hd2, Hd1, Nat2Z.id, <-!app_assoc, take_app_length.
Qed.

(** C5: the link counts of files are right.  After any sequence of requests that
    the specification answers, on a fresh disk, the inode of every file - the
    root directory is not one, and its count is wrong, see
    [opendir_releasedir_loses_link] - has as many links as there are names for it
    in the root directory and open descriptors together, at least one:
    [sfs_unlink] and [sfs_release] give the blocks of a file back exactly when
    the last reference goes. *)
Theorem links_count_references s w N T H F D rs l v num f :
  mu s = false → s_fs s = inl w → unformatted w N T H F D → env_fstat_ok = true → env_heap_dirty = false →
  Forall req_allowed rs → vfs_run (fresh_vfs env_uid N T H D) rs = Some (l, v) → v_files v !! num = Some f →
  ∃ s0 s1 fs, sfs_init s = Done tt s0 ∧ serve_all rs s0 = Done l s1 ∧ s_fs s1 = inr fs ∧
    i_inumber (a_inode (abs fs) num) = num ∧
    i_links (a_inode (abs fs) num) = slots_of num (v_dir v) + opens_of num (v_open v) ∧
    1 ≤ i_links (a_inode (abs fs) num) ∧ (num ∉ v_ids v).
Proof.
  intros Hm Hs Hun Hstat Hclean Hall Hrun Hf.
  destruct (fresh_sim s w N T H F D Hm Hs Hun Hstat Hclean) as (s0 & E & Hsim).
  destruct (sim_run _ _ _ _ _ Hsim Hall Hrun) as (s1 & E1 & Hsim1).
  destruct (sim_file v s1 num f Hsim1 Hf) as (fs & F' & T' & last & i & Hfs & Hv & Hi & Ei & En & Hrep).
  exists s0, s1, fs. rewrite Ei. split; [exact E|]. split; [exact E1|]. split; [exact Hfs|]. split; [exact En|]. split.
  - rewrite (fr_links _ _ _ Hrep). exact (file_links v num f (si_wf _ _ Hsim1) Hf).
  - rewrite (fr_links _ _ _ Hrep). split; [exact (vfs_run_live _ _ _ _ (fresh_live _ N T H D) Hrun num f Hf)|].
    intros Hin. by rewrite (vo_unused _ _ _ _ _ Hv _ Hin) in Hi.
Qed.

(** C7: the errors that the specification knows change nothing.  They are: no
    such path or name, a name longer than 255 bytes, [sfs_create] with O_EXCL of
    a name that is there, a descriptor that was never given, and unlinking or
    removing "/" or listing another path.  The handler returns that error, gives the mutex
    back, and leaves the abstract file system as it was: no name, file, link
    count, descriptor or free block is gained or lost.  Other errors the
    specification does not answer, and of some of them this is not true: opening
    another directory than "/" keeps the mutex, and a write to a full disk or an
    open without memory for its descriptor fails half-way. *)
Theorem failed_requests_change_nothing v s r a v' :
  sim v s → req_allowed r → vfs_step v r = Some (a, v') → failed a = true →
  v' = v ∧ ∃ s', serve r s = Done a s' ∧ sim v s' ∧ mu s' = false.
Proof.
  intros Hsim Hr Hstep Hfail. pose proof (vfs_step_failed v r a v' Hstep Hfail) as ->. split; [done|].
  destruct (sim_step v s r a v Hsim Hr Hstep) as (s' & E & Hsim'). exists s'.
  split; [exact E|]. split; [exact Hsim'|exact (si_mu _ _ Hsim')].
Qed.

End system_theorems.

(** ** Witnesses *)
Definition demo_ctx : fuse_ctx := FuseCtx 1000 100 18.
Definition demo_vfs : vfs := fresh_vfs (env_uid (Env := demo_env)) 70 4 6 63.

(** A file is made, written and removed while it is still open; another one
    stays, across a remount. *)
Definition demo_text : list byte := map Byte.byte.of_Z [104; 101; 108; 108; 111].

Definition demo_requests : list req :=
  [ Getattr []; Create demo_ctx [name_a] 438 0; Write 0 (block_of 67 ++ block_of 68); Create demo_ctx [name_b] 384 0;
    Write 1 (block_of 69); Write 1 demo_text; Open [name_a] 0; Unlink [name_a]; Read 2 1024; Getattr [name_a];
    Getattr [name_b]; Opendir [] 0; Readdir []; Releasedir 3; Release 0; Release 2; Release 1; Remount; Open [name_b] 0;
    Read 0 1536; Read 0 8; Getattr [] ].

Definition demo_b : option attributes := Some (3, new_mode demo_ctx 384, 2, 1000, 512).

Definition demo_answers : list resp :=
  [ RAttributes 0 (Some (1, ROOT_MODE, 1, 1000, 0)); RFd 0 (Some 0); RInt 1024; RFd 0 (Some 1);
    RInt 512; RInt 5; RFd 0 (Some 2); RInt 0; RBytes 1024 (block_of 67 ++ block_of 68); RAttributes (- ENOENT) None;
    RAttributes 0 demo_b; RFd 0 (Some 3); RList 0 [([dot], None); ([dot; dot], None); (name_b, demo_b)];
    RInt 0; RInt 0; RInt 0; RInt 0; RDone; RFd 0 (Some 0);
    RBytes 1536 ((demo_text ++ drop 5 (block_of 69)) ++ block_of 0 ++ block_of 0);
    RBytes 8 (demo_text ++ take 3 (block_of 69)); RAttributes 0 (Some (1, ROOT_MODE, 0, 1000, 1024)) ].

(** The state after requests, when they are answered. *)
Definition vfs_after (v : vfs) (rs : list req) : vfs := from_option snd v (vfs_run v rs).

Lemma run_after v rs l : fst <$> vfs_run v rs = Some l → vfs_run v rs = Some (l, vfs_after v rs).
Proof. unfold vfs_after. destruct (vfs_run v rs) as [[l' v']|]; [|done]. by intros [= ->]. Qed.

Definition demo_end : vfs := vfs_after demo_vfs demo_requests.

Lemma demo_answered : vfs_run demo_vfs demo_requests = Some (demo_answers, demo_end).
Proof. apply run_after. vm_compute. reflexivity. Qed.

Lemma demo_allowed (rs : list req) : Forall (req_allowed (EV := demo_env)) rs.
Proof. apply Forall_forall. intros [] _; done. Qed.

Lemma program_refines_specification_witness :
  ∃ s0 s1, sfs_init (H := demo_env) blank_state = Done tt s0 ∧
    serve_all (H := demo_env) demo_requests s0 = Done demo_answers s1 ∧ sim demo_end s1.
Proof.
  exact (program_refines_specification (EV := demo_env) blank_state blank_disk 70 4 6 64 63
    demo_requests demo_answers demo_end eq_refl eq_refl blank_unformatted eq_refl eq_refl (demo_allowed _) demo_answered).
Defined.

Lemma requests_keep_disk_consistent_witness :
  ∃ s0 s1 fs free files last, sfs_init (H := demo_env) blank_state = Done tt s0 ∧
    serve_all (H := demo_env) demo_requests s0 = Done demo_answers s1 ∧
    mu s1 = false ∧ s_fs s1 = inr fs ∧ volume fs free files (v_ids demo_end) last ∧
    dom files = {[1]} ∪ dom (v_files demo_end) ∧ v_wf demo_end.
Proof.
  exact (requests_keep_disk_consistent (EV := demo_env) blank_state blank_disk 70 4 6 64 63
    demo_requests demo_answers demo_end eq_refl eq_refl blank_unformatted eq_refl eq_refl (demo_allowed _) demo_answered).
Defined.

(** Two files, open on descriptors 0 and 1. *)
Definition demo_opening : list req := [Create demo_ctx [name_a] 438 0; Create demo_ctx [name_b] 384 0].
Definition demo_two : vfs := vfs_after demo_vfs demo_opening.

Lemma demo_two_answered : vfs_run demo_vfs demo_opening = Some ([RFd 0 (Some 0); RFd 0 (Some 1)], demo_two).
Proof. apply run_after. vm_compute. reflexivity. Qed.

Lemma demo_mounted : ∃ s, sim demo_vfs s.
Proof.
  destruct (fresh_sim (EV := demo_env) blank_state blank_disk 70 4 6 64 63 eq_refl eq_refl blank_unformatted eq_refl eq_refl)
    as (s & _ & Hsim). by exists s.
Qed.

Lemma demo_two_sim : ∃ s, sim demo_two s.
Proof.
  destruct demo_mounted as [s Hsim].
  destruct (sim_run (EV := demo_env) _ _ _ _ _ Hsim (demo_allowed _) demo_two_answered) as (s' & _ & Hsim'). by exists s'.
Qed.

Lemma links_count_references_witness :
  ∃ s0 s1 fs, sfs_init (H := demo_env) blank_state = Done tt s0 ∧
    serve_all (H := demo_env) demo_opening s0 = Done [RFd 0 (Some 0); RFd 0 (Some 1)] s1 ∧ s_fs s1 = inr fs ∧
    i_inumber (a_inode (abs fs) 3) = 3 ∧
    i_links (a_inode (abs fs) 3) = slots_of 3 (v_dir demo_two) + opens_of 3 (v_open demo_two) ∧
    1 ≤ i_links (a_inode (abs fs) 3) ∧ (3 ∉ v_ids demo_two).
Proof.
  apply (links_count_references (EV := demo_env) blank_state blank_disk 70 4 6 64 63 demo_opening _ demo_two 3
    (VFile [] 0 2 (new_mode demo_ctx 384) 1000) eq_refl eq_refl blank_unformatted eq_refl eq_refl (demo_allowed _) demo_two_answered).
  vm_compute. reflexivity.
Defined.

(** Work on the other file, and a remount, after the write. *)
Definition demo_between : list req :=
  [Write 1 (block_of 70); Unlink [name_b]; Release 1; Release 0; Create demo_ctx [name_b] 384 0; Release 0; Remount; Open [name_a] 0].

Lemma written_bytes_stay_witness :
  ∃ s s1 s2 s3, sim demo_two s ∧
    serve (H := demo_env) (Write 0 demo_text) s = Done (RInt 5) s1 ∧
    serve_all (H := demo_env) demo_between s1 =
      Done [RInt 512; RInt 0; RInt 0; RInt 0; RFd 0 (Some 0); RInt 0; RDone; RFd 0 (Some 0)] s2 ∧
    serve (H := demo_env) (Read 0 5) s2 = Done (RBytes 5 demo_text) s3.
Proof.
  destruct demo_two_sim as [s Hsim]. exists s.
  set (v1 := vfs_after demo_two [Write 0 demo_text]). set (v2 := vfs_after v1 demo_between).
  destruct (written_bytes_stay (EV := demo_env) demo_two s 0 demo_text (RInt 5) v1 demo_between
    [RInt 512; RInt 0; RInt 0; RInt 0; RFd 0 (Some 0); RInt 0; RDone; RFd 0 (Some 0)] v2 2
    (VFile [] 0 2 (new_mode demo_ctx 438) 1000) 0 (VFile (demo_text ++ replicate 507 x00) 5 2 (new_mode demo_ctx 438) 1000) Hsim (demo_allowed _))
    as (s1 & s2 & s3 & E1 & E2 & E3).
  - vm_compute. reflexivity.
  - done.
  - reflexivity.
  - apply run_after. vm_compute. reflexivity.
  - vm_compute. reflexivity.
  - vm_compute. reflexivity.
  - exists s1, s2, s3. by split_and!.
Defined.

(** A name that is there already is not created with O_EXCL. *)
Lemma failed_requests_change_nothing_witness :
  ∃ s s', sim demo_two s ∧
    serve (H := demo_env) (Create demo_ctx [name_a] 438 O_EXCL) s = Done (RFd (- EEXIST) None) s' ∧ sim demo_two s'.
Proof.
  destruct demo_two_sim as [s Hsim]. exists s.
  destruct (failed_requests_change_nothing (EV := demo_env) demo_two s (Create demo_ctx [name_a] 438 O_EXCL)
    (RFd (- EEXIST) None) demo_two Hsim I) as (_ & s' & E & Hsim' & _).
  - vm_compute. reflexivity.
  - reflexivity.
  - exists s'. split; [exact Hsim|]. split; [exact E|exact Hsim'].
Defined.
