(* ===== verification/Steps.v ===== *)
(** * Handlers, step by step

    When several threads run, what one does between two of its accesses to the
    shared state can be any other thread's work.  Here a handler is the sequence
    of its steps: taking the mutex, giving it back, and each call it makes in
    between (of a function of fs.c, dir.c or filedescriptor.c, of [time], or on
    the state itself).  The sequences are derived from the handlers of [Sfs.v]
    by instance search, with the proof that running one without interruption is
    what the handler does, and the discipline that each keeps: nothing is
    touched before the mutex is taken or after it is given back. *)

From S2P Require Export SystemTheorems.

(** ** Sequences of steps *)
Inductive prog (A : Type) : Type :=
  | Ret (a : A)
  | Lock (p : prog A)
  | Unlock (p : prog A)
  | Act {B : Type} (m : M sfs_state B) (k : B → prog A).
Arguments Ret {A} a.
Arguments Lock {A} p.
Arguments Unlock {A} p.
Arguments Act {A B} m k.

(** The next step, with what is left to do after it. *)
Definition turn {A} (p : prog A) : option (M sfs_state (prog A)) :=
  match p with
  | Ret _ => None
  | Lock p => Some (lock;; mret p)
  | Unlock p => Some (unlock;; mret p)
  | Act m k => Some (b ← m; mret (k b))
  end.

(** All steps, with no other thread between them. *)
Fixpoint run_all {A} (p : prog A) : M sfs_state A :=
  match p with
  | Ret a => mret a
  | Lock p => lock;; run_all p
  | Unlock p => unlock;; run_all p
  | Act m k => b ← m; run_all (k b)
  end.

Fixpoint pbind {A B} (p : prog A) (f : A → prog B) : prog B :=
  match p with
  | Ret a => f a
  | Lock p => Lock (pbind p f)
  | Unlock p => Unlock (pbind p f)
  | Act m k => Act m (λ b, pbind (k b) f)
  end.

Lemma run_all_pbind {A B} (p : prog A) (f : A → prog B) s :
  run_all (pbind p f) s = (run_all p ≫= λ a, run_all (f a)) s.
Proof.
  revert s. induction p as [a|p IH|p IH|C m k IH]; intros s; cbn [pbind run_all]; [done|..];
    rewrite bind_assoc; unfold mbind, M_bind.
  - destruct (lock s); [apply IH|done].
  - destruct (unlock s); [apply IH|done].
  - destruct (m s); [apply IH|done].
Qed.

Lemma run_turn {A} (p : prog A) m s : turn p = Some m → run_all p s = (m ≫= run_all) s.
Proof. destruct p; intros [= <-]; cbn [run_all]; by rewrite bind_assoc. Qed.

(** ** The discipline of the mutex *)
Definition keeps_mu {A} (m : M sfs_state A) : Prop := ∀ s a s', m s = Done a s' → mu s' = mu s.

(** Steps that leave the mutex alone. *)
Fixpoint acts {A} (p : prog A) : Prop :=
  match p with
  | Ret _ => True
  | Lock _ | Unlock _ => False
  | Act m k => keeps_mu m ∧ ∀ b, acts (k b)
  end.

Definition after_unlock {A} (p : prog A) : Prop := match p with Ret _ => True | _ => False end.

(** With the mutex taken: steps that leave it alone, and then it is given back
    and nothing is left to do - or it is kept. *)
Fixpoint under_lock {A} (p : prog A) : Prop :=
  match p with
  | Ret _ => True
  | Lock _ => False
  | Unlock p => after_unlock p
  | Act m k => keeps_mu m ∧ ∀ b, under_lock (k b)
  end.

(** Before it is taken: nothing. *)
Definition before_lock {A} (p : prog A) : Prop :=
  match p with
  | Ret _ => True
  | Lock p => under_lock p
  | _ => False
  end.

Lemma acts_pbind {A B} (p : prog A) (f : A → prog B) : acts p → (∀ a, acts (f a)) → acts (pbind p f).
Proof.
  induction p as [a|p IH|p IH|C m k IH]; intros Hp Hf; cbn [pbind acts] in *; [apply Hf|done|done|].
  destruct Hp as [Hm Hk]. split; [exact Hm|]. intros b. by apply IH.
Qed.

Lemma under_lock_pbind {A B} (p : prog A) (f : A → prog B) :
  acts p → (∀ a, under_lock (f a)) → under_lock (pbind p f).
Proof.
  induction p as [a|p IH|p IH|C m k IH]; intros Hp Hf; cbn [pbind acts under_lock] in *; [apply Hf|done|done|].
  destruct Hp as [Hm Hk]. split; [exact Hm|]. intros b. by apply IH.
Qed.

Definition pmap {A B} (g : A → B) (p : prog A) : prog B := pbind p (λ a, Ret (g a)).

Lemma under_lock_pmap {A B} (g : A → B) (p : prog A) : under_lock p → under_lock (pmap g p).
Proof.
  unfold pmap. induction p as [a|p IH|p IH|C m k IH]; intros Hp; cbn [pbind under_lock] in *; [done|done| |].
  - by destruct p.
  - destruct Hp as [Hm Hk]. split; [exact Hm|]. intros b. by apply IH.
Qed.

Lemma before_lock_pmap {A B} (g : A → B) (p : prog A) : before_lock p → before_lock (pmap g p).
Proof. destruct p; [done| |done..]. exact (under_lock_pmap g p). Qed.

(** ** Steps that leave the mutex alone *)
Class Acts {A} (h : M sfs_state A) := {
  acts_prog : prog A;
  acts_run s : run_all acts_prog s = h s;
  acts_ok : acts acts_prog;
}.
Arguments acts_prog {A} h {_}.

Lemma keeps_at_fs {A} (m : M filesystem A) : keeps_mu (at_fs m).
Proof. intros s a s'. unfold at_fs, zoom. destruct (s_fs s); [done|]. by destruct (m _); [intros [= _ <-]|]. Qed.

Lemma keeps_at_pool {A} (m : M pool A) : keeps_mu (at_pool m).
Proof. intros s a s'. unfold at_pool, zoom. destruct (fd_pool s); [|done]. by destruct (m _); [intros [= _ <-]|]. Qed.

Lemma keeps_at_world {A} (m : M world A) : keeps_mu (at_world m).
Proof. intros s a s'. unfold at_world, zoom. by destruct (m _); [intros [= _ <-]|]. Qed.

Lemma keeps_get : keeps_mu get.
Proof. by intros s a s' [= _ <-]. Qed.

Lemma keeps_crash {A} c : keeps_mu (crash_with (A := A) c).
Proof. by intros s a s'. Qed.

(** One step. *)
Definition acts_one {A} (m : M sfs_state A) (Hm : keeps_mu m) : Acts m.
Proof.
  exists (Act m Ret); [|split; [exact Hm|done]].
  intros s. cbn [run_all]. unfold mbind, M_bind, mret, M_ret. by destruct (m s).
Defined.

#[export] Instance acts_at_fs {A} (m : M filesystem A) : Acts (at_fs m) := acts_one _ (keeps_at_fs m).
#[export] Instance acts_at_pool {A} (m : M pool A) : Acts (at_pool m) := acts_one _ (keeps_at_pool m).
#[export] Instance acts_at_world {A} (m : M world A) : Acts (at_world m) := acts_one _ (keeps_at_world m).
#[export] Instance acts_get : Acts get := acts_one _ keeps_get.
#[export] Instance acts_crash {A} c : Acts (crash_with (A := A) c) := acts_one _ (keeps_crash c).

#[export] Instance acts_ret {A} (a : A) : Acts (mret a).
Proof. by exists (Ret a). Defined.

#[export] Instance acts_bind {A B} (m : M sfs_state A) (f : A → M sfs_state B) :
  Acts m → (∀ a, Acts (f a)) → Acts (m ≫= f).
Proof.
  intros Hm Hf. exists (pbind (acts_prog m) (λ a, acts_prog (f a))).
  - intros s. rewrite run_all_pbind. unfold mbind, M_bind. rewrite (acts_run (h := m)).
    destruct (m s); [apply acts_run|done].
  - apply acts_pbind; [apply acts_ok|intros a; apply acts_ok].
Defined.

#[export] Instance acts_if {A} (b : bool) (m m' : M sfs_state A) : Acts m → Acts m' → Acts (if b then m else m').
Proof. intros Hm Hm'. exists (if b then acts_prog m else acts_prog m'); destruct b; apply acts_run || apply acts_ok. Defined.

#[export] Instance acts_option {A B} (o : option B) (f : B → M sfs_state A) m :
  (∀ b, Acts (f b)) → Acts m → Acts (match o with Some b => f b | None => m end).
Proof.
  intros Hf Hm. exists (match o with Some b => acts_prog (f b) | None => acts_prog m end); destruct o;
    apply acts_run || apply acts_ok.
Defined.

(** ** With the mutex taken *)
Class Critical {A} (h : M sfs_state A) := {
  critical_prog : prog A;
  critical_run s : run_all critical_prog s = h s;
  critical_ok : under_lock critical_prog;
}.
Arguments critical_prog {A} h {_}.

#[export] Instance critical_unlock {A} (a : A) : Critical (unlock_ret a).
Proof. by exists (Unlock (Ret a)). Defined.

#[export] Instance critical_ret {A} (a : A) : Critical (mret a).
Proof. by exists (Ret a). Defined.

#[export] Instance critical_crash {A} c : Critical (crash_with (A := A) c).
Proof. exists (Act (crash_with c) Ret); [done|]. split; [apply keeps_crash|done]. Defined.

#[export] Instance critical_bind {A B} (m : M sfs_state A) (f : A → M sfs_state B) :
  Acts m → (∀ a, Critical (f a)) → Critical (m ≫= f).
Proof.
  intros Hm Hf. exists (pbind (acts_prog m) (λ a, critical_prog (f a))).
  - intros s. rewrite run_all_pbind. unfold mbind, M_bind. rewrite (acts_run (h := m)).
    destruct (m s); [apply critical_run|done].
  - apply under_lock_pbind; [apply acts_ok|intros a; apply critical_ok].
Defined.

#[export] Instance critical_if {A} (b : bool) (m m' : M sfs_state A) :
  Critical m → Critical m' → Critical (if b then m else m').
Proof. intros Hm Hm'. exists (if b then critical_prog m else critical_prog m'); destruct b; apply critical_run || apply critical_ok. Defined.

#[export] Instance critical_option {A B} (o : option B) (f : B → M sfs_state A) m :
  (∀ b, Critical (f b)) → Critical m → Critical (match o with Some b => f b | None => m end).
Proof.
  intros Hf Hm. exists (match o with Some b => critical_prog (f b) | None => critical_prog m end); destruct o;
    apply critical_run || apply critical_ok.
Defined.

#[export] Instance critical_sum {A B C} (x : B + C) (f : B → M sfs_state A) (g : C → M sfs_state A) :
  (∀ b, Critical (f b)) → (∀ c, Critical (g c)) → Critical (match x with inl b => f b | inr c => g c end).
Proof.
  intros Hf Hg. exists (match x with inl b => critical_prog (f b) | inr c => critical_prog (g c) end); destruct x;
    apply critical_run || apply critical_ok.
Defined.

#[export] Instance critical_pair {A B C} (p : B * C) (f : B → C → M sfs_state A) :
  (∀ b c, Critical (f b c)) → Critical (let '(b, c) := p in f b c).
Proof.
  intros Hf. exists (let '(b, c) := p in critical_prog (f b c)); destruct p; apply critical_run || apply critical_ok.
Defined.

#[export] Instance critical_exit {A} (x : opendir_exit) (f : sfs_fs_inode → M sfs_state A) g :
  (∀ d, Critical (f d)) → (∀ b r, Critical (g b r)) →
  Critical (match x with Opened d => f d | Failed b r => g b r end).
Proof.
  intros Hf Hg. exists (match x with Opened d => critical_prog (f d) | Failed b r => critical_prog (g b r) end);
    destruct x; apply critical_run || apply critical_ok.
Defined.

(** ** Handlers *)
Class Handler {A} (h : M sfs_state A) := {
  handler_prog : prog A;
  handler_run s : run_all handler_prog s = h s;
  handler_ok : before_lock handler_prog;
}.
Arguments handler_prog {A} h {_}.

#[export] Instance handler_ret {A} (a : A) : Handler (mret a).
Proof. by exists (Ret a). Defined.

#[export] Instance handler_if {A} (b : bool) (m m' : M sfs_state A) : Handler m → Handler m' → Handler (if b then m else m').
Proof. intros Hm Hm'. exists (if b then handler_prog m else handler_prog m'); destruct b; apply handler_run || apply handler_ok. Defined.

#[export] Instance handler_lock {A} (f : () → M sfs_state A) : Critical (f tt) → Handler (lock ≫= f).
Proof.
  intros Hf. exists (Lock (critical_prog (f tt))).
  - intros s. cbn [run_all]. unfold mbind, M_bind. destruct (lock s) as [[] s'|]; [apply critical_run|done].
  - apply critical_ok.
Defined.

Section steps.
  Context `{Env}.

#[local] Instance acts_path_name path : Acts (path_name path).
Proof. unfold path_name. cbv zeta. apply _. Defined.

#[local] Instance acts_get_fd fh : Acts (get_fd fh).
Proof. unfold get_fd. apply _. Defined.

#[local] Instance acts_open_fd inumber flags : Acts (open_fd inumber flags).
Proof. unfold open_fd. apply _. Defined.

#[local] Instance getattr_handler path : Handler (sfs_getattr path).
Proof. unfold sfs_getattr. cbv zeta. apply _. Defined.
#[local] Instance create_handler ctx path mode flags : Handler (sfs_create ctx path mode flags).
Proof. unfold sfs_create. cbv zeta. apply _. Defined.
#[local] Instance unlink_handler path : Handler (sfs_unlink path).
Proof. unfold sfs_unlink. cbv zeta. apply _. Defined.
#[local] Instance open_handler path flags : Handler (sfs_open path flags).
Proof. unfold sfs_open. cbv zeta. apply _. Defined.
#[local] Instance release_handler fh : Handler (sfs_release fh).
Proof. unfold sfs_release. cbv zeta. apply _. Defined.
#[local] Instance read_handler buf size offset fh : Handler (sfs_read buf size offset fh).
Proof. unfold sfs_read. cbv zeta. apply _. Defined.
#[local] Instance write_handler buf size offset fh : Handler (sfs_write buf size offset fh).
Proof. unfold sfs_write. cbv zeta. apply _. Defined.
#[local] Instance mkdir_handler path mode : Handler (sfs_mkdir path mode).
Proof. unfold sfs_mkdir. apply _. Defined.
#[local] Instance rmdir_handler path : Handler (sfs_rmdir path).
Proof. unfold sfs_rmdir. apply _. Defined.
#[local] Instance opendir_handler path flags : Handler (sfs_opendir path flags).
Proof. unfold sfs_opendir. cbv zeta. apply _. Defined.
#[local] Instance readdir_handler path filler : Handler (sfs_readdir path filler).
Proof. unfold sfs_readdir. cbv zeta. apply _. Defined.
#[local] Instance releasedir_handler fh : Handler (sfs_releasedir fh).
Proof. unfold sfs_releasedir. cbv zeta. apply _. Defined.

(** For example: what [sfs_release] does to the shared state. *)
Example release_steps fh :
  handler_prog (sfs_release fh) =
    Lock (Act (at_pool (sfs_filedescriptor_get_from_fd (int32 fh))) (λ o,
      match o with
      | None => Unlock (Ret (-1))
      | Some fd =>
          Act (at_pool (fd_inumber fd)) (λ inumber,
          Act (at_fs (sfs_fs_read_inode inumber)) (λ o,
            match o with
            | None => Unlock (Ret (-1))
            | Some inode =>
                Act (at_fs (drop_link inode)) (λ r,
                if negb (r =? 0) then Unlock (Ret (-1))
                else Act (at_pool (sfs_filedescriptor_free fd)) (λ _, Unlock (Ret 0)))
            end))
      end)).
Proof. reflexivity. Qed.

(** ** Requests *)

(** The steps of a request.  Unmounting and mounting again are two handlers,
    which run when no other does. *)
Definition steps (r : req) : prog resp :=
  match r with
  | Create ctx p mode flags => pmap (λ '(r, fh), RFd r fh) (handler_prog (sfs_create ctx (path_bytes p) mode flags))
  | Open p flags => pmap (λ '(r, fh), RFd r fh) (handler_prog (sfs_open (path_bytes p) flags))
  | Write fh buf => pmap RInt (handler_prog (sfs_write buf (Z.of_nat (length buf)) 0 fh))
  | Read fh n => pmap (λ '(r, buf), RBytes r buf) (handler_prog (sfs_read (replicate (Z.to_nat n) x00) n 0 fh))
  | Release fh => pmap RInt (handler_prog (sfs_release fh))
  | Unlink p => pmap RInt (handler_prog (sfs_unlink (path_bytes p)))
  | Getattr p => pmap (λ '(r, st), RAttributes r (stat_attributes <$> st)) (handler_prog (sfs_getattr (path_bytes p)))
  | Readdir p =>
      pmap (λ '(r, l), RList r (map (λ e, (e.1, stat_attributes <$> e.2)) l)) (handler_prog (sfs_readdir (path_bytes p) (λ _, false)))
  | Opendir p flags => pmap (λ '(r, fh), RFd r fh) (handler_prog (sfs_opendir (path_bytes p) flags))
  | Releasedir fh => pmap RInt (handler_prog (sfs_releasedir fh))
  | Mkdir p mode => pmap RInt (handler_prog (sfs_mkdir (path_bytes p) mode))
  | Rmdir p => pmap RInt (handler_prog (sfs_rmdir (path_bytes p)))
  | Remount => Act (serve Remount) Ret
  end.

Lemma run_pmap {A B} (g : A → B) (h : M sfs_state A) (h' : M sfs_state B) (Hh : Handler h) s :
  h' s = (h ≫= λ a, mret (g a)) s → run_all (pmap g (handler_prog h)) s = h' s.
Proof.
  intros ->. unfold pmap. rewrite run_all_pbind. unfold mbind, M_bind. rewrite (handler_run (h := h)). by destruct (h s).
Qed.

(** One after the other, the steps of a request are its handler. *)
Lemma steps_run r s : run_all (steps r) s = serve r s.
Proof.
  destruct r; cbn [steps]; try (apply run_pmap; unfold_serve; unfold mbind, M_bind; by case_match; try case_match).
  cbn [run_all]. unfold mbind, M_bind. by destruct (serve Remount s).
Qed.

Lemma steps_ok r : r ≠ Remount → before_lock (steps r).
Proof. intros Hr. destruct r; try done; apply before_lock_pmap, handler_ok. Qed.

End steps.
