(* ===== verification/Concurrency.v ===== *)
(** * Handlers called by several threads

    FUSE serves requests in several threads, which share the state of the
    program.  A thread calls a handler, takes its steps ([Steps.v]) one by one,
    each on the state as the threads have left it by then, and returns; [lock] is
    a step like any other, and has no way to go while the mutex is taken.  The
    machine interleaves the threads in any way and knows nothing of the mutex.
    The theorems say that what comes out is what the handlers do one after the
    other, and that every thread returns. *)

From S2P Require Export Steps SfsMutex.

(** The requests of a list at the given places. *)
Definition pick {A} (os : list A) (l : list nat) : list A := omap (λ i, os !! i) l.

Lemma pick_snoc {A} (os : list A) l i o : os !! i = Some o → pick os (l ++ [i]) = pick os l ++ [o].
Proof. intros Ho. unfold pick. rewrite omap_app. cbn [omap list_omap]. by rewrite Ho. Qed.

(** ** The machine *)
Section machine.
  Context {op answer : Type} (code : op → prog answer).

Inductive thread :=
  | Idle (o : op)
  | Running (p : prog answer)
  | Returned (a : answer).

Inductive event :=
  | Called (i : nat)
  | Answered (i : nat).

(** [history]: when threads called their handlers and returned from them. *)
Record machine := Machine {
  threads : list thread;
  shared : sfs_state;
  history : list event;
}.

(** A thread calls its handler; takes the next step of it, where that has a
    result; or returns. *)
Inductive step : machine → machine → Prop :=
  | step_call ts s h i o :
      ts !! i = Some (Idle o) → step (Machine ts s h) (Machine (<[i := Running (code o)]> ts) s (h ++ [Called i]))
  | step_turn ts s h i p m p' s' :
      ts !! i = Some (Running p) → turn p = Some m → m s = Done p' s' →
      step (Machine ts s h) (Machine (<[i := Running p']> ts) s' h)
  | step_return ts s h i a :
      ts !! i = Some (Running (Ret a)) →
      step (Machine ts s h) (Machine (<[i := Returned a]> ts) s (h ++ [Answered i])).

Definition start (os : list op) (s : sfs_state) : machine := Machine (map Idle os) s [].

Definition returned_all (m : machine) : Prop := ∀ i t, threads m !! i = Some t → ∃ a, t = Returned a.

(** Thread [i] had returned when thread [j] called. *)
Definition returned_before (h : list event) (i j : nat) : Prop :=
  ∃ x y, (x < y)%nat ∧ h !! x = Some (Answered i) ∧ h !! y = Some (Called j).

(** [i] is in the list, before any [j] in it. *)
Definition precedes (l : list nat) (i j : nat) : Prop :=
  ∃ x, l !! x = Some i ∧ ∀ y, l !! y = Some j → (x < y)%nat.

Lemma precedes_snoc l i j k : precedes l i j → precedes (l ++ [k]) i j.
Proof.
  intros (x & Hx & Hall). exists x. split; [by apply lookup_app_l_Some|].
  intros y [[_ Hy]|[-> _]]%lookup_snoc_Some; [by apply Hall|by apply lookup_lt_Some in Hx].
Qed.

(** One after the other. *)
Definition perform (o : op) : M sfs_state answer := run_all (code o).

Fixpoint perform_all (os : list op) : M sfs_state (list answer) :=
  match os with
  | [] => mret []
  | o :: os => a ← perform o; l ← perform_all os; mret (a :: l)
  end.

Lemma perform_all_snoc os o s l s1 a s2 :
  perform_all os s = Done l s1 → perform o s1 = Done a s2 → perform_all (os ++ [o]) s = Done (l ++ [a]) s2.
Proof.
  revert s l. induction os as [|x os IH]; intros s l E1 E2; cbn [perform_all app].
  - injection E1 as <- <-. by rewrite (bind_done _ _ _ _ _ E2).
  - cbn [perform_all] in E1. unfold mbind, M_bind in E1 |- *. destruct (perform x s) as [b sb|]; [|done].
    destruct (perform_all os sb) as [l' s'|] eqn:E; [|done]. injection E1 as <- <-. by rewrite (IH _ _ E E2).
Qed.

Lemma perform_all_last os o s0 l s1 l2 s2 :
  perform_all os s0 = Done l s1 → perform_all (os ++ [o]) s0 = Done l2 s2 → ∃ a, perform o s1 = Done a s2.
Proof.
  revert s0 l l2. induction os as [|x os IH]; intros s0 l l2 E1 E2; cbn [perform_all app] in *.
  - injection E1 as <- <-. unfold mbind, M_bind in E2. destruct (perform o s0) as [a s'|]; [|done].
    injection E2 as <- <-. by exists a.
  - unfold mbind, M_bind in E1, E2. destruct (perform x s0) as [b sb|]; [|done].
    destruct (perform_all os sb) as [l' s'|] eqn:E; [|done]. injection E1 as <- <-.
    destruct (perform_all (os ++ [o]) sb) as [l3 s3|] eqn:E3; [|done]. injection E2 as <- <-. by eapply IH.
Qed.

(** ** The invariant

    [l]: the threads that are done with the state, in the order in which they
    were; [base]: the state they have left.  [h], if any, is between taking the
    mutex and giving it back: what it still does to the shared state is the
    rest of what its handler does to [base]. *)
Definition done_with (l : list nat) (la : list answer) (i : nat) (a : answer) : Prop :=
  ∃ k, l !! k = Some i ∧ la !! k = Some a.

Definition role (os : list op) (l : list nat) (la : list answer) (h : option nat) (base s : sfs_state)
    (i : nat) (t : thread) : Prop :=
  let todo o := os !! i = Some o ∧ i ∉ l in
  match t with
  | Idle o => todo o ∧ h ≠ Some i
  | Running p =>
      (∃ o, todo o ∧ h ≠ Some i ∧ p = code o) ∨
      (∃ o, todo o ∧ h = Some i ∧ under_lock p ∧ run_all p s = perform o base) ∨
      (∃ a, p = Ret a ∧ done_with l la i a ∧ h ≠ Some i)
  | Returned a => done_with l la i a ∧ h ≠ Some i
  end.

Record serial (os : list op) (s0 : sfs_state) (m : machine)
    (l : list nat) (la : list answer) (h : option nat) (base : sfs_state) : Prop := Serial {
  se_length : length (threads m) = length os;
  se_nodup : NoDup l;
  se_range i : i ∈ l → (i < length os)%nat;
  se_run : perform_all (pick os l) s0 = Done la base;
  se_answers : length la = length l;
  se_free : h = None → shared m = base;
  se_held i : h = Some i → mu (shared m) = true ∧ ∃ p, threads m !! i = Some (Running p);
  se_role i t : threads m !! i = Some t → role os l la h base (shared m) i t;
  se_answered i : Answered i ∈ history m → i ∈ l;
  se_order i j : returned_before (history m) i j → precedes l i j;
}.

Lemma serial_start os s0 : serial os s0 (start os s0) [] [] None s0.
Proof.
  split; cbn [start threads shared history]; try done.
  - by rewrite length_map.
  - constructor.
  - by intros i ?%not_elem_of_nil.
  - intros i t Ht. apply list_lookup_fmap_Some in Ht as (o & -> & Ho).
    split; [split; [done|apply not_elem_of_nil]|done].
  - by intros i ?%not_elem_of_nil.
  - intros i j (x & y & _ & ? & _). done.
Qed.

Lemma done_with_snoc l la k b i a : length la = length l → done_with l la i a → done_with (l ++ [k]) (la ++ [b]) i a.
Proof. intros Hl (x & Hx & Ha). exists x. by split; apply lookup_app_l_Some. Qed.

Lemma done_with_last l la i a : length la = length l → done_with (l ++ [i]) (la ++ [a]) i a.
Proof.
  intros Hl. exists (length l). split; apply lookup_snoc_Some; right; [done|by rewrite Hl].
Qed.

Lemma NoDup_snoc (l : list nat) i : NoDup l → i ∉ l → NoDup (l ++ [i]).
Proof.
  intros Hl Hi. apply NoDup_app. split; [done|]. split; [|apply NoDup_singleton].
  intros j Hj. rewrite list_elem_of_singleton. by intros ->.
Qed.

(** A new event only relates the call to those that returned before. *)
Lemma returned_before_snoc h e i j :
  returned_before (h ++ [e]) i j → returned_before h i j ∨ (Answered i ∈ h ∧ e = Called j).
Proof.
  intros (x & y & Hxy & Hx & Hy). apply lookup_snoc_Some in Hx as [[_ Hx]|[-> ->]].
  - apply lookup_snoc_Some in Hy as [[_ Hy]|[-> ->]]; [left; by exists x, y|right]. split; [|done]. by eapply list_elem_of_lookup_2.
  - apply lookup_lt_Some in Hy. rewrite length_app in Hy. simpl in Hy. lia.
Qed.

(** ** It is kept *)

(** The others, when [i] takes the mutex, works under it or gives it back. *)
Lemma role_other os l la h base s i j t h' base' s' :
  j ≠ i → h = None ∨ h = Some i → h' = None ∨ h' = Some i →
  role os l la h base s j t → role os l la h' base' s' j t.
Proof.
  intros Hne Hh Hh'. assert (h' ≠ Some j) as Hn by (destruct Hh' as [->| ->]; congruence).
  destruct t as [o|p|a]; cbn [role]; [tauto| |tauto].
  intros [(o & ? & _ & ?)|[(o & _ & E & _)|(a & ? & ? & _)]]; [left; by exists o|destruct Hh; congruence|right; right; by exists a].
Qed.

(** The others, when [i] is done with the state. *)
Lemma role_snoc os l la h base s i j t a :
  j ≠ i → length la = length l →
  role os l la h base s j t → role os (l ++ [i]) (la ++ [a]) h base s j t.
Proof.
  intros Hne Hl. assert (j ∉ l → j ∉ l ++ [i]) as Hj.
  { intros Hj. rewrite elem_of_app, list_elem_of_singleton. by intros [?|?]. }
  destruct t as [o|p|b]; cbn [role]; [intuition auto| |].
  - intros [(o & [? ?] & ?)|[(o & [? ?] & ?)|(b & ? & ? & ?)]];
      [left; exists o; auto|right; left; exists o; auto|right; right; exists b]. eauto using done_with_snoc.
  - intros [? ?]. eauto using done_with_snoc.
Qed.

Section kept.
  Context (os : list op) (s0 : sfs_state) (Hcode : ∀ o, o ∈ os → before_lock (code o)).

(** One more thread is done with the state, and has left it as [base']. *)
Lemma serial_done ts s hist l la h base i o a base' h' t' s' hist' :
  serial os s0 (Machine ts s hist) l la h base →
  os !! i = Some o → i ∉ l → perform o base = Done a base' → is_Some (ts !! i) →
  (h = Some i ∧ h' = None ∧ s' = base') ∨ (h ≠ Some i ∧ h' = h ∧ base' = base ∧ s' = s) →
  role os (l ++ [i]) (la ++ [a]) h' base' s' i t' →
  (∀ j, Answered j ∈ hist' → Answered j ∈ hist ∨ j = i) →
  (∀ j k, returned_before hist' j k → returned_before hist j k) →
  serial os s0 (Machine (<[i := t']> ts) s' hist') (l ++ [i]) (la ++ [a]) h' base'.
Proof.
  intros [H1 H2 H3 H4 H5 H6 H7 H8 H9 H10] Ho Hnin Hrun Hi Hcase Ht' Hans Hord. cbn [threads shared history] in *.
  split; cbn [threads shared history].
  - by rewrite length_insert.
  - by apply NoDup_snoc.
  - intros j [Hj|Hj%list_elem_of_singleton]%elem_of_app; [by apply H3|subst j; by apply lookup_lt_Some in Ho].
  - rewrite (pick_snoc _ _ _ _ Ho). by apply (perform_all_snoc _ _ _ _ _ _ _ H4).
  - rewrite !length_app. simpl. lia.
  - intros ->. destruct Hcase as [(_ & _ & ->)|(_ & <- & -> & ->)]; [done|by apply H6].
  - intros j ->. destruct Hcase as [(_ & ? & _)|(Hne & <- & -> & ->)]; [done|].
    destruct (H7 j eq_refl) as (Hmu & p & Hp). split; [done|]. exists p. rewrite list_lookup_insert_ne by congruence. done.
  - intros j t [(-> & <- & _)|[Hne Ht]]%list_lookup_insert_Some; [exact Ht'|]. apply role_snoc; [done|done|].
    destruct Hcase as [(Eh & -> & ->)|(_ & -> & -> & ->)]; [|by apply H8].
    apply (role_other _ _ _ h base s i); [done|by right|by left|by apply H8].
  - intros j Hj. apply elem_of_app. destruct (Hans j Hj) as [Hold| ->]; [left; by apply H9|right; left].
  - intros j k Hjk. by apply precedes_snoc, H10, Hord.
Qed.

Lemma serial_call ts s hist l la h base i o :
  serial os s0 (Machine ts s hist) l la h base → ts !! i = Some (Idle o) →
  serial os s0 (Machine (<[i := Running (code o)]> ts) s (hist ++ [Called i])) l la h base.
Proof.
  intros [H1 H2 H3 H4 H5 H6 H7 H8 H9 H10] Hi. cbn [threads shared history] in *.
  destruct (H8 i _ Hi) as ([Ho Hnin] & Hh). split; cbn [threads shared history]; try done.
  - by rewrite length_insert.
  - intros j Ej. destruct (H7 j Ej) as (Hmu & p & Hp). split; [done|]. exists p. by rewrite list_lookup_insert_ne by congruence.
  - intros j t [(-> & <- & _)|[Hne Ht]]%list_lookup_insert_Some; [left; by exists o|by apply H8].
  - intros j [Hj|Hj%list_elem_of_singleton]%elem_of_app; [by apply H9|done].
  - intros j k [Hjk|[Hj [= ->]]]%returned_before_snoc; [by apply H10|].
    apply H9, list_elem_of_lookup in Hj as [x Hx]. exists x. split; [done|]. intros y Hy. destruct Hnin. by eapply list_elem_of_lookup_2.
Qed.

Lemma serial_return ts s hist l la h base i a :
  serial os s0 (Machine ts s hist) l la h base → ts !! i = Some (Running (Ret a)) →
  ∃ l' la' h' base', serial os s0 (Machine (<[i := Returned a]> ts) s (hist ++ [Answered i])) l' la' h' base'.
Proof.
  intros Hse Hi. pose proof (se_role _ _ _ _ _ _ _ Hse i _ Hi) as Hrole. cbn [role shared] in Hrole.
  assert (∀ j, Answered j ∈ hist ++ [Answered i] → Answered j ∈ hist ∨ j = i) as Hans.
  { intros j [?|[= ->]%list_elem_of_singleton]%elem_of_app; [by left|by right]. }
  assert (∀ j k, returned_before (hist ++ [Answered i]) j k → returned_before hist j k) as Hord.
  { by intros j k [?|[_ ?]]%returned_before_snoc. }
  pose proof (se_answers _ _ _ _ _ _ _ Hse) as Hl.
  destruct Hrole as [(o & [Ho Hnin] & Hh & E)|[(o & [Ho Hnin] & -> & _ & E)|(b & [= <-] & Hd & Hh)]].
  - exists (l ++ [i]), (la ++ [a]), h, base.
    apply (serial_done ts s hist l la h base i o a base h _ s); try done; [unfold perform; by rewrite <-E|by right|].
    split; [by apply done_with_last|done].
  - exists (l ++ [i]), (la ++ [a]), None, s. apply (serial_done ts s hist l la (Some i) base i o a s None _ s); try done; [by left|].
    split; [by apply done_with_last|done].
  - exists l, la, h, base. destruct Hse as [H1 H2 H3 H4 H5 H6 H7 H8 H9 H10]. cbn [threads shared history] in *.
    split; cbn [threads shared history]; try done.
    + by rewrite length_insert.
    + intros j Ej. destruct (H7 j Ej) as (Hmu & p & Hp). split; [done|]. exists p. by rewrite list_lookup_insert_ne by congruence.
    + intros j t [(-> & <- & _)|[Hne Ht]]%list_lookup_insert_Some; [done|by apply H8].
    + intros j Hj. destruct (Hans j Hj) as [? | ->]; [by apply H9|]. destruct Hd as (k & Hk & _). by eapply list_elem_of_lookup_2.
    + intros j k Hjk. by apply H10, Hord.
Qed.

(** Taking the mutex, which is free. *)
Lemma serial_lock ts s hist l la h base i o p :
  serial os s0 (Machine ts s hist) l la h base → ts !! i = Some (Running (Lock p)) →
  os !! i = Some o → i ∉ l → code o = Lock p → under_lock p → mu s = false →
  serial os s0 (Machine (<[i := Running p]> ts) (set_mu true s) hist) l la (Some i) base.
Proof.
  intros Hse Hi Ho Hnin Hc Hp Hmu. assert (h = None) as ->.
  { destruct h as [j|]; [|done]. destruct (se_held _ _ _ _ _ _ _ Hse j eq_refl) as [E _]. simpl in E. congruence. }
  destruct Hse as [H1 H2 H3 H4 H5 H6 H7 H8 H9 H10]. cbn [threads shared history] in *. specialize (H6 eq_refl) as ->.
  split; cbn [threads shared history]; try done.
  - by rewrite length_insert.
  - intros j [= <-]. split; [done|]. exists p. apply list_lookup_insert_eq. by eapply lookup_lt_Some.
  - intros j t [(-> & <- & _)|[Hne Ht]]%list_lookup_insert_Some.
    + right. left. exists o. split_and!; try done. unfold perform. rewrite Hc. cbn [run_all]. by rewrite lock_run.
    + apply (role_other _ _ _ None base base i); [done|by left|by right|by apply H8].
Qed.

(** A step under the mutex. *)
Lemma serial_act ts s hist l la base i {B} (m : M sfs_state B) k b s' :
  serial os s0 (Machine ts s hist) l la (Some i) base → ts !! i = Some (Running (Act m k)) → m s = Done b s' →
  serial os s0 (Machine (<[i := Running (k b)]> ts) s' hist) l la (Some i) base.
Proof.
  intros Hse Hi Hm. pose proof (se_role _ _ _ _ _ _ _ Hse i _ Hi) as Hrole. cbn [role shared] in Hrole.
  destruct Hrole as [(o & _ & ? & _)|[(o & Ho & _ & [Hkeep Hk] & E)|(a & ? & _)]]; [done| |done].
  destruct Hse as [H1 H2 H3 H4 H5 H6 H7 H8 H9 H10]. cbn [threads shared history] in *.
  split; cbn [threads shared history]; try done.
  - by rewrite length_insert.
  - intros j [= <-]. destruct (H7 i eq_refl) as [Hmu _]. split; [by rewrite (Hkeep _ _ _ Hm)|].
    exists (k b). apply list_lookup_insert_eq. by eapply lookup_lt_Some.
  - intros j t [(-> & <- & _)|[Hne Ht]]%list_lookup_insert_Some.
    + right. left. exists o. split; [exact Ho|]. split; [done|]. split; [apply Hk|]. rewrite <-E. cbn [run_all]. by rewrite (bind_done _ _ _ _ _ Hm).
    + apply (role_other _ _ _ (Some i) base s i); [done|by right|by right|by apply H8].
Qed.

Lemma serial_turn ts s hist l la h base i p m p' s' :
  serial os s0 (Machine ts s hist) l la h base → ts !! i = Some (Running p) → turn p = Some m → m s = Done p' s' →
  ∃ l' la' h' base', serial os s0 (Machine (<[i := Running p']> ts) s' hist) l' la' h' base'.
Proof.
  intros Hse Hi Hp Hm. pose proof (se_role _ _ _ _ _ _ _ Hse i _ Hi) as Hrole. cbn [role shared] in Hrole.
  destruct Hrole as [(o & [Ho Hnin] & Hh & E)|[(o & [Ho Hnin] & -> & Hu & E)|(a & -> & _)]]; [| |done].
  - assert (before_lock p) as Hb by (rewrite E; apply Hcode; by eapply list_elem_of_lookup_2).
    destruct p as [a|q|q|C n k]; [done| |done..]. injection Hp as <-.
    unfold lock in Hm. destruct (mu s) eqn:Hmu; revert Hm; run; rewrite Hmu; [done|]. intros [= <- <-].
    exists l, la, (Some i), base. by apply (serial_lock ts s hist l la h base i o q).
  - destruct p as [a|q|q|C n k]; [done|done| |].
    + injection Hp as <-. destruct q as [a|q|q|C n k]; [|done..]. injection Hm as <- <-.
      exists (l ++ [i]), (la ++ [a]), None, (set_mu false s).
      apply (serial_done ts s hist l la (Some i) base i o a _ None); try done; [by left| |auto].
      right. right. exists a. split_and!; [done| |done]. apply done_with_last, (se_answers _ _ _ _ _ _ _ Hse).
    + injection Hp as <-. unfold mbind, M_bind in Hm. destruct (n s) as [b s1|] eqn:En; [|done]. injection Hm as <- <-.
      exists l, la, (Some i), base. by apply (serial_act ts s hist l la base i n k b s1).
Qed.

Lemma serial_step m m' l la h base :
  serial os s0 m l la h base → step m m' → ∃ l' la' h' base', serial os s0 m' l' la' h' base'.
Proof.
  intros Hse Hs. destruct Hs as [ts s hist i o Hi|ts s hist i p m p' s' Hi Hp Hm|ts s hist i a Hi].
  - exists l, la, h, base. by apply serial_call.
  - by eapply serial_turn.
  - by eapply serial_return.
Qed.

Lemma serial_steps m m' :
  rtc step m m' → (∃ l la h base, serial os s0 m l la h base) → ∃ l la h base, serial os s0 m' l la h base.
Proof.
  induction 1 as [|m m1 m' Hs _ IH]; [done|]. intros (l & la & h & base & Hse). apply IH.
  by apply (serial_step m m1 l la h base).
Qed.

Lemma serial_reached m : rtc step (start os s0) m → ∃ l la h base, serial os s0 m l la h base.
Proof. intros Hr. apply (serial_steps _ _ Hr). exists [], [], None, s0. apply serial_start. Qed.

(** When all have returned, every thread had its turn. *)
Lemma serial_returned m l la h base :
  serial os s0 m l la h base → returned_all m →
  l ≡ₚ seq 0 (length os) ∧ shared m = base ∧
  ∀ i a, threads m !! i = Some (Returned a) ↔ done_with l la i a.
Proof.
  intros [H1 H2 H3 H4 H5 H6 H7 H8 H9 H10] Hall.
  assert (∀ i, (i < length os)%nat → ∃ a, threads m !! i = Some (Returned a) ∧ done_with l la i a) as Hret.
  { intros i Hi. rewrite <-H1 in Hi. destruct (lookup_lt_is_Some_2 _ _ Hi) as [t Ht].
    destruct (Hall i t Ht) as [a ->]. exists a. split; [done|]. by apply (H8 i _ Ht). }
  split; [|split].
  - apply NoDup_Permutation; [done|apply NoDup_seq|]. intros i. rewrite elem_of_seq. split; [intros Hi; specialize (H3 i Hi); lia|].
    intros [_ Hi]. destruct (Hret i Hi) as (a & _ & k & Hk & _). by eapply list_elem_of_lookup_2.
  - destruct h as [i|]; [|by apply H6]. destruct (H7 i eq_refl) as (_ & p & Hp). by destruct (Hall _ _ Hp).
  - intros i a. split; [intros Hi; by apply (H8 i _ Hi)|]. intros (k & Hk & Ha).
    destruct (Hret i) as (b & Hb & k' & Hk' & Hb'); [apply H3; by eapply list_elem_of_lookup_2|]. rewrite Hb.
    assert (k = k') as <- by (by apply (NoDup_lookup l k k' i)). congruence.
Qed.

End kept.

(** ** Every execution ends

    Each step takes one thread further in its handler, and handlers are
    finite. *)
Inductive thread_step : thread → thread → Prop :=
  | thread_call o : thread_step (Idle o) (Running (code o))
  | thread_turn p m s p' s' : turn p = Some m → m s = Done p' s' → thread_step (Running p) (Running p')
  | thread_return a : thread_step (Running (Ret a)) (Returned a).

Definition ends {A} (R : A → A → Prop) (a : A) : Prop := Acc (flip R) a.

Lemma running_ends p : ends thread_step (Running p).
Proof.
  induction p as [a|p IH|p IH|B m k IH]; constructor; intros t Ht; inversion Ht as [|q n s q' s' Hq Hn|]; subst.
  - discriminate.
  - constructor. intros t' Ht'. inversion Ht'.
  - injection Hq as <-. unfold mbind, M_bind in Hn. destruct (lock s); [|discriminate]. injection Hn as <- _. exact IH.
  - injection Hq as <-. unfold mbind, M_bind in Hn. destruct (unlock s); [|discriminate]. injection Hn as <- _. exact IH.
  - injection Hq as <-. unfold mbind, M_bind in Hn. destruct (m s) as [b|]; [|discriminate]. injection Hn as <- _. exact (IH b).
Qed.

Lemma thread_ends t : ends thread_step t.
Proof.
  destruct t as [o|p|a]; [|apply running_ends|]; constructor; intros t Ht; inversion Ht; subst. apply running_ends.
Qed.

(** One of several goes on. *)
Definition one_step {A} (R : A → A → Prop) (l l' : list A) : Prop :=
  ∃ i a a', l !! i = Some a ∧ R a a' ∧ l' = <[i := a']> l.

Lemma list_ends {A} (R : A → A → Prop) l : (∀ a, ends R a) → ends (one_step R) l.
Proof.
  intros HR. induction l as [|a l IH]; [constructor; by intros l' (i & a & a' & ? & _)|].
  specialize (HR a) as Ha. revert l IH. induction Ha as [a _ IHa]. intros l Hl.
  induction Hl as [l Hacc IHl]. constructor. intros l' ([|i] & b & b' & Hb & Hstep & ->); simpl in Hb |- *.
  - injection Hb as ->. apply (IHa b' Hstep). by constructor.
  - apply IHl. by exists i, b, b'.
Qed.

Lemma step_threads m m' : step m m' → one_step thread_step (threads m) (threads m').
Proof.
  intros [ts s hist i o Hi|ts s hist i p m0 p' s' Hi Hp Hm|ts s hist i a Hi].
  - exists i, (Idle o), (Running (code o)). split; [exact Hi|]. split; [constructor|reflexivity].
  - exists i, (Running p), (Running p'). split; [exact Hi|]. split; [exact (thread_turn p m0 s p' s' Hp Hm)|reflexivity].
  - exists i, (Running (Ret a)), (Returned a). split; [exact Hi|]. split; [constructor|reflexivity].
Qed.

Lemma machine_ends m : ends step m.
Proof.
  pose proof (list_ends thread_step (threads m) thread_ends) as Hacc. remember (threads m) as ts eqn:E.
  revert m E. induction Hacc as [ts _ IH]. intros m ->. constructor. intros m' Hs.
  by apply (IH (threads m') (step_threads _ _ Hs)).
Qed.

(** ** Progress

    When the handlers return with the mutex free, in whatever order they are
    run, no thread waits for ever. *)
Definition has_returned (t : thread) : bool := match t with Returned _ => true | _ => false end.

Lemma returned_dec (ts : list thread) : (∀ i t, ts !! i = Some t → ∃ a, t = Returned a) ∨ (∃ i t, ts !! i = Some t ∧ has_returned t = false).
Proof.
  destruct (decide (Forall (λ t, has_returned t = true) ts)) as [Hf|Hf].
  - left. intros i t Hi. rewrite Forall_lookup in Hf. specialize (Hf i t Hi). destruct t as [| |a]; [done..|by exists a].
  - right. apply not_Forall_Exists, Exists_exists in Hf as (t & [i Hi]%list_elem_of_lookup & Ht); [|apply _].
    exists i, t. split; [done|]. by apply not_true_is_false.
Qed.

Definition answered (os : list op) (s0 : sfs_state) : Prop :=
  ∀ l, NoDup l → (∀ i, i ∈ l → (i < length os)%nat) →
  ∃ la s, perform_all (pick os l) s0 = Done la s ∧ mu s = false.

Lemma run_step ts s hist i p a s' :
  ts !! i = Some (Running p) → run_all p s = Done a s' → ∃ m', step (Machine ts s hist) m'.
Proof.
  intros Hi Hrun. destruct (turn p) as [m|] eqn:Ep.
  - rewrite (run_turn p m s Ep) in Hrun. unfold mbind, M_bind in Hrun. destruct (m s) as [p' s1|] eqn:Em; [|done].
    eexists. by eapply step_turn.
  - destruct p as [b| | |]; [|done..]. eexists. by apply step_return.
Qed.

Lemma serial_progress os s0 m l la h base :
  (∀ o, o ∈ os → before_lock (code o)) → answered os s0 → serial os s0 m l la h base →
  ¬ returned_all m → ∃ m', step m m'.
Proof.
  intros Hcode Hans [H1 H2 H3 H4 H5 H6 H7 H8 H9 H10] Hnot. destruct m as [ts s hist]. cbn [threads shared history] in *.
  destruct (returned_dec ts) as [|(i & t & Hi & Ht)]; [done|].
  assert (∀ j o p, os !! j = Some o → j ∉ l → ts !! j = Some (Running p) → run_all p s = perform o base →
    ∃ m', step (Machine ts s hist) m') as Hgo.
  { intros j o p Ho Hj Hp E. destruct (Hans (l ++ [j])) as (l2 & s2 & E2 & _); [by apply NoDup_snoc| |].
    - intros k [Hk|Hk%list_elem_of_singleton]%elem_of_app; [by apply H3|subst k; by apply lookup_lt_Some in Ho].
    - rewrite (pick_snoc _ _ _ _ Ho) in E2. destruct (perform_all_last _ _ _ _ _ _ _ H4 E2) as [a Ea].
      rewrite <-E in Ea. by apply (run_step ts s hist j p a s2). }
  destruct h as [j|].
  - destruct (H7 j eq_refl) as (_ & p & Hp). pose proof (H8 j _ Hp) as Hrole. cbn [role] in Hrole.
    destruct Hrole as [(o & _ & ? & _)|[(o & [Ho Hj] & _ & _ & E)|(a & _ & _ & ?)]]; [done|by apply (Hgo j o p)|done].
  - specialize (H6 eq_refl) as ->. pose proof (H8 i t Hi) as Hrole. destruct t as [o|p|a]; [| |done].
    + eexists. by apply step_call.
    + cbn [role] in Hrole. destruct Hrole as [(o & [Ho Hnin] & _ & ->)|[(o & _ & ? & _)|(a & -> & _)]].
      * by apply (Hgo i o (code o)).
      * done.
      * eexists. by apply step_return.
Qed.

Lemma runs_return os s0 m :
  (∀ o, o ∈ os → before_lock (code o)) → answered os s0 → rtc step (start os s0) m →
  ∃ m', rtc step m m' ∧ returned_all m'.
Proof.
  intros Hcode Hans. pose proof (machine_ends m) as Hacc. induction Hacc as [m _ IH]. intros Hr.
  destruct (serial_reached os s0 Hcode m Hr) as (l & la & h & base & Hse).
  destruct (returned_dec (threads m)) as [Hall|(i & t & Hi & Ht)]; [by exists m|].
  destruct (serial_progress os s0 m l la h base Hcode Hans Hse) as [m1 Hs].
  { intros Hall. by destruct (Hall i t Hi) as [a ->]. }
  destruct (IH m1 Hs) as (m' & Hr' & Hall); [by eapply rtc_r|]. exists m'. split; [by eapply rtc_l|done].
Qed.

End machine.

Arguments Idle {op answer} _.
Arguments Running {op answer} _.
Arguments Returned {op answer} _.

(** ** Requests *)
Section requests.
  Context `{EV : Env, RI : !ReliableIO, EO : !EnvOk, RM : !ReliableMalloc}.

Lemma perform_all_serve rs s : perform_all steps rs s = serve_all rs s.
Proof.
  revert s. induction rs as [|r rs IH]; intros s; [done|]. cbn [perform_all serve_all]. unfold perform.
  unfold mbind, M_bind. rewrite steps_run. destruct (serve r s) as [a s'|]; [|done]. by rewrite IH.
Qed.

Lemma code_ok (rs : list req) : Remount ∉ rs → ∀ r, r ∈ rs → before_lock (steps r).
Proof. intros Hrs r Hr. apply steps_ok. by intros ->. Qed.

(** Requests that the specification answers in any order. *)
Definition specified (v : vfs) (rs : list req) : Prop :=
  ∀ l, NoDup l → (∀ i, i ∈ l → (i < length rs)%nat) → is_Some (vfs_run v (pick rs l)).

Lemma pick_allowed rs l : Forall req_allowed rs → Forall req_allowed (pick rs l).
Proof.
  rewrite !Forall_forall. intros Hall r (i & _ & Hr)%list_elem_of_omap. apply Hall. by eapply list_elem_of_lookup_2.
Qed.

Lemma specified_answered v s rs : sim v s → Forall req_allowed rs → specified v rs → answered steps rs s.
Proof.
  intros Hsim Hall Hsp l Hnd Hl. destruct (Hsp l Hnd Hl) as [[la v'] Hrun].
  destruct (sim_run v s (pick rs l) la v' Hsim (pick_allowed rs l Hall) Hrun) as (s' & E & Hsim').
  exists la, s'. rewrite perform_all_serve. split; [exact E|exact (si_mu _ _ Hsim')].
Qed.

(** C2: handlers that run at the same time take effect one after the other.
    Threads send requests - any but mounting and unmounting, in any state of the
    program; transfers are from offset 0, as in all requests - and take their
    steps in any interleaving.  When all have returned, there is an order of the
    requests in which the handlers, run one after the other without interruption,
    give every thread the answer it got and end in the same state; a request whose thread had returned when
    another thread called comes before that one's.  So when the specification
    answers the requests in this order, its answers are the ones the threads
    got, and the file system it ends with is the one on the disk. *)
Theorem concurrent_requests_linearise (rs : list req) s m :
  Remount ∉ rs → rtc (step steps) (start rs s) m → returned_all m →
  ∃ l la, l ≡ₚ seq 0 (length rs) ∧ serve_all (pick rs l) s = Done la (shared m) ∧
    (∀ i a, threads m !! i = Some (Returned a) ↔ ∃ k, l !! k = Some i ∧ la !! k = Some a) ∧
    (∀ i j, returned_before (history m) i j → precedes l i j) ∧
    (∀ v la' v', sim v s → Forall req_allowed rs → vfs_run v (pick rs l) = Some (la', v') →
       la = la' ∧ sim v' (shared m)).
Proof.
  intros Hrs Hr Hret. destruct (serial_reached steps rs s (code_ok rs Hrs) m Hr) as (l & la & h & base & Hse).
  destruct (serial_returned steps rs s m l la h base Hse Hret) as (Hperm & <- & Hans).
  pose proof (se_run _ _ _ _ _ _ _ _ Hse) as E. rewrite perform_all_serve in E.
  exists l, la. split; [exact Hperm|]. split; [exact E|]. split; [exact Hans|].
  split; [exact (se_order _ _ _ _ _ _ _ _ Hse)|]. intros v la' v' Hsim Hall Hrun.
  destruct (sim_run v s _ la' v' Hsim (pick_allowed rs l Hall) Hrun) as (s' & E' & Hsim').
  rewrite E in E'. injection E' as -> <-. done.
Qed.

(** C6: no thread waits for ever.  For requests that the specification answers
    in any order - not, for one, opening another directory than "/", which keeps
    the mutex - and whatever the interleaving: no execution is infinite; one
    that has come to an end has every thread returned; and from every state that
    is reached the execution can be continued to that end. *)
Theorem concurrent_requests_return v s (rs : list req) m :
  sim v s → Forall req_allowed rs → Remount ∉ rs → specified v rs → rtc (step steps) (start rs s) m →
  Acc (flip (step steps)) m ∧
  ((∀ m', ¬ step steps m m') → returned_all m) ∧
  (∃ m', rtc (step steps) m m' ∧ returned_all m').
Proof.
  intros Hsim Hall Hrs Hsp Hr. pose proof (specified_answered v s rs Hsim Hall Hsp) as Hans.
  destruct (runs_return steps rs s m (code_ok rs Hrs) Hans Hr) as (m' & Hr' & Hret).
  split; [apply machine_ends|]. split; [|by exists m'].
  intros Hstop. inversion Hr' as [|m1 m2 m3 Hs _]; subst; [exact Hret|]. by destruct (Hstop m2).
Qed.

End requests.

(** Requests that are answered in every state. *)
Definition always_answered (r : req) : bool :=
  match r with
  | Getattr p | Unlink p | Readdir p => path_ok p
  | Mkdir _ _ => true
  | _ => false
  end.

Lemma resolve_total p : path_ok p = true → is_Some (resolve p).
Proof. intros Hp. unfold resolve. rewrite Hp. destruct p as [|c [|d p]]; by eexists. Qed.

Lemma always_answered_step v r : always_answered r = true → is_Some (vfs_step v r).
Proof.
  destruct r; try done; cbn [always_answered vfs_step]; intros [t ->]%resolve_total; by eexists.
Qed.

Lemma always_answered_run v rs : forallb always_answered rs = true → is_Some (vfs_run v rs).
Proof.
  revert v. induction rs as [|r rs IH]; intros v Hrs; [done|]. cbn [forallb] in Hrs.
  apply andb_true_iff in Hrs as [Hr Hrs]. destruct (always_answered_step v r Hr) as [[a v1] E].
  cbn [vfs_run]. rewrite E. cbn [mbind option_bind]. destruct (IH v1 Hrs) as [[l v2] E2]. by rewrite E2.
Qed.

Lemma always_answered_specified v rs : forallb always_answered rs = true → specified v rs.
Proof.
  intros Hrs l _ _. apply always_answered_run. apply forallb_forall. intros r Hr%list_elem_of_In.
  apply list_elem_of_omap in Hr as (i & _ & Hr). rewrite forallb_forall in Hrs. apply Hrs, list_elem_of_In.
  by eapply list_elem_of_lookup_2.
Qed.

(** ** Witnesses *)

(** Two threads remove the same file, others look, and one is refused. *)
Definition demo_race : list req := [Unlink [name_a]; Getattr [name_b]; Readdir []; Unlink [name_a]; Unlink []; Mkdir [name_a] 448].

Lemma demo_race_specified v : specified v demo_race.
Proof. by apply always_answered_specified. Qed.

Lemma demo_race_mounted : Remount ∉ demo_race.
Proof. unfold demo_race. rewrite !not_elem_of_cons. split_and!; [done..|apply not_elem_of_nil]. Qed.

Lemma concurrent_requests_linearise_witness :
  ∃ s m l la, sim demo_two s ∧ rtc (step (steps (H := demo_env))) (start demo_race s) m ∧ returned_all m ∧
    l ≡ₚ seq 0 6 ∧ serve_all (H := demo_env) (pick demo_race l) s = Done la (shared m) ∧
    (∀ i a, threads m !! i = Some (Returned a) ↔ ∃ k, l !! k = Some i ∧ la !! k = Some a).
Proof.
  destruct demo_two_sim as [s Hsim].
  destruct (runs_return (steps (H := demo_env)) demo_race s (start demo_race s) (code_ok demo_race demo_race_mounted)
    (specified_answered (EV := demo_env) demo_two s demo_race Hsim (demo_allowed _) (demo_race_specified _)) (rtc_refl _ _))
    as (m & Hr & Hret).
  destruct (concurrent_requests_linearise (EV := demo_env) demo_race s m demo_race_mounted Hr Hret) as (l & la & H1 & H2 & H3 & _).
  exists s, m, l, la. split; [exact Hsim|]. split; [exact Hr|]. split; [exact Hret|]. split; [exact H1|]. split; [exact H2|exact H3].
Defined.

Lemma concurrent_requests_return_witness :
  ∃ s, sim demo_two s ∧ Acc (flip (step (steps (H := demo_env)))) (start demo_race s) ∧
    ∃ m', rtc (step (steps (H := demo_env))) (start demo_race s) m' ∧ returned_all m'.
Proof.
  destruct demo_two_sim as [s Hsim]. exists s.
  destruct (concurrent_requests_return (EV := demo_env) demo_two s demo_race (start demo_race s) Hsim (demo_allowed _)
    demo_race_mounted (demo_race_specified _) (rtc_refl _ _)) as (H1 & _ & H3).
  split; [exact Hsim|]. split; [exact H1|exact H3].
Defined.
