(* ===== verification/Log.v ===== *)
(** * The log (log.c, log.h)

    The log is a text that grows by a line for each message and each field of a
    struct.  The functions print numbers in the formats of printf(3) that they
    name.  The text of an inode can be read back: [LogTheorems.v]. *)

From stdpp Require Export strings.
From S2P Require Export Sfs.

(** ** Numbers, as printf(3) writes them *)
Definition digit (d : Z) : byte := Byte.byte.of_Z (if d <? 10 then 48 + d else 87 + d).

(** 64 digits are enough for 64 bits in any base. *)
Fixpoint digits (fuel : nat) (base z : Z) : list byte :=
  match fuel with
  | O => []
  | S fuel => (if z <? base then [] else digits fuel base (z / base)) ++ [digit (z mod base)]
  end.

Definition number (base z : Z) : list byte := digits 64 base z.

Definition signed_number (z : Z) : list byte :=
  if z <? 0 then Byte.byte.of_Z 45 :: number 10 (- z) else number 10 z.

(** With zeros in front, up to a width. *)
Definition padded (width : nat) (s : list byte) : list byte :=
  replicate (width - length s) (digit 0) ++ s.

Definition text (s : string) : list byte := String.list_byte_of_string s.
Arguments text _%_string.
Definition newline : byte := Byte.byte.of_Z 10.

(** The conversions of the formats in log.c and log.h. *)
Inductive format :=
  | Fd             (* "%d" *)
  | Fu             (* "%u", PRIu32 *)
  | Flu            (* "%lu", PRIu64 *)
  | Flld           (* "%lld", PRId64 *)
  | Flo            (* PRIo64 *)
  | F0o            (* "0%o" *)
  | F05o           (* "%05o" *)
  | Fx8            (* "0x%08lx" *)
  | Fp.            (* "%p", as the C library writes it: "(nil)" for NULL *)

Definition render (f : format) (z : Z) : list byte :=
  match f with
  | Fd => signed_number (int32 z)
  | Fu => number 10 (u32 z)
  | Flu => number 10 (u64 z)
  | Flld => signed_number (int64 z)
  | Flo => number 8 (u64 z)
  | F0o => text "0" ++ number 8 (u32 z)
  | F05o => padded 5 (number 8 (u32 z))
  | Fx8 => text "0x" ++ padded 8 (number 16 (u64 z))
  | Fp => if z =? 0 then text "(nil)" else text "0x" ++ number 16 (u64 z)
  end.

(** ** Lines *)

(** The log: its text. *)
Abbreviation log := (list byte).

Definition fprintf (s : list byte) : M log () := modify (λ l, l ++ s).

(** [log_struct(st, field, format)]: the name of the field and its value.  A
    cast, as [log_struct_with_cast] makes, is part of the format. *)
Definition field_line (name value : list byte) : list byte :=
  text "    " ++ name ++ text " = " ++ value ++ [newline].

Definition log_struct (name : list byte) (f : format) (z : Z) : M log () :=
  fprintf (field_line name (render f z)).

(** Where a message comes from: [__FILE__], [__LINE__], [__func__]. *)
Record log_context := LogContext {
  lc_file : list byte;
  lc_line : Z;
  lc_function : list byte;
}.

Definition log_msg_impl (msg : list byte) (c : log_context) : M log () :=
  fprintf (lc_file c ++ text ":" ++ render Fu (lc_line c) ++ text " [" ++ lc_function c ++ text "] " ++ msg ++ [newline]).

(** [fopen("sfs.log", "w")] empties the file; without it the process exits. *)
Definition log_open (fopen_ok : bool) : option log := if fopen_ok then Some [] else None.

(** ** Structs *)
Record fuse_context := FuseContext {
  fc_fuse : Z; fc_uid : Z; fc_gid : Z; fc_pid : Z; fc_private_data : Z; fc_logfile : Z; fc_umask : Z;
}.

Record fuse_conn_info := FuseConnInfo {
  proto_major : Z; proto_minor : Z; async_read : Z; max_write : Z; max_readahead : Z; capable : Z; want : Z;
}.

Record fuse_file_info := FuseFileInfo {
  fi_flags : Z; fh_old : Z; writepage : Z; direct_io : Z; keep_cache : Z; fi_fh : Z; lock_owner : Z;
}.

(** The fields of [struct stat] that the program does not set. *)
Record stat_rest := StatRest {
  st_dev : Z; st_rdev : Z; st_blksize : Z; st_blocks : Z;
}.

(** Of [private_data], the [logfile] is printed, too. *)
Definition log_fuse_context_impl (c : log_context) (context : fuse_context) : M log () :=
  log_msg_impl (text "struct fuse_context:") c;;
  log_struct (text "fuse") Fp (fc_fuse context);;
  log_struct (text "uid") Fd (fc_uid context);;
  log_struct (text "gid") Fd (fc_gid context);;
  log_struct (text "pid") Fd (fc_pid context);;
  log_struct (text "private_data") Fp (fc_private_data context);;
  log_struct (text "logfile") Fp (fc_logfile context);;
  log_struct (text "umask") F05o (fc_umask context).

Definition log_conn_impl (c : log_context) (conn : fuse_conn_info) : M log () :=
  log_msg_impl (text "struct fuse_conn_info:") c;;
  log_struct (text "proto_major") Fu (proto_major conn);;
  log_struct (text "proto_minor") Fu (proto_minor conn);;
  log_struct (text "async_read") Fu (async_read conn);;
  log_struct (text "max_write") Fu (max_write conn);;
  log_struct (text "max_readahead") Fu (max_readahead conn);;
  log_struct (text "capable") Fu (capable conn);;
  log_struct (text "want") Fu (want conn).

Definition log_fi_impl (c : log_context) (fi : fuse_file_info) : M log () :=
  log_msg_impl (text "struct fuse_file_info:") c;;
  log_struct (text "flags") Fd (fi_flags fi);;
  log_struct (text "fh_old") Flu (fh_old fi);;
  log_struct (text "writepage") Fd (writepage fi);;
  log_struct (text "direct_io") Fu (direct_io fi);;
  log_struct (text "keep_cache") Fu (keep_cache fi);;
  log_struct (text "fh") Flld (fi_fh fi);;
  log_struct (text "lock_owner") Flu (lock_owner fi).

(** The times are printed under the names of the source; where [st_atime] and
    the like are macros, their expansions are printed. *)
Definition log_stat_impl (c : log_context) (si : stat) (rest : stat_rest) : M log () :=
  log_msg_impl (text "struct stat:") c;;
  log_struct (text "st_dev") Flld (st_dev rest);;
  log_struct (text "st_ino") Flld (st_ino si);;
  log_struct (text "st_mode") F0o (st_mode si);;
  log_struct (text "st_nlink") Fd (st_nlink si);;
  log_struct (text "st_uid") Fd (st_uid si);;
  log_struct (text "st_gid") Fd (st_gid si);;
  log_struct (text "st_rdev") Flld (st_rdev rest);;
  log_struct (text "st_size") Flld (st_size si);;
  log_struct (text "st_blksize") Flld (st_blksize rest);;
  log_struct (text "st_blocks") Flld (st_blocks rest);;
  log_struct (text "st_atime") Fx8 (st_atime si);;
  log_struct (text "st_mtime") Fx8 (st_mtime si);;
  log_struct (text "st_ctime") Fx8 (st_ctime si).

(** The macro [b(n)] of [log_inode_impl]. *)
Definition log_pointer (inode : sfs_fs_inode) (n : Z) : M log () :=
  log_struct (text "block_pointers[" ++ number 10 n ++ text "]") Flu (bp inode n).

Definition log_inode_impl (c : log_context) (inode : sfs_fs_inode) : M log () :=
  log_msg_impl (text "si:") c;;
  log_struct (text "inumber") Flu (i_inumber inode);;
  log_struct (text "mode") Flo (i_mode inode);;
  log_struct (text "uid") Fu (i_uid inode);;
  log_struct (text "gid") Fu (i_gid inode);;
  log_struct (text "links") Fu (i_links inode);;
  log_struct (text "access_time") Flu (i_access_time inode);;
  log_struct (text "modified_time") Flu (i_modified_time inode);;
  log_struct (text "change_time") Flu (i_change_time inode);;
  log_struct (text "size") Flu (i_size inode);;
  log_pointer inode 0;; log_pointer inode 1;; log_pointer inode 2;; log_pointer inode 3;;
  log_pointer inode 4;; log_pointer inode 5;; log_pointer inode 6;; log_pointer inode 7;;
  log_pointer inode 8;; log_pointer inode 9;; log_pointer inode 10;; log_pointer inode 11;;
  log_pointer inode 12;; log_pointer inode 13.
