(* ===== verification/LogTheorems.v ===== *)
(** * The log can be read back

    The numbers that the log shows are the numbers that were printed, and the
    dump of an inode has all of it: a reader of the log gets the inode back. *)

From S2P Require Export Log Testbed.

(** ** Reading numbers *)
Definition digit_value (c : byte) : Z := Byte.byte.unsigned c - 48.

Definition value (base : Z) (s : list byte) : Z := foldl (λ a c, a * base + digit_value c) 0 s.

Lemma digit_value_digit d : 0 ≤ d < 10 → digit_value (digit d) = d.
Proof.
  intros Hd. unfold digit_value, digit. rewrite (proj2 (Z.ltb_lt _ _)), Byte.byte.unsigned_of_Z by lia.
  unfold Byte.byte.wrap. rewrite Z.mod_small by lia. lia.
Qed.

Lemma value_digits fuel base z : 2 ≤ base ≤ 10 → 0 ≤ z < base ^ Z.of_nat fuel → value base (digits fuel base z) = z.
Proof.
  intros Hb. revert z. induction fuel as [|fuel IH]; intros z Hz; [simpl in Hz; cbn; lia|].
  cbn [digits]. unfold value. rewrite foldl_app. cbn [foldl]. fold (value base (if z <? base then [] else digits fuel base (z / base))).
  assert (0 ≤ z mod base < base) as Hm by (apply Z.mod_pos_bound; lia).
  rewrite digit_value_digit by lia. destruct (Z.ltb_spec z base).
  - cbn. by rewrite Z.mod_small by lia.
  - rewrite IH; [rewrite (Z.mul_comm _ base); symmetry; apply Z.div_mod; lia|].
    rewrite Nat2Z.inj_succ, Z.pow_succ_r in Hz by lia. split; [apply Z.div_pos; lia|apply Z.div_lt_upper_bound; lia].
Qed.

Lemma value_number base z : 2 ≤ base ≤ 10 → 0 ≤ z < 2 ^ 64 → value base (number base z) = z.
Proof.
  intros Hb Hz. apply value_digits; [done|]. split; [lia|]. change (Z.of_nat 64) with 64.
  pose proof (Z.pow_le_mono_l 2 base 64). lia.
Qed.

Lemma value_lu z : 0 ≤ z < 2 ^ 64 → value 10 (render Flu z) = z.
Proof. intros Hz. cbn [render]. by rewrite u64_small, value_number by lia. Qed.

Lemma value_lo z : 0 ≤ z < 2 ^ 32 → value 8 (render Flo z) = z.
Proof. intros Hz. cbn [render]. by rewrite u64_small, value_number by lia. Qed.

Lemma value_u z : 0 ≤ z < 2 ^ 32 → value 10 (render Fu z) = z.
Proof. intros Hz. cbn [render]. unfold u32. by rewrite Z.mod_small, value_number by lia. Qed.

(** A number is digits, and nothing else. *)
Lemma number_digits base z c : 2 ≤ base ≤ 10 → c ∈ number base z → 48 ≤ Byte.byte.unsigned c < 58.
Proof.
  intros Hb. unfold number. generalize 64%nat. intros fuel. revert z. induction fuel as [|fuel IH]; intros z Hc; cbn [digits] in Hc.
  - by apply not_elem_of_nil in Hc.
  - apply elem_of_app in Hc as [Hc| ->%list_elem_of_singleton].
    + destruct (_ <? _); [by apply not_elem_of_nil in Hc|]. by eapply IH.
    + pose proof (Z.mod_pos_bound z base ltac:(lia)) as Hm. pose proof (digit_value_digit (z mod base) ltac:(lia)) as E.
      unfold digit_value in E. lia.
Qed.

(** ** Reading lines *)
Fixpoint lines (acc l : list byte) : list (list byte) :=
  match l with
  | [] => [acc]
  | c :: l => if bool_decide (c = newline) then acc :: lines [] l else lines (acc ++ [c]) l
  end.

Definition space : byte := Byte.byte.of_Z 32.

Definition last_word (l : list byte) : list byte := rev (take_until (λ c, bool_decide (c = space)) (rev l)).

Lemma lines_app acc s l : newline ∉ s → lines acc (s ++ newline :: l) = (acc ++ s) :: lines [] l.
Proof.
  revert acc. induction s as [|c s IH]; intros acc Hs; cbn [app lines].
  - by rewrite bool_decide_eq_true_2, app_nil_r.
  - apply not_elem_of_cons in Hs as [Hc Hs]. rewrite bool_decide_eq_false_2 by congruence.
    by rewrite IH, <-app_assoc.
Qed.

Lemma take_until_space w r : space ∉ w → take_until (λ c, bool_decide (c = space)) (w ++ space :: r) = w.
Proof.
  induction w as [|c w IH]; intros Hw; [done|]. apply not_elem_of_cons in Hw as [Hc Hw].
  cbn [app take_until]. rewrite bool_decide_eq_false_2 by congruence. by rewrite IH.
Qed.

Lemma last_word_app s w : space ∉ w → last_word (s ++ space :: w) = w.
Proof.
  intros Hw. unfold last_word. rewrite rev_app_distr. cbn [rev]. rewrite <-app_assoc. cbn [app].
  rewrite take_until_space; [apply rev_involutive|]. by rewrite list_elem_of_In, <-in_rev, <-list_elem_of_In.
Qed.

(** A field whose line can be read. *)
Definition plain (f : list byte * list byte) : Prop := (newline ∉ f.1) ∧ (newline ∉ f.2) ∧ (space ∉ f.2).

Definition field_lines (fields : list (list byte * list byte)) : list byte :=
  concat (map (λ f, field_line f.1 f.2) fields).

Lemma read_fields fields :
  Forall plain fields → map last_word (lines [] (field_lines fields)) = map snd fields ++ [[]].
Proof.
  induction 1 as [|[n v] fields (Hn & Hv & Hs) _ IH]; [done|]. cbn [fst snd] in *.
  assert (field_lines ((n, v) :: fields) = ((text "    " ++ n ++ text " =") ++ space :: v) ++ newline :: field_lines fields) as E.
  { unfold field_lines, field_line. cbn [map concat fst snd]. rewrite <-!app_assoc. reflexivity. }
  rewrite E, lines_app.
  - cbn [map snd app]. by rewrite last_word_app, IH.
  - rewrite !elem_of_app, elem_of_cons. intros [[Hx|[Hx|Hx]]|[Hx|Hx]]; try done; revert Hx; apply (bool_decide_unpack _); by vm_compute.
Qed.

Lemma plain_number name base z : 2 ≤ base ≤ 10 → newline ∉ name → plain (name, number base z).
Proof.
  intros Hb Hn. split; [done|]. split; intros Hc%number_digits; try done; by vm_compute in Hc; destruct Hc.
Qed.

(** ** The dump of an inode *)
Definition pointer_name (n : Z) : list byte := text "block_pointers[" ++ number 10 n ++ text "]".

Definition inode_fields (i : sfs_fs_inode) : list (list byte * list byte) :=
  [ (text "inumber", render Flu (i_inumber i)); (text "mode", render Flo (i_mode i));
    (text "uid", render Fu (i_uid i)); (text "gid", render Fu (i_gid i)); (text "links", render Fu (i_links i));
    (text "access_time", render Flu (i_access_time i)); (text "modified_time", render Flu (i_modified_time i));
    (text "change_time", render Flu (i_change_time i)); (text "size", render Flu (i_size i)) ] ++
  map (λ n, (pointer_name n, render Flu (bp i n))) (seqZ 0 14).

Definition header_line (msg : list byte) (c : log_context) : list byte :=
  lc_file c ++ text ":" ++ render Fu (lc_line c) ++ text " [" ++ lc_function c ++ text "] " ++ msg ++ [newline].

Lemma bind_fprintf {B} s (f : () → M log B) l : (fprintf s ≫= f) l = f tt (l ++ s).
Proof. done. Qed.

Lemma log_inode_text c i l :
  log_inode_impl c i l = Done tt (l ++ header_line (text "si:") c ++ field_lines (inode_fields i)).
Proof.
  unfold log_inode_impl, log_msg_impl, log_pointer, log_struct. repeat (rewrite bind_fprintf; cbv beta).
  unfold fprintf, modify. f_equal.
  unfold field_lines, inode_fields. change (seqZ 0 14) with [0; 1; 2; 3; 4; 5; 6; 7; 8; 9; 10; 11; 12; 13].
  cbn [map concat app fst snd]. unfold header_line, pointer_name. rewrite <-!app_assoc. rewrite app_nil_r. reflexivity.
Qed.

Lemma pointer_name_plain n : newline ∉ pointer_name n.
Proof.
  unfold pointer_name. rewrite !elem_of_app. intros [Hx|[Hx%number_digits|Hx]]; [| |lia|].
  - revert Hx. apply (bool_decide_unpack _). by vm_compute.
  - by destruct Hx.
  - revert Hx. apply (bool_decide_unpack _). by vm_compute.
Qed.

Lemma inode_fields_plain i : Forall plain (inode_fields i).
Proof.
  unfold inode_fields. apply Forall_app. split.
  - repeat (apply Forall_cons; split; [apply plain_number; [lia|apply (bool_decide_unpack _); by vm_compute]|]). constructor.
  - apply Forall_forall. intros f (n & -> & _)%list_elem_of_fmap. apply plain_number; [lia|apply pointer_name_plain].
Qed.

(** What a reader makes of the lines behind the header. *)
Definition read_inode (body : list byte) : option sfs_fs_inode :=
  match map last_word (lines [] body) with
  | inumber :: mode :: uid :: gid :: links :: atime :: mtime :: ctime :: size :: pointers =>
      Some (Inode (value 10 inumber) (value 8 mode) (value 10 uid) (value 10 gid) (value 10 links)
        (value 10 atime) (value 10 mtime) (value 10 ctime) (value 10 size) (map (value 10) (take 14 pointers)))
  | _ => None
  end.

Lemma bp_list i : length (i_block_pointers i) = 14%nat → map (bp i) (seqZ 0 14) = i_block_pointers i.
Proof.
  intros Hl. change (seqZ 0 14) with [0; 1; 2; 3; 4; 5; 6; 7; 8; 9; 10; 11; 12; 13].
  unfold bp. destruct (i_block_pointers i) as [|p0 [|p1 [|p2 [|p3 [|p4 [|p5 [|p6 [|p7 [|p8 [|p9 [|p10 [|p11 [|p12 [|p13 [|p14 l]]]]]]]]]]]]]]];
    try done.
Qed.

Lemma bp_width i n : inode_ok i = true → 0 ≤ n < 14 → 0 ≤ bp i n < 2 ^ 64.
Proof.
  intros Hok Hn. apply inode_ok_spec in Hok as (_ & _ & _ & _ & _ & _ & _ & _ & _ & Hl & Hb).
  rewrite forallb_forall in Hb. apply (in_width_spec 8). apply Hb. unfold bp. apply nth_In. lia.
Qed.

Lemma read_inode_fields i : inode_ok i = true → read_inode (field_lines (inode_fields i)) = Some i.
Proof.
  intros Hok. unfold read_inode. rewrite (read_fields _ (inode_fields_plain i)). unfold inode_fields.
  rewrite map_app, map_map. cbn [map snd app].
  pose proof Hok as (H1 & H2 & H3 & H4 & H5 & H6 & H7 & H8 & H9 & Hl & _)%inode_ok_spec.
  rewrite take_app_length' by (by rewrite length_map). rewrite map_map.
  rewrite !value_lu, value_lo, !value_u by lia. f_equal.
  assert (map (λ n, value 10 (render Flu (bp i n))) (seqZ 0 14) = i_block_pointers i) as ->; [|by destruct i].
  rewrite <-(bp_list i Hl). apply map_ext_in. intros n Hn%list_elem_of_In%elem_of_seqZ.
  apply value_lu. apply bp_width; [done|lia].
Qed.

(** C29: an inode in the log is the whole inode.  [log_inode_impl] adds a header
    and a line for each field, and whoever reads the lines - the number behind
    the last space of each, octal for the mode, decimal for the others - has
    every field and every block pointer of the inode back. *)
Theorem inode_dump_reads_back c i l :
  inode_ok i = true →
  ∃ body, log_inode_impl c i l = Done tt (l ++ header_line (text "si:") c ++ body) ∧ read_inode body = Some i.
Proof.
  intros Hok. exists (field_lines (inode_fields i)). split; [apply log_inode_text|by apply read_inode_fields].
Qed.



Lemma inode_dump_reads_back_witness :
  ∃ body, log_inode_impl (LogContext (text "sfs.c") 340 (text "sfs_create")) demo_file [] =
    Done tt (text "sfs.c:340 [sfs_create] si:" ++ newline :: body) ∧ read_inode body = Some demo_file.
Proof.
  destruct (inode_dump_reads_back (LogContext (text "sfs.c") 340 (text "sfs_create")) demo_file [] eq_refl) as (body & E & Hr).
  exists body. split; [exact E|exact Hr].
Defined.

(** [%d] for an unsigned id: the largest ids are negative in the log. *)
Example nobody_is_negative : render Fd (2 ^ 32 - 2) = text "-2".
Proof. by vm_compute. Qed.
