(* ===== verification/Tokens.v ===== *)
(** * The tokens of a path (sfs.c)

    [createTokens] cuts a path into a linked list of names, [printTokens] and
    [freeTokens] walk over such a list.  The nodes and the names are objects of
    the heap, so the model has the heap: an address stands for an object until
    it is freed, a pointer is NULL, an address, or the string literal "/".

    Nothing in the program calls these functions. *)

From S2P Require Export Log DirTheorems.

Inductive ptr :=
  | Null
  | Literal                              (* "/" *)
  | At (a : nat).

(** A [Token], or an array of [cap] chars of which the first were written. *)
Inductive object :=
  | Token (token next : ptr)
  | Chars (cap : nat) (bytes : list byte).

Record memory := Memory {
  heap : gmap nat object;
  brk : nat;                             (* the next address *)
  stdout : list byte;
}.

#[export] Instance ptr_eq_dec : EqDecision ptr.
Proof. solve_decision. Defined.

(** ** The heap *)
Definition store (a : nat) (o : object) (m : memory) : memory :=
  Memory (<[a := o]> (heap m)) (brk m) (stdout m).

Definition printf (s : list byte) : M memory () :=
  modify (λ m, Memory (heap m) (brk m) (stdout m ++ s)).

(** The two fields of the [Token] behind a pointer. *)
Definition load (p : ptr) : M memory (ptr * ptr) := λ m,
  match p with
  | At a => match heap m !! a with
            | Some (Token t n) => Done (t, n) m
            | _ => Crash UndefinedBehaviour
            end
  | _ => Crash UndefinedBehaviour
  end.

Definition store_at (p : ptr) (o : object) : M memory () :=
  match p with
  | At a => modify (store a o)
  | _ => crash_with UndefinedBehaviour
  end.

Definition set_token (p t : ptr) : M memory () := '(_, n) ← load p; store_at p (Token t n).
Definition set_next (p n : ptr) : M memory () := '(t, _) ← load p; store_at p (Token t n).

(** The string in an array of chars; there must be a NUL in it. *)
Definition string_in (a : list byte) : option (list byte) :=
  if bool_decide (x00 ∈ a) then Some (c_string a) else None.

Definition string_at (p : ptr) : M memory (list byte) := λ m,
  match p with
  | Literal => Done [slash] m
  | At a => match heap m !! a with
            | Some (Chars _ bytes) => match string_in bytes with
                                      | Some s => Done s m
                                      | None => Crash UndefinedBehaviour
                                      end
            | _ => Crash UndefinedBehaviour
            end
  | Null => Crash UndefinedBehaviour
  end.

(** [strcpy(p, s)]: the NUL is copied, too. *)
Definition strcpy (p : ptr) (s : list byte) : M memory () := λ m,
  match p with
  | At a => match heap m !! a with
            | Some (Chars cap _) =>
                if (length s <? cap)%nat then Done tt (store a (Chars cap (s ++ [x00])) m)
                else Crash UndefinedBehaviour
            | _ => Crash UndefinedBehaviour
            end
  | _ => Crash UndefinedBehaviour
  end.

(** [free(p)]: of NULL, nothing; of what is not an object of the heap, undefined. *)
Definition free_ (p : ptr) : M memory () := λ m,
  match p with
  | Null => Done tt m
  | Literal => Crash UndefinedBehaviour
  | At a => match heap m !! a with
            | Some _ => Done tt (Memory (delete a (heap m)) (brk m) (stdout m))
            | None => Crash UndefinedBehaviour
            end
  end.


Section tokens.
  Context `{Env}.

(** [malloc]; the object is [o] at first. *)
Definition alloc (o : object) : M memory ptr := λ m,
  if env_malloc (brk m)
  then Done (At (brk m)) (Memory (<[brk m := o]> (heap m)) (S (brk m)) (stdout m))
  else Done Null (Memory (heap m) (S (brk m)) (stdout m)).

(** The fields of a new [Token] are indeterminate; each is set before it is read. *)
Definition malloc_token : M memory ptr := alloc (Token Null Null).
Definition malloc_chars (cap : nat) : M memory ptr := alloc (Chars cap []).

Definition strdup (s : list byte) : M memory ptr := alloc (Chars (S (length s)) (s ++ [x00])).

(** ** The functions *)

(** A list has at most as many nodes as the heap has objects. *)
Definition printTokens (head : ptr) : M memory () :=
  printf (text "Printing Tokens" ++ [newline]);;
  m ← get;
  r ← while_true (R := Empty_set) (S (size (heap m))) head (λ traversal,
    if decide (traversal = Null) then mret (Break traversal)
    else
      '(t, _) ← load traversal;
      s ← string_at t;
      printf (s ++ text " -->");;
      '(_, n) ← load traversal;
      mret (Continue n));
  mret tt.

Definition freeTokens (head : ptr) : M memory () :=
  let prev := head in
  m ← get;
  r ← while_true (R := Empty_set) (S (size (heap m))) head (λ head,
    if decide (head = Null) then mret (Break head)
    else
      '(_, head) ← load head;
      '(t, _) ← load prev;
      free_ t;;
      free_ prev;;
      mret (Continue head));
  mret tt.

(** A node is added behind [currToken] for the name in [currentDir]:
    [sizeof(strlen(...))] is 8, whatever the length. *)
Definition add_token (currToken : ptr) (currentDir : list byte) : M memory ptr :=
  t ← malloc_token;
  set_next currToken t;;
  '(_, currToken) ← load currToken;
  set_next currToken Null;;
  p ← malloc_chars 8;
  set_token currToken p;;
  match string_in currentDir with
  | None => crash_with UndefinedBehaviour
  | Some s => strcpy p s;; mret currToken
  end.

(** A character of the string behind a pointer. *)
Definition char_at (p : ptr) (i : Z) : M memory byte := λ m,
  match p with
  | At a => match heap m !! a with
            | Some (Chars _ bytes) => match bytes !! Z.to_nat i with
                                      | Some c => Done c m
                                      | None => Crash UndefinedBehaviour
                                      end
            | _ => Crash UndefinedBehaviour
            end
  | _ => Crash UndefinedBehaviour
  end.

(** [currentDir[currDirIndex] = c], an array of 256 chars. *)
Definition set_char (currentDir : list byte) (currDirIndex : nat) (c : byte) : M memory (list byte) :=
  if (currDirIndex <? length currentDir)%nat then mret (<[currDirIndex := c]> currentDir)
  else crash_with UndefinedBehaviour.

Definition print_name (label : list byte) (currentDir : list byte) : M memory () :=
  match string_in currentDir with
  | None => crash_with UndefinedBehaviour
  | Some s => printf (label ++ s ++ [newline])
  end.

(** The body of the loop over the path; its variables are [currToken],
    [currentDir] and [currDirIndex]. *)
Definition scan_char (head traversePath : ptr) (i : Z) (v : ptr * list byte * nat)
  : M memory (ctl (ptr * list byte * nat) Empty_set) :=
  let '(currToken, currentDir, currDirIndex) := v in
  c ← char_at traversePath i;
  if (i =? 0) && is_slash c then
    p ← malloc_chars 2;
    set_token head p;;
    set_token head Literal;;
    mret (Continue (head, currentDir, currDirIndex))
  else if is_slash c then
    currentDir ← set_char currentDir currDirIndex x00;
    print_name (text "Parsed string: ") currentDir;;
    currToken ← add_token currToken currentDir;
    mret (Continue (currToken, replicate 256 x00, O))
  else
    currentDir ← set_char currentDir currDirIndex c;
    mret (Continue (currToken, currentDir, S currDirIndex)).

(** Behind the loop: the last name, and the list is printed. *)
Definition finish_tokens (head : ptr) (r : (ptr * list byte * nat) + Empty_set) : M memory ptr :=
  match r with
  | inr e => Empty_set_rect (λ _, M memory ptr) e
  | inl (currToken, currentDir, _) =>
      print_name (text "Last Directory/File: ") currentDir;;
      add_token currToken currentDir;;
      printTokens head;;
      mret head
  end.

(** [stack]: the 256 bytes that [currentDir] holds at first. *)
Definition createTokens (stack path : list byte) : M memory ptr :=
  head ← malloc_token;
  set_next head Null;;
  set_token head Null;;
  traversePath ← strdup path;
  r ← for_range 0 (Z.of_nat (length path)) (Null, stack, O) (scan_char head traversePath);
  finish_tokens head r.

End tokens.

