(* ===== verification/TokensTheorems.v ===== *)
(** * What the token functions do

    [createTokens] cuts a path at its slashes, as long as no name has more than
    7 characters; its list cannot be freed.  The list in the heap is a segment
    and a last node, as in a queue. *)

From S2P Require Export Tokens.

(** ** The names of a path

    What the list should be: the path cut at its slashes. *)
Fixpoint cut (acc path : list byte) : list (list byte) :=
  match path with
  | [] => [acc]
  | c :: path => if is_slash c then acc :: cut [] path else cut (acc ++ [c]) path
  end.

Definition names_of (path : list byte) : list (list byte) := cut [] path.

(** What the functions print for these names. *)
Fixpoint scanned (names : list (list byte)) : list byte :=
  match names with
  | [] => []
  | [s] => text "Last Directory/File: " ++ s ++ [newline]
  | s :: names => text "Parsed string: " ++ s ++ [newline] ++ scanned names
  end.

Definition listed_tokens (names : list (list byte)) : list byte :=
  text "Printing Tokens" ++ [newline] ++ concat (map (λ s, s ++ text " -->") names).

(** ** The list in the heap *)
Definition string_of (h : gmap nat object) (t : ptr) (s : list byte) : Prop :=
  match t with
  | Null => False
  | Literal => s = [slash]
  | At b => (x00 ∉ s) ∧ ∃ cap, h !! b = Some (Chars cap (s ++ [x00]))
  end.

(** A node: its address, its [token], the name. *)
Abbreviation node := (nat * ptr * list byte)%type.
Definition address (x : node) : nat := x.1.1.

Definition first (l : list node) : ptr :=
  match l with [] => Null | x :: _ => At (address x) end.

Fixpoint chain (h : gmap nat object) (l : list node) : Prop :=
  match l with
  | [] => True
  | (a, t, s) :: l => h !! a = Some (Token t (first l)) ∧ string_of h t s ∧ chain h l
  end.

Definition bounded (m : memory) : Prop := ∀ a o, heap m !! a = Some o → (a < brk m)%nat.

(** From [head], whose token is the literal, to [cur]. *)
Record queue (m : memory) (head cur : ptr) (names : list (list byte)) : Prop := Queue {
  qu_bounded : bounded m;
  qu_nodes : ∃ l a t s h rest, chain (heap m) (l ++ [(a, t, s)]) ∧ NoDup (map address (l ++ [(a, t, s)])) ∧
    l ++ [(a, t, s)] = (h, Literal, [slash]) :: rest ∧ head = At h ∧ cur = At a ∧
    map snd rest = names;
}.

Lemma chain_frame h h' l :
  chain h l → (∀ a t n, a ∈ map address l → h !! a = Some (Token t n) → h' !! a = h !! a) →
  (∀ a cap bs, h !! a = Some (Chars cap bs) → h' !! a = h !! a) → chain h' l.
Proof.
  induction l as [|[[a t] s] l IH]; intros Hc Ha Hs; [done|]. destruct Hc as (H1 & H2 & H3). split; [|split].
  - rewrite (Ha a t (first l)); [done|left|done].
  - destruct t as [| |b]; [done..|]. destruct H2 as (Hn & cap & Hb). split; [done|]. exists cap. by rewrite (Hs b _ _ Hb).
  - apply IH; [done| |done]. intros b u n Hb. apply Ha. by right.
Qed.

(** The last node gets a successor. *)
Lemma chain_snoc h h' l a t s b u r :
  chain h (l ++ [(a, t, s)]) → NoDup (map address (l ++ [(a, t, s)])) →
  (∀ c, c ∈ map address l → h' !! c = h !! c) → (∀ c cap bs, h !! c = Some (Chars cap bs) → h' !! c = h !! c) →
  h' !! a = Some (Token t (At b)) → h' !! b = Some (Token u Null) → string_of h' u r →
  chain h' ((l ++ [(a, t, s)]) ++ [(b, u, r)]).
Proof.
  induction l as [|[[c v] w] l IH]; intros Hc Hnd Hl Hs Ha Hb Hu.
  - destruct Hc as (H1 & H2 & _). cbn. split; [done|]. split; [|by split_and!].
    destruct t as [| |x]; [done..|]. destruct H2 as (Hn & cap & Hx). split; [done|]. exists cap. by rewrite (Hs x _ _ Hx).
  - destruct Hc as (H1 & H2 & H3). cbn [map app] in Hnd. apply NoDup_cons in Hnd as [_ Hnd]. split; [|split].
    + rewrite (Hl c), H1 by left. by destruct l.
    + destruct v as [| |x]; [done..|]. destruct H2 as (Hn & cap & Hx). split; [done|]. exists cap. by rewrite (Hs x _ _ Hx).
    + apply IH; try done. intros d Hd. apply Hl. by right.
Qed.

Lemma string_in_nul (s rest : list byte) : x00 ∉ s → string_in (s ++ x00 :: rest) = Some s.
Proof.
  intros Hn. unfold string_in. rewrite bool_decide_eq_true_2 by (apply elem_of_app; right; left).
  f_equal. unfold c_string. induction s as [|c s IH]; [done|]. apply not_elem_of_cons in Hn as [Hc Hn].
  cbn [app take_until]. rewrite bool_decide_eq_false_2 by congruence. by rewrite IH.
Qed.

(** ** Printing *)
Section theorems.
  Context `{EV : Env, RM : !ReliableMalloc}.

Lemma string_at_ok m t s : string_of (heap m) t s → string_at t m = Done s m.
Proof.
  destruct t as [| |b]; cbn [string_of string_at]; [done|by intros ->|]. intros (Hn & cap & ->).
  by rewrite string_in_nul.
Qed.

Definition print (s : list byte) (m : memory) : memory := Memory (heap m) (brk m) (stdout m ++ s).

Lemma load_ok m a t n : heap m !! a = Some (Token t n) → load (At a) m = Done (t, n) m.
Proof. unfold load. by intros ->. Qed.

Lemma bind_printf {B} s (f : () → M memory B) m : (printf s ≫= f) m = f tt (print s m).
Proof. done. Qed.

Lemma print_loop fuel l m :
  chain (heap m) l → (length l < fuel)%nat →
  while_true (R := Empty_set) fuel (first l) (λ traversal,
    if decide (traversal = Null) then mret (Break traversal)
    else
      '(t, _) ← load traversal;
      s ← string_at t;
      printf (s ++ text " -->");;
      '(_, n) ← load traversal;
      mret (Continue n)) m = Done (inl Null) (print (concat (map (λ x, x.2 ++ text " -->") l)) m).
Proof.
  revert l m. induction fuel as [|fuel IH]; intros l m Hc Hl; [lia|]. destruct l as [|[[a t] s] l]; cbn [while_true first].
  - unfold print. cbn [map concat]. rewrite app_nil_r. by destruct m.
  - destruct Hc as (H1 & H2 & H3). rewrite decide_False by done. cbn [address fst].
    rewrite bind_assoc, (bind_done _ _ _ _ _ (load_ok _ _ _ _ H1)).
    rewrite bind_assoc, (bind_done _ _ _ _ _ (string_at_ok _ _ _ H2)).
    rewrite bind_assoc, bind_printf.
    rewrite bind_assoc, (bind_done _ _ _ _ _ (load_ok (print _ m) _ _ _ H1)), bind_ret.
    rewrite (IH l (print (s ++ text " -->") m)); [|exact H3|simpl in Hl; lia].
    unfold print. cbn [heap brk stdout map concat]. by rewrite <-!app_assoc.
Qed.

Lemma chain_size h l : chain h l → NoDup (map address l) → (length l ≤ size h)%nat.
Proof.
  intros Hc Hnd. rewrite <-(length_map address l), <-(size_list_to_set (C := gset nat) (map address l)) by done.
  rewrite <-size_dom. apply subseteq_size. intros a Ha%elem_of_list_to_set. revert Hc Ha. clear Hnd.
  induction l as [|[[b t] s] l IH]; intros Hc Ha; cbn [map] in Ha; [by apply not_elem_of_nil in Ha|].
  destruct Hc as (H1 & _ & H3). apply elem_of_cons in Ha as [->|Ha]; [|by apply IH].
  apply elem_of_dom. by eexists.
Qed.

Lemma print_tokens_run m head cur names :
  queue m head cur names → printTokens head m = Done tt (print (listed_tokens ([slash] :: names)) m).
Proof.
  intros [_ (l & a & t & s & h & rest & Hc & Hnd & E & -> & _ & <-)]. unfold printTokens.
  rewrite bind_printf, bind_get. rewrite E in Hc, Hnd.
  assert (length ((h, Literal, [slash]) :: rest) < S (size (heap m)))%nat as Hsz by (apply Nat.lt_succ_r; by apply chain_size).
  change (At h) with (first ((h, Literal, [slash]) :: rest)).
  rewrite (bind_done _ _ _ _ _ (print_loop _ _ (print (text "Printing Tokens" ++ [newline]) m) Hc Hsz)).
  unfold print, listed_tokens. cbn [heap brk stdout]. rewrite <-!app_assoc. cbn [map]. do 3 f_equal.
  by rewrite map_map.
Qed.

(** ** Adding a name *)
Definition new_object (o : object) (m : memory) : memory :=
  Memory (<[brk m := o]> (heap m)) (S (brk m)) (stdout m).

Lemma alloc_run o m : alloc o m = Done (At (brk m)) (new_object o m).
Proof. unfold alloc. by rewrite reliable_malloc. Qed.

Lemma set_next_run m a t n p : heap m !! a = Some (Token t n) → set_next (At a) p m = Done tt (store a (Token t p) m).
Proof. intros Ha. unfold set_next. by rewrite (bind_done _ _ _ _ _ (load_ok _ _ _ _ Ha)). Qed.

Lemma set_token_run m a t n p : heap m !! a = Some (Token t n) → set_token (At a) p m = Done tt (store a (Token p n) m).
Proof. intros Ha. unfold set_token. by rewrite (bind_done _ _ _ _ _ (load_ok _ _ _ _ Ha)). Qed.

Lemma strcpy_run m a cap bs s :
  heap m !! a = Some (Chars cap bs) →
  strcpy (At a) s m =
    if (length s <? cap)%nat then Done tt (store a (Chars cap (s ++ [x00])) m) else Crash UndefinedBehaviour.
Proof. unfold strcpy. by intros ->. Qed.

(** The memory with a node behind the last one. *)
Definition added (a : nat) (t : ptr) (s : list byte) (m : memory) : memory :=
  Memory (<[S (brk m) := Chars 8 (s ++ [x00])]> (<[brk m := Token (At (S (brk m))) Null]>
    (<[a := Token t (At (brk m))]> (heap m)))) (S (S (brk m))) (stdout m).

Lemma add_token_memory m a t dir s :
  bounded m → heap m !! a = Some (Token t Null) → string_in dir = Some s →
  add_token (At a) dir m =
    if (length s <? 8)%nat then Done (At (brk m)) (added a t s m) else Crash UndefinedBehaviour.
Proof.
  intros Hb Ha Hdir. pose proof (Hb _ _ Ha) as Hlt. unfold add_token, malloc_token, malloc_chars.
  rewrite (bind_done _ _ _ _ _ (alloc_run _ _)).
  assert (heap (new_object (Token Null Null) m) !! a = Some (Token t Null)) as H1
    by (cbn [new_object heap]; by rewrite lookup_insert_ne by lia).
  rewrite (bind_done _ _ _ _ _ (set_next_run _ _ _ _ _ H1)).
  set (m2 := store a (Token t (At (brk m))) (new_object (Token Null Null) m)).
  assert (heap m2 !! a = Some (Token t (At (brk m)))) as H2 by (apply lookup_insert_eq).
  rewrite (bind_done _ _ _ _ _ (load_ok _ _ _ _ H2)).
  assert (heap m2 !! brk m = Some (Token Null Null)) as H3.
  { cbn [m2 store new_object heap]. rewrite lookup_insert_ne by lia. apply lookup_insert_eq. }
  rewrite (bind_done _ _ _ _ _ (set_next_run _ _ _ _ _ H3)).
  rewrite (bind_done _ _ _ _ _ (alloc_run _ _)).
  change (brk (store (brk m) (Token Null Null) m2)) with (S (brk m)).
  set (m4 := new_object (Chars 8 []) (store (brk m) (Token Null Null) m2)).
  assert (heap m4 !! brk m = Some (Token Null Null)) as H4.
  { change (heap m4) with (<[S (brk m) := Chars 8 []]> (<[brk m := Token Null Null]> (heap m2))).
    rewrite lookup_insert_ne by lia. apply lookup_insert_eq. }
  rewrite (bind_done _ _ _ _ _ (set_token_run _ _ _ _ _ H4)), Hdir.
  set (m5 := store (brk m) (Token (At (S (brk m))) Null) m4).
  assert (heap m5 !! S (brk m) = Some (Chars 8 [])) as H5.
  { change (heap m5) with (<[brk m := Token (At (S (brk m))) Null]> (heap m4)).
    rewrite lookup_insert_ne by lia. apply lookup_insert_eq. }
  pose proof (strcpy_run m5 (S (brk m)) 8 [] s H5) as Hcpy. destruct (length s <? 8)%nat.
  - rewrite (bind_done _ _ _ _ _ Hcpy). unfold mret, M_ret. f_equal. unfold added, store, m5, m4, m2, new_object.
    cbn [heap brk stdout]. f_equal. apply map_eq. intros c. unfold store. cbn [heap brk stdout]. 
    rewrite !lookup_insert. repeat case_decide; congruence || lia || done.
  - by rewrite (bind_crash _ _ _ _ Hcpy).
Qed.

Lemma lookup_added_ne m a t s c :
  c ≠ brk m → c ≠ S (brk m) → c ≠ a → heap (added a t s m) !! c = heap m !! c.
Proof. intros. unfold added. cbn [heap]. by rewrite !lookup_insert_ne by done. Qed.

Lemma added_bounded m a t s : bounded m → (a < brk m)%nat → bounded (added a t s m).
Proof.
  intros Hb Ha c o. unfold added. cbn [heap brk].
  intros [[<- _]|[_ [[<- _]|[_ [[<- _]|[_ Hc%Hb]]%lookup_insert_Some]]%lookup_insert_Some]]%lookup_insert_Some; lia.
Qed.

Lemma chain_addresses m l : chain (heap m) l → bounded m → Forall (λ c, c < brk m)%nat (map address l).
Proof.
  intros Hc Hb. induction l as [|[[b u] r] l IH]; [constructor|]. destruct Hc as (H1 & _ & H3).
  constructor; [exact (Hb _ _ H1)|by apply IH].
Qed.

Lemma add_token_run m head cur names s dir :
  queue m head cur names → string_in dir = Some s → x00 ∉ s →
  if (length s <? 8)%nat
  then ∃ cur' m', add_token cur dir m = Done cur' m' ∧ queue m' head cur' (names ++ [s]) ∧ stdout m' = stdout m ∧
    ∀ b cap bs, heap m !! b = Some (Chars cap bs) → heap m' !! b = Some (Chars cap bs)
  else add_token cur dir m = Crash UndefinedBehaviour.
Proof.
  intros [Hb (l & a & t & s0 & h & rest & Hc & Hnd & E & -> & -> & <-)] Hdir Hs.
  assert (heap m !! a = Some (Token t Null)) as Ha.
  { clear -Hc. induction l as [|[[b u] r] l IH]; [by destruct Hc|]. apply IH, Hc. }
  pose proof (add_token_memory m a t dir s Hb Ha Hdir) as Hrun. destruct (length s <? 8)%nat; [|exact Hrun].
  exists (At (brk m)), (added a t s m). split; [exact Hrun|].
  assert (∀ b cap bs, heap m !! b = Some (Chars cap bs) → heap (added a t s m) !! b = Some (Chars cap bs)) as Hkeep.
  { intros b cap bs Hx. pose proof (Hb _ _ Hx). rewrite lookup_added_ne; [done|lia|lia|]. intros ->. congruence. }
  split; [|split; [done|exact Hkeep]]. split; [exact (added_bounded m a t s Hb (Hb _ _ Ha))|].
  exists (l ++ [(a, t, s0)]), (brk m), (At (S (brk m))), s, h, (rest ++ [(brk m, At (S (brk m)), s)]).
  pose proof (proj1 (Forall_forall _ _) (chain_addresses _ _ Hc Hb)) as Hadr. pose proof (Hb _ _ Ha) as Hlt.
  assert (∀ c, c ∈ map address l → (c < brk m)%nat) as Hold.
  { intros c Hin. apply Hadr. rewrite map_app, elem_of_app. by left. }
  split; [|split; [|split; [by rewrite E|split; [done|split; [done|by rewrite map_app]]]]].
  - apply (chain_snoc (heap m)); [exact Hc|exact Hnd| | | | |].
    + intros c Hin. apply lookup_added_ne.
      * specialize (Hold c Hin). lia.
      * specialize (Hold c Hin). lia.
      * intros ->. rewrite map_app in Hnd. apply NoDup_app in Hnd as (_ & Hnd & _). apply (Hnd a Hin). left.
    + intros c cap bs Hx. rewrite Hx. by apply Hkeep.
    + unfold added. cbn [heap]. rewrite !lookup_insert_ne by lia. apply lookup_insert_eq.
    + unfold added. cbn [heap]. rewrite lookup_insert_ne by lia. apply lookup_insert_eq.
    + split; [exact Hs|]. exists 8%nat. apply lookup_insert_eq.
  - rewrite map_app. apply NoDup_app. split; [exact Hnd|]. split; [|apply NoDup_singleton].
    intros c Hin%Hadr ->%list_elem_of_singleton. cbn in Hin. lia.
Qed.

(** ** Scanning the path *)

(** [currentDir] after the characters [acc] of a name: what was in it before
    is behind them, the zeros of [memset] but for the first name. *)
Definition buffer (stack : list byte) (names : list (list byte)) (acc : list byte) : list byte :=
  acc ++ drop (length acc) (match names with [] => stack | _ => replicate 256 x00 end).

Lemma length_buffer stack names acc :
  length stack = 256%nat → (length acc ≤ 256)%nat → length (buffer stack names acc) = 256%nat.
Proof.
  intros Hs Ha. unfold buffer. rewrite length_app, length_drop. destruct names; [rewrite Hs|rewrite length_replicate]; lia.
Qed.

Lemma buffer_insert stack names acc c :
  length stack = 256%nat → (length acc < 256)%nat →
  <[length acc := c]> (buffer stack names acc) = buffer stack names (acc ++ [c]).
Proof.
  intros Hs Ha. unfold buffer. set (old := match names with [] => stack | _ => replicate 256 x00 end).
  assert (length old = 256%nat) as Hl by (by destruct names).
  rewrite insert_app_r_alt, Nat.sub_diag, length_app, <-app_assoc by lia. f_equal.
  destruct (drop (length acc) old) as [|x l] eqn:E; [apply (f_equal length) in E; rewrite length_drop in E; simpl in E; lia|].
  cbn. f_equal. rewrite Nat.add_comm. cbn [length Nat.add]. rewrite <-Nat.add_1_l, Nat.add_comm, <-drop_drop, E. done.
Qed.

(** No name overflows its object before the last one. *)
Fixpoint fits (acc path : list byte) : bool :=
  match path with
  | [] => true
  | c :: path =>
      if is_slash c then (length acc <? 8)%nat && fits [] path
      else (length acc <? 256)%nat && fits (acc ++ [c]) path
  end.

(** The names before the last one, and the last one. *)
Fixpoint cut_last (acc path : list byte) : list (list byte) * list byte :=
  match path with
  | [] => ([], acc)
  | c :: path =>
      if is_slash c then (acc :: (cut_last [] path).1, (cut_last [] path).2) else cut_last (acc ++ [c]) path
  end.

Definition parsed (names : list (list byte)) : list byte :=
  concat (map (λ s, text "Parsed string: " ++ s ++ [newline]) names).

Lemma print_print s s' m : print s' (print s m) = print (s ++ s') m.
Proof. unfold print. cbn [heap brk stdout]. by rewrite app_assoc. Qed.

Lemma queue_print m s head cur names : queue m head cur names → queue (print s m) head cur names.
Proof. by intros [H1 H2]. Qed.

Section scan.
  Context (stack path : list byte) (head : ptr) (b cap : nat).
  Hypothesis Hstack : length stack = 256%nat.
  Hypothesis Hpath : x00 ∉ path.

Lemma char_at_run m i c :
  heap m !! b = Some (Chars cap (path ++ [x00])) → path !! Z.to_nat i = Some c → char_at (At b) i m = Done c m.
Proof. intros Hb Hc. unfold char_at. by rewrite Hb, (lookup_app_l_Some _ _ _ _ Hc). Qed.

(** The body of the loop at a character behind the first. *)
Lemma scan_char_run m i c names acc cur :
  heap m !! b = Some (Chars cap (path ++ [x00])) → path !! Z.to_nat i = Some c → 1 ≤ i → x00 ∉ acc →
  queue m head cur names → (length acc ≤ 256)%nat →
  let r := scan_char head (At b) i (cur, buffer stack names acc, length acc) m in
  if is_slash c then
    if (length acc <? 8)%nat
    then ∃ cur' m', r = Done (Continue (cur', replicate 256 x00, 0%nat)) m' ∧ queue m' head cur' (names ++ [acc]) ∧
      stdout m' = stdout m ++ parsed [acc] ∧ heap m' !! b = Some (Chars cap (path ++ [x00]))
    else r = Crash UndefinedBehaviour
  else
    if (length acc <? 256)%nat
    then r = Done (Continue (cur, buffer stack names (acc ++ [c]), S (length acc))) m
    else r = Crash UndefinedBehaviour.
Proof.
  intros Hb Hc Hi Hacc Hq Hl r. subst r. unfold scan_char.
  rewrite (bind_done _ _ _ _ _ (char_at_run m i c Hb Hc)), (proj2 (Z.eqb_neq i 0)) by lia. cbn [andb].
  assert (∀ x, (length acc < 256)%nat → set_char (buffer stack names acc) (length acc) x m =
    Done (buffer stack names (acc ++ [x])) m) as Hset.
  { intros x Hlt. unfold set_char. rewrite length_buffer, (proj2 (Nat.ltb_lt _ _)), buffer_insert by done. done. }
  assert (∀ x, (256 ≤ length acc)%nat → set_char (buffer stack names acc) (length acc) x m = Crash UndefinedBehaviour) as Hover.
  { intros x Hge. unfold set_char. by rewrite length_buffer, (proj2 (Nat.ltb_ge _ _)) by done. }
  destruct (is_slash c).
  - destruct (Nat.ltb_spec (length acc) 256) as [Hlt|Hge]; last first.
    { rewrite (proj2 (Nat.ltb_ge _ 8)) by lia. by rewrite (bind_crash _ _ _ _ (Hover x00 Hge)). }
    rewrite (bind_done _ _ _ _ _ (Hset x00 Hlt)).
    assert (string_in (buffer stack names (acc ++ [x00])) = Some acc) as Hstr.
    { unfold buffer. rewrite <-app_assoc. by apply string_in_nul. }
    unfold print_name. rewrite Hstr, bind_printf.
    pose proof (add_token_run (print (text "Parsed string: " ++ acc ++ [newline]) m) head cur names acc _
      (queue_print _ _ _ _ _ Hq) Hstr Hacc) as Hadd.
    destruct (length acc <? 8)%nat; [|by rewrite (bind_crash _ _ _ _ Hadd)].
    destruct Hadd as (cur' & m' & E & Hq' & Hout & Hkeep). exists cur', m'. rewrite (bind_done _ _ _ _ _ E).
    split; [done|]. split; [exact Hq'|]. split; [|by apply Hkeep].
    rewrite Hout. unfold parsed. cbn [print stdout map concat]. by rewrite app_nil_r.
  - destruct (Nat.ltb_spec (length acc) 256) as [Hlt|Hge].
    + by rewrite (bind_done _ _ _ _ _ (Hset c Hlt)).
    + by rewrite (bind_crash _ _ _ _ (Hover c Hge)).
Qed.

Lemma cut_last_no_nul acc q : x00 ∉ acc → x00 ∉ q → (x00 ∉ (cut_last acc q).2) ∧ Forall (λ s, x00 ∉ s) (cut_last acc q).1.
Proof.
  revert acc. induction q as [|c q IH]; intros acc Ha Hq; [by split; [|constructor]|].
  apply not_elem_of_cons in Hq as [Hc Hq]. cbn [cut_last]. destruct (is_slash c).
  - destruct (IH [] (not_elem_of_nil _) Hq) as [H1 H2]. split; [done|]. by constructor.
  - apply IH; [|done]. rewrite elem_of_app, list_elem_of_singleton. by intros [?|?].
Qed.

(** The rest of the loop. *)
Lemma scan_run q m i names acc cur :
  heap m !! b = Some (Chars cap (path ++ [x00])) → drop (Z.to_nat i) path = q → 1 ≤ i → x00 ∉ acc →
  queue m head cur names → (length acc ≤ 256)%nat →
  let r := for_up (length q) i (cur, buffer stack names acc, length acc) (scan_char head (At b)) m in
  if fits acc q then
    let '(done, last) := cut_last acc q in
    ∃ cur' m', r = Done (inl (cur', buffer stack (names ++ done) last, length last)) m' ∧
      queue m' head cur' (names ++ done) ∧ stdout m' = stdout m ++ parsed done
  else r = Crash UndefinedBehaviour.
Proof.
  revert m i names acc cur. induction q as [|c q IH]; intros m i names acc cur Hb Hq Hi Hacc Hqu Hl; cbv zeta; cbn [for_up fits cut_last length].
  - exists cur, m. rewrite !app_nil_r. by split_and!.
  - assert (path !! Z.to_nat i = Some c) as Hc by (rewrite <-(Nat.add_0_r (Z.to_nat i)), <-lookup_drop, Hq; done).
    assert (drop (Z.to_nat (i + 1)) path = q) as Hq'.
    { rewrite Z2Nat.inj_add, <-drop_drop, Hq by lia. done. }
    assert (c ≠ x00) as Hnz by (intros ->; apply Hpath; by eapply list_elem_of_lookup_2).
    pose proof (scan_char_run m i c names acc cur Hb Hc Hi Hacc Hqu Hl) as Hstep. cbv zeta in Hstep.
    destruct (is_slash c).
    + destruct (length acc <? 8)%nat; cbn [andb]; [|by rewrite (bind_crash _ _ _ _ Hstep)].
      destruct Hstep as (cur1 & m1 & E1 & Hq1 & Ho1 & Hb1). rewrite (bind_done _ _ _ _ _ E1).
      pose proof (IH m1 (i + 1) (names ++ [acc]) [] cur1 Hb1 Hq' ltac:(lia) (not_elem_of_nil _) Hq1 ltac:(simpl; lia)) as Hrest.
      cbv zeta in Hrest. assert (buffer stack (names ++ [acc]) [] = replicate 256 x00) as Hbuf by (by destruct names).
      rewrite Hbuf in Hrest. destruct (fits [] q); [|exact Hrest]. destruct (cut_last [] q) as [done last]. cbn [fst snd].
      destruct Hrest as (cur2 & m2 & E2 & Hq2 & Ho2). exists cur2, m2. rewrite <-!app_assoc in E2, Hq2. split; [exact E2|].
      split; [exact Hq2|]. rewrite Ho2, Ho1, <-app_assoc. unfold parsed. cbn [map concat]. by rewrite app_nil_r.
    + destruct (Nat.ltb_spec (length acc) 256) as [Hlt|Hge]; cbn [andb]; [|by rewrite (bind_crash _ _ _ _ Hstep)].
      rewrite (bind_done _ _ _ _ _ Hstep).
      assert (length (acc ++ [c]) = S (length acc)) as Hlen by (rewrite length_app; simpl; lia). rewrite <-Hlen.
      apply IH; [exact Hb|exact Hq'|lia| |exact Hqu|lia].
      rewrite elem_of_app, list_elem_of_singleton. by intros [?|?].
Qed.

End scan.

(** ** The whole of it *)
Lemma cut_cut_last acc q : cut acc q = (cut_last acc q).1 ++ [(cut_last acc q).2].
Proof.
  revert acc. induction q as [|c q IH]; intros acc; cbn [cut cut_last]; [done|].
  destruct (is_slash c); [|apply IH]. cbn [fst snd app]. by rewrite IH.
Qed.

Lemma cut_head acc q : ∃ s l, cut acc q = s :: l ∧ (length acc ≤ length s)%nat.
Proof.
  revert acc. induction q as [|c q IH]; intros acc; cbn [cut]; [by exists acc, []|].
  destruct (is_slash c); [by eexists _, _|]. destruct (IH (acc ++ [c])) as (s & l & -> & Hl).
  exists s, l. split; [done|]. rewrite length_app in Hl. lia.
Qed.

Lemma short_fits acc q : Forall (λ s, (length s ≤ 7)%nat) (cut acc q) → fits acc q = true.
Proof.
  revert acc. induction q as [|c q IH]; intros acc; cbn [cut fits]; [done|]. destruct (is_slash c).
  - intros [Ha Hq]%Forall_cons. rewrite IH by done. by rewrite (proj2 (Nat.ltb_lt _ 8)) by lia.
  - intros Hq. rewrite IH by done. destruct (cut_head (acc ++ [c]) q) as (s & l & E & Hl). rewrite E in Hq.
    apply Forall_cons in Hq as [Hs _]. rewrite length_app in Hl. by rewrite (proj2 (Nat.ltb_lt _ 256)) by lia.
Qed.

Lemma long_overflows acc q :
  Exists (λ s, (8 ≤ length s)%nat) (cut acc q) → fits acc q = false ∨ (8 ≤ length (cut_last acc q).2)%nat.
Proof.
  revert acc. induction q as [|c q IH]; intros acc; cbn [cut cut_last fits].
  - intros [?|[]%Exists_nil]%Exists_cons. by right.
  - destruct (is_slash c); cbn [fst snd].
    + intros [Ha|Hq]%Exists_cons; [left; by rewrite (proj2 (Nat.ltb_ge _ 8))|].
      destruct (IH [] Hq) as [->|]; [left; by rewrite andb_false_r|by right].
    + intros Hq. destruct (IH _ Hq) as [->|]; [left; by rewrite andb_false_r|by right].
Qed.

Lemma cut_last_nil acc q last : cut_last acc q = ([], last) → last = acc ++ q ∧ slash ∉ q.
Proof.
  revert acc. induction q as [|c q IH]; intros acc; cbn [cut_last].
  - intros [= ->]. rewrite app_nil_r. split; [done|apply not_elem_of_nil].
  - unfold is_slash. case_bool_decide as Hc; [done|]. intros (-> & Hq)%IH. rewrite <-app_assoc. split; [done|].
    by apply not_elem_of_cons.
Qed.

Lemma scanned_parsed done last :
  scanned (done ++ [last]) = parsed done ++ text "Last Directory/File: " ++ last ++ [newline].
Proof.
  induction done as [|s done IH]; [done|]. cbn [app scanned]. destruct (done ++ [last]) as [|x l] eqn:E.
  - by destruct done.
  - rewrite IH. unfold parsed. cbn [map concat]. by rewrite <-!app_assoc.
Qed.

Lemma string_in_Some a s : string_in a = Some s → (x00 ∉ s) ∧ ∃ rest, a = s ++ x00 :: rest.
Proof.
  unfold string_in. case_bool_decide as Hin; [|done]. intros [= <-]. unfold c_string.
  induction a as [|c a IH]; [by apply not_elem_of_nil in Hin|]. cbn [take_until]. case_bool_decide as Hc.
  - subst c. split; [apply not_elem_of_nil|by exists a].
  - apply elem_of_cons in Hin as [?|Hin]; [congruence|]. destruct (IH Hin) as (Hn & rest & E).
    split; [by apply not_elem_of_cons|]. exists rest. cbn [app]. by f_equal.
Qed.

Lemma string_in_longer l r s : x00 ∉ l → string_in (l ++ r) = Some s → (length l ≤ length s)%nat.
Proof.
  intros Hl (Hs & rest & E)%string_in_Some. destruct (decide (length l ≤ length s)%nat) as [|Hlt]; [done|].
  exfalso. apply Hl. apply (list_elem_of_lookup_2 _ (length s)).
  rewrite <-(lookup_app_l l r) by lia. rewrite E, lookup_app_r, Nat.sub_diag by lia. done.
Qed.

(** Up to the first slash. *)
Lemma createTokens_start stack p m :
  bounded m → ∃ m1, queue m1 (At (brk m)) (At (brk m)) [] ∧ stdout m1 = stdout m ∧
    heap m1 !! S (brk m) = Some (Chars (S (S (length p))) ((slash :: p) ++ [x00])) ∧
    createTokens stack (slash :: p) m =
      (for_up (length p) 1 (At (brk m), stack, O) (scan_char (At (brk m)) (At (S (brk m)))) ≫= finish_tokens (At (brk m))) m1.
Proof.
  intros Hb. set (n := brk m).
  set (m0 := store n (Token Null Null) (store n (Token Null Null) (new_object (Token Null Null) m))).
  set (mA := new_object (Chars (S (S (length p))) ((slash :: p) ++ [x00])) m0).
  set (mB := new_object (Chars 2 []) mA).
  assert (heap (new_object (Token Null Null) m) !! n = Some (Token Null Null)) as H0 by apply lookup_insert_eq.
  assert (heap (store n (Token Null Null) (new_object (Token Null Null) m)) !! n = Some (Token Null Null)) as H0'
    by apply lookup_insert_eq.
  assert (heap mA !! S n = Some (Chars (S (S (length p))) ((slash :: p) ++ [x00]))) as HA by apply lookup_insert_eq.
  assert (heap mB !! n = Some (Token Null Null)) as HB.
  { change (heap mB) with (<[S (S n) := Chars 2 []]> (<[S n := Chars (S (S (length p))) ((slash :: p) ++ [x00])]> (heap m0))).
    rewrite !lookup_insert_ne by lia. apply lookup_insert_eq. }
  exists (store n (Token Literal Null) (store n (Token (At (S (S n))) Null) mB)). split; [|split; [done|split]].
  - split.
    + intros a o. cbn [store heap brk]. change (brk mB) with (S (S (S n))).
      intros [[<- _]|[_ [[<- _]|[_ Ha]]%lookup_insert_Some]]%lookup_insert_Some; [lia..|].
      change (heap mB) with (<[S (S n) := Chars 2 []]> (<[S n := Chars (S (S (length p))) ((slash :: p) ++ [x00])]> (heap m0))) in Ha.
      change (heap m0) with (<[n := Token Null Null]> (<[n := Token Null Null]> (<[n := Token Null Null]> (heap m)))) in Ha.
      rewrite !lookup_insert_Some in Ha. destruct Ha as [[<- _]|[_ [[<- _]|[_ [[<- _]|[_ [[<- _]|[_ [[<- _]|[_ Ha%Hb]]]]]]]]]]; lia.
    + exists [], n, Literal, [slash], n, []. cbn [app map chain first string_of address fst snd].
      split; [split; [apply lookup_insert_eq|done]|]. split; [apply NoDup_singleton|done].
  - change (heap (store n (Token Literal Null) (store n (Token (At (S (S n))) Null) mB))) with
      (<[n := Token Literal Null]> (<[n := Token (At (S (S n))) Null]> (<[S (S n) := Chars 2 []]> (heap mA)))).
    rewrite !lookup_insert_ne by lia. exact HA.
  - unfold createTokens, malloc_token, strdup. rewrite (bind_done _ _ _ _ _ (alloc_run _ _)).
    rewrite (bind_done _ _ _ _ _ (set_next_run _ _ _ _ _ H0)), (bind_done _ _ _ _ _ (set_token_run _ _ _ _ _ H0')).
    rewrite (bind_done _ _ _ _ _ (alloc_run _ _)). change (brk (store n _ (store n _ (new_object _ m)))) with (S n).
    fold m0. fold mA. unfold for_range. rewrite Z.sub_0_r, Nat2Z.id. cbn [length for_up].
    assert (scan_char (At n) (At (S n)) 0 (Null, stack, 0%nat) mA = Done (Continue (At n, stack, 0%nat))
      (store n (Token Literal Null) (store n (Token (At (S (S n))) Null) mB))) as E0; [|by rewrite bind_assoc, (bind_done _ _ _ _ _ E0)].
    unfold scan_char. assert (char_at (At (S n)) 0 mA = Done slash mA) as Hc by (unfold char_at; by rewrite HA).
    rewrite (bind_done _ _ _ _ _ Hc). change ((0 =? 0) && is_slash slash) with true. cbv iota. unfold malloc_chars.
    rewrite (bind_done _ _ _ _ _ (alloc_run _ _)). change (brk mA) with (S (S n)). fold mB.
    rewrite (bind_done _ _ _ _ _ (set_token_run mB _ _ _ _ HB)).
    by rewrite (bind_done _ _ _ _ _ (set_token_run (store n (Token (At (S (S n))) Null) mB) n (At (S (S n))) Null Literal
      (lookup_insert_eq _ _ _))).
Qed.

(** The loop, from there. *)
Lemma scan_all stack p m :
  length stack = 256%nat → x00 ∉ p → bounded m →
  if fits [] p then
    let '(done, last) := cut_last [] p in
    ∃ head cur m', createTokens stack (slash :: p) m = finish_tokens head (inl (cur, buffer stack done last, length last)) m' ∧
      queue m' head cur done ∧ stdout m' = stdout m ++ parsed done ∧ x00 ∉ last
  else createTokens stack (slash :: p) m = Crash UndefinedBehaviour.
Proof.
  intros Hs Hp Hb. destruct (createTokens_start stack p m Hb) as (m1 & Hq1 & Ho1 & Hp1 & ->).
  assert (x00 ∉ slash :: p) as Hpath by (apply not_elem_of_cons; by split).
  pose proof (scan_run stack (slash :: p) (At (brk m)) (S (brk m)) (S (S (length p))) Hs Hpath p m1 1 [] [] (At (brk m))
    Hp1 eq_refl ltac:(lia) (not_elem_of_nil _) Hq1 ltac:(simpl; lia)) as Hrun. cbv zeta in Hrun.
  change (buffer stack [] []) with stack in Hrun. destruct (fits [] p); [|exact (bind_crash _ _ _ _ Hrun)].
  pose proof (proj1 (cut_last_no_nul [] p (not_elem_of_nil _) Hp)) as Hlast.
  destruct (cut_last [] p) as [done last]. destruct Hrun as (cur & m2 & E & Hq2 & Ho2).
  exists (At (brk m)), cur, m2. split; [exact (bind_done _ _ _ _ _ E)|]. split; [exact Hq2|]. split; [by rewrite Ho2, Ho1|exact Hlast].
Qed.

Lemma finish_run stack names last cur head m s :
  queue m head cur names → string_in (buffer stack names last) = Some s → x00 ∉ s →
  let r := finish_tokens head (inl (cur, buffer stack names last, length last)) m in
  if (length s <? 8)%nat then
    ∃ cur' m', r = Done head m' ∧ queue m' head cur' (names ++ [s]) ∧
      stdout m' = stdout m ++ text "Last Directory/File: " ++ s ++ [newline] ++ listed_tokens ([slash] :: names ++ [s])
  else r = Crash UndefinedBehaviour.
Proof.
  intros Hq Hstr Hs r. subst r. unfold finish_tokens, print_name. rewrite Hstr, bind_printf.
  pose proof (add_token_run _ head cur names s _ (queue_print m (text "Last Directory/File: " ++ s ++ [newline]) _ _ _ Hq) Hstr Hs) as Hadd.
  destruct (length s <? 8)%nat; [|exact (bind_crash _ _ _ _ Hadd)].
  destruct Hadd as (cur' & m' & E & Hq' & Hout & _). rewrite (bind_done _ _ _ _ _ E).
  rewrite (bind_done _ _ _ _ _ (print_tokens_run m' head cur' _ Hq')).
  exists cur', (print (listed_tokens ([slash] :: names ++ [s])) m'). split; [done|]. split; [by apply queue_print|].
  cbn [print stdout]. rewrite Hout. cbn [print stdout]. by rewrite <-!app_assoc.
Qed.

(** The last name ends at a NUL. *)
Lemma last_string stack p done last :
  length stack = 256%nat → cut_last [] p = (done, last) → x00 ∉ last → (length last ≤ 7)%nat →
  slash ∈ p ∨ stack !! length p = Some x00 → string_in (buffer stack done last) = Some last.
Proof.
  intros Hs Hcut Hn Hl Hend. unfold buffer. destruct done as [|d done].
  - destruct (cut_last_nil _ _ _ Hcut) as [-> Hns]. cbn [app]. destruct Hend as [?|Hend]; [done|].
    rewrite (drop_S _ _ _ Hend). by apply string_in_nul.
  - rewrite (drop_S _ x00); [by apply string_in_nul|]. apply lookup_replicate_2. lia.
Qed.

(** C28: what [createTokens] makes.  Of a path that starts with "/" whose names
    are of at most 7 characters, it makes the list of the literal "/" and the
    names between the slashes, in the order of the path, an empty name behind a
    slash at the end included, and it prints them - when the path has another
    slash, or the uninitialised array [currentDir] happens to have a NUL behind
    the only name. *)
Theorem createTokens_splits stack p m :
  length stack = 256%nat → x00 ∉ p → bounded m → Forall (λ s, (length s ≤ 7)%nat) (names_of p) →
  slash ∈ p ∨ stack !! length p = Some x00 →
  ∃ head cur m', createTokens stack (slash :: p) m = Done head m' ∧ queue m' head cur (names_of p) ∧
    stdout m' = stdout m ++ scanned (names_of p) ++ listed_tokens ([slash] :: names_of p).
Proof.
  intros Hs Hp Hb Hshort Hend. pose proof (scan_all stack p m Hs Hp Hb) as Hrun. unfold names_of in *.
  rewrite (short_fits _ _ Hshort) in Hrun. rewrite cut_cut_last in *.
  destruct (cut_last [] p) as [done last] eqn:E. cbn [fst snd] in *. destruct Hrun as (head & cur & m1 & -> & Hq & Ho & Hn).
  apply Forall_app in Hshort as [_ Hl]. apply (proj1 (Forall_singleton _ last)) in Hl. cbv beta in Hl.
  pose proof (finish_run stack done last cur head m1 last Hq (last_string _ _ _ _ Hs E Hn Hl Hend) Hn) as Hfin. cbv zeta in Hfin.
  rewrite (proj2 (Nat.ltb_lt (length last) 8)) in Hfin by lia. destruct Hfin as (cur' & m' & Ef & Hq' & Ho').
  exists head, cur', m'. split; [exact Ef|]. split; [exact Hq'|]. by rewrite Ho', Ho, scanned_parsed, <-!app_assoc.
Qed.

(** A name of 8 characters is too long for [createTokens].  The object for
    a name has [sizeof(strlen(...))], 8 bytes; whatever the stack holds, a path
    with a longer name than 7 characters is undefined behaviour, a write behind
    that object at the latest. *)
Lemma createTokens_overflows stack p m :
  length stack = 256%nat → x00 ∉ p → bounded m → Exists (λ s, (8 ≤ length s)%nat) (names_of p) →
  createTokens stack (slash :: p) m = Crash UndefinedBehaviour.
Proof.
  intros Hs Hp Hb Hlong. pose proof (scan_all stack p m Hs Hp Hb) as Hrun.
  destruct (long_overflows [] p Hlong) as [E|Hl]; [by rewrite E in Hrun|]. destruct (fits [] p); [|exact Hrun].
  destruct (cut_last [] p) as [done last]. cbn [fst snd] in *. destruct Hrun as (head & cur & m1 & -> & Hq & _ & Hn).
  destruct (string_in (buffer stack done last)) as [s|] eqn:Es.
  - pose proof (string_in_longer last _ s Hn Es) as Hle. pose proof (proj1 (string_in_Some _ _ Es)) as Hns.
    pose proof (finish_run stack done last cur head m1 s Hq Es Hns) as Hfin. cbv zeta in Hfin.
    by rewrite (proj2 (Nat.ltb_ge _ 8)) in Hfin by lia.
  - unfold finish_tokens, print_name. by rewrite Es.
Qed.

(** [freeTokens] cannot free what [createTokens] made: it frees the literal. *)
Lemma freeTokens_undefined m head cur names : queue m head cur names → freeTokens head m = Crash UndefinedBehaviour.
Proof.
  intros [_ (l & a & t & s & h & rest & Hc & _ & E & -> & _)]. rewrite E in Hc. destruct Hc as (Hh & _).
  unfold freeTokens. rewrite bind_get. cbn [while_true]. rewrite decide_False by done.
  rewrite !bind_assoc, (bind_done _ _ _ _ _ (load_ok _ _ _ _ Hh)).
  by rewrite bind_assoc, (bind_done _ _ _ _ _ (load_ok _ _ _ _ Hh)).
Qed.

End theorems.

(** ** Witnesses *)
Definition empty_memory : memory := Memory ∅ 0 [].
Definition full_stack : list byte := replicate 256 (Byte.byte.of_Z 88).

Lemma empty_bounded : bounded empty_memory.
Proof. intros a o Ha. cbn [empty_memory heap] in Ha. by rewrite lookup_empty in Ha. Qed.

Lemma createTokens_splits_witness :
  ∃ head cur m', createTokens (H := demo_env) full_stack (text "/usr/lib/x") empty_memory = Done head m' ∧
    queue m' head cur [text "usr"; text "lib"; text "x"] ∧
    stdout m' = text "Parsed string: usr" ++ [newline] ++ text "Parsed string: lib" ++ [newline] ++
      text "Last Directory/File: x" ++ [newline] ++ text "Printing Tokens" ++ [newline] ++ text "/ -->usr -->lib -->x -->".
Proof.
  apply (createTokens_splits (EV := demo_env) full_stack (text "usr/lib/x") empty_memory eq_refl).
  - apply (bool_decide_unpack _). by vm_compute.
  - exact empty_bounded.
  - apply (bool_decide_unpack _). by vm_compute.
  - left. apply (bool_decide_unpack _). by vm_compute.
Defined.

Lemma createTokens_overflows_witness :
  createTokens (H := demo_env) full_stack (text "/a/document") empty_memory = Crash UndefinedBehaviour.
Proof.
  apply (createTokens_overflows (EV := demo_env) full_stack (text "a/document") empty_memory eq_refl).
  - apply (bool_decide_unpack _). by vm_compute.
  - exact empty_bounded.
  - apply (bool_decide_unpack _). by vm_compute.
Defined.
