(* ===== verification/Main.v ===== *)
(** * The program's entry (sfs.c, main)

    [main] checks the command line, takes the name of the disk file out of it,
    prepares the state and hands over to FUSE.  libfuse's [fuse_main] is a
    parameter, like what the operating system answers. *)

From S2P Require Export Log DirTheorems.

(** What [main] writes to stderr. *)
Inductive message :=
  | Usage
  | Perror (label : list byte)
  | AboutToCall (diskfile : list byte)
  | FuseReturned (stat : Z).

(** The answers of malloc, fopen, pthread_mutex_init, open, and libfuse. *)
Record platform := Platform {
  pf_malloc : bool;
  pf_fopen : bool;
  pf_mutex_init : Z;
  pf_open : list byte → option world;
  pf_fuse_main : Z → list (option (list byte)) → fuse_operations → sfs_state → Z;
}.

Definition EXIT_SUCCESS : Z := 0.
Definition EXIT_FAILURE : Z := 1.

Definition say (x : message) : M (list message) () := modify (λ l, l ++ [x]).

(** The status the process exits with. *)
Definition sfs_usage : M (list message) Z :=
  say Usage;;
  mret EXIT_SUCCESS.

(** [argv[i][0] == '-'] *)
Definition dash : byte := Byte.byte.of_Z 45.
Definition is_option (argv : list (list byte)) (i : nat) : bool :=
  bool_decide (head (nth i argv []) = Some dash).

(** The first entries of [argv] are the strings [args], the next one is NULL. *)
Definition argv_of (args : list (list byte)) : list (option (list byte)) := map Some args ++ [None].

(** A message before FUSE runs: the context in which [log_msg] looks for the
    log is only valid for the duration of an operation (fuse.h). *)
Definition log_msg_outside {A} : M (list message) A := crash_with UndefinedBehaviour.

(** The state of [main]: no pool and no file system yet. *)
Definition initial_state (w : world) : sfs_state := SfsState false (inl w) None false.

Definition main `{Env} (pf : platform) (args : list (list byte)) : M (list message) Z :=
  let argc := length args in
  let argv := argv_of args in
  if (argc <? 3)%nat || is_option args (argc - 2) || is_option args (argc - 1) then sfs_usage
  else if negb (pf_malloc pf) then say (Perror (text "main calloc"));; mret EXIT_FAILURE
  else
    let diskfile := nth (argc - 2) args [] in
    let argv := <[(argc - 2)%nat := nth (argc - 1) argv None]> argv in
    let argv := <[(argc - 1)%nat := None]> argv in
    let argc := (argc - 1)%nat in
    match log_open (pf_fopen pf) with
    | None => say (Perror (text "logfile"));; mret EXIT_FAILURE
    | Some logfile =>
        (* a pointer is never below 0, so there is no second test of it *)
        if negb (pf_mutex_init pf =? 0) then say (Perror (text "pthread_mutex_init()"));; mret EXIT_FAILURE
        else
          match pf_open pf diskfile with
          | None =>
              say (Perror (text "open() error; file must exist and be preallocated"));;
              log_msg_outside
          | Some disk =>
              say (AboutToCall diskfile);;
              let fuse_stat := pf_fuse_main pf (Z.of_nat argc) argv sfs_oper (initial_state disk) in
              say (FuseReturned fuse_stat);;
              mret fuse_stat
          end
    end.

(** ** What it does *)

(** A command line: the program, options, the disk file and the mount point. *)
Definition well_called (prog : list byte) (opts : list (list byte)) (disk mnt : list byte) (args : list (list byte)) : Prop :=
  args = prog :: opts ++ [disk; mnt] ∧ head disk ≠ Some dash ∧ head mnt ≠ Some dash.

Lemma last_two (args : list (list byte)) :
  (3 ≤ length args)%nat → ∃ prog opts disk mnt, args = prog :: opts ++ [disk; mnt].
Proof.
  intros Hl. destruct args as [|prog args]; [simpl in Hl; lia|]. destruct args as [|mnt args _] using rev_ind; [simpl in Hl; lia|].
  destruct args as [|disk opts _] using rev_ind; [simpl in Hl; lia|]. exists prog, opts, disk, mnt. by rewrite <-app_assoc.
Qed.

Lemma insert_two {A} (pre : list A) n a b c x y :
  length pre = S n → <[(S (S (S n)) - 1)%nat := y]> (<[(S (S (S n)) - 2)%nat := x]> (pre ++ [a; b; c])) = pre ++ [x; y; c].
Proof.
  intros Hl. change (S (S (S n)) - 2)%nat with (S n). change (S (S (S n)) - 1)%nat with (S (S n)).
  rewrite (insert_app_r_alt pre), Hl, Nat.sub_diag by lia. cbn [list_insert insert].
  rewrite (insert_app_r_alt pre), Hl by lia. by replace (S (S n) - S n)%nat with 1%nat by lia.
Qed.

Section command_line.
  Context (prog : list byte) (opts : list (list byte)) (disk mnt : list byte).
Let args := prog :: opts ++ [disk; mnt].

Lemma args_length : length args = S (S (S (length opts))).
Proof. unfold args. cbn [length]. rewrite length_app. simpl. lia. Qed.

Lemma args_disk : nth (length args - 2) args [] = disk.
Proof.
  rewrite args_length. change (S (S (S (length opts))) - 2)%nat with (S (length opts)). unfold args. cbn [nth].
  by rewrite app_nth2, Nat.sub_diag by lia.
Qed.

Lemma args_mnt : nth (length args - 1) args [] = mnt.
Proof.
  rewrite args_length. change (S (S (S (length opts))) - 1)%nat with (S (S (length opts))). unfold args. cbn [nth].
  rewrite app_nth2 by lia. by replace (S (length opts) - length opts)%nat with 1%nat by lia.
Qed.

(** The disk file is taken out of [argv], and NULL is behind the rest. *)
Lemma argv_rewritten :
  <[(length args - 1)%nat := None]> (<[(length args - 2)%nat := nth (length args - 1) (argv_of args) None]> (argv_of args)) =
  map Some (prog :: opts ++ [mnt]) ++ [None; None].
Proof.
  assert (nth (length args - 1) (argv_of args) None = Some mnt) as ->.
  { unfold argv_of. rewrite app_nth1 by (rewrite length_map, args_length; lia).
    rewrite (nth_indep _ None (Some []) ) by (rewrite length_map, args_length; lia). by rewrite map_nth, args_mnt. }
  rewrite args_length. unfold argv_of, args.
  assert (map Some (prog :: opts ++ [disk; mnt]) ++ [None] = map Some (prog :: opts) ++ [Some disk; Some mnt; None]) as ->
    by (cbn [map app]; by rewrite map_app, <-app_assoc).
  assert (map Some (prog :: opts ++ [mnt]) ++ [None; None] = map Some (prog :: opts) ++ [Some mnt; None; None]) as ->
    by (cbn [map app]; by rewrite map_app, <-app_assoc).
  apply insert_two. by rewrite length_map.
Qed.

End command_line.

(** C30: what [main] does with its arguments.  Without two arguments behind the
    options - the last two must not start with "-" - it prints the usage and
    exits with status 0.  Otherwise it takes the disk file out of [argv] and
    calls [fuse_main] with the program, the options and the mount point, the
    NULL behind them, the table of the operations [sfs_oper], and a state with a free mutex, the opened disk, and no
    pool and no file system yet; the status is what FUSE returned.  When memory,
    the log or the mutex fails, it exits with status 1. *)
Theorem main_outcome `{Env} pf args l :
  ((∃ prog opts disk mnt, well_called prog opts disk mnt args) ∨ main pf args l = Done EXIT_SUCCESS (l ++ [Usage])) ∧
  ∀ prog opts disk mnt, well_called prog opts disk mnt args →
    if negb (pf_malloc pf && pf_fopen pf && (pf_mutex_init pf =? 0))
    then ∃ label, main pf args l = Done EXIT_FAILURE (l ++ [Perror label])
    else match pf_open pf disk with
      | None => main pf args l = Crash UndefinedBehaviour
      | Some w =>
          let stat := pf_fuse_main pf (2 + Z.of_nat (length opts)) (map Some (prog :: opts ++ [mnt]) ++ [None; None]) sfs_oper (initial_state w) in
          main pf args l = Done stat (l ++ [AboutToCall disk; FuseReturned stat])
      end.
Proof.
  split.
  - destruct (decide (3 ≤ length args)%nat) as [(prog & opts & disk & mnt & ->)%last_two|Hlt]; last first.
    { right. unfold main. by rewrite (proj2 (Nat.ltb_lt _ 3)) by lia. }
    destruct (decide (head disk ≠ Some dash ∧ head mnt ≠ Some dash)) as [[H1 H2]|Hn]; [left; by exists prog, opts, disk, mnt|].
    right. unfold main, is_option. rewrite args_disk, args_mnt.
    rewrite (proj2 (Nat.ltb_ge _ 3)) by (rewrite args_length; lia).
    destruct (decide (head disk = Some dash)) as [->|H1]; [by rewrite bool_decide_eq_true_2|].
    destruct (decide (head mnt = Some dash)) as [->|H2]; [by rewrite orb_true_r|tauto].
  - intros prog opts disk mnt (-> & H1 & H2). unfold main, is_option. rewrite argv_rewritten, args_disk, args_mnt, !bool_decide_eq_false_2 by done.
    rewrite (proj2 (Nat.ltb_ge _ 3)) by (rewrite args_length; lia). cbn [orb].
    destruct (pf_malloc pf); cbn [andb negb]; [|by eexists]. unfold log_open. destruct (pf_fopen pf); cbn [andb negb]; [|by eexists].
    destruct (pf_mutex_init pf =? 0); cbn [negb]; [|by eexists]. destruct (pf_open pf disk) as [w|]; [|done].
    replace (Z.of_nat (length (prog :: opts ++ [disk; mnt]) - 1)) with (2 + Z.of_nat (length opts)) by (rewrite args_length; lia).
    cbv zeta. unfold say. run. unfold modify. by rewrite <-app_assoc.
Qed.

(** When the pool of descriptors cannot be made, FUSE is told to end, and
    [sfs_destroy] looks at a field that nobody has set. *)
Lemma failed_pool_then_destroy `{Env} w w' s :
  mu s = false → s_fs s = inl w → sfs_filedescriptor_pool_init w = Done None w' →
  ∃ s', sfs_init s = Done tt s' ∧ sigterm s' = true ∧ sfs_destroy s' = Crash UndefinedBehaviour.
Proof.
  intros Hm Hs Hp. exists (set_mu false (set_sigterm (set_pool None (set_fs (inl w') (set_mu true s))))). split; [|done].
  unfold sfs_init. rewrite lock_run by exact Hm. assert (at_world sfs_filedescriptor_pool_init (set_mu true s) =
    Done None (set_fs (inl w') (set_mu true s))) as E by (unfold at_world, zoom; cbn [set_mu s_fs]; rewrite Hs; cbn [state_disk]; by rewrite Hp).
  by rewrite (bind_done _ _ _ _ _ E).
Qed.

(** ** A witness *)

(** A [fuse_main] that ends with the answer of [getattr] to a path of two
    names, or the number of its arguments. *)
Definition demo_platform : platform :=
  Platform true true 0 (λ _, Some (World 5120 ∅ 0 0 0)) (λ argc _ ops s,
    match fo_getattr ops (text "/a/b") s with
    | Done (r, _) _ => r
    | Crash _ => argc
    end).

Lemma main_outcome_witness :
  main (H := demo_env) demo_platform [text "sfs"; text "-f"; text "disk.img"; text "mnt"] [] =
    Done (- ENOENT) [AboutToCall (text "disk.img"); FuseReturned (- ENOENT)].
Proof.
  refine (proj2 (main_outcome (H := demo_env) demo_platform [text "sfs"; text "-f"; text "disk.img"; text "mnt"] [])
    (text "sfs") [text "-f"] (text "disk.img") (text "mnt") _).
  split; [done|]. by split.
Defined.
